(* ===== verification/_CoqProject ===== *)
-Q . S2P
Prelude.v
Streams.v
Text.v
Like.v
Json.v
JsonCode.v
Floats.v
Arrow.v
Sql.v
Api.v
Batches.v
ArrowConvert.v
ClientCache.v
MetaStore.v
MetaStoreInv.v
MetaStoreAtomic.v
MetaStoreSpec.v
MetaStoreRefine.v
MetaStoreTypes.v
MetaStoreConc.v
TextDebug.v
KubeAuth.v
Traits.v
KubeSecrets.v
RestErrors.v
Rest.v
RestSample.v
RestIsolation.v
RestProps.v
RestAudit.v
RestFlights.v
RestTypeAudit.v
RestResponses.v
Flight.v
FlightProps.v
FlightClient.v
FlightRoundtrip.v
FlightSample.v
Startup.v
Readers.v
S3.v
S3Connect.v
PgVector.v
Postgres.v
Sqlite.v
Http.v
Uri.v
Elastic.v
Milvus.v
Neo4j.v
Redact.v
Observability.v
Connectors.v
ReadOnly.v
Hub.v
Tracing.v
RestStartup.v
Settings.v
Cluster.v
ControllerRest.v
Watchers.v
ControllerCalls.v
History.v
SdkModels.v
Sdk.v
SdkProps.v
SdkFlight.v
SdkFlightProps.v
SdkClient.v
SdkCalls.v
SdkSample.v
Migration.v
MigrationSample.v
Operator.v
Manifests.v
ManifestsProps.v
Applying.v
Projection.v
ProjectionSample.v
OperatorProps.v
