(* ===== verification/Prelude.v ===== *)
(** * Data Connect Hub: a verification library

    The program is a hub through which tenants register connections to data
    sources and read their data. Its parts, and how they interact:

    - the REST service ([services/rest]) stores connections, connection types and
      the registered Flight services in a metadata store, keeps credentials in a
      secret store, and asks Flight services to check connections, test
      credentials and download objects;
    - a Flight service ([services/flight]) serves data over Arrow Flight SQL: its
      middleware authenticates and authorises every call, its handlers look up the
      connection in the metadata store, resolve its credentials in the secret store
      and hand the query to the connector of the connection's type;
    - the metadata store ([libs/pg-meta-store]) keeps JSON documents in PostgreSQL;
    - [libs/kube-utils] reviews tokens and access with the Kubernetes API server and
      keeps secrets there; [libs/commons] holds the shared types; the crates below
      [connectors/] read one kind of data source each, some of them with
      [libs/format-readers];
    - the controller ([dc-controller], in Go) deploys both services from a
      DataConnectService resource, writes their configuration, and brings connections
      and connection types that exist as Secrets and ConfigMaps into the hub through
      the REST service;
    - the SDK ([sdk/python]) is the users' client of the REST and Flight services.

    ** Conventions

    Fallible code returns [result]. Code with effects is a function
    [W -> result E A * W] over a world [W] (the monad [M] of this file), so that the
    state a failed computation leaves is part of its meaning. Traits are classes of
    operations over the world ([Traits]); handlers are defined against them and the
    implementations are instances. Strings are byte strings holding UTF-8, maps are
    finite maps. What is not in the repository is a parameter: the database engine's
    failures, clock and identifiers are the class [Oracle] of [Sql]; the Kubernetes
    API server, the object store, database drivers, Arrow's encodings, gRPC
    transport, JSON merge patches, media types and URLs are variables of the sections that use them, with
    the documented behaviour a theorem needs as named hypotheses.

    ** Files

    - [Prelude]: the monad, reasoning about runs ([steps], [inv_ok]); [Text]: the
      string functions of Rust's library and quoted SQL identifiers; [TextDebug]: Debug output can be read
      back; [Json]: JSON values and serde's conversions; [JsonCode]: a text for every
      JSON value, for examples; [History]: the calls a computation makes, as a list.
    - [Api]: resource types, errors and validations of [libs/commons/src/api], and
      connector configuration.
    - [Sql], [MetaStore]: the tables of [schema/connections.sql], statements that
      may fail before or after taking effect, transactions, and the nineteen
      operations of [store/meta.rs] over them. [MetaStoreInv], [MetaStoreSpec]:
      unique indexes and references hold in every reachable database, tenants are
      isolated, reads are confined. [MetaStoreAtomic]: a request leaves the database
      it found or the one its fault-free run leaves. [MetaStoreRefine]: the
      operations on connections implement an abstract keyed store.
      [MetaStoreTypes]: deleting and listing connection types. [MetaStoreConc]:
      statement interleavings of concurrent transactions under row locks, without
      dangling references or deadlock.
    - [KubeAuth], [KubeSecrets]: [libs/kube-utils]. A cached decision answers for
      the very subject, namespace and resource it was made for; the secret store
      meets the contract of [Traits].
    - [RestErrors], [Rest]: the REST service's error responses, request bodies,
      audits, endpoints, header middleware and routes. [RestIsolation]: no request
      touches another tenant's connections or breaks the store's invariant.
      [RestProps]: compensation and authorisation. [RestAudit], [RestTypeAudit]:
      what audits record. [RestFlights]: one Flight service per connector.
      [RestResponses]: every response's shape. [RestSample]: a concrete world.
    - [Flight]: the Flight service's middleware, registry, actions and handlers.
      [FlightProps]: only authorised calls reach handlers, readers use the tenant's
      secrets, internal details stay inside. [FlightClient], [FlightRoundtrip]: the
      REST service's client, and that credentials, capabilities and download paths
      arrive unchanged. [FlightSample]: a concrete service.
    - [Startup]: the Flight service's configuration, the TLS policy of its
      listener, the accept loop as a transition system with a bounded number of
      handshakes, the registry of connectors and the order of the start-up.
      [RestStartup]: the same of the REST service, and its channels to Flight
      services. [Redact]: what is logged of the configuration. [Observability]: log
      records, the export of traces, metrics and traced streams. [Tracing]: the spans
      of requests and calls, which change neither, and the trace context a call
      carries.
    - [Streams]: the bodies of [try_stream!] as computations that yield batches.
      [Floats]: integer casts and IEEE 754 numbers. [Arrow]: types, arrays and
      batches. [Batches], [ArrowConvert]: columns of database rows and of JSON
      values as arrays ([api/arrow_convert.rs]).
      [ClientCache]: the cache of clients every connector keeps; a reader gets a
      client that was built for its own connection.
    - [Readers]: [libs/format-readers]. A format is detected; the buffers
      of a file are fed to arrow's decoders so that every row is delivered once.
    - [S3], [S3Connect], [Like]: the S3 connector, its clients, and its LIKE matcher
      against the meaning of LIKE.
    - [Postgres], [PgVector], [Sqlite]: the SQL connectors. Reads run in a read-only
      transaction or session, deliver every row, in batches typed by the columns;
      binary vectors are decoded exactly; generated statements name the table asked
      for.
    - [Http], [Elastic], [Milvus], [Uri]: the connectors over HTTP. Paged reads end,
      deliver what was asked for and close what they opened; requests stay below the
      connection's base URI.
    - [Neo4j]: the graph connector, with columns typed by the rows.
    - [Connectors], [Hub]: the connectors behind the Flight service's interface, and the
      service with all of them. [ReadOnly]: with the PostgreSQL, S3, Milvus and URI
      connectors no call changes the data of a source.
    - [Settings]: how the services read their configuration.
    - [Cluster]: unstructured Kubernetes objects and the API as the controller uses it. [ControllerRest], [Watchers]: its client of the REST service
      and the reconcilers that promote ConfigMaps and migrate Secrets.
      [ControllerCalls], [Migration]: the same against the REST service and the
      metadata store, so that a migrated Secret is one creation in the abstract store.
      [MigrationSample]: a concrete cluster.
    - [Operator]: the DataConnectService reconciler; [OperatorProps]: a status that says
      ready was earned, the finalizer waits, a live service is looked at again.
      [Manifests], [ManifestsProps], [Applying]: rendering and applying, where a second
      application writes nothing. [Projection]: the Flight service
      that reads what the controller wrote runs with what the resource asks for and
      enforces the cluster's TLS profile, and the services trace as it says.
      [ProjectionSample]: a concrete resource.
    - [SdkModels], [Sdk]: the SDK's models and REST client. [SdkProps]: what is sent
      again, and how often. [SdkCalls]: every operation reaches the handler it is meant
      for and returns its answer. [SdkFlight], [SdkFlightProps]: the Flight client; a
      query runs once, what is opened is closed, and the service reads the headers and
      the message the client writes. [SdkClient]: the client's addresses.
      [SdkSample]: a concrete client and its corner cases.

    ** Termination and fuel

    Most definitions are structurally recursive. The others take fuel, and the
    theorems about them include that they return:
    - [like_loop]: an iteration consumes pattern or moves the backtracking point
      forward, so [like_fuel], about the product of both lengths, is enough;
    - [decode_chunk]: a round consumes bytes or flushes once, so [chunk_fuel], twice
      the length of the buffer and two more, is enough for decoders that keep
      arrow's documented behaviour;
    - [es_loop], [mv_pages], [mv_chunks]: the loops are bounded by what was asked for
      or by what the server holds, so more than that many rounds are enough; without
      a limit a server can make the pages endless, and the result [None] says so;
    - [_encode_varint] takes a round per seven bits and has one per bit; the attempts of
      [_do_request] are counted down from the retries;
    - [merge_properties] descends a JSON value and takes its size, [row_chunks] the
      length of its list, and [shortest] tries 22 digits, where 17 identify a double.

    ** Limits

    What libraries outside the repository do is a parameter or an operation of a class:
    the transports of HTTP and gRPC, database drivers, arrow's decoders and Parquet
    reader, [chrono], [url], [opendal], [moka] (an entry is present or absent; how
    concurrent initialisers share a result and when entries are evicted is not
    stated), controller-runtime, kustomize, pydantic, httpx and ADBC. Redirects that an
    HTTP client follows by itself are not seen. Actix's and arrow-flight's decoding of
    requests is not modelled: in [Flight] the tickets and commands of Flight SQL are
    their decoded values. [str::to_lowercase] is modelled on ASCII letters, and the
    SDK's delays are rational numbers, without the rounding of floats.

    Not modelled, as sequences of library calls: signals and command lines, CORS headers,
    the controller's process (flags, TLS options of its own servers, the registration of
    watches, the HTTP client that reloads its certificate) and the SDK's conversion to
    pandas. The sample connector, which registers none, the deployment manifests and the
    end-to-end tests are not programs of the hub. *)
From stdpp Require Export base option list strings gmap pretty.
From Stdlib Require Export Ascii.
From Stdlib Require Export Lia.

Declare Scope dch_scope.
Delimit Scope dch_scope with dch.
Open Scope dch_scope.
#[global] Open Scope string_scope.
#[global] Open Scope list_scope.
#[global] Open Scope nat_scope.
#[global] Unset Intuition Negation Unfolding.
#[global] Set Default Goal Selector "1".

Create HintDb dch.

(** ** Results and the effect monad *)

(** Rust's [Result]. *)
Inductive result (E A : Type) : Type :=
| Ok (a : A)
| Err (e : E).
Arguments Ok {E A} a.
Arguments Err {E A} e.

#[global] Instance result_eq_dec `{EqDecision E, EqDecision A} : EqDecision (result E A).
Proof. solve_decision. Defined.

Definition is_ok {E A} (r : result E A) : bool :=
  match r with Ok _ => true | Err _ => false end.

Definition rbind {E A B} (r : result E A) (f : A -> result E B) : result E B :=
  match r with Ok a => f a | Err e => Err e end.

Definition rmap {E A B} (f : A -> B) (r : result E A) : result E B :=
  match r with Ok a => Ok (f a) | Err e => Err e end.

Definition rmap_err {E F A} (f : E -> F) (r : result E A) : result F A :=
  match r with Ok a => Ok a | Err e => Err (f e) end.

(** [Option::ok_or]. *)
Definition ok_or {E A} (o : option A) (e : E) : result E A :=
  match o with Some a => Ok a | None => Err e end.

(** [iter().map(f).collect::<Result<Vec<_>, _>>()]: the first error stops it. *)
Fixpoint rmapM {E A B} (f : A -> result E B) (l : list A) : result E (list B) :=
  match l with
  | [] => Ok []
  | a :: r => rbind (f a) (fun b => rbind (rmapM f r) (fun bs => Ok (b :: bs)))
  end.

(** Why code that may panic stops: a panic, or an error it returns. *)
Inductive failure (E : Type) : Type :=
| Panic
| Fail (e : E).
Arguments Panic {E}.
Arguments Fail {E} e.

(** An operation that panics where it is undefined. *)
Definition or_panic {E A} (o : option A) : result (failure E) A := ok_or o Panic.

(** An effectful, fallible computation over a world [W]: it returns a result
    and the world it leaves behind, whether it failed or not. *)
Definition M (W E A : Type) : Type := W -> result E A * W.

Definition mret {W E A} (a : A) : M W E A := fun w => (Ok a, w).
Definition throw {W E A} (e : E) : M W E A := fun w => (Err e, w).
Definition lift {W E A} (r : result E A) : M W E A := fun w => (r, w).
Definition mseq {W E A B} (m : M W E A) (f : A -> M W E B) : M W E B :=
  fun w => match m w with
           | (Ok a, w') => f a w'
           | (Err e, w') => (Err e, w')
           end.
(** [m.map_err(f)], also what [?] does with a [From] conversion. *)
Definition map_err {W E F A} (f : E -> F) (m : M W E A) : M W F A :=
  fun w => let (r, w') := m w in (rmap_err f r, w').
(** [m.await] whose result is inspected by a [match]. *)
Definition attempt {W E F A} (m : M W E A) : M W F (result E A) :=
  fun w => let (r, w') := m w in (Ok r, w').

Notation "'let?' x ':=' m 'in' k" := (mseq m (fun x => k))
  (at level 10, x name, m at level 100, k at level 200) : dch_scope.
Notation "m ';?' k" := (mseq m (fun _ => k))
  (at level 199, k at level 200, right associativity) : dch_scope.
Notation "'let??' x ':=' m 'in' k" := (rbind m (fun x => k))
  (at level 10, x name, m at level 100, k at level 200) : dch_scope.

(** A loop over a list whose body may fail: the first error stops it. *)
Fixpoint for_each {W E A} (l : list A) (f : A -> M W E unit) : M W E unit :=
  match l with
  | [] => mret tt
  | a :: r => f a ;? for_each r f
  end.

(** ** Tactics *)

Ltac destruct_match :=
  match goal with
  | |- context [match ?x with _ => _ end] =>
      lazymatch x with
      | context [match _ with _ => _ end] => fail
      | _ => let H := fresh "Heq" in destruct x eqn:H
      end
  | H : context [match ?x with _ => _ end] |- _ =>
      lazymatch x with
      | context [match _ with _ => _ end] => fail
      | _ => let H' := fresh "Heq" in destruct x eqn:H'
      end
  end.

Ltac unfold_M := unfold mseq, map_err, attempt, lift, throw, mret in *.

(** ** Relational reasoning on effects

    [steps R m]: every run of [m] relates the world it starts in to the world
    it ends in, whatever the result. With [R] a preorder this is closed under
    the monad's operations, and covers invariants and frame conditions alike. *)
Section Steps.
Context {W : Type} (R : W -> W -> Prop) `{!PreOrder R}.

Definition steps {E A} (m : M W E A) : Prop := forall w, R w (snd (m w)).

Lemma steps_mret {E A} (a : A) : steps (mret (E:=E) a).
Proof. intros w; cbn; reflexivity. Qed.

Lemma steps_throw {E A} (e : E) : steps (throw (A:=A) e).
Proof. intros w; cbn; reflexivity. Qed.

Lemma steps_lift {E A} (r : result E A) : steps (lift r).
Proof. intros w; cbn; reflexivity. Qed.

Lemma steps_mseq {E A B} (m : M W E A) (f : A -> M W E B) :
  steps m -> (forall a, steps (f a)) -> steps (mseq m f).
Proof.
  intros Hm Hf w. unfold mseq. specialize (Hm w).
  destruct (m w) as [[a|e] w']; cbn in *; [|done].
  etransitivity; [exact Hm | apply Hf].
Qed.

(** The continuation only has to step for values that were returned. *)
Lemma steps_bind {E A B} (m : M W E A) (f : A -> M W E B) :
  steps m -> (forall w a w', m w = (Ok a, w') -> steps (f a)) -> steps (mseq m f).
Proof.
  intros Hm Hf w. unfold mseq. specialize (Hm w).
  destruct (m w) as [[a|e] w'] eqn:Hr; cbn in *; [|done].
  etransitivity; [exact Hm | by eapply Hf].
Qed.

Lemma steps_map_err {E F A} (g : E -> F) (m : M W E A) : steps m -> steps (map_err g m).
Proof. intros Hm w. specialize (Hm w). unfold map_err. by destruct (m w). Qed.

Lemma steps_attempt {E F A} (m : M W E A) : steps m -> steps (attempt (F:=F) m).
Proof. intros Hm w. specialize (Hm w). unfold attempt. by destruct (m w). Qed.

Lemma steps_for_each {E A} (l : list A) (f : A -> M W E unit) :
  (forall a, steps (f a)) -> steps (for_each l f).
Proof.
  intros Hf. induction l as [|a l IH]; cbn; [apply steps_mret|].
  apply steps_mseq; auto.
Qed.

Lemma steps_if {E A} (b : bool) (m n : M W E A) :
  steps m -> steps n -> steps (if b then m else n).
Proof. by destruct b. Qed.

Lemma steps_run {E A} (m : M W E A) w r w' : steps m -> m w = (r, w') -> R w w'.
Proof. intros Hm Hr. specialize (Hm w). by rewrite Hr in Hm. Qed.
End Steps.

#[export] Hint Resolve steps_mret steps_throw steps_lift steps_mseq steps_map_err
  steps_attempt steps_for_each steps_if : dch.

(** The errors a computation can fail with. *)
Definition fails_with {W E A} (P : E -> Prop) (m : M W E A) : Prop := forall w e w', m w = (Err e, w') -> P e.

Section Fails.
Context {W E : Type} (P : E -> Prop).

Lemma fails_map_err {F A} (g : F -> E) (m : M W F A) : (forall e, P (g e)) -> fails_with P (map_err g m).
Proof. intros Hg w e w'. unfold map_err. destruct (m w) as [[a|e0] w0]; intros [= <- <-]. apply Hg. Qed.

Lemma fails_mret {A} (a : A) : fails_with P (mret (W := W) a).
Proof. intros w e w' [=]. Qed.

Lemma fails_throw {A} e : P e -> fails_with P (throw (W := W) (A := A) e).
Proof. intros He w e' w' [= <- <-]. done. Qed.

Lemma fails_lift {A} (r : result E A) : (forall e, r = Err e -> P e) -> fails_with P (lift (W := W) r).
Proof. intros Hr w e w' [= -> <-]. by apply Hr. Qed.

Lemma fails_attempt {F A} (m : M W F A) : fails_with P (attempt m).
Proof. intros w e w'. unfold attempt. by destruct (m w). Qed.

Lemma fails_mseq {A B} (m : M W E A) (f : A -> M W E B) :
  fails_with P m -> (forall a, fails_with P (f a)) -> fails_with P (mseq m f).
Proof.
  intros Hm Hf w e w'. unfold mseq. destruct (m w) as [[a|e'] w1] eqn:Hr; [apply Hf|].
  intros [= <- <-]. by eapply Hm.
Qed.

Lemma fails_for_each {A} (l : list A) (f : A -> M W E unit) :
  (forall a, fails_with P (f a)) -> fails_with P (for_each l f).
Proof. intros Hf. induction l as [|a l IH]; cbn [for_each]; [apply fails_mret|by apply fails_mseq]. Qed.
End Fails.

(** A computation that satisfies a postcondition relating start and end. *)
Definition triple {W E A} (P : W -> Prop) (m : M W E A) (Q : result E A -> W -> Prop) : Prop :=
  forall w, P w -> Q (fst (m w)) (snd (m w)).

Lemma triple_mseq {W E A B} (P : W -> Prop) (m : M W E A) (f : A -> M W E B)
    (Q : A -> W -> Prop) (S : result E B -> W -> Prop) :
  triple P m (fun r w => match r with Ok a => Q a w | Err e => S (Err e) w end) ->
  (forall a, triple (Q a) (f a) S) ->
  triple P (mseq m f) S.
Proof.
  intros Hm Hf w HP. specialize (Hm w HP). unfold mseq.
  destruct (m w) as [[a|e] w']; cbn in *; [by apply Hf | done].
Qed.

(** ** Inverting successful runs *)

Lemma mseq_ok {W E A B} (m : M W E A) (f : A -> M W E B) w b w' :
  mseq m f w = (Ok b, w') -> exists a w1, m w = (Ok a, w1) /\ f a w1 = (Ok b, w').
Proof. unfold mseq. destruct (m w) as [[a|e] w1]; naive_solver. Qed.

Lemma mseq_run {W E A B} (m : M W E A) (f : A -> M W E B) w a w1 :
  m w = (Ok a, w1) -> mseq m f w = f a w1.
Proof. unfold mseq. by intros ->. Qed.

Lemma mseq_lift_ok {W E A B} (a : A) (f : A -> M W E B) w : mseq (lift (Ok a)) f w = f a w.
Proof. done. Qed.

Lemma mseq_assoc {W E A B C} (m : M W E A) (f : A -> M W E B) (k : B -> M W E C) w :
  mseq (mseq m f) k w = mseq m (fun a => mseq (f a) k) w.
Proof. unfold mseq. by destruct (m w) as [[] ?]. Qed.

(** Sequencing respects pointwise equality. *)
Lemma mseq_ext {W E A B} (m : M W E A) (f f' : A -> M W E B) w :
  (forall a w, f a w = f' a w) -> mseq m f w = mseq m f' w.
Proof. intros Hf. unfold mseq. by destruct (m w) as [[] ?]. Qed.

Lemma mseq_stop {W E A B} (m : M W E A) (f : A -> M W E B) w e w1 :
  m w = (Err e, w1) -> mseq m f w = (Err e, w1).
Proof. unfold mseq. by intros ->. Qed.

Lemma mseq_cases {W E A B} (m : M W E A) (f : A -> M W E B) w r w' :
  mseq m f w = (r, w') ->
  (exists e, m w = (Err e, w') /\ r = Err e) \/
  (exists a w1, m w = (Ok a, w1) /\ f a w1 = (r, w')).
Proof. unfold mseq. destruct (m w) as [[a|e] w1]; naive_solver. Qed.

Lemma map_err_run {W E F A} (g : E -> F) (m : M W E A) w r w1 :
  m w = (r, w1) -> map_err g m w = (rmap_err g r, w1).
Proof. unfold map_err. by intros ->. Qed.

Lemma map_err_inv {W E F A} (g : E -> F) (m : M W E A) w r w1 :
  map_err g m w = (r, w1) -> exists r', m w = (r', w1) /\ r = rmap_err g r'.
Proof. unfold map_err. destruct (m w) as [r' w']. intros [= <- <-]. eauto. Qed.

Lemma map_err_ok {W E F A} (g : E -> F) (m : M W E A) w a w' :
  map_err g m w = (Ok a, w') -> m w = (Ok a, w').
Proof. unfold map_err. destruct (m w) as [[]]; cbn; naive_solver. Qed.

Lemma lift_ok {W E A} (r : result E A) (w : W) a w' :
  lift r w = (Ok a, w') -> r = Ok a /\ w' = w.
Proof. unfold lift. naive_solver. Qed.

Lemma rmapM_ok {E A B} (f : A -> result E B) l bs :
  rmapM f l = Ok bs <-> Forall2 (fun a b => f a = Ok b) l bs.
Proof.
  revert bs. induction l as [|a l IH]; intros bs; cbn.
  { split; [by intros [= <-]|]. by inversion 1. }
  split.
  - destruct (f a) eqn:Ha, (rmapM f l) eqn:Hl; cbn; intros [= <-]. constructor; [done|]. by apply IH.
  - inversion 1 as [|? b ? bs' Ha Hl]; subst. rewrite Ha. cbn. apply IH in Hl. by rewrite Hl.
Qed.

Lemma rmapM_err {E A B} (f : A -> result E B) l e :
  rmapM f l = Err e -> exists a, a ∈ l /\ f a = Err e.
Proof.
  induction l as [|a l IH]; cbn; [done|]. destruct (f a) eqn:Ha; cbn; cycle 1.
  { intros [= <-]. exists a. split; [by left|done]. }
  destruct (rmapM f l); cbn; [done|]. intros [= <-]. destruct IH as (x & Hx & Hf); [done|].
  exists x. split; [by right|done].
Qed.

Lemma rmapM_total {E A B} (f : A -> result E B) l :
  (forall a, a ∈ l -> exists b, f a = Ok b) -> exists bs, rmapM f l = Ok bs.
Proof.
  intros Hf. destruct (rmapM f l) as [bs|e] eqn:Hl; [by exists bs|].
  apply rmapM_err in Hl as (a & Ha & He). destruct (Hf a Ha). congruence.
Qed.

Lemma ok_or_ok {E A} (o : option A) (e : E) a : ok_or o e = Ok a -> o = Some a.
Proof. destruct o; cbn; naive_solver. Qed.

(** Takes a successful run apart, one bind at a time. *)
Ltac inv_ok :=
  repeat match goal with
  | H : (let _ := _ in _) _ = (Ok _, _) |- _ => cbv zeta in H
  | H : mseq _ _ _ = (Ok _, _) |- _ =>
      let a := fresh "a" in let w := fresh "w" in
      let H1 := fresh "Hrun" in let H2 := fresh "Hrun" in
      apply mseq_ok in H; destruct H as (a & w & H1 & H2)
  | H : map_err _ _ _ = (Ok _, _) |- _ => apply map_err_ok in H
  | H : lift _ _ = (Ok _, _) |- _ =>
      let H' := fresh "Hval" in apply lift_ok in H; destruct H as [H' ->]
  | H : mret _ _ = (Ok _, _) |- _ => unfold mret in H; injection H as <- <-
  | H : throw _ _ = (Ok _, _) |- _ => unfold throw in H; discriminate H
  end.
