(* ===== verification/Streams.v ===== *)
(** Streams written with [async_stream::try_stream!].

    The body of such a stream is a computation that yields batches, may fail with
    [?], and ends; the consumer sees the batches yielded and then, if it failed, the
    error. A loop without a structural bound takes fuel: [None] is a body that has
    not ended yet. The chunking loop that the SQL and graph connectors share is
    defined and specified here. *)
From S2P Require Import Prelude.

(** What was yielded, how the body ended, and the world it left. *)
Definition Gen (W E B A : Type) : Type := W -> list B * option (result E A) * W.

Section Gen.
Context {W E B : Type}.

Definition gret {A} (a : A) : Gen W E B A := fun w => ([], Some (Ok a), w).
Definition glift {A} (r : result E A) : Gen W E B A := fun w => ([], Some r, w).
Definition call {A} (m : M W E A) : Gen W E B A :=
  fun w => let (r, w') := m w in ([], Some r, w').
(** An effect that cannot fail. *)
Definition effect {A} (f : W -> A * W) : Gen W E B A :=
  fun w => let (a, w') := f w in ([], Some (Ok a), w').
Definition yield (b : B) : Gen W E B unit := fun w => ([b], Some (Ok tt), w).
(** The body is still running. *)
Definition diverge {A} : Gen W E B A := fun w => ([], None, w).

Definition gbind {A C} (g : Gen W E B A) (k : A -> Gen W E B C) : Gen W E B C :=
  fun w => match g w with
           | (bs, Some (Ok a), w') =>
               let '(bs', r, w'') := k a w' in (bs ++ bs', r, w'')
           | (bs, Some (Err e), w') => (bs, Some (Err e), w')
           | (bs, None, w') => (bs, None, w')
           end.

(** The elements of a stream whose body ended. *)
Definition items {A} (bs : list B) (r : result E A) : list (result E B) :=
  (Ok <$> bs) ++ match r with Ok _ => [] | Err e => [Err e] end.

Definition try_stream {A} (g : Gen W E B A) (w : W) : option (list (result E B)) * W :=
  let '(bs, r, w') := g w in (items bs <$> r, w').
End Gen.

Notation "'let!' x ':=' g 'in' k" := (gbind g (fun x => k))
  (at level 10, x name, g at level 100, k at level 200) : dch_scope.
Notation "g ';!' k" := (gbind g (fun _ => k))
  (at level 199, k at level 200, right associativity) : dch_scope.

Section GenLemmas.
Context {W E B : Type}.

Lemma gbind_ret {A C} (g : Gen W E B A) (k : A -> Gen W E B C) w bs a w' :
  g w = (bs, Some (Ok a), w') ->
  gbind g k w = (bs ++ (k a w').1.1, (k a w').1.2, (k a w').2).
Proof. intros Hg. unfold gbind. rewrite Hg. by destruct (k a w') as [[??]?]. Qed.

Lemma gbind_err {A C} (g : Gen W E B A) (k : A -> Gen W E B C) w bs e w' :
  g w = (bs, Some (Err e), w') -> gbind g k w = (bs, Some (Err e), w').
Proof. unfold gbind. by intros ->. Qed.

Lemma gbind_lift {A C} (a : A) (k : A -> Gen W E B C) w : gbind (glift (Ok a)) k w = k a w.
Proof. unfold gbind, glift. by destruct (k a w) as [[??]?]. Qed.

Lemma gbind_call_ok {A C} (m : M W E A) (k : A -> Gen W E B C) w a w' :
  m w = (Ok a, w') -> gbind (call m) k w = k a w'.
Proof. intros Hm. unfold gbind, call. rewrite Hm. by destruct (k a w') as [[??]?]. Qed.

Lemma gbind_call_err {A C} (m : M W E A) (k : A -> Gen W E B C) w e w' :
  m w = (Err e, w') -> gbind (call m) k w = ([], Some (Err e), w').
Proof. intros Hm. unfold gbind, call. by rewrite Hm. Qed.

Lemma gbind_effect {A C} (f : W -> A * W) (k : A -> Gen W E B C) w a w' :
  f w = (a, w') -> gbind (effect f) k w = k a w'.
Proof. intros Hf. unfold gbind, effect. rewrite Hf. by destruct (k a w') as [[??]?]. Qed.

Lemma gbind_yield {C} (b : B) (k : unit -> Gen W E B C) w :
  gbind (yield b) k w = (b :: (k tt w).1.1, (k tt w).1.2, (k tt w).2).
Proof. unfold gbind, yield. by destruct (k tt w) as [[??]?]. Qed.

Lemma gbind_assoc {A C F} (g : Gen W E B A) (k : A -> Gen W E B C) (h : C -> Gen W E B F) w :
  gbind (gbind g k) h w = gbind g (fun a => gbind (k a) h) w.
Proof.
  unfold gbind. destruct (g w) as [[bs [[a|e]|]] w1]; [|done..].
  destruct (k a w1) as [[bs1 [[c|e]|]] w2]; [|done..].
  destruct (h c w2) as [[bs2 r] w3]. by rewrite app_assoc.
Qed.

(** Every ending of a sequence. *)
Lemma gbind_inv {A C} (g : Gen W E B A) (k : A -> Gen W E B C) w bs r w' :
  gbind g k w = (bs, r, w') ->
  (exists a bs1 w1 bs2, g w = (bs1, Some (Ok a), w1) /\ k a w1 = (bs2, r, w') /\ bs = bs1 ++ bs2) \/
  (exists e, g w = (bs, Some (Err e), w') /\ r = Some (Err e)) \/
  (g w = (bs, None, w') /\ r = None).
Proof.
  unfold gbind. destruct (g w) as [[bs1 [[a|e]|]] w1]; [|naive_solver..].
  destruct (k a w1) as [[bs2 r2] w2] eqn:Hk. intros [= <- <- <-]. left. eauto 8.
Qed.

(** [P] holds before; [I] after, however the body ends; and [Q] of what it returns. *)
Definition gtriple {A} (P : W -> Prop) (g : Gen W E B A) (Q : A -> W -> Prop) (I : W -> Prop) : Prop :=
  forall w, P w -> I (g w).2 /\ forall a, (g w).1.2 = Some (Ok a) -> Q a (g w).2.

Lemma gtriple_bind {A C} (g : Gen W E B A) (k : A -> Gen W E B C) P Q R I :
  gtriple P g Q I -> (forall a, gtriple (Q a) (k a) R I) -> gtriple P (gbind g k) R I.
Proof.
  intros Hg Hk w HP. destruct (Hg w HP) as [HI HQ]. unfold gbind.
  destruct (g w) as [[bs [[a|e]|]] w']; [|done..]. cbn in HQ.
  destruct (Hk a w' (HQ a eq_refl)) as [HI' HR]. by destruct (k a w') as [[??]?].
Qed.

Lemma gtriple_call {A} (m : M W E A) (P : W -> Prop) Q (I : W -> Prop) :
  (forall w r w', P w -> m w = (r, w') -> I w' /\ forall a, r = Ok a -> Q a w') -> gtriple P (call m) Q I.
Proof.
  intros Hm w HP. unfold call. destruct (m w) as [r w'] eqn:Hr. destruct (Hm w r w' HP Hr) as [HI HQ].
  cbn. split; [done|]. intros a [= ->]. by apply HQ.
Qed.

Lemma gtriple_effect {A} (f : W -> A * W) (P : W -> Prop) Q (I : W -> Prop) :
  (forall w, P w -> I (f w).2 /\ Q (f w).1 (f w).2) -> gtriple P (effect f) Q I.
Proof.
  intros Hf w HP. unfold effect. destruct (Hf w HP) as [HI HQ]. destruct (f w) as [a w']. cbn in *.
  split; [done|]. by intros ? [= <-].
Qed.
End GenLemmas.

(** ** Chunks *)

Section Chunked.
Context {W E Row B : Type}.
Variable to_batch : list Row -> result E B.
Variable batch_size : nat.

(** Rows are collected until [batch_size] of them are there; what is left over
    when the rows end is returned. *)
Fixpoint chunk_loop (rows : list (result E Row)) (chunk : list Row) : Gen W E B (list Row) :=
  match rows with
  | [] => gret chunk
  | row :: rows =>
      let! row := glift row in
      let chunk := chunk ++ [row] in
      if batch_size <=? length chunk
      then let! b := glift (to_batch chunk) in yield b ;! chunk_loop rows []
      else chunk_loop rows chunk
  end.

Definition chunked (rows : list (result E Row)) : Gen W E B unit :=
  let! chunk := chunk_loop rows [] in
  match chunk with
  | [] => gret tt
  | _ => let! b := glift (to_batch chunk) in yield b
  end.

(** A chunk holds [batch_size] rows, and at least one. *)
Definition chunk_size : nat := Nat.max 1 batch_size.

(** [full]: chunks of exactly that size. *)
Definition full (chunks : list (list Row)) : Prop := Forall (fun c => length c = chunk_size) chunks.

(** The batches [bs] were built from [chunks], in order. *)
Definition built (chunks : list (list Row)) (bs : list B) : Prop :=
  Forall2 (fun c b => to_batch c = Ok b) chunks bs.

(** How a run over [rows] ends: either all rows were read and only the last chunk
    may be short; or a row could not be read, or a chunk not converted, and every
    batch before holds the rows before, in full chunks. *)
Inductive delivered (rows : list (result E Row)) : list B -> result E unit -> Prop :=
| delivered_all chunks rest bs :
    full chunks -> length rest < chunk_size ->
    rows = Ok <$> concat chunks ++ rest ->
    built (chunks ++ (if decide (rest = []) then [] else [rest])) bs ->
    delivered rows bs (Ok tt)
| delivered_row_error chunks rest bs e tail :
    full chunks -> length rest < chunk_size -> built chunks bs ->
    rows = (Ok <$> concat chunks ++ rest) ++ Err e :: tail ->
    delivered rows bs (Err e)
| delivered_batch_error chunks rest bs e tail :
    full chunks -> 0 < length rest <= chunk_size -> built chunks bs ->
    rows = (Ok <$> concat chunks ++ rest) ++ tail -> to_batch rest = Err e ->
    delivered rows bs (Err e).

Lemma delivered_cons c b rows bs r :
  length c = chunk_size -> to_batch c = Ok b -> delivered rows bs r ->
  delivered ((Ok <$> c) ++ rows) (b :: bs) r.
Proof.
  intros Hc Hb [cs rest ? Hf Hlt -> Hbs|cs rest ? e tail Hf Hlt Hbs ->|cs rest ? e tail Hf Hlt Hbs -> He].
  - eapply (delivered_all _ (c :: cs)); [by constructor|done| |by constructor].
    cbn. by rewrite !fmap_app, <- !app_assoc.
  - eapply (delivered_row_error _ (c :: cs)); [by constructor|done|by constructor|].
    cbn. by rewrite !fmap_app, <- !app_assoc.
  - eapply (delivered_batch_error _ (c :: cs)); [by constructor|done|by constructor| |done].
    cbn. by rewrite !fmap_app, <- !app_assoc.
Qed.

(** The loop, from a chunk that is not full yet. *)
Lemma chunk_loop_ends rows chunk w :
  length chunk < chunk_size ->
  exists bs r, chunk_loop rows chunk w = (bs, Some r, w) /\
    match r with
    | Ok rest =>
        exists chunks, full chunks /\ length rest < chunk_size /\ built chunks bs /\
          (Ok <$> chunk) ++ rows = Ok <$> concat chunks ++ rest
    | Err e => delivered ((Ok <$> chunk) ++ rows) bs (Err e)
    end.
Proof.
  revert chunk. induction rows as [|[row|e] rows IH]; intros chunk Hc; cbn [chunk_loop].
  - exists [], (Ok chunk). split; [done|]. exists []. rewrite app_nil_r. by repeat constructor.
  - rewrite gbind_lift. cbv zeta.
    assert (Hl : length (chunk ++ [row]) = S (length chunk)) by (rewrite length_app; cbn; lia).
    assert (Hr : (Ok <$> chunk) ++ Ok row :: rows = (Ok <$> chunk ++ [row]) ++ rows)
      by (by rewrite fmap_app, <- app_assoc).
    rewrite Hr. destruct (Nat.leb_spec batch_size (length (chunk ++ [row]))) as [Hn|Hn].
    + assert (Hs : length (chunk ++ [row]) = chunk_size) by (unfold chunk_size in *; lia).
      destruct (to_batch (chunk ++ [row])) as [b|e] eqn:Hb.
      * rewrite gbind_lift, gbind_yield.
        destruct (IH []) as (bs & r & -> & Hr'); [cbn; unfold chunk_size; lia|]. cbn.
        exists (b :: bs), r. split; [done|]. destruct r as [rest|e].
        -- destruct Hr' as (cs & Hf & Hlt & Hbs & Hrows). cbn in Hrows. subst rows.
           exists ((chunk ++ [row]) :: cs). split_and!; [by constructor|done|by constructor|].
           cbn. by rewrite !fmap_app, <- !app_assoc.
        -- by apply delivered_cons.
      * exists [], (Err e). split; [done|].
        eapply (delivered_batch_error _ [] (chunk ++ [row])); [constructor|lia|constructor|done|done].
    + destruct (IH (chunk ++ [row])) as (bs & r & -> & Hr'); [unfold chunk_size in *; lia|].
      by exists bs, r.
  - exists [], (Err e). split; [done|].
    eapply (delivered_row_error _ [] chunk); [constructor|done|constructor|done].
Qed.

(** The stream always ends, leaves the world alone, and delivers the rows. *)
Lemma chunked_ends rows w :
  exists bs r, chunked rows w = (bs, Some r, w) /\ delivered rows bs r.
Proof.
  destruct (chunk_loop_ends rows [] w) as (bs & r & Hl & Hr); [cbn; unfold chunk_size; lia|].
  unfold chunked. destruct r as [rest|e]; cycle 1.
  { exists bs, (Err e). by rewrite (gbind_err _ _ _ _ _ _ Hl). }
  rewrite (gbind_ret _ _ _ _ _ _ Hl). destruct Hr as (cs & Hf & Hlt & Hbs & Hrows). cbn in Hrows.
  destruct rest as [|x rest].
  { cbn. rewrite app_nil_r. exists bs, (Ok tt). split; [done|].
    eapply delivered_all; [done|done|exact Hrows|]. by rewrite app_nil_r. }
  destruct (to_batch (x :: rest)) as [b|e] eqn:Hb; cbn; eexists _, _; (split; [reflexivity|]).
  - eapply delivered_all; [done|done|exact Hrows|].
    apply Forall2_app; [done|]. by repeat constructor.
  - rewrite app_nil_r. eapply delivered_batch_error; [done| |done| |done]; [cbn in *; lia|].
    by rewrite app_nil_r.
Qed.

(** It only converts and yields. *)
Lemma chunked_keeps rows P I : (forall w, P w -> I w) -> gtriple P (chunked rows) (fun _ => P) I.
Proof. intros HPI w HP. destruct (chunked_ends rows w) as (bs & r & -> & _). cbn. auto. Qed.
End Chunked.
