(* ===== verification/Text.v ===== *)
(** The operations of Rust's [str] and [String] the program uses, on byte
    strings read as UTF-8, with the lemmas its components share, and the SQL identifiers
    the connectors put into the statements they generate. *)
From S2P Require Import Prelude.

(** ** Bytes *)

Definition byte_in (lo hi : nat) (a : ascii) : bool :=
  (lo <=? nat_of_ascii a) && (nat_of_ascii a <=? hi).

(** [u8::to_ascii_lowercase]. *)
Definition lower_ascii (a : ascii) : ascii :=
  if byte_in 65 90 a then ascii_of_nat (nat_of_ascii a + 32) else a.

Fixpoint string_map (f : ascii -> ascii) (s : string) : string :=
  match s with
  | EmptyString => EmptyString
  | String a r => String (f a) (string_map f r)
  end.

Fixpoint string_all (p : ascii -> bool) (s : string) : bool :=
  match s with
  | EmptyString => true
  | String a r => p a && string_all p r
  end.

(** [str::to_ascii_lowercase]. *)
Definition to_ascii_lowercase : string -> string := string_map lower_ascii.

(** [String::from_utf8]: the byte sequences of RFC 3629. *)
Definition continuation : ascii -> bool := byte_in 128 191.

Definition second_of_three (a b : ascii) : bool :=
  if byte_in 224 224 a then byte_in 160 191 b
  else if byte_in 237 237 a then byte_in 128 159 b
  else byte_in 225 239 a && continuation b.

Definition second_of_four (a b : ascii) : bool :=
  if byte_in 240 240 a then byte_in 144 191 b
  else if byte_in 244 244 a then byte_in 128 143 b
  else byte_in 241 243 a && continuation b.

Fixpoint utf8_valid (s : string) : bool :=
  match s with
  | EmptyString => true
  | String a r =>
      if byte_in 0 127 a then utf8_valid r
      else match r with
      | EmptyString => false
      | String b r2 =>
          if byte_in 194 223 a then continuation b && utf8_valid r2
          else match r2 with
          | EmptyString => false
          | String c r3 =>
              if byte_in 224 239 a then second_of_three a b && continuation c && utf8_valid r3
              else match r3 with
              | EmptyString => false
              | String d r4 => second_of_four a b && continuation c && continuation d && utf8_valid r4
              end
          end
      end
  end.

Definition from_utf8 (s : string) : option string := if utf8_valid s then Some s else None.

Definition is_empty (s : string) : bool :=
  match s with EmptyString => true | _ => false end.

(** ** Searching *)

(** [str::strip_prefix]. *)
Fixpoint strip_prefix (p s : string) : option string :=
  match p, s with
  | EmptyString, _ => Some s
  | String a p', String b s' => if Ascii.eqb a b then strip_prefix p' s' else None
  | String _ _, EmptyString => None
  end.

Definition starts_with (p s : string) : bool :=
  match strip_prefix p s with Some _ => true | None => false end.

(** [str::contains], with the needle first. *)
Fixpoint contains (n s : string) : bool :=
  starts_with n s ||
  match s with EmptyString => false | String _ r => contains n r end.

Fixpoint string_rev (acc s : string) : string :=
  match s with
  | EmptyString => acc
  | String a r => string_rev (String a acc) r
  end.

Definition ends_with (p s : string) : bool :=
  starts_with (string_rev "" p) (string_rev "" s).

(** ** Headers *)

(** [HeaderValue::to_str]: visible ASCII and tabs only. *)
Definition header_to_str (v : string) : option string :=
  if string_all (fun a => byte_in 32 126 a || byte_in 9 9 a) v then Some v else None.

(** ** Splitting and joining *)

(** [str::split] on an ASCII character: never empty. *)
Fixpoint split (c : ascii) (s : string) : list string :=
  match s with
  | EmptyString => [""]
  | String a r =>
      if Ascii.eqb a c then "" :: split c r
      else match split c r with
           | [] => [String a ""]
           | h :: t => String a h :: t
           end
  end.

(** [str::split_once] on an ASCII character. *)
Fixpoint split_once (c : ascii) (s : string) : option (string * string) :=
  match s with
  | EmptyString => None
  | String a r =>
      if Ascii.eqb a c then Some ("", r)
      else match split_once c r with
           | Some (h, t) => Some (String a h, t)
           | None => None
           end
  end.

(** [str::rsplit_once] on an ASCII character. *)
Fixpoint rsplit_once (c : ascii) (s : string) : option (string * string) :=
  match s with
  | EmptyString => None
  | String a r =>
      match rsplit_once c r with
      | Some (h, t) => Some (String a h, t)
      | None => if Ascii.eqb a c then Some ("", r) else None
      end
  end.

(** [str::trim_start_matches] of one character. *)
Fixpoint trim_start_char (c : ascii) (s : string) : string :=
  match s with
  | String a r => if Ascii.eqb a c then trim_start_char c r else s
  | EmptyString => EmptyString
  end.

(** [<[String]>::join]. *)
Fixpoint join (sep : string) (l : list string) : string :=
  match l with
  | [] => ""
  | [s] => s
  | s :: r => s +:+ sep +:+ join sep r
  end.

(** ** Trimming

    [str::trim] removes the characters of Unicode's White_Space property; they
    are recognised here by their UTF-8 encodings. *)

Definition is_ws1 (a : ascii) : bool := byte_in 9 13 a || byte_in 32 32 a.

(** Two-byte white space: U+0085 and U+00A0. *)
Definition is_ws2 (a b : ascii) : bool :=
  byte_in 194 194 a && (byte_in 133 133 b || byte_in 160 160 b).

(** Three-byte white space: U+1680, U+2000..U+200A, U+2028, U+2029, U+202F,
    U+205F and U+3000. *)
Definition is_ws3 (a b c : ascii) : bool :=
  (byte_in 225 225 a && byte_in 154 154 b && byte_in 128 128 c)
  || (byte_in 226 226 a && byte_in 128 128 b
      && (byte_in 128 138 c || byte_in 168 169 c || byte_in 175 175 c))
  || (byte_in 226 226 a && byte_in 129 129 b && byte_in 159 159 c)
  || (byte_in 227 227 a && byte_in 128 128 b && byte_in 128 128 c).

(** The same loop serves both ends: [w2] and [w3] see the bytes in the order
    the loop meets them. *)
Fixpoint drop_ws (w2 : ascii -> ascii -> bool) (w3 : ascii -> ascii -> ascii -> bool)
    (s : string) : string :=
  match s with
  | EmptyString => EmptyString
  | String a r =>
      if is_ws1 a then drop_ws w2 w3 r
      else match r with
           | EmptyString => s
           | String b r2 =>
               if w2 a b then drop_ws w2 w3 r2
               else match r2 with
                    | EmptyString => s
                    | String c r3 => if w3 a b c then drop_ws w2 w3 r3 else s
                    end
           end
  end.

Definition trim_start (s : string) : string := drop_ws is_ws2 is_ws3 s.
Definition trim_end (s : string) : string :=
  string_rev "" (drop_ws (fun a b => is_ws2 b a) (fun a b c => is_ws3 c b a) (string_rev "" s)).
Definition trim (s : string) : string := trim_end (trim_start s).

(** ** Decimal and Debug output *)

(** [format!("{n}")] of an unsigned integer. *)
Definition show_nat (n : nat) : string := pretty (N.of_nat n).

Definition hex_digit (n : nat) : ascii :=
  ascii_of_nat (if n <? 10 then 48 + n else 87 + n).

Definition dquote : ascii := ascii_of_nat 34.
Definition backslash : ascii := ascii_of_nat 92.

(** One byte of [format!("{:?}", s)] for a string: the ASCII escapes of
    [char::escape_debug]; a byte of a (printable) non-ASCII character is copied. *)
Definition escape_byte (a : ascii) : string :=
  let n := nat_of_ascii a in
  if n =? 34 then String backslash (String dquote "")
  else if n =? 92 then String backslash (String backslash "")
  else if n =? 9 then String backslash "t"
  else if n =? 10 then String backslash "n"
  else if n =? 13 then String backslash "r"
  else if n =? 0 then String backslash "0"
  else if (n <? 16) then String backslash ("u{" +:+ String (hex_digit n) "}")
  else if (n <? 32) || (n =? 127)
  then String backslash ("u{" +:+ String (hex_digit (n / 16)) (String (hex_digit (n mod 16)) "}"))
  else String a "".

Fixpoint escape_debug (s : string) : string :=
  match s with
  | EmptyString => ""
  | String a r => escape_byte a +:+ escape_debug r
  end.

(** [format!("{:?}", s)] for a string, and for a [Vec<String>]. *)
Definition debug_str (s : string) : string :=
  String dquote (escape_debug s +:+ String dquote "").
Definition debug_list (l : list string) : string :=
  "[" +:+ join ", " (debug_str <$> l) +:+ "]".

(** The character [c] does not occur in [s]. *)
Definition no_char (c : ascii) (s : string) : bool :=
  string_all (fun a => negb (Ascii.eqb a c)) s.

(** [str::parse::<i32>]: a sign at most, then digits; out of range is an error. *)
Fixpoint parse_digits (acc : Z) (s : string) : option Z :=
  match s with
  | EmptyString => Some acc
  | String a r =>
      if byte_in 48 57 a then parse_digits (acc * 10 + (Z.of_nat (nat_of_ascii a) - 48))%Z r else None
  end.

Definition parse_signed (s : string) : option Z :=
  match s with
  | EmptyString => None
  | String a r =>
      if Ascii.eqb a "-" then (if is_empty r then None else Z.opp <$> parse_digits 0 r)
      else if Ascii.eqb a "+" then (if is_empty r then None else parse_digits 0 r)
      else parse_digits 0 s
  end.

Definition parse_i32 (s : string) : option Z :=
  z ← parse_signed s; if ((- 2 ^ 31 <=? z) && (z <? 2 ^ 31))%Z then Some z else None.

(** ** Lemmas *)

Lemma sapp_cons a s t : String a s +:+ t = String a (s +:+ t).
Proof. reflexivity. Qed.

Lemma scons_inj a b s t : String a s = String b t -> a = b /\ s = t.
Proof. by intros [= -> ->]. Qed.

Lemma sapp_nil_l s : "" +:+ s = s.
Proof. reflexivity. Qed.

Lemma sapp_assoc (s t u : string) : (s +:+ t) +:+ u = s +:+ (t +:+ u).
Proof. induction s as [|a s IH]; [done|]. by rewrite !sapp_cons, IH. Qed.

Lemma sapp_nil_r s : s +:+ "" = s.
Proof. induction s as [|a s IH]; [done|]. by rewrite sapp_cons, IH. Qed.

Lemma sapp_inj (p s t : string) : p +:+ s = p +:+ t -> s = t.
Proof. induction p as [|a p IH]; [done|]. rewrite !sapp_cons. intros [= ?]; auto. Qed.

Lemma rev_app s : forall acc t, string_rev acc (s +:+ t) = string_rev (string_rev acc s) t.
Proof. induction s as [|a s IH]; intros acc t; [done|]. rewrite sapp_cons. cbn. apply IH. Qed.

Lemma rev_rev s : forall acc t, string_rev acc (string_rev t s) = string_rev (s +:+ acc) t.
Proof.
  induction s as [|a s IH]; intros acc t; [done|]. cbn [string_rev]. rewrite IH, sapp_cons. done.
Qed.

Lemma string_all_app p s t : string_all p (s +:+ t) = string_all p s && string_all p t.
Proof.
  induction s as [|a s IH]; [done|]. rewrite sapp_cons. cbn. rewrite IH.
  by destruct (p a).
Qed.

Lemma no_char_cons c a s : no_char c (String a s) = negb (Ascii.eqb a c) && no_char c s.
Proof. reflexivity. Qed.

Lemma no_char_app c s t : no_char c (s +:+ t) = no_char c s && no_char c t.
Proof. apply string_all_app. Qed.

Lemma strip_prefix_spec p s r : strip_prefix p s = Some r <-> s = p +:+ r.
Proof.
  revert s; induction p as [|a p IH]; intros s; cbn [strip_prefix].
  { rewrite sapp_nil_l. naive_solver. }
  destruct s as [|b s]; [done|].
  rewrite sapp_cons. destruct (Ascii.eqb_spec a b); [|naive_solver].
  subst. rewrite IH. naive_solver.
Qed.

Lemma starts_with_spec p s : starts_with p s = true <-> exists r, s = p +:+ r.
Proof.
  unfold starts_with. destruct (strip_prefix p s) eqn:E.
  - apply strip_prefix_spec in E. naive_solver.
  - split; [done|]. intros [r Hr]. apply strip_prefix_spec in Hr. congruence.
Qed.

Lemma starts_with_app p s : starts_with p (p +:+ s) = true.
Proof. apply starts_with_spec. eauto. Qed.

(** [contains] is substring search. *)
Lemma contains_spec n s : contains n s = true <-> exists a b, s = a +:+ n +:+ b.
Proof.
  induction s as [|x s IH]; cbn [contains]; rewrite orb_true_iff, starts_with_spec.
  - split; [intros [[r ->]|]; [by exists "", r|done]|].
    intros (a & b & H). left. exists b.
    destruct a; [done|]. rewrite sapp_cons in H; done.
  - rewrite IH. split.
    + intros [[r Hr]|(a & b & ->)]; [exists "", r; done | by exists (String x a), b].
    + intros ([|y a] & b & H); [left; eauto|].
      rewrite sapp_cons in H. injection H as -> ->. right; eauto.
Qed.

Lemma split_no_char c s : no_char c s = true -> split c s = [s].
Proof.
  induction s as [|a s IH]; [done|]. rewrite no_char_cons. cbn.
  destruct (Ascii.eqb a c); cbn; [done|]. intros H. by rewrite IH.
Qed.

Lemma split_app c s t : no_char c s = true -> split c (s +:+ String c t) = s :: split c t.
Proof.
  induction s as [|a s IH].
  - intros _. rewrite sapp_nil_l. cbn. by rewrite Ascii.eqb_refl.
  - rewrite no_char_cons, sapp_cons. cbn.
    destruct (Ascii.eqb a c); cbn; [done|]. intros H. by rewrite IH.
Qed.

(** Splitting undoes joining when no piece holds the separator. *)
Lemma split_join c l :
  l <> [] -> forallb (no_char c) l = true -> split c (join (String c "") l) = l.
Proof.
  induction l as [|s [|t l] IH]; [done|..]; intros _; cbn [forallb].
  - rewrite andb_true_r. apply split_no_char.
  - rewrite andb_true_iff. intros [Hs Hl].
    change (join (String c "") (s :: t :: l))
      with (s +:+ String c (join (String c "") (t :: l))).
    rewrite split_app by done. by rewrite IH.
Qed.

Lemma split_once_app c s t :
  no_char c s = true -> split_once c (s +:+ String c t) = Some (s, t).
Proof.
  induction s as [|a s IH].
  - intros _. rewrite sapp_nil_l. cbn. by rewrite Ascii.eqb_refl.
  - rewrite no_char_cons, sapp_cons. cbn.
    destruct (Ascii.eqb a c); cbn; [done|]. intros H. by rewrite IH.
Qed.

Lemma split_once_none c s : no_char c s = true -> split_once c s = None.
Proof.
  induction s as [|a s IH]; [done|]. rewrite no_char_cons. cbn.
  destruct (Ascii.eqb a c); cbn; [done|]. intros H. by rewrite IH.
Qed.

(** The text after the last occurrence of a character. *)
Lemma rsplit_once_spec c s h t :
  rsplit_once c s = Some (h, t) <-> s = h +:+ String c t /\ no_char c t = true.
Proof.
  assert (Hnone : forall s, rsplit_once c s = None <-> no_char c s = true).
  { induction s0 as [|a s0 IH]; [done|]. rewrite no_char_cons. cbn [rsplit_once].
    destruct (rsplit_once c s0) as [[]|] eqn:He.
    - split; [done|]. intros [_ Hs]%andb_prop. apply IH in Hs. done.
    - rewrite (proj1 IH eq_refl). destruct (Ascii.eqb a c); done. }
  revert h t. induction s as [|a s IH]; intros h t; cbn [rsplit_once].
  { split; [done|]. intros [He _]. by destruct h. }
  destruct (rsplit_once c s) as [[h' t']|] eqn:He.
  - specialize (proj1 (IH h' t') eq_refl) as [-> Ht']. split.
    + by intros [= <- <-].
    + intros [Hs Ht]. destruct h as [|b h].
      * injection Hs as <- <-. rewrite no_char_app, no_char_cons, Ascii.eqb_refl in Ht. by rewrite andb_false_r in Ht.
      * injection Hs as <- Hs. assert (Some (h', t') = Some (h, t)) as [= -> ->]; [|done].
        by apply IH.
  - apply Hnone in He as Hc. destruct (Ascii.eqb_spec a c) as [->|Hne].
    + split; [by intros [= <- <-]|]. intros [Hs Ht]. destruct h as [|b h]; [by injection Hs as <-|].
      injection Hs as <- ->. rewrite no_char_app, no_char_cons, Ascii.eqb_refl in Hc. by rewrite andb_false_r in Hc.
    + split; [done|]. intros [Hs Ht]. destruct h as [|b h]; injection Hs as -> Hs; [done|].
      subst s. rewrite no_char_app, no_char_cons, Ascii.eqb_refl in Hc. by rewrite andb_false_r in Hc.
Qed.

Lemma parse_i32_range s z : parse_i32 s = Some z -> (- 2 ^ 31 <= z < 2 ^ 31)%Z.
Proof.
  unfold parse_i32. destruct (parse_signed s) as [y|]; cbn; [|done].
  destruct (_ && _)%Z eqn:Hr; [|done]. intros [= <-]. apply andb_prop in Hr as [?%Z.leb_le ?%Z.ltb_lt]. lia.
Qed.

(** * SQL identifiers *)

(** [s.replace(c, r)] for a one-character pattern. *)
Fixpoint replace_char (c : ascii) (r : string) (s : string) : string :=
  match s with
  | "" => ""
  | String a s => (if Ascii.eqb a c then r else String a "") +:+ replace_char c r s
  end.

(** A name between quotes, its own quotes doubled. *)
Definition quote_ident (name : string) : string :=
  String dquote (replace_char dquote (String dquote (String dquote "")) name +:+ String dquote "").

(** ** Reading a quoted identifier back *)

(** The rest of a quoted identifier, after its opening quote: two quotes stand for
    one, and one ends it. The identifier and what follows it. *)
Fixpoint lex_quoted (s : string) : option (string * string) :=
  match s with
  | "" => None
  | String a s' =>
      if Ascii.eqb a dquote
      then match s' with
           | String b s'' =>
               if Ascii.eqb b dquote
               then match lex_quoted s'' with
                    | Some (name, rest) => Some (String dquote name, rest)
                    | None => None
                    end
               else Some ("", s')
           | "" => Some ("", "")
           end
      else match lex_quoted s' with
           | Some (name, rest) => Some (String a name, rest)
           | None => None
           end
  end.

Definition lex_ident (s : string) : option (string * string) :=
  match s with
  | String a s => if Ascii.eqb a dquote then lex_quoted s else None
  | "" => None
  end.

Lemma replace_char_cons c r a s :
  replace_char c r (String a s) = (if Ascii.eqb a c then r else String a "") +:+ replace_char c r s.
Proof. reflexivity. Qed.

(** No name ends its identifier early, and none is changed. *)
Lemma lex_quote_ident name rest :
  (forall r, rest <> String dquote r) -> lex_ident (quote_ident name +:+ rest) = Some (name, rest).
Proof.
  intros Hrest. unfold quote_ident. rewrite sapp_cons. cbn [lex_ident]. rewrite Ascii.eqb_refl.
  rewrite sapp_assoc, sapp_cons, sapp_nil_l.
  induction name as [|a name IH].
  - cbn [replace_char]. rewrite sapp_nil_l. cbn [lex_quoted]. rewrite Ascii.eqb_refl.
    destruct rest as [|b rest]; [done|]. destruct (Ascii.eqb_spec b dquote) as [->|]; [|done].
    by destruct (Hrest rest).
  - rewrite replace_char_cons. destruct (Ascii.eqb_spec a dquote) as [->|Ha].
    + rewrite !sapp_cons, sapp_nil_l. cbn [lex_quoted]. rewrite Ascii.eqb_refl. by rewrite IH.
    + rewrite !sapp_cons, sapp_nil_l. cbn [lex_quoted]. destruct (Ascii.eqb_spec a dquote); [done|]. by rewrite IH.
Qed.
