(* ===== verification/Like.v ===== *)
(** [sql_like_match] of the S3 connector ([connectors/s3/src/connector.rs]), a
    greedy matcher with one backtracking point, against the meaning of SQL's LIKE
    patterns; and [like_prefix], which narrows a listing before matching. *)
From S2P Require Import Prelude Text.

(** ** Characters of a string *)

(** [str::chars], each character as its UTF-8 bytes: a byte that is not a
    continuation starts one. *)
Fixpoint chars (s : string) : list string :=
  match s with
  | EmptyString => []
  | String a r =>
      match chars r with
      | String b c :: t => if continuation b then String a (String b c) :: t
                           else String a "" :: String b c :: t
      | t => String a "" :: t
      end
  end.

Definition PCT : string := "%".
Definition UND : string := "_".

(** ** The matcher *)

(** One iteration's state: the rest of the value and of the pattern, and the
    backtracking point: the pattern after the last percent sign and the value
    where its match currently ends. *)
Record like_state : Type := {
  lv : list string;
  lp : list string;
  lstar : option (list string * list string)
}.

(** The body of the first loop: the next state, or the result [false]. *)
Definition like_step (x : string) (vs : list string) (s : like_state) : option like_state :=
  let backtrack :=
    match lstar s with
    | Some (sp, sv) => Some {| lv := tail sv; lp := sp; lstar := Some (sp, tail sv) |}
    | None => None
    end in
  match lp s with
  | c :: ps =>
      if String.eqb c UND || String.eqb c x then Some {| lv := vs; lp := ps; lstar := lstar s |}
      else if String.eqb c PCT then Some {| lv := x :: vs; lp := ps; lstar := Some (ps, x :: vs) |}
      else backtrack
  | [] => backtrack
  end.

(** The second loop: only percent signs may remain. *)
Definition only_pct (p : list string) : bool := forallb (String.eqb PCT) p.

Fixpoint like_loop (fuel : nat) (s : like_state) : option bool :=
  match fuel with
  | 0 => None
  | S fuel =>
      match lv s with
      | [] => Some (only_pct (lp s))
      | x :: vs => match like_step x vs s with
                   | Some s' => like_loop fuel s'
                   | None => Some false
                   end
      end
  end.

(** Each iteration consumes pattern or moves the backtracking point forward. *)
Definition like_fuel (v p : list string) : nat := S ((length v + 1) * (length p + 1) + length p).

Definition sql_like_match (value pattern : string) : bool :=
  let v := chars value in
  let p := chars pattern in
  default false (like_loop (like_fuel v p) {| lv := v; lp := p; lstar := None |}).

(** [like_prefix]: the characters before the first wildcard. *)
Fixpoint plain (p : list string) : list string :=
  match p with
  | [] => []
  | c :: r => if String.eqb c PCT || String.eqb c UND then [] else c :: plain r
  end.

Definition concat_str (l : list string) : string := foldr String.append "" l.

Definition like_prefix (pattern : string) : string := concat_str (plain (chars pattern)).

(** ** The meaning of a pattern *)

Inductive Like : list string -> list string -> Prop :=
| Like_nil : Like [] []
| Like_any p w v : Like p v -> Like (PCT :: p) (w ++ v)
| Like_one p x v : Like p v -> Like (UND :: p) (x :: v)
| Like_char p c v : c <> PCT -> c <> UND -> Like p v -> Like (c :: p) (c :: v).

(** ** Termination *)

Definition like_measure (n m : nat) (s : like_state) : nat :=
  match lstar s with Some (_, sv) => length sv | None => n + 1 end * (m + 1) + length (lp s).

(** The state stays within the value and the pattern. *)
Definition like_bounded (n m : nat) (s : like_state) : Prop :=
  length (lv s) <= n /\ length (lp s) <= m /\
  match lstar s with
  | Some (sp, sv) => length sp <= m /\ length (lv s) <= length sv <= n
  | None => True
  end.

Lemma like_step_bounded n m x vs s s' :
  lv s = x :: vs -> like_bounded n m s -> like_step x vs s = Some s' ->
  like_bounded n m s' /\ like_measure n m s' < like_measure n m s.
Proof.
  destruct s as [v p st]. unfold like_bounded, like_measure, like_step. cbn [lv lp lstar].
  intros -> (Hv & Hp & Hs).
  assert (Hb : match st with Some (sp, sv) => Some {| lv := tail sv; lp := sp; lstar := Some (sp, tail sv) |}
                           | None => None end = Some s' ->
    (length (lv s') <= n /\ length (lp s') <= m /\
     match lstar s' with Some (sp, sv) => length sp <= m /\ length (lv s') <= length sv <= n | None => True end) /\
    match lstar s' with Some (_, sv) => length sv | None => n + 1 end * (m + 1) + length (lp s') <
    match st with Some (_, sv) => length sv | None => n + 1 end * (m + 1) + length p).
  { destruct st as [[sp [|y sv]]|]; [cbn in *; lia| |done]. intros [= <-]. cbn in *. split; [lia|]. nia. }
  destruct p as [|c ps]; [exact Hb|]. cbn [length] in *.
  destruct (_ || _).
  { intros [= <-]. cbn [lv lp lstar]. destruct st as [[sp sv]|]; cbn in *; lia. }
  destruct (String.eqb c PCT); [|exact Hb].
  intros [= <-]. cbn. destruct st as [[sp sv]|]; cbn in *; split; try lia; nia.
Qed.

Lemma like_loop_total n m fuel s :
  like_bounded n m s -> like_measure n m s < fuel -> exists b, like_loop fuel s = Some b.
Proof.
  revert s. induction fuel as [|fuel IH]; intros s Hb Hf; [lia|]. cbn.
  destruct (lv s) as [|x vs] eqn:Hv; [eauto|].
  destruct (like_step x vs s) as [s'|] eqn:Hs; [|eauto].
  destruct (like_step_bounded _ _ _ _ _ _ Hv Hb Hs). apply IH; [done|lia].
Qed.

(** ** Correctness *)

(** A stretch of pattern without percent signs that fits a stretch of value. *)
Definition fits (c x : string) : Prop := c <> PCT /\ (c = UND \/ c = x).
Definition agree : list string -> list string -> Prop := Forall2 fits.

Lemma Like_pct p v : Like (PCT :: p) v <-> exists w v', v = w ++ v' /\ Like p v'.
Proof.
  split; [|intros (w & v' & -> & Hl); by constructor].
  intros Hl. inversion Hl; subst; [eauto|done].
Qed.

Lemma Like_fit c p v : c <> PCT ->
  Like (c :: p) v <-> exists x v', v = x :: v' /\ fits c x /\ Like p v'.
Proof.
  intros Hc. split.
  - intros Hl. inversion Hl; subst; unfold fits; [done|eauto 10..].
  - intros (x & v' & -> & [_ Hx] & Hl). destruct (decide (c = UND)) as [->|Hu]; [by constructor|].
    destruct Hx as [?|<-]; [done|by constructor].
Qed.

Lemma Like_agree m u p v : agree m u -> Like (m ++ p) (u ++ v) <-> Like p v.
Proof.
  induction 1 as [|c x m u Hf _ IH]; [done|]. cbn. rewrite Like_fit by apply Hf. rewrite <- IH. split.
  - by intros (x' & v' & [= <- <-] & _ & Hl).
  - intros Hl. by exists x, (u ++ v).
Qed.

Lemma Like_long m p v : Forall (fun c => c <> PCT) m -> Like (m ++ p) v ->
  exists u v', v = u ++ v' /\ length u = length m /\ Like p v'.
Proof.
  intros Hm. revert v. induction Hm as [|c m Hc _ IH]; cbn; intros v Hl; [by exists [], v|].
  apply Like_fit in Hl as (x & v' & -> & _ & Hl); [|done].
  destruct (IH _ Hl) as (u & v2 & -> & Hlen & H2). exists (x :: u), v2. cbn. split_and!; [done|lia|done].
Qed.

Lemma agree_plain m u : agree m u -> Forall (fun c => c <> PCT) m /\ length u = length m.
Proof. induction 1 as [|c x m u [Hc _] _ [IH1 IH2]]; cbn; [done|]. split; [by constructor|lia]. Qed.

(** The last percent sign decides: once the pattern before it fits, an earlier
    choice for the previous one gains nothing. *)
Lemma Like_last_pct m u p v :
  agree m u -> Like (PCT :: m ++ PCT :: p) (u ++ v) <-> Like (PCT :: p) v.
Proof.
  intros Ha. destruct (agree_plain _ _ Ha) as [Hm Hlen]. split.
  - intros (w & v1 & Heq & (u2 & v2 & -> & Hl2 & Hl)%Like_long)%Like_pct; [|done].
    apply Like_pct in Hl as (w3 & v3 & -> & Hl). apply Like_pct.
    assert (Hs : exists w', v = w' ++ v3).
    { exists (drop (length u) (w ++ u2 ++ w3)).
      assert (Hd : v = drop (length u) (u ++ v)) by (by rewrite drop_app_length).
      rewrite Hd, Heq, !app_assoc, drop_app_le; [done|]. rewrite !length_app. lia. }
    destruct Hs as [w' ->]. by exists w', v3.
  - intros Hl. apply Like_pct. exists [], (u ++ v). split; [done|]. by apply Like_agree.
Qed.

(** What the state says about the whole match. *)
Definition like_inv (p0 v0 : list string) (s : like_state) : Prop :=
  (PCT ∉ lv s) /\
  match lstar s with
  | None => Like p0 v0 <-> Like (lp s) (lv s)
  | Some (sp, sv) =>
      (Like p0 v0 <-> Like (PCT :: sp) sv) /\ (PCT ∉ sv) /\
      exists m u, sp = m ++ lp s /\ sv = u ++ lv s /\ agree m u
  end.

Lemma agree_snoc m u c x : agree m u -> fits c x -> agree (m ++ [c]) (u ++ [x]).
Proof. intros Ha Hf. apply Forall2_app; [done|by constructor]. Qed.

(** Without a match here, the percent sign has to take one more character. *)
Lemma Like_retry m u p v y sv :
  agree m u -> u ++ v = y :: sv -> ~ Like p v ->
  Like (PCT :: m ++ p) (y :: sv) <-> Like (PCT :: m ++ p) sv.
Proof.
  intros Ha Heq Hn. split.
  - intros (w & v' & Hw & Hl)%Like_pct. apply Like_pct. destruct w as [|z w].
    + cbn in Hw. subst v'. rewrite <- Heq in Hl. by apply Like_agree in Hl.
    + injection Hw as -> ->. eauto.
  - intros (w & v' & -> & Hl)%Like_pct. apply Like_pct. by exists (y :: w), v'.
Qed.

Lemma backtrack_inv p0 v0 s x vs sp sv :
  lv s = x :: vs -> lstar s = Some (sp, sv) -> like_inv p0 v0 s -> ~ Like (lp s) (lv s) ->
  like_inv p0 v0 {| lv := tail sv; lp := sp; lstar := Some (sp, tail sv) |}.
Proof.
  intros Hv Hs [_ Hi] Hn. rewrite Hs in Hi. destruct Hi as (Hl & Hp & m & u & -> & Hsv & Ha).
  assert (Hy : exists y sv', sv = y :: sv') by (rewrite Hsv, Hv; destruct u; cbn; eauto).
  destruct Hy as (y & sv' & ->). unfold like_inv. cbn [tail lv lp lstar].
  apply not_elem_of_cons in Hp as [_ Hp]. split; [done|]. split; [|split; [done|]].
  - rewrite Hl. by apply (Like_retry m u _ (lv s)).
  - exists [], []. split_and!; [done..|constructor].
Qed.

(** A character that neither fits nor is a percent sign ends this attempt. *)
Lemma no_fit c ps x vs :
  String.eqb c UND || String.eqb c x = false -> String.eqb c PCT = false -> ~ Like (c :: ps) (x :: vs).
Proof.
  rewrite orb_false_iff, !String.eqb_neq. intros [Hu Hx] Hp Hl.
  apply Like_fit in Hl as (y & v' & [= <- <-] & [_ [?|?]] & _); done.
Qed.

Lemma like_step_inv p0 v0 x vs s :
  lv s = x :: vs -> like_inv p0 v0 s ->
  match like_step x vs s with
  | Some s' => like_inv p0 v0 s'
  | None => ~ Like p0 v0
  end.
Proof.
  intros Hv Hi.
  assert (Hb : ~ Like (lp s) (lv s) ->
    match match lstar s with Some (sp, sv) => Some {| lv := tail sv; lp := sp; lstar := Some (sp, tail sv) |}
                           | None => None end with
    | Some s' => like_inv p0 v0 s' | None => ~ Like p0 v0 end).
  { intros Hn. destruct (lstar s) as [[sp sv]|] eqn:Hs; [by eapply backtrack_inv|].
    destruct Hi as [_ Hi]. rewrite Hs in Hi. by rewrite Hi. }
  unfold like_step. destruct (lp s) as [|c ps] eqn:Hp.
  { apply Hb. rewrite Hv. inversion 1. }
  destruct (String.eqb c UND || String.eqb c x) eqn:Hf.
  2: { destruct (String.eqb c PCT) eqn:Hc; [|apply Hb; rewrite Hv; by apply no_fit].
       apply String.eqb_eq in Hc as ->. destruct Hi as [Hin Hi]. rewrite Hv in Hin.
       split; [done|]. cbn [lv lp lstar]. rewrite Hp, Hv in Hi. split; [|split; [done|]].
       - destruct (lstar s) as [[sp sv]|]; [|done]. destruct Hi as (Hl & _ & m & u & -> & -> & Ha).
         rewrite Hl. by apply Like_last_pct.
       - exists [], []. split_and!; [done..|constructor]. }
  destruct Hi as [Hin Hi]. rewrite Hv in Hin. apply not_elem_of_cons in Hin as [Hx Hin].
  assert (Hfit : fits c x).
  { apply orb_true_iff in Hf as [->%String.eqb_eq| ->%String.eqb_eq]; split; auto. }
  split; [done|]. cbn [lv lp lstar]. rewrite Hp, Hv in Hi.
  destruct (lstar s) as [[sp sv]|].
  - destruct Hi as (Hl & Hn & m & u & -> & -> & Ha). split_and!; [done..|].
    exists (m ++ [c]), (u ++ [x]). rewrite <- !app_assoc. split_and!; [done..|by apply agree_snoc].
  - rewrite Hi. apply (Like_agree [c] [x]). by apply Forall2_cons.
Qed.

Lemma only_pct_spec p : only_pct p = true <-> Like p [].
Proof.
  induction p as [|c p IH]; [split; [constructor|done]|].
  unfold only_pct. cbn [forallb]. fold (only_pct p). rewrite andb_true_iff, IH, String.eqb_eq. split.
  - intros [<- Hl]. by apply (Like_any p []).
  - intros Hl. inversion Hl; subst. by destruct w, v.
Qed.

Lemma like_loop_correct p0 v0 fuel s b :
  like_inv p0 v0 s -> like_loop fuel s = Some b -> b = true <-> Like p0 v0.
Proof.
  revert s. induction fuel as [|fuel IH]; intros s Hi; [done|]. cbn.
  destruct (lv s) as [|x vs] eqn:Hv.
  - intros [= <-]. rewrite only_pct_spec. destruct Hi as [_ Hi]. rewrite Hv in Hi.
    destruct (lstar s) as [[sp sv]|]; [|done]. destruct Hi as (Hl & _ & m & u & -> & Hu & Ha).
    rewrite app_nil_r in Hu. subst sv. rewrite Hl. destruct (agree_plain _ _ Ha) as [Hm Hlen]. split.
    + intros Hp. apply Like_pct. exists [], u. split; [done|]. rewrite <- (app_nil_r u). by apply Like_agree.
    + intros (w & v' & Hw & (u2 & v2 & -> & Hl2 & Hp)%Like_long)%Like_pct; [|done].
      apply (f_equal length) in Hw. rewrite !length_app in Hw. by destruct v2; [|cbn in Hw; lia].
  - pose proof (like_step_inv _ _ _ _ _ Hv Hi) as Hs. destruct (like_step x vs s) as [s'|].
    + by apply IH.
    + intros [= <-]. split; [done|]. intros Hl. by destruct Hs.
Qed.

Lemma sql_like_match_decides value pattern :
  PCT ∉ chars value ->
  is_Some (like_loop (like_fuel (chars value) (chars pattern))
             {| lv := chars value; lp := chars pattern; lstar := None |}) /\
  (sql_like_match value pattern = true <-> Like (chars pattern) (chars value)).
Proof.
  intros Hv. unfold sql_like_match. set (s0 := {| lv := chars value |}).
  destruct (like_loop_total (length (chars value)) (length (chars pattern))
    (like_fuel (chars value) (chars pattern)) s0) as [b Hb].
  - by split_and!.
  - unfold like_measure, like_fuel. cbn. lia.
  - rewrite Hb. split; [eauto|]. cbn. eapply like_loop_correct; [|exact Hb]. by split.
Qed.

(** C17: on values without a percent sign, [sql_like_match] decides exactly SQL's
    LIKE: a percent sign stands for any characters, an underscore for one, every
    other character for itself; and it always returns. *)
Theorem sql_like_match_correct value pattern :
  PCT ∉ chars value ->
  is_Some (like_loop (like_fuel (chars value) (chars pattern))
             {| lv := chars value; lp := chars pattern; lstar := None |}) /\
  (sql_like_match value pattern = true <-> Like (chars pattern) (chars value)).
Proof. apply sql_like_match_decides. Qed.

Lemma sql_like_match_correct_witness :
  sql_like_match "logs/2024/app.csv" "logs/%/a_p.csv" = true /\
  Like (chars "logs/%/a_p.csv") (chars "logs/2024/app.csv").
Proof.
  split; [reflexivity|].
  apply (proj2 (sql_like_match_correct "logs/2024/app.csv" "logs/%/a_p.csv"
           ltac:(vm_compute; set_solver))). reflexivity.
Defined.

(** A percent sign in the value is taken for the one in the pattern: ["%a"] does
    not match ["%"]. *)
Lemma sql_like_match_percent :
  sql_like_match "%a" "%" = false /\ Like (chars "%") (chars "%a").
Proof. split; [reflexivity|]. exact (Like_any [] (chars "%a") [] Like_nil). Qed.

(** ** Narrowing by prefix *)

Lemma concat_app l k : concat_str (l ++ k) = concat_str l +:+ concat_str k.
Proof. induction l as [|s l IH]; [done|]. 
  unfold concat_str in *. cbn [foldr app]. by rewrite sapp_assoc, IH. Qed.

Lemma concat_chars s : concat_str (chars s) = s.
Proof.
  induction s as [|a s IH]; [done|]. cbn [chars].
  destruct (chars s) as [|[|b c] t]; cbn in IH |- *; [by rewrite <- IH..|].
  destruct (continuation b); cbn; by rewrite <- IH.
Qed.

Lemma Like_plain p v : Like p v -> exists v', v = plain p ++ v'.
Proof.
  induction 1 as [|p w v Hl IH|p x v Hl IH|p c v Hp Hu Hl [v' ->]]; cbn [plain];
    [by exists []|by exists (w ++ v)|by exists (x :: v)|].
  rewrite (proj2 (String.eqb_neq _ _) Hp), (proj2 (String.eqb_neq _ _) Hu). by exists v'.
Qed.

(** Every value that matches a pattern starts with its literal prefix. *)
Lemma like_prefix_sound value pattern :
  Like (chars pattern) (chars value) -> starts_with (like_prefix pattern) value = true.
Proof.
  intros (v' & Hv)%Like_plain. apply starts_with_spec. exists (concat_str v').
  unfold like_prefix. by rewrite <- concat_app, <- Hv, concat_chars.
Qed.
