(* ===== verification/Json.v ===== *)
(** [serde_json::Value] and the conversions the [Serialize] and [Deserialize]
    derives of the program perform.

    A JSON object is a finite map from strings, as [serde_json::Map] (a
    [BTreeMap]) is; a finite [f64] is represented by the text it prints as. *)
From S2P Require Import Prelude Text.

(** ** Values *)

Inductive number : Type :=
| PosInt (n : N)
| NegInt (z : Z)
| Float (repr : string).

Unset Elimination Schemes.
Inductive json : Type :=
| JNull
| JBool (b : bool)
| JNumber (n : number)
| JString (s : string)
| JArray (l : list json)
| JObject (m : gmap string json).
Set Elimination Schemes.

#[global] Instance number_eq_dec : EqDecision number.
Proof. solve_decision. Defined.

(** [serde_json::json!(n)] of an [i64]. *)
Definition jint (z : Z) : json := JNumber (if (0 <=? z)%Z then PosInt (Z.to_N z) else NegInt z).

(** [Value::get] with a string key. *)
Definition jget (k : string) (v : json) : option json :=
  match v with JObject m => m !! k | _ => None end.
Definition as_str (v : json) : option string :=
  match v with JString s => Some s | _ => None end.
Definition as_bool (v : json) : option bool :=
  match v with JBool b => Some b | _ => None end.
Definition as_array (v : json) : option (list json) :=
  match v with JArray l => Some l | _ => None end.
Definition as_object (v : json) : option (gmap string json) :=
  match v with JObject m => Some m | _ => None end.
Definition as_u64 (v : json) : option N :=
  match v with JNumber (PosInt n) => Some n | _ => None end.
Definition as_i64 (v : json) : option Z :=
  match v with
  | JNumber (PosInt n) => if decide (Z.of_N n < 2 ^ 63)%Z then Some (Z.of_N n) else None
  | JNumber (NegInt z) => Some z
  | _ => None
  end.
Definition is_null (v : json) : bool :=
  match v with JNull => true | _ => false end.
Definition is_string (v : json) : bool :=
  match v with JString _ => true | _ => false end.
Definition is_object (v : json) : bool :=
  match v with JObject _ => true | _ => false end.

(** ** Induction *)

Fixpoint json_size (v : json) : nat :=
  match v with
  | JArray l => S (sum_list (json_size <$> l))
  | JObject m => S (map_fold (fun _ n acc => n + acc) 0 (json_size <$> m))
  | _ => 1
  end.

Lemma json_size_elem l x : x ∈ l -> json_size x < json_size (JArray l).
Proof.
  intros Hx. cbn. apply Nat.lt_succ_r. induction Hx; cbn; lia.
Qed.

Lemma json_size_lookup (m : gmap string json) k x :
  m !! k = Some x -> json_size x < json_size (JObject m).
Proof.
  intros Hk. cbn. apply Nat.lt_succ_r.
  rewrite (map_fold_delete_L (fun _ (n acc : nat) => n + acc) 0 k (json_size x)); [lia| |].
  - intros; lia.
  - by rewrite lookup_fmap, Hk.
Qed.

(** The induction principle that reaches inside arrays and objects. *)
Lemma json_ind (P : json -> Prop) :
  P JNull -> (forall b, P (JBool b)) -> (forall n, P (JNumber n)) ->
  (forall s, P (JString s)) -> (forall l, Forall P l -> P (JArray l)) ->
  (forall m, map_Forall (fun _ => P) m -> P (JObject m)) -> forall v, P v.
Proof.
  intros H1 H2 H3 H4 H5 H6 v.
  remember (json_size v) as n eqn:E. revert v E.
  induction n as [n IH] using lt_wf_ind. intros v ->.
  destruct v as [| | | |l|m]; auto.
  - apply H5, Forall_forall. intros x Hx. eapply IH; [|done]. by apply json_size_elem.
  - apply H6. intros k x Hk. eapply IH; [|done]. by eapply json_size_lookup.
Qed.

(** ** Serialisation and deserialisation *)

(** What [#[derive(Serialize, Deserialize)]] provides: [serde_json::to_value]
    and [serde_json::from_value]; [None] stands for a [serde_json::Error]. *)
Class Serde (A : Type) := {
  to_value : A -> json;
  from_value : json -> option A
}.

(** The round-trip law of a serialisable type. *)
Class SerdeOk (A : Type) `{Serde A} : Prop :=
  serde_roundtrip : forall a : A, from_value (to_value a) = Some a.

(** A type whose values never print as [null]. *)
Class NonNull (A : Type) `{Serde A} : Prop :=
  to_value_nonnull : forall a : A, is_null (to_value a) = false.

#[export] Instance serde_string : Serde string :=
  { to_value := JString; from_value := as_str }.
#[export] Instance serde_bool : Serde bool :=
  { to_value := JBool; from_value := as_bool }.
#[export] Instance serde_nat : Serde nat :=
  { to_value n := JNumber (PosInt (N.of_nat n));
    from_value v := N.to_nat <$> as_u64 v }.
#[export] Instance serde_list `{Serde A} : Serde (list A) :=
  { to_value l := JArray (to_value <$> l);
    from_value v := l ← as_array v; mapM from_value l }.
#[export] Instance serde_option `{Serde A} : Serde (option A) :=
  { to_value o := match o with Some a => to_value a | None => JNull end;
    from_value v := if is_null v then Some None else Some <$> from_value v }.

Definition map_values {A B} (f : A -> option B) (m : gmap string A) : option (gmap string B) :=
  let r := omap f m in if bool_decide (dom r = dom m) then Some r else None.

(** [HashMap<String, A>]. *)
#[export] Instance serde_gmap `{Serde A} : Serde (gmap string A) :=
  { to_value m := JObject (to_value <$> m);
    from_value v := m ← as_object v; map_values from_value m }.

(** ** Structs and enums *)

(** The fields of a serialised struct; [None] is a field that
    [skip_serializing_if] leaves out. *)
Fixpoint fields (l : list (string * option json)) : gmap string json :=
  match l with
  | [] => ∅
  | (k, Some v) :: r => <[k := v]> (fields r)
  | (_, None) :: r => fields r
  end.
Definition obj (l : list (string * option json)) : json := JObject (fields l).

(** [skip_serializing_if = "Option::is_none"]. *)
Definition skip_none `{Serde A} (o : option A) : option json := to_value <$> o.

(** The fields a derived [Deserialize] reads: from an object, or positionally
    from an array no longer than the declaration, in which a missing element is
    allowed only for a field with [#[serde(default)]]. [decl] lists the fields
    in order, with whether each has a default. *)
Definition as_struct (decl : list (string * bool)) (v : json) : option (gmap string json) :=
  match v with
  | JObject m => Some m
  | JArray l =>
      if (length l <=? length decl) && forallb snd (drop (length l) decl)
      then Some (fields (zip decl.*1 (Some <$> l)))
      else None
  | _ => None
  end.

(** A field that must be present. *)
Definition req `{Serde A} (k : string) (m : gmap string json) : option A :=
  v ← m !! k; from_value v.
(** A field of type [Option<A>]: absent reads as [None]. *)
Definition opt `{Serde A} (k : string) (m : gmap string json) : option (option A) :=
  match m !! k with Some v => from_value v | None => Some None end.
(** A field with [#[serde(default)]]. *)
Definition dflt `{Serde A} (k : string) (d : A) (m : gmap string json) : option A :=
  match m !! k with Some v => from_value v | None => Some d end.

(** The variant name of a unit variant: a string, or an object with that one
    key and the value [null]. *)
Definition unit_variant (v : json) : option string :=
  match v with
  | JString s => Some s
  | JObject m =>
      match map_to_list m with
      | [(k, JNull)] => Some k
      | _ => None
      end
  | _ => None
  end.

(** Lookup in a field list, by evaluation on literal keys. *)
Fixpoint assoc (k : string) (l : list (string * option json)) : option json :=
  match l with
  | [] => None
  | (k', Some v) :: r => if String.eqb k k' then Some v else assoc k r
  | (_, None) :: r => assoc k r
  end.

Lemma fields_lookup k l : fields l !! k = assoc k l.
Proof.
  induction l as [|[k' [v|]] l IH]; cbn; [apply lookup_empty| |done].
  destruct (String.eqb_spec k k') as [->|].
  - apply lookup_insert_eq.
  - by rewrite lookup_insert_ne.
Qed.

(** ** The round-trip law of the building blocks *)

#[export] Instance serde_string_ok : SerdeOk string.
Proof. done. Qed.
#[export] Instance serde_bool_ok : SerdeOk bool.
Proof. done. Qed.
#[export] Instance serde_nat_ok : SerdeOk nat.
Proof. intros n. cbn. by rewrite Nat2N.id. Qed.
#[export] Instance serde_string_nonnull : NonNull string.
Proof. done. Qed.
#[export] Instance serde_list_nonnull `{Serde A} : NonNull (list A).
Proof. done. Qed.
#[export] Instance serde_bool_nonnull : NonNull bool.
Proof. done. Qed.

#[export] Instance serde_list_ok `{SerdeOk A} : SerdeOk (list A).
Proof.
  intros l. cbn. apply mapM_Some. induction l; cbn; constructor; auto.
Qed.

#[export] Instance serde_option_ok `{SerdeOk A, !NonNull A} : SerdeOk (option A).
Proof.
  intros [a|]; [|done]. cbn. by rewrite to_value_nonnull, serde_roundtrip.
Qed.

Lemma map_values_fmap {A B} (g : A -> B) (f : B -> option A) (m : gmap string A) :
  (forall a, f (g a) = Some a) -> map_values f (g <$> m) = Some m.
Proof.
  intros Hfg. unfold map_values.
  assert (Hm : omap f (g <$> m) = m).
  { apply map_eq. intros k. rewrite lookup_omap, lookup_fmap.
    destruct (m !! k); cbn; auto. }
  rewrite Hm, dom_fmap_L. by rewrite bool_decide_true.
Qed.

#[export] Instance serde_gmap_ok `{SerdeOk A} : SerdeOk (gmap string A).
Proof. intros m. cbn. apply map_values_fmap, serde_roundtrip. Qed.

(** Reading back a field of a serialised struct. *)
Lemma req_fields `{SerdeOk A} k l (a : A) :
  assoc k l = Some (to_value a) -> req k (fields l) = Some a.
Proof. intros Hk. unfold req. rewrite fields_lookup, Hk. apply serde_roundtrip. Qed.

Lemma opt_fields `{SerdeOk A, !NonNull A} k l (o : option A) :
  assoc k l = skip_none o \/ assoc k l = Some (to_value o) -> opt k (fields l) = Some o.
Proof.
  unfold opt. rewrite fields_lookup. intros [->| ->]; [|apply serde_roundtrip].
  destruct o as [a|]; [|done]. cbn. by rewrite to_value_nonnull, serde_roundtrip.
Qed.

Lemma dflt_fields `{SerdeOk A} k l (d a : A) :
  assoc k l = Some (to_value a) \/ (assoc k l = None /\ a = d) ->
  dflt k d (fields l) = Some a.
Proof.
  unfold dflt. rewrite fields_lookup. intros [->|[-> ->]]; [apply serde_roundtrip|done].
Qed.

(** Evaluates [assoc] on literal keys, whatever optional fields are left out. *)
Ltac eval_assoc :=
  cbn [assoc String.eqb Ascii.eqb Bool.eqb];
  repeat match goal with
         | |- context [if bool_decide ?P then _ else _] => destruct (bool_decide P)
         | |- context [match ?o with Some _ => _ | None => _ end] => destruct o
         end;
  reflexivity.

(** Reads the next field back. *)
Ltac read_field :=
  match goal with
  | |- context [req ?k (fields ?l)] =>
      match l with
      | context [(k, Some (to_value ?a))] => rewrite (req_fields k l a) by eval_assoc
      end
  | |- context [opt ?k (fields ?l)] =>
      match l with
      | context [(k, skip_none ?o)] => rewrite (opt_fields k l o) by (left; eval_assoc)
      | context [(k, Some (to_value ?o))] => rewrite (opt_fields k l o) by (right; eval_assoc)
      end
  | |- context [dflt ?k ?d (fields ?l)] =>
      match l with
      | context [(k, Some (to_value ?a))] =>
          rewrite (dflt_fields k l d a) by (left; eval_assoc)
      end
  end; cbn [mbind option_bind].
