(* ===== verification/JsonCode.v ===== *)
(** A text for every value: JSON values are countable, and a value is written as the
    binary digits of its code. It stands for the printers that are parameters elsewhere
    wherever those need to be something concrete. *)
From S2P Require Import Prelude Text Json.
From stdpp Require Import countable.
From Stdlib Require Import NArith ZArith.

(** ** Trees *)

Definition leaf : Type := list string + (string + (bool + (N + (Z + string)))).

Definition number_leaf (n : number) : N + (Z + string) :=
  match n with PosInt n => inl n | NegInt z => inr (inl z) | Float s => inr (inr s) end.
Definition leaf_number (l : N + (Z + string)) : number :=
  match l with inl n => PosInt n | inr (inl z) => NegInt z | inr (inr s) => Float s end.

Fixpoint to_tree (v : json) : gen_tree leaf :=
  match v with
  | JNull => GenNode 0 []
  | JBool b => GenLeaf (inr (inr (inl b)))
  | JNumber n => GenLeaf (inr (inr (inr (number_leaf n))))
  | JString s => GenLeaf (inr (inl s))
  | JArray l => GenNode 1 (to_tree <$> l)
  | JObject m => GenNode 2 (GenLeaf (inl (map_to_list m).*1) :: (map_to_list (to_tree <$> m)).*2)
  end.

Fixpoint of_tree (t : gen_tree leaf) : option json :=
  match t with
  | GenLeaf (inr (inr (inl b))) => Some (JBool b)
  | GenLeaf (inr (inr (inr n))) => Some (JNumber (leaf_number n))
  | GenLeaf (inr (inl s)) => Some (JString s)
  | GenLeaf (inl _) => None
  | GenNode 0 [] => Some JNull
  | GenNode 1 ts => JArray <$> mapM of_tree ts
  | GenNode 2 (GenLeaf (inl keys) :: ts) => vs ← mapM of_tree ts; Some (JObject (list_to_map (zip keys vs)))
  | _ => None
  end.

Lemma of_trees (l : list json) : Forall (fun v => of_tree (to_tree v) = Some v) l -> mapM of_tree (to_tree <$> l) = Some l.
Proof. induction 1 as [|v l Hv _ IH]; [done|]. cbn. rewrite Hv. cbn. by rewrite IH. Qed.

Lemma of_to_tree v : of_tree (to_tree v) = Some v.
Proof.
  induction v as [|b|n|s|l IH|m IH] using json_ind; try done.
  - cbn. by destruct n.
  - cbn [to_tree of_tree]. by rewrite of_trees.
  - cbn [to_tree of_tree]. assert (Hv : mapM of_tree (map_to_list (to_tree <$> m)).*2 = Some (map_to_list m).*2).
    { rewrite map_to_list_fmap, <- list_fmap_compose. rewrite (list_fmap_ext _ (to_tree ∘ snd)) by (by intros ? [] ?).
      rewrite list_fmap_compose. apply of_trees, Forall_forall.
      intros v (x & -> & Hx)%list_elem_of_In%list_elem_of_fmap. destruct x as [k v].
      apply elem_of_map_to_list in Hx. exact (IH k v Hx). }
    refine (eq_trans (f_equal (fun o => o ≫= fun vs => Some (JObject (list_to_map (zip (map_to_list m).*1 vs)))) Hv) _).
    cbn. by rewrite zip_fst_snd, list_to_map_to_list.
Qed.

#[export] Instance number_countable : Countable number.
Proof. apply (inj_countable' number_leaf leaf_number). by intros []. Defined.

#[export] Instance json_inj : Inj (=) (=) to_tree.
Proof. intros v w H. apply (inj Some). by rewrite <- !of_to_tree, H. Qed.
#[export] Instance json_eq_dec : EqDecision json.
Proof. intros v w. destruct (decide (to_tree v = to_tree w)); [left; by apply (inj to_tree)|right; congruence]. Defined.

(** ** Text *)

Fixpoint digits (p : positive) : string :=
  match p with xH => "" | xO p => String "0" (digits p) | xI p => String "1" (digits p) end.
Fixpoint of_digits (s : string) : positive :=
  match s with "" => xH | String a s => if Ascii.eqb a "0" then xO (of_digits s) else xI (of_digits s) end.

Lemma of_digits_digits p : of_digits (digits p) = p.
Proof. induction p as [p IH|p IH|]; cbn; by rewrite ?IH. Qed.

Definition code (v : json) : string := digits (encode (to_tree v)).
Definition uncode (s : string) : option json := t ← decode (of_digits s); of_tree t.

Lemma uncode_code v : uncode (code v) = Some v.
Proof. unfold uncode, code. rewrite of_digits_digits, decode_encode. apply of_to_tree. Qed.
