(* ===== verification/Floats.v ===== *)
(** Rust's machine numbers as the program uses them: integer casts, and [f32] and [f64] as
    their IEEE 754 bit patterns, the conversions [as], reading a decimal text, and
    [Display], which prints the shortest decimal that reads back as the number.

    The rounding is the Standard Library's [SpecFloat] (to nearest, ties to even). *)
From Stdlib Require Import ZArith SpecFloat.
From S2P Require Import Prelude Text Json.
Open Scope Z_scope.

(** ** Integers *)

(** [as i32] keeps the low 32 bits; arithmetic on an [i64] wraps. *)
Definition wrap_i32 (z : Z) : Z := ((z + 2 ^ 31) mod 2 ^ 32 - 2 ^ 31)%Z.
Definition wrap_i64 (z : Z) : Z := ((z + 2 ^ 63) mod 2 ^ 64 - 2 ^ 63)%Z.

Lemma wrap_i64_id z : (- 2 ^ 63 <= z < 2 ^ 63)%Z -> wrap_i64 z = z.
Proof. intros Hz. unfold wrap_i64. rewrite Z.mod_small by lia. lia. Qed.

(** ** Bit patterns *)

(** A binary format: its mantissa bits (with the hidden one) and its largest
    exponent. *)
Record format : Type := { prec : Z; emax : Z }.
Definition binary32 : format := {| prec := 24; emax := 128 |}.
Definition binary64 : format := {| prec := 53; emax := 1024 |}.

Abbreviation f32 := Z (only parsing).
Abbreviation f64 := Z (only parsing).

(** Bits below the exponent, and the all-ones exponent of infinities and NaNs. *)
Definition mant_bits (f : format) : Z := prec f - 1.
Definition exp_max (f : format) : Z := 2 * emax f - 1.

Definition of_bits (f : format) (b : Z) : spec_float :=
  let sign := Z.testbit b (mant_bits f + 1 + Z.log2 (emax f)) in
  let e := Z.land (Z.shiftr b (mant_bits f)) (exp_max f) in
  let m := Z.land b (Z.ones (mant_bits f)) in
  if e =? exp_max f then (if m =? 0 then S754_infinity sign else S754_nan)
  else match (if e =? 0 then m else m + 2 ^ mant_bits f) with
       | Zpos p => S754_finite sign p (Z.max e 1 - 1 + emin (prec f) (emax f))
       | _ => S754_zero sign
       end.

Definition to_bits (f : format) (x : spec_float) : Z :=
  let word (s : bool) (e m : Z) :=
    Z.shiftl (Z.b2z s) (mant_bits f + 1 + Z.log2 (emax f)) + Z.shiftl e (mant_bits f) + m in
  match x with
  | S754_zero s => word s 0 0
  | S754_infinity s => word s (exp_max f) 0
  | S754_nan => word false (exp_max f) (2 ^ (mant_bits f - 1))
  | S754_finite s m e =>
      if Zpos m <? 2 ^ mant_bits f then word s 0 (Zpos m)
      else word s (e - emin (prec f) (emax f) + 1) (Zpos m - 2 ^ mant_bits f)
  end.

(** ** Conversions *)

Definition round_to (f : format) (m e : Z) (s : bool) : spec_float :=
  binary_normalize (prec f) (emax f) m e s.

(** [n as f64] for an integer. *)
Definition f64_of_int (n : Z) : f64 := to_bits binary64 (round_to binary64 n 0 false).

(** [x as f32] for an [f64]. *)
Definition f64_to_f32 (x : f64) : f32 :=
  to_bits binary32
    match of_bits binary64 x with
    | S754_finite s m e => round_to binary32 (cond_Zopp s (Zpos m)) e s
    | y => y
    end.

(** [x as i64] for an [f64]: towards zero, saturating, and 0 for a NaN. *)
Definition saturate_i64 (n : Z) : Z := Z.max (- 2 ^ 63) (Z.min (2 ^ 63 - 1) n).

Definition f64_to_i64 (x : f64) : Z :=
  match of_bits binary64 x with
  | S754_finite s m e => saturate_i64 (cond_Zopp s (Z.shiftl (Zpos m) e))
  | S754_infinity s => saturate_i64 (if s then - 2 ^ 64 else 2 ^ 64)
  | _ => 0
  end.

(** The number nearest to [m * 10 ^ e]: the quotient is computed with more bits
    than the format holds, the last one recording whether the rest is zero. *)
Definition of_decimal (f : format) (s : bool) (m : positive) (e : Z) : spec_float :=
  if 0 <=? e then round_to f (cond_Zopp s (Zpos m * 10 ^ e)) 0 s
  else
    let d := 10 ^ (- e) in
    let k := Z.max 0 (Z.log2 d - Z.log2 (Zpos m) + prec f + 3) in
    let n := Z.shiftl (Zpos m) k in
    round_to f (cond_Zopp s (2 * (n / d) + Z.b2z (negb (n mod d =? 0)))) (- (k + 1)) s.

(** ** Decimal texts *)

Fixpoint digits (s : string) (n : Z) (count : Z) : Z * Z * string :=
  match s with
  | String a r =>
      if byte_in 48 57 a then digits r (10 * n + Z.of_nat (nat_of_ascii a - 48)) (count + 1)
      else (n, count, s)
  | "" => (n, count, "")
  end.

Definition exponent (s : string) : Z :=
  match s with
  | String a r =>
      if Ascii.eqb a "e" || Ascii.eqb a "E"
      then match strip_prefix "-" r with
           | Some r => - fst (fst (digits r 0 0))
           | None => fst (fst (digits (default r (strip_prefix "+" r)) 0 0))
           end
      else 0
  | "" => 0
  end.

(** The value of a JSON number's text. *)
Definition f64_of_repr (s : string) : f64 :=
  let '(neg, s) := match strip_prefix "-" s with Some r => (true, r) | None => (false, s) end in
  let '(int, _, r) := digits s 0 0 in
  let '(m, count, r) := match strip_prefix "." r with Some r => digits r int 0 | None => (int, 0, r) end in
  to_bits binary64
    match m with
    | Zpos p => of_decimal binary64 neg p (exponent r - count)
    | _ => S754_zero neg
    end.

(** [Value::as_f64]. *)
Definition as_f64 (v : json) : option f64 :=
  match v with
  | JNumber (PosInt n) => Some (f64_of_int (Z.of_N n))
  | JNumber (NegInt z) => Some (f64_of_int z)
  | JNumber (Float r) => Some (f64_of_repr r)
  | _ => None
  end.

(** ** Display *)

(** [m * 2^e / 10^k] as a fraction of integers. *)
Definition scaled (m e k : Z) : Z * Z :=
  (m * 2 ^ Z.max 0 e * 10 ^ Z.max 0 (- k), 2 ^ Z.max 0 (- e) * 10 ^ Z.max 0 k).

(** The decimal [q * 10^k] next to the number that reads back as it, if the one
    below or the one above does; the nearer one if both do. *)
Definition candidate (f : format) (x : spec_float) (m : positive) (e k : Z) : option Z :=
  let (n, d) := scaled (Zpos m) e k in
  let reads q := match q with
                 | Zpos p => to_bits f (of_decimal f false p k) =? to_bits f x
                 | _ => false
                 end in
  let q := n / d in
  let near := if 2 * (n mod d) <=? d then q else q + 1 in
  let far := if 2 * (n mod d) <=? d then q + 1 else q in
  if reads near then Some near else if reads far then Some far else None.

(** Tries fewer digits first. *)
Fixpoint shortest (f : format) (m : positive) (e k : Z) (fuel : nat) : Z * Z :=
  match candidate f (S754_finite false m e) m e k with
  | Some q => (q, k)
  | None => match fuel with
            | O => (0, k)
            | S fuel => shortest f m e (k - 1) fuel
            end
  end.

Definition zeros (n : Z) : string := Nat.iter (Z.to_nat n) (String "0") "".

(** The digits [q] with the last one worth [10^k], without an exponent. *)
Definition positional (q k : Z) : string :=
  let ds := pretty (Z.to_N q) in
  let len := Z.of_nat (String.length ds) in
  if 0 <=? k then ds +:+ zeros k
  else if len <=? - k then "0." +:+ zeros (- k - len) +:+ ds
  else String.substring 0 (Z.to_nat (len + k)) ds +:+ "." +:+
       String.substring (Z.to_nat (len + k)) (Z.to_nat (- k)) ds.

(** [format!("{x}")]; 17 significant digits always suffice. *)
Definition display_float (f : format) (b : Z) : string :=
  match of_bits f b with
  | S754_nan => "NaN"
  | S754_infinity s => (if s then "-" else "") +:+ "inf"
  | S754_zero s => (if s then "-" else "") +:+ "0"
  | S754_finite s m e =>
      let top := (Z.log2 (Zpos m) + e) * 30103 / 100000 + 2 in
      let (q, k) := shortest f m e top 22 in
      (if s then "-" else "") +:+ positional q k
  end.

Definition f32_display : f32 -> string := display_float binary32.
Close Scope Z_scope.
