(* ===== verification/Arrow.v ===== *)
(** The part of Arrow the program builds its results with: data types, fields,
    schemas, the arrays the connectors construct, and record batches.

    An array is the constructor the code calls and the values it passes. What
    [RecordBatch::try_new] checks is a law of the class [Arrow]. *)
From S2P Require Import Prelude Floats.
From Stdlib Require Import ZArith.

Inductive TimeUnit : Type := Second | Millisecond | Microsecond | Nanosecond.

Inductive DataType : Type :=
| Boolean
| Int8 | Int16 | Int32 | Int64
| Float32 | Float64
| Utf8
| Binary
| Date32
| Time64 (u : TimeUnit)
| Timestamp (u : TimeUnit) (tz : option string)
| ListOf (item : DataType)
| OtherType (name : string).

#[global] Instance TimeUnit_eq_dec : EqDecision TimeUnit.
Proof. solve_decision. Defined.
#[global] Instance DataType_eq_dec : EqDecision DataType.
Proof. solve_decision. Defined.

Record Field : Type := { f_name : string; f_type : DataType; f_nullable : bool }.
Definition Schema : Type := list Field.

(** [Field::new(name, ty, true)]. *)
Definition nullable (name : string) (ty : DataType) : Field :=
  {| f_name := name; f_type := ty; f_nullable := true |}.

(** [None] is a null. *)
Inductive ArrayRef : Type :=
| BooleanArray (l : list (option bool))
| Int8Array (l : list (option Z))
| Int16Array (l : list (option Z))
| Int32Array (l : list (option Z))
| Int64Array (l : list (option Z))
| Float32Array (l : list (option f32))
| Float64Array (l : list (option f64))
| StringArray (l : list (option string))
| BinaryArray (l : list (option string))
| Date32Array (l : list (option Z))
| Time64MicrosecondArray (l : list (option Z))
| TimestampArray (u : TimeUnit) (tz : option string) (l : list (option Z))
| Float32ListArray (l : list (option (list f32))).

(** The nulls stay, the other slots are converted. *)
Definition map_slots {A B} (f : A -> B) (l : list (option A)) : list (option B) :=
  List.map (option_map f) l.

Definition data_type (a : ArrayRef) : DataType :=
  match a with
  | BooleanArray _ => Boolean
  | Int8Array _ => Int8
  | Int16Array _ => Int16
  | Int32Array _ => Int32
  | Int64Array _ => Int64
  | Float32Array _ => Float32
  | Float64Array _ => Float64
  | StringArray _ => Utf8
  | BinaryArray _ => Binary
  | Date32Array _ => Date32
  | Time64MicrosecondArray _ => Time64 Microsecond
  | TimestampArray u tz _ => Timestamp u tz
  | Float32ListArray _ => ListOf Float32
  end.

Definition array_len (a : ArrayRef) : nat :=
  match a with
  | BooleanArray l => length l
  | Int8Array l | Int16Array l | Int32Array l | Int64Array l | Float32Array l | Float64Array l
  | Date32Array l | Time64MicrosecondArray l | TimestampArray _ _ l => length l
  | StringArray l | BinaryArray l => length l
  | Float32ListArray l => length l
  end.

(** The columns of [n] rows of a schema: one per field, of its type and of that
    length. *)
Definition conforms (s : Schema) (n : nat) (cols : list ArrayRef) : Prop :=
  Forall2 (fun f a => data_type a = f_type f /\ array_len a = n) s cols.

Definition all_nullable (s : Schema) : Prop := Forall (fun f => f_nullable f = true) s.

(** [RecordBatch::try_new] accepts at least one column, all of one length and of
    their fields' types, when every field is nullable. *)
Class Arrow : Type := {
  RecordBatch : Type;
  try_new : Schema -> list ArrayRef -> result string RecordBatch;
  batch_schema : RecordBatch -> Schema;
  batch_columns : RecordBatch -> list ArrayRef;
  try_new_ok s n cols :
    s <> [] -> all_nullable s -> conforms s n cols ->
    exists b, try_new s cols = Ok b /\ batch_schema b = s /\ batch_columns b = cols
}.

(** One way to satisfy the law: keep what was passed. *)
#[export] Instance sample_arrow : Arrow.
Proof.
  refine {| RecordBatch := Schema * list ArrayRef; try_new s cols := Ok (s, cols);
            batch_schema := fst; batch_columns := snd |}.
  intros s n cols _ _ _. by exists (s, cols).
Defined.

Lemma conforms_columns {E} (s : Schema) n (f : Field -> result E ArrayRef) cols :
  rmapM f s = Ok cols ->
  (forall x a, x ∈ s -> f x = Ok a -> data_type a = f_type x /\ array_len a = n) ->
  conforms s n cols.
Proof.
  intros Hm%rmapM_ok Hf. unfold conforms. induction Hm as [|x a s cols Hx Hm IH]; constructor.
  - apply Hf; [by left|done].
  - apply IH. intros y b Hy. apply Hf. by right.
Qed.
