(* ===== verification/Sql.v ===== *)
(** The part of PostgreSQL and sqlx the metadata store relies on: three tables
    of one JSONB column with their unique indexes
    ([libs/pg-meta-store/schema/connections.sql]), statements that may fail, and
    transactions that roll back unless they commit. *)
From S2P Require Import Prelude Text Json.

Inductive table : Type := data_connections | data_connection_types | flight_services.

#[global] Instance table_eq_dec : EqDecision table.
Proof. solve_decision. Defined.

Record Db : Type := {
  conns : list json;
  types : list json;
  flights : list json
}.

Definition rows (t : table) (d : Db) : list json :=
  match t with
  | data_connections => conns d
  | data_connection_types => types d
  | flight_services => flights d
  end.

Definition set_rows (t : table) (l : list json) (d : Db) : Db :=
  match t with
  | data_connections => {| conns := l; types := types d; flights := flights d |}
  | data_connection_types => {| conns := conns d; types := l; flights := flights d |}
  | flight_services => {| conns := conns d; types := types d; flights := l |}
  end.

(** [sqlx::Error]: no row for [fetch_one], or a failure that may carry an
    SQLSTATE code. *)
Inductive sqlx_error : Type :=
| RowNotFound
| Failure (code : option string).

(** A failure of the connection or the server. The client cannot tell whether
    the statement (or the commit) took effect; [f_applied] says. *)
Record fault : Type := { f_code : option string; f_applied : bool }.

(** What the environment decides: which call fails and how, what the clock and
    the UUID generator return, and the text of a JSON value that is neither a
    string nor null under the [->>] operator. *)
Class Oracle := {
  db_fault : nat -> option fault;
  now_at : nat -> string;
  uuid_at : nat -> string;
  jsonb_text : json -> string
}.

(** The database and the number of environment calls made so far. *)
Record Store : Type := { db : Db; tick : nat }.

Section Sql.
Context `{O : Oracle}.

(** ** Columns *)

(** [v ->> ...]: SQL NULL for a missing key or a JSON null. *)
Definition text (v : option json) : option string :=
  match v with
  | None | Some JNull => None
  | Some (JString s) => Some s
  | Some v => Some (jsonb_text v)
  end.

(** [data->'section'->>'key']. *)
Definition column (section key : string) (row : json) : option string :=
  text (v ← jget section row; jget key v).

Definition row_id : json -> option string := column "metadata" "id".
Definition row_tenant : json -> option string := column "metadata" "tenant_id".
Definition row_name : json -> option string := column "resource" "name".
Definition row_namespace : json -> option string := column "resource" "namespace".
Definition row_type_id : json -> option string := column "resource" "data_connection_type_id".

(** [column = $n]: NULL is never equal. *)
Definition sql_eq (c : option string) (s : string) : bool :=
  match c with Some t => String.eqb t s | None => false end.

(** [column @> '["c"]'::jsonb]. *)
Definition contains_connector (c : string) (row : json) : bool :=
  match v ← jget "resource" row; jget "supported_connectors" v with
  | Some (JArray l) =>
      existsb (fun x => match x with JString s => String.eqb s c | _ => false end) l
  | _ => false
  end.

(** ** Unique indexes *)

Definition unique_keys (t : table) : list (json -> list (option string)) :=
  match t with
  | data_connections | data_connection_types =>
      [fun r => [row_name r; row_tenant r]; fun r => [row_id r]]
  | flight_services => [fun r => [row_namespace r; row_name r]; fun r => [row_id r]]
  end.

(** Two index entries collide when no component is NULL and they are equal. *)
Definition same_key (a b : list (option string)) : bool :=
  forallb (fun o => bool_decide (is_Some o)) a && bool_decide (a = b).

Definition collide (t : table) (r s : json) : bool :=
  existsb (fun k => same_key (k r) (k s)) (unique_keys t).

Fixpoint unique_rows (t : table) (l : list json) : bool :=
  match l with
  | [] => true
  | r :: l' => negb (existsb (collide t r) l') && unique_rows t l'
  end.

(** ** Statements *)

(** One round trip to the server. *)
Definition db_call {A} (f : Db -> result sqlx_error (A * Db)) : M Store sqlx_error A :=
  fun w =>
    let w' d := {| db := d; tick := S (tick w) |} in
    match db_fault (tick w), f (db w) with
    | None, Ok (a, d) => (Ok a, w' d)
    | None, Err e => (Err e, w' (db w))
    | Some flt, Ok (_, d) => (Err (Failure (f_code flt)), w' (if f_applied flt then d else db w))
    | Some flt, Err _ => (Err (Failure (f_code flt)), w' (db w))
    end.

(** [SELECT data FROM t WHERE p] with [fetch_all] and with [fetch_one]. *)
Definition fetch_all (t : table) (p : json -> bool) : M Store sqlx_error (list json) :=
  db_call (fun d => Ok (List.filter p (rows t d), d)).

Definition fetch_one (t : table) (p : json -> bool) : M Store sqlx_error json :=
  db_call (fun d => match List.find p (rows t d) with
                    | Some r => Ok (r, d)
                    | None => Err RowNotFound
                    end).

(** [SELECT count( * ) FROM t WHERE p]. *)
Definition count (t : table) (p : json -> bool) : M Store sqlx_error nat :=
  db_call (fun d => Ok (length (List.filter p (rows t d)), d)).

Definition unique_violation : sqlx_error := Failure (Some "23505").

(** [INSERT INTO t (data) VALUES (r)]. *)
Definition insert_row (t : table) (r : json) : M Store sqlx_error unit :=
  db_call (fun d =>
    if existsb (collide t r) (rows t d) then Err unique_violation
    else Ok (tt, set_rows t (rows t d ++ [r]) d)).

(** [UPDATE t SET data = r WHERE p]. *)
Definition update_rows (t : table) (p : json -> bool) (r : json) : M Store sqlx_error unit :=
  db_call (fun d =>
    let l := (fun x => if p x then r else x) <$> rows t d in
    if unique_rows t l then Ok (tt, set_rows t l d) else Err unique_violation).

(** [DELETE FROM t WHERE p]: the number of rows affected. *)
Definition delete_rows (t : table) (p : json -> bool) : M Store sqlx_error nat :=
  db_call (fun d =>
    Ok (length (List.filter p (rows t d)),
        set_rows t (List.filter (fun r => negb (p r)) (rows t d)) d)).

(** ** Transactions *)

(** [let mut tx = pool.begin().await.map_err(e)?; body; tx.commit().await.map_err(e)?]:
    an error of [body] drops the transaction, which rolls it back; a failed
    commit leaves either state. *)
Definition in_tx {E A} (e : sqlx_error -> E) (body : M Store E A) : M Store E A :=
  fun w =>
    match map_err e (db_call (fun d => Ok (tt, d))) w with
    | (Err x, w1) => (Err x, w1)
    | (Ok _, w1) =>
        let roll_back w2 := {| db := db w1; tick := tick w2 |} in
        match body w1 with
        | (Err x, w2) => (Err x, roll_back w2)
        | (Ok a, w2) =>
            match db_fault (tick w2) with
            | None => (Ok a, {| db := db w2; tick := S (tick w2) |})
            | Some flt =>
                (Err (e (Failure (f_code flt))),
                 {| db := if f_applied flt then db w2 else db w1; tick := S (tick w2) |})
            end
        end
    end.

(** [Utc::now()] and [Uuid::new_v4()]. *)
Definition utc_now {E} : M Store E string :=
  fun w => (Ok (now_at (tick w)), {| db := db w; tick := S (tick w) |}).
Definition new_uuid {E} : M Store E string :=
  fun w => (Ok (uuid_at (tick w)), {| db := db w; tick := S (tick w) |}).

End Sql.

(** ** Lemmas *)

Lemma rows_set_rows t l d : rows t (set_rows t l d) = l.
Proof. by destruct t. Qed.

Lemma rows_set_rows_ne t t' l d : t <> t' -> rows t (set_rows t' l d) = rows t d.
Proof. by destruct t, t'. Qed.

Section Lemmas.
Context `{O : Oracle}.

(** A statement leaves the database as it was or takes its full effect. *)
Lemma db_call_cases {A} (f : Db -> result sqlx_error (A * Db)) w r w' :
  db_call f w = (r, w') ->
  db w' = db w \/ exists a, f (db w) = Ok (a, db w').
Proof.
  unfold db_call. intros H.
  destruct (db_fault (tick w)) as [flt|], (f (db w)) as [[a d]|e]; injection H as <- <-; cbn; eauto.
  destruct (f_applied flt); eauto.
Qed.

Lemma db_call_ok {A} (f : Db -> result sqlx_error (A * Db)) w a w' :
  db_call f w = (Ok a, w') -> f (db w) = Ok (a, db w').
Proof.
  unfold db_call. intros H.
  destruct (db_fault (tick w)) as [flt|], (f (db w)) as [[? d]|e]; simplify_eq/=; done.
Qed.

(** Without a fault the statement's own outcome is the outcome. *)
Lemma db_call_quiet {A} (f : Db -> result sqlx_error (A * Db)) w :
  db_fault (tick w) = None ->
  db_call f w = match f (db w) with
                | Ok (a, d) => (Ok a, {| db := d; tick := S (tick w) |})
                | Err e => (Err e, {| db := db w; tick := S (tick w) |})
                end.
Proof. intros H. unfold db_call. rewrite H. by destruct (f (db w)) as [[]|]. Qed.

Lemma fetch_one_ok t p w r w' :
  fetch_one t p w = (Ok r, w') -> List.find p (rows t (db w)) = Some r /\ db w' = db w.
Proof. intros H. apply db_call_ok in H. destruct (List.find _ _); naive_solver. Qed.

Lemma fetch_all_ok t p w l w' :
  fetch_all t p w = (Ok l, w') -> l = List.filter p (rows t (db w)) /\ db w' = db w.
Proof. intros H. apply db_call_ok in H. naive_solver. Qed.

Lemma count_ok t p w n w' :
  count t p w = (Ok n, w') -> n = length (List.filter p (rows t (db w))) /\ db w' = db w.
Proof. intros H. apply db_call_ok in H. naive_solver. Qed.

Lemma insert_row_ok t r w u w' :
  insert_row t r w = (Ok u, w') ->
  existsb (collide t r) (rows t (db w)) = false /\
  db w' = set_rows t (rows t (db w) ++ [r]) (db w).
Proof. intros H. apply db_call_ok in H. destruct (existsb _ _); naive_solver. Qed.

Lemma update_rows_ok t p r w u w' :
  update_rows t p r w = (Ok u, w') ->
  unique_rows t ((fun x => if p x then r else x) <$> rows t (db w)) = true /\
  db w' = set_rows t ((fun x => if p x then r else x) <$> rows t (db w)) (db w).
Proof. intros H. apply db_call_ok in H. cbn in H. destruct (unique_rows _ _); naive_solver. Qed.

Lemma delete_rows_ok t p w n w' :
  delete_rows t p w = (Ok n, w') ->
  n = length (List.filter p (rows t (db w))) /\
  db w' = set_rows t (List.filter (fun r => negb (p r)) (rows t (db w))) (db w).
Proof. intros H. apply db_call_ok in H. naive_solver. Qed.

Lemma utc_now_ok {E} w a w' :
  utc_now (E:=E) w = (Ok a, w') -> a = now_at (tick w) /\ db w' = db w.
Proof. unfold utc_now. naive_solver. Qed.

Lemma new_uuid_ok {E} w a w' :
  new_uuid (E:=E) w = (Ok a, w') -> a = uuid_at (tick w) /\ db w' = db w.
Proof. unfold new_uuid. naive_solver. Qed.

(** A transaction is all or nothing: either the database is what it was, and
    the caller sees an error, or the body ran to its end and its database is the
    one left (the caller may still see an error from the commit). *)
Lemma in_tx_cases {E A} (e : sqlx_error -> E) (body : M Store E A) w r w' :
  in_tx e body w = (r, w') ->
  (db w' = db w /\ exists x, r = Err x) \/
  (exists a w2, body {| db := db w; tick := S (tick w) |} = (Ok a, w2) /\
     db w' = db w2 /\ (r = Ok a \/ exists x, r = Err x)).
Proof.
  unfold in_tx, map_err, db_call. intros H.
  destruct (db_fault (tick w)) as [flt|]; cbn in H.
  { injection H as <- <-. cbn. left. split; [by destruct (f_applied flt)|eauto]. }
  destruct (body _) as [[a|x] w2] eqn:Hb.
  - destruct (db_fault (tick w2)) as [flt|]; injection H as <- <-; cbn.
    + destruct (f_applied flt); [right; eauto 10 | left; eauto].
    + right; eauto 10.
  - injection H as <- <-. left; cbn; eauto.
Qed.

Lemma in_tx_ok {E A} (e : sqlx_error -> E) (body : M Store E A) w a w' :
  in_tx e body w = (Ok a, w') ->
  exists w2, body {| db := db w; tick := S (tick w) |} = (Ok a, w2) /\ db w' = db w2.
Proof.
  intros H. apply in_tx_cases in H.
  destruct H as [[_ [x ?]]|(b & w2 & ? & ? & [?|[x ?]])]; simplify_eq; eauto.
Qed.

(** ** Relations between databases, lifted to runs *)

Definition on_db (RD : Db -> Db -> Prop) (w w' : Store) : Prop := RD (db w) (db w').

#[global] Instance on_db_preorder RD `{!PreOrder RD} : PreOrder (on_db RD).
Proof.
  split; unfold on_db; [by intros ? | intros x y z Hxy Hyz; by etransitivity].
Qed.

Section Rel.
Context (RD : Db -> Db -> Prop) `{!PreOrder RD}.

Lemma steps_db_call {A} (f : Db -> result sqlx_error (A * Db)) :
  (forall d a d', f d = Ok (a, d') -> RD d d') -> steps (on_db RD) (db_call f).
Proof.
  intros Hf w. destruct (db_call f w) as [r w'] eqn:E. unfold on_db. cbn.
  apply db_call_cases in E as [-> |[a Ha]]; eauto. reflexivity.
Qed.

Lemma steps_in_tx {E A} (e : sqlx_error -> E) (body : M Store E A) :
  (forall w a w', body w = (Ok a, w') -> RD (db w) (db w')) ->
  steps (on_db RD) (in_tx e body).
Proof.
  intros Hb w. destruct (in_tx e body w) as [r w'] eqn:E0. unfold on_db. cbn.
  apply in_tx_cases in E0 as [[-> _]|(a & w2 & Hrun & -> & _)]; [reflexivity|].
  by apply Hb in Hrun.
Qed.

Lemma steps_fetch_all t p : steps (on_db RD) (fetch_all t p).
Proof. apply steps_db_call. intros ??? [= _ <-]. reflexivity. Qed.
Lemma steps_fetch_one t p : steps (on_db RD) (fetch_one t p).
Proof.
  apply steps_db_call. intros d a d'. destruct (List.find _ _); [|done].
  intros [= _ <-]. reflexivity.
Qed.
Lemma steps_utc_now {E} : steps (on_db RD) (utc_now (E:=E)).
Proof. intros w. unfold on_db. cbn. reflexivity. Qed.
Lemma steps_new_uuid {E} : steps (on_db RD) (new_uuid (E:=E)).
Proof. intros w. unfold on_db. cbn. reflexivity. Qed.
End Rel.

(** [sql_eq] is equality with a column that is not NULL. *)
Lemma sql_eq_true c s : sql_eq c s = true <-> c = Some s.
Proof.
  destruct c as [t|]; cbn; [|done]. rewrite String.eqb_eq. naive_solver.
Qed.

(** ** Unique indexes *)

Lemma same_key_spec a b : same_key a b = true <-> Forall is_Some a /\ a = b.
Proof.
  unfold same_key. rewrite andb_true_iff, bool_decide_eq_true, forallb_forall, Forall_forall.
  split; intros [H ->]; split; auto; intros x Hx.
  - specialize (H x). rewrite bool_decide_eq_true in H. apply H. by apply list_elem_of_In.
  - apply bool_decide_eq_true. apply H. by apply list_elem_of_In.
Qed.

Lemma same_key_sym a b : same_key a b = same_key b a.
Proof.
  destruct (same_key a b) eqn:E, (same_key b a) eqn:F; auto.
  - apply same_key_spec in E as [? ->]. rewrite <- F. symmetry. by apply same_key_spec.
  - apply same_key_spec in F as [? ->]. rewrite <- E. by apply same_key_spec.
Qed.

Lemma collide_sym t r s : collide t r s = collide t s r.
Proof.
  unfold collide. generalize (unique_keys t). intros l.
  induction l as [|k l IH]; cbn; [done|]. by rewrite same_key_sym, IH.
Qed.

(** Equal ids collide in every table. *)
Lemma collide_id t r s x : row_id r = Some x -> row_id s = Some x -> collide t r s = true.
Proof.
  intros Hr Hs. unfold collide.
  assert (Hk : same_key [row_id r] [row_id s] = true).
  { apply same_key_spec. rewrite Hr, Hs. split; [repeat constructor; eauto|done]. }
  destruct t; cbn [unique_keys existsb]; rewrite Hk; apply orb_true_r.
Qed.

Lemma existsb_false {A} (p : A -> bool) l :
  existsb p l = false <-> Forall (fun x => p x = false) l.
Proof.
  induction l as [|a l IH]; cbn; [split; auto|].
  rewrite orb_false_iff, IH, Forall_cons. done.
Qed.

Lemma unique_rows_app t l r :
  unique_rows t l = true -> existsb (collide t r) l = false -> unique_rows t (l ++ [r]) = true.
Proof.
  induction l as [|x l IH]; [done|]. cbn.
  rewrite !andb_true_iff, !negb_true_iff, orb_false_iff. intros [Hx Hl] [Hrx Hr].
  split; [|auto]. rewrite existsb_app, Hx. cbn. by rewrite collide_sym, Hrx.
Qed.

Lemma unique_rows_filter t (p : json -> bool) l :
  unique_rows t l = true -> unique_rows t (List.filter p l) = true.
Proof.
  induction l as [|x l IH]; [done|]. cbn.
  rewrite andb_true_iff, negb_true_iff, existsb_false. intros [Hx Hl].
  destruct (p x); [|auto]. cbn. rewrite andb_true_iff, negb_true_iff, existsb_false. split; [|auto].
  rewrite Forall_forall in *. intros y Hy. apply Hx.
  apply list_elem_of_In, filter_In in Hy as [Hy _]. by apply list_elem_of_In.
Qed.

(** In a table that satisfies its indexes an id names one row. *)
Lemma unique_rows_id t l r s x :
  unique_rows t l = true -> r ∈ l -> s ∈ l ->
  row_id r = Some x -> row_id s = Some x -> r = s.
Proof.
  induction l as [|y l IH]; [set_solver|]. cbn.
  rewrite andb_true_iff, negb_true_iff, existsb_false, Forall_forall. intros [Hy Hl] Hr Hs Ir Is.
  apply elem_of_cons in Hr as [->|Hr], Hs as [->|Hs]; auto.
  - specialize (Hy s Hs). by rewrite (collide_id t y s x) in Hy.
  - specialize (Hy r Hr). by rewrite (collide_id t y r x) in Hy.
Qed.

End Lemmas.

#[export] Hint Resolve steps_fetch_all steps_fetch_one steps_utc_now steps_new_uuid : dch.

(** Takes a successful run of statements apart; the database each one leaves is
    rewritten in terms of the one it started from. *)
Ltac inv_sql :=
  inv_ok;
  repeat match goal with
  | H : fetch_one _ _ _ = (Ok _, _) |- _ =>
      let Hf := fresh "Hfind" in let Hd := fresh "Hdb" in
      apply fetch_one_ok in H; destruct H as [Hf Hd]
  | H : fetch_all _ _ _ = (Ok _, _) |- _ =>
      let Hf := fresh "Hall" in let Hd := fresh "Hdb" in
      apply fetch_all_ok in H; destruct H as [Hf Hd]
  | H : count _ _ _ = (Ok _, _) |- _ =>
      let Hf := fresh "Hcount" in let Hd := fresh "Hdb" in
      apply count_ok in H; destruct H as [Hf Hd]
  | H : insert_row _ _ _ = (Ok _, _) |- _ =>
      let Hf := fresh "Hins" in let Hd := fresh "Hdb" in
      apply insert_row_ok in H; destruct H as [Hf Hd]
  | H : update_rows _ _ _ _ = (Ok _, _) |- _ =>
      let Hf := fresh "Hupd" in let Hd := fresh "Hdb" in
      apply update_rows_ok in H; destruct H as [Hf Hd]
  | H : delete_rows _ _ _ = (Ok _, _) |- _ =>
      let Hf := fresh "Hdel" in let Hd := fresh "Hdb" in
      apply delete_rows_ok in H; destruct H as [Hf Hd]
  | H : utc_now _ = (Ok _, _) |- _ =>
      let Hf := fresh "Hnow" in let Hd := fresh "Hdb" in
      apply utc_now_ok in H; destruct H as [Hf Hd]
  | H : new_uuid _ = (Ok _, _) |- _ =>
      let Hf := fresh "Huuid" in let Hd := fresh "Hdb" in
      apply new_uuid_ok in H; destruct H as [Hf Hd]
  end.

Ltac chase_db :=
  repeat match goal with H : db ?w = _ |- _ => rewrite H in *; clear H end.
