(* ===== verification/Api.v ===== *)
(** The resource types of [libs/commons/src/api], their serde conversions, the
    error types, and the validations the types carry. *)
From S2P Require Import Prelude Text Json.

(** ** Header names (mod.rs) *)

Definition X_DATA_CONNECTION_ID : string := "x-data-connection-id".
Definition X_TENANT_ID : string := "x-tenant-id".
Definition X_REMOTE_USER : string := "x-remote-user".
Definition AUTHORIZATION : string := "authorization".
Definition X_REMOTE_GROUPS : string := "x-remote-groups".

(** ** Errors (errors.rs) *)

Inductive ConnectorError : Type :=
| SQLError (m : string)
| ConnectionError (m : string)
| NoDataError
| CInvalidRequest (m : string)
| ConfigError (m : string)
| IOError (m : string)
| CNotFound (m : string)
| UnsupportedOperation (m : string).

Definition connector_error_message (e : ConnectorError) : string :=
  match e with
  | SQLError m | ConnectionError m | CInvalidRequest m | ConfigError m
  | IOError m | CNotFound m | UnsupportedOperation m => m
  | NoDataError => "no data returned"
  end.

(** The [Display] text of a [ConnectorError]. *)
Definition connector_error_display (e : ConnectorError) : string :=
  match e with
  | SQLError m => "SQL error: " +:+ m
  | ConnectionError m => "Connection error: " +:+ m
  | NoDataError => "No data returned"
  | CInvalidRequest m => "Invalid request: " +:+ m
  | ConfigError m => "Config error: " +:+ m
  | IOError m => "IO error: " +:+ m
  | CNotFound m => "Not found: " +:+ m
  | UnsupportedOperation m => "Unsupported operation: " +:+ m
  end.

Inductive MetaStoreError : Type :=
| Connection (m : string)
| ResourceNotFound (m : string)
| InvalidRequest (m : string)
| Config (m : string)
| Query (m : string)
| Conflict (m : string)
| Serialization (m : string)
| Deserialization (m : string)
| Validation (m : string)
| UnprocessableEntity (m : string).

Definition meta_store_error_display (e : MetaStoreError) : string :=
  match e with
  | Connection m => "Connection error: " +:+ m
  | ResourceNotFound m => "Not found: " +:+ m
  | InvalidRequest m => "Invalid request: " +:+ m
  | Config m => "Config error: " +:+ m
  | Query m => "Query error: " +:+ m
  | Conflict m => "Resource conflict: " +:+ m
  | Serialization m => "Serialization error: " +:+ m
  | Deserialization m => "Deserialization error: " +:+ m
  | Validation m => "Validation error: " +:+ m
  | UnprocessableEntity m => "Unprocessable entity: " +:+ m
  end.

Inductive SecretStoreError : Type :=
| SecretNotFound (m : string)
| Forbidden (m : string)
| CannotCreateSecret (m : string)
| CannotDeleteSecret (m : string)
| CannotSetSecretLabels (m : string).

Definition secret_store_error_display (e : SecretStoreError) : string :=
  match e with
  | SecretNotFound m => "Secret not found: " +:+ m
  | Forbidden m => "Access denied: " +:+ m
  | CannotCreateSecret m => "Cannot create secret: " +:+ m
  | CannotDeleteSecret m => "Cannot delete secret: " +:+ m
  | CannotSetSecretLabels m => "Cannot set secret labels: " +:+ m
  end.

Inductive DataConnectionTypeError : Type :=
| MissingRequiredField (field : string)
| EmptyValue (field : string) (index : option nat).

Definition type_error_display (e : DataConnectionTypeError) : string :=
  match e with
  | MissingRequiredField f => "Required field " +:+ f +:+ " is missing"
  | EmptyValue f i =>
      f +:+ " must not be empty or whitespace-only" +:+
      match i with Some i => " (index " +:+ show_nat i +:+ ")" | None => "" end
  end.

#[global] Instance ConnectorError_eq_dec : EqDecision ConnectorError.
Proof. solve_decision. Defined.
#[global] Instance MetaStoreError_eq_dec : EqDecision MetaStoreError.
Proof. solve_decision. Defined.
#[global] Instance SecretStoreError_eq_dec : EqDecision SecretStoreError.
Proof. solve_decision. Defined.
#[global] Instance DataConnectionTypeError_eq_dec : EqDecision DataConnectionTypeError.
Proof. solve_decision. Defined.

(** ** Metadata and lists (mod.rs) *)

Record ResourceMetadata : Type := {
  id : string;
  tenant_id : option string;
  created_at : string;
  updated_at : string
}.

#[export] Instance serde_metadata : Serde ResourceMetadata := {
  to_value r := obj [("id", Some (to_value (id r)));
                     ("tenant_id", skip_none (tenant_id r));
                     ("created_at", Some (to_value (created_at r)));
                     ("updated_at", Some (to_value (updated_at r)))];
  from_value v :=
    m ← as_struct [("id", false); ("tenant_id", false); ("created_at", false);
                   ("updated_at", false)] v;
    i ← req "id" m; t ← opt "tenant_id" m; c ← req "created_at" m; u ← req "updated_at" m;
    Some {| id := i; tenant_id := t; created_at := c; updated_at := u |}
}.

Record ResourceList (T : Type) : Type := {
  total_count : nat;
  items : list T
}.
Arguments total_count {T}.
Arguments items {T}.

(** ** Data connections (connections.rs) *)

Record CredentialsRef : Type := { secret : string }.
Definition CredentialsRef_default : CredentialsRef := {| secret := "" |}.

Inductive DataFormat : Type := Tabular | Binary.

Definition data_format_display (f : DataFormat) : string :=
  match f with Tabular => "tabular" | Binary => "binary" end.

Definition data_format_from_string (s : string) : result string DataFormat :=
  if String.eqb s "tabular" then Ok Tabular
  else if String.eqb s "binary" then Ok Binary
  else Err ("invalid data format: " +:+ s).

Inductive DataConnectionState : Type := Ready | IngestionNotReady | NotReady.

Inductive PhaseState : Type :=
| SecretReady
| SecretInvalid (m : string)
| PhaseSecretNotFound
| IngestionReady
| PhaseIngestionNotReady.

Record DataConnectionStatus : Type := {
  state : DataConnectionState;
  message : option string;
  status_updated_at : option string
}.

Definition DataConnectionStatus_default : DataConnectionStatus :=
  {| state := NotReady; message := None; status_updated_at := None |}.

Record DataConnection : Type := {
  name : string;
  data_connection_type_id : string;
  format : DataFormat;
  credentials_ref : CredentialsRef;
  properties : gmap string string
}.

Record DataConnectionResource : Type := {
  dc_metadata : ResourceMetadata;
  dc_resource : DataConnection;
  dc_status : DataConnectionStatus
}.

#[global] Instance DataFormat_eq_dec : EqDecision DataFormat.
Proof. solve_decision. Defined.
#[global] Instance DataConnectionState_eq_dec : EqDecision DataConnectionState.
Proof. solve_decision. Defined.

#[export] Instance serde_credentials_ref : Serde CredentialsRef := {
  to_value r := obj [("secret", Some (to_value (secret r)))];
  from_value v := m ← as_struct [("secret", false)] v;
                  s ← req "secret" m; Some {| secret := s |}
}.

#[export] Instance serde_data_format : Serde DataFormat := {
  to_value f := JString (data_format_display f);
  from_value v := s ← unit_variant v;
    if String.eqb s "tabular" then Some Tabular
    else if String.eqb s "binary" then Some Binary else None
}.

#[export] Instance serde_connection_state : Serde DataConnectionState := {
  to_value s := JString match s with
                        | Ready => "ready"
                        | IngestionNotReady => "ingestion_not_ready"
                        | NotReady => "not_ready"
                        end;
  from_value v := s ← unit_variant v;
    if String.eqb s "ready" then Some Ready
    else if String.eqb s "ingestion_not_ready" then Some IngestionNotReady
    else if String.eqb s "not_ready" then Some NotReady else None
}.

#[export] Instance serde_phase_state : Serde PhaseState := {
  to_value s := match s with
                | SecretReady => JString "secret_ready"
                | SecretInvalid m => obj [("secret_valid", Some (JString m))]
                | PhaseSecretNotFound => JString "secret_not_found"
                | IngestionReady => JString "ingestion_ready"
                | PhaseIngestionNotReady => JString "ingestion_not_ready"
                end;
  from_value v :=
    match unit_variant v with
    | Some s =>
        if String.eqb s "secret_ready" then Some SecretReady
        else if String.eqb s "secret_not_found" then Some PhaseSecretNotFound
        else if String.eqb s "ingestion_ready" then Some IngestionReady
        else if String.eqb s "ingestion_not_ready" then Some PhaseIngestionNotReady
        else None
    | None =>
        match v with
        | JObject m => match map_to_list m with
                       | [(k, JString s)] =>
                           if String.eqb k "secret_valid" then Some (SecretInvalid s) else None
                       | _ => None
                       end
        | _ => None
        end
    end
}.

#[export] Instance serde_connection_status : Serde DataConnectionStatus := {
  to_value r := obj [("state", Some (to_value (state r)));
                     ("message", skip_none (message r));
                     ("updated_at", skip_none (status_updated_at r))];
  from_value v :=
    m ← as_struct [("state", false); ("message", false); ("updated_at", false)] v;
    s ← req "state" m; g ← opt "message" m; u ← opt "updated_at" m;
    Some {| state := s; message := g; status_updated_at := u |}
}.

#[export] Instance serde_data_connection : Serde DataConnection := {
  to_value r := obj [("name", Some (to_value (name r)));
                     ("data_connection_type_id", Some (to_value (data_connection_type_id r)));
                     ("format", Some (to_value (format r)));
                     ("credentials_ref", Some (to_value (credentials_ref r)));
                     ("properties", Some (to_value (properties r)))];
  from_value v :=
    m ← as_struct [("name", false); ("data_connection_type_id", false); ("format", false);
                   ("credentials_ref", false); ("properties", false)] v;
    n ← req "name" m; t ← req "data_connection_type_id" m; f ← req "format" m;
    c ← req "credentials_ref" m; p ← req "properties" m;
    Some {| name := n; data_connection_type_id := t; format := f;
            credentials_ref := c; properties := p |}
}.

#[export] Instance serde_connection_resource : Serde DataConnectionResource := {
  to_value r := obj [("metadata", Some (to_value (dc_metadata r)));
                     ("resource", Some (to_value (dc_resource r)));
                     ("status", Some (to_value (dc_status r)))];
  from_value v :=
    m ← as_struct [("metadata", false); ("resource", false); ("status", true)] v;
    md ← req "metadata" m; r ← req "resource" m;
    s ← dflt "status" DataConnectionStatus_default m;
    Some {| dc_metadata := md; dc_resource := r; dc_status := s |}
}.

(** ** Data connection types (connection_types.rs) *)

Record EnumValue : Type := { value : string; ev_label : string }.

Record Field : Type := {
  field_name : string;
  field_label : string;
  description : option string;
  required : bool;
  d_type : string;
  enum_values : option (list EnumValue);
  default_value : option string;
  sensitive : bool;
  multiple : bool
}.

Record DataConnectionType : Type := {
  type_name : string;
  label : option string;
  provider : string;
  type_description : option string;
  credentials_fields : list Field;
  tags : option (list string)
}.

Record DataConnectionTypeStatus : Type := {
  supported_formats : list DataFormat;
  flight_ready : bool;
  flight_url : option string;
  type_message : option string;
  type_updated_at : option string
}.

Definition DataConnectionTypeStatus_default : DataConnectionTypeStatus :=
  {| supported_formats := []; flight_ready := false; flight_url := None;
     type_message := None; type_updated_at := None |}.

Record DataConnectionTypeResource : Type := {
  dct_metadata : ResourceMetadata;
  dct_resource : DataConnectionType;
  dct_status : DataConnectionTypeStatus
}.

(** The loop of [check_credentials_schema]. *)
Fixpoint check_fields (fs : list Field) (s : gmap string string)
    : result DataConnectionTypeError unit :=
  match fs with
  | [] => Ok tt
  | f :: r =>
      if required f && negb (bool_decide (is_Some (s !! field_name f)))
      then Err (MissingRequiredField (field_name f))
      else check_fields r s
  end.

Definition check_credentials_schema (t : DataConnectionType) (s : gmap string string)
    : result DataConnectionTypeError unit :=
  check_fields (credentials_fields t) s.

Definition validate_label (t : DataConnectionType) : result DataConnectionTypeError unit :=
  match label t with
  | Some l => if is_empty (trim l) then Err (EmptyValue "label" None) else Ok tt
  | None => Ok tt
  end.

(** The loop of [validate_tags] over [tags.iter().enumerate()]. *)
Fixpoint check_tags (i : nat) (l : list string) : result DataConnectionTypeError unit :=
  match l with
  | [] => Ok tt
  | tag :: r =>
      if is_empty (trim tag) then Err (EmptyValue "tag" (Some i)) else check_tags (S i) r
  end.

Definition validate_tags (t : DataConnectionType) : result DataConnectionTypeError unit :=
  match tags t with
  | Some l => check_tags 0 l
  | None => Ok tt
  end.

#[export] Instance serde_enum_value : Serde EnumValue := {
  to_value r := obj [("value", Some (to_value (value r)));
                     ("label", Some (to_value (ev_label r)))];
  from_value v := m ← as_struct [("value", false); ("label", false)] v;
    a ← req "value" m; b ← req "label" m; Some {| value := a; ev_label := b |}
}.

#[export] Instance serde_field : Serde Field := {
  to_value r := obj [("name", Some (to_value (field_name r)));
                     ("label", Some (to_value (field_label r)));
                     ("description", skip_none (description r));
                     ("required", Some (to_value (required r)));
                     ("type", Some (to_value (d_type r)));
                     ("enum_values", skip_none (enum_values r));
                     ("default_value", skip_none (default_value r));
                     ("sensitive", Some (to_value (sensitive r)));
                     ("multiple", Some (to_value (multiple r)))];
  from_value v :=
    m ← as_struct [("name", false); ("label", false); ("description", false);
                   ("required", false); ("type", false); ("enum_values", false);
                   ("default_value", false); ("sensitive", true); ("multiple", true)] v;
    n ← req "name" m; l ← req "label" m; d ← opt "description" m; r ← req "required" m;
    t ← req "type" m; e ← opt "enum_values" m; dv ← opt "default_value" m;
    s ← dflt "sensitive" false m; mu ← dflt "multiple" false m;
    Some {| field_name := n; field_label := l; description := d; required := r; d_type := t;
            enum_values := e; default_value := dv; sensitive := s; multiple := mu |}
}.

#[export] Instance serde_connection_type : Serde DataConnectionType := {
  to_value r := obj [("name", Some (to_value (type_name r)));
                     ("label", skip_none (label r));
                     ("provider", Some (to_value (provider r)));
                     ("description", skip_none (type_description r));
                     ("credentials_fields", Some (to_value (credentials_fields r)));
                     ("tags", skip_none (tags r))];
  from_value v :=
    m ← as_struct [("name", false); ("label", true); ("provider", false);
                   ("description", false); ("credentials_fields", false); ("tags", true)] v;
    n ← req "name" m; l ← opt "label" m; p ← req "provider" m; d ← opt "description" m;
    c ← req "credentials_fields" m; t ← opt "tags" m;
    Some {| type_name := n; label := l; provider := p; type_description := d;
            credentials_fields := c; tags := t |}
}.

#[export] Instance serde_type_status : Serde DataConnectionTypeStatus := {
  to_value r := obj [("supported_formats", Some (to_value (supported_formats r)));
                     ("flight_ready", Some (to_value (flight_ready r)));
                     ("flight_url", Some (to_value (flight_url r)));
                     ("message", skip_none (type_message r));
                     ("updated_at", Some (to_value (type_updated_at r)))];
  from_value v :=
    m ← as_struct [("supported_formats", true); ("flight_ready", false);
                   ("flight_url", false); ("message", false); ("updated_at", false)] v;
    sf ← dflt "supported_formats" [] m; fr ← req "flight_ready" m; u ← opt "flight_url" m;
    g ← opt "message" m; ua ← opt "updated_at" m;
    Some {| supported_formats := sf; flight_ready := fr; flight_url := u;
            type_message := g; type_updated_at := ua |}
}.

#[export] Instance serde_type_resource : Serde DataConnectionTypeResource := {
  to_value r := obj [("metadata", Some (to_value (dct_metadata r)));
                     ("resource", Some (to_value (dct_resource r)));
                     ("status", Some (to_value (dct_status r)))];
  from_value v :=
    m ← as_struct [("metadata", false); ("resource", false); ("status", true)] v;
    md ← req "metadata" m; r ← req "resource" m;
    s ← dflt "status" DataConnectionTypeStatus_default m;
    Some {| dct_metadata := md; dct_resource := r; dct_status := s |}
}.

(** ** Flight services (flight_discovery.rs) *)

Record FlightServiceStatus : Type := { ready : bool }.

Record FlightService : Type := {
  fs_name : string;
  namespace : string;
  external_url : string;
  internal_url : string;
  supported_connectors : list string;
  connector_capabilities : gmap string (list string);
  fs_status : FlightServiceStatus
}.

Record FlightServiceResource : Type := {
  fsr_metadata : ResourceMetadata;
  fsr_resource : FlightService
}.

#[export] Instance serde_flight_status : Serde FlightServiceStatus := {
  to_value r := obj [("ready", Some (to_value (ready r)))];
  from_value v := m ← as_struct [("ready", false)] v;
                  b ← req "ready" m; Some {| ready := b |}
}.

#[export] Instance serde_flight_service : Serde FlightService := {
  to_value r :=
    obj [("name", Some (to_value (fs_name r)));
         ("namespace", Some (to_value (namespace r)));
         ("external_url", Some (to_value (external_url r)));
         ("internal_url", Some (to_value (internal_url r)));
         ("supported_connectors",
          if bool_decide (supported_connectors r = []) then None
          else Some (to_value (supported_connectors r)));
         ("connector_capabilities",
          if bool_decide (connector_capabilities r = ∅) then None
          else Some (to_value (connector_capabilities r)));
         ("status", Some (to_value (fs_status r)))];
  from_value v :=
    m ← as_struct [("name", false); ("namespace", false); ("external_url", false);
                   ("internal_url", false); ("supported_connectors", true);
                   ("connector_capabilities", true); ("status", false)] v;
    n ← req "name" m; ns ← req "namespace" m; e ← req "external_url" m;
    i ← req "internal_url" m; sc ← dflt "supported_connectors" [] m;
    cc ← dflt "connector_capabilities" ∅ m; s ← req "status" m;
    Some {| fs_name := n; namespace := ns; external_url := e; internal_url := i;
            supported_connectors := sc; connector_capabilities := cc; fs_status := s |}
}.

#[export] Instance serde_flight_resource : Serde FlightServiceResource := {
  to_value r := obj [("metadata", Some (to_value (fsr_metadata r)));
                     ("resource", Some (to_value (fsr_resource r)))];
  from_value v :=
    m ← as_struct [("metadata", false); ("resource", false)] v;
    md ← req "metadata" m; r ← req "resource" m;
    Some {| fsr_metadata := md; fsr_resource := r |}
}.

(** ** Secrets and credentials under test (secret.rs, creds.rs) *)

Record Secret : Type := {
  secret_name : string;
  secret_namespace : string;
  secret_properties : gmap string string;
  secret_labels : option (gmap string string);
  secret_annotations : option (gmap string string)
}.

Record TestCredentials : Type := {
  tc_type_id : string;
  tc_credentials : gmap string string
}.

#[export] Instance serde_test_credentials : Serde TestCredentials := {
  to_value r := obj [("data_connection_type_id", Some (to_value (tc_type_id r)));
                     ("credentials", Some (to_value (tc_credentials r)))];
  from_value v :=
    m ← as_struct [("data_connection_type_id", false); ("credentials", false)] v;
    t ← req "data_connection_type_id" m; c ← req "credentials" m;
    Some {| tc_type_id := t; tc_credentials := c |}
}.

(** ** Connector configuration (utils/config.rs) *)

Record ConnectorConfig : Type := {
  enabled : bool;
  connection_timeout_secs : N;
  request_timeout_secs : N;
  read_timeout_secs : N;
  chunk_size : N
}.

Record ConnectorConfigOverride : Type := {
  o_enabled : option bool;
  o_connection_timeout_secs : option N;
  o_request_timeout_secs : option N;
  o_read_timeout_secs : option N;
  o_chunk_size : option N
}.

Definition ConnectorConfig_default : ConnectorConfig :=
  {| enabled := true; connection_timeout_secs := 10; request_timeout_secs := 30;
     read_timeout_secs := 30; chunk_size := 4 * 1024 * 1024 |}.

Definition ConnectorConfigOverride_default : ConnectorConfigOverride :=
  {| o_enabled := None; o_connection_timeout_secs := None; o_request_timeout_secs := None;
     o_read_timeout_secs := None; o_chunk_size := None |}.

Definition config_merge (c : ConnectorConfig) (o : ConnectorConfigOverride) : ConnectorConfig :=
  {| enabled := default (enabled c) (o_enabled o);
     connection_timeout_secs := default (connection_timeout_secs c) (o_connection_timeout_secs o);
     request_timeout_secs := default (request_timeout_secs c) (o_request_timeout_secs o);
     read_timeout_secs := default (read_timeout_secs c) (o_read_timeout_secs o);
     chunk_size := default (chunk_size c) (o_chunk_size o) |}.

(** ** Theorems *)

Ltac serde_struct inst r :=
  intros r; cbn [from_value to_value inst]; unfold obj at 1;
  cbn [as_struct mbind option_bind]; repeat read_field; by destruct r.

#[export] Instance serde_metadata_ok : SerdeOk ResourceMetadata.
Proof. serde_struct serde_metadata r. Qed.
#[export] Instance serde_credentials_ref_ok : SerdeOk CredentialsRef.
Proof. serde_struct serde_credentials_ref r. Qed.
#[export] Instance serde_data_format_ok : SerdeOk DataFormat.
Proof. by intros []. Qed.
#[export] Instance serde_connection_state_ok : SerdeOk DataConnectionState.
Proof. by intros []. Qed.
#[export] Instance serde_connection_status_ok : SerdeOk DataConnectionStatus.
Proof. serde_struct serde_connection_status r. Qed.
#[export] Instance serde_data_connection_ok : SerdeOk DataConnection.
Proof. serde_struct serde_data_connection r. Qed.
#[export] Instance serde_connection_resource_ok : SerdeOk DataConnectionResource.
Proof. serde_struct serde_connection_resource r. Qed.
#[export] Instance serde_enum_value_ok : SerdeOk EnumValue.
Proof. serde_struct serde_enum_value r. Qed.
#[export] Instance serde_field_ok : SerdeOk Field.
Proof. serde_struct serde_field r. Qed.
#[export] Instance serde_connection_type_ok : SerdeOk DataConnectionType.
Proof. serde_struct serde_connection_type r. Qed.
#[export] Instance serde_type_status_ok : SerdeOk DataConnectionTypeStatus.
Proof. serde_struct serde_type_status r. Qed.
#[export] Instance serde_type_resource_ok : SerdeOk DataConnectionTypeResource.
Proof. serde_struct serde_type_resource r. Qed.
#[export] Instance serde_flight_status_ok : SerdeOk FlightServiceStatus.
Proof. serde_struct serde_flight_status r. Qed.
#[export] Instance serde_flight_service_ok : SerdeOk FlightService.
Proof.
  intros r. cbn [from_value to_value serde_flight_service]. unfold obj at 1.
  cbn [as_struct mbind option_bind]. do 4 read_field.
  rewrite (dflt_fields _ _ _ (supported_connectors r))
    by (cbn [assoc String.eqb Ascii.eqb Bool.eqb];
        repeat case_bool_decide; eauto).
  cbn [mbind option_bind].
  rewrite (dflt_fields _ _ _ (connector_capabilities r))
    by (cbn [assoc String.eqb Ascii.eqb Bool.eqb];
        repeat case_bool_decide; eauto).
  cbn [mbind option_bind]. read_field. by destruct r.
Qed.
#[export] Instance serde_flight_resource_ok : SerdeOk FlightServiceResource.
Proof. serde_struct serde_flight_resource r. Qed.
#[export] Instance serde_test_credentials_ok : SerdeOk TestCredentials.
Proof. serde_struct serde_test_credentials r. Qed.

(** What the store writes it reads back: decoding the serialised form of a
    connection, a connection type or a flight service yields the value that was
    serialised, with its optional and defaulted fields. *)
Theorem resources_roundtrip :
  (forall c : DataConnectionResource, from_value (to_value c) = Some c) /\
  (forall t : DataConnectionTypeResource, from_value (to_value t) = Some t) /\
  (forall f : FlightServiceResource, from_value (to_value f) = Some f).
Proof. split_and!; intros; apply serde_roundtrip. Qed.

Lemma check_fields_split fs s :
  match check_fields fs s with
  | Ok _ => Forall (fun f => required f = true -> is_Some (s !! field_name f)) fs
  | Err e => exists pre f post,
      fs = pre ++ f :: post /\ e = MissingRequiredField (field_name f) /\
      required f = true /\ s !! field_name f = None /\
      Forall (fun f => required f = true -> is_Some (s !! field_name f)) pre
  end.
Proof.
  induction fs as [|f fs IH]; cbn; [constructor|].
  case_bool_decide as Hs; rewrite ?andb_false_r, ?andb_true_r.
  - destruct (check_fields fs s); [by constructor|].
    destruct IH as (pre & g & post & -> & ? & ? & ? & ?).
    exists (f :: pre), g, post. split_and!; auto.
  - destruct (required f) eqn:Hr.
    + exists [], f, fs. split_and!; auto. by apply eq_None_not_Some.
    + destruct (check_fields fs s); [constructor; auto; congruence|].
      destruct IH as (pre & g & post & -> & ? & ? & ? & ?).
      exists (f :: pre), g, post. split_and!; auto. constructor; auto; congruence.
Qed.

(** [check_credentials_schema] accepts a secret exactly when every required
    field of the type is one of its keys, and otherwise names the first required
    field, in declaration order, that is missing. *)
Theorem check_credentials_schema_correct t s :
  (check_credentials_schema t s = Ok tt <->
   forall f, f ∈ credentials_fields t -> required f = true -> is_Some (s !! field_name f)) /\
  (forall e, check_credentials_schema t s = Err e ->
   exists pre f post, credentials_fields t = pre ++ f :: post /\
     e = MissingRequiredField (field_name f) /\ required f = true /\
     s !! field_name f = None /\
     forall g, g ∈ pre -> required g = true -> is_Some (s !! field_name g)).
Proof.
  pose proof (check_fields_split (credentials_fields t) s) as H.
  unfold check_credentials_schema. destruct (check_fields _ s) as [[]|e].
  - rewrite Forall_forall in H. naive_solver.
  - destruct H as (pre & f & post & -> & -> & Hr & Hn & Hp). rewrite Forall_forall in Hp.
    split.
    + split; [done|]. intros Hall. destruct (Hall f) as [? ?]; [set_solver|done|congruence].
    + intros ? [= <-]. eauto 10.
Qed.

Lemma check_tags_spec l : forall i,
  match check_tags i l with
  | Ok _ => Forall (fun x => is_empty (trim x) = false) l
  | Err e => exists j x, l !! j = Some x /\ e = EmptyValue "tag" (Some (i + j)) /\
      is_empty (trim x) = true /\ Forall (fun x => is_empty (trim x) = false) (take j l)
  end.
Proof.
  induction l as [|x l IH]; intros i; cbn; [constructor|].
  destruct (is_empty (trim x)) eqn:E.
  { exists 0, x. rewrite Nat.add_0_r. by split_and!. }
  specialize (IH (S i)). destruct (check_tags (S i) l); [by constructor|].
  destruct IH as (j & y & ? & -> & ? & ?).
  exists (S j), y. cbn. rewrite Nat.add_succ_r. split_and!; auto.
Qed.

(** [validate_tags] accepts exactly the types without a blank tag, and
    reports the index of the first blank one. *)
Theorem validate_tags_correct t l :
  tags t = Some l ->
  (validate_tags t = Ok tt <-> Forall (fun x => is_empty (trim x) = false) l) /\
  (forall e, validate_tags t = Err e ->
   exists i x, e = EmptyValue "tag" (Some i) /\ l !! i = Some x /\
     is_empty (trim x) = true /\ forall j y, j < i -> l !! j = Some y ->
     is_empty (trim y) = false).
Proof.
  intros Ht. unfold validate_tags. rewrite Ht.
  pose proof (check_tags_spec l 0) as H. destruct (check_tags 0 l) as [[]|e]; [naive_solver|].
  destruct H as (j & x & Hj & -> & Hx & Hp). split.
  - split; [done|]. rewrite Forall_forall. intros Hall.
    rewrite Hall in Hx; [done|]. by eapply list_elem_of_lookup_2.
  - intros ? [= <-]. exists j, x. split_and!; auto. intros k y Hk Hy.
    rewrite Forall_forall in Hp. apply Hp.
    apply list_elem_of_lookup. exists k. by rewrite lookup_take_lt.
Qed.

Definition sample_type : DataConnectionType :=
  {| type_name := "pg"; label := None; provider := "postgres"; type_description := None;
     credentials_fields := []; tags := Some ["a"; " "] |}.

Lemma validate_tags_correct_witness :
  tags sample_type = Some ["a"; " "] /\
  validate_tags sample_type = Err (EmptyValue "tag" (Some 1)) /\
  exists i x, EmptyValue "tag" (Some 1) = EmptyValue "tag" (Some i) /\
    ["a"; " "] !! i = Some x /\ is_empty (trim x) = true.
Proof.
  split; [reflexivity|]. split; [vm_compute; reflexivity|].
  destruct (proj2 (validate_tags_correct sample_type ["a"; " "] eq_refl)
              (EmptyValue "tag" (Some 1))) as (i & x & ? & ? & ? & _);
    [vm_compute; reflexivity | eauto].
Defined.
