(* ===== verification/Batches.v ===== *)
(** Record batches from columns: what the connectors share. The SQL connectors build
    the columns a row has, the others the fields their schema has. *)
From S2P Require Import Prelude Text Json Floats Api Arrow.

(** [sqlx::Error]: the database's error code, if it is a database error, and its
    text. *)
Record SqlxError : Type := { sqlx_code : option string; sqlx_text : string }.

(** A column of a prepared statement or of a row. *)
Record SqlColumn : Type := { col_name : string; col_type : string }.

(** The schema of a statement, for a mapping of type names. *)
Definition columns_schema (to_arrow : string -> DataType) (columns : list SqlColumn) : Schema :=
  (fun c => nullable (col_name c) (to_arrow (col_type c))) <$> columns.

(** What the array of a column of [n] rows satisfies; building it does not panic. *)
Definition column_ok {E} (n : nat) (ty : DataType) (r : result (failure E) ArrayRef) : Prop :=
  match r with
  | Ok a => data_type a = ty /\ array_len a = n
  | Err e => e <> Panic
  end.

Section Columns.
Context `{AR : Arrow}.
Variable build_array : string -> nat -> result (failure ConnectorError) ArrayRef.

(** One array per column, in a batch. *)
Definition columns_to_batch (schema : Schema) (columns : list SqlColumn)
    : result (failure ConnectorError) RecordBatch :=
  let?? arrays := rmapM (fun c => build_array (col_type (snd c)) (fst c)) (imap pair columns) in
  rmap_err (fun e => Fail (SQLError e)) (try_new schema arrays).

Context (to_arrow : string -> DataType) (n : nat).
Hypothesis build_ok : forall ty i, column_ok n (to_arrow ty) (build_array ty i).

Lemma columns_to_batch_safe schema columns : columns_to_batch schema columns <> Err Panic.
Proof using build_ok.
  unfold columns_to_batch. destruct (rmapM _ _) as [arrays|e] eqn:Ha; cbn [rbind].
  - by destruct (try_new schema arrays).
  - apply rmapM_err in Ha as ([i c] & _ & He). intros [= ->].
    pose proof (build_ok (col_type c) i) as Hok. cbn in He. by rewrite He in Hok.
Qed.

Lemma columns_to_batch_typed columns :
  columns <> [] ->
  match columns_to_batch (columns_schema to_arrow columns) columns with
  | Ok b => batch_schema b = columns_schema to_arrow columns /\
            conforms (columns_schema to_arrow columns) n (batch_columns b)
  | Err e => e <> Panic /\ exists i c, columns !! i = Some c /\ build_array (col_type c) i = Err e
  end.
Proof using build_ok.
  intros Hne. pose proof (columns_to_batch_safe (columns_schema to_arrow columns) columns) as Hsafe.
  unfold columns_to_batch in *. destruct (rmapM _ (imap pair columns)) as [arrays|e] eqn:Ha; cbn [rbind] in *.
  - apply rmapM_ok in Ha.
    assert (Hc : conforms (columns_schema to_arrow columns) n arrays).
    { unfold conforms, columns_schema. apply Forall2_fmap_l, Forall2_same_length_lookup.
      pose proof (Forall2_length _ _ _ Ha) as Hlen. rewrite length_imap in Hlen.
      split; [done|]. intros i c a Hi Hia. pose proof (build_ok (col_type c) i) as Hok.
      assert (Hb : build_array (col_type c) i = Ok a).
      { apply (Forall2_lookup_lr _ _ _ i (i, c) a Ha); [by rewrite list_lookup_imap, Hi|done]. }
      by rewrite Hb in Hok. }
    destruct (try_new_ok (columns_schema to_arrow columns) n arrays) as (b & -> & Hs & Hb); [..|done|].
    + unfold columns_schema. by destruct columns.
    + unfold all_nullable, columns_schema. apply Forall_fmap, Forall_true. done.
    + cbn. by rewrite Hs, Hb.
  - apply rmapM_err in Ha as ([i c] & Hin & He). apply list_elem_of_lookup in Hin as [j Hj].
    rewrite list_lookup_imap in Hj. destruct (columns !! j) as [c'|] eqn:Hc; [|done]. injection Hj as -> ->.
    split; [naive_solver|by exists i, c].
Qed.
End Columns.

Section Fields.
Context `{AR : Arrow}.
Variable build : Field -> result ConnectorError ArrayRef.

(** One array per field of the schema, in a batch. *)
Definition fields_to_batch (schema : Schema) : result ConnectorError RecordBatch :=
  let?? arrays := rmapM build schema in
  rmap_err SQLError (try_new schema arrays).

(** If every array has its field's type, only building one can fail. *)
Lemma fields_to_batch_typed schema n :
  schema <> [] -> all_nullable schema ->
  (forall f a, f ∈ schema -> build f = Ok a -> data_type a = f_type f /\ array_len a = n) ->
  match fields_to_batch schema with
  | Ok b => batch_schema b = schema /\ conforms schema n (batch_columns b)
  | Err e => exists f, f ∈ schema /\ build f = Err e
  end.
Proof.
  intros Hne Hnull Hb. unfold fields_to_batch. destruct (rmapM build schema) as [arrays|e] eqn:Ha; cbn [rbind].
  - pose proof (conforms_columns schema n build arrays Ha Hb) as Hc.
    destruct (try_new_ok schema n arrays Hne Hnull Hc) as (b & -> & Hs & Hcols). cbn. by rewrite Hs, Hcols.
  - by apply rmapM_err in Ha.
Qed.
End Fields.

(** ** Binary downloads *)

Definition binary_schema : Schema := [{| f_name := "data"; f_type := Binary; f_nullable := false |}].

(** One batch with one value per chunk; the stream ends at the first error. *)
Fixpoint binary_batches `{AR : Arrow} (chunks : list (result ConnectorError string))
    : list (result ConnectorError RecordBatch) :=
  match chunks with
  | [] => []
  | Err e :: _ => [Err e]
  | Ok chunk :: chunks =>
      match try_new binary_schema [BinaryArray [Some chunk]] with
      | Err e => [Err (IOError ("Failed to create batch: " +:+ e))]
      | Ok b => Ok b :: binary_batches chunks
      end
  end.
