(* ===== verification/ArrowConvert.v ===== *)
(** Columns of JSON values as Arrow arrays ([libs/commons/src/api/arrow_convert.rs]),
    used by the connectors that receive rows as JSON. *)
From S2P Require Import Prelude Text Json Floats Api Arrow.
From Stdlib Require Import ZArith.
Open Scope Z_scope.

(** [T::try_from(n)] for a signed integer type of [bits] bits. *)
Definition int_fits (bits n : Z) : bool := (- 2 ^ (bits - 1) <=? n) && (n <? 2 ^ (bits - 1)).

Definition checked_int (bits : Z) (field_name type_name : string) (v : option json)
    : result ConnectorError (option Z) :=
  match v ≫= as_i64 with
  | Some n =>
      if int_fits bits n then Ok (Some n)
      else Err (SQLError ("field '" +:+ field_name +:+ "': value " +:+ pretty n +:+
                          " overflows " +:+ type_name))
  | None => Ok None
  end.

Definition checked_int_array (bits : Z) (field_name type_name : string) (values : list (option json))
    : result ConnectorError (list (option Z)) :=
  rmapM (checked_int bits field_name type_name) values.

Section Convert.
(** Instants, as parsed from ISO 8601 and RFC 3339 texts, and their distances from
    the epoch; nanoseconds may overflow. *)
Context {DateTime : Type}.
Variable string_to_datetime : string -> result string DateTime.
Variables timestamp timestamp_millis timestamp_micros : DateTime -> Z.
Variable timestamp_nanos_opt : DateTime -> option Z.
Variable show_datetime : DateTime -> string.
(** A JSON value, and a JSON number, as text. *)
Variable json_text : json -> string.

Definition datetime_value (field_name : string) (unit : TimeUnit) (dt : DateTime)
    : result ConnectorError Z :=
  match unit with
  | Second => Ok (timestamp dt)
  | Millisecond => Ok (timestamp_millis dt)
  | Microsecond => Ok (timestamp_micros dt)
  | Nanosecond =>
      ok_or (timestamp_nanos_opt dt)
        (SQLError ("field '" +:+ field_name +:+ "': " +:+ show_datetime dt +:+
                   " overflows nanosecond timestamps"))
  end.

Definition checked_timestamp (field_name : string) (unit : TimeUnit) (v : option json)
    : result ConnectorError (option Z) :=
  match v with
  | None | Some JNull => Ok None
  | Some (JNumber n) =>
      ok_or (match as_i64 (JNumber n) with
             | Some z => Some (Some z)
             | None => (fun f => Some (f64_to_i64 f)) <$> as_f64 (JNumber n)
             end)
        (SQLError ("field '" +:+ field_name +:+ "': cannot parse " +:+ json_text (JNumber n) +:+
                   " as epoch timestamp"))
  | Some (JString s) =>
      let?? dt := rmap_err (fun e => SQLError ("field '" +:+ field_name +:+ "': " +:+ e))
                    (string_to_datetime s) in
      rmap Some (datetime_value field_name unit dt)
  | Some other =>
      Err (SQLError ("field '" +:+ field_name +:+ "': cannot parse " +:+ json_text other +:+
                     " as Timestamp"))
  end.

Definition checked_timestamp_values (field_name : string) (unit : TimeUnit)
    (values : list (option json)) : result ConnectorError (list (option Z)) :=
  rmapM (checked_timestamp field_name unit) values.

(** The text of a value in a column of strings. *)
Definition utf8_value (v : json) : option string :=
  match v with
  | JNull => None
  | JString s => Some s
  | other => Some (json_text other)
  end.

Definition json_values_to_array (field_name : string) (ty : DataType) (values : list (option json))
    : result ConnectorError ArrayRef :=
  match ty with
  | Boolean => Ok (BooleanArray ((fun v => v ≫= as_bool) <$> values))
  | Int8 => rmap Int8Array (checked_int_array 8 field_name "Int8" values)
  | Int16 => rmap Int16Array (checked_int_array 16 field_name "Int16" values)
  | Int32 => rmap Int32Array (checked_int_array 32 field_name "Int32" values)
  | Int64 => Ok (Int64Array ((fun v => v ≫= as_i64) <$> values))
  | Float32 => Ok (Float32Array ((fun v => f64_to_f32 <$> (v ≫= as_f64)) <$> values))
  | Float64 => Ok (Float64Array ((fun v => v ≫= as_f64) <$> values))
  | Timestamp unit tz =>
      rmap (TimestampArray unit tz) (checked_timestamp_values field_name unit values)
  | _ => Ok (StringArray ((fun v => v ≫= utf8_value) <$> values))
  end.

(** ** Types *)

(** The types a column can be given; the others fall back to strings. *)
Definition supported (ty : DataType) : bool :=
  match ty with
  | Boolean | Int8 | Int16 | Int32 | Int64 | Float32 | Float64 | Utf8 | Timestamp _ _ => true
  | _ => false
  end.

Lemma rmapM_length {E A B} (f : A -> result E B) l bs : rmapM f l = Ok bs -> length bs = length l.
Proof. intros H%rmapM_ok. symmetry. by eapply Forall2_length. Qed.

(** One slot per value, and an array of the column's type. *)
Lemma json_array_shape field_name ty values a :
  json_values_to_array field_name ty values = Ok a ->
  array_len a = length values /\ data_type a = if supported ty then ty else Utf8.
Proof.
  destruct ty; cbn [json_values_to_array supported]; intros Ha; simplify_eq/=; rewrite ?length_fmap; try done;
    match type of Ha with rmap _ ?m = _ => destruct m as [l|] eqn:Hl; [|done] end;
    cbn in Ha; injection Ha as <-; cbn; by rewrite (rmapM_length _ _ _ Hl).
Qed.

(** ** Integers never wrap *)

(** The width of a checked integer type. *)
Definition int_bits (ty : DataType) : option Z :=
  match ty with Int8 => Some 8 | Int16 => Some 16 | Int32 => Some 32 | _ => None end.

(** The slots of an array of integers. *)
Definition int_slots (a : ArrayRef) : list (option Z) :=
  match a with
  | Int8Array l | Int16Array l | Int32Array l | Int64Array l => l
  | _ => []
  end.

Lemma checked_int_array_exact bits field_name type_name values :
  match checked_int_array bits field_name type_name values with
  | Ok l => l = (fun v => v ≫= as_i64) <$> values /\
            Forall (fun v => forall n, v ≫= as_i64 = Some n -> int_fits bits n = true) values
  | Err e => exists v n, v ∈ values /\ v ≫= as_i64 = Some n /\ int_fits bits n = false /\
             e = SQLError ("field '" +:+ field_name +:+ "': value " +:+ pretty n +:+
                           " overflows " +:+ type_name)
  end.
Proof.
  destruct (checked_int_array _ _ _ _) as [l|e] eqn:H; unfold checked_int_array in H.
  - apply rmapM_ok in H. induction H as [|v o values l Hv _ [-> IH]]; [done|].
    unfold checked_int in Hv. destruct (v ≫= as_i64) as [n|] eqn:Hn.
    + destruct (int_fits bits n) eqn:Hf; [|done]. injection Hv as <-. cbn. rewrite Hn.
      split; [done|]. constructor; [|done]. intros m Hm. assert (m = n) as -> by congruence. done.
    + injection Hv as <-. cbn. rewrite Hn. split; [done|]. constructor; [|done]. intros m Hm. congruence.
  - apply rmapM_err in H as (v & Hin & He). unfold checked_int in He.
    destruct (v ≫= as_i64) as [n|] eqn:Hn; [|done].
    destruct (int_fits bits n) eqn:Hf; [done|]. injection He as <-. by exists v, n.
Qed.

(** A column of narrow integers holds the JSON integers themselves or fails. For
    an 8, 16 or 32 bit column the array has one slot per row, each slot is the row's
    integer (null for anything else), all of them in the type's range; if some
    integer is out of range, the column is an error that names such an integer, never
    an array with a wrapped value. *)
Theorem narrow_columns_exact field_name ty bits values :
  int_bits ty = Some bits ->
  match json_values_to_array field_name ty values with
  | Ok a => data_type a = ty /\ int_slots a = (fun v => v ≫= as_i64) <$> values /\
            Forall (fun o => forall n, o = Some n -> - 2 ^ (bits - 1) <= n < 2 ^ (bits - 1)) (int_slots a)
  | Err e => exists v n, v ∈ values /\ v ≫= as_i64 = Some n /\
             ~ (- 2 ^ (bits - 1) <= n < 2 ^ (bits - 1)) /\
             exists m, e = SQLError m /\ contains (pretty n) m = true
  end.
Proof.
  intros Hty.
  assert (Hfits : forall n, int_fits bits n = true <-> - 2 ^ (bits - 1) <= n < 2 ^ (bits - 1)).
  { intros n. unfold int_fits. rewrite andb_true_iff, Z.leb_le, Z.ltb_lt. done. }
  assert (H : exists name mk, json_values_to_array field_name ty values
                = rmap mk (checked_int_array bits field_name name values) /\
              forall l, data_type (mk l) = ty /\ int_slots (mk l) = l).
  { destruct ty; cbn in Hty |- *; simplify_eq; by eexists _, _. }
  destruct H as (name & mk & -> & Hmk).
  pose proof (checked_int_array_exact bits field_name name values) as He.
  destruct (checked_int_array _ _ _ _) as [l|e]; cbn.
  - destruct He as [-> Hf]. destruct (Hmk ((fun v => v ≫= as_i64) <$> values)) as [-> ->].
    split_and!; [done..|]. apply Forall_fmap. eapply Forall_impl; [exact Hf|].
    intros v Hv n Hn. by apply Hfits, Hv.
  - destruct He as (v & n & Hin & Hn & Hf & ->). exists v, n. split_and!; [done|done| |].
    { intros Hr%Hfits. congruence. }
    eexists. split; [done|]. apply contains_spec.
    exists ("field '" +:+ field_name +:+ "': value "), (" overflows " +:+ name).
    by rewrite !sapp_assoc.
Qed.
End Convert.
Close Scope Z_scope.

Lemma narrow_columns_exact_witness :
  exists v n, v ∈ [Some (JNumber (PosInt 128)); Some JNull] /\ v ≫= as_i64 = Some n /\
    ~ (- 2 ^ (8 - 1) <= n < 2 ^ (8 - 1))%Z /\
    exists m, SQLError "field 'a': value 128 overflows Int8" = SQLError m /\ contains (pretty n) m = true.
Proof.
  exact (narrow_columns_exact (DateTime := Z) (fun _ => Err "") (fun z => z) (fun z => z) (fun z => z) Some (fun _ => "") (fun _ => "")
    "a" Int8 8 [Some (JNumber (PosInt 128)); Some JNull] eq_refl).
Defined.
