(* ===== verification/ClientCache.v ===== *)
(** The cache every connector keeps of its clients, by connection id
    ([moka::future::Cache] in the connectors' [get_reader]).

    [try_get_with] returns the entry of a key or runs its initialiser and stores the
    value; an initialiser that fails stores nothing. Entries disappear when they
    expire or the capacity is exceeded. *)
From S2P Require Import Prelude Text Json Api.

(** A world that holds a connector's cache. *)
Class ClientCache (W C : Type) : Type := {
  cache_of : W -> gmap string C;
  set_cache : gmap string C -> W -> W;
  cache_of_set c w : cache_of (set_cache c w) = c
}.

Section Cache.
Context {W C : Type} `{ClientCache W C}.

Definition try_get_with (key : string) (init : M W ConnectorError C) : M W ConnectorError C :=
  fun w =>
    match cache_of w !! key with
    | Some c => (Ok c, w)
    | None =>
        match init w with
        | (Ok c, w') => (Ok c, set_cache (<[key := c]> (cache_of w')) w')
        | (Err e, w') => (Err e, w')
        end
    end.

Abbreviation Resolver := (DataConnectionResource -> M W ConnectorError (gmap string string)).

(** The client of a connection: how every [get_reader] obtains it. *)
Definition connector_client (build : gmap string string -> M W ConnectorError C)
    (connection : DataConnectionResource) (resolver : Resolver) : M W ConnectorError C :=
  try_get_with (id (dc_metadata connection))
    (let? credentials := resolver connection in build credentials).
End Cache.

(** ** Whose client is used *)

Section Isolation.
Context {W C : Type} `{HC : ClientCache W C}.
Variable build : gmap string string -> M W ConnectorError C.

Abbreviation Resolver' := (DataConnectionResource -> M W ConnectorError (gmap string string)).

(** What happens to a connector's cache: a reader is asked for, with the resolver of
    that request, or an entry expires or is evicted. *)
Inductive CacheEvent : Type :=
| GetReader (connection : DataConnectionResource) (resolver : Resolver')
| Evicted (key : string).

(** Runs events; a [GetReader] adds its connection and the client it returned. *)
Fixpoint run_events (events : list CacheEvent) (w : W) : list (DataConnectionResource * result ConnectorError C) * W :=
  match events with
  | [] => ([], w)
  | GetReader connection resolver :: events =>
      let (r, w) := connector_client build connection resolver w in
      let (rs, w) := run_events events w in ((connection, r) :: rs, w)
  | Evicted key :: events => run_events events (set_cache (delete key (cache_of w)) w)
  end.

(** [c] was built from the credentials that a request of the run resolved for the
    connection with id [key]. *)
Definition built_for (events : list CacheEvent) (w : W) (key : string) (c : C) : Prop :=
  exists before connection resolver after credentials w1 w2,
    events = before ++ GetReader connection resolver :: after /\ id (dc_metadata connection) = key /\
    resolver connection (run_events before w).2 = (Ok credentials, w1) /\ build credentials w1 = (Ok c, w2).

(** Resolving credentials and building a client leave the cache alone. *)
Definition leaves_cache {A} (m : M W ConnectorError A) : Prop := forall w, cache_of (m w).2 = cache_of w.
Definition well_behaved (e : CacheEvent) : Prop :=
  match e with GetReader connection resolver => leaves_cache (resolver connection) | Evicted _ => True end.

Lemma run_events_app before events w :
  run_events (before ++ events) w =
  ((run_events before w).1 ++ (run_events events (run_events before w).2).1,
   (run_events events (run_events before w).2).2).
Proof.
  revert w. induction before as [|[connection resolver|key] before IH]; intros w; cbn [app run_events fst snd].
  - by destruct (run_events events w).
  - destruct (connector_client build connection resolver w) as [r w1]. rewrite IH.
    by destruct (run_events before w1) as [rs w2].
  - apply IH.
Qed.

Lemma connector_client_built (P : string -> C -> Prop) connection resolver w :
  (forall credentials, leaves_cache (build credentials)) -> leaves_cache (resolver connection) ->
  (forall credentials c w1 w2, resolver connection w = (Ok credentials, w1) ->
     build credentials w1 = (Ok c, w2) -> P (id (dc_metadata connection)) c) ->
  (forall key c, cache_of w !! key = Some c -> P key c) ->
  let (r, w') := connector_client build connection resolver w in
  (forall c, r = Ok c -> P (id (dc_metadata connection)) c) /\
  (forall key c, cache_of w' !! key = Some c -> P key c).
Proof.
  intros Hbuild Hres HP Hinv. unfold connector_client, try_get_with.
  destruct (cache_of w !! id (dc_metadata connection)) as [c|] eqn:Hc.
  { split; [|done]. intros c' [= <-]. by apply Hinv. }
  specialize (Hres w). unfold mseq. destruct (resolver connection w) as [[credentials|e] w1] eqn:Hr; cbn in Hres; cycle 1.
  { split; [done|]. by rewrite Hres. }
  specialize (Hbuild credentials w1). destruct (build credentials w1) as [[c|e] w2] eqn:Hb; cbn in Hbuild.
  - specialize (HP _ _ _ _ eq_refl Hb).
    split; [by intros c' [= <-]|]. intros key c'. rewrite cache_of_set, Hbuild, Hres.
    destruct (decide (key = id (dc_metadata connection))) as [->|Hne].
    + rewrite lookup_insert_eq. by intros [= <-].
    + rewrite lookup_insert_ne by done. apply Hinv.
  - split; [done|]. by rewrite Hbuild, Hres.
Qed.

(** The invariant, after the events [before]: every cached client was built for its
    key. *)
Lemma run_events_built all w before events :
  (forall credentials, leaves_cache (build credentials)) -> Forall well_behaved events -> all = before ++ events ->
  (forall key c, cache_of (run_events before w).2 !! key = Some c -> built_for all w key c) ->
  forall connection c, (connection, Ok c) ∈ (run_events events (run_events before w).2).1 ->
    built_for all w (id (dc_metadata connection)) c.
Proof.
  intros Hbuild Hev. revert before.
  induction Hev as [|e events He Hev IH]; intros before -> Hinv x c; [by intros ?%elem_of_nil|].
  specialize (IH (before ++ [e])). rewrite <- app_assoc in IH. specialize (IH eq_refl).
  rewrite run_events_app in IH. cbn [snd] in IH. destruct e as [connection resolver|key]; cbn [run_events fst snd] in *.
  - pose proof (connector_client_built (built_for (before ++ GetReader connection resolver :: events) w)
      connection resolver (run_events before w).2 Hbuild He) as Hc.
    destruct (connector_client build connection resolver _) as [r w1]. cbn [snd] in IH.
    destruct Hc as [Hr Hinv1]; [|done|].
    { intros credentials c' w2 w3 H1 H2. eexists before, connection, resolver, events, _, _, _. eauto. }
    specialize (IH Hinv1 x c). destruct (run_events events w1) as [rs w2]. cbn [fst] in *. rewrite elem_of_cons.
    intros [[= <- <-]|Hin]; [by apply Hr|by apply IH].
  - apply IH. intros k c'. rewrite cache_of_set, lookup_delete_Some. intros [_ Hk]. by apply Hinv.
Qed.

(** C28: no request is served with another connection's client. From an empty cache
    and through any sequence of requests and evictions, a client returned for a
    connection was built from credentials that a request of the run resolved for the
    connection with the same id, whatever is cached. *)
Theorem cached_clients_isolated events w :
  (forall credentials, leaves_cache (build credentials)) -> Forall well_behaved events -> cache_of w = ∅ ->
  forall connection c, (connection, Ok c) ∈ (run_events events w).1 ->
    built_for events w (id (dc_metadata connection)) c.
Proof.
  intros Hbuild Hev Hempty. apply (run_events_built events w []); [done|done|done|].
  cbn. intros key c. by rewrite Hempty, lookup_empty.
Qed.

(** A client outlives the credentials it was built from: as long as its entry is
    cached, a request for the connection does not resolve them again. *)
Lemma cached_client_is_kept connection resolver w c :
  cache_of w !! id (dc_metadata connection) = Some c ->
  connector_client build connection resolver w = (Ok c, w).
Proof. intros Hc. unfold connector_client, try_get_with. by rewrite Hc. Qed.
End Isolation.

(** ** A concrete cache *)

#[local] Instance sample_cache : ClientCache (gmap string string) string := {|
  cache_of w := w; set_cache c _ := c; cache_of_set c _ := eq_refl |}.

Definition sample_connection (uid : string) : DataConnectionResource :=
  {| dc_metadata := {| id := uid; tenant_id := Some "t"; created_at := ""; updated_at := "" |};
     dc_resource := {| name := uid; data_connection_type_id := "ty"; format := Tabular;
                       credentials_ref := CredentialsRef_default; properties := ∅ |};
     dc_status := DataConnectionStatus_default |}.

(** The credentials of a connection name it, and so does its client. *)
Definition sample_resolver (connection : DataConnectionResource)
    : M (gmap string string) ConnectorError (gmap string string) :=
  mret {[ "URI" := id (dc_metadata connection) ]}.
Definition sample_build (credentials : gmap string string) : M (gmap string string) ConnectorError string :=
  mret (default "" (credentials !! "URI")).

Definition sample_events : list CacheEvent :=
  [GetReader (sample_connection "a") sample_resolver; GetReader (sample_connection "b") sample_resolver;
   Evicted "a"; GetReader (sample_connection "b") sample_resolver].

Lemma cached_clients_isolated_witness : built_for sample_build sample_events ∅ "b" "b".
Proof.
  apply (cached_clients_isolated sample_build sample_events ∅ (fun _ _ => eq_refl)) with (connection := sample_connection "b").
  - by repeat constructor.
  - done.
  - vm_compute. right. right. left.
Defined.
