(* ===== verification/MetaStore.v ===== *)
(** [PgMetaStore] ([libs/pg-meta-store/src/store/meta.rs]): every operation of
    the traits [MetaStoreReader], [MetaStore] and [FlightDiscoveryStore], as a
    program over the database of [Sql]. *)
From S2P Require Import Prelude Text Json Sql Api.

Section PgMetaStore.
Context `{O : Oracle}.

(** The field [global_tenant_id] of [PgMetaStore]. *)
Variable global_tenant_id : string.

(** ** Errors *)

Definition map_sqlx_error (e : sqlx_error) : MetaStoreError :=
  match e with
  | Failure (Some "23505") => Conflict "a resource with the same identity already exists"
  | _ => Query "failed to execute database operation"
  end.

(** [map_err(|e| match e { RowNotFound => missing, e => Query(msg) })]. *)
Definition row_error (missing : MetaStoreError) (msg : string) (e : sqlx_error) : MetaStoreError :=
  match e with RowNotFound => missing | Failure _ => Query msg end.

Definition query_error (msg : string) (e : sqlx_error) : MetaStoreError := Query msg.

Definition data_connection_not_found (uid : string) : MetaStoreError :=
  ResourceNotFound ("data connection '" +:+ uid +:+ "' not found").
Definition connection_type_not_found (uid : string) : MetaStoreError :=
  ResourceNotFound ("connection type '" +:+ uid +:+ "' not found").
Definition flight_service_not_found (uid : string) : MetaStoreError :=
  ResourceNotFound ("flight service '" +:+ uid +:+ "' not found").

Definition connection_type_in_use_message (uid : string) (count : nat) : string :=
  let subject :=
    if count =? 1 then "1 connection still references it"
    else show_nat count +:+ " connections still reference it" in
  "cannot delete connection type '" +:+ uid +:+ "': " +:+ subject +:+
  "; delete the connections first".

Definition decode `{Serde A} (msg : string) (v : json) : result MetaStoreError A :=
  ok_or (from_value v) (Deserialization msg).

Definition bad_connection : string := "failed to deserialize data connection".
Definition bad_type : string :=
  "failed to deserialize connection type; see service logs for details".
Definition bad_flight : string := "failed to deserialize flight service".

(** [iter().map(..).collect::<Result<Vec<_>, _>>()]. *)
Fixpoint collect {A B E} (f : A -> result E B) (l : list A) : result E (list B) :=
  match l with
  | [] => Ok []
  | a :: r => let?? b := f a in let?? bs := collect f r in Ok (b :: bs)
  end.

Definition resource_list {A} (l : list A) : ResourceList A :=
  {| total_count := length l; items := l |}.

(** ** Row conditions *)

Definition id_is (uid : string) (r : json) : bool := sql_eq (row_id r) uid.
Definition tenant_is (t : string) (r : json) : bool := sql_eq (row_tenant r) t.
Definition visible_to (t : string) (r : json) : bool :=
  tenant_is t r || tenant_is global_tenant_id r.

(** ** Connection types: shared pieces *)

Definition validate_connection_type (tenant type_id : string) : M Store MetaStoreError unit :=
  map_err (row_error
             (UnprocessableEntity ("connection type '" +:+ type_id +:+ "' not found"))
             "failed to validate connection type")
    (fetch_one data_connection_types (fun r => id_is type_id r && visible_to tenant r)) ;?
  mret tt.

Definition with_tenant (t : option string) (m : ResourceMetadata) : ResourceMetadata :=
  {| id := id m; tenant_id := t; created_at := created_at m; updated_at := updated_at m |}.

Definition touch (now : string) (m : ResourceMetadata) : ResourceMetadata :=
  {| id := id m; tenant_id := tenant_id m; created_at := created_at m; updated_at := now |}.

(** Discards the tenant of a global connection type. *)
Definition hide_global (d : DataConnectionTypeResource) : DataConnectionTypeResource :=
  if bool_decide (tenant_id (dct_metadata d) = Some global_tenant_id)
  then {| dct_metadata := with_tenant None (dct_metadata d);
          dct_resource := dct_resource d; dct_status := dct_status d |}
  else d.

Definition deserialize_connection_type (v : json) : option DataConnectionTypeResource :=
  hide_global <$> from_value v.

(** ** MetaStoreReader *)

Definition get_data_connections (tenant : string)
    : M Store MetaStoreError (ResourceList DataConnectionResource) :=
  let? rs := map_err (query_error "failed to list data connections")
               (fetch_all data_connections (tenant_is tenant)) in
  let? l := lift (collect (decode bad_connection) rs) in
  mret (resource_list l).

Definition get_data_connection (tenant uid : string)
    : M Store MetaStoreError DataConnectionResource :=
  let? r := map_err (row_error (data_connection_not_found uid)
                       "failed to retrieve data connection")
              (fetch_one data_connections (fun r => id_is uid r && tenant_is tenant r)) in
  lift (decode bad_connection r).

Definition get_data_connection_types (tenant : string)
    : M Store MetaStoreError (ResourceList DataConnectionTypeResource) :=
  let? rs := map_err (query_error "failed to list connection types")
               (fetch_all data_connection_types (visible_to tenant)) in
  mret (resource_list (omap deserialize_connection_type rs)).

Definition get_data_connection_type (tenant uid : string)
    : M Store MetaStoreError DataConnectionTypeResource :=
  let? r := map_err (row_error (connection_type_not_found uid)
                       "failed to retrieve connection type")
              (fetch_one data_connection_types (fun r => id_is uid r && visible_to tenant r)) in
  lift (decode bad_type r).

(** ** MetaStore: connections *)

Definition create_data_connection (tenant : string) (dc : DataConnection)
    : M Store MetaStoreError DataConnectionResource :=
  in_tx (query_error "failed to create data connection") (
    validate_connection_type tenant (data_connection_type_id dc) ;?
    let? now := utc_now in
    let? uid := new_uuid in
    let resource :=
      {| dc_metadata := {| id := uid; tenant_id := Some tenant;
                           created_at := now; updated_at := now |};
         dc_resource := dc;
         dc_status := {| state := NotReady; message := None;
                         status_updated_at := Some now |} |} in
    map_err map_sqlx_error (insert_row data_connections (to_value resource)) ;?
    mret resource).

Definition update_data_connection (tenant uid : string)
    (update_fn : DataConnection -> result MetaStoreError DataConnection)
    : M Store MetaStoreError DataConnectionResource :=
  let p r := id_is uid r && tenant_is tenant r in
  in_tx (query_error "failed to update data connection") (
    let? r := map_err (row_error (data_connection_not_found uid)
                         "failed to update data connection")
                (fetch_one data_connections p) in
    let? existing := lift (decode (A:=DataConnectionResource) bad_connection r) in
    let? dc := lift (update_fn (dc_resource existing)) in
    validate_connection_type tenant (data_connection_type_id dc) ;?
    let? now := utc_now in
    let resource :=
      {| dc_metadata := touch now (dc_metadata existing);
         dc_resource := dc;
         dc_status := dc_status existing |} in
    map_err (query_error "failed to update data connection")
      (update_rows data_connections p (to_value resource)) ;?
    mret resource).

Definition update_data_connection_status (tenant uid : string)
    (update_fn : DataConnectionStatus -> result MetaStoreError DataConnectionStatus)
    : M Store MetaStoreError DataConnectionResource :=
  let p r := id_is uid r && tenant_is tenant r in
  in_tx (query_error "failed to update data connection status") (
    let? r := map_err (row_error (data_connection_not_found uid)
                         "failed to update data connection status")
                (fetch_one data_connections p) in
    let? existing := lift (decode (A:=DataConnectionResource) bad_connection r) in
    let? status := lift (update_fn (dc_status existing)) in
    let? now := utc_now in
    let resource :=
      {| dc_metadata := touch now (dc_metadata existing);
         dc_resource := dc_resource existing;
         dc_status := status |} in
    map_err (query_error "failed to update data connection status")
      (update_rows data_connections p (to_value resource)) ;?
    mret resource).

Definition delete_data_connection (tenant uid : string) : M Store MetaStoreError unit :=
  let? n := map_err (query_error "failed to delete data connection")
              (delete_rows data_connections (fun r => id_is uid r && tenant_is tenant r)) in
  if n =? 0 then throw (data_connection_not_found uid) else mret tt.

(** ** MetaStore: connection types *)

Definition get_all_data_connection_types
    : M Store MetaStoreError (ResourceList DataConnectionTypeResource) :=
  let? rs := map_err (query_error "failed to list connection types")
               (fetch_all data_connection_types (fun _ => true)) in
  let? l := lift (collect (fun v => rmap hide_global (decode bad_type v)) rs) in
  mret (resource_list l).

Definition create_data_connection_type (tenant : string) (t : DataConnectionType)
    : M Store MetaStoreError DataConnectionTypeResource :=
  let? now := utc_now in
  let? uid := new_uuid in
  let resource :=
    {| dct_metadata := {| id := uid; tenant_id := Some tenant;
                          created_at := now; updated_at := now |};
       dct_resource := t;
       dct_status := DataConnectionTypeStatus_default |} in
  map_err (fun e => match map_sqlx_error e with
                    | Conflict _ => Conflict ("a connection type named '" +:+ type_name t +:+
                                              "' already exists for this tenant")
                    | other => other
                    end)
    (insert_row data_connection_types (to_value resource)) ;?
  mret resource.

Definition update_data_connection_type (tenant uid : string)
    (update_fn : DataConnectionType -> result MetaStoreError DataConnectionType)
    : M Store MetaStoreError DataConnectionTypeResource :=
  let p r := id_is uid r && tenant_is tenant r in
  in_tx (query_error "failed to update connection type") (
    let? r := map_err (row_error (connection_type_not_found uid)
                         "failed to update connection type")
                (fetch_one data_connection_types p) in
    let? existing := lift (decode (A:=DataConnectionTypeResource) bad_type r) in
    let? t := lift (update_fn (dct_resource existing)) in
    let? now := utc_now in
    let resource :=
      {| dct_metadata := touch now (dct_metadata existing);
         dct_resource := t;
         dct_status := dct_status existing |} in
    map_err (query_error "failed to update connection type")
      (update_rows data_connection_types p (to_value resource)) ;?
    mret resource).

Definition update_data_connection_type_status (uid : string)
    (update_fn : DataConnectionTypeStatus -> result MetaStoreError DataConnectionTypeStatus)
    : M Store MetaStoreError DataConnectionTypeResource :=
  in_tx (query_error "failed to update connection type status") (
    let? r := map_err (row_error (connection_type_not_found uid)
                         "failed to update connection type status")
                (fetch_one data_connection_types (id_is uid)) in
    let? existing := lift (decode (A:=DataConnectionTypeResource) bad_type r) in
    let? status := lift (update_fn (dct_status existing)) in
    let? now := utc_now in
    let resource :=
      {| dct_metadata := touch now (dct_metadata existing);
         dct_resource := dct_resource existing;
         dct_status := status |} in
    map_err (query_error "failed to update connection type status")
      (update_rows data_connection_types (id_is uid) (to_value resource)) ;?
    mret resource).

Definition delete_data_connection_type (tenant uid : string) : M Store MetaStoreError unit :=
  let p r := id_is uid r && tenant_is tenant r in
  in_tx (query_error "failed to delete connection type") (
    map_err (row_error (connection_type_not_found uid) "failed to delete connection type")
      (fetch_one data_connection_types p) ;?
    let? n := map_err (query_error "failed to delete connection type")
                (count data_connections (fun r => sql_eq (row_type_id r) uid)) in
    if 0 <? n then throw (Conflict (connection_type_in_use_message uid n))
    else
      let? k := map_err (query_error "failed to delete connection type")
                  (delete_rows data_connection_types p) in
      if k =? 0 then throw (connection_type_not_found uid) else mret tt).

(** ** FlightDiscoveryStore *)

Definition create_flight_service (fs : FlightService)
    : M Store MetaStoreError FlightServiceResource :=
  let? now := utc_now in
  let? uid := new_uuid in
  let resource :=
    {| fsr_metadata := {| id := uid; tenant_id := None; created_at := now; updated_at := now |};
       fsr_resource := fs |} in
  map_err (fun e => match map_sqlx_error e with
                    | Conflict _ =>
                        Conflict ("a flight service named '" +:+ fs_name fs +:+
                                  "' already exists in namespace '" +:+ namespace fs +:+ "'")
                    | other => other
                    end)
    (insert_row flight_services (to_value resource)) ;?
  mret resource.

Definition get_all_flight_services
    : M Store MetaStoreError (ResourceList FlightServiceResource) :=
  let? rs := map_err (query_error "failed to list flight services")
               (fetch_all flight_services (fun _ => true)) in
  let? l := lift (collect (decode bad_flight) rs) in
  mret (resource_list l).

Definition get_flight_service_by_connector (connector : string)
    : M Store MetaStoreError FlightServiceResource :=
  let? r := map_err (row_error
                       (ResourceNotFound ("no flight service supports connector '" +:+
                                          connector +:+ "'"))
                       "failed to retrieve flight service")
              (fetch_one flight_services (contains_connector connector)) in
  lift (decode bad_flight r).

Definition get_flight_service (uid : string) : M Store MetaStoreError FlightServiceResource :=
  let? r := map_err (row_error (flight_service_not_found uid)
                       "failed to retrieve flight service")
              (fetch_one flight_services (id_is uid)) in
  lift (decode bad_flight r).

Definition update_flight_service (uid : string)
    (update_fn : FlightService -> result MetaStoreError FlightService)
    : M Store MetaStoreError FlightServiceResource :=
  in_tx (query_error "failed to update flight service") (
    let? r := map_err (row_error (flight_service_not_found uid)
                         "failed to update flight service")
                (fetch_one flight_services (id_is uid)) in
    let? existing := lift (decode (A:=FlightServiceResource) bad_flight r) in
    let uid' := id (fsr_metadata existing) in
    let? fs := lift (update_fn (fsr_resource existing)) in
    let? now := utc_now in
    let resource :=
      {| fsr_metadata := touch now (fsr_metadata existing); fsr_resource := fs |} in
    map_err (query_error "failed to update flight service")
      (update_rows flight_services (id_is uid') (to_value resource)) ;?
    mret resource).

Definition delete_flight_service (uid : string) : M Store MetaStoreError unit :=
  let? n := map_err (query_error "failed to delete flight service")
              (delete_rows flight_services (id_is uid)) in
  if n =? 0 then throw (flight_service_not_found uid) else mret tt.

End PgMetaStore.

Ltac inv_decode :=
  match goal with
  | H : decode _ _ = Ok _ |- _ => unfold decode in H; apply ok_or_ok in H
  end.

Ltac inv_validate L :=
  match goal with
  | H : validate_connection_type _ _ _ _ = (Ok _, _) |- _ =>
      let Ht := fresh "Hvalid" in let Hd := fresh "Hdb" in
      apply L in H; destruct H as [Ht Hd]
  end.
