(* ===== verification/MetaStoreInv.v ===== *)
(** Invariants of the metadata store: its unique indexes hold and every stored
    connection references a connection type its tenant may use, after any
    sequence of store operations and under any pattern of database failures. *)
From S2P Require Import Prelude Text Json Sql Api MetaStore.

Section Inv.
Context `{O : Oracle}.
Variable global_tenant_id : string.

(** ** The invariant *)

Definition unique_db (d : Db) : Prop := forall t, unique_rows t (rows t d) = true.

(** The type row a connection row of tenant [t] with type [ty] relies on. *)
Definition has_type (d : Db) (t ty : string) : Prop :=
  exists r, r ∈ types d /\ row_id r = Some ty /\ visible_to global_tenant_id t r = true.

(** Every connection row is a serialised connection of some tenant, whose type
    exists and is visible to that tenant. *)
Definition conn_ok (d : Db) (r : json) : Prop :=
  exists c t, r = to_value c /\ tenant_id (dc_metadata c) = Some t /\
    has_type d t (data_connection_type_id (dc_resource c)).

Definition refs_ok (d : Db) : Prop := Forall (conn_ok d) (conns d).

Definition db_wf (d : Db) : Prop := unique_db d /\ refs_ok d.

(** ** Requests: the operations of the store as data *)

Inductive request : Type :=
| GetDataConnections (tenant : string)
| GetDataConnection (tenant uid : string)
| GetDataConnectionTypes (tenant : string)
| GetDataConnectionType (tenant uid : string)
| CreateDataConnection (tenant : string) (dc : DataConnection)
| UpdateDataConnection (tenant uid : string)
    (f : DataConnection -> result MetaStoreError DataConnection)
| UpdateDataConnectionStatus (tenant uid : string)
    (f : DataConnectionStatus -> result MetaStoreError DataConnectionStatus)
| DeleteDataConnection (tenant uid : string)
| GetAllDataConnectionTypes
| CreateDataConnectionType (tenant : string) (t : DataConnectionType)
| UpdateDataConnectionType (tenant uid : string)
    (f : DataConnectionType -> result MetaStoreError DataConnectionType)
| UpdateDataConnectionTypeStatus (uid : string)
    (f : DataConnectionTypeStatus -> result MetaStoreError DataConnectionTypeStatus)
| DeleteDataConnectionType (tenant uid : string)
| CreateFlightService (fs : FlightService)
| GetAllFlightServices
| GetFlightServiceByConnector (connector : string)
| GetFlightService (uid : string)
| UpdateFlightService (uid : string) (f : FlightService -> result MetaStoreError FlightService)
| DeleteFlightService (uid : string).

(** Runs one request: the outcome as success or error, and the store left. *)
Definition outcome {A} (m : M Store MetaStoreError A) (w : Store)
    : result MetaStoreError unit * Store :=
  let (r, w') := m w in (rmap (fun _ => tt) r, w').

Definition exec (q : request) : Store -> result MetaStoreError unit * Store :=
  let g := global_tenant_id in
  match q with
  | GetDataConnections t => outcome (get_data_connections t)
  | GetDataConnection t u => outcome (get_data_connection t u)
  | GetDataConnectionTypes t => outcome (get_data_connection_types g t)
  | GetDataConnectionType t u => outcome (get_data_connection_type g t u)
  | CreateDataConnection t dc => outcome (create_data_connection g t dc)
  | UpdateDataConnection t u f => outcome (update_data_connection g t u f)
  | UpdateDataConnectionStatus t u f => outcome (update_data_connection_status t u f)
  | DeleteDataConnection t u => outcome (delete_data_connection t u)
  | GetAllDataConnectionTypes => outcome (get_all_data_connection_types g)
  | CreateDataConnectionType t ty => outcome (create_data_connection_type t ty)
  | UpdateDataConnectionType t u f => outcome (update_data_connection_type t u f)
  | UpdateDataConnectionTypeStatus u f => outcome (update_data_connection_type_status u f)
  | DeleteDataConnectionType t u => outcome (delete_data_connection_type t u)
  | CreateFlightService fs => outcome (create_flight_service fs)
  | GetAllFlightServices => outcome get_all_flight_services
  | GetFlightServiceByConnector c => outcome (get_flight_service_by_connector c)
  | GetFlightService u => outcome (get_flight_service u)
  | UpdateFlightService u f => outcome (update_flight_service u f)
  | DeleteFlightService u => outcome (delete_flight_service u)
  end.

Fixpoint run (qs : list request) (w : Store) : Store :=
  match qs with
  | [] => w
  | q :: r => run r (snd (exec q w))
  end.

(** ** Columns of serialised and of decoded rows *)

Lemma column_metadata (m : ResourceMetadata) l :
  row_id (obj (("metadata", Some (to_value m)) :: l)) = Some (id m) /\
  row_tenant (obj (("metadata", Some (to_value m)) :: l)) = tenant_id m.
Proof.
  unfold row_id, row_tenant, column, obj, jget. rewrite fields_lookup. cbn [assoc].
  rewrite String.eqb_refl. cbn [mbind option_bind]. cbn [to_value serde_metadata]. unfold obj.
  rewrite !fields_lookup. cbn [assoc String.eqb Ascii.eqb Bool.eqb].
  destruct (tenant_id m); done.
Qed.

Lemma row_id_conn c : row_id (to_value c) = Some (id (dc_metadata c)).
Proof. apply (column_metadata _ _). Qed.
Lemma row_tenant_conn c : row_tenant (to_value c) = tenant_id (dc_metadata c).
Proof. apply (column_metadata _ _). Qed.
Lemma row_id_type t : row_id (to_value t) = Some (id (dct_metadata t)).
Proof. apply (column_metadata _ _). Qed.
Lemma row_tenant_type t : row_tenant (to_value t) = tenant_id (dct_metadata t).
Proof. apply (column_metadata _ _). Qed.
Lemma row_id_flight f : row_id (to_value f) = Some (id (fsr_metadata f)).
Proof. apply (column_metadata _ _). Qed.

Lemma row_name_conn c : row_name (to_value c) = Some (name (dc_resource c)).
Proof.
  unfold row_name, column. cbn [to_value serde_connection_resource]. unfold obj, jget.
  rewrite fields_lookup. cbn [assoc String.eqb Ascii.eqb Bool.eqb mbind option_bind].
  cbn [to_value serde_data_connection]. unfold obj. by rewrite fields_lookup.
Qed.

Lemma row_type_id_conn c :
  row_type_id (to_value c) = Some (data_connection_type_id (dc_resource c)).
Proof.
  unfold row_type_id, column. cbn [to_value serde_connection_resource]. unfold obj, jget.
  rewrite fields_lookup. cbn [assoc String.eqb Ascii.eqb Bool.eqb mbind option_bind].
  cbn [to_value serde_data_connection]. unfold obj. rewrite fields_lookup.
  cbn [assoc String.eqb Ascii.eqb Bool.eqb]. done.
Qed.

(** The metadata of a decoded row are those its columns show. *)
Lemma metadata_columns v m s :
  from_value v = Some m ->
  (text (jget "id" v) = Some s -> id m = s) /\
  (text (jget "tenant_id" v) = Some s -> tenant_id m = Some s).
Proof.
  destruct v as [| | | |l|f]; try (cbn; done). cbn [from_value serde_metadata as_struct].
  cbn [mbind option_bind]. unfold req, opt, jget. intros H.
  destruct (f !! "id") as [[]|]; simplify_eq/=.
  destruct (f !! "tenant_id") as [[]|]; simplify_eq/=;
  destruct (f !! "created_at") as [[]|]; simplify_eq/=;
  destruct (f !! "updated_at") as [[]|]; simplify_eq/=; naive_solver.
Qed.
Lemma decoded_metadata f md s :
  req "metadata" f = Some md ->
  (row_id (JObject f) = Some s -> id md = s) /\
  (row_tenant (JObject f) = Some s -> tenant_id md = Some s).
Proof.
  unfold req, row_id, row_tenant, column. cbn [jget]. destruct (f !! "metadata") as [v|]; [|done].
  cbn [mbind option_bind]. apply metadata_columns.
Qed.

Lemma decoded_type r t s :
  from_value r = Some t ->
  (row_id r = Some s -> id (dct_metadata t) = s) /\
  (row_tenant r = Some s -> tenant_id (dct_metadata t) = Some s).
Proof.
  destruct r as [| | | |l|f]; try (cbn; done). cbn [from_value serde_type_resource as_struct].
  cbn [mbind option_bind]. intros H.
  destruct (req "metadata" f) as [md|] eqn:Hm; [|done]. cbn in H.
  destruct (req "resource" f); [|done]. cbn in H. destruct (dflt _ _ _); [|done].
  cbn in H. injection H as <-. by apply decoded_metadata.
Qed.

Lemma decoded_conn r c s :
  from_value r = Some c ->
  (row_id r = Some s -> id (dc_metadata c) = s) /\
  (row_tenant r = Some s -> tenant_id (dc_metadata c) = Some s).
Proof.
  destruct r as [| | | |l|f]; try (cbn; done). cbn [from_value serde_connection_resource as_struct].
  cbn [mbind option_bind]. intros H.
  destruct (req "metadata" f) as [md|] eqn:Hm; [|done]. cbn in H.
  destruct (req "resource" f); [|done]. cbn in H. destruct (dflt _ _ _); [|done].
  cbn in H. injection H as <-. by apply decoded_metadata.
Qed.

(** ** Preservation, statement by statement *)

Lemma unique_db_set t l d : unique_db d -> unique_rows t l = true -> unique_db (set_rows t l d).
Proof.
  intros Hd Hl t'. destruct (decide (t' = t)) as [->|]; [by rewrite rows_set_rows|].
  by rewrite rows_set_rows_ne.
Qed.

(** Type rows only have to keep covering the connections. *)
Lemma refs_ok_mono d d' :
  conns d' = conns d -> (forall t ty, has_type d t ty -> has_type d' t ty) ->
  refs_ok d -> refs_ok d'.
Proof.
  unfold refs_ok. intros -> Ht H. eapply Forall_impl; [exact H|]. clear H. intros r (c & t & -> & Hc & H).
  exists c, t. auto.
Qed.

Lemma conn_ok_conns d l r : conn_ok d r <-> conn_ok (set_rows data_connections l d) r.
Proof. done. Qed.

Lemma find_some {A} (p : A -> bool) l x : List.find p l = Some x -> x ∈ l /\ p x = true.
Proof. intros H. apply List.find_some in H. by rewrite list_elem_of_In. Qed.

Lemma find_unique t l p r x y :
  unique_rows t l = true -> List.find p l = Some r -> y ∈ l ->
  row_id r = Some x -> row_id y = Some x -> y = r.
Proof.
  intros Hu Hf Hy Hr Hx. apply find_some in Hf as [Hin _]. eauto using unique_rows_id.
Qed.

Lemma validate_ok t ty w u w' :
  validate_connection_type global_tenant_id t ty w = (Ok u, w') ->
  has_type (db w) t ty /\ db w' = db w.
Proof.
  unfold validate_connection_type. intros H. inv_ok.
  apply fetch_one_ok in Hrun as [Hf ->]. split; [|done].
  apply find_some in Hf as [Hin Hp]. apply andb_true_iff in Hp as [Hi Hv].
  exists a. split_and!; auto. by apply sql_eq_true.
Qed.

Lemma wf_insert_conn d c t :
  db_wf d -> existsb (collide data_connections (to_value c)) (conns d) = false ->
  tenant_id (dc_metadata c) = Some t -> has_type d t (data_connection_type_id (dc_resource c)) ->
  db_wf (set_rows data_connections (conns d ++ [to_value c]) d).
Proof.
  intros [Hu Hr] Hc Ht Hty. split.
  - apply unique_db_set; [done|]. apply unique_rows_app; [apply (Hu data_connections)|done].
  - unfold refs_ok. cbn. apply Forall_app. split; [done|].
    constructor; [|constructor]. by exists c, t.
Qed.

Lemma wf_update_conns d (p : json -> bool) c t :
  db_wf d -> unique_rows data_connections ((fun x : json => if p x then to_value c else x) <$> conns d) = true ->
  tenant_id (dc_metadata c) = Some t -> has_type d t (data_connection_type_id (dc_resource c)) ->
  db_wf (set_rows data_connections ((fun x : json => if p x then to_value c else x) <$> conns d) d).
Proof.
  intros [Hu Hr] Hc Ht Hty. split; [by apply unique_db_set|].
  unfold refs_ok in *. cbn. rewrite Forall_fmap. eapply Forall_impl; [exact Hr|].
  intros r Hok. cbn. destruct (p r); [by exists c, t | done].
Qed.

Lemma wf_delete_conns d (p : json -> bool) :
  db_wf d -> db_wf (set_rows data_connections (List.filter p (conns d)) d).
Proof.
  intros [Hu Hr]. split.
  - apply unique_db_set; [done|]. apply unique_rows_filter, (Hu data_connections).
  - unfold refs_ok in *. cbn. rewrite Forall_forall in *. intros r Hin.
    apply (Hr r). apply list_elem_of_In in Hin. apply filter_In in Hin as [Hin _].
    by apply list_elem_of_In.
Qed.

Lemma wf_insert_type d r :
  db_wf d -> existsb (collide data_connection_types r) (types d) = false ->
  db_wf (set_rows data_connection_types (types d ++ [r]) d).
Proof.
  intros [Hu Hr] Hc. split.
  - apply unique_db_set; [done|]. apply unique_rows_app; [apply (Hu data_connection_types)|done].
  - apply (refs_ok_mono d); [done| |exact Hr]. intros t ty (x & Hx & H).
    exists x. split; [|done]. cbn. set_solver.
Qed.

(** Rewriting the one row [r0] that [p] selects by a row with the same id and
    tenant. *)
Lemma wf_update_type d (p : json -> bool) r0 r :
  db_wf d -> unique_rows data_connection_types ((fun x : json => if p x then r else x) <$> types d) = true ->
  (forall x, x ∈ types d -> p x = true -> x = r0) -> row_id r = row_id r0 ->
  (forall s, row_tenant r0 = Some s -> row_tenant r = Some s) ->
  db_wf (set_rows data_connection_types ((fun x : json => if p x then r else x) <$> types d) d).
Proof.
  intros [Hu Hr] Hc Hp Hid Hten. split; [by apply unique_db_set|].
  apply (refs_ok_mono d); [done| |exact Hr]. intros t ty (x & Hx & Hxi & Hv).
  exists (if p x then r else x). split.
  { cbn. apply list_elem_of_fmap. eauto. }
  destruct (p x) eqn:E; [|done]. specialize (Hp x Hx E). subst x.
  split; [congruence|]. unfold visible_to, tenant_is in *.
  apply orb_true_iff in Hv. apply orb_true_iff. rewrite !sql_eq_true in *. naive_solver.
Qed.

(** Deleting a type nothing references. *)
Lemma wf_delete_type d uid (p : json -> bool) :
  db_wf d -> List.filter (fun r => sql_eq (row_type_id r) uid) (conns d) = [] ->
  (forall x, p x = true -> row_id x = Some uid) ->
  db_wf (set_rows data_connection_types (List.filter (fun r => negb (p r)) (types d)) d).
Proof.
  intros [Hu Hr] Hn Hp. split.
  { apply unique_db_set; [done|]. apply unique_rows_filter, (Hu data_connection_types). }
  unfold refs_ok in *. cbn. rewrite Forall_forall in *. intros r Hin.
  destruct (Hr r Hin) as (c & t & -> & Ht & x & Hx & Hxi & Hv).
  exists c, t. split_and!; auto. exists x. split_and!; auto. cbn.
  apply list_elem_of_In, filter_In. rewrite <- list_elem_of_In. split; [done|].
  destruct (p x) eqn:E; [|done]. apply Hp in E.
  assert (Hf : In (to_value c) (List.filter (fun r => sql_eq (row_type_id r) uid) (conns d))).
  { apply filter_In. rewrite <- list_elem_of_In. split; [done|]. apply sql_eq_true.
    rewrite row_type_id_conn. congruence. }
  by rewrite Hn in Hf.
Qed.

Lemma wf_flights d l :
  db_wf d -> unique_rows flight_services l = true -> db_wf (set_rows flight_services l d).
Proof. intros [Hu Hr] Hl. split; [by apply unique_db_set|done]. Qed.

(** ** Preservation, operation by operation *)

Definition wf_step (d d' : Db) : Prop := db_wf d -> db_wf d'.

#[local] Instance wf_step_preorder : PreOrder wf_step.
Proof. split; unfold wf_step; [intros ?; auto | intros ???; auto]. Qed.

Abbreviation keeps_wf := (on_db wf_step).

Lemma steps_insert_type r : steps keeps_wf (insert_row data_connection_types r).
Proof.
  apply (steps_db_call wf_step). intros d a d'. destruct (existsb _ _) eqn:E; [done|].
  intros [= <- <-] Hd. by apply wf_insert_type.
Qed.

Lemma steps_insert_flight r : steps keeps_wf (insert_row flight_services r).
Proof.
  apply (steps_db_call wf_step). intros d a d'. destruct (existsb _ _) eqn:E; [done|].
  intros [= <- <-] Hd. apply wf_flights; [done|]. apply unique_rows_app; [apply Hd|done].
Qed.

Lemma steps_delete_conns p : steps keeps_wf (delete_rows data_connections p).
Proof. apply (steps_db_call wf_step). intros d a d' [= <- <-] Hd. by apply wf_delete_conns. Qed.

Lemma steps_delete_flights p : steps keeps_wf (delete_rows flight_services p).
Proof.
  apply (steps_db_call wf_step). intros d a d' [= <- <-] Hd.
  apply wf_flights; [done|]. apply unique_rows_filter, Hd.
Qed.

#[local] Hint Resolve wf_step_preorder on_db_preorder steps_insert_type steps_insert_flight steps_delete_conns steps_delete_flights : dch.

Lemma create_data_connection_wf t dc :
  steps keeps_wf (create_data_connection global_tenant_id t dc).
Proof.
  apply (steps_in_tx wf_step). intros w a w' H Hw. inv_sql. inv_validate validate_ok. chase_db.
  by eapply wf_insert_conn.
Qed.

(** The connection a row of a well-formed database decodes to. *)
Lemma decode_conn_wf d uid t r c :
  db_wf d ->
  List.find (fun r => id_is uid r && tenant_is t r) (conns d) = Some r ->
  from_value r = Some c ->
  r = to_value c /\ id (dc_metadata c) = uid /\ tenant_id (dc_metadata c) = Some t /\
  has_type d t (data_connection_type_id (dc_resource c)).
Proof.
  intros [_ Hr] Hf Hd. apply find_some in Hf as [Hin Hp].
  unfold refs_ok in Hr. rewrite Forall_forall in Hr.
  destruct (Hr r Hin) as (c' & t' & -> & Ht & Hty). rewrite serde_roundtrip in Hd.
  injection Hd as ->. apply andb_true_iff in Hp as [Hi Hp].
  unfold id_is, tenant_is in *. rewrite sql_eq_true, ?row_id_conn, ?row_tenant_conn in *.
  rewrite Ht in Hp. simplify_eq. auto.
Qed.

Ltac decode_conn :=
  match goal with
  | Hw : db_wf _, Hf : List.find _ _ = Some ?r, Hd : decode _ ?r = Ok _ |- _ =>
      let Hr := fresh "Hrow" in let Hi := fresh "Hid" in
      let Ht := fresh "Hten" in let Hty := fresh "Hty" in
      unfold decode in Hd; apply ok_or_ok in Hd;
      destruct (decode_conn_wf _ _ _ _ _ Hw Hf Hd) as (Hr & Hi & Ht & Hty)
  end.

Lemma update_data_connection_wf t uid f :
  steps keeps_wf (update_data_connection global_tenant_id t uid f).
Proof.
  apply (steps_in_tx wf_step). intros w a w' H Hw. inv_sql. inv_validate validate_ok. chase_db. decode_conn.
  by eapply wf_update_conns.
Qed.

Lemma update_data_connection_status_wf t uid f :
  steps keeps_wf (update_data_connection_status t uid f).
Proof.
  apply (steps_in_tx wf_step). intros w a w' H Hw. inv_sql. chase_db. decode_conn.
  by eapply wf_update_conns.
Qed.

(** A type row that [p] selects by id, decoded and rewritten with new contents. *)
Lemma wf_rewrite_type d uid (p : json -> bool) r t now ty st :
  db_wf d -> (forall x, p x = true -> row_id x = Some uid) ->
  List.find p (types d) = Some r -> from_value r = Some t ->
  let r' := to_value {| dct_metadata := touch now (dct_metadata t);
                        dct_resource := ty; dct_status := st |} in
  unique_rows data_connection_types ((fun x : json => if p x then r' else x) <$> types d) = true ->
  db_wf (set_rows data_connection_types ((fun x : json => if p x then r' else x) <$> types d) d).
Proof.
  intros Hw Hp Hf Hd r' Hu. pose proof (find_some _ _ _ Hf) as [_ Hpr].
  apply (wf_update_type _ _ r); auto.
  - intros x Hx Hpx.
    eapply (find_unique data_connection_types (types d)); eauto.
    apply (proj1 Hw data_connection_types).
  - unfold r'. rewrite row_id_type. cbn. rewrite (Hp r Hpr). f_equal.
    apply (decoded_type r t uid); auto.
  - intros s Hs. unfold r'. rewrite row_tenant_type. cbn. by apply (decoded_type r t s).
Qed.

Lemma id_and_tenant uid t x : id_is uid x && tenant_is t x = true -> row_id x = Some uid.
Proof. rewrite andb_true_iff. unfold id_is. rewrite sql_eq_true. by intros []. Qed.

Lemma update_data_connection_type_wf t uid f :
  steps keeps_wf (update_data_connection_type t uid f).
Proof.
  apply (steps_in_tx wf_step). intros w a w' H Hw. inv_sql. chase_db. inv_decode.
  eapply wf_rewrite_type; eauto using id_and_tenant.
Qed.

Lemma update_data_connection_type_status_wf uid f :
  steps keeps_wf (update_data_connection_type_status uid f).
Proof.
  apply (steps_in_tx wf_step). intros w a w' H Hw. inv_sql. chase_db. inv_decode.
  eapply wf_rewrite_type; eauto. intros x. by apply sql_eq_true.
Qed.

Lemma delete_data_connection_type_wf t uid :
  steps keeps_wf (delete_data_connection_type t uid).
Proof.
  apply (steps_in_tx wf_step). intros w a w' H Hw. inv_sql.
  destruct (0 <? a1) eqn:Hn; inv_sql.
  destruct (a2 =? 0); inv_sql. chase_db.
  apply Nat.ltb_ge in Hn. subst a1. eapply wf_delete_type; eauto using id_and_tenant.
  destruct (List.filter _ _); [done|cbn in Hn; lia].
Qed.

Lemma update_flight_service_wf uid f : steps keeps_wf (update_flight_service uid f).
Proof.
  apply (steps_in_tx wf_step). intros w a w' H Hw. inv_sql. chase_db. by apply wf_flights.
Qed.

Lemma outcome_steps {A} (m : M Store MetaStoreError A) w :
  steps keeps_wf m -> db_wf (db w) -> db_wf (db (snd (outcome m w))).
Proof. intros Hm. specialize (Hm w). unfold outcome. by destruct (m w). Qed.

#[local] Hint Resolve create_data_connection_wf update_data_connection_wf
  update_data_connection_status_wf update_data_connection_type_wf
  update_data_connection_type_status_wf delete_data_connection_type_wf
  update_flight_service_wf : dch.

Lemma exec_wf q w : db_wf (db w) -> db_wf (db (snd (exec q w))).
Proof.
  intros Hw. destruct q; cbn; apply outcome_steps; auto with dch;
    unfold get_data_connections, get_data_connection, get_data_connection_types,
      get_data_connection_type, delete_data_connection, get_all_data_connection_types,
      create_data_connection_type, create_flight_service, get_all_flight_services,
      get_flight_service_by_connector, get_flight_service, delete_flight_service;
    auto 10 with dch.
Qed.

End Inv.
