(* ===== verification/MetaStoreAtomic.v ===== *)
(** Failure atomicity of the metadata store: whatever statement fails, and
    whether or not the failing statement took effect, a request leaves either
    the database it found or the one its fault-free run leaves. *)
From S2P Require Import Prelude Text Json Sql Api MetaStore MetaStoreInv.

(** The same environment without database failures. *)
Definition quiet (O : Oracle) : Oracle :=
  {| db_fault _ := None; now_at := now_at; uuid_at := uuid_at; jsonb_text := jsonb_text |}.

(** ** Successful runs do not depend on the failure pattern *)

Definition ok_mono {A E} (m m' : M Store E A) : Prop :=
  forall w a w', m w = (Ok a, w') -> m' w = (Ok a, w').

Lemma ok_mono_refl {A E} (m : M Store E A) : ok_mono m m.
Proof. by intros w a w'. Qed.

Lemma ok_mono_mseq {A B E} (m m' : M Store E A) (f f' : A -> M Store E B) :
  ok_mono m m' -> (forall a, ok_mono (f a) (f' a)) -> ok_mono (mseq m f) (mseq m' f').
Proof.
  intros Hm Hf w b w' H. apply mseq_ok in H as (a & w1 & H1 & H2).
  unfold mseq. rewrite (Hm _ _ _ H1). by apply Hf.
Qed.

Lemma ok_mono_map_err {A E F} (g : E -> F) (m m' : M Store E A) :
  ok_mono m m' -> ok_mono (map_err g m) (map_err g m').
Proof.
  intros Hm w a w' H. apply map_err_ok in H. unfold map_err. by rewrite (Hm _ _ _ H).
Qed.

Lemma ok_mono_if {A E} (b : bool) (m m' n n' : M Store E A) :
  ok_mono m m' -> ok_mono n n' -> ok_mono (if b then m else n) (if b then m' else n').
Proof. by destruct b. Qed.

Section Atomic.
Context `{O : Oracle}.

Lemma ok_mono_db_call {A} (f : Db -> result sqlx_error (A * Db)) :
  ok_mono (db_call f) (@db_call (quiet O) A f).
Proof.
  intros w a w' H. unfold db_call in *. cbn [db_fault quiet].
  destruct (db_fault (tick w)), (f (db w)) as [[]|]; simplify_eq/=; done.
Qed.

(** ** Transactions *)

(** [m] leaves the database alone or as the fault-free [m'] leaves it. *)
Definition all_or_nothing {A E} (m m' : M Store E A) : Prop :=
  forall w, db (snd (m w)) = db w \/
    exists a, fst (m' w) = Ok a /\ db (snd (m w)) = db (snd (m' w)).

Lemma all_or_nothing_tx {A E} (e : sqlx_error -> E) (b b' : M Store E A) :
  ok_mono b b' -> all_or_nothing (in_tx e b) (@in_tx (quiet O) E A e b').
Proof.
  intros Hb w. destruct (in_tx e b w) as [r w'] eqn:H. cbn.
  apply in_tx_cases in H as [[? _]|(a & w2 & Hrun & Hdb & _)]; [by left|right].
  exists a. apply Hb in Hrun. unfold in_tx, map_err, db_call. cbn. by rewrite Hrun.
Qed.

(** Reads. *)
Lemma all_or_nothing_read {A E} (m m' : M Store E A) :
  steps (on_db eq) m -> all_or_nothing m m'.
Proof. intros H w. left. symmetry. apply H. Qed.

(** A single statement after clock and UUID calls, which a success ends. *)
Lemma all_or_nothing_stmt {A B E} (g : sqlx_error -> E) f (k : A -> M Store E B) :
  (forall a w, db (snd (k a w)) = db w) ->
  (forall d a d', f d = Ok (a, d') ->
     d' = d \/ forall w, exists b, fst (k a w) = Ok b) ->
  all_or_nothing (let? a := map_err g (db_call f) in k a)
                 (let? a := map_err g (@db_call (quiet O) A f) in k a).
Proof.
  intros Hk Hf w. unfold mseq, map_err, db_call. cbn [db_fault quiet].
  destruct (db_fault (tick w)) as [flt|], (f (db w)) as [[a d]|x] eqn:Ef; cbn; auto.
  - destruct (f_applied flt); [|by left].
    destruct (Hf _ _ _ Ef) as [->|Hok]; [by left|right].
    rewrite Hk. destruct (Hok {| db := d; tick := S (tick w) |}) as [b Hb].
    exists b. rewrite <- Hb. done.
  - destruct (Hf _ _ _ Ef) as [->|Hok]; [left; by rewrite Hk|right].
    destruct (Hok {| db := d; tick := S (tick w) |}) as [b Hb]. exists b. rewrite <- Hb. done.
Qed.

Lemma all_or_nothing_now {A E} (k k' : string -> M Store E A) :
  (forall b, all_or_nothing (k b) (k' b)) ->
  all_or_nothing (mseq utc_now k) (mseq (@utc_now (quiet O) E) k').
Proof. intros H w. unfold mseq. apply (H _ {| db := db w; tick := S (tick w) |}). Qed.

Lemma all_or_nothing_uuid {A E} (k k' : string -> M Store E A) :
  (forall b, all_or_nothing (k b) (k' b)) ->
  all_or_nothing (mseq new_uuid k) (mseq (@new_uuid (quiet O) E) k').
Proof. intros H w. unfold mseq. apply (H _ {| db := db w; tick := S (tick w) |}). Qed.

Lemma ok_mono_tx {A E} (e : sqlx_error -> E) (b b' : M Store E A) :
  ok_mono b b' -> ok_mono (in_tx e b) (@in_tx (quiet O) E A e b').
Proof.
  intros Hb w a w' H. unfold in_tx, map_err, db_call in *. cbn [db_fault quiet].
  destruct (db_fault (tick w)); [done|]. cbn in *.
  destruct (b _) as [[x|] w2] eqn:Hrun; [|done].
  rewrite (Hb _ _ _ Hrun). destruct (db_fault (tick w2)); [done|]. cbn. done.
Qed.

#[local] Hint Resolve ok_mono_refl ok_mono_mseq ok_mono_map_err ok_mono_if ok_mono_db_call
  ok_mono_tx : dch.

(** Deleting no row is not a change. *)
Lemma delete_none t (p : json -> bool) d :
  length (List.filter p (rows t d)) = 0 ->
  set_rows t (List.filter (fun r => negb (p r)) (rows t d)) d = d.
Proof.
  intros H. assert (Hl : List.filter (fun r => negb (p r)) (rows t d) = rows t d).
  { generalize dependent (rows t d). intros l. induction l as [|x l IH]; [done|]. cbn.
    destruct (p x); cbn; [lia|]. intros ?. by rewrite IH. }
  rewrite Hl. by destruct t, d.
Qed.

Lemma all_or_nothing_delete {E} (g : sqlx_error -> E) t p (e : E) :
  all_or_nothing
    (let? n := map_err g (delete_rows t p) in if n =? 0 then throw e else mret tt)
    (let? n := map_err g (@delete_rows (quiet O) t p) in if n =? 0 then throw e else mret tt).
Proof.
  apply all_or_nothing_stmt.
  - intros n w. by destruct (n =? 0).
  - intros d n d' [= <- <-]. destruct (length _) eqn:Hl.
    + left. by apply delete_none.
    + right. intros w. by exists tt.
Qed.

Ltac solve_mono :=
  repeat first
    [ apply ok_mono_mseq; [|intros ?] | apply ok_mono_map_err | apply ok_mono_tx
    | apply ok_mono_if | apply ok_mono_refl | apply ok_mono_db_call ].

Lemma validate_mono g t ty :
  ok_mono (validate_connection_type g t ty) (@validate_connection_type (quiet O) g t ty).
Proof. unfold validate_connection_type. solve_mono. Qed.

Lemma outcome_mono {A} (m m' : M Store MetaStoreError A) w w' :
  ok_mono m m' -> outcome m w = (Ok tt, w') -> outcome m' w = (Ok tt, w').
Proof.
  intros Hm. unfold outcome. destruct (m w) as [[a|] w1] eqn:E; [|done].
  by rewrite (Hm _ _ _ E).
Qed.

Lemma exec_ok_mono g q w w' :
  exec g q w = (Ok tt, w') -> @exec (quiet O) g q w = (Ok tt, w').
Proof.
  destruct q; cbn [exec]; apply outcome_mono;
    try apply ok_mono_tx; solve_mono; apply validate_mono.
Qed.

Lemma all_or_nothing_insert {A E} (g : sqlx_error -> E) t r (x : A) :
  all_or_nothing (map_err g (insert_row t r) ;? mret x)
                 (map_err g (@insert_row (quiet O) t r) ;? mret x).
Proof.
  apply all_or_nothing_stmt; [done|]. intros d [] d' _. right. intros w. by exists x.
Qed.

#[local] Hint Extern 5 (PreOrder _) => apply _ : dch.

Ltac solve_read :=
  apply all_or_nothing_read;
  unfold get_data_connections, get_data_connection, get_data_connection_types,
    get_data_connection_type, get_all_data_connection_types, get_all_flight_services,
    get_flight_service_by_connector, get_flight_service;
  auto 10 with dch.

Lemma create_type_all_or_nothing t ty :
  all_or_nothing (create_data_connection_type t ty) (@create_data_connection_type (quiet O) t ty).
Proof.
  apply all_or_nothing_now; intros now. apply all_or_nothing_uuid; intros uid.
  apply all_or_nothing_insert.
Qed.

Lemma create_flight_all_or_nothing fs :
  all_or_nothing (create_flight_service fs) (@create_flight_service (quiet O) fs).
Proof.
  apply all_or_nothing_now; intros now. apply all_or_nothing_uuid; intros uid.
  apply all_or_nothing_insert.
Qed.

Lemma outcome_all_or_nothing {A} (m m' : M Store MetaStoreError A) w :
  all_or_nothing m m' ->
  db (snd (outcome m w)) = db w \/
  (fst (outcome m' w) = Ok tt /\ db (snd (outcome m w)) = db (snd (outcome m' w))).
Proof.
  intros H. specialize (H w). unfold outcome.
  destruct (m w) as [r w1], (m' w) as [r' w2]. cbn in *.
  destruct H as [H|(a & -> & H)]; auto.
Qed.

Lemma exec_all_or_nothing g q w :
  db (snd (exec g q w)) = db w \/
  (fst (@exec (quiet O) g q w) = Ok tt /\
   db (snd (exec g q w)) = db (snd (@exec (quiet O) g q w))).
Proof.
  destruct q; cbn [exec]; apply outcome_all_or_nothing;
    first [ apply create_type_all_or_nothing | apply create_flight_all_or_nothing
          | apply all_or_nothing_delete
          | apply all_or_nothing_tx; solve_mono; apply validate_mono
          | solve_read ].
Qed.

(** C11: failure atomicity of every store operation. Whatever statements the
    database fails, and whether a failing statement or commit took effect or not,
    the database is left exactly as it was or exactly as the same operation leaves
    it when nothing fails; and an operation that reports success has the effect of
    that fault-free run. *)
Theorem requests_all_or_nothing g q w :
  (db (snd (exec g q w)) = db w \/
   (fst (@exec (quiet O) g q w) = Ok tt /\
    db (snd (exec g q w)) = db (snd (@exec (quiet O) g q w)))) /\
  (fst (exec g q w) = Ok tt -> @exec (quiet O) g q w = exec g q w).
Proof.
  split; [apply exec_all_or_nothing|]. intros H.
  destruct (exec g q w) as [r w'] eqn:E. cbn in H. subst r. by apply exec_ok_mono.
Qed.

End Atomic.
