(* ===== verification/MetaStoreSpec.v ===== *)
(** What the metadata store promises its callers: reachable databases are well
    formed, an operation for one tenant leaves the rows of the others alone, and
    what it reads depends on that tenant's rows only. *)
From S2P Require Import Prelude Text Json Sql Api MetaStore MetaStoreInv MetaStoreAtomic.

Definition empty_db : Db := {| conns := []; types := []; flights := [] |}.

(** The tenant on whose behalf a request runs; [None] for the operations that
    are not tenant scoped. *)
Definition scope (q : request) : option string :=
  match q with
  | GetDataConnections t | GetDataConnection t _ | GetDataConnectionTypes t
  | GetDataConnectionType t _ | CreateDataConnection t _ | UpdateDataConnection t _ _
  | UpdateDataConnectionStatus t _ _ | DeleteDataConnection t _
  | CreateDataConnectionType t _ | UpdateDataConnectionType t _ _
  | DeleteDataConnectionType t _ => Some t
  | GetAllDataConnectionTypes | UpdateDataConnectionTypeStatus _ _ | CreateFlightService _
  | GetAllFlightServices | GetFlightServiceByConnector _ | GetFlightService _
  | UpdateFlightService _ _ | DeleteFlightService _ => None
  end.

Section Spec.
Context `{O : Oracle}.
Variable global_tenant_id : string.

(** ** Reachable databases *)

Lemma run_wf qs : forall w, db_wf global_tenant_id (db w) ->
  db_wf global_tenant_id (db (run global_tenant_id qs w)).
Proof. induction qs as [|q qs IH]; intros w Hw; cbn; [done|]. by apply IH, exec_wf. Qed.

Lemma empty_wf : db_wf global_tenant_id empty_db.
Proof. split; [by intros [] | constructor]. Qed.

(** After any sequence of store operations on an empty database, under any
    pattern of database failures, clocks and UUIDs, the unique indexes hold, and
    every stored connection belongs to a tenant and references an existing
    connection type of that tenant or a global one. *)
Theorem reachable_wf qs n :
  db_wf global_tenant_id (db (run global_tenant_id qs {| db := empty_db; tick := n |})).
Proof. apply run_wf, empty_wf. Qed.

(** ** Tenant isolation *)

(** The rows of tenant [t], in both tenant-scoped tables, are the same. *)
Definition same_tenant_rows (t : string) (d d' : Db) : Prop :=
  List.filter (tenant_is t) (conns d') = List.filter (tenant_is t) (conns d) /\
  List.filter (tenant_is t) (types d') = List.filter (tenant_is t) (types d).

#[local] Instance same_tenant_rows_preorder t : PreOrder (same_tenant_rows t).
Proof.
  split; unfold same_tenant_rows; [done|]. intros x y z [-> ->] [-> ->]. done.
Qed.

Lemma filter_insert (p : json -> bool) l r :
  p r = false -> List.filter p (l ++ [r]) = List.filter p l.
Proof. intros Hr. rewrite List.filter_app. cbn. rewrite Hr. by rewrite app_nil_r. Qed.

Lemma filter_update (p q : json -> bool) l r :
  p r = false -> (forall x, q x = true -> p x = false) ->
  List.filter p ((fun x : json => if q x then r else x) <$> l) = List.filter p l.
Proof.
  intros Hr Hq. induction l as [|x l IH]; [done|]. cbn. destruct (q x) eqn:E.
  - by rewrite Hr, (Hq x E).
  - by destruct (p x); rewrite IH.
Qed.

Lemma filter_delete (p q : json -> bool) l :
  (forall x, q x = true -> p x = false) ->
  List.filter p (List.filter (fun x => negb (q x)) l) = List.filter p l.
Proof.
  intros Hq. induction l as [|x l IH]; [done|]. cbn. destruct (q x) eqn:E; cbn.
  - by rewrite (Hq x E).
  - by destruct (p x); rewrite IH.
Qed.

Lemma other_tenant t t' uid x :
  t <> t' -> id_is uid x && tenant_is t x = true -> tenant_is t' x = false.
Proof.
  rewrite andb_true_iff. intros Hne [_ Ht]. unfold tenant_is in *. apply sql_eq_true in Ht.
  rewrite Ht. cbn. by apply String.eqb_neq.
Qed.

Lemma other_tenant_row t t' (r : json) :
  t <> t' -> row_tenant r = Some t -> tenant_is t' r = false.
Proof. intros Hne Hr. unfold tenant_is. rewrite Hr. cbn. by apply String.eqb_neq. Qed.

Section Isolation.
Variables t t' : string.
Hypothesis Hne : t <> t'.

Abbreviation isolated := (steps (on_db (same_tenant_rows t'))).

Lemma isolated_create_conn dc : isolated (create_data_connection global_tenant_id t dc).
Proof.
  apply (steps_in_tx (same_tenant_rows t')). intros w a w' H. inv_sql. inv_validate validate_ok. chase_db.
  split; [|done]. apply filter_insert. eapply other_tenant_row; [done|].
  by rewrite row_tenant_conn.
Qed.

Lemma isolated_insert_type (r : json) :
  row_tenant r = Some t -> isolated (insert_row data_connection_types r).
Proof.
  intros Hr. apply (steps_db_call (same_tenant_rows t')). intros d a d'.
  destruct (existsb _ _); [done|]. intros [= <- <-]. split; [done|].
  apply filter_insert. by eapply other_tenant_row.
Qed.

(** Rewriting rows of tenant [t] with rows of tenant [t]. *)
Lemma isolated_rewrite tb d uid r :
  tb <> flight_services -> row_tenant r = Some t ->
  same_tenant_rows t' d
    (set_rows tb ((fun x : json => if id_is uid x && tenant_is t x then r else x) <$> rows tb d) d).
Proof.
  intros Hb Hr.
  assert (Hf : forall l : list json, List.filter (tenant_is t')
      ((fun x : json => if id_is uid x && tenant_is t x then r else x) <$> l)
      = List.filter (tenant_is t') l).
  { intros l. apply (filter_update _ (fun x => id_is uid x && tenant_is t x)).
    - by eapply other_tenant_row.
    - intros x. by apply other_tenant. }
  destruct tb; [split; [apply Hf|done] | split; [done|apply Hf] | done].
Qed.

Lemma found_tenant tb d uid r :
  List.find (fun r => id_is uid r && tenant_is t r) (rows tb d) = Some r ->
  row_tenant r = Some t.
Proof.
  intros Hf. apply find_some in Hf as [_ Hp]. apply andb_true_iff in Hp as [_ Hp].
  by apply sql_eq_true.
Qed.

Lemma isolated_update_conn uid f :
  isolated (update_data_connection global_tenant_id t uid f).
Proof.
  apply (steps_in_tx (same_tenant_rows t')). intros w a w' H. inv_sql. inv_validate validate_ok. chase_db.
  inv_decode. apply isolated_rewrite; [done|]. rewrite row_tenant_conn. cbn.
  eapply decoded_conn; [done|]. by apply (found_tenant _ _ _ _ Hfind).
Qed.

Lemma isolated_update_status uid f : isolated (update_data_connection_status t uid f).
Proof.
  apply (steps_in_tx (same_tenant_rows t')). intros w a w' H. inv_sql. chase_db.
  inv_decode. apply isolated_rewrite; [done|]. rewrite row_tenant_conn. cbn.
  eapply decoded_conn; [done|]. by apply (found_tenant _ _ _ _ Hfind).
Qed.

Lemma isolated_update_type uid f : isolated (update_data_connection_type t uid f).
Proof.
  apply (steps_in_tx (same_tenant_rows t')). intros w a w' H. inv_sql. chase_db.
  inv_decode. apply isolated_rewrite; [done|]. rewrite row_tenant_type. cbn.
  eapply decoded_type; [done|]. by apply (found_tenant _ _ _ _ Hfind).
Qed.

Lemma isolated_delete tb d uid :
  tb <> flight_services ->
  same_tenant_rows t' d (set_rows tb
    (List.filter (fun r => negb (id_is uid r && tenant_is t r)) (rows tb d)) d).
Proof.
  intros Hb. assert (Hf := fun l => filter_delete (tenant_is t')
    (fun x => id_is uid x && tenant_is t x) l (fun x => other_tenant t t' uid x Hne)).
  destruct tb; [split; [apply Hf|done] | split; [done|apply Hf] | done].
Qed.

Lemma isolated_delete_type uid : isolated (delete_data_connection_type t uid).
Proof.
  apply (steps_in_tx (same_tenant_rows t')). intros w a w' H. inv_sql.
  destruct (0 <? a1); inv_sql. destruct (a2 =? 0); inv_sql. chase_db.
  by apply isolated_delete.
Qed.

Lemma isolated_delete_conns uid :
  isolated (delete_rows data_connections (fun r => id_is uid r && tenant_is t r)).
Proof.
  apply (steps_db_call (same_tenant_rows t')). intros d a d' [= _ <-].
  by apply (isolated_delete data_connections).
Qed.

#[local] Hint Resolve isolated_create_conn isolated_update_conn isolated_update_status
  isolated_update_type isolated_delete_type isolated_delete_conns isolated_insert_type
  on_db_preorder same_tenant_rows_preorder : dch.

Lemma exec_isolated q w :
  scope q = Some t -> same_tenant_rows t' (db w) (db (snd (exec global_tenant_id q w))).
Proof.
  assert (Ho : forall A (m : M Store MetaStoreError A), isolated m ->
    same_tenant_rows t' (db w) (db (snd (outcome m w)))).
  { intros A m Hm. specialize (Hm w). unfold outcome. by destruct (m w). }
  destruct q; cbn [scope exec]; intros Hs; simplify_eq; apply Ho; auto with dch;
    unfold get_data_connections, get_data_connection, get_data_connection_types,
      get_data_connection_type, delete_data_connection, create_data_connection_type;
    auto 10 with dch.
Qed.
End Isolation.

(** Tenant isolation of writes. An operation that runs for tenant [t] leaves
    the connections and the connection types of every other tenant untouched, row
    by row and in order, whatever its arguments and whatever fails. *)
Theorem tenant_isolation q t t' w :
  scope q = Some t -> t <> t' ->
  List.filter (tenant_is t') (conns (db (snd (exec global_tenant_id q w))))
    = List.filter (tenant_is t') (conns (db w)) /\
  List.filter (tenant_is t') (types (db (snd (exec global_tenant_id q w))))
    = List.filter (tenant_is t') (types (db w)).
Proof. intros Hs Hne. by apply (exec_isolated t t' Hne). Qed.

(** ** Reads see only the tenant's own rows and the global ones *)

(** Two databases that tenant [t] cannot tell apart. *)
Definition same_view (t : string) (d d' : Db) : Prop :=
  List.filter (tenant_is t) (conns d) = List.filter (tenant_is t) (conns d') /\
  List.filter (visible_to global_tenant_id t) (types d)
    = List.filter (visible_to global_tenant_id t) (types d').

Lemma find_filter {A} (p q : A -> bool) l :
  List.find (fun x => p x && q x) l = List.find p (List.filter q l).
Proof.
  induction l as [|x l IH]; [done|]. cbn. destruct (q x) eqn:Hq; cbn.
  - rewrite andb_true_r. by destruct (p x).
  - by rewrite andb_false_r.
Qed.

Lemma db_call_view {A} (f : Db -> result sqlx_error (A * Db)) w w' :
  tick w = tick w' -> rmap fst (f (db w)) = rmap fst (f (db w')) ->
  fst (db_call f w) = fst (db_call f w').
Proof.
  intros Ht Hf. unfold db_call. rewrite Ht.
  destruct (db_fault (tick w')), (f (db w)) as [[]|], (f (db w')) as [[]|]; simplify_eq/=; done.
Qed.

Lemma mseq_view {E F A B} (g : E -> F) (m : M Store E A) (k : A -> result F B) w w' :
  fst (m w) = fst (m w') ->
  fst ((let? a := map_err g m in lift (k a)) w) = fst ((let? a := map_err g m in lift (k a)) w').
Proof.
  unfold mseq, map_err, lift. destruct (m w) as [[] ?], (m w') as [[] ?]; cbn; naive_solver.
Qed.

(** Tenant isolation of reads. What the four read operations return to a
    tenant is determined by the rows of that tenant and the global connection
    types: databases that agree on those give the same answers, so no other
    tenant's data can influence, or leak through, a response. *)
Theorem reads_confined t uid w w' :
  tick w = tick w' -> same_view t (db w) (db w') ->
  fst (get_data_connections t w) = fst (get_data_connections t w') /\
  fst (get_data_connection t uid w) = fst (get_data_connection t uid w') /\
  fst (get_data_connection_types global_tenant_id t w)
    = fst (get_data_connection_types global_tenant_id t w') /\
  fst (get_data_connection_type global_tenant_id t uid w)
    = fst (get_data_connection_type global_tenant_id t uid w').
Proof.
  intros Ht [Hc Hty]. split_and!.
  - unfold get_data_connections, fetch_all.
    pose proof (db_call_view (fun d => Ok (List.filter (tenant_is t) (conns d), d)) w w' Ht) as H.
    cbn in H. rewrite Hc in H. specialize (H eq_refl).
    unfold mseq, map_err, lift. destruct (db_call _ w) as [[] ?], (db_call _ w') as [[] ?];
      cbn in *; simplify_eq; [|done]. by destruct (collect _ _).
  - unfold get_data_connection. apply mseq_view, db_call_view; [done|]. cbn.
    rewrite !find_filter, Hc. by destruct (List.find _ _).
  - unfold get_data_connection_types. 
    apply (mseq_view _ _ (fun rs => Ok (resource_list (omap (deserialize_connection_type global_tenant_id) rs)))).
    apply db_call_view; [done|]. cbn. by rewrite Hty.
  - unfold get_data_connection_type. apply mseq_view, db_call_view; [done|]. cbn.
    rewrite !find_filter, Hty. by destruct (List.find _ _).
Qed.

End Spec.

(** ** Concrete instances *)

Definition sample_oracle : Oracle :=
  {| db_fault _ := None; now_at _ := "2026-01-01T00:00:00Z";
     uuid_at n := "uuid-" +:+ show_nat n; jsonb_text _ := "" |}.

Definition sample_meta (uid tenant : string) : ResourceMetadata :=
  {| id := uid; tenant_id := Some tenant; created_at := "t0"; updated_at := "t0" |}.

Definition sample_dc (nm ty : string) : DataConnection :=
  {| name := nm; data_connection_type_id := ty; format := Tabular;
     credentials_ref := {| secret := "s" |}; properties := ∅ |}.

Definition sample_conn (uid tenant nm ty : string) : DataConnectionResource :=
  {| dc_metadata := sample_meta uid tenant; dc_resource := sample_dc nm ty;
     dc_status := DataConnectionStatus_default |}.

Definition sample_type_row (uid tenant nm : string) : DataConnectionTypeResource :=
  {| dct_metadata := sample_meta uid tenant;
     dct_resource := {| type_name := nm; label := None; provider := "postgres";
                        type_description := None; credentials_fields := []; tags := None |};
     dct_status := DataConnectionTypeStatus_default |}.

(** Two tenants, [a] and [b], sharing the global type [t1]. *)
Definition sample_store : Store :=
  {| db := {| conns := [to_value (sample_conn "1" "a" "x" "t1");
                        to_value (sample_conn "2" "b" "x" "t1")];
              types := [to_value (sample_type_row "t1" "global" "pg")];
              flights := [] |};
     tick := 0 |}.

Lemma sample_wf : @db_wf sample_oracle "global" (db sample_store).
Proof.
  split; [by intros []|]. repeat constructor.
  - exists (sample_conn "1" "a" "x" "t1"), "a". split_and!; [done..|].
    eexists. split; [left|]. by vm_compute.
  - exists (sample_conn "2" "b" "x" "t1"), "b". split_and!; [done..|].
    eexists. split; [left|]. by vm_compute.
Qed.

Lemma tenant_isolation_witness :
  length (conns (db (snd (@exec sample_oracle "global" (DeleteDataConnection "a" "1") sample_store)))) = 1 /\
  List.filter (@tenant_is sample_oracle "b")
    (conns (db (snd (@exec sample_oracle "global" (DeleteDataConnection "a" "1") sample_store))))
    = List.filter (@tenant_is sample_oracle "b") (conns (db sample_store)).
Proof.
  split; [vm_compute; reflexivity|].
  apply (@tenant_isolation sample_oracle "global" (DeleteDataConnection "a" "1") "a" "b" sample_store).
  - reflexivity.
  - discriminate.
Defined.

(** The same store without the connection of tenant [b]. *)
Definition sample_store_a : Store :=
  {| db := {| conns := [to_value (sample_conn "1" "a" "x" "t1")];
              types := [to_value (sample_type_row "t1" "global" "pg")];
              flights := [] |};
     tick := 0 |}.

Lemma reads_confined_witness :
  fst (@get_data_connection sample_oracle "a" "2" sample_store)
    = fst (@get_data_connection sample_oracle "a" "2" sample_store_a).
Proof.
  apply (@reads_confined sample_oracle "global" "a" "2" sample_store sample_store_a).
  - reflexivity.
  - split; vm_compute; reflexivity.
Defined.
