(* ===== verification/MetaStoreRefine.v ===== *)
(** An abstract specification of the store's data connections (a finite map from
    ids to connections, a set of visible types, names unique per tenant) and the
    theorem that [PgMetaStore], on a database that answers, implements it
    operation by operation. *)
From S2P Require Import Prelude Text Json Sql Api MetaStore.
From S2P Require Import MetaStoreInv MetaStoreAtomic MetaStoreSpec.

#[local] Arguments to_value : simpl never.
#[local] Arguments from_value : simpl never.

(** ** The specification *)

Abbreviation Conns := (gmap string DataConnectionResource).

Definition cid (c : DataConnectionResource) : string := id (dc_metadata c).
Definition ctenant (c : DataConnectionResource) : option string := tenant_id (dc_metadata c).
Definition cname (c : DataConnectionResource) : string := name (dc_resource c).
Definition ctype (c : DataConnectionResource) : string := data_connection_type_id (dc_resource c).

Definition owned (t : string) (c : DataConnectionResource) : bool :=
  bool_decide (ctenant c = Some t).

(** Two connections that may not both be stored. *)
Definition clash (c c' : DataConnectionResource) : bool :=
  bool_decide (cname c = cname c' /\ is_Some (ctenant c) /\ ctenant c = ctenant c') ||
  bool_decide (cid c = cid c').

Definition taken (m : Conns) (c : DataConnectionResource) : bool :=
  existsb (clash c) (map_to_list m).*2.

Definition lookup_owned (m : Conns) (t uid : string) : result MetaStoreError DataConnectionResource :=
  match m !! uid with
  | Some c => if owned t c then Ok c else Err (data_connection_not_found uid)
  | None => Err (data_connection_not_found uid)
  end.

Section Spec.
(** Which type ids tenant [t] may reference. *)
Variable visible : string -> string -> bool.

Definition spec_get (t uid : string) (m : Conns) : result MetaStoreError DataConnectionResource * Conns :=
  (lookup_owned m t uid, m).

Definition type_missing (ty : string) : MetaStoreError :=
  UnprocessableEntity ("connection type '" +:+ ty +:+ "' not found").

Definition spec_create (now uid t : string) (dc : DataConnection) (m : Conns)
    : result MetaStoreError DataConnectionResource * Conns :=
  let c := {| dc_metadata := {| id := uid; tenant_id := Some t; created_at := now; updated_at := now |};
              dc_resource := dc;
              dc_status := {| state := NotReady; message := None; status_updated_at := Some now |} |} in
  if negb (visible t (data_connection_type_id dc))
  then (Err (type_missing (data_connection_type_id dc)), m)
  else if taken m c
  then (Err (Conflict "a resource with the same identity already exists"), m)
  else (Ok c, <[uid := c]> m).

(** Replaces an owned connection; a clash with another one is a [Query] error. *)
Definition spec_replace (uid msg : string) (c : DataConnectionResource) (m : Conns)
    : result MetaStoreError DataConnectionResource * Conns :=
  if taken (delete uid m) c then (Err (Query msg), m) else (Ok c, <[uid := c]> m).

Definition spec_update (now t uid : string)
    (f : DataConnection -> result MetaStoreError DataConnection) (m : Conns)
    : result MetaStoreError DataConnectionResource * Conns :=
  match lookup_owned m t uid with
  | Err e => (Err e, m)
  | Ok c =>
      match f (dc_resource c) with
      | Err e => (Err e, m)
      | Ok dc =>
          if negb (visible t (data_connection_type_id dc))
          then (Err (type_missing (data_connection_type_id dc)), m)
          else spec_replace uid "failed to update data connection"
                 {| dc_metadata := touch now (dc_metadata c); dc_resource := dc;
                    dc_status := dc_status c |} m
      end
  end.

Definition spec_update_status (now t uid : string)
    (f : DataConnectionStatus -> result MetaStoreError DataConnectionStatus) (m : Conns)
    : result MetaStoreError DataConnectionResource * Conns :=
  match lookup_owned m t uid with
  | Err e => (Err e, m)
  | Ok c =>
      match f (dc_status c) with
      | Err e => (Err e, m)
      | Ok s => (Ok {| dc_metadata := touch now (dc_metadata c); dc_resource := dc_resource c;
                       dc_status := s |},
                 <[uid := {| dc_metadata := touch now (dc_metadata c); dc_resource := dc_resource c;
                             dc_status := s |}]> m)
      end
  end.

Definition spec_delete (t uid : string) (m : Conns) : result MetaStoreError unit * Conns :=
  match lookup_owned m t uid with
  | Err e => (Err e, m)
  | Ok _ => (Ok tt, delete uid m)
  end.
End Spec.

(** ** The abstraction function *)

Definition keyed (r : json) : option (string * DataConnectionResource) :=
  c ← from_value r; Some (cid c, c).

Definition abs (d : Db) : Conns := list_to_map (omap keyed (conns d)).

Definition kv (c : DataConnectionResource) : string * DataConnectionResource := (cid c, c).

Section Refine.
Context `{O : Oracle}.
Variable g : string.

Implicit Type cs : list DataConnectionResource.

Definition type_visible (d : Db) (t ty : string) : bool :=
  existsb (fun r => id_is ty r && visible_to g t r) (types d).

(** ** The rows of a well-formed database are a list of connections *)

Definition rows_are (d : Db) (cs : list DataConnectionResource) : Prop :=
  conns d = to_value <$> cs /\ NoDup (cid <$> cs).

Lemma keyed_row c : keyed (to_value c) = Some (kv c).
Proof. unfold keyed. by rewrite serde_roundtrip. Qed.

Lemma omap_keyed cs : omap keyed (to_value <$> cs) = kv <$> cs.
Proof.
  induction cs as [|c cs IH]; [done|]. rewrite !fmap_cons. cbn [omap list_omap].
  by rewrite keyed_row, <- IH.
Qed.

Lemma abs_rows d cs : rows_are d cs -> abs d = list_to_map (kv <$> cs).
Proof. intros [H _]. unfold abs. by rewrite H, omap_keyed. Qed.

Lemma map_kv_cons c cs :
  (list_to_map (kv <$> c :: cs) : Conns) = <[cid c := c]> (list_to_map (kv <$> cs)).
Proof. done. Qed.

Lemma kv_keys cs : (kv <$> cs).*1 = cid <$> cs.
Proof. by rewrite <- list_fmap_compose. Qed.

Lemma kv_vals cs : (kv <$> cs).*2 = cs.
Proof. induction cs; f_equal/=; auto. Qed.

Lemma unique_nodup cs :
  unique_rows data_connections (to_value <$> cs) = true -> NoDup (cid <$> cs).
Proof.
  induction cs as [|c cs IH]; cbn -[collide]; [constructor|].
  rewrite andb_true_iff, negb_true_iff, existsb_false, Forall_fmap, Forall_forall.
  intros [Hc Hu]. constructor; [|auto]. rewrite list_elem_of_fmap. intros (c' & Hid & Hin).
  specialize (Hc c' Hin). cbn -[collide] in Hc.
  by rewrite (collide_id _ _ _ (cid c)) in Hc; rewrite ?row_id_conn; unfold cid in *; [..|rewrite Hid].
Qed.

Lemma wf_rows d : db_wf g d -> exists cs, rows_are d cs.
Proof.
  intros [Hu Hr]. assert (Hcs : exists cs, conns d = to_value <$> cs).
  { unfold refs_ok in Hr. induction Hr as [|r l (c & t & -> & _) _ [cs ->]]; [by exists []|].
    by exists (c :: cs). }
  destruct Hcs as [cs Hcs]. exists cs. split; [done|].
  apply unique_nodup. rewrite <- Hcs. apply (Hu data_connections).
Qed.

(** ** Finding, inserting, replacing and deleting *)

Lemma find_rows p (q : DataConnectionResource -> bool) cs :
  (forall c, p (to_value c) = q c) -> List.find p (to_value <$> cs) = to_value <$> List.find q cs.
Proof.
  intros Hpq. induction cs as [|c cs IH]; [done|]. cbn. rewrite Hpq.
  by destruct (q c).
Qed.

Lemma id_tenant_row uid t c :
  id_is uid (to_value c) && tenant_is t (to_value c) = String.eqb (cid c) uid && owned t c.
Proof.
  unfold id_is, tenant_is. rewrite row_id_conn, row_tenant_conn. unfold owned, ctenant, cid. cbn.
  f_equal. case_bool_decide as H; [rewrite H; apply String.eqb_refl|].
  destruct (tenant_id _); [|done]. cbn. apply String.eqb_neq. congruence.
Qed.

Lemma find_none (q : DataConnectionResource -> bool) uid cs :
  uid ∉ cid <$> cs -> List.find (fun c => String.eqb (cid c) uid && q c) cs = None.
Proof.
  induction cs as [|c cs IH]; [done|]. cbn. rewrite not_elem_of_cons. intros [Hne Hn].
  destruct (String.eqb_spec (cid c) uid); [congruence|]. auto.
Qed.

Lemma find_lookup (q : DataConnectionResource -> bool) uid cs :
  NoDup (cid <$> cs) ->
  List.find (fun c => String.eqb (cid c) uid && q c) cs =
  (c ← (list_to_map (kv <$> cs) : Conns) !! uid; if q c then Some c else None).
Proof.
  induction cs as [|c cs IH]; [done|]. rewrite map_kv_cons, fmap_cons.
  cbn [List.find]. intros [Hn Hd]%NoDup_cons.
  destruct (String.eqb_spec (cid c) uid) as [<-|Hne].
  - rewrite lookup_insert_eq. cbn. destruct (q c); [done|]. by apply find_none.
  - rewrite lookup_insert_ne by done. cbn. auto.
Qed.

(** The unique indexes say exactly that no two connections clash. *)
Lemma collide_clash c c' : collide data_connections (to_value c) (to_value c') = clash c c'.
Proof.
  apply eq_bool_prop_intro. unfold collide, clash. cbn [unique_keys existsb].
  rewrite orb_false_r, !row_name_conn, !row_tenant_conn, !row_id_conn.
  rewrite !Is_true_true, !orb_true_iff, !same_key_spec, !bool_decide_eq_true.
  rewrite !Forall_cons. unfold ctenant, cid, cname. split.
  - intros [[(_ & ? & _) ?]|[_ ?]]; simplify_eq; [left|right]; auto.
  - intros [(? & ? & ?)|?]; [left|right]; repeat split; eauto; congruence.
Qed.

Lemma existsb_rows c cs :
  existsb (collide data_connections (to_value c)) (to_value <$> cs) = existsb (clash c) cs.
Proof.
  induction cs as [|c' cs IH]; [done|]. rewrite fmap_cons. cbn [existsb].
  by rewrite collide_clash, IH.
Qed.

Lemma existsb_perm {A} (p : A -> bool) l l' : l ≡ₚ l' -> existsb p l = existsb p l'.
Proof.
  induction 1; cbn; [done| congruence | | congruence].
  by rewrite !orb_assoc, (orb_comm (p y)).
Qed.

Lemma taken_rows c cs :
  NoDup (cid <$> cs) -> taken (list_to_map (kv <$> cs)) c = existsb (clash c) cs.
Proof.
  intros Hn. unfold taken. apply existsb_perm.
  rewrite map_to_list_to_map by (by rewrite kv_keys).
  by rewrite kv_vals.
Qed.

Lemma abs_insert cs c :
  cid c ∉ cid <$> cs ->
  (list_to_map (kv <$> (cs ++ [c])) : Conns) = <[cid c := c]> (list_to_map (kv <$> cs)).
Proof.
  intros Hn. rewrite fmap_app. cbn. unfold kv at 2. apply list_to_map_snoc. by rewrite kv_keys.
Qed.

Lemma clash_fresh c cs : existsb (clash c) cs = false -> cid c ∉ cid <$> cs.
Proof.
  rewrite existsb_false, Forall_forall, list_elem_of_fmap. intros H (c' & Hid & Hin).
  specialize (H c' Hin). unfold clash in H. apply orb_false_iff in H as [_ H].
  by apply bool_decide_eq_false in H.
Qed.

(** The place of a connection in the list. *)
Lemma split_uid cs c0 :
  NoDup (cid <$> cs) -> c0 ∈ cs ->
  exists pre post, cs = pre ++ c0 :: post /\
    (cid c0 ∉ cid <$> pre) /\ (cid c0 ∉ cid <$> post).
Proof.
  intros Hn Hin. apply list_elem_of_split in Hin as (pre & post & ->).
  exists pre, post. rewrite fmap_app, fmap_cons in Hn. apply NoDup_app in Hn as (_ & Hd & Hn).
  apply NoDup_cons in Hn as [Hn _]. split_and!; auto.
  intros Hp. apply (Hd _ Hp). set_solver.
Qed.

Lemma unique_rows_middle t pre (x : json) post :
  unique_rows t (pre ++ x :: post) =
  unique_rows t (pre ++ post) && negb (existsb (collide t x) (pre ++ post)).
Proof.
  induction pre as [|y pre IH]; cbn [app unique_rows existsb].
  - by rewrite andb_comm.
  - rewrite IH, !existsb_app. cbn [existsb]. rewrite (collide_sym t y x).
    destruct (existsb (collide t y) pre), (existsb (collide t y) post),
      (collide t x y), (unique_rows t (pre ++ post)), (existsb (collide t x) pre),
      (existsb (collide t x) post); done.
Qed.

Lemma abs_middle c0 c1 pre post :
  cid c1 = cid c0 -> cid c0 ∉ cid <$> pre ->
  (list_to_map (kv <$> (pre ++ c1 :: post)) : Conns)
    = <[cid c0 := c1]> (list_to_map (kv <$> (pre ++ c0 :: post))).
Proof.
  intros Hid. induction pre as [|c pre IH]; cbn [app]; rewrite !map_kv_cons.
  - intros _. by rewrite Hid, insert_insert_eq.
  - rewrite fmap_cons, not_elem_of_cons. intros [Hne Hn].
    rewrite IH by done. by rewrite insert_insert_ne.
Qed.

Lemma abs_delete c0 pre post :
  cid c0 ∉ cid <$> pre -> cid c0 ∉ cid <$> post ->
  (list_to_map (kv <$> (pre ++ post)) : Conns)
    = delete (cid c0) (list_to_map (kv <$> (pre ++ c0 :: post))).
Proof.
  intros Hpre Hpost. induction pre as [|c pre IH]; cbn [app]; rewrite !map_kv_cons.
  - rewrite delete_insert_id; [done|]. apply not_elem_of_list_to_map_1. by rewrite kv_keys.
  - rewrite fmap_cons, not_elem_of_cons in Hpre. destruct Hpre as [Hne Hpre].
    rewrite IH by done. by rewrite delete_insert_ne.
Qed.

(** ** Refinement, on a database that answers *)

Hypothesis no_fault : forall n, db_fault n = None.

Definition bump (w : Store) : Store := {| db := db w; tick := S (tick w) |}.

Lemma fetch_one_q t p w :
  fetch_one t p w = (ok_or (List.find p (rows t (db w))) RowNotFound, bump w).
Proof. unfold fetch_one. rewrite db_call_quiet by auto. by destruct (List.find _ _). Qed.

Lemma in_tx_q {E A} (e : sqlx_error -> E) (b : M Store E A) w :
  in_tx e b w = match b (bump w) with
                | (Ok a, w2) => (Ok a, bump w2)
                | (Err x, w2) => (Err x, {| db := db w; tick := tick w2 |})
                end.
Proof.
  unfold in_tx, map_err, db_call. rewrite no_fault. cbn.
  unfold bump. destruct (b _) as [[] w2]; [by rewrite no_fault|done].
Qed.

Lemma insert_row_q t r w :
  insert_row t r w =
  if existsb (collide t r) (rows t (db w)) then (Err unique_violation, bump w)
  else (Ok tt, {| db := set_rows t (rows t (db w) ++ [r]) (db w); tick := S (tick w) |}).
Proof. unfold insert_row. rewrite db_call_quiet by auto. by destruct (existsb _ _). Qed.

Lemma update_rows_q t p r w :
  update_rows t p r w =
  let l := (fun x => if p x then r else x) <$> rows t (db w) in
  if unique_rows t l then (Ok tt, {| db := set_rows t l (db w); tick := S (tick w) |})
  else (Err unique_violation, bump w).
Proof. unfold update_rows. rewrite db_call_quiet by auto. cbn. by destruct (unique_rows _ _). Qed.

Lemma find_conn d t uid :
  db_wf g d ->
  List.find (fun r => id_is uid r && tenant_is t r) (conns d) =
  match lookup_owned (abs d) t uid with Ok c => Some (to_value c) | Err _ => None end.
Proof.
  intros Hw. destruct (wf_rows d Hw) as [cs Hcs]. rewrite (abs_rows d cs Hcs).
  destruct Hcs as [-> Hn].
  rewrite (find_rows _ (fun c => String.eqb (cid c) uid && owned t c))
    by (intros; apply id_tenant_row).
  rewrite find_lookup by done. unfold lookup_owned.
  destruct (_ !! uid) as [c|]; [|done]. cbn. by destruct (owned t c).
Qed.

Lemma lookup_owned_err m t uid e :
  lookup_owned m t uid = Err e -> e = data_connection_not_found uid.
Proof. unfold lookup_owned. destruct (m !! uid); [destruct (owned _ _)|]; naive_solver. Qed.

Lemma lookup_owned_ok m t uid c :
  lookup_owned m t uid = Ok c -> m !! uid = Some c /\ ctenant c = Some t.
Proof.
  unfold lookup_owned. destruct (m !! uid); [|done]. unfold owned. case_bool_decide; naive_solver.
Qed.

Lemma get_data_connection_refines t uid w :
  db_wf g (db w) ->
  fst (get_data_connection t uid w) = fst (spec_get t uid (abs (db w))) /\
  abs (db (snd (get_data_connection t uid w))) = snd (spec_get t uid (abs (db w))).
Proof.
  intros Hw. unfold get_data_connection, mseq, map_err. rewrite fetch_one_q. cbn [rows].
  rewrite find_conn by done. cbn [spec_get fst snd].
  destruct (lookup_owned _ t uid) eqn:E; cbn.
  - unfold decode. rewrite serde_roundtrip. done.
  - split; [|done]. f_equal. symmetry. by apply lookup_owned_err in E.
Qed.

Lemma find_existsb {A} (p : A -> bool) l :
  existsb p l = match List.find p l with Some _ => true | None => false end.
Proof. induction l as [|x l IH]; [done|]. cbn. by destruct (p x). Qed.

Lemma validate_q t ty w :
  validate_connection_type g t ty w =
  (if type_visible (db w) t ty then Ok tt else Err (type_missing ty), bump w).
Proof.
  unfold validate_connection_type, mseq, map_err. rewrite fetch_one_q. cbn [rows].
  unfold type_visible. rewrite find_existsb. by destruct (List.find _ _).
Qed.

Lemma create_data_connection_refines t dc w :
  db_wf g (db w) ->
  let s := spec_create (type_visible (db w)) (now_at (2 + tick w)) (uuid_at (3 + tick w)) t dc
             (abs (db w)) in
  fst (create_data_connection g t dc w) = fst s /\
  abs (db (snd (create_data_connection g t dc w))) = snd s.
Proof.
  intros Hw. destruct (wf_rows _ Hw) as [cs Hcs]. cbv zeta.
  destruct (create_data_connection g t dc w) as [r w'] eqn:E. cbn [fst snd]. revert E.
  unfold create_data_connection, spec_create. rewrite in_tx_q. unfold mseq at 1.
  rewrite validate_q. cbn [db bump].
  destruct (type_visible _ _ _); cbn [negb]; [|by intros [= <- <-]].
  unfold mseq, utc_now, new_uuid, map_err. cbn [tick db bump].
  rewrite insert_row_q. cbn [rows db Nat.add].
  set (c := {| dc_metadata := _ |}).
  rewrite (abs_rows _ cs Hcs). destruct Hcs as [Hc Hn]. rewrite Hc, existsb_rows.
  rewrite taken_rows by done.
  destruct (existsb (clash c) cs) eqn:E; cbn -[abs]; intros [= <- <-].
  - split; [done|]. by apply abs_rows.
  - split; [done|]. unfold abs. cbn [conns set_rows db bump].
    assert (Happ : (to_value <$> cs) ++ [to_value c] = to_value <$> (cs ++ [c]))
      by (by rewrite fmap_app).
    rewrite Happ, omap_keyed.
    rewrite abs_insert; [done|]. by apply clash_fresh.
Qed.

(** The row selected by an owned id is one place of the table. *)
Lemma owned_split d t uid c :
  db_wf g d -> lookup_owned (abs d) t uid = Ok c ->
  exists pre post, rows_are d (pre ++ c :: post) /\ cid c = uid /\
    (uid ∉ cid <$> pre) /\ (uid ∉ cid <$> post) /\ ctenant c = Some t.
Proof.
  intros Hw Hl. destruct (wf_rows _ Hw) as [cs Hcs]. apply lookup_owned_ok in Hl as [Hl Ht].
  rewrite (abs_rows _ _ Hcs) in Hl. destruct Hcs as [Hc Hn].
  apply elem_of_list_to_map_2 in Hl. apply list_elem_of_fmap in Hl as (c' & Hkv & Hin).
  unfold kv in Hkv. simplify_eq. destruct (split_uid cs c' Hn Hin) as (pre & post & -> & ? & ?).
  exists pre, post. by split_and!.
Qed.

Lemma upd_other uid t (r : json) cs :
  uid ∉ (cid <$> cs) ->
  (fun x : json => if id_is uid x && tenant_is t x then r else x) <$> (to_value <$> cs)
  = to_value <$> cs.
Proof.
  induction cs as [|c cs IH]; [done|]. rewrite !fmap_cons, not_elem_of_cons. intros [Hne Hn].
  rewrite IH by done. rewrite id_tenant_row.
  destruct (String.eqb_spec (cid c) uid); [congruence|done].
Qed.

Lemma upd_rows uid t c (c' : DataConnectionResource) pre post :
  cid c = uid -> ctenant c = Some t -> uid ∉ (cid <$> pre) -> uid ∉ (cid <$> post) ->
  (fun x : json => if id_is uid x && tenant_is t x then to_value c' else x)
    <$> (to_value <$> (pre ++ c :: post)) = to_value <$> (pre ++ c' :: post).
Proof.
  intros Hid Ht Hpre Hpost. rewrite !fmap_app, !fmap_cons.
  rewrite (upd_other uid t _ pre), (upd_other uid t _ post) by done.
  rewrite id_tenant_row, Hid, String.eqb_refl. unfold owned. by rewrite bool_decide_true.
Qed.

(** The UPDATE statement on an owned row, against [spec_replace]. *)
Lemma update_stmt_refines w t uid c (c' : DataConnectionResource) msg :
  db_wf g (db w) -> lookup_owned (abs (db w)) t uid = Ok c -> cid c' = uid ->
  let out := update_rows data_connections (fun r => id_is uid r && tenant_is t r)
               (to_value c') w in
  let s := spec_replace uid msg c' (abs (db w)) in
  match out with
  | (Ok _, w') => s = (Ok c', abs (db w'))
  | (Err _, w') => s = (Err (Query msg), abs (db w)) /\ db w' = db w
  end.
Proof.
  intros Hw Hl Hid. destruct (owned_split _ _ _ _ Hw Hl) as (pre & post & Hr & Hc & Hp & Hq & Ht).
  cbv zeta. rewrite update_rows_q. cbn [rows]. pose proof (proj1 Hr) as Hrows.
  rewrite Hrows, (upd_rows uid t c) by done. cbv zeta.
  pose proof (proj1 Hw data_connections) as Hu. cbn [rows] in Hu.
  rewrite Hrows, fmap_app, fmap_cons, unique_rows_middle in Hu.
  apply andb_true_iff in Hu as [Hu _].
  rewrite fmap_app, fmap_cons, unique_rows_middle, Hu, <- fmap_app, existsb_rows. cbn [andb].
  unfold spec_replace. rewrite (abs_rows _ _ Hr). subst uid.
  assert (Hn : NoDup (cid <$> (pre ++ post))).
  { apply unique_nodup. by rewrite fmap_app. }
  rewrite <- Hc, <- (abs_delete c) by (by rewrite Hc). rewrite taken_rows by done.
  destruct (existsb (clash c') (pre ++ post)); cbn [negb].
  - done.
  - f_equal. unfold abs. cbn [db set_rows conns].
    change (to_value c' :: (to_value <$> post)) with (to_value <$> (c' :: post)).
    rewrite <- fmap_app, omap_keyed. symmetry. apply abs_middle; congruence.
Qed.

Lemma update_data_connection_refines t uid f w :
  db_wf g (db w) ->
  let s := spec_update (type_visible (db w)) (now_at (3 + tick w)) t uid f (abs (db w)) in
  fst (update_data_connection g t uid f w) = fst s /\
  abs (db (snd (update_data_connection g t uid f w))) = snd s.
Proof.
  intros Hw. cbv zeta. destruct (update_data_connection g t uid f w) as [r w'] eqn:E.
  cbn [fst snd]. revert E. unfold update_data_connection, spec_update. rewrite in_tx_q.
  unfold mseq at 1. unfold map_err at 1. rewrite fetch_one_q. cbn [rows db bump].
  rewrite find_conn by done. destruct (lookup_owned (abs (db w)) t uid) as [c|e] eqn:Hl;
    cbn [ok_or rmap_err].
  2: { apply lookup_owned_err in Hl as ->. by intros [= <- <-]. }
  assert (Hid : cid c = uid) by (by destruct (owned_split _ _ _ _ Hw Hl) as (? & ? & _ & ? & _)).
  unfold mseq at 1, lift, decode. rewrite serde_roundtrip. cbn [ok_or].
  unfold mseq at 1. destruct (f (dc_resource c)) as [dc|e]; [|by intros [= <- <-]].
  unfold mseq at 1. rewrite validate_q. cbn [db bump].
  destruct (type_visible _ _ _); cbn [negb]; [|by intros [= <- <-]].
  unfold mseq at 1, utc_now. cbn [tick db bump Nat.add].
  set (c' := {| dc_metadata := _ |}). set (w3 := {| db := db w; tick := _ |}).
  pose proof (update_stmt_refines w3 t uid c c' "failed to update data connection" Hw Hl Hid) as H.
  cbv zeta in H. cbn [db w3] in H. unfold mseq, map_err.
  destruct (update_rows _ _ _ w3) as [[u|x] w4]; cbn; intros [= <- <-].
  - rewrite H. done.
  - destruct H as [-> _]. done.
Qed.
(** Rewriting a connection under the same name, tenant and id never clashes. *)
Lemma replace_same_keys d t uid c c' msg :
  db_wf g d -> lookup_owned (abs d) t uid = Ok c -> dc_resource c' = dc_resource c ->
  cid c' = cid c -> ctenant c' = ctenant c ->
  spec_replace uid msg c' (abs d) = (Ok c', <[uid := c']> (abs d)).
Proof.
  intros Hw Hl Hr Hi Ht. destruct (owned_split _ _ _ _ Hw Hl) as (pre & post & Hrows & Hc & Hp & Hq & _).
  unfold spec_replace. rewrite (abs_rows _ _ Hrows), <- Hc, <- (abs_delete c) by (by rewrite Hc).
  pose proof (proj1 Hw data_connections) as Hu. cbn [rows] in Hu.
  rewrite (proj1 Hrows), fmap_app, fmap_cons, unique_rows_middle, <- fmap_app in Hu.
  apply andb_true_iff in Hu as [Hu Hx]. rewrite taken_rows by (by apply unique_nodup).
  rewrite existsb_rows, negb_true_iff in Hx.
  assert (Hcl : forall y, clash c' y = clash c y).
  { intros y. unfold clash, cname. by rewrite Hr, Hi, Ht. }
  replace (existsb (clash c') (pre ++ post)) with (existsb (clash c) (pre ++ post)); [by rewrite Hx|].
  clear -Hcl. induction (pre ++ post) as [|y l IH]; [done|]. cbn. by rewrite Hcl, IH.
Qed.

Lemma update_data_connection_status_refines t uid f w :
  db_wf g (db w) ->
  let s := spec_update_status (now_at (2 + tick w)) t uid f (abs (db w)) in
  fst (update_data_connection_status t uid f w) = fst s /\
  abs (db (snd (update_data_connection_status t uid f w))) = snd s.
Proof.
  intros Hw. cbv zeta. destruct (update_data_connection_status t uid f w) as [r w'] eqn:E.
  cbn [fst snd]. revert E. unfold update_data_connection_status, spec_update_status. rewrite in_tx_q.
  unfold mseq at 1. unfold map_err at 1. rewrite fetch_one_q. cbn [rows db bump].
  rewrite find_conn by done. destruct (lookup_owned (abs (db w)) t uid) as [c|e] eqn:Hl;
    cbn [ok_or rmap_err].
  2: { apply lookup_owned_err in Hl as ->. by intros [= <- <-]. }
  assert (Hid : cid c = uid) by (by destruct (owned_split _ _ _ _ Hw Hl) as (? & ? & _ & ? & _)).
  unfold mseq at 1, lift, decode. rewrite serde_roundtrip. cbn [ok_or].
  unfold mseq at 1. destruct (f (dc_status c)) as [st|e]; [|by intros [= <- <-]].
  unfold mseq at 1, utc_now. cbn [tick db bump Nat.add].
  set (c' := {| dc_metadata := _ |}). set (w3 := {| db := db w; tick := _ |}).
  pose proof (update_stmt_refines w3 t uid c c' "failed to update data connection status" Hw Hl Hid) as H.
  cbv zeta in H. cbn [db w3] in H.
  rewrite (replace_same_keys (db w) t uid c c') in H by done. unfold mseq, map_err.
  destruct (update_rows _ _ _ w3) as [[u|x] w4]; cbn; intros [= <- <-].
  - by simplify_eq.
  - by destruct H.
Qed.

Lemma filter_other uid t cs :
  uid ∉ (cid <$> cs) ->
  List.filter (fun r => id_is uid r && tenant_is t r) (to_value <$> cs) = [] /\
  List.filter (fun r => negb (id_is uid r && tenant_is t r)) (to_value <$> cs) = to_value <$> cs.
Proof.
  induction cs as [|c cs IH]; [done|]. rewrite !fmap_cons, not_elem_of_cons. intros [Hne Hn].
  destruct (IH Hn) as [H1 H2]. cbn [List.filter]. rewrite id_tenant_row.
  destruct (String.eqb_spec (cid c) uid); [congruence|]. cbn. by rewrite H1, H2.
Qed.

Lemma delete_data_connection_refines t uid w :
  db_wf g (db w) ->
  let s := spec_delete t uid (abs (db w)) in
  fst (delete_data_connection t uid w) = fst s /\
  abs (db (snd (delete_data_connection t uid w))) = snd s.
Proof.
  intros Hw. cbv zeta. unfold delete_data_connection, spec_delete, delete_rows, mseq, map_err.
  rewrite db_call_quiet by done. cbn [rows].
  destruct (lookup_owned (abs (db w)) t uid) as [c|e] eqn:Hl.
  - destruct (owned_split _ _ _ _ Hw Hl) as (pre & post & Hr & Hc & Hp & Hq & Ht).
    pose proof (proj1 Hr) as Hrows. rewrite (abs_rows _ _ Hr), Hrows, fmap_app, fmap_cons.
    rewrite !List.filter_app. cbn [List.filter]. rewrite id_tenant_row, Hc, String.eqb_refl.
    unfold owned. rewrite bool_decide_true by done. cbn [andb negb].
    destruct (filter_other uid t pre Hp) as [-> ->], (filter_other uid t post Hq) as [-> ->].
    cbn. split; [done|]. unfold abs. cbn [conns]. rewrite <- fmap_app, omap_keyed.
    rewrite <- Hc. apply abs_delete; by rewrite Hc.
  - pose proof (find_conn (db w) t uid Hw) as Hf. rewrite Hl in Hf.
    apply lookup_owned_err in Hl as ->.
    assert (Hnil : List.filter (fun r => id_is uid r && tenant_is t r) (conns (db w)) = []).
    { clear -Hf. induction (conns (db w)) as [|r l IH]; [done|]. cbn in *.
      destruct (_ && _); [done|auto]. }
    rewrite Hnil. cbn -[abs]. split; [done|].
    pose proof (delete_none data_connections (fun r => id_is uid r && tenant_is t r) (db w)) as Hd.
    cbn in Hd. rewrite Hnil in Hd. by rewrite (Hd eq_refl).
Qed.

(** C6: on a database that answers, and from any well-formed state, the five
    operations on a single connection return exactly what the abstract store
    specifies and leave a database that represents the abstract store's new state:
    lookups see only the tenant's own connections, a create needs a visible type
    and a free name, an update keeps id, tenant, creation time and status, a delete
    removes one connection, and every refusal leaves the state as it was. *)
Theorem connections_refine_spec t uid dc f fs w :
  db_wf g (db w) ->
  (let s := spec_get t uid (abs (db w)) in
   fst (get_data_connection t uid w) = fst s /\
   abs (db (snd (get_data_connection t uid w))) = snd s) /\
  (let s := spec_create (type_visible (db w)) (now_at (2 + tick w)) (uuid_at (3 + tick w)) t dc
              (abs (db w)) in
   fst (create_data_connection g t dc w) = fst s /\
   abs (db (snd (create_data_connection g t dc w))) = snd s) /\
  (let s := spec_update (type_visible (db w)) (now_at (3 + tick w)) t uid f (abs (db w)) in
   fst (update_data_connection g t uid f w) = fst s /\
   abs (db (snd (update_data_connection g t uid f w))) = snd s) /\
  (let s := spec_update_status (now_at (2 + tick w)) t uid fs (abs (db w)) in
   fst (update_data_connection_status t uid fs w) = fst s /\
   abs (db (snd (update_data_connection_status t uid fs w))) = snd s) /\
  (let s := spec_delete t uid (abs (db w)) in
   fst (delete_data_connection t uid w) = fst s /\
   abs (db (snd (delete_data_connection t uid w))) = snd s).
Proof.
  intros Hw. split_and!.
  - by apply get_data_connection_refines.
  - by apply create_data_connection_refines.
  - by apply update_data_connection_refines.
  - by apply update_data_connection_status_refines.
  - by apply delete_data_connection_refines.
Qed.

End Refine.

Lemma connections_refine_spec_witness :
  fst (@create_data_connection sample_oracle "global" "a" (sample_dc "x" "t1") sample_store)
    = Err (Conflict "a resource with the same identity already exists") /\
  is_ok (fst (@create_data_connection sample_oracle "global" "a" (sample_dc "y" "t1") sample_store))
    = true /\
  fst (@update_data_connection sample_oracle "global" "a" "1" Ok sample_store) =
  fst (spec_update (@type_visible sample_oracle "global" (db sample_store))
         "2026-01-01T00:00:00Z" "a" "1" Ok (abs (db sample_store))).
Proof.
  split; [vm_compute; reflexivity|]. split; [vm_compute; reflexivity|].
  apply (@connections_refine_spec sample_oracle "global" (fun _ => eq_refl) "a" "1"
           (sample_dc "y" "t1") Ok Ok sample_store).
  apply sample_wf.
Defined.
