(* ===== verification/MetaStoreTypes.v ===== *)
(** Connection types in the metadata store: what a delete decides, what the
    listings show, and how malformed rows and name clashes are reported. *)
From S2P Require Import Prelude Text Json Sql Api MetaStore.
From S2P Require Import MetaStoreInv MetaStoreAtomic MetaStoreSpec MetaStoreRefine.

#[local] Arguments to_value : simpl never.
#[local] Arguments from_value : simpl never.

Section Types.
Context `{O : Oracle}.
Variable g : string.
Hypothesis no_fault : forall n, db_fault n = None.

(** The number of connections, of any tenant, that reference type [uid]. *)
Definition references (d : Db) (uid : string) : nat :=
  length (List.filter (fun r => sql_eq (row_type_id r) uid) (conns d)).

Lemma find_filter_nil {A} (p : A -> bool) l : List.find p l = None <-> List.filter p l = [].
Proof.
  induction l as [|x l IH]; [done|]. cbn. destruct (p x); [done|auto].
Qed.

Lemma count_q t p w : count t p w = (Ok (length (List.filter p (rows t (db w)))), bump w).
Proof. unfold count. by rewrite db_call_quiet. Qed.

Lemma delete_rows_q t p w :
  delete_rows t p w =
  (Ok (length (List.filter p (rows t (db w)))),
   {| db := set_rows t (List.filter (fun r => negb (p r)) (rows t (db w))) (db w);
      tick := S (tick w) |}).
Proof. unfold delete_rows. by rewrite db_call_quiet. Qed.

(** What a request to delete a connection type decides, on a database that
    answers: it is refused as not found when the tenant owns no such type, refused
    as a conflict that states the number of referencing connections when any
    connection of any tenant references it, and otherwise removes exactly the
    tenant's row of that id; a refusal leaves the database unchanged. *)
Theorem delete_type_decides t uid w :
  let out := delete_data_connection_type t uid w in
  let mine := fun r => id_is uid r && tenant_is t r in
  if existsb mine (types (db w)) then
    if 0 <? references (db w) uid then
      fst out = Err (Conflict (connection_type_in_use_message uid (references (db w) uid))) /\
      db (snd out) = db w
    else
      fst out = Ok tt /\ conns (db (snd out)) = conns (db w) /\
      flights (db (snd out)) = flights (db w) /\
      types (db (snd out)) = List.filter (fun r => negb (mine r)) (types (db w))
  else fst out = Err (connection_type_not_found uid) /\ db (snd out) = db w.
Proof.
  cbv zeta. rewrite find_existsb.
  unfold delete_data_connection_type. rewrite in_tx_q by done. unfold mseq, map_err, references.
  rewrite fetch_one_q by done. cbn [rows db bump].
  destruct (List.find _ (types (db w))) as [r|] eqn:Hf; cbn [ok_or rmap_err]; [|done].
  rewrite count_q. cbn [rows db bump rmap_err].
  destruct (0 <? _) eqn:Hn; [done|].
  rewrite delete_rows_q. cbn [rows db bump rmap_err].
  destruct (List.filter (fun r => id_is uid r && tenant_is t r) (types (db w))) eqn:Hl; [|done].
  apply find_filter_nil in Hl. congruence.
Qed.

(** ** Listings *)

(** The listing of connection types is complete and robust, on a database
    that answers: it holds, in table order, exactly the decodable rows of the
    tenant and the global ones, the count is their number, the configured global
    tenant is never shown, and a malformed row drops out without affecting the
    others. *)
Theorem list_types_correct t w :
  exists l, fst (get_data_connection_types g t w) = Ok {| total_count := length l; items := l |} /\
  (forall d, d ∈ l <-> exists r e, r ∈ types (db w) /\ visible_to g t r = true /\
     from_value r = Some e /\ d = hide_global g e) /\
  (forall d, d ∈ l -> tenant_id (dct_metadata d) <> Some g) /\
  (forall pre bad post w', types (db w) = pre ++ bad :: post ->
     from_value (A:=DataConnectionTypeResource) bad = None -> types (db w') = pre ++ post ->
     fst (get_data_connection_types g t w') = fst (get_data_connection_types g t w)).
Proof.
  assert (Hget : forall w, fst (get_data_connection_types g t w) =
    Ok (resource_list (omap (deserialize_connection_type g)
                         (List.filter (visible_to g t) (types (db w)))))).
  { intros v. unfold get_data_connection_types, mseq, map_err, fetch_all.
    by rewrite db_call_quiet. }
  eexists. split; [apply Hget|]. split_and!.
  - intros d. rewrite list_elem_of_omap. unfold deserialize_connection_type. split.
    + intros (r & Hr & Hd). apply list_elem_of_In, filter_In in Hr as [Hr Hv].
      apply list_elem_of_In in Hr. destruct (from_value r) as [e|] eqn:He; [|done].
      exists r, e. naive_solver.
    + intros (r & e & Hr & Hv & He & ->). exists r. rewrite He. split; [|done].
      apply list_elem_of_In, filter_In. by rewrite <- list_elem_of_In.
  - intros d. rewrite list_elem_of_omap. intros (r & _ & Hd).
    unfold deserialize_connection_type in Hd. destruct (from_value r) as [e|]; [|done].
    cbn in Hd. injection Hd as <-. unfold hide_global. case_bool_decide; cbn; congruence.
  - intros pre bad post w' Hw Hbad Hw'. rewrite !Hget, Hw, Hw'. do 2 f_equal.
    rewrite !List.filter_app, !omap_app. f_equal. cbn [List.filter].
    destruct (visible_to g t bad); [|done]. cbn. unfold deserialize_connection_type at 2.
    by rewrite Hbad.
Qed.

Lemma collect_err {A B E} (f : A -> result E B) x l :
  (forall a e, f a = Err e -> e = x) -> (exists a, a ∈ l /\ f a = Err x) -> collect f l = Err x.
Proof.
  intros Hx (a & Hin & Ha). induction l as [|b l IH]; [set_solver|]. cbn.
  apply elem_of_cons in Hin as [<-|Hin]; [by rewrite Ha|].
  destruct (f b) as [y|e] eqn:Hb; cbn; [by rewrite IH|]. by rewrite (Hx b e).
Qed.

(** Unlike the tenant's listing, the unscoped listing (which the audit of
    connection types reads) fails as a whole on one undecodable row. *)
Theorem get_all_types_fails_on_malformed w bad :
  bad ∈ types (db w) -> from_value (A:=DataConnectionTypeResource) bad = None ->
  fst (get_all_data_connection_types g w) = Err (Deserialization bad_type).
Proof.
  intros Hw Hbad. unfold get_all_data_connection_types, mseq, map_err, fetch_all.
  rewrite db_call_quiet by done. cbn [rows rmap_err]. unfold lift.
  rewrite (collect_err _ (Deserialization bad_type)); [done|..].
  - intros v e. unfold decode. destruct (from_value v); cbn; congruence.
  - exists bad. unfold decode. rewrite Hbad. split; [|done].
    apply list_elem_of_In, filter_In. by rewrite <- list_elem_of_In.
Qed.

End Types.

(** ** Concrete instances *)

(** A row written before the field [credentials_fields] existed. *)
Definition malformed_row : json :=
  obj [("metadata", Some (to_value (sample_meta "t9" "a")));
       ("resource", Some (obj [("name", Some (JString "old"))]))].

Definition store_with_malformed : Store :=
  {| db := {| conns := []; types := [malformed_row; to_value (sample_type_row "t1" "global" "pg")];
              flights := [] |};
     tick := 0 |}.

Lemma get_all_types_fails_on_malformed_witness :
  fst (@get_all_data_connection_types sample_oracle "global" store_with_malformed)
    = Err (Deserialization bad_type) /\
  total_count <$> (match fst (@get_data_connection_types sample_oracle "global" "a" store_with_malformed)
                   with Ok l => Some l | Err _ => None end) = Some 1.
Proof.
  split; [|vm_compute; reflexivity].
  apply (@get_all_types_fails_on_malformed sample_oracle "global" (fun _ => eq_refl)
           store_with_malformed malformed_row).
  - left.
  - vm_compute. reflexivity.
Defined.

Lemma list_types_correct_witness :
  exists l, fst (@get_data_connection_types sample_oracle "global" "a" store_with_malformed)
    = Ok {| total_count := length l; items := l |}.
Proof.
  destruct (@list_types_correct sample_oracle "global" (fun _ => eq_refl) "a" store_with_malformed)
    as (l & Hl & _). exists l. exact Hl.
Defined.

Lemma delete_type_decides_witness :
  fst (@delete_data_connection_type sample_oracle "global" "t1" sample_store)
    = Err (Conflict "cannot delete connection type 't1': 2 connections still reference it; delete the connections first").
Proof.
  exact (proj1 (@delete_type_decides sample_oracle (fun _ => eq_refl) "global" "t1" sample_store)).
Defined.

(** Renaming a type to a name already used by the tenant is reported as a
    database failure, although creating one under that name is a conflict. *)
Example rename_clash_is_query_error :
  let w := {| db := {| conns := [];
                       types := [to_value (sample_type_row "t1" "a" "pg");
                                 to_value (sample_type_row "t2" "a" "s3")];
                       flights := [] |}; tick := 0 |} in
  fst (@update_data_connection_type sample_oracle "a" "t2"
         (fun _ => Ok (dct_resource (sample_type_row "t2" "a" "pg"))) w)
    = Err (Query "failed to update connection type") /\
  fst (@create_data_connection_type sample_oracle "a" (dct_resource (sample_type_row "t2" "a" "pg")) w)
    = Err (Conflict "a connection type named 'pg' already exists for this tenant").
Proof. split; vm_compute; reflexivity. Qed.

(** Reading one global type shows the global tenant that the listings hide. *)
Example get_type_shows_global_tenant :
  rmap (fun d => tenant_id (dct_metadata d))
    (fst (@get_data_connection_type sample_oracle "global" "a" "t1" sample_store))
    = Ok (Some "global") /\
  rmap (fun l => (fun d => tenant_id (dct_metadata d)) <$> items l)
    (fst (@get_data_connection_types sample_oracle "global" "a" sample_store)) = Ok [None].
Proof. split; vm_compute; reflexivity. Qed.
