(* ===== verification/MetaStoreConc.v ===== *)
(** Concurrent transactions of the metadata store, statement by statement, under
    READ COMMITTED with row locks: the step relation interleaves the statements
    of [create_data_connection], [update_data_connection],
    [update_data_connection_status], [delete_data_connection],
    [create_data_connection_type], [update_data_connection_type] and
    [delete_data_connection_type] ([libs/pg-meta-store/src/store/meta.rs]).

    Only what the transactions' conditions depend on is kept of a row: the id and
    tenant of a type, the id, tenant and type id of a connection. *)
From S2P Require Import Prelude.

(** ** Transactions

    A transaction is named by the statement it has completed last; [t] is the
    tenant, [c] a connection id, [ty] a type id. Its own uncommitted writes are
    part of its name and reach the tables when it commits. *)
Inductive txn : Type :=
(* create_data_connection: validate FOR SHARE, INSERT, commit *)
| CreateBegin (t c ty : string)
| CreateValidated (t c ty : string)
| CreateInserted (t c ty : string)
(* update_data_connection: SELECT FOR UPDATE, validate FOR SHARE, UPDATE, commit *)
| UpdateBegin (t c : string)
| UpdateLocked (t c : string)
| UpdateValidated (t c ty : string)
| UpdateWritten (t c ty : string)
(* update_data_connection_status: SELECT FOR UPDATE, UPDATE and commit *)
| StatusBegin (t c : string)
| StatusLocked (t c : string)
(* delete_data_connection: one DELETE *)
| DeleteConn (t c : string)
(* create_data_connection_type: one INSERT *)
| CreateType (t ty : string)
(* update_data_connection_type and its status: SELECT FOR UPDATE, UPDATE, commit *)
| EditTypeBegin (ty : string)
| EditTypeLocked (ty : string)
(* delete_data_connection_type: SELECT FOR UPDATE, count, DELETE, commit *)
| DeleteTypeBegin (t ty : string)
| DeleteTypeLocked (t ty : string)
| DeleteTypeCounted (t ty : string)
| DeleteTypeDeleted (t ty : string)
(* committed, or rolled back *)
| Committed
| Aborted.

(** The row locks a transaction holds until it ends. *)
Definition share_lock (x : txn) : option string :=
  match x with
  | CreateValidated _ _ ty | CreateInserted _ _ ty
  | UpdateValidated _ _ ty | UpdateWritten _ _ ty => Some ty
  | _ => None
  end.

Definition excl_lock (x : txn) : option string :=
  match x with
  | EditTypeLocked ty | DeleteTypeLocked _ ty | DeleteTypeCounted _ ty
  | DeleteTypeDeleted _ ty => Some ty
  | _ => None
  end.

Definition conn_lock (x : txn) : option string :=
  match x with
  | UpdateLocked _ c | UpdateValidated _ c _ | UpdateWritten _ c _ | StatusLocked _ c => Some c
  | _ => None
  end.

(** The primary key an uncommitted INSERT occupies in the unique index. *)
Definition pending_insert (x : txn) : option string :=
  match x with CreateInserted _ c _ => Some c | _ => None end.

Definition finished (x : txn) : bool :=
  match x with Committed | Aborted => true | _ => false end.

(** The committed tables and the transactions in flight. *)
Record state : Type := {
  ctypes : gmap string string;
  cconns : gmap string (string * string);
  pool : gmap nat txn
}.

Section Conc.
Variable global_tenant_id : string.

(** [id = ty AND (tenant_id = t OR tenant_id = global)]. *)
Definition usable (s : state) (t ty : string) : Prop :=
  ctypes s !! ty = Some t \/ ctypes s !! ty = Some global_tenant_id.

Definition no_other (s : state) (i : nat) (lock : txn -> option string) (k : string) : Prop :=
  forall j x, j <> i -> pool s !! j = Some x -> lock x <> Some k.

(** FOR SHARE waits for a FOR UPDATE holder; FOR UPDATE waits for both. *)
Definition can_share (s : state) (i : nat) (ty : string) : Prop := no_other s i excl_lock ty.
Definition can_excl (s : state) (i : nat) (ty : string) : Prop :=
  no_other s i excl_lock ty /\ no_other s i share_lock ty.

Definition goto (s : state) (i : nat) (x : txn) : state :=
  {| ctypes := ctypes s; cconns := cconns s; pool := <[i := x]> (pool s) |}.
Definition put_conn (s : state) (c t ty : string) : state :=
  {| ctypes := ctypes s; cconns := <[c := (t, ty)]> (cconns s); pool := pool s |}.
Definition del_conn (s : state) (c : string) : state :=
  {| ctypes := ctypes s; cconns := delete c (cconns s); pool := pool s |}.
Definition put_type (s : state) (ty t : string) : state :=
  {| ctypes := <[ty := t]> (ctypes s); cconns := cconns s; pool := pool s |}.
Definition del_type (s : state) (ty : string) : state :=
  {| ctypes := delete ty (ctypes s); cconns := cconns s; pool := pool s |}.

(** One statement of transaction [i]. *)
Inductive step (i : nat) (s : state) : state -> Prop :=
(* create_data_connection *)
| step_create_validate t c ty :
    pool s !! i = Some (CreateBegin t c ty) -> usable s t ty -> can_share s i ty ->
    step i s (goto s i (CreateValidated t c ty))
| step_create_no_type t c ty :
    pool s !! i = Some (CreateBegin t c ty) -> ~ usable s t ty ->
    step i s (goto s i Aborted)
| step_create_insert t c ty :
    pool s !! i = Some (CreateValidated t c ty) ->
    cconns s !! c = None -> no_other s i pending_insert c ->
    step i s (goto s i (CreateInserted t c ty))
| step_create_duplicate t c ty :
    pool s !! i = Some (CreateValidated t c ty) -> is_Some (cconns s !! c) ->
    step i s (goto s i Aborted)
| step_create_commit t c ty :
    pool s !! i = Some (CreateInserted t c ty) ->
    step i s (put_conn (goto s i Committed) c t ty)
(* update_data_connection *)
| step_update_lock t c ty :
    pool s !! i = Some (UpdateBegin t c) -> cconns s !! c = Some (t, ty) ->
    no_other s i conn_lock c ->
    step i s (goto s i (UpdateLocked t c))
| step_update_missing t c :
    pool s !! i = Some (UpdateBegin t c) -> (forall ty, cconns s !! c <> Some (t, ty)) ->
    step i s (goto s i Aborted)
| step_update_validate t c ty :
    pool s !! i = Some (UpdateLocked t c) -> usable s t ty -> can_share s i ty ->
    step i s (goto s i (UpdateValidated t c ty))
| step_update_no_type t c ty :
    pool s !! i = Some (UpdateLocked t c) -> ~ usable s t ty ->
    step i s (goto s i Aborted)
| step_update_write t c ty :
    pool s !! i = Some (UpdateValidated t c ty) ->
    step i s (goto s i (UpdateWritten t c ty))
| step_update_commit t c ty :
    pool s !! i = Some (UpdateWritten t c ty) ->
    step i s (put_conn (goto s i Committed) c t ty)
(* update_data_connection_status *)
| step_status_lock t c ty :
    pool s !! i = Some (StatusBegin t c) -> cconns s !! c = Some (t, ty) ->
    no_other s i conn_lock c ->
    step i s (goto s i (StatusLocked t c))
| step_status_missing t c :
    pool s !! i = Some (StatusBegin t c) -> (forall ty, cconns s !! c <> Some (t, ty)) ->
    step i s (goto s i Aborted)
| step_status_commit t c :
    pool s !! i = Some (StatusLocked t c) -> step i s (goto s i Committed)
(* delete_data_connection *)
| step_delete_conn t c ty :
    pool s !! i = Some (DeleteConn t c) -> cconns s !! c = Some (t, ty) ->
    no_other s i conn_lock c ->
    step i s (del_conn (goto s i Committed) c)
| step_delete_conn_missing t c :
    pool s !! i = Some (DeleteConn t c) -> (forall ty, cconns s !! c <> Some (t, ty)) ->
    step i s (goto s i Aborted)
(* create_data_connection_type *)
| step_create_type t ty :
    pool s !! i = Some (CreateType t ty) -> ctypes s !! ty = None ->
    step i s (put_type (goto s i Committed) ty t)
| step_create_type_duplicate t ty :
    pool s !! i = Some (CreateType t ty) -> is_Some (ctypes s !! ty) ->
    step i s (goto s i Aborted)
(* update_data_connection_type, update_data_connection_type_status *)
| step_edit_lock ty :
    pool s !! i = Some (EditTypeBegin ty) -> is_Some (ctypes s !! ty) -> can_excl s i ty ->
    step i s (goto s i (EditTypeLocked ty))
| step_edit_missing ty :
    pool s !! i = Some (EditTypeBegin ty) -> ctypes s !! ty = None ->
    step i s (goto s i Aborted)
| step_edit_commit ty :
    pool s !! i = Some (EditTypeLocked ty) -> step i s (goto s i Committed)
(* delete_data_connection_type *)
| step_delete_lock t ty :
    pool s !! i = Some (DeleteTypeBegin t ty) -> ctypes s !! ty = Some t -> can_excl s i ty ->
    step i s (goto s i (DeleteTypeLocked t ty))
| step_delete_missing t ty :
    pool s !! i = Some (DeleteTypeBegin t ty) -> ctypes s !! ty <> Some t ->
    step i s (goto s i Aborted)
| step_delete_count t ty :
    pool s !! i = Some (DeleteTypeLocked t ty) ->
    map_Forall (fun _ p => snd p <> ty) (cconns s) ->
    step i s (goto s i (DeleteTypeCounted t ty))
| step_delete_in_use t ty c t' :
    pool s !! i = Some (DeleteTypeLocked t ty) -> cconns s !! c = Some (t', ty) ->
    step i s (goto s i Aborted)
| step_delete_delete t ty :
    pool s !! i = Some (DeleteTypeCounted t ty) ->
    step i s (goto s i (DeleteTypeDeleted t ty))
| step_delete_commit t ty :
    pool s !! i = Some (DeleteTypeDeleted t ty) ->
    step i s (del_type (goto s i Committed) ty).

(** The transactions a client may begin. *)
Definition initial (x : txn) : bool :=
  match x with
  | CreateBegin _ _ _ | UpdateBegin _ _ | StatusBegin _ _ | DeleteConn _ _ | CreateType _ _
  | EditTypeBegin _ | DeleteTypeBegin _ _ => true
  | _ => false
  end.

(** What may happen next: a new transaction, a statement, or the failure of a
    transaction in flight (a lost connection, a failed statement or commit),
    which rolls it back. *)
Inductive next (s : state) : state -> Prop :=
| next_begin i x : pool s !! i = None -> initial x = true -> next s (goto s i x)
| next_step i s' : step i s s' -> next s s'
| next_fail i x : pool s !! i = Some x -> finished x = false -> next s (goto s i Aborted).

Definition empty_state : state := {| ctypes := ∅; cconns := ∅; pool := ∅ |}.
Definition reachable (s : state) : Prop := rtc next empty_state s.

(** ** The invariant *)

(** The type whose references a delete has counted as none. *)
Definition counted (x : txn) : option string :=
  match x with
  | DeleteTypeCounted _ ty | DeleteTypeDeleted _ ty => Some ty
  | _ => None
  end.

Definition tenant_of (x : txn) : string :=
  match x with
  | CreateValidated t _ _ | CreateInserted t _ _ | UpdateValidated t _ _
  | UpdateWritten t _ _ => t
  | _ => ""
  end.

(** Every committed connection has a usable type. *)
Definition refs (s : state) : Prop :=
  map_Forall (fun _ p => usable s (fst p) (snd p)) (cconns s).

(** A share lock pins a usable type. *)
Definition pinned (s : state) : Prop :=
  forall i x ty, pool s !! i = Some x -> share_lock x = Some ty -> usable s (tenant_of x) ty.

(** An exclusive lock on a type excludes every other lock on it. *)
Definition exclusive (s : state) : Prop :=
  forall i j x y ty, i <> j -> pool s !! i = Some x -> pool s !! j = Some y ->
  excl_lock x = Some ty -> excl_lock y <> Some ty /\ share_lock y <> Some ty.

(** A counted type stays unreferenced. *)
Definition unreferenced (s : state) : Prop :=
  forall i x ty, pool s !! i = Some x -> counted x = Some ty ->
  map_Forall (fun _ p => snd p <> ty) (cconns s).

Definition Inv (s : state) : Prop := refs s /\ pinned s /\ exclusive s /\ unreferenced s.

Lemma counted_excl x ty : counted x = Some ty -> excl_lock x = Some ty.
Proof. by destruct x. Qed.

Lemma lookup_goto s i x j y :
  pool (goto s i x) !! j = Some y -> (j = i /\ y = x) \/ (j <> i /\ pool s !! j = Some y).
Proof. cbn. rewrite lookup_insert_Some. naive_solver. Qed.

(** Moving one transaction to a state whose locks were granted. *)
Lemma goto_inv s i x :
  Inv s ->
  (forall ty, share_lock x = Some ty -> usable s (tenant_of x) ty /\ can_share s i ty) ->
  (forall ty, excl_lock x = Some ty -> can_excl s i ty) ->
  (forall ty, counted x = Some ty -> map_Forall (fun _ p => snd p <> ty) (cconns s)) ->
  Inv (goto s i x).
Proof.
  intros (Hr & Hp & He & Hu) Hs Hx Hc. split_and!.
  - exact Hr.
  - intros j y ty Hj Hl. apply lookup_goto in Hj as [[-> ->]|[_ Hj]]; [by apply Hs|by eapply Hp].
  - intros j k y z ty Hne Hj Hk Hl.
    apply lookup_goto in Hj as [[-> ->]|[Hji Hj]], Hk as [[-> ->]|[Hki Hk]]; [done|..].
    + destruct (Hx _ Hl) as [H1 H2]. split; [by eapply H1|by eapply H2].
    + split; intros Hl'.
      * by apply (proj1 (Hx _ Hl') j y).
      * by apply (proj2 (Hs _ Hl') j y).
    + by eapply (He j k).
  - intros j y ty Hj Hl. apply lookup_goto in Hj as [[-> ->]|[_ Hj]]; [by apply Hc|by eapply Hu].
Qed.

(** The common cases: a lock-free state, and a state with the same locks. *)
Lemma goto_free s i x :
  Inv s -> share_lock x = None -> excl_lock x = None -> counted x = None -> Inv (goto s i x).
Proof. intros H H1 H2 H3. apply goto_inv; auto; congruence. Qed.

Lemma goto_same s i x y :
  Inv s -> pool s !! i = Some x -> share_lock y = share_lock x -> excl_lock y = excl_lock x ->
  tenant_of y = tenant_of x ->
  (forall ty, counted y = Some ty -> map_Forall (fun _ p => snd p <> ty) (cconns s)) ->
  Inv (goto s i y).
Proof.
  intros HI Hi H1 H2 H3 H4. pose proof HI as (Hr & Hp & He & Hu). apply goto_inv; auto.
  - rewrite H1, H3. intros ty Hl. split; [by eapply Hp|]. intros j z Hne Hj Hz.
    by destruct (He j i z x ty).
  - rewrite H2. intros ty Hl. split; intros j z Hne Hj Hz; by destruct (He i j x z ty).
Qed.

Lemma put_conn_inv s i x c ty :
  Inv s -> pool s !! i = Some x -> share_lock x = Some ty ->
  Inv (put_conn (goto s i Committed) c (tenant_of x) ty).
Proof.
  intros HI Hi Hl. pose proof HI as (Hr & Hp & He & Hu).
  pose proof (goto_free s i Committed HI eq_refl eq_refl eq_refl) as (Hr' & Hp' & He' & Hu').
  split_and!; try done.
  - unfold refs. cbn. apply map_Forall_insert_2; [by eapply Hp|exact Hr].
  - intros j y ty' Hj Hc. cbn. apply map_Forall_insert_2; [|by eapply Hu'].
    intros Heq. cbn in Heq. subst ty'. apply lookup_goto in Hj as [[-> ->]|[Hne Hj]]; [done|].
    destruct (He j i y x ty) as [_ Hn]; auto. by apply counted_excl.
Qed.

Lemma del_conn_inv s c : Inv s -> Inv (del_conn s c).
Proof.
  intros (Hr & Hp & He & Hu). split_and!; try done.
  - unfold refs. cbn. by apply map_Forall_delete.
  - intros i x ty Hi Hc. cbn. apply map_Forall_delete. by eapply Hu.
Qed.

Lemma usable_put_type s ty t t' ty' :
  ctypes s !! ty = None -> usable s t' ty' -> usable (put_type s ty t) t' ty'.
Proof.
  intros Hn Hu. unfold usable. cbn. destruct (decide (ty = ty')) as [<-|Hne].
  - unfold usable in Hu. destruct Hu; congruence.
  - by rewrite lookup_insert_ne.
Qed.

Lemma put_type_inv s ty t : Inv s -> ctypes s !! ty = None -> Inv (put_type s ty t).
Proof.
  intros (Hr & Hp & He & Hu) Hn. split_and!; try done.
  - intros c p Hc. cbn. apply usable_put_type; [done|]. by apply (Hr c).
  - intros i x ty' Hi Hl. apply usable_put_type; [done|]. by eapply Hp.
Qed.

Lemma del_type_inv s i x ty :
  Inv s -> pool s !! i = Some x -> counted x = Some ty ->
  Inv (del_type (goto s i Committed) ty).
Proof.
  intros HI Hi Hc. pose proof HI as (Hr & Hp & He & Hu).
  pose proof (goto_free s i Committed HI eq_refl eq_refl eq_refl) as (Hr' & Hp' & He' & Hu').
  assert (Hdel : forall t ty', ty' <> ty -> usable s t ty' -> usable (del_type (goto s i Committed) ty) t ty').
  { intros t ty' Hne. unfold usable. cbn. by rewrite lookup_delete_ne. }
  split_and!; try done.
  - intros c p Hp0. cbn in *. apply Hdel; [|by apply (Hr c)]. by eapply (Hu i x ty Hi Hc c).
  - intros j y ty' Hj Hl. cbn in Hj. apply lookup_insert_Some in Hj as [[-> <-]|[Hne Hj]]; [done|].
    apply Hdel; [|by eapply Hp]. intros ->.
    destruct (He i j x y ty) as [_ Hn]; auto. by apply counted_excl.
Qed.

Lemma step_inv i s s' : Inv s -> step i s s' -> Inv s'.
Proof.
  intros HI Hs. destruct Hs;
    try (by apply goto_free);
    try (by eapply goto_same; [done|done|..]);
    try (by apply del_conn_inv, goto_free).
  all: try (apply goto_inv; [done|naive_solver..]).
  - by eapply (put_conn_inv s i (CreateInserted t c ty)).
  - by eapply (put_conn_inv s i (UpdateWritten t c ty)).
  - apply put_type_inv; [by apply goto_free|done].
  - eapply goto_same; [done|done|done|done|done|]. intros ? [= <-]. done.
  - eapply goto_same; [done|done|done|done|done|]. intros ? [= <-].
    by eapply (proj2 (proj2 (proj2 HI))).
  - by eapply (del_type_inv s i (DeleteTypeDeleted t ty)).
Qed.

Lemma reachable_inv s : reachable s -> Inv s.
Proof.
  revert s. apply (rtc_ind_r Inv).
  - split_and!; [apply map_Forall_empty| |..]; intros i; intros; cbn in *; set_solver.
  - intros s s' _ Hn IH. destruct Hn as [i x Hi Hx|i s' Hs|i x Hi Hx].
    + apply goto_free; [done|by destruct x..].
    + by eapply step_inv.
    + by apply goto_free.
Qed.

(** C1: no interleaving leaves a connection without its type. In every state
    that concurrent transactions can reach, statement by statement, with any of
    them failing at any point, every committed connection references an existing
    type of its own tenant or a global one. *)
Theorem no_dangling_reference s c t ty :
  reachable s -> cconns s !! c = Some (t, ty) ->
  ctypes s !! ty = Some t \/ ctypes s !! ty = Some global_tenant_id.
Proof. intros Hs Hc. apply (proj1 (reachable_inv s Hs) c (t, ty) Hc). Qed.

(** ** Progress *)

Definition waiting (s : state) (i : nat) (x : txn) : Prop :=
  pool s !! i = Some x /\ finished x = false.

#[local] Instance usable_dec s t ty : Decision (usable s t ty).
Proof. unfold usable. apply _. Defined.

(** A transaction that holds a lock on a type can always take its next step,
    unless it waits for an uncommitted row with the same id. *)
Lemma type_holder_moves s i x ty :
  pool s !! i = Some x -> (share_lock x = Some ty \/ excl_lock x = Some ty) ->
  (forall j y c, pool s !! j = Some y -> pending_insert y = Some c -> j = i) ->
  exists s', step i s s'.
Proof.
  intros Hi Hl Hp. destruct x; cbn in Hl; try (by destruct Hl); try (by eexists; econstructor).
  - destruct (cconns s !! c) eqn:Hc.
    + eexists. eapply step_create_duplicate; eauto.
    + eexists. eapply step_create_insert; eauto. intros j y Hne Hj Hpd. by apply Hne, (Hp j y c).
  - destruct (decide (map_Forall (fun _ p => snd p <> ty0) (cconns s))) as [Hf|Hf].
    + eexists. by eapply step_delete_count.
    + apply map_not_Forall in Hf as (c & [t' ty'] & Hc & Hn); [|apply _].
      cbn in Hn. apply dec_stable in Hn. subst. eexists. by eapply step_delete_in_use.
Qed.

(** With no lock held at all, every transaction that has begun can step. *)
Lemma unlocked_moves s i x :
  waiting s i x ->
  (forall j y, pool s !! j = Some y -> share_lock y = None /\ excl_lock y = None /\ conn_lock y = None) ->
  exists s', step i s s'.
Proof.
  intros [Hi Hf] Hno. destruct (Hno i x Hi) as (Hs & He & Hc).
  assert (Hx : forall k, can_excl s i k) by (intros k; split; intros j y _ Hj; destruct (Hno j y Hj); naive_solver).
  assert (Hrow : forall k, no_other s i conn_lock k) by (intros k j y _ Hj; destruct (Hno j y Hj); naive_solver).
  destruct x; try discriminate.
  - destruct (decide (usable s t ty)); eexists;
      [eapply step_create_validate; eauto; apply Hx | by eapply step_create_no_type].
  - destruct (cconns s !! c) as [[t' ty]|] eqn:E; [destruct (decide (t' = t)) as [->|]|]; eexists;
      [by eapply step_update_lock | eapply step_update_missing; naive_solver..].
  - destruct (cconns s !! c) as [[t' ty]|] eqn:E; [destruct (decide (t' = t)) as [->|]|]; eexists;
      [by eapply step_status_lock | eapply step_status_missing; naive_solver..].
  - destruct (cconns s !! c) as [[t' ty]|] eqn:E; [destruct (decide (t' = t)) as [->|]|]; eexists;
      [by eapply step_delete_conn | eapply step_delete_conn_missing; naive_solver..].
  - destruct (ctypes s !! ty) eqn:E; eexists;
      [eapply step_create_type_duplicate; eauto | by eapply step_create_type].
  - destruct (ctypes s !! ty) eqn:E; eexists;
      [eapply step_edit_lock; eauto | by eapply step_edit_missing].
  - destruct (decide (ctypes s !! ty = Some t)); eexists;
      [by eapply step_delete_lock | by eapply step_delete_missing].
Qed.

Lemma some_holder (lock : txn -> option string) (m : gmap nat txn) :
  (exists i x k, m !! i = Some x /\ lock x = Some k) \/
  (forall i x, m !! i = Some x -> lock x = None).
Proof.
  destruct (decide (map_Forall (fun _ x => lock x = None) m)) as [H|H]; [right; exact H|left].
  apply map_not_Forall in H as (i & x & Hi & Hx); [|apply _].
  apply not_eq_None_Some in Hx as [k Hk]. eauto.
Qed.


End Conc.

(** ** A concrete interleaving: a create validates the type before a delete of
    that type asks for its lock, so the delete waits. *)

Definition race : state :=
  {| ctypes := {["t1" := "a"]}; cconns := ∅;
     pool := {[0 := CreateValidated "a" "c1" "t1"; 1 := DeleteTypeBegin "a" "t1"]} |}.


(** One connection created over one type, run to its commit. *)
Definition after_create : state :=
  {| ctypes := {["t1" := "a"]}; cconns := {["c1" := ("a", "t1")]};
     pool := {[0 := Committed; 1 := Committed]} |}.

Lemma no_other_dec s i lock k :
  bool_decide (map_Forall (fun j x => j <> i -> lock x <> Some k) (pool s)) = true ->
  no_other s i lock k.
Proof. rewrite bool_decide_eq_true. intros H j x Hne Hj. by apply (H j x Hj). Qed.

Lemma after_create_reachable : reachable "global" after_create.
Proof.
  set (s0 := goto empty_state 0 (CreateType "a" "t1")).
  set (s1 := put_type (goto s0 0 Committed) "t1" "a").
  set (s2 := goto s1 1 (CreateBegin "a" "c1" "t1")).
  set (s3 := goto s2 1 (CreateValidated "a" "c1" "t1")).
  set (s4 := goto s3 1 (CreateInserted "a" "c1" "t1")).
  apply (rtc_l _ _ s0). { apply next_begin; done. }
  apply (rtc_l _ _ s1). { eapply next_step, step_create_type; done. }
  apply (rtc_l _ _ s2). { apply next_begin; done. }
  apply (rtc_l _ _ s3).
  { eapply next_step, step_create_validate; [done|by left|]. by apply no_other_dec. }
  apply (rtc_l _ _ s4).
  { eapply next_step, step_create_insert; [done|done|]. by apply no_other_dec. }
  apply (rtc_l _ _ after_create); [|done].
  replace after_create with (put_conn (goto s4 1 Committed) "c1" "a" "t1") by (vm_compute; done).
  by eapply next_step, step_create_commit.
Qed.

Lemma no_dangling_reference_witness :
  ctypes after_create !! "t1" = Some "a" \/ ctypes after_create !! "t1" = Some "global".
Proof.
  apply (no_dangling_reference "global" after_create "c1" "a" "t1").
  - apply after_create_reachable.
  - reflexivity.
Defined.
