(* ===== verification/TextDebug.v ===== *)
(** Debug-formatted text: the output of [{:?}] on a list of strings can be read
    back, and never shows a colon outside its quotes. *)
From S2P Require Import Prelude Text.

(** ** Properties of all bytes, by evaluation *)

Definition all_bytes : list ascii := ascii_of_nat <$> seq 0 256.

Lemma all_bytes_complete a : a ∈ all_bytes.
Proof.
  apply list_elem_of_fmap. exists (nat_of_ascii a). split.
  - by rewrite ascii_nat_embedding.
  - apply elem_of_seq. pose proof (nat_ascii_bounded a). lia.
Qed.

Lemma byte_forall (p : ascii -> bool) : forallb p all_bytes = true -> forall a, p a = true.
Proof.
  rewrite forallb_forall. intros H a. apply H. apply list_elem_of_In, all_bytes_complete.
Qed.

(** ** String decomposition *)

Lemma sapp_split (x1 y1 x2 y2 : string) :
  x1 +:+ y1 = x2 +:+ y2 ->
  (exists z, x2 = x1 +:+ z /\ y1 = z +:+ y2) \/ (exists z, x1 = x2 +:+ z /\ y2 = z +:+ y1).
Proof.
  revert x2. induction x1 as [|a x1 IH]; intros x2.
  - rewrite sapp_nil_l. intros ->. left. by exists x2.
  - destruct x2 as [|b x2].
    + rewrite sapp_nil_l. intros <-. right. by exists (String a x1).
    + rewrite !sapp_cons. intros [= -> H]. destruct (IH x2 H) as [(z & -> & ->)|(z & -> & ->)].
      * left. by exists z.
      * right. by exists z.
Qed.

(** A last field without the separator is determined. *)
Lemma last_field_inj c (x1 t1 x2 t2 : string) :
  no_char c t1 = true -> no_char c t2 = true ->
  x1 +:+ String c t1 = x2 +:+ String c t2 -> x1 = x2 /\ t1 = t2.
Proof.
  assert (Haux : forall z (t t' : string), no_char c t = true ->
    String c t = z +:+ String c t' -> z = "" /\ t = t').
  { intros [|a z] t t' Ht; rewrite ?sapp_nil_l, ?sapp_cons; [by intros [= ->]|].
    intros [= -> ->]. rewrite no_char_app, no_char_cons, Ascii.eqb_refl in Ht.
    by rewrite andb_false_r in Ht. }
  intros H1 H2 H. destruct (sapp_split _ _ _ _ H) as [(z & -> & Hz)|(z & -> & Hz)].
  - destruct (Haux _ _ _ H1 Hz) as [-> ->]. by rewrite sapp_nil_r.
  - destruct (Haux _ _ _ H2 Hz) as [-> ->]. by rewrite sapp_nil_r.
Qed.

(** ** Scanning for quotes

    The state is whether an odd number of unescaped quotes has been read and
    whether the next character is escaped. *)

Definition scan1 (st : bool * bool) (a : ascii) : bool * bool :=
  let (p, e) := st in
  if e then (p, false)
  else if Ascii.eqb a backslash then (p, true)
  else if Ascii.eqb a dquote then (negb p, false)
  else (p, false).

Fixpoint scan (st : bool * bool) (s : string) : bool * bool :=
  match s with
  | EmptyString => st
  | String a r => scan (scan1 st a) r
  end.

(** [c] occurs outside the quotes. *)
Fixpoint outside (c : ascii) (st : bool * bool) (s : string) : bool :=
  match s with
  | EmptyString => false
  | String a r => (negb (fst st) && Ascii.eqb a c) || outside c (scan1 st a) r
  end.

Lemma scan_app st s t : scan st (s +:+ t) = scan (scan st s) t.
Proof. revert st. induction s as [|a s IH]; intros st; [done|]. rewrite sapp_cons. cbn. apply IH. Qed.

Lemma outside_app c st s t :
  outside c st (s +:+ t) = outside c st s || outside c (scan st s) t.
Proof.
  revert st. induction s as [|a s IH]; intros st; [done|].
  rewrite sapp_cons. cbn. by rewrite IH, orb_assoc.
Qed.

Lemma scan_escape_byte a p : scan (p, false) (escape_byte a) = (p, false).
Proof.
  assert (H := byte_forall (fun a =>
    bool_decide (scan (true, false) (escape_byte a) = (true, false)) &&
    bool_decide (scan (false, false) (escape_byte a) = (false, false))) eq_refl a).
  apply andb_true_iff in H as [H1%bool_decide_eq_true H2%bool_decide_eq_true]. by destruct p.
Qed.

Lemma outside_escape_byte c a : outside c (true, false) (escape_byte a) = false.
Proof.
  destruct a as [[] [] [] [] [] [] [] []]; reflexivity.
Qed.

Lemma scan_escape s p : scan (p, false) (escape_debug s) = (p, false).
Proof. induction s as [|a s IH]; [done|]. cbn. by rewrite scan_app, scan_escape_byte. Qed.

Lemma outside_escape c s : outside c (true, false) (escape_debug s) = false.
Proof.
  induction s as [|a s IH]; [done|]. cbn.
  by rewrite outside_app, outside_escape_byte, scan_escape_byte.
Qed.

Lemma scan_debug_str s p : scan (p, false) (debug_str s) = (p, false).
Proof.
  change (scan (negb p, false) (escape_debug s +:+ String dquote "") = (p, false)).
  rewrite scan_app, scan_escape. cbn. by rewrite negb_involutive.
Qed.

Lemma outside_debug_str c s : c <> dquote -> outside c (false, false) (debug_str s) = false.
Proof.
  intros Hc. unfold debug_str. cbn [outside scan1 fst negb andb].
  destruct (Ascii.eqb_spec dquote c); [congruence|].
  change (outside c (true, false) (escape_debug s +:+ String dquote "") = false).
  by rewrite outside_app, outside_escape, scan_escape.
Qed.

(** ** Lists *)

Definition debug_tail (l : list string) : string := join ", " (debug_str <$> l) +:+ "]".

Lemma debug_list_tail l : debug_list l = String "[" (debug_tail l).
Proof. reflexivity. Qed.

(** What follows an element of a printed list. *)
Definition debug_sep (l : list string) : string :=
  match l with [] => "]" | _ => ", " +:+ debug_tail l end.

Lemma debug_tail_cons s l : debug_tail (s :: l) = debug_str s +:+ debug_sep l.
Proof.
  unfold debug_tail. destruct l as [|t l]; cbn [fmap list_fmap join debug_sep]; [done|].
  unfold debug_tail. by rewrite !sapp_assoc.
Qed.

Lemma scan_debug_tail l p : scan (p, false) (debug_tail l) = (p, false).
Proof.
  induction l as [|s l IH]; [done|].
  rewrite debug_tail_cons, scan_app, scan_debug_str. destruct l; [done|].
  unfold debug_sep. by rewrite scan_app.
Qed.

Lemma outside_debug_tail l : outside ":" (false, false) (debug_tail l) = false.
Proof.
  induction l as [|s l IH]; [done|].
  rewrite debug_tail_cons, outside_app, outside_debug_str, scan_debug_str by done.
  destruct l; [done|]. unfold debug_sep. by rewrite outside_app.
Qed.

(** No proper suffix of a printed list that follows a colon is a printed list. *)
Lemma debug_list_no_colon_suffix l l' (d : string) :
  debug_list l <> d +:+ String ":" (debug_list l').
Proof.
  intros H. rewrite !debug_list_tail in H.
  assert (Hs : scan (false, false) (String "[" (debug_tail l)) = (false, false))
    by apply scan_debug_tail.
  assert (Ho : outside ":" (false, false) (String "[" (debug_tail l)) = false)
    by apply outside_debug_tail.
  rewrite H in Hs, Ho. rewrite scan_app in Hs. rewrite outside_app in Ho.
  apply orb_false_iff in Ho as [_ Ho]. destruct (scan (false, false) d) as [p e].
  assert (Hp : p = false).
  { assert (Hs' : scan (p, false) (debug_tail l') = (false, false)) by (by destruct e).
    rewrite scan_debug_tail in Hs'. by injection Hs'. }
  subst p. cbn [outside fst negb andb] in Ho. by rewrite Ascii.eqb_refl in Ho.
Qed.

Lemma user_groups_inj (u1 u2 : string) l1 l2 :
  u1 +:+ String ":" (debug_list l1) = u2 +:+ String ":" (debug_list l2) ->
  u1 = u2 /\ debug_list l1 = debug_list l2.
Proof.
  assert (Haux : forall z l l', String ":" (debug_list l) = z +:+ String ":" (debug_list l') ->
    z = "" /\ debug_list l = debug_list l').
  { intros [|a z] l l' H.
    - rewrite (sapp_nil_l (String ":" (debug_list l'))) in H. by apply scons_inj in H as [_ ->].
    - rewrite (sapp_cons a z) in H. apply scons_inj in H as [_ H]. by apply debug_list_no_colon_suffix in H. }
  intros H. destruct (sapp_split _ _ _ _ H) as [(z & -> & Hz)|(z & -> & Hz)].
  - destruct (Haux _ _ _ Hz) as [-> ->]. by rewrite sapp_nil_r.
  - destruct (Haux _ _ _ Hz) as [-> ->]. by rewrite sapp_nil_r.
Qed.

(** ** Reading a printed list back *)

Lemma escape_byte_prefix_free a b x y :
  escape_byte a +:+ x = escape_byte b +:+ y -> a = b /\ x = y.
Proof.
  assert (Hall : forall a b, starts_with (escape_byte a) (escape_byte b) = true -> a = b).
  { intros a' b' H. assert (Hb := byte_forall (fun a => forallb (fun b =>
      negb (starts_with (escape_byte a) (escape_byte b)) || Ascii.eqb a b) all_bytes)).
    specialize (Hb ltac:(vm_compute; reflexivity) a').
    rewrite forallb_forall in Hb. specialize (Hb b' (proj1 (list_elem_of_In _ _) (all_bytes_complete b'))).
    rewrite H in Hb. cbn in Hb. by apply Ascii.eqb_eq. }
  intros H. assert (Hab : a = b).
  { destruct (sapp_split _ _ _ _ H) as [(z & Hz & _)|(z & Hz & _)].
    - apply Hall, starts_with_spec. eauto.
    - symmetry. apply Hall, starts_with_spec. eauto. }
  subst b. split; [done|]. by apply sapp_inj in H.
Qed.

Lemma escape_byte_not_quote a x y : escape_byte a +:+ x <> String dquote y.
Proof.
  assert (H := byte_forall (fun a => match escape_byte a with
    | EmptyString => false | String b _ => negb (Ascii.eqb b dquote) end) eq_refl a).
  cbv beta in H.
  destruct (escape_byte a) as [|b r]; [done|]. rewrite sapp_cons. intros [= -> _]. done.
Qed.

Lemma escape_debug_inj s1 s2 r1 r2 :
  escape_debug s1 +:+ String dquote r1 = escape_debug s2 +:+ String dquote r2 -> s1 = s2 /\ r1 = r2.
Proof.
  revert s2. induction s1 as [|a s1 IH]; intros [|b s2]; cbn [escape_debug].
  - rewrite !sapp_nil_l. by intros [= ->].
  - rewrite sapp_nil_l, sapp_assoc. intros H. by destruct (escape_byte_not_quote b (escape_debug s2 +:+ String dquote r2) r1).
  - rewrite sapp_nil_l, sapp_assoc. intros H. by destruct (escape_byte_not_quote a (escape_debug s1 +:+ String dquote r1) r2).
  - rewrite !sapp_assoc. intros H. apply escape_byte_prefix_free in H as [-> H].
    by destruct (IH s2 H) as [-> ->].
Qed.

Lemma debug_str_inj s1 s2 r1 r2 :
  debug_str s1 +:+ r1 = debug_str s2 +:+ r2 -> s1 = s2 /\ r1 = r2.
Proof.
  unfold debug_str. rewrite !sapp_cons, !sapp_assoc. intros [= H].
  by apply (escape_debug_inj s1 s2).
Qed.

Lemma debug_tail_inj l1 l2 : debug_tail l1 = debug_tail l2 -> l1 = l2.
Proof.
  revert l2. induction l1 as [|s l1 IH]; intros [|s' l2]; rewrite ?debug_tail_cons; try done.
  intros H. apply debug_str_inj in H as [-> H]. f_equal.
  destruct l1 as [|t l1], l2 as [|t' l2]; try done. apply IH.
  unfold debug_sep in H. by apply sapp_inj in H.
Qed.

Lemma debug_list_inj l1 l2 : debug_list l1 = debug_list l2 -> l1 = l2.
Proof. rewrite !debug_list_tail. intros H. apply scons_inj in H as [_ H]. by apply debug_tail_inj. Qed.
