(* ===== verification/KubeAuth.v ===== *)
(** [KubeAuthClient] ([libs/kube-utils/src/auth.rs]): token authentication and
    access reviews against the Kubernetes API, with their time-limited caches.

    The API server is a parameter: what it answers to a review may change with
    time. The caches are finite maps from a key to a value and the time it was
    stored; entries expire after the configured time to live and may be evicted
    at any moment. *)
From S2P Require Import Prelude Text TextDebug.

(** ** Data *)

Inductive AuthError : Type :=
| Unauthenticated (m : string)
| AuthForbidden (m : string)
| TokenReviewError (m : string)
| AccessReviewError (m : string)
| Internal (m : string).

Record AuthInfo : Type := { username : string; groups : list string }.

(** The parts of a TokenReview status the client reads. *)
Record TokenReviewStatus : Type := {
  authenticated : option bool;
  trs_error : option string;
  trs_audiences : option (list string);
  trs_user : option (option string * option (list string))
}.

(** The parts of a SubjectAccessReview spec the client sets. *)
Record ReviewSpec : Type := {
  sar_user : string;
  sar_groups : list string;
  sar_namespace : string;
  sar_verb : string;
  sar_group : string;
  sar_resource : string;
  sar_name : option string
}.

Definition API_GROUP : string := "dataconnecthub.opendatahub.io".
Definition RESOURCE : string := "data-connections".

#[global] Instance AuthInfo_eq_dec : EqDecision AuthInfo.
Proof. solve_decision. Defined.

(** ** Keys and specs *)

Definition conn_cache_key (a : AuthInfo) (tenant verb : string) : string :=
  "conn:" +:+ username a +:+ ":" +:+ debug_list (groups a) +:+ ":" +:+ tenant +:+ ":" +:+ verb.

Definition conn_review_spec (a : AuthInfo) (tenant verb : string) : ReviewSpec :=
  {| sar_user := username a; sar_groups := groups a; sar_namespace := tenant;
     sar_verb := verb; sar_group := API_GROUP; sar_resource := RESOURCE; sar_name := None |}.

Definition secret_cache_key (a : AuthInfo) (tenant secret_name : string) : string :=
  "secret:" +:+ username a +:+ ":" +:+ debug_list (groups a) +:+ ":" +:+ tenant +:+
  ":secrets:get:" +:+ secret_name.

Definition secret_review_spec (a : AuthInfo) (tenant secret_name : string) : ReviewSpec :=
  {| sar_user := username a; sar_groups := groups a; sar_namespace := tenant;
     sar_verb := "get"; sar_group := ""; sar_resource := "secrets";
     sar_name := Some secret_name |}.

Definition has_compatible_audience (requested : list string) (returned : option (list string)) : bool :=
  match requested with
  | [] => true
  | _ => existsb (fun a => existsb (fun c => String.eqb c a) requested) (default [] returned)
  end.

(** ** The caches *)

Record AuthState : Type := {
  clock : nat;
  token_cache : gmap Z (result AuthError AuthInfo * nat);
  sar_cache : gmap string (bool * nat)
}.

(** [Cache::try_get_with]: a live entry, or the value of [init], which is stored
    when it is [Ok]. *)
Definition try_get_with `{Countable K} {V E} (ttl now : nat) (c : gmap K (V * nat)) (k : K)
    (init : result E V) : result E V * gmap K (V * nat) :=
  let run := match init with
             | Ok v => (Ok v, <[k := (v, now)]> c)
             | Err e => (Err e, c)
             end in
  match c !! k with
  | Some (v, t0) => if now <? t0 + ttl then (Ok v, c) else run
  | None => run
  end.

Section Client.
(** [DefaultHasher] over the token. *)
Variable hash_token : string -> Z.
(** The API server: the status (if any) it returns at a time, or a failure. *)
Variable token_review : nat -> string -> list string -> result string (option TokenReviewStatus).
Variable access_review : nat -> ReviewSpec -> result string (option bool).
Variable ttl : nat.
Variable token_review_audiences : list string.

(** The body of the closure [authenticate] caches. *)
Definition review_token (now : nat) (token : string) : result AuthError (result AuthError AuthInfo) :=
  match token_review now token token_review_audiences with
  | Err e => Err (TokenReviewError e)
  | Ok None => Err (Internal "TokenReview returned no status")
  | Ok (Some st) =>
      if negb (default false (authenticated st))
      then Ok (Err (Unauthenticated (default "token not authenticated" (trs_error st))))
      else if negb (has_compatible_audience token_review_audiences (trs_audiences st))
      then Ok (Err (Unauthenticated "token audience mismatch"))
      else match trs_user st with
           | None => Err (Internal "TokenReview returned no user info")
           | Some (u, g) => Ok (Ok {| username := default "" u; groups := default [] g |})
           end
  end.

Definition authenticate (token : string) : M AuthState AuthError AuthInfo :=
  fun s =>
    let (r, c) := try_get_with ttl (clock s) (token_cache s) (hash_token token)
                    (review_token (clock s) token) in
    (match r with Ok (Ok i) => Ok i | Ok (Err e) => Err e | Err e => Err e end,
     {| clock := clock s; token_cache := c; sar_cache := sar_cache s |}).

(** The body of the closures [authorize] and [authorize_secret] cache. *)
Definition review_access (now : nat) (spec : ReviewSpec) : result AuthError bool :=
  match access_review now spec with
  | Err e => Err (AccessReviewError e)
  | Ok None => Err (Internal "SAR returned no status")
  | Ok (Some allowed) => Ok allowed
  end.

Definition cached_review (key : string) (spec : ReviewSpec) : M AuthState AuthError bool :=
  fun s =>
    let (r, c) := try_get_with ttl (clock s) (sar_cache s) key (review_access (clock s) spec) in
    (r, {| clock := clock s; token_cache := token_cache s; sar_cache := c |}).

Definition authorize (a : AuthInfo) (tenant verb : string) : M AuthState AuthError unit :=
  let? allowed := cached_review (conn_cache_key a tenant verb) (conn_review_spec a tenant verb) in
  if (allowed : bool) then mret tt
  else throw (AuthForbidden ("access denied for " +:+ RESOURCE +:+ " in namespace " +:+ tenant)).

Definition authorize_secret (a : AuthInfo) (tenant secret_name : string) : M AuthState AuthError unit :=
  let? allowed := cached_review (secret_cache_key a tenant secret_name)
                    (secret_review_spec a tenant secret_name) in
  if (allowed : bool) then mret tt
  else throw (AuthForbidden ("access denied for secret " +:+ secret_name +:+
                             " in namespace " +:+ tenant)).

(** ** Histories: requests, the passing of time, evictions *)

Inductive event : Type :=
| Authenticate (token : string)
| Authorize (a : AuthInfo) (tenant verb : string)
| AuthorizeSecret (a : AuthInfo) (tenant secret_name : string)
| Elapse (d : nat)
| EvictToken (k : Z)
| EvictReview (k : string).

Definition apply_event (e : event) (s : AuthState) : AuthState :=
  match e with
  | Authenticate t => snd (authenticate t s)
  | Authorize a t v => snd (authorize a t v s)
  | AuthorizeSecret a t n => snd (authorize_secret a t n s)
  | Elapse d => {| clock := clock s + d; token_cache := token_cache s; sar_cache := sar_cache s |}
  | EvictToken k => {| clock := clock s; token_cache := delete k (token_cache s); sar_cache := sar_cache s |}
  | EvictReview k => {| clock := clock s; token_cache := token_cache s; sar_cache := delete k (sar_cache s) |}
  end.

Definition initial_auth : AuthState := {| clock := 0; token_cache := ∅; sar_cache := ∅ |}.

Definition history (es : list event) : AuthState :=
  List.fold_left (fun s e => apply_event e s) es initial_auth.

(** ** Keys determine reviews *)

Lemma conn_key_shape a t v :
  conn_cache_key a t v =
  (("conn:" +:+ (username a +:+ String ":" (debug_list (groups a)))) +:+ String ":" t) +:+ String ":" v.
Proof.
  unfold conn_cache_key. change ":" with (String ":" ""). rewrite !sapp_assoc.
  by rewrite !(sapp_cons ":"), !sapp_nil_l.
Qed.

Lemma secret_key_shape a t n :
  secret_cache_key a t n =
  (((("secret:" +:+ (username a +:+ String ":" (debug_list (groups a)))) +:+ String ":" t)
    +:+ String ":" "secrets") +:+ String ":" "get") +:+ String ":" n.
Proof.
  unfold secret_cache_key. rewrite !sapp_assoc. by rewrite !(sapp_cons ":"), !sapp_nil_l.
Qed.

Lemma info_inj (pre : string) a a' :
  pre +:+ (username a +:+ String ":" (debug_list (groups a))) =
  pre +:+ (username a' +:+ String ":" (debug_list (groups a'))) -> a = a'.
Proof.
  intros H. apply sapp_inj, user_groups_inj in H as [Hu Hg]. apply debug_list_inj in Hg.
  destruct a, a'; cbn in *; congruence.
Qed.

Lemma conn_key_inj a t v a' t' v' :
  no_char ":" t = true -> no_char ":" v = true -> no_char ":" t' = true -> no_char ":" v' = true ->
  conn_cache_key a t v = conn_cache_key a' t' v' -> a = a' /\ t = t' /\ v = v'.
Proof.
  intros Ht Hv Ht' Hv'. rewrite !conn_key_shape. intros H.
  apply last_field_inj in H as [H ->]; [|done..]. apply last_field_inj in H as [H ->]; [|done..].
  by apply info_inj in H as ->.
Qed.

Lemma secret_key_inj a t n a' t' n' :
  no_char ":" t = true -> no_char ":" n = true -> no_char ":" t' = true -> no_char ":" n' = true ->
  secret_cache_key a t n = secret_cache_key a' t' n' -> a = a' /\ t = t' /\ n = n'.
Proof.
  intros Ht Hn Ht' Hn'. rewrite !secret_key_shape. intros H.
  apply last_field_inj in H as [H ->]; [|done..]. apply last_field_inj in H as [H _]; [|done..].
  apply last_field_inj in H as [H _]; [|done..]. apply last_field_inj in H as [H ->]; [|done..].
  by apply info_inj in H as ->.
Qed.

Lemma keys_disjoint a t v a' t' n : conn_cache_key a t v <> secret_cache_key a' t' n.
Proof. unfold conn_cache_key, secret_cache_key. discriminate. Qed.

(** ** The caches hold what the API server answered *)

(** Tenants (namespaces), verbs and secret names without the key's separator. *)
Definition clean (e : event) : bool :=
  match e with
  | Authorize _ t v => no_char ":" t && no_char ":" v
  | AuthorizeSecret _ t n => no_char ":" t && no_char ":" n
  | _ => true
  end.

(** [key] is the key of a clean request whose review is [spec]. *)
Definition key_of (key : string) (spec : ReviewSpec) : Prop :=
  (exists a t v, no_char ":" t = true /\ no_char ":" v = true /\
     key = conn_cache_key a t v /\ spec = conn_review_spec a t v) \/
  (exists a t n, no_char ":" t = true /\ no_char ":" n = true /\
     key = secret_cache_key a t n /\ spec = secret_review_spec a t n).

Lemma key_of_conn a t v :
  no_char ":" t = true -> no_char ":" v = true ->
  key_of (conn_cache_key a t v) (conn_review_spec a t v).
Proof. left. by exists a, t, v. Qed.

Lemma key_of_secret a t n :
  no_char ":" t = true -> no_char ":" n = true ->
  key_of (secret_cache_key a t n) (secret_review_spec a t n).
Proof. right. by exists a, t, n. Qed.

Lemma key_of_inj key spec spec' : key_of key spec -> key_of key spec' -> spec = spec'.
Proof.
  intros [(a & t & v & Ht & Hv & -> & ->)|(a & t & n & Ht & Hn & -> & ->)]
         [(a' & t' & v' & Ht' & Hv' & Hk & ->)|(a' & t' & n' & Ht' & Hn' & Hk & ->)].
  - by apply conn_key_inj in Hk as (-> & -> & ->).
  - by apply keys_disjoint in Hk.
  - symmetry in Hk. by apply keys_disjoint in Hk.
  - by apply secret_key_inj in Hk as (-> & -> & ->).
Qed.

(** An answer the API server gave at time [T], not in the future. *)
Definition sar_entry (now : nat) (key : string) (e : bool * nat) : Prop :=
  snd e <= now /\ exists spec, key_of key spec /\ access_review (snd e) spec = Ok (Some (fst e)).

Definition token_entry (tokens : list string) (now : nat) (k : Z)
    (e : result AuthError AuthInfo * nat) : Prop :=
  snd e <= now /\ exists token, token ∈ tokens /\ hash_token token = k /\
    review_token (snd e) token = Ok (fst e).

Definition sars_ok (s : AuthState) : Prop := map_Forall (sar_entry (clock s)) (sar_cache s).
Definition tokens_ok (tokens : list string) (s : AuthState) : Prop :=
  map_Forall (token_entry tokens (clock s)) (token_cache s).

Lemma try_get_with_spec `{Countable K} {V E} now (c : gmap K (V * nat)) k (init : result E V) r c' :
  try_get_with ttl now c k init = (r, c') ->
  (exists v t0, c !! k = Some (v, t0) /\ now < t0 + ttl /\ r = Ok v /\ c' = c) \/
  (r = init /\ (c' = c \/ exists v, init = Ok v /\ c' = <[k := (v, now)]> c)).
Proof.
  unfold try_get_with. intros Hr. destruct (c !! k) as [[v t0]|] eqn:Hk.
  - destruct (Nat.ltb_spec now (t0 + ttl)).
    + injection Hr as <- <-. left. eauto 10.
    + right. destruct init; injection Hr as <- <-; eauto.
  - right. destruct init; injection Hr as <- <-; eauto.
Qed.

Lemma review_access_ok now spec b :
  review_access now spec = Ok b -> access_review now spec = Ok (Some b).
Proof. unfold review_access. destruct (access_review now spec) as [[]|]; naive_solver. Qed.

(** A review answers with what the API server said within the time to live. *)
Lemma cached_review_sound key spec s r s' :
  sars_ok s -> key_of key spec -> cached_review key spec s = (r, s') ->
  sars_ok s' /\ clock s' = clock s /\ token_cache s' = token_cache s /\
  forall b, r = Ok b -> exists T, T <= clock s /\ (T = clock s \/ clock s < T + ttl) /\
    access_review T spec = Ok (Some b).
Proof.
  intros Hs Hk. unfold cached_review.
  destruct (try_get_with _ _ _ _ _) as [r0 c] eqn:E. intros [= <- <-].
  apply try_get_with_spec in E as [(v & t0 & Hc & Ht & -> & ->)|[-> Hc]].
  - destruct s as [n tc sc]. cbn in *. split_and!; try done. intros b [= <-].
    destruct (Hs _ _ Hc) as (Hle & spec' & Hk' & Ha). cbn in *.
    rewrite (key_of_inj _ _ _ Hk Hk'). eauto.
  - assert (Hnew : forall b, review_access (clock s) spec = Ok b ->
      exists T, T <= clock s /\ (T = clock s \/ clock s < T + ttl) /\ access_review T spec = Ok (Some b)).
    { intros b Hb. apply review_access_ok in Hb. eauto. }
    split_and!; try done. destruct Hc as [->|(v & Hv & ->)]; [exact Hs|].
    unfold sars_ok. cbn. apply map_Forall_insert_2; [|exact Hs].
    split; [done|]. exists spec. split; [done|]. by apply review_access_ok.
Qed.

Lemma authorize_run a t v s :
  authorize a t v s =
  let (r, s') := cached_review (conn_cache_key a t v) (conn_review_spec a t v) s in
  (match r with
   | Ok true => Ok tt
   | Ok false => Err (AuthForbidden ("access denied for " +:+ RESOURCE +:+ " in namespace " +:+ t))
   | Err e => Err e
   end, s').
Proof. unfold authorize, mseq. by destruct (cached_review _ _ s) as [[[]|] ?]. Qed.

Lemma authorize_secret_run a t n s :
  authorize_secret a t n s =
  let (r, s') := cached_review (secret_cache_key a t n) (secret_review_spec a t n) s in
  (match r with
   | Ok true => Ok tt
   | Ok false => Err (AuthForbidden ("access denied for secret " +:+ n +:+ " in namespace " +:+ t))
   | Err e => Err e
   end, s').
Proof. unfold authorize_secret, mseq. by destruct (cached_review _ _ s) as [[[]|] ?]. Qed.

Definition tokens_of (es : list event) : list string :=
  omap (fun e => match e with Authenticate t => Some t | _ => None end) es.

Lemma sars_ok_event e s : clean e = true -> sars_ok s -> sars_ok (apply_event e s).
Proof.
  intros Hc Hs. destruct e as [tk|a t v|a t n|d|k|k]; cbn in *.
  - unfold authenticate. by destruct (try_get_with _ _ _ _ _).
  - apply andb_true_iff in Hc as [Ht Hv]. rewrite authorize_run.
    destruct (cached_review _ _ s) as [r s'] eqn:E. cbn.
    apply (cached_review_sound _ _ _ _ _ Hs (key_of_conn a t v Ht Hv) E).
  - apply andb_true_iff in Hc as [Ht Hn]. rewrite authorize_secret_run.
    destruct (cached_review _ _ s) as [r s'] eqn:E. cbn.
    apply (cached_review_sound _ _ _ _ _ Hs (key_of_secret a t n Ht Hn) E).
  - intros k x Hk. destruct (Hs k x Hk) as [Hle H]. split; [cbn; lia|done].
  - done.
  - by apply map_Forall_delete.
Qed.

Lemma tokens_ok_event tks e s :
  tokens_ok tks s -> tokens_ok (tokens_of [e] ++ tks) (apply_event e s).
Proof.
  intros Hs. assert (Hmono : forall tk k x n, n >= clock s -> token_entry tks (clock s) k x ->
    token_entry (tk ++ tks) n k x).
  { intros tk k x n Hn [Hle (t & Hin & H)]. split; [lia|]. exists t. set_solver. }
  destruct e as [tk|a t v|a t n|d|k|k]; cbn.
  - unfold authenticate. destruct (try_get_with _ _ _ _ _) as [r c] eqn:E. cbn.
    apply try_get_with_spec in E as [(v & t0 & Hc & Ht & -> & ->)|[-> Hc]].
    + eapply map_Forall_impl; [exact Hs|]. intros k x Hx. apply (Hmono [tk]); [cbn; lia|done].
    + assert (Hold : map_Forall (token_entry ([tk] ++ tks) (clock s)) (token_cache s)).
      { eapply map_Forall_impl; [exact Hs|]. intros k x Hx. apply Hmono; [lia|done]. }
      destruct Hc as [->|(v & Hv & ->)]; [exact Hold|].
      apply map_Forall_insert_2; [|exact Hold]. split; [done|]. exists tk. cbn. set_solver.
  - rewrite authorize_run. unfold cached_review. by destruct (try_get_with _ _ _ _ _).
  - rewrite authorize_secret_run. unfold cached_review. by destruct (try_get_with _ _ _ _ _).
  - eapply map_Forall_impl; [exact Hs|]. intros k x Hx. apply (Hmono []); [cbn; lia|done].
  - by apply map_Forall_delete.
  - done.
Qed.

Lemma history_snoc es e : history (es ++ [e]) = apply_event e (history es).
Proof. unfold history. by rewrite fold_left_app. Qed.

Lemma history_sars_ok es : Forall (fun e => clean e = true) es -> sars_ok (history es).
Proof.
  induction es as [|e es IH] using rev_ind; [intros _; apply map_Forall_empty|].
  rewrite Forall_app, Forall_singleton, history_snoc. intros [Hes He]. by apply sars_ok_event, IH.
Qed.

Lemma history_tokens_ok es : tokens_ok (rev (tokens_of es)) (history es).
Proof.
  induction es as [|e es IH] using rev_ind; [apply map_Forall_empty|].
  rewrite history_snoc. unfold tokens_of. rewrite omap_app.
  fold (tokens_of es). replace (rev (tokens_of es ++ _)) with (tokens_of [e] ++ rev (tokens_of es));
    [by apply tokens_ok_event|]. rewrite rev_app_distr. by destruct e.
Qed.


Lemma review_token_ok now token i :
  review_token now token = Ok (Ok i) ->
  exists st u g, token_review now token token_review_audiences = Ok (Some st) /\
    authenticated st = Some true /\
    has_compatible_audience token_review_audiences (trs_audiences st) = true /\
    trs_user st = Some (u, g) /\ i = {| username := default "" u; groups := default [] g |}.
Proof.
  unfold review_token. destruct (token_review _ _ _) as [[st|]|]; [|done..].
  destruct (authenticated st) as [[]|] eqn:Ha; cbn; [|done..].
  destruct (has_compatible_audience _ _) eqn:Hc; cbn; [|done].
  destruct (trs_user st) as [[u g]|] eqn:Hu; [|done]. intros [= <-]. eauto 10.
Qed.

(** C32: an accepted token was accepted by the API server. Unless two of the
    presented tokens have the same hash, [authenticate] succeeds only with the
    identity that a TokenReview of this very token returned at most one time to
    live ago, authenticated and for a compatible audience. *)
Theorem authentication_sound es token i :
  (forall t, t ∈ tokens_of es -> hash_token t = hash_token token -> t = token) ->
  let s := history es in
  fst (authenticate token s) = Ok i ->
  exists T st u g, T <= clock s /\ (T = clock s \/ clock s < T + ttl) /\
    token_review T token token_review_audiences = Ok (Some st) /\
    authenticated st = Some true /\
    has_compatible_audience token_review_audiences (trs_audiences st) = true /\
    trs_user st = Some (u, g) /\ i = {| username := default "" u; groups := default [] g |}.
Proof.
  intros Hinj s. pose proof (history_tokens_ok es) as Hs. fold s in Hs.
  unfold authenticate. destruct (try_get_with _ _ _ _ _) as [r c] eqn:E. cbn. intros Hr.
  assert (HT : exists T, T <= clock s /\ (T = clock s \/ clock s < T + ttl) /\
                 review_token T token = Ok (Ok i)).
  { apply try_get_with_spec in E as [(v & t0 & Hc & Ht & -> & _)|[-> _]].
    - destruct (Hs _ _ Hc) as (Hle & t & Hin & Hh & Hrev). cbn in *.
      rewrite list_elem_of_In, <- in_rev, <- list_elem_of_In in Hin.
      rewrite (Hinj t) in Hrev by done. destruct v; [|done].
      injection Hr as ->. eauto.
    - destruct (review_token (clock s) token) as [[]|] eqn:Hrev; try done.
      injection Hr as ->. eauto. }
  destruct HT as (T & H1 & H2 & (st & u & g & H)%review_token_ok). exists T, st, u, g. naive_solver.
Qed.

(** An empty list of requested audiences accepts any token; otherwise a
    token is compatible exactly when a returned audience is a requested one. *)
Theorem has_compatible_audience_correct requested returned :
  has_compatible_audience requested returned = true <->
  requested = [] \/ exists a, a ∈ requested /\ a ∈ default [] returned.
Proof.
  unfold has_compatible_audience. destruct requested as [|r l]; [naive_solver|].
  rewrite existsb_exists. split.
  - intros (a & Ha & Hc). apply existsb_exists in Hc as (c & Hc & ->%String.eqb_eq).
    right. exists a. by rewrite !list_elem_of_In.
  - intros [|(a & Ha & Hr)]; [done|]. rewrite list_elem_of_In in Ha, Hr. exists a. split; [done|].
    apply existsb_exists. exists a. split; [done|]. apply String.eqb_refl.
Qed.

End Client.

(** ** Concrete instances *)

(** A server that lets [alice] act in [team-a] and read the secret [pw] there. *)
Definition sample_access (now : nat) (s : ReviewSpec) : result string (option bool) :=
  Ok (Some (bool_decide (sar_user s = "alice") && bool_decide (sar_namespace s = "team-a"))).
Definition sample_tokens (now : nat) (token : string) (auds : list string)
    : result string (option TokenReviewStatus) :=
  Ok (Some {| authenticated := Some (String.eqb token "tok"); trs_error := None;
              trs_audiences := None; trs_user := Some (Some "alice", None) |}).
Definition sample_hash (t : string) : Z := Z.of_nat (String.length t).

Definition alice : AuthInfo := {| username := "alice"; groups := ["g"] |}.
Definition sample_events : list event :=
  [Authenticate "tok"; Authorize alice "team-a" "get"; Elapse 10].


Lemma authentication_sound_witness :
  exists T, T <= 10 /\ is_ok (sample_tokens T "tok" []) = true.
Proof.
  destruct (authentication_sound sample_hash sample_tokens sample_access 300 [] sample_events "tok"
    {| username := "alice"; groups := [] |}) as (T & st & u & g & H1 & _ & H2 & _).
  - intros t Ht _. vm_compute in Ht. set_solver.
  - vm_compute. reflexivity.
  - exists T. split; [exact H1|]. rewrite H2. reflexivity.
Defined.
