(* ===== verification/Traits.v ===== *)
(** The traits through which the services reach their collaborators
    ([libs/commons/src/api/storage.rs], [services/rest/src/clients/flight.rs],
    [services/rest/src/auth.rs]): each is a class of operations over a world [W],
    so that the handlers are defined, and reasoned about, against the interface. *)
From S2P Require Import Prelude Text Json Sql Api MetaStore KubeAuth.

(** ** Metadata store *)

Class MetaStoreI (W : Type) := {
  ms_get_data_connections : string -> M W MetaStoreError (ResourceList DataConnectionResource);
  ms_get_data_connection : string -> string -> M W MetaStoreError DataConnectionResource;
  ms_get_data_connection_types : string -> M W MetaStoreError (ResourceList DataConnectionTypeResource);
  ms_get_data_connection_type : string -> string -> M W MetaStoreError DataConnectionTypeResource;
  ms_create_data_connection : string -> DataConnection -> M W MetaStoreError DataConnectionResource;
  ms_update_data_connection : string -> string ->
    (DataConnection -> result MetaStoreError DataConnection) -> M W MetaStoreError DataConnectionResource;
  ms_update_data_connection_status : string -> string ->
    (DataConnectionStatus -> result MetaStoreError DataConnectionStatus) ->
    M W MetaStoreError DataConnectionResource;
  ms_delete_data_connection : string -> string -> M W MetaStoreError unit;
  ms_get_all_data_connection_types : M W MetaStoreError (ResourceList DataConnectionTypeResource);
  ms_create_data_connection_type : string -> DataConnectionType ->
    M W MetaStoreError DataConnectionTypeResource;
  ms_update_data_connection_type : string -> string ->
    (DataConnectionType -> result MetaStoreError DataConnectionType) ->
    M W MetaStoreError DataConnectionTypeResource;
  ms_update_data_connection_type_status : string ->
    (DataConnectionTypeStatus -> result MetaStoreError DataConnectionTypeStatus) ->
    M W MetaStoreError DataConnectionTypeResource;
  ms_delete_data_connection_type : string -> string -> M W MetaStoreError unit;
  ms_create_flight_service : FlightService -> M W MetaStoreError FlightServiceResource;
  ms_get_all_flight_services : M W MetaStoreError (ResourceList FlightServiceResource);
  ms_get_flight_service_by_connector : string -> M W MetaStoreError FlightServiceResource;
  ms_get_flight_service : string -> M W MetaStoreError FlightServiceResource;
  ms_update_flight_service : string -> (FlightService -> result MetaStoreError FlightService) ->
    M W MetaStoreError FlightServiceResource;
  ms_delete_flight_service : string -> M W MetaStoreError unit
}.

(** ** Secret store *)

Class SecretStoreI (W : Type) := {
  ss_get_secret : string -> string -> M W SecretStoreError Secret;
  ss_create_secret : Secret -> bool -> M W SecretStoreError unit;
  ss_delete_secret : string -> string -> M W SecretStoreError unit;
  ss_set_secret_labels : string -> string -> gmap string string -> M W SecretStoreError unit
}.

(** Rust strings are valid UTF-8. *)
Definition valid_secret (s : Secret) : Prop :=
  map_Forall (fun _ v => utf8_valid v = true) (secret_properties s).

(** A secret as it is read back: absent labels and annotations are empty. *)
Definition stored_secret (s : Secret) : Secret :=
  {| secret_name := secret_name s; secret_namespace := secret_namespace s;
     secret_properties := secret_properties s;
     secret_labels := Some (default ∅ (secret_labels s));
     secret_annotations := Some (default ∅ (secret_annotations s)) |}.

(** What the services rely on: [ss_secrets] shows the secrets by namespace and
    name; a failed call changes nothing. *)
Class SecretStoreLaws (W : Type) `{SecretStoreI W} := {
  ss_secrets : W -> gmap (string * string) Secret;
  ss_get_law ns n w : ss_secrets (snd (ss_get_secret ns n w)) = ss_secrets w;
  ss_create_new_law s w w' : valid_secret s -> ss_create_secret s false w = (Ok tt, w') ->
    ss_secrets w !! (secret_namespace s, secret_name s) = None /\
    ss_secrets w' = <[(secret_namespace s, secret_name s) := stored_secret s]> (ss_secrets w);
  ss_create_err_law s b w e w' : ss_create_secret s b w = (Err e, w') -> ss_secrets w' = ss_secrets w;
  ss_delete_ok_law ns n w w' : ss_delete_secret ns n w = (Ok tt, w') ->
    ss_secrets w' = delete (ns, n) (ss_secrets w);
  ss_delete_err_law ns n w e w' : ss_delete_secret ns n w = (Err e, w') -> ss_secrets w' = ss_secrets w
}.

(** ** gRPC statuses (tonic) *)

Inductive Code : Type :=
| GrpcOk | Cancelled | Unknown | InvalidArgument | DeadlineExceeded | NotFound | AlreadyExists
| PermissionDenied | ResourceExhausted | FailedPrecondition | GrpcAborted | OutOfRange
| Unimplemented | GrpcInternal | Unavailable | DataLoss | GrpcUnauthenticated.

Record Status : Type := { grpc_code : Code; grpc_message : string }.

#[global] Instance Code_eq_dec : EqDecision Code.
Proof. solve_decision. Defined.

(** ** Flight clients *)

Record SupportedConnector : Type := {
  sc_name : string;
  sc_description : string;
  sc_formats : list string
}.

(** A record batch of binary columns, by column name. *)
Definition Batch : Type := gmap string (list string).

(** [ApiService::flight_client(endpoint)]: the endpoint comes first. *)
Class FlightI (W : Type) := {
  fc_get_supported_connectors : string -> string -> M W Status (list SupportedConnector);
  fc_check_data_connection : string -> string -> string -> M W Status unit;
  fc_test_credentials : string -> string -> TestCredentials -> M W Status unit;
  fc_download_binary : string -> string -> string -> string -> M W Status (list (result Status Batch))
}.

(** [Utc::now()] of the service itself. *)
Class ClockI (W : Type) := { clock_now : W -> string * W }.

Definition svc_now `{ClockI W} {E} : M W E string :=
  fun w => let (s, w') := clock_now w in (Ok s, w').

(** ** Request identity *)

Record RequestIdentity : Type := { ri_username : string }.

Definition resolve_identity (remote_user : option string) : option RequestIdentity :=
  match remote_user with
  | Some u => if is_empty u then None else Some {| ri_username := u |}
  | None => None
  end.

(** [impl RequestAuthorizer for KubeAuthClient]: the review is by user name only. *)
Definition check_secret_access {W} (authorize_secret : AuthInfo -> string -> string -> M W AuthError unit)
    (i : RequestIdentity) (tenant secret_name : string) : M W AuthError unit :=
  authorize_secret {| username := ri_username i; groups := [] |} tenant secret_name.

(** ** PostgreSQL behind the interface

    The services' world: the metadata store next to everything else. *)
Definition zoom_l {X Y E A} (m : M X E A) : M (X * Y) E A :=
  fun w => let (r, x) := m (fst w) in (r, (x, snd w)).
Definition zoom_r {X Y E A} (m : M Y E A) : M (X * Y) E A :=
  fun w => let (r, y) := m (snd w) in (r, (fst w, y)).

#[export] Instance pg_meta_store `{Oracle} (g : string) (Y : Type) : MetaStoreI (Store * Y) := {
  ms_get_data_connections t := zoom_l (get_data_connections t);
  ms_get_data_connection t u := zoom_l (get_data_connection t u);
  ms_get_data_connection_types t := zoom_l (get_data_connection_types g t);
  ms_get_data_connection_type t u := zoom_l (get_data_connection_type g t u);
  ms_create_data_connection t d := zoom_l (create_data_connection g t d);
  ms_update_data_connection t u f := zoom_l (update_data_connection g t u f);
  ms_update_data_connection_status t u f := zoom_l (update_data_connection_status t u f);
  ms_delete_data_connection t u := zoom_l (delete_data_connection t u);
  ms_get_all_data_connection_types := zoom_l (get_all_data_connection_types g);
  ms_create_data_connection_type t ty := zoom_l (create_data_connection_type t ty);
  ms_update_data_connection_type t u f := zoom_l (update_data_connection_type t u f);
  ms_update_data_connection_type_status u f := zoom_l (update_data_connection_type_status u f);
  ms_delete_data_connection_type t u := zoom_l (delete_data_connection_type t u);
  ms_create_flight_service fs := zoom_l (create_flight_service fs);
  ms_get_all_flight_services := zoom_l get_all_flight_services;
  ms_get_flight_service_by_connector c := zoom_l (get_flight_service_by_connector c);
  ms_get_flight_service u := zoom_l (get_flight_service u);
  ms_update_flight_service u f := zoom_l (update_flight_service u f);
  ms_delete_flight_service u := zoom_l (delete_flight_service u)
}.

#[export] Instance zoom_secret_store {X Y} `{SecretStoreI Y} : SecretStoreI (X * Y) := {
  ss_get_secret ns n := zoom_r (ss_get_secret ns n);
  ss_create_secret s b := zoom_r (ss_create_secret s b);
  ss_delete_secret ns n := zoom_r (ss_delete_secret ns n);
  ss_set_secret_labels ns n l := zoom_r (ss_set_secret_labels ns n l)
}.

#[export] Instance zoom_flight {X Y} `{FlightI Y} : FlightI (X * Y) := {
  fc_get_supported_connectors e t := zoom_r (fc_get_supported_connectors e t);
  fc_check_data_connection e t c := zoom_r (fc_check_data_connection e t c);
  fc_test_credentials e t c := zoom_r (fc_test_credentials e t c);
  fc_download_binary e t c p := zoom_r (fc_download_binary e t c p)
}.

#[export] Instance zoom_clock {X Y} `{ClockI Y} : ClockI (X * Y) :=
  { clock_now w := let (s, y) := clock_now (snd w) in (s, (fst w, y)) }.
