(* ===== verification/KubeSecrets.v ===== *)
(** The secret store on Kubernetes ([libs/kube-utils/src/secrets.rs]) over the API
    server's secrets, and that it keeps the promises the services rely on. *)
From S2P Require Import Prelude Text Json Api MetaStore KubeAuth Traits.

(** A secret as the API server holds it: its data are bytes. *)
Record K8sSecret : Type := {
  k_labels : option (gmap string string);
  k_annotations : option (gmap string string);
  k_data : option (gmap string string)
}.

(** A secret to create: its [string_data] are text. *)
Record K8sObject : Type := {
  o_name : string;
  o_namespace : string;
  o_labels : option (gmap string string);
  o_annotations : option (gmap string string);
  o_string_data : gmap string string
}.

(** The calls of [kube::Api<Secret>]; an error is its text. *)
Class K8sApi (W : Type) := {
  k_get : string -> string -> M W string K8sSecret;
  k_create : string -> K8sObject -> M W string unit;
  k_apply : string -> string -> K8sObject -> M W string unit;
  k_delete : string -> string -> M W string unit;
  k_merge_labels : string -> string -> gmap string string -> M W string unit
}.

(** ** The store *)

Definition extract_properties (s : K8sSecret) : gmap string string :=
  omap from_utf8 (default ∅ (k_data s)).

Section Store.
Context {W : Type} `{K8sApi W}.

(** What [get_secret] makes of a stored secret. *)
Definition secret_of (namespace name : string) (k : K8sSecret) : Secret :=
  {| secret_name := name; secret_namespace := namespace;
     secret_properties := extract_properties k;
     secret_labels := Some (default ∅ (k_labels k));
     secret_annotations := Some (default ∅ (k_annotations k)) |}.

Definition get_secret (namespace name : string) : M W SecretStoreError Secret :=
  let? k := map_err (fun _ => SecretNotFound "Failed to obtain credentials") (k_get namespace name) in
  mret (secret_of namespace name k).

Definition object_of (s : Secret) : K8sObject :=
  {| o_name := secret_name s; o_namespace := secret_namespace s;
     o_labels := secret_labels s; o_annotations := secret_annotations s;
     o_string_data := secret_properties s |}.

Definition create_secret (s : Secret) (overwrite : bool) : M W SecretStoreError unit :=
  map_err (fun _ => CannotCreateSecret (secret_name s))
    (if overwrite then k_apply (secret_namespace s) (secret_name s) (object_of s)
     else k_create (secret_namespace s) (object_of s)).

Definition delete_secret (namespace name : string) : M W SecretStoreError unit :=
  map_err (fun _ => SecretNotFound (namespace +:+ "/" +:+ name)) (k_delete namespace name).

Definition set_secret_labels (namespace name : string) (labels : gmap string string)
    : M W SecretStoreError unit :=
  map_err (fun _ => SecretNotFound (namespace +:+ "/" +:+ name)) (k_merge_labels namespace name labels).

#[export] Instance kube_secret_store : SecretStoreI W := {
  ss_get_secret := get_secret;
  ss_create_secret := create_secret;
  ss_delete_secret := delete_secret;
  ss_set_secret_labels := set_secret_labels
}.
End Store.

(** ** What the API server documents *)

(** The data of a new secret are its [string_data]. *)
Definition created (o : K8sObject) : K8sSecret :=
  {| k_labels := o_labels o; k_annotations := o_annotations o; k_data := Some (o_string_data o) |}.

(** Names are unique per namespace, and an error means that nothing changed. *)
Class K8sLaws (W : Type) `{K8sApi W} := {
  cluster : W -> gmap (string * string) K8sSecret;
  k_get_law ns n w r w' : k_get ns n w = (r, w') ->
    cluster w' = cluster w /\ match r with Ok k => cluster w !! (ns, n) = Some k | Err _ => True end;
  k_create_law o w r w' : k_create (o_namespace o) o w = (r, w') ->
    match r with
    | Ok _ => cluster w !! (o_namespace o, o_name o) = None /\
              cluster w' = <[(o_namespace o, o_name o) := created o]> (cluster w)
    | Err _ => cluster w' = cluster w
    end;
  k_apply_err_law ns n o w e w' : k_apply ns n o w = (Err e, w') -> cluster w' = cluster w;
  k_delete_law ns n w r w' : k_delete ns n w = (r, w') ->
    match r with
    | Ok _ => cluster w' = delete (ns, n) (cluster w)
    | Err _ => cluster w' = cluster w
    end
}.

Section Laws.
Context {W : Type} `{K8sLaws W}.

(** The secrets of the cluster as the services see them. *)
Definition visible_secrets (w : W) : gmap (string * string) Secret :=
  map_imap (fun k s => Some (secret_of (fst k) (snd k) s)) (cluster w).

Lemma visible_lookup w ns n :
  visible_secrets w !! (ns, n) = secret_of ns n <$> cluster w !! (ns, n).
Proof. unfold visible_secrets. rewrite map_lookup_imap. by destruct (cluster w !! (ns, n)). Qed.

Lemma extract_valid s : valid_secret s -> extract_properties (created (object_of s)) = secret_properties s.
Proof.
  intros Hv. apply map_eq. intros k. unfold extract_properties. cbn. rewrite lookup_omap.
  destruct (secret_properties s !! k) as [v|] eqn:E; [|done]. cbn. unfold from_utf8.
  by rewrite (Hv k v E).
Qed.

Lemma created_visible s : valid_secret s ->
  secret_of (secret_namespace s) (secret_name s) (created (object_of s)) = stored_secret s.
Proof. intros Hv. unfold secret_of, stored_secret. by rewrite extract_valid. Qed.

Lemma visible_eq w w' : cluster w' = cluster w -> visible_secrets w' = visible_secrets w.
Proof. unfold visible_secrets. by intros ->. Qed.

Lemma get_visible ns n w r w' :
  get_secret ns n w = (r, w') -> visible_secrets w' = visible_secrets w /\
  match r with Ok s => visible_secrets w !! (ns, n) = Some s | Err _ => True end.
Proof.
  unfold get_secret, mseq, map_err. destruct (k_get ns n w) as [r0 w0] eqn:E.
  apply k_get_law in E as [Hc Hr]. destruct r0 as [k|e]; cbn; intros [= <- <-].
  - split; [by apply visible_eq|]. by rewrite visible_lookup, Hr.
  - split; [by apply visible_eq|done].
Qed.

Lemma create_visible s w w' :
  valid_secret s -> create_secret s false w = (Ok tt, w') ->
  visible_secrets w !! (secret_namespace s, secret_name s) = None /\
  visible_secrets w' = <[(secret_namespace s, secret_name s) := stored_secret s]> (visible_secrets w).
Proof.
  intros Hv. unfold create_secret, map_err. destruct (k_create _ _ w) as [r0 w0] eqn:E.
  apply (k_create_law (object_of s)) in E. destruct r0 as [[]|e]; cbn; intros [= <-].
  destruct E as [Hn Hc]. cbn in Hn, Hc. split; [by rewrite visible_lookup, Hn|].
  apply map_eq. intros [ns n]. rewrite visible_lookup, Hc.
  destruct (decide ((secret_namespace s, secret_name s) = (ns, n))) as [[= <- <-]|Hne].
  - rewrite !lookup_insert_eq. cbn. by rewrite created_visible.
  - rewrite !lookup_insert_ne by done. symmetry. apply visible_lookup.
Qed.

Lemma create_err_visible s b w e w' :
  create_secret s b w = (Err e, w') -> visible_secrets w' = visible_secrets w.
Proof.
  unfold create_secret, map_err. destruct b.
  - destruct (k_apply _ _ _ w) as [[u|e0] w0] eqn:E; intros [= <- <-]. by eapply visible_eq, k_apply_err_law.
  - destruct (k_create _ _ w) as [[u|e0] w0] eqn:E; intros [= <- <-].
    apply visible_eq. by apply (k_create_law (object_of s)) in E.
Qed.

Lemma delete_visible ns n w r w' :
  delete_secret ns n w = (r, w') ->
  match r with
  | Ok _ => visible_secrets w' = delete (ns, n) (visible_secrets w)
  | Err _ => visible_secrets w' = visible_secrets w
  end.
Proof.
  unfold delete_secret, map_err. destruct (k_delete ns n w) as [r0 w0] eqn:E.
  apply k_delete_law in E. destruct r0 as [u|e]; cbn; intros [= <- <-]; [|by apply visible_eq].
  apply map_eq. intros [ns' n']. rewrite visible_lookup, E.
  destruct (decide ((ns, n) = (ns', n'))) as [[= <- <-]|Hne].
  - by rewrite !lookup_delete_eq.
  - rewrite !lookup_delete_ne by done. symmetry. apply visible_lookup.
Qed.

(** The interface of the services is met. *)
#[export] Program Instance kube_secret_laws : SecretStoreLaws W := { ss_secrets := visible_secrets }.
Next Obligation.
  intros ns n w. destruct (ss_get_secret ns n w) as [r w'] eqn:E. by apply get_visible in E as [? _].
Qed.
Next Obligation. intros s w w' Hv E. by apply create_visible. Qed.
Next Obligation. intros s b w e w' E. exact (create_err_visible _ _ _ _ _ E). Qed.
Next Obligation. intros ns n w w' E. exact (delete_visible _ _ _ _ _ E). Qed.
Next Obligation. intros ns n w e w' E. exact (delete_visible _ _ _ _ _ E). Qed.

(** The Kubernetes store keeps the promises the services rely on: reading
    changes nothing; a create succeeds only for a free name, and then exactly that
    secret is new and reads back with the properties, labels and annotations it was
    created with; a delete removes exactly one secret; a failed call changes
    nothing. *)
Theorem kube_store_keeps_promises s ns n w :
  valid_secret s ->
  visible_secrets (snd (get_secret ns n w)) = visible_secrets w /\
  match create_secret s false w with
  | (Ok _, w') =>
      visible_secrets w !! (secret_namespace s, secret_name s) = None /\
      visible_secrets w' = <[(secret_namespace s, secret_name s) := stored_secret s]> (visible_secrets w) /\
      forall r w2, get_secret (secret_namespace s) (secret_name s) w' = (Ok r, w2) -> r = stored_secret s
  | (Err _, w') => visible_secrets w' = visible_secrets w
  end /\
  match delete_secret ns n w with
  | (Ok _, w') => visible_secrets w' = delete (ns, n) (visible_secrets w)
  | (Err _, w') => visible_secrets w' = visible_secrets w
  end.
Proof.
  intros Hv. split_and!.
  - destruct (get_secret ns n w) as [r w'] eqn:E. by apply get_visible in E as [? _].
  - destruct (create_secret s false w) as [[[]|e] w'] eqn:E; [|by eapply create_err_visible].
    apply create_visible in E as [Hn Hc]; [|done]. split_and!; [done..|].
    intros r w2 Hg. apply get_visible in Hg as [_ Hg]. rewrite Hc, lookup_insert_eq in Hg. congruence.
  - destruct (delete_secret ns n w) as [r w'] eqn:E. apply delete_visible in E. by destruct r.
Qed.
End Laws.

(** ** Concrete instance *)

Abbreviation Cluster := (gmap (string * string) K8sSecret).

#[export] Instance mem_cluster : K8sApi Cluster := {
  k_get ns n w := (ok_or (w !! (ns, n)) "not found", w);
  k_create ns o w :=
    match w !! (ns, o_name o) with
    | Some _ => (Err "already exists", w)
    | None => (Ok tt, <[(ns, o_name o) := created o]> w)
    end;
  k_apply ns n o w := (Ok tt, <[(ns, n) := created o]> w);
  k_delete ns n w :=
    match w !! (ns, n) with
    | Some _ => (Ok tt, delete (ns, n) w)
    | None => (Err "not found", w)
    end;
  k_merge_labels ns n l w :=
    match w !! (ns, n) with
    | Some k => (Ok tt, <[(ns, n) := {| k_labels := Some (l ∪ default ∅ (k_labels k));
                                        k_annotations := k_annotations k; k_data := k_data k |}]> w)
    | None => (Err "not found", w)
    end
}.

#[export] Program Instance mem_cluster_laws : K8sLaws Cluster := { cluster w := w }.
Next Obligation. intros ns n w r w' [= <- <-]. split; [done|]. by destruct (w !! (ns, n)). Qed.
Next Obligation.
  intros o w r w'. cbn. destruct (w !! _) eqn:E; intros [= <- <-]; [done|]. done.
Qed.
Next Obligation. intros ns n o w e w'. done. Qed.
Next Obligation. intros ns n w r w'. cbn. destruct (w !! _); intros [= <- <-]; done. Qed.

Definition pw_secret : Secret :=
  {| secret_name := "s"; secret_namespace := "a"; secret_properties := {["password" := "pw"]};
     secret_labels := None; secret_annotations := None |}.

Lemma kube_store_keeps_promises_witness :
  fst (get_secret "a" "s" (snd (create_secret pw_secret false (∅ : Cluster)))) = Ok (stored_secret pw_secret) /\
  visible_secrets (snd (get_secret "a" "s" (∅ : Cluster))) = visible_secrets (∅ : Cluster).
Proof.
  split; [vm_compute; reflexivity|].
  apply (kube_store_keeps_promises pw_secret "a" "s" (∅ : Cluster)).
  apply (map_Forall_singleton (fun _ v => utf8_valid v = true) "password" "pw"). reflexivity.
Defined.
