(* ===== verification/RestErrors.v ===== *)
(** The REST service's error responses ([services/rest/src/rest/errors.rs]): the
    conversion of every error type into a code, a message and an HTTP status. *)
From S2P Require Import Prelude Text Json Sql Api MetaStore KubeAuth Traits.

Record RestErrorResponse : Type := { code : string; rest_message : string; status : nat }.

Inductive EndpointError : Type :=
| PathNotFound
| HeaderNotFound (h : string)
| InvalidHeaderValue (h : string).

Inductive ValidationError : Type :=
| DeserializationError (m : string)
| InvalidTenantId
| InvalidSecret
| UnsupportedProvider (m : string)
| FlightServiceError (m : string)
| FlightServiceNotFound (m : string)
| MissingField (m : string)
| ConnectionCheckFailed (m : string)
| CredentialsCheckFailed (m : string)
| StatusUpdateFailed (m : string)
| InvalidDataConnectionType (m : string)
| InvalidDataConnectionId (m : string)
| CannotGetDataConnectionTypes
| ConnectorsAlreadyExists (m : string).

Definition error_of (c m : string) (s : nat) : RestErrorResponse :=
  {| code := c; rest_message := m; status := s |}.

Definition from_connector_error (e : ConnectorError) : RestErrorResponse :=
  let (c, s) := match e with
                | CInvalidRequest _ => ("invalid_request", 400)
                | NoDataError => ("no_data", 404)
                | ConfigError _ => ("config", 500)
                | ConnectionError _ => ("connection", 503)
                | SQLError _ => ("sql_error", 400)
                | IOError _ => ("io_error", 500)
                | CNotFound _ => ("not_found", 404)
                | UnsupportedOperation _ => ("unsupported_operation", 501)
                end in
  error_of c match e with
             | IOError _ => "data source I/O error"
             | _ => connector_error_message e
             end s.

Definition from_meta_store_error (e : MetaStoreError) : RestErrorResponse :=
  let (c, s) := match e with
                | ResourceNotFound _ => ("not_found", 404)
                | InvalidRequest _ => ("invalid_request", 400)
                | Config _ => ("config", 500)
                | Connection _ => ("connection", 503)
                | Query _ => ("query_error", 500)
                | Conflict _ => ("conflict", 409)
                | Serialization _ => ("serialization", 400)
                | Deserialization _ => ("deserialization", 400)
                | Validation _ => ("validation", 400)
                | UnprocessableEntity _ => ("unprocessable_entity", 422)
                end in
  error_of c (meta_store_error_display e) s.

Definition from_secret_store_error (e : SecretStoreError) : RestErrorResponse :=
  let (c, s) := match e with
                | SecretNotFound _ => ("secret_not_found", 404)
                | Forbidden _ => ("forbidden", 403)
                | CannotCreateSecret _ => ("cannot_create_secret", 400)
                | CannotDeleteSecret _ => ("cannot_delete_secret", 400)
                | CannotSetSecretLabels _ => ("cannot_set_secret_labels", 400)
                end in
  error_of c (secret_store_error_display e) s.

Definition from_status (st : Status) : RestErrorResponse :=
  let (c, s) := match grpc_code st with
                | InvalidArgument => ("invalid_request", 400)
                | GrpcUnauthenticated => ("unauthenticated", 401)
                | PermissionDenied => ("forbidden", 403)
                | NotFound => ("not_found", 404)
                | Unavailable => ("connection", 503)
                | Unimplemented => ("unsupported_operation", 501)
                | _ => ("flight_service_error", 500)
                end in
  error_of c (grpc_message st) s.

Definition extraction_error (c err : string) : RestErrorResponse := error_of c err 400.

Definition from_auth_error (e : AuthError) : RestErrorResponse :=
  match e with
  | Unauthenticated _ => error_of "unauthenticated" "An authenticated identity is required" 401
  | AuthForbidden m => error_of "forbidden" m 403
  | TokenReviewError _ | AccessReviewError _ | Internal _ =>
      error_of "auth_error" "Authorization check failed" 500
  end.

Definition from_endpoint_error (e : EndpointError) : RestErrorResponse :=
  match e with
  | PathNotFound => error_of "path_not_found" "Path not found" 404
  | HeaderNotFound h => error_of "header_not_found" ("Header '" +:+ h +:+ "' not found") 400
  | InvalidHeaderValue h =>
      error_of "invalid_header_value" ("Header '" +:+ h +:+ "' has an invalid value") 400
  end.

Definition from_validation_error (e : ValidationError) : RestErrorResponse :=
  match e with
  | FlightServiceNotFound m => error_of "flight_service_not_found" m 404
  | DeserializationError m => error_of "deserialization_error" m 400
  | InvalidTenantId => error_of "invalid_tenant_id" "Invalid tenant ID" 400
  | InvalidSecret => error_of "invalid_secret" "Invalid secret" 400
  | FlightServiceError m => error_of "flight_service_error" m 500
  | ConnectionCheckFailed m => error_of "connection_check_failed" m 502
  | UnsupportedProvider m => error_of "unsupported_provider" m 400
  | MissingField f => error_of "missing_field" ("Missing field: " +:+ f) 400
  | CredentialsCheckFailed m => error_of "credentials_check_failed" m 400
  | StatusUpdateFailed m => error_of "status_update_failed" m 500
  | InvalidDataConnectionType m => error_of "invalid_data_connection_type" m 400
  | InvalidDataConnectionId m => error_of "invalid_data_connection_id" m 400
  | CannotGetDataConnectionTypes =>
      error_of "cannot_get_data_connection_types" "Cannot get data connection types" 500
  | ConnectorsAlreadyExists m => error_of "connectors_already_exists" m 400
  end.

(** [status_code]: [StatusCode::from_u16] accepts 100 to 999. *)
Definition status_code (r : RestErrorResponse) : nat :=
  if (100 <=? status r) && (status r <? 1000) then status r else 500.

(** The body of an error response: [status] is not serialised. *)
Definition error_body (r : RestErrorResponse) : json :=
  obj [("code", Some (JString (code r))); ("message", Some (JString (rest_message r)))].
