(* ===== verification/Rest.v ===== *)
(** The REST service ([services/rest/src]): request bodies ([rest/mod.rs]), the
    audits ([state/audit.rs]), every endpoint ([rest/endpoints.rs]), the header
    middleware ([rest/middleware.rs]) and the route table ([main.rs]), over the
    traits of [Traits]. *)
From S2P Require Import Prelude Text Json Sql Api MetaStore KubeAuth Traits RestErrors.

(** ** Requests and responses *)

Record ApiContext : Type := { ctx_tenant : string; ctx_identity : option RequestIdentity }.

Inductive HttpBody : Type :=
| NoBody
| JsonBody (v : json)
| StreamBody (content_type disposition : string) (chunks : list (result string string)).

Record HttpResponse : Type := { http_status : nat; http_body : HttpBody }.

Definition ok_json (v : json) : HttpResponse := {| http_status := 200; http_body := JsonBody v |}.
Definition created_json (v : json) : HttpResponse := {| http_status := 201; http_body := JsonBody v |}.
Definition no_content : HttpResponse := {| http_status := 204; http_body := NoBody |}.

#[export] Instance serde_resource_list `{Serde A} : Serde (ResourceList A) := {
  to_value r := obj [("total_count", Some (to_value (total_count r)));
                     ("items", Some (to_value (items r)))];
  from_value v :=
    m ← as_struct [("total_count", false); ("items", false)] v;
    n ← req "total_count" m; l ← req "items" m;
    Some {| total_count := n; items := l |}
}.

Record InlineCreds : Type := { ic_secret : string; ic_properties : gmap string string }.

Record DataConnectionWithCreds : Type := {
  wc_name : string;
  wc_type_id : string;
  wc_format : DataFormat;
  wc_credentials : InlineCreds;
  wc_properties : gmap string string
}.

#[export] Instance serde_inline_creds : Serde InlineCreds := {
  to_value r := obj [("secret", Some (to_value (ic_secret r)));
                     ("properties", Some (to_value (ic_properties r)))];
  from_value v := m ← as_struct [("secret", false); ("properties", false)] v;
    s ← req "secret" m; p ← req "properties" m;
    Some {| ic_secret := s; ic_properties := p |}
}.

#[export] Instance serde_with_creds : Serde DataConnectionWithCreds := {
  to_value r := obj [("name", Some (to_value (wc_name r)));
                     ("data_connection_type_id", Some (to_value (wc_type_id r)));
                     ("format", Some (to_value (wc_format r)));
                     ("credentials", Some (to_value (wc_credentials r)));
                     ("properties", Some (to_value (wc_properties r)))];
  from_value v :=
    m ← as_struct [("name", false); ("data_connection_type_id", false); ("format", false);
                   ("credentials", false); ("properties", false)] v;
    n ← req "name" m; t ← req "data_connection_type_id" m; f ← req "format" m;
    c ← req "credentials" m; p ← req "properties" m;
    Some {| wc_name := n; wc_type_id := t; wc_format := f; wc_credentials := c;
            wc_properties := p |}
}.

Definition to_data_connection (d : DataConnectionWithCreds) : DataConnection :=
  {| name := wc_name d; data_connection_type_id := wc_type_id d; format := wc_format d;
     credentials_ref := {| secret := ic_secret (wc_credentials d) |};
     properties := wc_properties d |}.

Inductive CreateConnectionRequest : Type :=
| DataConnectionWithSecretRef (d : DataConnection)
| DataConnectionWithInlineCreds (d : DataConnectionWithCreds).

(** [#[serde(untagged)]]: the first variant that decodes. *)
Definition create_request_from_value (v : json) : option CreateConnectionRequest :=
  match from_value v with
  | Some d => Some (DataConnectionWithSecretRef d)
  | None => DataConnectionWithInlineCreds <$> from_value v
  end.

Definition default_secret_labels : gmap string string :=
  {["dataconnecthub.opendatahub.io/attached" := "true"]}.

(** The last component of a path: [path.rsplit('/').next()]. *)
Definition file_name (path : string) : string := List.last (split "/" path) "".

Section Rest.
Context {W : Type} `{MetaStoreI W} `{SecretStoreI W} `{FlightI W} `{ClockI W}.

(** [json_patch::merge]: the patched value. *)
Variable json_merge : json -> json -> json.
(** The text of the error that decoding this value gives. *)
Variable serde_text : json -> string.

(** The parts of [ApiService] that are not behind the traits. *)
Record ApiService : Type := {
  svc_global_tenant_id : string;
  svc_authorizer : option (RequestIdentity -> string -> string -> M W AuthError unit)
}.

Abbreviation Handler := (M W RestErrorResponse HttpResponse).

(** ** Audits (state/audit.rs) *)

Definition set_data_connection_status (tenant uid : string) (st : DataConnectionState)
    (msg : option string) : M W ValidationError unit :=
  let? now := svc_now in
  map_err (fun _ => StatusUpdateFailed "Failed to update data connection status")
    (ms_update_data_connection_status tenant uid
       (fun _ => Ok {| state := st; message := msg; status_updated_at := Some now |})) ;?
  mret tt.

Definition audit_data_connection (tenant uid : string) : M W ValidationError unit :=
  let? dc := map_err (fun _ => InvalidDataConnectionId uid) (ms_get_data_connection tenant uid) in
  let? dct := map_err (fun _ => InvalidDataConnectionType (data_connection_type_id (dc_resource dc)))
                (ms_get_data_connection_type tenant (data_connection_type_id (dc_resource dc))) in
  let? sec := attempt (ss_get_secret tenant (secret (credentials_ref (dc_resource dc)))) in
  match sec with
  | Err _ =>
      set_data_connection_status tenant uid NotReady (Some "Secret cannot be read") ;?
      throw InvalidSecret
  | Ok sec =>
      match check_credentials_schema (dct_resource dct) (secret_properties sec) with
      | Err e =>
          set_data_connection_status tenant uid NotReady (Some (type_error_display e)) ;?
          throw (CredentialsCheckFailed (type_error_display e))
      | Ok _ =>
          let connection_id := id (dc_metadata dc) in
          let? flight := map_err (fun e => FlightServiceError (meta_store_error_display e))
                           (ms_get_flight_service_by_connector (provider (dct_resource dct))) in
          let? r := attempt (fc_check_data_connection (internal_url (fsr_resource flight))
                               tenant connection_id) in
          match r with
          | Ok _ => set_data_connection_status tenant uid Ready (Some "Connection check successful")
          | Err _ =>
              set_data_connection_status tenant uid IngestionNotReady
                (Some "Connection check failed") ;?
              throw (ConnectionCheckFailed connection_id)
          end
      end
  end.

(** The inner loop of [audit_data_connection_types]: the first flight service
    that supports the provider, if any, decides. *)
Fixpoint flight_for (provider : string) (fs : list FlightServiceResource)
    : list DataFormat * option string :=
  match fs with
  | [] => ([], None)
  | f :: r =>
      let fl := fsr_resource f in
      if bool_decide (provider ∈ supported_connectors fl)
      then (omap (fun s => match data_format_from_string s with Ok d => Some d | Err _ => None end)
              (default [] (connector_capabilities fl !! provider)),
            if ready (fs_status fl) then Some (external_url fl) else None)
      else flight_for provider r
  end.

Definition audit_data_connection_types : M W ValidationError unit :=
  let? flights := map_err (fun e => FlightServiceError (meta_store_error_display e))
                    ms_get_all_flight_services in
  let? dcts := map_err (fun _ => CannotGetDataConnectionTypes) ms_get_all_data_connection_types in
  for_each (items dcts) (fun dct =>
    let (fmts, url) := flight_for (provider (dct_resource dct)) (items flights) in
    let? now := svc_now in
    map_err (fun _ => StatusUpdateFailed (id (dct_metadata dct)))
      (ms_update_data_connection_type_status (id (dct_metadata dct))
         (fun _ => Ok {| supported_formats := fmts; flight_ready := bool_decide (is_Some url);
                         flight_url := url; type_message := None; type_updated_at := Some now |})) ;?
    mret tt).

(** ** Endpoints (rest/endpoints.rs) *)

Definition authorize_secret_ref (svc : ApiService) (ctx : ApiContext) (secret_name : string)
    : M W RestErrorResponse unit :=
  match svc_authorizer svc with
  | None => mret tt
  | Some check =>
      match ctx_identity ctx with
      | None => throw (from_auth_error (Unauthenticated "no authenticated identity on request"))
      | Some i => map_err from_auth_error (check i (ctx_tenant ctx) secret_name)
      end
  end.

Definition health : Handler :=
  mret (ok_json (obj [("service", Some (JString "Data Connect Hub"))])).

Definition list_connections (ctx : ApiContext) : Handler :=
  let? l := map_err from_meta_store_error (ms_get_data_connections (ctx_tenant ctx)) in
  mret (ok_json (to_value l)).

Definition get_connection (ctx : ApiContext) (uid : string) : Handler :=
  let? c := map_err from_meta_store_error (ms_get_data_connection (ctx_tenant ctx) uid) in
  mret (ok_json (to_value c)).

Definition create_connection_with_creds (tenant : string) (d : DataConnectionWithCreds) : Handler :=
  let? dct := map_err from_meta_store_error (ms_get_data_connection_type tenant (wc_type_id d)) in
  lift (rmap_err (fun e => from_validation_error (CredentialsCheckFailed (type_error_display e)))
          (check_credentials_schema (dct_resource dct) (ic_properties (wc_credentials d)))) ;?
  let secret_obj := {| secret_name := ic_secret (wc_credentials d); secret_namespace := tenant;
                       secret_properties := ic_properties (wc_credentials d);
                       secret_labels := Some default_secret_labels;
                       secret_annotations := Some ∅ |} in
  map_err from_secret_store_error (ss_create_secret secret_obj false) ;?
  let? res := attempt (ms_create_data_connection tenant (to_data_connection d)) in
  match res with
  | Ok c => mret (created_json (to_value c))
  | Err e =>
      let? _ignored := attempt (ss_delete_secret tenant (secret_name secret_obj)) in
      throw (from_meta_store_error e)
  end.

Definition create_connection (ctx : ApiContext) (b : CreateConnectionRequest) : Handler :=
  match b with
  | DataConnectionWithInlineCreds d => create_connection_with_creds (ctx_tenant ctx) d
  | DataConnectionWithSecretRef dc =>
      let? c := map_err from_meta_store_error (ms_create_data_connection (ctx_tenant ctx) dc) in
      mret (created_json (to_value c))
  end.

Definition list_connection_types (ctx : ApiContext) : Handler :=
  let? l := map_err from_meta_store_error (ms_get_data_connection_types (ctx_tenant ctx)) in
  mret (ok_json (to_value l)).

Definition get_connection_type (ctx : ApiContext) (uid : string) : Handler :=
  let? c := map_err from_meta_store_error (ms_get_data_connection_type (ctx_tenant ctx) uid) in
  mret (ok_json (to_value c)).

(** The closures of the patch endpoints. *)
Definition merge_patch `{Serde A} (patch : json) (a : A) : result MetaStoreError A :=
  let v := json_merge (to_value a) patch in
  ok_or (from_value v) (Deserialization (serde_text v)).

Definition patch_connection (ctx : ApiContext) (uid : string) (patch : json) : Handler :=
  let? c := map_err from_meta_store_error
              (ms_update_data_connection (ctx_tenant ctx) uid (merge_patch patch)) in
  mret (ok_json (to_value c)).

Definition validate_type (t : DataConnectionType) : result MetaStoreError unit :=
  let?? _u := rmap_err (fun e => InvalidRequest (type_error_display e)) (validate_label t) in
  rmap_err (fun e => InvalidRequest (type_error_display e)) (validate_tags t).

Definition create_connection_type (ctx : ApiContext) (t : DataConnectionType) : Handler :=
  lift (rmap_err from_meta_store_error (validate_type t)) ;?
  let? c := map_err from_meta_store_error (ms_create_data_connection_type (ctx_tenant ctx) t) in
  map_err from_validation_error audit_data_connection_types ;?
  mret (created_json (to_value c)).

Definition patch_type (patch : json) (t : DataConnectionType)
    : result MetaStoreError DataConnectionType :=
  let?? updated := merge_patch patch t in
  let?? _u := validate_type updated in
  Ok updated.

Definition patch_connection_type (ctx : ApiContext) (uid : string) (patch : json) : Handler :=
  let? c := map_err from_meta_store_error
              (ms_update_data_connection_type (ctx_tenant ctx) uid (patch_type patch)) in
  map_err from_validation_error audit_data_connection_types ;?
  mret (ok_json (to_value c)).

Definition delete_connection (ctx : ApiContext) (uid : string) : Handler :=
  map_err from_meta_store_error (ms_delete_data_connection (ctx_tenant ctx) uid) ;?
  mret no_content.

Definition delete_connection_type (ctx : ApiContext) (uid : string) : Handler :=
  map_err from_meta_store_error (ms_delete_data_connection_type (ctx_tenant ctx) uid) ;?
  mret no_content.

Definition flight_service_by_connection (tenant uid : string)
    : M W MetaStoreError FlightServiceResource :=
  let? dc := ms_get_data_connection tenant uid in
  let? dct := ms_get_data_connection_type tenant (data_connection_type_id (dc_resource dc)) in
  ms_get_flight_service_by_connector (provider (dct_resource dct)).

(** One element of the body stream of [get_binary_data]. *)
Definition binary_chunk (r : result Status Batch) : result string string :=
  match r with
  | Ok b => match b !! "data" with
            | Some vals => Ok (join "" vals)
            | None => Err "missing 'data' column in response"
            end
  | Err _ => Err "binary stream read failed"
  end.

Definition get_binary_data (ctx : ApiContext) (uid path : string) : Handler :=
  let? flight := map_err from_meta_store_error (flight_service_by_connection (ctx_tenant ctx) uid) in
  let? batches := map_err from_status
                    (fc_download_binary (internal_url (fsr_resource flight)) (ctx_tenant ctx) uid path) in
  mret {| http_status := 200;
          http_body := StreamBody "application/octet-stream"
                         ("attachment; filename=" +:+ String dquote (file_name path +:+ String dquote ""))
                         (binary_chunk <$> batches) |}.

(** The connectors that other flight services already serve. *)
Definition existent_connectors (fs : list FlightServiceResource) : list string :=
  f ← fs; supported_connectors (fsr_resource f).

Definition with_connectors (cs : list SupportedConnector) (f : FlightService) : FlightService :=
  {| fs_name := fs_name f; namespace := namespace f; external_url := external_url f;
     internal_url := internal_url f;
     supported_connectors := sc_name <$> cs;
     connector_capabilities := list_to_map (reverse ((fun c => (sc_name c, sc_formats c)) <$> cs));
     fs_status := fs_status f |}.

Definition create_flight_service_ep (svc : ApiService) (flight : FlightService) : Handler :=
  let? cs := map_err from_status
               (fc_get_supported_connectors (internal_url flight) (svc_global_tenant_id svc)) in
  let? fs := map_err from_meta_store_error ms_get_all_flight_services in
  let intersection :=
    List.filter (fun n => bool_decide (n ∈ existent_connectors (items fs))) (sc_name <$> cs) in
  match intersection with
  | _ :: _ => throw (from_validation_error (ConnectorsAlreadyExists
                ("connectors already exists: " +:+ debug_list intersection)))
  | [] =>
      let? res := map_err from_meta_store_error (ms_create_flight_service (with_connectors cs flight)) in
      map_err from_validation_error audit_data_connection_types ;?
      mret (created_json (to_value res))
  end.

Definition delete_flight_service_ep (uid : string) : Handler :=
  map_err from_meta_store_error (ms_delete_flight_service uid) ;?
  map_err from_validation_error audit_data_connection_types ;?
  mret no_content.

Definition patch_flight_service (uid : string) (patch : json) : Handler :=
  map_err from_meta_store_error (ms_update_flight_service uid (merge_patch patch)) ;?
  map_err from_validation_error audit_data_connection_types ;?
  mret no_content.

Definition check_existent_connection (ctx : ApiContext) (uid : string) : Handler :=
  map_err from_validation_error (audit_data_connection (ctx_tenant ctx) uid) ;?
  mret no_content.

Definition test_credentials (ctx : ApiContext) (b : TestCredentials) : Handler :=
  let? dct := map_err from_meta_store_error
                (ms_get_data_connection_type (ctx_tenant ctx) (tc_type_id b)) in
  let? flight := map_err from_meta_store_error
                   (ms_get_flight_service_by_connector (provider (dct_resource dct))) in
  map_err (fun st => from_validation_error (ConnectionCheckFailed (grpc_message st)))
    (fc_test_credentials (internal_url (fsr_resource flight)) (ctx_tenant ctx) b) ;?
  mret no_content.

(** The properties of an exported secret: the loops over the credentials and
    over the connection's properties insert into one map. *)
Definition insert_all (f : string -> string) (m acc : gmap string string) : gmap string string :=
  map_fold (fun k v acc => <[f k := v]> acc) acc m.

Definition export_properties (c : DataConnectionResource) (creds : gmap string string)
    : gmap string string :=
  let p0 := insert_all (fun k => k) creds ∅ in
  let p1 := <["data_connection.id" := id (dc_metadata c)]> p0 in
  let p2 := <["data_connection_type.id" := data_connection_type_id (dc_resource c)]> p1 in
  let p3 := <["data_connection.name" := name (dc_resource c)]> p2 in
  let p4 := <["data_connection.format" := data_format_display (format (dc_resource c))]> p3 in
  insert_all (fun k => "data_connection.properties." +:+ k) (properties (dc_resource c)) p4.

Definition export_connection (svc : ApiService) (ctx : ApiContext) (uid target : string) : Handler :=
  let? c := map_err from_meta_store_error (ms_get_data_connection (ctx_tenant ctx) uid) in
  let sref := secret (credentials_ref (dc_resource c)) in
  if is_empty sref then throw (from_validation_error InvalidSecret)
  else
    authorize_secret_ref svc ctx sref ;?
    let? existing := map_err from_secret_store_error (ss_get_secret (ctx_tenant ctx) sref) in
    map_err from_secret_store_error
      (ss_create_secret
         {| secret_name := target; secret_namespace := ctx_tenant ctx;
            secret_properties := export_properties c (secret_properties existing);
            secret_labels := Some default_secret_labels; secret_annotations := None |} true) ;?
    mret no_content.

Definition not_found : Handler := throw (from_endpoint_error PathNotFound).

(** ** Middleware and routes (rest/middleware.rs, main.rs) *)

Inductive Method : Type := GET | POST | PUT | PATCH | DELETE | OtherMethod.

(** A request: the decoded path segments, the first value of a header, the
    [path] query parameter and the body, if it is JSON. *)
Record Request : Type := {
  rq_method : Method;
  rq_path : list string;
  rq_header : string -> option string;
  rq_query_path : option string;
  rq_body : option json
}.

(** The text actix gives for a body that is not JSON, or a missing parameter. *)
Variable actix_text : string.

Definition json_body `{Serde A} (rq : Request) : result RestErrorResponse A :=
  match rq_body rq with
  | None => Err (extraction_error "invalid_json" actix_text)
  | Some v => ok_or (from_value v) (extraction_error "invalid_json" (serde_text v))
  end.

Definition create_body (rq : Request) : result RestErrorResponse CreateConnectionRequest :=
  match rq_body rq with
  | None => Err (extraction_error "invalid_json" actix_text)
  | Some v => ok_or (create_request_from_value v) (extraction_error "invalid_json" (serde_text v))
  end.

Definition raw_body (rq : Request) : result RestErrorResponse json :=
  ok_or (rq_body rq) (extraction_error "invalid_json" actix_text).

Definition with_body {A} (b : result RestErrorResponse A) (k : A -> Handler) : Handler :=
  let? a := lift b in k a.

(** The routes of the scope [/api/v1alpha1/data]. A path parameter matches one
    non-empty segment. *)
Definition scope_routes (svc : ApiService) (rq : Request) (ctx : ApiContext) : Handler :=
  match rq_method rq, rq_path rq with
  | GET, ["connection-types"] => list_connection_types ctx
  | POST, ["connection-types"] => with_body (json_body rq) (create_connection_type ctx)
  | GET, ["connection-types"; String _ _ as uid] => get_connection_type ctx uid
  | PATCH, ["connection-types"; String _ _ as uid] =>
      with_body (raw_body rq) (patch_connection_type ctx uid)
  | DELETE, ["connection-types"; String _ _ as uid] => delete_connection_type ctx uid
  | GET, ["connections"] => list_connections ctx
  | POST, ["connections"] => with_body (create_body rq) (create_connection ctx)
  | GET, ["connections"; String _ _ as uid] => get_connection ctx uid
  | PATCH, ["connections"; String _ _ as uid] => with_body (raw_body rq) (patch_connection ctx uid)
  | DELETE, ["connections"; String _ _ as uid] => delete_connection ctx uid
  | PUT, ["connections"; String _ _ as uid; "exports"; "secrets"; String _ _ as target] =>
      export_connection svc ctx uid target
  | POST, ["connections"; String _ _ as uid; "readiness"] => check_existent_connection ctx uid
  | GET, ["connections"; String _ _ as uid; "binary"] =>
      with_body (ok_or (rq_query_path rq) (extraction_error "invalid_query" actix_text))
        (get_binary_data ctx uid)
  | POST, ["test"; "credentials"] => with_body (json_body rq) (test_credentials ctx)
  | POST, ["flights"] => with_body (json_body rq) (create_flight_service_ep svc)
  | DELETE, ["flights"; String _ _ as uid] => delete_flight_service_ep uid
  | PATCH, ["flights"; String _ _ as uid] => with_body (raw_body rq) (patch_flight_service uid)
  | _, _ => not_found
  end.

Definition respond (r : result RestErrorResponse HttpResponse) : HttpResponse :=
  match r with
  | Ok h => h
  | Err e => {| http_status := status_code e; http_body := JsonBody (error_body e) |}
  end.

(** [error_response] of the middleware: always 400. *)
Definition bad_request (e : EndpointError) : HttpResponse :=
  {| http_status := 400; http_body := JsonBody (error_body (from_endpoint_error e)) |}.

Definition validate_headers (rq : Request) : result EndpointError ApiContext :=
  match rq_header rq X_TENANT_ID with
  | None => Err (HeaderNotFound X_TENANT_ID)
  | Some raw =>
      match header_to_str raw with
      | Some v =>
          if is_empty v then Err (InvalidHeaderValue X_TENANT_ID)
          else Ok {| ctx_tenant := v;
                     ctx_identity := resolve_identity
                       (raw ← rq_header rq X_REMOTE_USER; header_to_str raw) |}
      | None => Err (InvalidHeaderValue X_TENANT_ID)
      end
  end.

Definition run_handler (h : Handler) (w : W) : HttpResponse * W :=
  let (r, w') := h w in (respond r, w').

(** The application of [api_routes]: what a request is answered, and the world
    it leaves. *)
Definition serve (svc : ApiService) (rq : Request) (w : W) : HttpResponse * W :=
  match rq_path rq with
  | ["health"] => run_handler (match rq_method rq with GET => health | _ => not_found end) w
  | "api" :: "v1alpha1" :: "data" :: rest =>
      match validate_headers rq with
      | Err e => (bad_request e, w)
      | Ok ctx =>
          run_handler (scope_routes svc
            {| rq_method := rq_method rq; rq_path := rest; rq_header := rq_header rq;
               rq_query_path := rq_query_path rq; rq_body := rq_body rq |} ctx) w
      end
  | _ => run_handler not_found w
  end.

End Rest.
Arguments ApiService : clear implicits.
