(* ===== verification/RestSample.v ===== *)
(** A small concrete environment for the REST service: an in-memory secret
    store, flight services that answer from a table, and a fixed clock. It
    instantiates the traits, and shows that their laws can be met. *)
From S2P Require Import Prelude Text Json Sql Api MetaStore MetaStoreInv MetaStoreSpec.
From S2P Require Import KubeAuth Traits RestErrors Rest.

(** The state of the environment: the secrets, and whether the flight service
    accepts connections. *)
Record Env : Type := { env_secrets : gmap (string * string) Secret; env_flight_ok : bool }.

Definition set_secrets (m : gmap (string * string) Secret) (e : Env) : Env :=
  {| env_secrets := m; env_flight_ok := env_flight_ok e |}.

Definition key_of_secret (s : Secret) : string * string := (secret_namespace s, secret_name s).

#[export] Instance mem_secret_store : SecretStoreI Env := {
  ss_get_secret ns n e :=
    (ok_or (env_secrets e !! (ns, n)) (SecretNotFound "Failed to obtain credentials"), e);
  ss_create_secret s b e :=
    if negb b && bool_decide (is_Some (env_secrets e !! key_of_secret s))
    then (Err (CannotCreateSecret (secret_name s)), e)
    else (Ok tt, set_secrets (<[key_of_secret s := stored_secret s]> (env_secrets e)) e);
  ss_delete_secret ns n e :=
    if bool_decide (is_Some (env_secrets e !! (ns, n)))
    then (Ok tt, set_secrets (delete (ns, n) (env_secrets e)) e)
    else (Err (SecretNotFound (ns +:+ "/" +:+ n)), e);
  ss_set_secret_labels ns n l e :=
    match env_secrets e !! (ns, n) with
    | Some s =>
        (Ok tt, set_secrets (<[(ns, n) := {| secret_name := n; secret_namespace := ns;
           secret_properties := secret_properties s;
           secret_labels := Some (l ∪ default ∅ (secret_labels s));
           secret_annotations := secret_annotations s |}]> (env_secrets e)) e)
    | None => (Err (SecretNotFound (ns +:+ "/" +:+ n)), e)
    end
}.

#[export] Program Instance mem_secret_laws : SecretStoreLaws Env := {
  ss_secrets := env_secrets
}.
Next Obligation. done. Qed.
Next Obligation.
  intros s w w' _ Hr. cbn in Hr. case_bool_decide as Hs; [done|].
  injection Hr as <-. split; [by apply eq_None_not_Some|done].
Qed.
Next Obligation. intros s b w e w' Hr. cbn in Hr. destruct (_ && _); naive_solver. Qed.
Next Obligation. intros ns n w w' Hr. cbn in Hr. case_bool_decide; naive_solver. Qed.
Next Obligation. intros ns n w e w' Hr. cbn in Hr. case_bool_decide; naive_solver. Qed.

#[export] Instance mem_flight : FlightI Env := {
  fc_get_supported_connectors _ _ e :=
    (Ok [{| sc_name := "postgres"; sc_description := "PostgreSQL"; sc_formats := ["tabular"] |}], e);
  fc_check_data_connection _ _ _ e :=
    (if env_flight_ok e then Ok tt
     else Err {| grpc_code := Unavailable; grpc_message := "down" |}, e);
  fc_test_credentials _ _ _ e := (Ok tt, e);
  fc_download_binary _ _ _ _ e := (Ok [Ok {["data" := ["abc"; "def"]]}], e)
}.

#[export] Instance mem_clock : ClockI Env :=
  { clock_now e := ("2026-01-01T00:00:00Z", e) }.

Definition sample_secret (ns n : string) : Secret :=
  {| secret_name := n; secret_namespace := ns; secret_properties := {["password" := "pw"]};
     secret_labels := None; secret_annotations := None |}.

Definition sample_env : Env :=
  {| env_secrets := {[("a", "s") := sample_secret "a" "s"]}; env_flight_ok := true |}.

(** The world of the samples: two tenants, a global type, a flight service. *)
Definition sample_flight (uid : string) (conns : list string) : FlightServiceResource :=
  {| fsr_metadata := {| id := uid; tenant_id := None; created_at := "t0"; updated_at := "t0" |};
     fsr_resource := {| fs_name := "f-" +:+ uid; namespace := "ns"; external_url := "grpc://ext";
                        internal_url := "grpc://int"; supported_connectors := conns;
                        connector_capabilities := ∅; fs_status := {| ready := true |} |} |}.

Definition rest_store : Store :=
  {| db := {| conns := conns (db sample_store); types := types (db sample_store);
              flights := [to_value (sample_flight "f1" ["postgres"])] |};
     tick := 0 |}.

Definition sample_world : Store * Env := (rest_store, sample_env).

(** Lets only [alice] read secrets. *)
Definition alice_only (i : RequestIdentity) (t n : string) : M (Store * Env) AuthError unit :=
  fun w => (if String.eqb (ri_username i) "alice" then Ok tt
            else Err (AuthForbidden "denied"), w).

Definition sample_service : ApiService (Store * Env) :=
  {| svc_global_tenant_id := "global"; svc_authorizer := Some alice_only |}.

Definition sample_merge (v p : json) : json := v.
Definition sample_text (v : json) : string := "".

Definition request_for (t : string) (m : Method) (path : list string) : Request :=
  {| rq_method := m; rq_path := ["api"; "v1alpha1"; "data"] ++ path;
     rq_header h := if String.eqb h X_TENANT_ID then Some t
                    else if String.eqb h X_REMOTE_USER then Some "alice" else None;
     rq_query_path := None; rq_body := None |}.

#[export] Instance sample_meta_store : MetaStoreI (Store * Env) :=
  @pg_meta_store sample_oracle "global" Env.

Lemma rest_wf : @db_wf sample_oracle "global" (db rest_store).
Proof.
  destruct sample_wf as [Hu Hr]. split; [|exact Hr].
  intros [| |]; [exact (Hu data_connections)|exact (Hu data_connection_types)|done].
Qed.
