(* ===== verification/RestIsolation.v ===== *)
(** The REST service over PostgreSQL: no request, whatever fails, breaks the
    store's invariant or touches another tenant's connections. *)
From S2P Require Import Prelude Text Json Sql Api MetaStore MetaStoreInv MetaStoreSpec.
From S2P Require Import KubeAuth Traits RestErrors Rest RestSample.

Section Zoom.
Context {X Y : Type} (R : X -> X -> Prop) `{!PreOrder R}.

(** A relation on the first component of the world. *)
Definition on_fst (w w' : X * Y) : Prop := R (fst w) (fst w').

#[global] Instance on_fst_preorder : PreOrder on_fst.
Proof. split; unfold on_fst; [by intros ?|intros ????; by etransitivity]. Qed.

Lemma steps_zoom_l {E A} (m : M X E A) : steps R m -> steps on_fst (zoom_l (Y:=Y) m).
Proof. intros Hm [x y]. unfold zoom_l, on_fst. cbn. specialize (Hm x). by destruct (m x). Qed.

Lemma steps_zoom_r {E A} (m : M Y E A) : steps on_fst (zoom_r (X:=X) m).
Proof. intros [x y]. unfold zoom_r, on_fst. cbn. destruct (m y). cbn. reflexivity. Qed.
End Zoom.

#[export] Hint Resolve steps_zoom_l steps_zoom_r on_fst_preorder : dch.

(** ** What a relation must allow for every request of a tenant to satisfy it *)

Section Serve.
Context `{O : Oracle} {Y : Type} `{SecretStoreI Y} `{FlightI Y} `{ClockI Y}.
Variable g : string.
Variable json_merge : json -> json -> json.
Variables (serde_text : json -> string) (actix_text : string).

#[local] Existing Instance pg_meta_store.
#[local] Instance store_instance : MetaStoreI (Store * Y) := pg_meta_store g Y.

Variable R : Store -> Store -> Prop.
Context `{!PreOrder R}.
Variable tenant : string.

(** The store operations a request of [tenant] may perform satisfy [R]. *)
Record allows : Prop := {
  al_read_conns : steps R (get_data_connections tenant);
  al_read_conn u : steps R (get_data_connection tenant u);
  al_read_types : steps R (get_data_connection_types g tenant);
  al_read_type u : steps R (get_data_connection_type g tenant u);
  al_create_conn d : steps R (create_data_connection g tenant d);
  al_update_conn u f : steps R (update_data_connection g tenant u f);
  al_update_status u f : steps R (update_data_connection_status tenant u f);
  al_delete_conn u : steps R (delete_data_connection tenant u);
  al_all_types : steps R (get_all_data_connection_types g);
  al_create_type t : steps R (create_data_connection_type tenant t);
  al_update_type u f : steps R (update_data_connection_type tenant u f);
  al_type_status u f : steps R (update_data_connection_type_status u f);
  al_delete_type u : steps R (delete_data_connection_type tenant u);
  al_create_flight f : steps R (create_flight_service f);
  al_all_flights : steps R get_all_flight_services;
  al_flight_by c : steps R (get_flight_service_by_connector c);
  al_update_flight u f : steps R (update_flight_service u f);
  al_delete_flight u : steps R (delete_flight_service u)
}.

Context (al : allows).
Abbreviation RW := (on_fst (Y:=Y) R).

(** The authorizer reviews access; it has no access to the database. *)
Variable svc : ApiService (Store * Y).
Hypothesis authorizer_frame : forall check i t n,
  svc_authorizer svc = Some check -> steps RW (check i t n).

#[local] Hint Resolve al_read_conns al_read_conn al_read_types al_read_type al_create_conn
  al_update_conn al_update_status al_delete_conn al_all_types al_create_type al_update_type
  al_type_status al_delete_type al_create_flight al_all_flights al_flight_by al_update_flight
  al_delete_flight : dch.

(** Every operation behind the interface is one of the above, zoomed. *)
Ltac zoom := cbn [ms_get_data_connections ms_get_data_connection ms_get_data_connection_types
  ms_get_data_connection_type ms_create_data_connection ms_update_data_connection
  ms_update_data_connection_status ms_delete_data_connection ms_get_all_data_connection_types
  ms_create_data_connection_type ms_update_data_connection_type
  ms_update_data_connection_type_status ms_delete_data_connection_type ms_create_flight_service
  ms_get_all_flight_services ms_get_flight_service_by_connector ms_update_flight_service
  ms_delete_flight_service pg_meta_store store_instance
  ss_get_secret ss_create_secret ss_delete_secret zoom_secret_store
  fc_get_supported_connectors fc_check_data_connection fc_test_credentials fc_download_binary
  zoom_flight].

Lemma steps_now {E} : steps RW (svc_now (E:=E)).
Proof.
  intros [x y]. unfold svc_now. cbn. destruct (clock_now y). unfold on_fst. cbn. reflexivity.
Qed.

Ltac step1 :=
  first
    [ apply (steps_mret RW) | apply (steps_throw RW) | apply (steps_lift RW)
    | apply (steps_mseq RW); [|intros ?]
    | apply (steps_map_err RW) | apply (steps_attempt RW)
    | apply (steps_for_each RW); intros ?
    | apply steps_now
    | apply (steps_zoom_r R) | apply (steps_zoom_l R); solve [auto with dch]
    | match goal with
      | |- steps _ (match ?x with _ => _ end) => destruct x
      | |- steps _ (let (_, _) := ?x in _) => destruct x
      end ].
Ltac solve_steps := zoom; repeat (step1; zoom).

Lemma steps_set_status u st msg : steps RW (set_data_connection_status tenant u st msg).
Proof. unfold set_data_connection_status. solve_steps. Qed.

Lemma steps_audit u : steps RW (audit_data_connection tenant u).
Proof.
  unfold audit_data_connection. cbv zeta. solve_steps; apply steps_set_status.
Qed.

Lemma steps_audit_types : steps RW audit_data_connection_types.
Proof. unfold audit_data_connection_types. solve_steps. Qed.

Lemma steps_export id ctx target :
  ctx_tenant ctx = tenant -> steps RW (export_connection svc ctx id target).
Proof.
  intros Ht. unfold export_connection, authorize_secret_ref. rewrite Ht. cbv zeta. zoom.
  solve_steps. by eapply authorizer_frame.
Qed.

Lemma steps_create_with_creds d : steps RW (create_connection_with_creds tenant d).
Proof. unfold create_connection_with_creds. cbv zeta. solve_steps. Qed.

Lemma steps_flight_by_connection u : steps RW (flight_service_by_connection tenant u).
Proof. unfold flight_service_by_connection. solve_steps. Qed.

#[local] Hint Resolve steps_audit steps_audit_types steps_export steps_create_with_creds
  steps_flight_by_connection : dch.

Lemma steps_scope_routes rq ctx :
  ctx_tenant ctx = tenant ->
  steps RW (scope_routes json_merge serde_text actix_text svc rq ctx).
Proof.
  intros Ht. unfold scope_routes, with_body.
  repeat match goal with |- steps _ (match ?x with _ => _ end) => destruct x end;
    unfold not_found, list_connection_types, create_connection_type, get_connection_type,
      patch_connection_type, delete_connection_type, list_connections, create_connection,
      get_connection, patch_connection, delete_connection, check_existent_connection,
      get_binary_data, test_credentials, create_flight_service_ep, delete_flight_service_ep,
      patch_flight_service; rewrite ?Ht; cbv zeta;
    first [solve [auto with dch] | solve_steps; auto with dch].
Qed.

Lemma serve_steps rq w :
  (forall ctx, validate_headers rq = Ok ctx -> ctx_tenant ctx = tenant) ->
  RW w (snd (serve json_merge serde_text actix_text svc rq w)).
Proof.
  intros Hctx. unfold serve.
  assert (Hrun : forall h, steps RW h -> RW w (snd (run_handler h w))).
  { intros h Hh. unfold run_handler. specialize (Hh w). by destruct (h w). }
  assert (Hnf : RW w (snd (run_handler not_found w))) by (apply Hrun; solve_steps).
  assert (Hhe : RW w (snd (run_handler health w))) by (apply Hrun; solve_steps).
  assert (Hscope : forall rq', RW w (snd (match validate_headers rq with
            | Ok ctx => run_handler (scope_routes json_merge serde_text actix_text svc rq' ctx) w
            | Err e => (bad_request e, w) end))).
  { intros rq'. destruct (validate_headers rq) as [ctx|e] eqn:E; [|cbn; reflexivity].
    apply Hrun, steps_scope_routes, Hctx. done. }
  destruct (rq_path rq) as [|p l]; [exact Hnf|].
  repeat first [exact Hnf | apply Hscope | exact Hhe | match goal with
    |- RW _ (snd (match ?x with _ => _ end)) => destruct x end].
  all: destruct (rq_method rq); [exact Hhe|exact Hnf..].
Qed.
End Serve.

(** A relation that every request of the tenant, and every unscoped request,
    satisfies. *)
Lemma exec_allows `{O : Oracle} g (R : Store -> Store -> Prop) tenant :
  (forall q w, scope q = Some tenant \/ scope q = None -> R w (snd (exec g q w))) ->
  allows g R tenant.
Proof.
  intros Hex.
  assert (Hout : forall q A (m : M Store MetaStoreError A),
    (forall w, exec g q w = outcome m w) -> scope q = Some tenant \/ scope q = None -> steps R m).
  { intros q A m Hq Hs w. specialize (Hex q w Hs). rewrite Hq in Hex. unfold outcome in Hex.
    by destruct (m w). }
  split; intros.
  - by apply (Hout (GetDataConnections tenant)); [|left].
  - by apply (Hout (GetDataConnection tenant u)); [|left].
  - by apply (Hout (GetDataConnectionTypes tenant)); [|left].
  - by apply (Hout (GetDataConnectionType tenant u)); [|left].
  - by apply (Hout (CreateDataConnection tenant d)); [|left].
  - by apply (Hout (UpdateDataConnection tenant u f)); [|left].
  - by apply (Hout (UpdateDataConnectionStatus tenant u f)); [|left].
  - by apply (Hout (DeleteDataConnection tenant u)); [|left].
  - by apply (Hout GetAllDataConnectionTypes); [|right].
  - by apply (Hout (CreateDataConnectionType tenant t)); [|left].
  - by apply (Hout (UpdateDataConnectionType tenant u f)); [|left].
  - by apply (Hout (UpdateDataConnectionTypeStatus u f)); [|right].
  - by apply (Hout (DeleteDataConnectionType tenant u)); [|left].
  - by apply (Hout (CreateFlightService f)); [|right].
  - by apply (Hout GetAllFlightServices); [|right].
  - by apply (Hout (GetFlightServiceByConnector c)); [|right].
  - by apply (Hout (UpdateFlightService u f)); [|right].
  - by apply (Hout (DeleteFlightService u)); [|right].
Qed.

(** ** The connections of another tenant *)

Definition same_conns `{O : Oracle} (t' : string) (d d' : Db) : Prop :=
  List.filter (tenant_is t') (conns d') = List.filter (tenant_is t') (conns d).

#[global] Instance same_conns_preorder `{O : Oracle} t' : PreOrder (same_conns t').
Proof. split; unfold same_conns; [done|]. intros x y z -> ->. done. Qed.

#[global] Instance wf_step_po `{O : Oracle} g : PreOrder (wf_step g).
Proof. split; unfold wf_step; [intros ?; auto | intros ???; auto]. Qed.

(** The unscoped operations write only type statuses and flight services. *)
Lemma unscoped_conns `{O : Oracle} g t' q w :
  scope q = None -> same_conns t' (db w) (db (snd (exec g q w))).
Proof.
  intros Hs.
  assert (Ho : forall A (m : M Store MetaStoreError A), steps (on_db (same_conns t')) m ->
    same_conns t' (db w) (db (snd (outcome m w)))).
  { intros A m Hm. specialize (Hm w). unfold outcome. by destruct (m w). }
  assert (Hins : forall r, steps (on_db (same_conns t')) (insert_row flight_services r)).
  { intros r. apply (steps_db_call (same_conns t')). intros d a d'.
    destruct (existsb _ _); [done|]. by intros [= _ <-]. }
  assert (Hdel : forall p, steps (on_db (same_conns t')) (delete_rows flight_services p)).
  { intros p. apply (steps_db_call (same_conns t')). by intros d a d' [= _ <-]. }
  destruct q; try discriminate Hs; cbn [exec]; apply Ho;
    try (apply (steps_in_tx (same_conns t')); intros w1 a w2 H; inv_sql; chase_db; done);
    unfold get_all_data_connection_types, create_flight_service, get_all_flight_services,
      get_flight_service_by_connector, get_flight_service, delete_flight_service;
    auto 10 using on_db_preorder, same_conns_preorder with dch.
Qed.

Section Theorems.
Context `{O : Oracle} {Y : Type} `{SecretStoreI Y} `{FlightI Y} `{ClockI Y}.
Variables (g : string) (json_merge : json -> json -> json).
Variables (serde_text : json -> string) (actix_text : string).
#[local] Instance pg_world : MetaStoreI (Store * Y) := pg_meta_store g Y.

(** The authorizer reviews access and leaves the database alone. *)
Definition authorizer_ok (svc : ApiService (Store * Y)) : Prop :=
  forall check i t n w, svc_authorizer svc = Some check ->
  db (fst (snd (check i t n w))) = db (fst w).

(** The database after a sequence of HTTP requests. *)
Fixpoint serve_all (svc : ApiService (Store * Y)) (rqs : list Request) (w : Store * Y) : Store * Y :=
  match rqs with
  | [] => w
  | rq :: r => serve_all svc r (snd (serve json_merge serde_text actix_text svc rq w))
  end.

Lemma authorizer_steps svc (RD : Db -> Db -> Prop) `{!PreOrder RD} :
  authorizer_ok svc -> forall check i t n, svc_authorizer svc = Some check ->
  steps (on_fst (Y:=Y) (on_db RD)) (check i t n).
Proof.
  intros Ha check i t n Hc w. unfold on_fst, on_db. rewrite (Ha check i t n w Hc). reflexivity.
Qed.

(** C2: no HTTP request touches another tenant's connections. Whatever the
    method, path, headers and body of a request made for one tenant, and whatever
    the database, the secret store, the flight services and the authorizer answer,
    the stored connections of every other tenant are the same rows afterwards. *)
Theorem requests_keep_other_tenants svc rq w t' :
  authorizer_ok svc ->
  (forall ctx, validate_headers rq = Ok ctx -> ctx_tenant ctx <> t') ->
  List.filter (tenant_is t')
    (conns (db (fst (snd (serve json_merge serde_text actix_text svc rq w)))))
  = List.filter (tenant_is t') (conns (db (fst w))).
Proof.
  intros Ha Hctx.
  assert (Hserve : forall tenant, tenant <> t' ->
    (forall ctx, validate_headers rq = Ok ctx -> ctx_tenant ctx = tenant) ->
    on_fst (Y:=Y) (on_db (same_conns t')) w (snd (serve json_merge serde_text actix_text svc rq w))).
  { intros tenant Hne Ht.
    apply (serve_steps g json_merge serde_text actix_text (on_db (same_conns t')) tenant).
    - apply exec_allows. intros q v [Hq|Hq]; [|by apply unscoped_conns].
      exact (proj1 (exec_isolated g tenant t' Hne q v Hq)).
    - intros. eapply authorizer_steps; eauto. apply _.
    - done. }
  destruct (validate_headers rq) as [ctx|e] eqn:E.
  - apply (Hserve (ctx_tenant ctx)); [by apply Hctx|]. by intros ? [= <-].
  - destruct (decide (t' = "")) as [->|Hne]; [by apply (Hserve "x") | by apply (Hserve "")].
Qed.

(** C29: the HTTP interface keeps the metadata consistent. From an empty database,
    no sequence of requests, of any tenants and under any failures, leaves a
    connection without an existing type its tenant may use, or two rows that the
    unique indexes forbid. *)
Theorem requests_keep_wf svc rqs n y :
  authorizer_ok svc ->
  db_wf g (db (fst (serve_all svc rqs ({| db := empty_db; tick := n |}, y)))).
Proof.
  intros Ha. assert (Hwf : forall rqs w, db_wf g (db (fst w)) -> db_wf g (db (fst (serve_all svc rqs w)))).
  { clear rqs n y. induction rqs as [|rq rqs IH]; intros w Hw; cbn; [done|]. apply IH.
    set (tenant := match validate_headers rq with Ok ctx => ctx_tenant ctx | Err _ => "" end).
    apply (serve_steps g json_merge serde_text actix_text (on_db (wf_step g)) tenant); [..|done].
    - apply exec_allows. intros q v _. unfold on_db, wf_step. apply exec_wf.
    - intros. eapply authorizer_steps; eauto. apply _.
    - intros ctx Hc. unfold tenant. by rewrite Hc. }
  apply Hwf. apply empty_wf.
Qed.
End Theorems.

(** ** Concrete instances *)

Lemma sample_authorizer_ok : authorizer_ok sample_service.
Proof. intros check i t n w [= <-]. done. Qed.

Lemma requests_keep_other_tenants_witness :
  let out := @serve _ sample_meta_store _ _ _ sample_merge sample_text "" sample_service
               (request_for "a" DELETE ["connections"; "1"]) sample_world in
  http_status (fst out) = 204 /\
  List.filter (@tenant_is sample_oracle "b") (conns (db (fst (snd out))))
    = List.filter (@tenant_is sample_oracle "b") (conns (db (fst sample_world))).
Proof.
  split; [vm_compute; reflexivity|].
  apply (@requests_keep_other_tenants sample_oracle Env _ _ _ "global" sample_merge sample_text ""
           sample_service (request_for "a" DELETE ["connections"; "1"]) sample_world "b").
  - apply sample_authorizer_ok.
  - intros ctx Hc. vm_compute in Hc. injection Hc as <-. discriminate.
Defined.

Lemma requests_keep_wf_witness :
  @db_wf sample_oracle "global" (db (fst (@serve_all sample_oracle Env _ _ _ "global" sample_merge
    sample_text "" sample_service [request_for "a" GET ["connections"]]
    ({| db := empty_db; tick := 0 |}, sample_env)))).
Proof.
  apply (@requests_keep_wf sample_oracle Env _ _ _ "global" sample_merge sample_text ""
           sample_service [request_for "a" GET ["connections"]] 0 sample_env).
  apply sample_authorizer_ok.
Defined.
