(* ===== verification/RestAudit.v ===== *)
(** What an audit of a connection leaves behind. *)
From S2P Require Import Prelude Text Json Sql Api MetaStore MetaStoreInv MetaStoreAtomic.
From S2P Require Import MetaStoreSpec MetaStoreRefine.
From S2P Require Import KubeAuth Traits RestErrors Rest RestSample.

#[local] Arguments to_value : simpl never.
#[local] Arguments from_value : simpl never.

Section Audit.
Context `{O : Oracle} {Y : Type} `{SecretStoreI Y} `{FlightI Y} `{ClockI Y}.
Variable g : string.
Hypothesis quiet : forall n, db_fault n = None.
#[local] Instance audit_meta : MetaStoreI (Store * Y) := pg_meta_store g Y.

Abbreviation stored := (fun w : Store * Y => abs (db (fst w))).

(** [w'] is [w] with state [st] and message [msg] recorded for connection [uid] of
    [tenant], and no other connection touched. *)
Definition recorded (tenant uid : string) (st : DataConnectionState) (msg : string)
    (w w' : Store * Y) : Prop :=
  exists c now now', lookup_owned (stored w) tenant uid = Ok c /\
    stored w' = <[uid := {| dc_metadata := touch now (dc_metadata c); dc_resource := dc_resource c;
                            dc_status := {| state := st; message := Some msg;
                                            status_updated_at := Some now' |} |}]> (stored w).

Abbreviation RW := (fun w w' : Store * Y => db (fst w) = db (fst w')).

Lemma zoom_r_db {E A} (m : M Y E A) (w : Store * Y) r w' : zoom_r m w = (r, w') -> RW w w'.
Proof. unfold zoom_r. destruct (m (snd w)). by intros [= <- <-]. Qed.

Lemma read_db {E F A} (e : E -> F) (m : M Store E A) (w : Store * Y) r w' :
  steps (on_db eq) m -> map_err e (zoom_l m) w = (r, w') ->
  RW w w' /\ exists r0, zoom_l m w = (r0, w') /\ r = rmap_err e r0.
Proof.
  intros Hm. unfold map_err, zoom_l. specialize (Hm (fst w)). destruct (m (fst w)) as [r0 s].
  unfold on_db in Hm. intros [= <- <-]. split; [done|]. by exists r0.
Qed.

Lemma set_status_records tenant uid st msg (w w' : Store * Y) r :
  db_wf g (db (fst w)) ->
  set_data_connection_status tenant uid st (Some msg) w = (r, w') ->
  match r with
  | Ok _ => recorded tenant uid st msg w w'
  | Err e => e = StatusUpdateFailed "Failed to update data connection status" /\ stored w' = stored w
  end.
Proof.
  intros Hw. unfold set_data_connection_status, mseq at 1, svc_now. destruct w as [s y]. cbn in *.
  destruct (clock_now y) as [now y']. cbn. unfold mseq, map_err, zoom_l. cbn.
  set (f := fun _ => _).
  destruct (update_data_connection_status_refines g quiet tenant uid f s Hw) as [Hr Hs].
  destruct (update_data_connection_status _ _ _ _) as [r1 s1]. cbn in Hr, Hs |- *. subst r1.
  revert Hs. unfold spec_update_status, f. destruct (lookup_owned _ _ _) as [c|e] eqn:Hl; cbn.
  - intros Hs [= <- <-]. by eexists c, _, now.
  - by intros Hs [= <- <-].
Qed.

Lemma reads_keep_db t uid c :
  steps (on_db eq) (get_data_connection t uid) /\ steps (on_db eq) (get_data_connection_type g t uid) /\
  steps (on_db eq) (get_flight_service_by_connector c).
Proof.
  split_and!; apply (steps_mseq (on_db eq)); intros; try apply (steps_lift (on_db eq));
    apply (steps_map_err (on_db eq)), (steps_fetch_one eq).
Qed.

(** One look-up of the audit: it fails and ends the audit, or continues with its
    answer; the database is as before. *)
Lemma audit_read {A B} (e : MetaStoreError -> ValidationError) (m : M Store MetaStoreError A)
    (f : A -> M (Store * Y) ValidationError B) (w w' : Store * Y) r :
  steps (on_db eq) m -> mseq (map_err e (zoom_l m)) f w = (r, w') ->
  (exists x, r = Err (e x) /\ RW w w') \/
  (exists a w1, zoom_l m w = (Ok a, w1) /\ RW w w1 /\ f a w1 = (r, w')).
Proof.
  intros Hm Hr. apply mseq_cases in Hr as [(x & Hr & ->)|(a & w1 & Hr & Hf)];
    destruct (read_db _ _ _ _ _ Hm Hr) as (Hdb & [a0|x0] & Hz & [= ->]); [left | right]; eauto.
Qed.

(** The record an audit leaves for its outcome [r]. *)
Definition audit_left (tenant uid : string) (r : result ValidationError unit) (w w' : Store * Y) : Prop :=
  match r with
  | Ok _ => recorded tenant uid Ready "Connection check successful" w w'
  | Err InvalidSecret => recorded tenant uid NotReady "Secret cannot be read" w w'
  | Err (CredentialsCheckFailed m) => recorded tenant uid NotReady m w w'
  | Err (ConnectionCheckFailed _) =>
      recorded tenant uid IngestionNotReady "Connection check failed" w w'
  | Err _ => stored w' = stored w
  end.

(** The tail of a failed audit. *)
Lemma record_throw tenant uid st msg e (w w1 w' : Store * Y) r :
  db_wf g (db (fst w)) -> RW w w1 ->
  (set_data_connection_status tenant uid st (Some msg) ;? throw e) w1 = (r, w') ->
  (recorded tenant uid st msg w w' -> audit_left tenant uid (Err e) w w') ->
  audit_left tenant uid r w w' /\ r <> Ok tt.
Proof.
  intros Hw Hdb Hr He. pose proof Hw as Hw1. rewrite Hdb in Hw1.
  apply mseq_cases in Hr as [(x & Hr & ->)|([] & w2 & Hr & [= <- <-])];
    apply (set_status_records _ _ _ _ _ _ _ Hw1) in Hr.
  - destruct Hr as [-> Hr]. split; [|done]. cbn in *. by rewrite Hr, Hdb.
  - split; [|done]. apply He. unfold recorded in *. by rewrite Hdb.
Qed.

(** C10: an audit records its outcome. The connection becomes Ready exactly when the
    audit succeeds: its secret was read in the tenant's namespace, the secret
    satisfies the type's schema and the flight service of the type's provider
    accepted the connection. An unreadable or incomplete secret leaves NotReady
    with the reason, a refusal by the flight service IngestionNotReady; when the
    connection, its type or the flight service cannot be looked up, or the status
    cannot be written, the stored connections are unchanged. *)
Theorem audit_records_outcome tenant uid (w w' : Store * Y) r :
  db_wf g (db (fst w)) ->
  audit_data_connection tenant uid w = (r, w') ->
  audit_left tenant uid r w w' /\
  (r = Ok tt -> exists dc dct sec fl w1 w2 w3 w4,
     ms_get_data_connection tenant uid w = (Ok dc, w1) /\
     ms_get_data_connection_type tenant (data_connection_type_id (dc_resource dc)) w1 = (Ok dct, w2) /\
     ss_get_secret tenant (secret (credentials_ref (dc_resource dc))) w2 = (Ok sec, w3) /\
     check_credentials_schema (dct_resource dct) (secret_properties sec) = Ok tt /\
     ms_get_flight_service_by_connector (provider (dct_resource dct)) w3 = (Ok fl, w4) /\
     fst (fc_check_data_connection (internal_url (fsr_resource fl)) tenant (id (dc_metadata dc)) w4)
       = Ok tt).
Proof.
  intros Hw. unfold audit_data_connection. intros Hr.
  assert (Hk := fun u c => reads_keep_db tenant u c).
  apply (audit_read _ _ _ _ _ _ (proj1 (Hk uid ""))) in Hr
    as [(x & -> & Hdb)|(dc & w1 & E1 & D1 & Hr)]; [split; [cbn; by rewrite Hdb|done]|].
  apply (audit_read _ _ _ _ _ _ (proj1 (proj2 (Hk _ "")))) in Hr
    as [(x & -> & Hdb)|(dct & w2 & E2 & D2 & Hr)]; [split; [cbn; by rewrite D1, Hdb|done]|].
  unfold mseq at 1, attempt in Hr.
  destruct (ss_get_secret _ _ w2) as [sec w3] eqn:E3. pose proof (zoom_r_db _ _ _ _ E3) as D3.
  assert (D : RW w w3) by (cbn in *; congruence).
  assert (Hw3 : db_wf g (db (fst w3))) by (cbn in D; by rewrite <- D).
  destruct sec as [sec|e].
  2: { apply (record_throw _ _ _ _ _ w) in Hr as [??]; [done..|auto]. }
  destruct (check_credentials_schema _ _) as [[]|e] eqn:Hs.
  2: { apply (record_throw _ _ _ _ _ w) in Hr as [??]; [done..|auto]. }
  apply (audit_read _ _ _ _ _ _ (proj2 (proj2 (Hk "" _)))) in Hr
    as [(x & -> & Hdb)|(fl & w4 & E4 & D4 & Hr)]; [split; [cbn in *; by rewrite D, Hdb|done]|].
  unfold mseq at 1, attempt in Hr.
  destruct (fc_check_data_connection _ _ _ w4) as [ck w5] eqn:E5. pose proof (zoom_r_db _ _ _ _ E5) as D5.
  assert (D' : RW w w5) by (cbn in *; congruence).
  destruct ck as [[]|e].
  2: { apply (record_throw _ _ _ _ _ w) in Hr as [??]; [done..|auto]. }
  apply set_status_records in Hr; [|cbn in D'; by rewrite <- D']. destruct r as [[]|e].
  - split; [unfold audit_left, recorded in *; by rewrite D'|]. intros _.
    exists dc, dct, sec, fl, w1, w2, w3, w4. by rewrite E5.
  - destruct Hr as [-> Hr]. split; [cbn in *; by rewrite Hr, D'|done].
Qed.
End Audit.

(** ** Concrete instance *)

Lemma audit_records_outcome_witness :
  let out := @audit_data_connection _ (@pg_meta_store sample_oracle "global" Env) _ _ _
               "a" "1" sample_world in
  fst out = Ok tt /\ audit_left "a" "1" (fst out) sample_world (snd out).
Proof.
  split; [vm_compute; reflexivity|].
  destruct (@audit_data_connection _ (@pg_meta_store sample_oracle "global" Env) _ _ _
               "a" "1" sample_world) as [r w'] eqn:E.
  apply (@audit_records_outcome sample_oracle Env _ _ _ "global" (fun _ => eq_refl) "a" "1"
           sample_world w' r).
  - exact rest_wf.
  - exact E.
Defined.
