(* ===== verification/RestFlights.v ===== *)
(** Which flight service serves a connector: registration refuses connectors that
    are already served; a patch does not. *)
From S2P Require Import Prelude Text Json Sql Api MetaStore MetaStoreInv MetaStoreSpec.
From S2P Require Import KubeAuth Traits RestErrors Rest RestSample RestIsolation.

#[local] Arguments to_value : simpl never.
#[local] Arguments from_value : simpl never.

(** The connectors of a stored flight service. *)
Definition connectors_of (r : json) : list string :=
  match from_value (A:=FlightServiceResource) r with
  | Some f => supported_connectors (fsr_resource f)
  | None => []
  end.

(** No two stored flight services serve the same connector. *)
Definition connectors_unique (d : Db) : Prop :=
  forall i j ri rj c, flights d !! i = Some ri -> flights d !! j = Some rj ->
    c ∈ connectors_of ri -> c ∈ connectors_of rj -> i = j.

Definition same_flights (d d' : Db) : Prop := flights d = flights d'.

#[export] Instance same_flights_preorder : PreOrder same_flights.
Proof. split; unfold same_flights; [by intros ? | intros ???; congruence]. Qed.

(** Walks a computation bind by bind, [leaf] closing the calls. *)
Ltac walk R leaf := repeat first
  [ leaf | apply (steps_mret R) | apply (steps_throw R) | apply (steps_lift R)
  | apply (steps_mseq R); [|intros ?] | apply (steps_map_err R) | apply (steps_attempt R)
  | apply (steps_for_each R); intros ?
  | match goal with |- steps _ (let (_, _) := ?x in _) => destruct x end ].

Section Flights.
Context `{O : Oracle} {Y : Type} `{SecretStoreI Y} `{FlightI Y} `{ClockI Y}.
Variable g : string.
#[local] Instance flights_meta : MetaStoreI (Store * Y) := pg_meta_store g Y.

Abbreviation RW := (on_fst (Y:=Y) (on_db same_flights)).

Lemma type_status_same_flights u f :
  steps (on_db same_flights) (update_data_connection_type_status u f).
Proof. apply (steps_in_tx same_flights). intros w a w' Hr. inv_sql. by chase_db. Qed.

Lemma listings_same_flights :
  steps (on_db same_flights) get_all_flight_services /\
  steps (on_db same_flights) (get_all_data_connection_types g).
Proof.
  split; [unfold get_all_flight_services | unfold get_all_data_connection_types];
    walk (on_db same_flights) ltac:(apply (steps_fetch_all same_flights)).
Qed.

Lemma now_same_flights {E} : steps RW (svc_now (E:=E)).
Proof. intros [x y]. unfold svc_now. cbn. by destruct (clock_now y). Qed.

Lemma audit_types_same_flights : steps RW (audit_data_connection_types (W:=Store * Y)).
Proof.
  destruct listings_same_flights as [Hf Ht]. unfold audit_data_connection_types.
  walk (on_fst (Y:=Y) (on_db same_flights)) ltac:(first [ apply now_same_flights
    | apply (steps_zoom_l (on_db same_flights));
      first [exact Hf | exact Ht | apply type_status_same_flights]]).
Qed.

Lemma collect_elem {A B E} (f : A -> result E B) l bs a :
  collect f l = Ok bs -> a ∈ l -> exists b, f a = Ok b /\ b ∈ bs.
Proof.
  revert bs. induction l as [|x l IH]; cbn; intros bs Hc Ha; [by apply elem_of_nil in Ha|].
  destruct (f x) as [b|e] eqn:Hx; cbn in Hc; [|done].
  destruct (collect f l) as [bs'|e]; cbn in Hc; [|done]. injection Hc as <-.
  apply elem_of_cons in Ha as [->|Ha]; [exists b; split; [done|left]|].
  destruct (IH bs' eq_refl Ha) as (b' & ? & ?). exists b'. split; [done|by right].
Qed.

(** A listing shows every stored flight service. *)
Lemma all_flights_ok (w : Store) fs w' :
  get_all_flight_services w = (Ok fs, w') -> db w' = db w /\
  forall r c, r ∈ flights (db w) -> c ∈ connectors_of r -> c ∈ existent_connectors (items fs).
Proof.
  intros Hr. unfold get_all_flight_services in Hr. inv_sql. subst. split; [done|].
  intros s c Hin Hc.
  assert (Hs : s ∈ List.filter (fun _ => true) (flights (db w))).
  { apply list_elem_of_In, filter_In. split; [by apply list_elem_of_In|done]. }
  destruct (collect_elem _ _ _ _ Hval Hs) as (f & Hf & Hfs).
  unfold connectors_of in Hc. apply ok_or_ok in Hf. rewrite Hf in Hc.
  apply list_elem_of_bind. by exists f.
Qed.

Lemma create_flight_db fs (w : Store) r w' :
  create_flight_service fs w = (r, w') ->
  flights (db w') = flights (db w) \/
  exists m, flights (db w') = flights (db w) ++ [to_value {| fsr_metadata := m; fsr_resource := fs |}].
Proof.
  unfold create_flight_service, mseq, utc_now, new_uuid, map_err, insert_row. cbn.
  destruct (db_call _ _) as [r0 w0] eqn:E. apply db_call_cases in E.
  intros Hr. assert (w' = w0) as -> by (by destruct r0; injection Hr as <- <-).
  cbn [db] in E. destruct E as [->|[[] E]]; [by left|right].
  destruct (existsb _ _); [done|]. injection E as <-. eexists. reflexivity.
Qed.

Lemma unique_insert d d' r :
  connectors_unique d -> (forall s c, s ∈ flights d -> c ∈ connectors_of r -> c ∉ connectors_of s) ->
  flights d' = flights d ++ [r] -> connectors_unique d'.
Proof.
  intros Hu Hr Hd i j ri rj c. rewrite Hd, !lookup_app_Some, !list_lookup_singleton_Some.
  intros [Hi|(Hi & Hi0 & <-)] [Hj|(Hj & Hj0 & <-)] Hci Hcj.
  - by eapply Hu.
  - apply list_elem_of_lookup_2 in Hi. by destruct (Hr ri c).
  - apply list_elem_of_lookup_2 in Hj. by destruct (Hr rj c).
  - lia.
Qed.

Lemma status_call_db {A} (m : M Y Status A) (x x' : Store * Y) r :
  map_err from_status (zoom_r m) x = (r, x') -> db (fst x') = db (fst x).
Proof. unfold map_err, zoom_r. destruct (m (snd x)). by intros [= _ <-]. Qed.

(** The insert of the registration, and the audit of the types after it. *)
Lemma register_tail f (w w' : Store * Y) r :
  (let? res := map_err from_meta_store_error (ms_create_flight_service f) in
   map_err from_validation_error audit_data_connection_types ;?
   mret (created_json (to_value res))) w = (r, w') ->
  flights (db (fst w')) = flights (db (fst w)) \/
  exists m, flights (db (fst w')) = flights (db (fst w)) ++ [to_value {| fsr_metadata := m; fsr_resource := f |}].
Proof.
  unfold mseq at 1, map_err at 1. cbn. unfold zoom_l at 1.
  destruct (create_flight_service f (fst w)) as [r3 s3] eqn:E3. apply create_flight_db in E3.
  destruct r3 as [res|e]; cbn; [|by intros [= _ <-]]. intros Hr.
  assert (Hs : RW (s3, snd w) w'); [|unfold on_fst, on_db, same_flights in Hs; by rewrite <- Hs].
  refine (steps_run RW _ _ _ _ _ Hr). apply (steps_mseq RW); [|intros; apply (steps_mret RW)].
  apply (steps_map_err RW), audit_types_same_flights.
Qed.

(** Registering a flight service keeps every connector with one service: if no
    two stored services share a connector, none do after the request, whatever its
    outcome and whatever the database did. *)
Theorem create_flight_keeps_connectors_unique svc flight (w : Store * Y) :
  connectors_unique (db (fst w)) ->
  connectors_unique (db (fst (snd (create_flight_service_ep svc flight w)))).
Proof.
  intros Hu. destruct (create_flight_service_ep svc flight w) as [r w'] eqn:Hr. cbn [snd].
  assert (Hsame : forall x : Store * Y, flights (db (fst x)) = flights (db (fst w)) ->
            connectors_unique (db (fst x))).
  { intros x Hx. unfold connectors_unique. by rewrite Hx. }
  apply mseq_cases in Hr as [(e & Hr1 & _)|(cs & w1 & Hr1 & Hr)];
    apply status_call_db in Hr1; [by rewrite Hr1|].
  apply mseq_cases in Hr as [(e & Hr2 & _)|(fs & w2 & Hr2 & Hr)].
  { apply Hsame. rewrite <- Hr1. symmetry. destruct listings_same_flights as [Hf _].
    by apply (steps_run RW _ _ _ _ (steps_map_err RW _ _ (steps_zoom_l _ _ Hf)) Hr2). }
  apply map_err_ok in Hr2. cbn in Hr2. unfold zoom_l in Hr2.
  destruct (get_all_flight_services (fst w1)) as [r2 s2] eqn:E2. injection Hr2 as -> <-.
  apply all_flights_ok in E2 as [D2 Hall]. rewrite Hr1 in Hall, D2.
  cbv zeta in Hr. destruct (List.filter _ _) as [|x l] eqn:Hi.
  2: { unfold throw in Hr. injection Hr as _ <-. apply Hsame. cbn. by rewrite D2. }
  apply register_tail in Hr as [E3|[m E3]]; cbn in E3; rewrite D2 in E3; [by apply Hsame|].
  apply (unique_insert _ _ _ Hu) in E3; [done|].
  intros s c Hs. unfold connectors_of at 1. rewrite serde_roundtrip. cbn. intros Hc Hc'.
  assert (Hin : c ∈ List.filter (fun n => bool_decide (n ∈ existent_connectors (items fs))) (sc_name <$> cs)).
  { apply list_elem_of_In, filter_In. split; [by apply list_elem_of_In|].
    apply bool_decide_eq_true. by eapply Hall. }
  rewrite Hi in Hin. by apply elem_of_nil in Hin.
Qed.
End Flights.

(** ** Concrete instances *)

Definition new_flight : FlightService := fsr_resource (sample_flight "f2" []).

(** The sample flight service reports [postgres], which [f1] serves already. *)
Lemma create_flight_keeps_connectors_unique_witness :
  let out := @create_flight_service_ep _ (@pg_meta_store sample_oracle "global" Env) _ _
               sample_service new_flight sample_world in
  is_ok (fst out) = false /\ connectors_unique (db (fst (snd out))).
Proof.
  split; [vm_compute; reflexivity|].
  apply (@create_flight_keeps_connectors_unique sample_oracle Env _ _ "global"
           sample_service new_flight sample_world).
  intros i j ri rj c Hi Hj _ _. apply lookup_lt_Some in Hi, Hj. cbn in *. lia.
Defined.

(** A patch is not checked: renaming the connectors of one service can give a
    connector to two services. The merge is that of two flat objects. *)
Definition merge_flat (v p : json) : json :=
  match v, p with
  | JObject a, JObject b => JObject (b ∪ a)
  | _, _ => p
  end.

Definition two_flights : Store * Env :=
  ({| db := {| conns := []; types := [];
               flights := [to_value (sample_flight "f1" ["postgres"]);
                           to_value (sample_flight "f2" ["s3"])] |}; tick := 0 |}, sample_env).

Lemma patch_flight_shares_connector :
  let out := @patch_flight_service _ (@pg_meta_store sample_oracle "global" Env) _ merge_flat sample_text
               "f2" (JObject {["supported_connectors" := JArray [JString "postgres"]]}) two_flights in
  is_ok (fst out) = true /\
  (connectors_of <$> flights (db (fst two_flights))) = [["postgres"]; ["s3"]] /\
  (connectors_of <$> flights (db (fst (snd out)))) = [["postgres"]; ["postgres"]].
Proof. vm_compute. done. Qed.
