(* ===== verification/RestTypeAudit.v ===== *)
(** What the audit of the connection types leaves: every stored type follows the
    first flight service that supports its provider. *)
From S2P Require Import Prelude Text Json Sql Api MetaStore MetaStoreInv MetaStoreSpec.
From S2P Require Import KubeAuth Traits RestErrors Rest RestSample RestIsolation RestFlights.

#[local] Arguments to_value : simpl never.
#[local] Arguments from_value : simpl never.

(** The status a type of provider [p] has when flight services [fs] are known. *)
Definition expected_status (fs : list FlightServiceResource) (p now : string)
    : DataConnectionTypeStatus :=
  match List.find (fun f => bool_decide (p ∈ supported_connectors (fsr_resource f))) fs with
  | None => {| supported_formats := []; flight_ready := false; flight_url := None;
               type_message := None; type_updated_at := Some now |}
  | Some f =>
      {| supported_formats :=
           omap (fun s => match data_format_from_string s with Ok d => Some d | Err _ => None end)
             (default [] (connector_capabilities (fsr_resource f) !! p));
         flight_ready := ready (fs_status (fsr_resource f));
         flight_url := if ready (fs_status (fsr_resource f)) then Some (external_url (fsr_resource f))
                       else None;
         type_message := None; type_updated_at := Some now |}
  end.

(** [ty'] is [ty] after the audit. *)
Definition audited (fs : list FlightServiceResource) (ty ty' : DataConnectionTypeResource) : Prop :=
  exists now now',
    ty' = {| dct_metadata := touch now (dct_metadata ty); dct_resource := dct_resource ty;
             dct_status := expected_status fs (provider (dct_resource ty)) now' |}.

Definition tid (ty : DataConnectionTypeResource) : string := id (dct_metadata ty).

Section Types.
Context `{O : Oracle}.

Implicit Types ts pre post : list DataConnectionTypeResource.

Lemma rows_nodup ts :
  unique_rows data_connection_types (to_value <$> ts) = true -> NoDup (tid <$> ts).
Proof.
  induction ts as [|ty ts IH]; [constructor|]. rewrite !fmap_cons. cbn [unique_rows].
  rewrite andb_true_iff, negb_true_iff, existsb_false, Forall_forall. intros [Hn Hu].
  constructor; [|by apply IH]. rewrite list_elem_of_fmap. intros (ty' & Hid & Hin).
  specialize (Hn (to_value ty') (list_elem_of_fmap_2 _ _ _ Hin)).
  by rewrite (collide_id _ _ _ (tid ty)) in Hn; rewrite ?row_id_type; unfold tid in *; rewrite ?Hid.
Qed.

Lemma id_is_row u (ty : DataConnectionTypeResource) : id_is u (to_value ty) = bool_decide (tid ty = u).
Proof.
  unfold id_is. rewrite row_id_type. apply eq_true_iff_eq.
  rewrite sql_eq_true, bool_decide_eq_true. unfold tid. naive_solver.
Qed.

Lemma map_other u (r : json) ts :
  u ∉ tid <$> ts -> (fun x => if id_is u x then r else x) <$> (to_value <$> ts) = to_value <$> ts.
Proof.
  induction ts as [|ty ts IH]; intros Hu; [done|]. rewrite fmap_cons in Hu.
  apply not_elem_of_cons in Hu as [Hne Hu]. rewrite !fmap_cons, IH by done.
  by rewrite id_is_row, bool_decide_eq_false_2 by done.
Qed.

Lemma find_row pre ty post :
  tid ty ∉ tid <$> pre ->
  List.find (id_is (tid ty)) (to_value <$> pre ++ ty :: post) = Some (to_value ty).
Proof.
  induction pre as [|t pre IH]; cbn; intros Hu.
  - by rewrite id_is_row, bool_decide_eq_true_2.
  - apply not_elem_of_cons in Hu as [Hne Hu].
    rewrite id_is_row, bool_decide_eq_false_2 by done. by apply IH.
Qed.

(** One update of a type's status. *)
Lemma type_status_ok f w x w' pre ty post :
  update_data_connection_type_status (tid ty) f w = (Ok x, w') ->
  types (db w) = to_value <$> pre ++ ty :: post -> NoDup (tid <$> pre ++ ty :: post) ->
  exists st now, f (dct_status ty) = Ok st /\
    types (db w') = to_value <$> pre ++
      {| dct_metadata := touch now (dct_metadata ty); dct_resource := dct_resource ty;
         dct_status := st |} :: post.
Proof.
  intros Hr Hrows Hn. unfold update_data_connection_type_status in Hr.
  apply in_tx_ok in Hr as (w2 & Hr & Hdb). inv_sql. chase_db. cbn [db rows types] in *.
  rewrite fmap_app, fmap_cons in Hn. apply NoDup_app in Hn as (_ & Hn1 & Hn).
  apply NoDup_cons in Hn as [Hn2 _].
  assert (Hn0 : tid ty ∉ tid <$> pre) by (intros Hin; eapply Hn1; [exact Hin|by left]).
  rewrite Hrows, find_row in Hfind by done. injection Hfind as <-.
  unfold decode in Hval0. rewrite serde_roundtrip in Hval0. injection Hval0 as <-.
  eexists _, _. split; [exact Hval|]. cbn. rewrite Hrows.
  rewrite !fmap_app, !fmap_cons, !map_other by done. by rewrite id_is_row, bool_decide_eq_true_2.
Qed.

Context {Y : Type} `{ClockI Y}.
Variable g : string.
#[local] Instance types_meta : MetaStoreI (Store * Y) := pg_meta_store g Y.

Lemma flight_for_expected p fs now :
  (let (fmts, url) := flight_for p fs in
   {| supported_formats := fmts; flight_ready := bool_decide (is_Some url);
      flight_url := url; type_message := None; type_updated_at := Some now |})
  = expected_status fs p now.
Proof.
  unfold expected_status. induction fs as [|f fs IH]; [done|]. cbn [flight_for List.find].
  case_bool_decide; [|exact IH]. by destruct (ready _).
Qed.

Lemma audited_id fs ty ty' : audited fs ty ty' -> tid ty' = tid ty.
Proof. by intros (? & ? & ->). Qed.

(** The body of the loop of [audit_data_connection_types]. *)
Definition audit_step (fs : list FlightServiceResource) (dct : DataConnectionTypeResource)
    : M (Store * Y) ValidationError unit :=
  let (fmts, url) := flight_for (provider (dct_resource dct)) fs in
  let? now := svc_now in
  map_err (fun _ => StatusUpdateFailed (id (dct_metadata dct)))
    (ms_update_data_connection_type_status (id (dct_metadata dct))
       (fun _ => Ok {| supported_formats := fmts; flight_ready := bool_decide (is_Some url);
                       flight_url := url; type_message := None; type_updated_at := Some now |})) ;?
  mret tt.

Lemma audit_step_ok fs pre ty post (w w' : Store * Y) :
  audit_step fs (hide_global g ty) w = (Ok tt, w') ->
  types (db (fst w)) = to_value <$> pre ++ ty :: post -> NoDup (tid <$> pre ++ ty :: post) ->
  exists ty', audited fs ty ty' /\ types (db (fst w')) = to_value <$> pre ++ ty' :: post.
Proof.
  assert (Hh : tid (hide_global g ty) = tid ty /\ dct_resource (hide_global g ty) = dct_resource ty)
    by (unfold hide_global; by case_bool_decide).
  unfold audit_step. fold (tid (hide_global g ty)). destruct Hh as [-> ->].
  pose proof (flight_for_expected (provider (dct_resource ty)) fs) as He.
  destruct (flight_for _ _) as [fmts url]. intros Hr Hrows Hn. destruct w as [s y].
  unfold mseq at 1, svc_now in Hr. cbn in Hr. destruct (clock_now y) as [now y'].
  inv_ok. cbn in Hrun. unfold zoom_l in Hrun. cbn in Hrun.
  destruct (update_data_connection_type_status _ _ _) as [r s1] eqn:E. injection Hrun as -> <-.
  eapply type_status_ok in E as (st & now1 & [= <-] & Ht); [|done..]. rewrite He in Ht.
  injection Hrun0 as <-. eexists. split; [by exists now1, now|exact Ht].
Qed.

Lemma audit_loop_ok fs pre post (w w' : Store * Y) :
  for_each (hide_global g <$> post) (audit_step fs) w = (Ok tt, w') ->
  types (db (fst w)) = to_value <$> pre ++ post -> NoDup (tid <$> pre ++ post) ->
  exists post', Forall2 (audited fs) post post' /\ types (db (fst w')) = to_value <$> pre ++ post'.
Proof.
  revert pre w. induction post as [|ty post IH]; intros pre w Hr Hrows Hn.
  - cbn in Hr. injection Hr as <-. by exists [].
  - rewrite fmap_cons in Hr. cbn [for_each] in Hr. apply mseq_ok in Hr as ([] & w1 & H1 & H2).
    eapply audit_step_ok in H1 as (ty' & Ha & Ht); [|done..].
    destruct (IH (pre ++ [ty']) w1 H2) as (post' & Hp & Ht').
    + by rewrite Ht, <- app_assoc.
    + rewrite <- app_assoc. cbn [app]. rewrite fmap_app, fmap_cons in *. by rewrite (audited_id _ _ _ Ha).
    + exists (ty' :: post'). split; [by constructor|]. by rewrite Ht', <- app_assoc.
Qed.

Lemma all_types_ok ts (w : Store) l w' :
  get_all_data_connection_types g w = (Ok l, w') -> types (db w) = to_value <$> ts ->
  db w' = db w /\ items l = hide_global g <$> ts.
Proof.
  intros Hr Hts. unfold get_all_data_connection_types in Hr. inv_sql. subst. split; [done|].
  cbn in Hval |- *. rewrite Hts in Hval. clear -Hval. revert a0 Hval.
  induction ts as [|ty ts IH]; cbn; intros l Hl; [by injection Hl as <-|].
  unfold decode in Hl. rewrite serde_roundtrip in Hl. cbn in Hl.
  destruct (collect _ _) as [l'|e] eqn:E; cbn in Hl; [|done]. injection Hl as <-. f_equal. by apply IH.
Qed.

(** A successful audit of the connection types leaves every stored type with
    the capabilities of the first flight service that supports its provider and
    its URL if that service is ready, or not ready when there is none; it changes
    nothing else of a type. *)
Theorem audit_types_settles ts fs0 (w w0 w' : Store * Y) :
  db_wf g (db (fst w)) -> types (db (fst w)) = to_value <$> ts ->
  ms_get_all_flight_services w = (Ok fs0, w0) ->
  audit_data_connection_types w = (Ok tt, w') ->
  exists ts', Forall2 (audited (items fs0)) ts ts' /\ types (db (fst w')) = to_value <$> ts'.
Proof.
  intros [Hu%(fun H => H data_connection_types) _] Hts Hfs Hr. unfold audit_data_connection_types in Hr.
  rewrite (mseq_run _ _ _ _ _ (map_err_run _ _ _ _ _ Hfs)) in Hr.
  apply mseq_ok in Hr as (dcts & w1 & H1 & Hr). apply map_err_ok in H1.
  cbn in Hfs, H1. unfold zoom_l in Hfs, H1.
  destruct (get_all_flight_services _) as [r s] eqn:E. injection Hfs as -> <-.
  apply all_flights_ok in E as [D _]. cbn in H1.
  destruct (get_all_data_connection_types _ _) as [r1 s1] eqn:E1. injection H1 as -> <-.
  rewrite <- D in Hts. destruct (all_types_ok ts _ _ _ E1 Hts) as [D1 Hi].
  apply (audit_loop_ok (items fs0) [] ts (s1, snd w) w'); cbn.
  - rewrite <- Hi. exact Hr.
  - by rewrite D1.
  - apply rows_nodup. rewrite <- Hts, D. exact Hu.
Qed.
End Types.

(** ** Concrete instance *)

Lemma audit_types_settles_witness :
  exists ts', Forall2 (audited [sample_flight "f1" ["postgres"]]) [sample_type_row "t1" "global" "pg"] ts' /\
    types (db (fst (snd (@audit_data_connection_types _ (@pg_meta_store sample_oracle "global" Env) _
      sample_world)))) = to_value <$> ts'.
Proof.
  apply (@audit_types_settles sample_oracle Env _ "global" [sample_type_row "t1" "global" "pg"]
    {| total_count := 1; items := [sample_flight "f1" ["postgres"]] |} sample_world
    ({| db := db rest_store; tick := 1 |}, sample_env)).
  - exact rest_wf.
  - reflexivity.
  - vm_compute. reflexivity.
  - vm_compute. reflexivity.
Defined.
