(* ===== verification/RestResponses.v ===== *)
(** What every HTTP response of the REST service looks like, and the requests
    that never reach a handler. *)
From S2P Require Import Prelude Text Json Sql Api MetaStore MetaStoreSpec.
From S2P Require Import KubeAuth Traits RestErrors Rest RestSample.

#[local] Arguments to_value : simpl never.
#[local] Arguments from_value : simpl never.

(** A client or server error of HTTP. *)
Definition error_status (n : nat) : Prop := 400 <= n <= 599.
Definition success_status (n : nat) : Prop := n = 200 \/ n = 201 \/ n = 204.

Section Responses.
Context {W : Type} `{MetaStoreI W} `{SecretStoreI W} `{FlightI W} `{ClockI W}.
Variables (json_merge : json -> json -> json) (serde_text : json -> string) (actix_text : string).

(** Fails only with error statuses. *)
Definition fails_well {A} : M W RestErrorResponse A -> Prop := fails_with (fun e => error_status (status e)).

Definition answers_well (m : M W RestErrorResponse HttpResponse) : Prop :=
  fails_well m /\ forall w r w', m w = (Ok r, w') -> success_status (http_status r).

Lemma from_errors_status :
  (forall e, error_status (status (from_meta_store_error e))) /\
  (forall e, error_status (status (from_secret_store_error e))) /\
  (forall e, error_status (status (from_status e))) /\
  (forall e, error_status (status (from_auth_error e))) /\
  (forall e, error_status (status (from_endpoint_error e))) /\
  (forall e, error_status (status (from_validation_error e))) /\
  (forall e, error_status (status (from_connector_error e))).
Proof.
  unfold error_status. split_and!; intros e; try (destruct e; cbn; lia).
  destruct e as [c m]; destruct c; cbn; lia.
Qed.

Lemma answers_mret r : success_status (http_status r) -> answers_well (mret r).
Proof. intros Hr. split; [apply fails_mret|]. by intros w r' w' [= <- <-]. Qed.

Lemma answers_throw e : error_status (status e) -> answers_well (throw e).
Proof. intros He. split; [by apply fails_throw|]. by intros w r w' [=]. Qed.

Lemma answers_mseq {A} (m : M W RestErrorResponse A) f :
  fails_well m -> (forall a, answers_well (f a)) -> answers_well (mseq m f).
Proof.
  intros Hm Hf. split; [apply fails_mseq; [done|intros a; apply Hf]|].
  intros w r w' Hr. apply mseq_ok in Hr as (a & w1 & _ & Hr). by eapply Hf.
Qed.

Lemma authorize_fails svc ctx n : fails_well (authorize_secret_ref svc ctx n).
Proof.
  unfold authorize_secret_ref. destruct (svc_authorizer svc) as [check|]; [|apply fails_mret].
  destruct (ctx_identity ctx); [apply fails_map_err|apply fails_throw]; apply from_errors_status.
Qed.

Lemma rmap_err_fails {E A} (g : E -> RestErrorResponse) (r : result E A) :
  (forall e, error_status (status (g e))) -> forall e, rmap_err g r = Err e -> error_status (status e).
Proof. intros Hg e. destruct r; intros [= <-]. apply Hg. Qed.

Lemma ok_or_fails {A} (o : option A) e0 :
  error_status (status e0) -> forall e, ok_or o e0 = Err e -> error_status (status e).
Proof. intros He e. by destruct o; intros [= <-]. Qed.

Lemma extraction_status c m : error_status (status (extraction_error c m)).
Proof. unfold error_status. cbn. lia. Qed.

Lemma json_body_fails `{Serde A} rq e :
  json_body serde_text actix_text (A:=A) rq = Err e -> error_status (status e).
Proof.
  unfold json_body. destruct (rq_body rq); [apply ok_or_fails, extraction_status|].
  intros [= <-]. apply extraction_status.
Qed.

Lemma create_body_fails rq e :
  create_body serde_text actix_text rq = Err e -> error_status (status e).
Proof.
  unfold create_body. destruct (rq_body rq); [apply ok_or_fails, extraction_status|].
  intros [= <-]. apply extraction_status.
Qed.

Ltac answer := repeat first
  [ solve [apply answers_mret; unfold success_status; cbn; auto]
  | solve [apply answers_throw; auto] | solve [apply fails_throw; auto]
  | apply answers_mseq; [|intros ?]
  | solve [apply fails_map_err; auto] | apply authorize_fails | apply fails_attempt
  | apply fails_mret
  | apply fails_lift; first [ apply rmap_err_fails; solve [auto] | exact (json_body_fails _)
      | exact (create_body_fails _) | apply ok_or_fails, extraction_status]
  | match goal with |- answers_well (match ?x with _ => _ end) => destruct x end ].

Lemma scope_answers svc rq ctx :
  answers_well (scope_routes json_merge serde_text actix_text svc rq ctx).
Proof.
  destruct from_errors_status as (Hm & Hs & Hg & Ha & He & Hv & Hc).
  assert (Hnf : answers_well (not_found (W:=W))) by (unfold not_found; answer).
  unfold scope_routes, with_body, raw_body.
  repeat first [exact Hnf | match goal with |- answers_well (match ?x with _ => _ end) => destruct x end];
    unfold list_connection_types, create_connection_type, get_connection_type,
      patch_connection_type, delete_connection_type, list_connections, create_connection,
      create_connection_with_creds, get_connection, patch_connection, delete_connection,
      check_existent_connection, get_binary_data, test_credentials, create_flight_service_ep,
      delete_flight_service_ep, patch_flight_service, export_connection; cbv zeta; answer.
Qed.

(** Every request is answered, with 200, 201 or 204 on success and otherwise with
    a 4xx or 5xx status whose body holds an error code and a message. *)
Theorem serve_status svc rq w :
  let h := fst (serve json_merge serde_text actix_text svc rq w) in
  success_status (http_status h) \/
  (error_status (http_status h) /\ exists e, http_body h = JsonBody (error_body e)).
Proof.
  destruct from_errors_status as (_ & _ & _ & _ & He & _).
  assert (Hrun : forall m w, answers_well m -> let h := fst (run_handler m w) in
    success_status (http_status h) \/
    (error_status (http_status h) /\ exists e, http_body h = JsonBody (error_body e))).
  { intros m v [Hf Hok]. unfold run_handler. destruct (m v) as [[r|e] w'] eqn:E; cbn.
    - left. by eapply Hok.
    - right. split; [|by exists e]. apply Hf in E. unfold status_code. unfold error_status in *.
      by rewrite (proj2 (Nat.leb_le _ _)), (proj2 (Nat.ltb_lt _ _)) by lia. }
  assert (Hnf : answers_well (not_found (W:=W))) by (by apply answers_throw).
  assert (Hhe : answers_well (health (W:=W))) by (apply answers_mret; unfold success_status; cbn; auto).
  assert (Hbad : forall e, error_status (http_status (bad_request e)) /\
    exists e', http_body (bad_request e) = JsonBody (error_body e')).
  { intros e. split; [unfold error_status; cbn; lia|by eexists]. }
  cbv zeta. unfold serve. destruct (rq_path rq) as [|p l]; [by apply Hrun|].
  repeat first [ apply (Hrun _ _ Hnf) | apply (Hrun _ _ Hhe) | apply (Hrun _ _ (scope_answers _ _ _))
    | right; apply Hbad | match goal with |- context [fst (match ?x with _ => _ end)] => destruct x end ].
  all: destruct (rq_method rq); [apply (Hrun _ _ Hhe)|apply (Hrun _ _ Hnf)..].
Qed.

(** Requests below the API scope without a usable tenant header (none, empty or
    with bytes outside printable ASCII) are answered 400 and change nothing. *)
Theorem serve_requires_tenant svc rq rest w :
  rq_path rq = "api" :: "v1alpha1" :: "data" :: rest ->
  (forall v, rq_header rq X_TENANT_ID = Some v -> v = "" \/ header_to_str v = None) ->
  let (h, w') := serve json_merge serde_text actix_text svc rq w in
  w' = w /\ http_status h = 400.
Proof.
  intros Hp Hh. unfold serve. rewrite Hp. cbn. unfold validate_headers.
  destruct (rq_header rq X_TENANT_ID) as [v|]; [|done].
  destruct (Hh v eq_refl) as [-> | ->]; done.
Qed.
End Responses.

Lemma serve_requires_tenant_witness :
  fst (@serve _ sample_meta_store _ _ _ sample_merge sample_text "" sample_service
    (request_for "" DELETE ["connections"; "1"]) sample_world) =
  bad_request (InvalidHeaderValue X_TENANT_ID) /\
  let (h, w') := @serve _ sample_meta_store _ _ _ sample_merge sample_text "" sample_service
    (request_for "" DELETE ["connections"; "1"]) sample_world in
  w' = sample_world /\ http_status h = 400.
Proof.
  split; [vm_compute; reflexivity|].
  apply (serve_requires_tenant sample_merge sample_text "" sample_service
           (request_for "" DELETE ["connections"; "1"]) ["connections"; "1"] sample_world).
  - reflexivity.
  - intros v Hv. left. vm_compute in Hv. by injection Hv as <-.
Defined.
