(* ===== verification/Flight.v ===== *)
(** The Flight service ([services/flight/src/flight]): error mapping, the
    authentication middleware, the connector registry, the custom actions and the
    Flight SQL handlers, over the storage and secret interfaces of [Traits] and the
    connector traits of [commons/api/connector.rs]. *)
From S2P Require Import Prelude Text Json Sql Api MetaStore KubeAuth Traits.

(** ** Errors (errors.rs) *)

Definition grpc (c : Code) (m : string) : Status := {| grpc_code := c; grpc_message := m |}.

Definition map_meta_store_error (e : MetaStoreError) : Status :=
  match e with
  | ResourceNotFound m => grpc NotFound m
  | InvalidRequest m => grpc InvalidArgument m
  | Validation m => grpc InvalidArgument m
  | UnprocessableEntity m => grpc InvalidArgument m
  | Connection _ => grpc Unavailable "metadata service unavailable"
  | Config _ => grpc GrpcInternal "metadata service configuration error"
  | Query _ => grpc GrpcInternal "metadata query error"
  | Conflict _ => grpc AlreadyExists "resource already exists"
  | Serialization _ => grpc GrpcInternal "metadata serialization error"
  | Deserialization _ =>
      grpc GrpcInternal "metadata deserialization error; see service logs for details"
  end.

Definition map_connector_error (e : ConnectorError) : Status :=
  match e with
  | CInvalidRequest m => grpc InvalidArgument m
  | NoDataError => grpc NotFound "no data found"
  | ConnectionError _ =>
      grpc Unavailable ("data source connection failed: " +:+ connector_error_message e)
  | SQLError _ => grpc GrpcInternal ("query execution failed: " +:+ connector_error_message e)
  | ConfigError _ =>
      grpc GrpcInternal ("connector configuration error: " +:+ connector_error_message e)
  | IOError _ => grpc GrpcInternal "data source IO error"
  | CNotFound m => grpc NotFound m
  | UnsupportedOperation _ => grpc Unimplemented "unsupported operation"
  end.

(** ** Request metadata (mod.rs) *)

(** The headers of a request, by lower-case name. *)
Abbreviation Metadata := (gmap string string).

Definition header_required (h : string) (md : Metadata) : result Status string :=
  let?? v := ok_or (md !! h) (grpc InvalidArgument (h +:+ " header is required")) in
  ok_or (header_to_str v) (grpc InvalidArgument (h +:+ " header must be valid ASCII")).

Definition ctx_tenant_id : Metadata -> result Status string := header_required X_TENANT_ID.
Definition ctx_connection_id : Metadata -> result Status string := header_required X_DATA_CONNECTION_ID.

(** ** Authentication middleware (auth.rs) *)

Definition HEALTH_PATH_PREFIX : string := "/grpc.health.v1.Health/".
Definition DO_ACTION_PATH : string := "/arrow.flight.protocol.FlightService/DoAction".
Definition BEARER_PREFIX : string := "Bearer ".

(** A call: its path, its headers and its message. *)
Record GrpcRequest (B : Type) : Type := { rq_uri : string; rq_md : Metadata; rq_msg : B }.
Arguments rq_uri {B}. Arguments rq_md {B}. Arguments rq_msg {B}.
Arguments Build_GrpcRequest {B}.

Definition extract_bearer_token (md : Metadata) : option string :=
  v ← md !! AUTHORIZATION; s ← header_to_str v; strip_prefix BEARER_PREFIX s.

Definition auth_error_to_status (e : AuthError) : Status :=
  match e with
  | Unauthenticated m => grpc GrpcUnauthenticated m
  | AuthForbidden m => grpc PermissionDenied m
  | TokenReviewError _ => grpc GrpcInternal "token verification failed"
  | AccessReviewError _ => grpc GrpcInternal "authorization check failed"
  | Internal m => grpc GrpcInternal m
  end.

(** The tenant the middleware authorises. *)
Definition requested_tenant (md : Metadata) : option string :=
  v ← md !! X_TENANT_ID; s ← header_to_str v; if is_empty s then None else Some s.

(** [HeaderValue::from_str] fails on other than visible ASCII and tabs: the
    header the caller sent, if any, then stays. *)
Definition insert_header (h v : string) (md : Metadata) : Metadata :=
  match header_to_str v with Some s => <[h := s]> md | None => md end.

Section Middleware.
Context {W : Type} {B R : Type}.
Variable authenticate : string -> M W AuthError AuthInfo.
Variable authorize : AuthInfo -> string -> string -> M W AuthError unit.
Variable discovery_service_account : string.
Variable inner : GrpcRequest B -> M W Status R.

Definition auth_call (rq : GrpcRequest B) : M W Status R :=
  if starts_with HEALTH_PATH_PREFIX (rq_uri rq) then inner rq
  else
    match extract_bearer_token (rq_md rq) with
    | None => throw (grpc GrpcUnauthenticated "invalid or missing bearer token")
    | Some token =>
        let tenant_id := requested_tenant (rq_md rq) in
        let? info := map_err auth_error_to_status (authenticate token) in
        if bool_decide (tenant_id = None) &&
           (negb (String.eqb (rq_uri rq) DO_ACTION_PATH) ||
            negb (String.eqb (username info) discovery_service_account))
        then throw (grpc PermissionDenied "x-tenant-id header is required")
        else
          match tenant_id with
          | Some t => map_err auth_error_to_status (authorize info t "get")
          | None => mret tt
          end ;?
          inner {| rq_uri := rq_uri rq;
                   rq_md := insert_header X_REMOTE_GROUPS (join "," (groups info))
                              (insert_header X_REMOTE_USER (username info) (rq_md rq));
                   rq_msg := rq_msg rq |}
    end.
End Middleware.

(** A record batch of an action's body: columns by name, text or not. *)
Inductive Column : Type := Utf8 (l : list string) | NotUtf8.
Abbreviation Columns := (list (string * Column)).

(** ** Connectors (commons/api/connector.rs, registry.rs) *)

Section Service.
Context {W : Type} `{MetaStoreI W} `{SecretStoreI W}.
(** Arrow's schemas and record batches, and one message of an encoded stream. *)
Variables Schema RecordBatch FlightData : Type.

Record TableInfo : Type := {
  catalog : string;
  schema_name : string;
  table_name : string;
  table_type : string;
  table_schema : Schema
}.

Record ReaderQuery : Type := { q_query : string; q_schema : Schema }.
Record QueryOptions : Type := { batch_size : nat }.
Definition QueryOptions_default : QueryOptions := {| batch_size := 512 |}.

(** The elements of a stream. *)
Abbreviation Stream := (list (result ConnectorError RecordBatch)).
Abbreviation Resolver := (DataConnectionResource -> M W ConnectorError (gmap string string)).

Record DataReader : Type := {
  rd_schema : string -> M W ConnectorError ReaderQuery;
  rd_read_tabular : ReaderQuery -> QueryOptions -> M W ConnectorError Stream;
  rd_can_read_binary : string -> M W ConnectorError unit;
  rd_read_binary : string -> M W ConnectorError Stream;
  rd_check_connection : M W ConnectorError unit;
  rd_list_tables : option string -> bool -> M W ConnectorError (list TableInfo)
}.

(** The default methods of [DataReader]. *)
Definition no_binary : ConnectorError :=
  UnsupportedOperation "binary reads are not supported for this connector".
Definition default_can_read_binary (path : string) : M W ConnectorError unit := throw no_binary.
Definition default_read_binary (path : string) : M W ConnectorError Stream := throw no_binary.
Definition default_list_tables (f : option string) (b : bool) : M W ConnectorError (list TableInfo) :=
  mret [].

Record FlightConnector : Type := {
  fcn_provider : string;
  fcn_description : string;
  fcn_supported_formats : list DataFormat;
  fcn_get_reader : DataConnectionResource -> Resolver -> M W ConnectorError DataReader
}.

Definition default_supported_formats : list DataFormat := [Tabular].

Abbreviation ConnectorsRegistry := (gmap string FlightConnector).

Definition with_connector (r : ConnectorsRegistry) (c : FlightConnector) : ConnectorsRegistry :=
  <[fcn_provider c := c]> r.

Definition get_connector (r : ConnectorsRegistry) (provider : string)
    : result ConnectorError FlightConnector :=
  ok_or (r !! provider)
    (ConfigError ("no connector registered for provider '" +:+ provider +:+ "'")).

(** In the order of the hash map. *)
Definition get_supported_connectors (r : ConnectorsRegistry) : list FlightConnector :=
  (map_to_list r).*2.

(** ** The service (service.rs) *)

Record DataIngestionService : Type := {
  connectors_registry : ConnectorsRegistry;
  query_options : QueryOptions
}.

Implicit Type svc : DataIngestionService.

Definition get_connector_by_type_id svc (tenant_id type_id : string)
    : M W Status (DataConnectionTypeResource * FlightConnector) :=
  let? dct := map_err map_meta_store_error (ms_get_data_connection_type tenant_id type_id) in
  let? c := lift (rmap_err map_connector_error
                    (get_connector (connectors_registry svc) (provider (dct_resource dct)))) in
  mret (dct, c).

Definition get_connector_by_connection_id svc (tenant_id connection_id : string)
    : M W Status (DataConnectionResource * FlightConnector) :=
  let? connection := map_err map_meta_store_error (ms_get_data_connection tenant_id connection_id) in
  let? dct := map_err map_meta_store_error
                (ms_get_data_connection_type tenant_id
                   (data_connection_type_id (dc_resource connection))) in
  let? c := lift (rmap_err map_connector_error
                    (get_connector (connectors_registry svc) (provider (dct_resource dct)))) in
  mret (connection, c).

(** [CredentialsResolver for DataIngestionService]. *)
Definition resolve (connection : DataConnectionResource) : M W ConnectorError (gmap string string) :=
  match tenant_id (dc_metadata connection) with
  | Some t =>
      let? s := map_err (fun e => ConnectionError (secret_store_error_display e))
                  (ss_get_secret t (secret (credentials_ref (dc_resource connection)))) in
      mret (secret_properties s)
  | None => throw (ConnectionError "No credentials found")
  end.

(** How every handler obtains its reader, from the ids of the headers. *)
Definition request_ids (md : Metadata) : result Status (string * string) :=
  let?? tenant := ctx_tenant_id md in
  let?? conn_id := ctx_connection_id md in
  Ok (tenant, conn_id).

Definition reader_of svc (ids : string * string) : M W Status DataReader :=
  let? cc := get_connector_by_connection_id svc (fst ids) (snd ids) in
  map_err map_connector_error (fcn_get_reader (snd cc) (fst cc) resolve).

(** The commands and tickets of Flight SQL, decoded. *)
Inductive Command : Type :=
| CommandGetSqlInfo (info : list nat)
| CommandGetTables (table_name_filter_pattern : option string) (include_schema : bool)
| CommandStatementQuery (query : string)
| TicketStatementQuery (statement_handle : string)
| UnknownCommand (type_url value : string)
| OtherCommand (name : string).

Record FlightInfo : Type := { fi_schema : Schema; fi_ticket : Command }.

(** Schemas the IPC format cannot encode. *)
Variable encodes : Schema -> bool.
(** The Flight SQL schemas of tables and server properties, and their batches. *)
Variable tables_schema : bool -> Schema.
Variable tables_batch : option string -> bool -> list TableInfo -> result string RecordBatch.
Variable sql_info_schema : Schema.
Variable sql_info_batch : list nat -> result string RecordBatch.
(** The schema of a binary download: one column [data]. *)
Variable binary_schema : Schema.
Variable batch_schema : RecordBatch -> Schema.

(** [FlightDataEncoderBuilder]: the encoded messages of a stream of batches. *)
Inductive FlightError : Type :=
| ExternalConnector (e : ConnectorError)
| ExternalOther
| EncodeError (m : string).
Variable flight_encode : Schema -> Stream -> list (result FlightError FlightData).

Definition flight_info (s : Schema) (t : Command) (msg : string) : result Status FlightInfo :=
  if encodes s then Ok {| fi_schema := s; fi_ticket := t |} else Err (grpc GrpcInternal msg).

(** The error a client sees for a failed element of a stream. *)
Definition stream_error (e : FlightError) : Status :=
  match e with
  | ExternalConnector ce => map_connector_error ce
  | ExternalOther => grpc GrpcInternal "data source read failed"
  | EncodeError _ => grpc GrpcInternal "failed to encode statement response"
  end.

Abbreviation Response := (list (result Status FlightData)).

Definition encode_stream (s : Schema) (l : Stream) : Response :=
  rmap_err stream_error <$> flight_encode s l.

(** A single batch, whose encoding errors are reported with one message. *)
Definition encode_batch (s : Schema) (b : RecordBatch) (msg : string) : Response :=
  rmap_err (fun _ => grpc GrpcInternal msg) <$> flight_encode s [Ok b].

Definition DOWNLOAD_TYPE_URL : string := "dataconnethub.opendatahub.io/download".

Definition handle_get_flight_info_sql_info (info : list nat) : M W Status FlightInfo :=
  lift (flight_info sql_info_schema (CommandGetSqlInfo info) "failed to encode sql_info schema").

Definition handle_do_get_sql_info (info : list nat) : M W Status Response :=
  let? b := lift (rmap_err (fun _ => grpc GrpcInternal "failed to build response")
                    (sql_info_batch info)) in
  mret (encode_batch sql_info_schema b "failed to encode sql_info response").

Definition handle_get_flight_info_tables (filter : option string) (include_schema : bool)
    : M W Status FlightInfo :=
  lift (flight_info (tables_schema include_schema) (CommandGetTables filter include_schema)
          "failed to encode tables schema").

Definition handle_do_get_tables svc (filter : option string) (include_schema : bool) (md : Metadata)
    : M W Status Response :=
  let? ids := lift (request_ids md) in
  let? rd := reader_of svc ids in
  let? tables := map_err map_connector_error (rd_list_tables rd filter include_schema) in
  let? b := lift (rmap_err (fun _ => grpc GrpcInternal "failed to build tables response")
                    (tables_batch filter include_schema tables)) in
  mret (encode_batch (batch_schema b) b "failed to encode tables response").

Definition handle_get_flight_info_statement svc (query : string) (md : Metadata)
    : M W Status FlightInfo :=
  let? ids := lift (request_ids md) in
  let? rd := reader_of svc ids in
  let? st := map_err map_connector_error (rd_schema rd query) in
  lift (flight_info (q_schema st) (TicketStatementQuery query) "failed to encode statement schema").

Definition handle_do_get_statement svc (handle : string) (md : Metadata) : M W Status Response :=
  let? query := lift (ok_or (from_utf8 handle) (grpc InvalidArgument "Invalid statement handle")) in
  let? ids := lift (request_ids md) in
  let? rd := reader_of svc ids in
  let? st := map_err map_connector_error (rd_schema rd query) in
  let? s := map_err map_connector_error (rd_read_tabular rd st (query_options svc)) in
  mret (encode_stream (q_schema st) s).

Definition handle_get_flight_info_fallback svc (cmd : Command) (md : Metadata)
    : M W Status FlightInfo :=
  match cmd with
  | UnknownCommand type_url value =>
      if negb (String.eqb type_url DOWNLOAD_TYPE_URL)
      then throw (grpc Unimplemented ("unknown command type: " +:+ type_url))
      else
        let? ids := lift (request_ids md) in
        let? path := lift (ok_or (from_utf8 value) (grpc InvalidArgument "Invalid download path")) in
        let? rd := reader_of svc ids in
        map_err map_connector_error (rd_can_read_binary rd path) ;?
        lift (flight_info binary_schema cmd "failed to encode schema")
  | _ => throw (grpc InvalidArgument "expected custom command")
  end.

Definition handle_do_get_fallback svc (value : string) (md : Metadata) : M W Status Response :=
  let? ids := lift (request_ids md) in
  let? path := lift (ok_or (from_utf8 value) (grpc InvalidArgument "Invalid download path")) in
  let? rd := reader_of svc ids in
  let? s := map_err map_connector_error (rd_read_binary rd path) in
  mret (encode_stream binary_schema s).

(** [FlightSqlService]: which handler answers a decoded command or ticket. The
    methods the service does not implement answer [Unimplemented]. *)
Definition unimplemented {A} : M W Status A := throw (grpc Unimplemented "not implemented").

Definition get_flight_info svc (cmd : Command) (md : Metadata) : M W Status FlightInfo :=
  match cmd with
  | CommandGetSqlInfo info => handle_get_flight_info_sql_info info
  | CommandGetTables f b => handle_get_flight_info_tables f b
  | CommandStatementQuery q => handle_get_flight_info_statement svc q md
  | OtherCommand _ => unimplemented
  | cmd => handle_get_flight_info_fallback svc cmd md
  end.

Definition do_get svc (ticket : Command) (md : Metadata) : M W Status Response :=
  match ticket with
  | CommandGetSqlInfo info => handle_do_get_sql_info info
  | CommandGetTables f b => handle_do_get_tables svc f b md
  | TicketStatementQuery h => handle_do_get_statement svc h md
  | UnknownCommand _ value => handle_do_get_fallback svc value md
  | _ => unimplemented
  end.

(** ** Actions (actions.rs) *)

Definition ACTION_GET_SUPPORTED_CONNECTORS : string := "GetSupportedConnectors".
Definition ACTION_CHECK_DATA_CONNECTION : string := "CheckDataConnection".
Definition ACTION_CHECK_CREDENTIALS : string := "CheckCredentials".

Definition custom_actions : list (string * string) :=
  [(ACTION_GET_SUPPORTED_CONNECTORS, "Returns the list of supported data connectors");
   (ACTION_CHECK_DATA_CONNECTION, "Checks the connection to the data source");
   (ACTION_CHECK_CREDENTIALS, "Checks the credentials without having to create a data connection")].

Record Action : Type := { action_type : string; action_body : string }.

(** [arrow::ipc]: a stream of one batch as bytes, and back. *)
Variable ipc_write : Columns -> result string string.
Variable ipc_read : string -> result string (list (result string Columns)).
(** [Uuid::new_v4]. *)
Variable new_id : W -> string * W.

Definition column_by_name (n : string) (b : Columns) : option Column :=
  snd <$> List.find (fun c => String.eqb (fst c) n) b.

Definition utf8_column (n : string) (b : Columns) : option (list string) :=
  match column_by_name n b with Some (Utf8 l) => Some l | _ => None end.

(** A later row for a key replaces an earlier one. *)
Definition parse_kv_body (body : string) : result Status (gmap string string) :=
  let?? batches := rmap_err (fun e => grpc InvalidArgument ("invalid credentials payload: " +:+ e))
                     (ipc_read body) in
  let?? first := ok_or (head batches) (grpc InvalidArgument "credentials payload is empty") in
  let?? batch := rmap_err (fun e => grpc InvalidArgument ("failed to read credentials: " +:+ e)) first in
  let?? keys := ok_or (utf8_column "key" batch)
                  (grpc InvalidArgument "credentials payload missing 'key' column") in
  let?? values := ok_or (utf8_column "value" batch)
                    (grpc InvalidArgument "credentials payload missing 'value' column") in
  Ok (list_to_map (reverse (zip keys values))).

(** The entries below [secret.], without the prefix. *)
Definition secret_entries (m : gmap string string) : gmap string string :=
  list_to_map (omap (fun kv => k ← strip_prefix "secret." (fst kv); Some (k, snd kv)) (map_to_list m)).

(** The connection [action_check_credentials] tests with. *)
Definition probe_connection (uid tenant type_id : string) : DataConnectionResource :=
  {| dc_metadata := {| id := uid; tenant_id := Some tenant;
                       created_at := "2021-01-01"; updated_at := "2021-01-01" |};
     dc_resource := {| name := "test"; data_connection_type_id := type_id; format := Tabular;
                       credentials_ref := CredentialsRef_default; properties := ∅ |};
     dc_status := DataConnectionStatus_default |}.

(** [InlineCredsResolver]. *)
Definition inline_resolve (creds : gmap string string) : Resolver := fun _ => mret creds.

Definition action_check_credentials svc (md : Metadata) (body : string) : M W Status (list string) :=
  let? tenant := lift (ctx_tenant_id md) in
  let? keys := lift (parse_kv_body body) in
  let? dct_id := lift (ok_or (keys !! "data_connection_type_id")
                         (grpc InvalidArgument "data_connection_type_id is required")) in
  let credentials := secret_entries (delete "data_connection_type_id" keys) in
  let? dc := get_connector_by_type_id svc tenant dct_id in
  lift (rmap_err (fun e => grpc InvalidArgument (type_error_display e))
          (check_credentials_schema (dct_resource (fst dc)) credentials)) ;?
  let? uid := (fun w => let (u, w') := new_id w in (Ok u, w')) in
  map_err map_connector_error
    (fcn_get_reader (snd dc) (probe_connection uid tenant dct_id) (inline_resolve credentials)) ;?
  mret [""].

Definition action_check_connection svc (md : Metadata) : M W Status (list string) :=
  let? ids := lift (request_ids md) in
  let? rd := reader_of svc ids in
  map_err map_connector_error (rd_check_connection rd) ;?
  mret [""].

Definition connectors_columns (cs : list FlightConnector) : Columns :=
  [("name", Utf8 (fcn_provider <$> cs));
   ("description", Utf8 (fcn_description <$> cs));
   ("supported_formats",
     Utf8 ((fun c => join "," (data_format_display <$> fcn_supported_formats c)) <$> cs))].

Definition action_get_supported_connectors svc : M W Status (list string) :=
  let? buf := lift (rmap_err (fun _ => grpc GrpcInternal "failed to encode response")
                (ipc_write (connectors_columns (get_supported_connectors (connectors_registry svc))))) in
  mret [buf].

Definition dispatch_action svc (md : Metadata) (a : Action) : M W Status (list string) :=
  if String.eqb (action_type a) ACTION_CHECK_DATA_CONNECTION then action_check_connection svc md
  else if String.eqb (action_type a) ACTION_GET_SUPPORTED_CONNECTORS
  then action_get_supported_connectors svc
  else if String.eqb (action_type a) ACTION_CHECK_CREDENTIALS
  then action_check_credentials svc md (action_body a)
  else throw (grpc InvalidArgument ("Unknown action: " +:+ action_type a)).
End Service.
