(* ===== verification/FlightProps.v ===== *)
(** What the Flight service guarantees: only authorised calls reach a handler,
    readers use the credentials of the caller's tenant, and internal error details
    stay inside. *)
From S2P Require Import Prelude Text Json Sql Api MetaStore MetaStoreInv MetaStoreSpec MetaStoreRefine.
From S2P Require Import KubeAuth Traits RestErrors RestSample Flight.

#[local] Arguments to_value : simpl never.
#[local] Arguments from_value : simpl never.

(** ** The middleware *)

Lemma insert_header_ne h v md k : h <> k -> insert_header h v md !! k = md !! k.
Proof. intros Hne. unfold insert_header. destruct (header_to_str v); [by rewrite lookup_insert_ne|done]. Qed.

Lemma header_to_str_id v s : header_to_str v = Some s -> s = v.
Proof. unfold header_to_str. destruct (string_all _ _); congruence. Qed.

(** The request the middleware hands on. *)
Definition with_identity {B} (info : AuthInfo) (rq : GrpcRequest B) : GrpcRequest B :=
  {| rq_uri := rq_uri rq;
     rq_md := insert_header X_REMOTE_GROUPS (join "," (groups info))
                (insert_header X_REMOTE_USER (username info) (rq_md rq));
     rq_msg := rq_msg rq |}.

(** The tenant a handler reads from the headers is the one that was authorised,
    or the empty one. *)
Lemma handler_tenant {B} info (rq : GrpcRequest B) t :
  ctx_tenant_id (rq_md (with_identity info rq)) = Ok t ->
  requested_tenant (rq_md rq) = Some t \/ (requested_tenant (rq_md rq) = None /\ t = "").
Proof.
  unfold ctx_tenant_id, header_required, requested_tenant. cbn.
  rewrite !insert_header_ne by discriminate.
  destruct (rq_md rq !! X_TENANT_ID) as [v|]; cbn; [|discriminate].
  destruct (header_to_str v) as [s|]; cbn; [|discriminate]. intros [= ->]. destruct t; auto.
Qed.

Section Middleware.
Context {W B R : Type}.
Variable authenticate : string -> M W AuthError AuthInfo.
Variable authorize : AuthInfo -> string -> string -> M W AuthError unit.
Variable discovery : string.
Abbreviation call := (auth_call (B:=B) (R:=R) authenticate authorize discovery).

(** C3: apart from health checks, a call reaches a handler only after its bearer
    token was authenticated and its user authorised for [get] on data connections
    in the tenant of the [x-tenant-id] header, which is the tenant the handler
    then uses. Without a tenant only the discovery account passes, and only with
    actions. Every other call is answered with an error before any handler runs. *)
Theorem calls_are_authorized rq inner w :
  starts_with HEALTH_PATH_PREFIX (rq_uri rq) = false ->
  (exists e w', forall inner', call inner' rq w = (Err e, w')) \/
  (exists token info w1 w2,
     extract_bearer_token (rq_md rq) = Some token /\
     authenticate token w = (Ok info, w1) /\
     call inner rq w = inner (with_identity info rq) w2 /\
     match requested_tenant (rq_md rq) with
     | Some t => authorize info t "get" w1 = (Ok tt, w2)
     | None => w2 = w1 /\ rq_uri rq = DO_ACTION_PATH /\ username info = discovery
     end /\
     forall t, ctx_tenant_id (rq_md (with_identity info rq)) = Ok t ->
       authorize info t "get" w1 = (Ok tt, w2) \/
       (t = "" /\ rq_uri rq = DO_ACTION_PATH /\ username info = discovery)).
Proof.
  intros Hh.
  assert (Hc : forall inner', call inner' rq w =
    match extract_bearer_token (rq_md rq) with
    | None => (Err (grpc GrpcUnauthenticated "invalid or missing bearer token"), w)
    | Some token =>
        match authenticate token w with
        | (Err e, w1) => (Err (auth_error_to_status e), w1)
        | (Ok info, w1) =>
            match requested_tenant (rq_md rq) with
            | Some t => match authorize info t "get" w1 with
                        | (Ok _, w2) => inner' (with_identity info rq) w2
                        | (Err e, w2) => (Err (auth_error_to_status e), w2)
                        end
            | None => if String.eqb (rq_uri rq) DO_ACTION_PATH && String.eqb (username info) discovery
                      then inner' (with_identity info rq) w1
                      else (Err (grpc PermissionDenied "x-tenant-id header is required"), w1)
            end
        end
    end).
  { intros inner'. unfold auth_call. rewrite Hh. destruct (extract_bearer_token _); [|done].
    unfold mseq, map_err. destruct (authenticate _ w) as [[info|e] w1]; [|done]. cbn.
    destruct (requested_tenant _) as [t|].
    - rewrite bool_decide_eq_false_2 by done. cbn. by destruct (authorize _ _ _ w1) as [[]].
    - rewrite bool_decide_eq_true_2 by done. by destruct (String.eqb _ _), (String.eqb _ _). }
  destruct (extract_bearer_token (rq_md rq)) as [token|]; [|left; eexists _, _; intros; by rewrite Hc].
  destruct (authenticate token w) as [[info|e] w1] eqn:Ha; [|left; eexists _, _; intros; by rewrite Hc].
  pose proof (handler_tenant info rq) as Ht. destruct (requested_tenant (rq_md rq)) as [t0|].
  - destruct (authorize info t0 "get" w1) as [[[]|e] w2] eqn:Hz; [|left; eexists _, _; intros; by rewrite Hc].
    right. exists token, info, w1, w2. split_and!; [done..|]. intros t [[= ->]|[? _]]%Ht; [by left|done].
  - destruct (String.eqb_spec (rq_uri rq) DO_ACTION_PATH) as [Hu|]; [|left; eexists _, _; intros; by rewrite Hc].
    destruct (String.eqb_spec (username info) discovery) as [Hd|]; [|left; eexists _, _; intros; by rewrite Hc].
    right. exists token, info, w1, w1. split_and!; [done..|]. intros t [?|[_ ->]]%Ht; [done|by right].
Qed.
End Middleware.

(** ** Internal details *)

(** What a client of the REST service sees of an internal failure does not
    depend on its details. The text of an I/O error of a data source, of a failed
    metadata query, of a configuration, connection or (de)serialisation problem of
    the metadata store, and of a failed token or access review is the same whatever
    the detail, at the Flight service and, where the REST service maps it itself,
    there as well. *)
Theorem details_do_not_leak d d' :
  map_connector_error (IOError d) = map_connector_error (IOError d') /\
  from_connector_error (IOError d) = from_connector_error (IOError d') /\
  (forall mk, mk ∈ [Connection; Config; Query; Conflict; Serialization; Deserialization] ->
     map_meta_store_error (mk d) = map_meta_store_error (mk d')) /\
  (forall mk, mk ∈ [TokenReviewError; AccessReviewError] ->
     auth_error_to_status (mk d) = auth_error_to_status (mk d') /\
     from_auth_error (mk d) = from_auth_error (mk d')) /\
  from_auth_error (Internal d) = from_auth_error (Internal d').
Proof. split_and!; try done; intros mk; rewrite !elem_of_cons, elem_of_nil; naive_solver. Qed.


(** ** Readers *)

Section Readers.
Context `{O : Oracle} {Y : Type} `{SecretStoreI Y}.
Variable g : string.
#[local] Instance reader_meta : MetaStoreI (Store * Y) := pg_meta_store g Y.
Context {Schema RecordBatch : Type}.
Implicit Type svc : DataIngestionService (W := Store * Y) Schema RecordBatch.

(** C30: a reader is only ever made for a connection of the caller's tenant, by the
    connector registered for that connection's type, and what the service resolves
    for it are the properties of the secret its reference names in the tenant's own
    namespace. *)
Theorem readers_use_tenant_secrets svc t cid (w w' : Store * Y) rd :
  db_wf g (db (fst w)) ->
  reader_of Schema RecordBatch svc (t, cid) w = (Ok rd, w') ->
  exists conn dct c w1 w2,
    ms_get_data_connection t cid w = (Ok conn, w1) /\
    id (dc_metadata conn) = cid /\ tenant_id (dc_metadata conn) = Some t /\
    ms_get_data_connection_type t (data_connection_type_id (dc_resource conn)) w1 = (Ok dct, w2) /\
    connectors_registry _ _ svc !! provider (dct_resource dct) = Some c /\
    fcn_get_reader _ _ c conn resolve w2 = (Ok rd, w') /\
    forall w3 : Store * Y, resolve conn w3 =
      match ss_get_secret t (secret (credentials_ref (dc_resource conn))) w3 with
      | (Ok s, w4) => (Ok (secret_properties s), w4)
      | (Err e, w4) => (Err (ConnectionError (secret_store_error_display e)), w4)
      end.
Proof.
  intros Hw Hr. unfold reader_of, get_connector_by_connection_id in Hr. inv_ok. cbn [fst snd] in *.
  assert (Hc : id (dc_metadata a0) = cid /\ tenant_id (dc_metadata a0) = Some t).
  { pose proof Hrun1 as Hg. cbn in Hg. unfold zoom_l in Hg.
    destruct (get_data_connection t cid (fst w)) as [r s] eqn:E. injection Hg as -> _.
    unfold get_data_connection in E. inv_sql. unfold decode in Hval0. apply ok_or_ok in Hval0.
    edestruct decode_conn_wf as (_ & ? & ? & _); eauto. }
  destruct Hc as [Hid Ht]. exists a0, a1, a2, w1, w2. split_and!; [done..| |done|].
  - unfold get_connector in Hval. destruct (connectors_registry _ _ _ !! _); cbn in Hval; congruence.
  - intros w3. unfold resolve. rewrite Ht. unfold mseq, map_err. by destruct (ss_get_secret _ _ w3) as [[]].
Qed.
End Readers.
