(* ===== verification/FlightClient.v ===== *)
(** The REST service's client of the Flight service
    ([services/rest/src/clients/flight.rs]): its token, headers and the four calls,
    over the transport and Arrow's IPC format as parameters. *)
From S2P Require Import Prelude Text Json Sql Api MetaStore KubeAuth Traits Flight.

(** A call fails with a status, or panics on a column of an unexpected type. *)
Inductive CallError : Type := CallStatus (s : Status) | CallPanic.

(** An error of a decoded stream. *)
Inductive DecodeError : Type := DecodeTonic (s : Status) | DecodeOther (m : string).

Section Client.
Context {W : Type}.
(** Connecting to the endpoint; reading the token file; what gRPC accepts as a
    metadata value; the three calls. *)
Variable connect : M W Status unit.
Variable read_file : string -> M W string string.
Variable metadata_value : string -> option string.
Variable sa_token_file : option string.
Variable call_do_action : Metadata -> Action -> M W Status (list (result Status string)).
Variable call_get_flight_info : Metadata -> Command -> M W Status (list (option Command)).
Variable call_do_get : Metadata -> Command -> M W Status (list (result DecodeError Batch)).
(** [arrow::ipc] and [arrow::compute::concat_batches]. *)
Variable ipc_write : Columns -> result string string.
Variable ipc_read : string -> result string (list (result string Columns)).
Variable concat_batches : list Columns -> result string Columns.

Definition read_sa_token : M W Status string :=
  match sa_token_file with
  | None => mret "Bearer none"
  | Some path =>
      let? token := map_err (fun e => grpc GrpcInternal
                               ("failed to read SA token from " +:+ path +:+ ": " +:+ e))
                      (read_file path) in
      mret ("Bearer " +:+ trim token)
  end.

Definition attach_header (h v : string) (md : Metadata) : result Status Metadata :=
  match metadata_value v with
  | Some x => Ok (<[h := x]> md)
  | None => Err (grpc InvalidArgument "invalid header value")
  end.

(** The headers of a call: the token, then the ids. *)
Definition attach_all (hs : list (string * string)) : result Status Metadata :=
  List.fold_left (fun r h => let?? md := r in attach_header (fst h) (snd h) md) hs (Ok ∅).

(** [stream.message().await?]. *)
Definition first_message (l : list (result Status string)) : result Status (option string) :=
  match l with
  | [] => Ok None
  | Ok b :: _ => Ok (Some b)
  | Err e :: _ => Err e
  end.

Definition internal (m : string) : CallError := CallStatus (grpc GrpcInternal m).

(** [column.as_string::<i32>()] panics on another type. *)
Definition as_string (c : Column) : result CallError (list string) :=
  match c with Utf8 l => Ok l | NotUtf8 => Err CallPanic end.

Fixpoint collect_batches (l : list (result string Columns)) : result string (list Columns) :=
  match l with
  | [] => Ok []
  | r :: l => let?? b := r in let?? bs := collect_batches l in Ok (b :: bs)
  end.

Definition parse_formats (s : string) : list string :=
  List.filter (fun f => negb (is_empty f)) (split "," s).

(** The rows of a batch, whose columns have the same length. *)
Definition connectors_of_batch (b : Columns) : result CallError (list SupportedConnector) :=
  let?? names := ok_or (column_by_name "name" b) (internal "missing 'name' column") in
  let?? names := as_string names in
  let?? descs := ok_or (column_by_name "description" b) (internal "missing 'description' column") in
  let?? descs := as_string descs in
  let?? formats := match column_by_name "supported_formats" b with
                   | Some c => let?? l := as_string c in Ok (parse_formats <$> l)
                   | None => Ok ((fun _ => []) <$> names)
                   end in
  Ok (zip_with (fun nd f => {| sc_name := fst nd; sc_description := snd nd; sc_formats := f |})
        (zip names descs) formats).

Definition get_supported_connectors (tenant_id : string) : M W CallError (list SupportedConnector) :=
  map_err CallStatus connect ;?
  let? tok := map_err CallStatus read_sa_token in
  let? md := map_err CallStatus (lift (attach_all [(AUTHORIZATION, tok); (X_TENANT_ID, tenant_id)])) in
  let? s := map_err CallStatus
              (call_do_action md {| action_type := "GetSupportedConnectors"; action_body := "" |}) in
  let? m := lift (rmap_err CallStatus (first_message s)) in
  let? body := lift (ok_or m (internal "empty response from GetSupportedConnectors")) in
  let? rs := lift (rmap_err (fun e => internal ("failed to read IPC stream: " +:+ e)) (ipc_read body)) in
  let? bs := lift (rmap_err (fun e => internal ("failed to read IPC batches: " +:+ e))
                     (collect_batches rs)) in
  match bs with
  | [] => throw (internal "no batches returned from GetSupportedConnectors")
  | _ =>
      let? b := lift (rmap_err (fun e => internal ("failed to concat batches: " +:+ e))
                        (concat_batches bs)) in
      lift (connectors_of_batch b)
  end.

Definition check_data_connection (tenant_id connection_id : string) : M W Status unit :=
  connect ;?
  let? tok := read_sa_token in
  let? md := lift (attach_all [(AUTHORIZATION, tok); (X_TENANT_ID, tenant_id);
                               (X_DATA_CONNECTION_ID, connection_id)]) in
  let? s := call_do_action md {| action_type := ACTION_CHECK_DATA_CONNECTION; action_body := "" |} in
  lift (first_message s) ;?
  mret tt.

Definition credentials_columns (c : TestCredentials) : Columns :=
  let kvs := map_to_list (tc_credentials c) in
  [("key", Utf8 ("data_connection_type_id" :: ((fun kv => "secret." +:+ fst kv) <$> kvs)));
   ("value", Utf8 (tc_type_id c :: kvs.*2))].

Definition test_credentials (tenant_id : string) (creds : TestCredentials) : M W Status unit :=
  let? buf := lift (rmap_err (fun e => grpc GrpcInternal ("failed to write IPC batch: " +:+ e))
                      (ipc_write (credentials_columns creds))) in
  connect ;?
  let? tok := read_sa_token in
  let? md := lift (attach_all [(AUTHORIZATION, tok); (X_TENANT_ID, tenant_id)]) in
  let? s := call_do_action md {| action_type := ACTION_CHECK_CREDENTIALS; action_body := buf |} in
  lift (first_message s) ;?
  mret tt.

Definition download_error (e : DecodeError) : Status :=
  match e with DecodeTonic s => s | DecodeOther m => grpc GrpcInternal m end.

Definition download_binary (tenant_id connection_id path : string)
    : M W Status (list (result Status Batch)) :=
  connect ;?
  let? tok := read_sa_token in
  let hs := [(AUTHORIZATION, tok); (X_TENANT_ID, tenant_id); (X_DATA_CONNECTION_ID, connection_id)] in
  let? md := lift (attach_all hs) in
  let? tickets := call_get_flight_info md (UnknownCommand DOWNLOAD_TYPE_URL path) in
  let? ticket := lift (ok_or (t ← head tickets; t)
                         (grpc GrpcInternal "no ticket in flight info response")) in
  let? md := lift (attach_all hs) in
  let? s := call_do_get md ticket in
  mret (rmap_err download_error <$> s).
End Client.
