(* ===== verification/FlightRoundtrip.v ===== *)
(** From the REST service to a connector and back: the client of [FlightClient]
    against the service of [Flight]. *)
From S2P Require Import Prelude Text Json Sql Api MetaStore KubeAuth Traits Flight FlightClient.

(** ** Credentials *)

Definition drop_secret (kv : string * string) : option (string * string) :=
  k ← strip_prefix "secret." (fst kv); Some (k, snd kv).

Lemma drop_secret_elem (l : list (string * string)) k v :
  (k, v) ∈ omap drop_secret l <-> ("secret." +:+ k, v) ∈ l.
Proof.
  rewrite list_elem_of_omap. split.
  - intros ([k' v'] & Hin & Hd). unfold drop_secret in Hd. cbn [fst snd] in Hd.
    destruct (strip_prefix "secret." k') as [k0|] eqn:E; [|done]. cbn in Hd. injection Hd as -> ->.
    apply strip_prefix_spec in E. by subst.
  - intros Hin. eexists. split; [exact Hin|]. unfold drop_secret. cbn [fst snd].
    destruct (strip_prefix "secret." ("secret." +:+ k)) as [k0|] eqn:E.
    + apply strip_prefix_spec, sapp_inj in E. by subst.
    + by assert (E' := starts_with_app "secret." k); unfold starts_with in E'; rewrite E in E'.
Qed.

Lemma drop_secret_nodup (l : list (string * string)) : NoDup l.*1 -> NoDup (omap drop_secret l).*1.
Proof.
  induction l as [|[k v] l IH]; [done|]. rewrite fmap_cons. intros [Hk Hl]%NoDup_cons. cbn [omap list_omap].
  destruct (drop_secret (k, v)) as [[k' v']|] eqn:E; [|by apply IH].
  rewrite fmap_cons. constructor; [|by apply IH]. rewrite list_elem_of_fmap. intros ([k0 v0] & Hk0 & Hin). cbn in Hk0. subst k'.
  apply drop_secret_elem in Hin. apply Hk. apply list_elem_of_fmap. exists ("secret." +:+ k0, v0).
  split; [|done]. unfold drop_secret in E. cbn [fst snd] in E.
  destruct (strip_prefix "secret." k) as [k1|] eqn:Es; [|done]. cbn in E. injection E as -> ->.
  by apply strip_prefix_spec in Es.
Qed.

Lemma secret_entries_lookup m k : secret_entries m !! k = m !! ("secret." +:+ k).
Proof.
  apply option_eq. intros v. unfold secret_entries. fold drop_secret.
  rewrite <- elem_of_list_to_map by (apply drop_secret_nodup, NoDup_fst_map_to_list).
  by rewrite drop_secret_elem, elem_of_map_to_list.
Qed.

(** The rows the client sends. *)
Definition sent_rows (c : TestCredentials) : list (string * string) :=
  ("data_connection_type_id", tc_type_id c)
    :: ((fun kv => ("secret." +:+ fst kv, snd kv)) <$> map_to_list (tc_credentials c)).

Lemma sent_rows_zip c :
  zip ("data_connection_type_id" :: ((fun kv => "secret." +:+ fst kv) <$> map_to_list (tc_credentials c)))
      (tc_type_id c :: (map_to_list (tc_credentials c)).*2) = sent_rows c.
Proof.
  unfold sent_rows. cbn [zip zip_with]. f_equal. induction (map_to_list (tc_credentials c)) as [|kv l IH];
    [done|]. rewrite !fmap_cons. cbn [zip zip_with]. by f_equal.
Qed.

Lemma sent_rows_nodup c : NoDup (sent_rows c).*1.
Proof.
  unfold sent_rows. rewrite fmap_cons, <- list_fmap_compose. constructor.
  - rewrite list_elem_of_fmap. intros ([k v] & Hk & _). cbn in Hk. discriminate.
  - assert (He : (fst ∘ fun kv : string * string => ("secret." +:+ fst kv, snd kv)) <$>
                   map_to_list (tc_credentials c)
                 = String.append "secret." <$> (map_to_list (tc_credentials c)).*1)
      by (by rewrite <- list_fmap_compose).
    rewrite He. apply NoDup_fmap_2; [intros ??; apply sapp_inj|apply NoDup_fst_map_to_list].
Qed.

Section Wire.
Variable ipc_write : Columns -> result string string.
Variable ipc_read : string -> result string (list (result string Columns)).
(** What is written as one batch is read back as one batch. *)
Hypothesis ipc_roundtrip : forall b s, ipc_write b = Ok s -> ipc_read s = Ok [Ok b].

(** What the service reads from the client's message. *)
Lemma sent_credentials c body :
  ipc_write (credentials_columns c) = Ok body ->
  exists keys, parse_kv_body ipc_read body = Ok keys /\
    keys !! "data_connection_type_id" = Some (tc_type_id c) /\
    secret_entries (delete "data_connection_type_id" keys) = tc_credentials c.
Proof.
  intros Hw. unfold parse_kv_body. rewrite (ipc_roundtrip _ _ Hw). cbn [rbind rmap_err ok_or head].
  unfold utf8_column, column_by_name, credentials_columns. cbn -[zip reverse].
  rewrite sent_rows_zip. eexists. split; [reflexivity|].
  rewrite (list_to_map_proper (reverse (sent_rows c)) (sent_rows c)).
  2: { rewrite reverse_Permutation. apply sent_rows_nodup. }
  2: apply reverse_Permutation.
  split; [apply lookup_insert_eq|]. apply map_eq. intros k. rewrite secret_entries_lookup, lookup_delete_ne by discriminate.
  apply option_eq. intros v. rewrite <- elem_of_list_to_map by apply sent_rows_nodup.
  unfold sent_rows. rewrite elem_of_cons, list_elem_of_fmap. split.
  - intros [Heq|([k' v'] & Heq & Hin)]; [discriminate Heq|].
    pose proof (f_equal fst Heq) as Hk. pose proof (f_equal snd Heq) as Hv. cbn [fst snd] in Hk, Hv.
    apply sapp_inj in Hk. subst. by apply elem_of_map_to_list.
  - intros Hin. right. exists (k, v). split; [done|]. by apply elem_of_map_to_list.
Qed.

(** ** Capabilities *)

Lemma parse_formats_display l :
  parse_formats (join "," (data_format_display <$> l)) = data_format_display <$> l.
Proof.
  unfold parse_formats. destruct l as [|f l]; [done|].
  rewrite split_join; [|done|by induction (f :: l) as [|[] l' IH]; cbn].
  induction (f :: l) as [|[] l' IH]; cbn; [done|..]; by f_equal.
Qed.

(** ** The two services together *)

Section EndToEnd.
Context {W : Type} `{MetaStoreI W} `{SecretStoreI W}.
Context {Schema RecordBatch FlightData : Type}.
Variable connect : M W Status unit.
Variable read_file : string -> M W string string.
Variable metadata_value : string -> option string.
Variable sa_token_file : option string.
Variable concat_batches : list Columns -> result string Columns.
Variable new_id : W -> string * W.
Implicit Type svc : DataIngestionService (W := W) Schema RecordBatch.

(** gRPC carries visible ASCII unchanged; one batch needs no concatenation. *)
Hypothesis metadata_visible : forall v, header_to_str v = Some v -> metadata_value v = Some v.
Hypothesis concat_single : forall b, concat_batches [b] = Ok b.

(** The service's answers as the client receives them. *)
Definition serve_action svc (md : Metadata) (a : Action) : M W Status (list (result Status string)) :=
  let? l := dispatch_action Schema RecordBatch ipc_write ipc_read new_id svc md a in
  mret (Ok <$> l).

Lemma attach_two h v h' v' :
  header_to_str v = Some v -> header_to_str v' = Some v' ->
  attach_all metadata_value [(h, v); (h', v')] = Ok (<[h' := v']> (<[h := v]> ∅)).
Proof.
  intros Hv Hv'. unfold attach_all, attach_header. cbn. rewrite (metadata_visible _ Hv). cbn.
  by rewrite (metadata_visible _ Hv').
Qed.

(** What a test of credentials does at the service. *)
Definition tested svc (tenant type_id : string) (creds : gmap string string) : M W Status unit :=
  let? dc := get_connector_by_type_id Schema RecordBatch svc tenant type_id in
  lift (rmap_err (fun e => grpc InvalidArgument (type_error_display e))
          (check_credentials_schema (dct_resource (fst dc)) creds)) ;?
  let? uid := (fun w => let (u, w') := new_id w in (Ok u, w')) in
  map_err map_connector_error
    (fcn_get_reader _ _ (snd dc) (probe_connection uid tenant type_id) (fun _ => mret creds)) ;?
  mret tt.

(** C31: testing credentials through the REST service tests exactly them: once the
    client is connected and has its token, the call has the effects and the outcome
    of looking up the given type for the given tenant, checking its schema against
    the given credentials and opening a reader with those credentials and no
    others. *)
Theorem tested_credentials_arrive svc tenant creds buf tok w w1 w2 :
  ipc_write (credentials_columns creds) = Ok buf ->
  connect w = (Ok tt, w1) -> read_sa_token read_file sa_token_file w1 = (Ok tok, w2) ->
  header_to_str tok = Some tok -> header_to_str tenant = Some tenant ->
  test_credentials connect read_file metadata_value sa_token_file (serve_action svc) ipc_write
    tenant creds w
  = tested svc tenant (tc_type_id creds) (tc_credentials creds) w2.
Proof.
  intros Hb Hc Ht Htok Hten. unfold test_credentials. rewrite Hb.
  rewrite (mseq_run _ _ w buf w) by done. rewrite (mseq_run _ _ w tt w1) by done.
  rewrite (mseq_run _ _ w1 tok w2) by done.
  rewrite attach_two, mseq_lift_ok by done.
  destruct (sent_credentials _ _ Hb) as (keys & Hp & Hty & Hcr).
  unfold serve_action, dispatch_action. cbn [action_type action_body].
  rewrite (proj2 (String.eqb_neq _ _)), (proj2 (String.eqb_neq _ _)), String.eqb_refl by done.
  unfold action_check_credentials, tested. rewrite !mseq_assoc.
  unfold ctx_tenant_id, header_required. rewrite lookup_insert_eq. cbn [ok_or rbind]. rewrite Hten.
  cbn [ok_or]. rewrite mseq_lift_ok, !mseq_assoc, Hp, mseq_lift_ok, !mseq_assoc, Hty.
  cbn [ok_or]. rewrite mseq_lift_ok, Hcr. cbv zeta. rewrite !mseq_assoc. apply mseq_ext. intros dc v.
  rewrite !mseq_assoc. apply mseq_ext. intros [] v1. rewrite !mseq_assoc. apply mseq_ext. intros uid v2.
  rewrite !mseq_assoc. by apply mseq_ext.
Qed.

(** What a connector reports about itself. *)
Definition reported (c : FlightConnector (W := W) Schema RecordBatch) : SupportedConnector :=
  {| sc_name := fcn_provider _ _ c; sc_description := fcn_description _ _ c;
     sc_formats := data_format_display <$> fcn_supported_formats _ _ c |}.

Lemma connectors_of_sent cs :
  connectors_of_batch (connectors_columns Schema RecordBatch cs) = Ok (reported <$> cs).
Proof.
  unfold connectors_of_batch, column_by_name, connectors_columns.
  cbn [List.find String.eqb Ascii.eqb Bool.eqb fst snd fmap option_fmap option_map ok_or rbind as_string].
  f_equal. induction cs as [|c cs IH]; [done|]. rewrite !fmap_cons. cbn [zip zip_with]. f_equal; [|done].
  unfold reported. cbn [fst snd]. by rewrite parse_formats_display.
Qed.

(** The REST service learns exactly the registered connectors: their providers,
    descriptions and formats, in the order the service lists them. *)
Theorem supported_connectors_arrive svc tenant buf tok w w1 w2 :
  ipc_write (connectors_columns _ _ (Flight.get_supported_connectors _ _ (connectors_registry _ _ svc)))
    = Ok buf ->
  connect w = (Ok tt, w1) -> read_sa_token read_file sa_token_file w1 = (Ok tok, w2) ->
  header_to_str tok = Some tok -> header_to_str tenant = Some tenant ->
  get_supported_connectors connect read_file metadata_value sa_token_file (serve_action svc) ipc_read
    concat_batches tenant w
  = (Ok (reported <$> Flight.get_supported_connectors _ _ (connectors_registry _ _ svc)), w2).
Proof.
  intros Hb Hc Ht Htok Hten. unfold get_supported_connectors.
  rewrite (mseq_run _ _ w tt w1) by (by apply (map_err_run _ _ _ (Ok tt))).
  rewrite (mseq_run _ _ w1 tok w2) by (by apply (map_err_run _ _ _ (Ok tok))).
  rewrite attach_two by done. set (md := <[X_TENANT_ID := tenant]> _).
  rewrite (mseq_run _ _ w2 md w2) by done.
  rewrite (mseq_run _ _ w2 [Ok buf] w2).
  2: { apply (map_err_run _ _ _ (Ok [Ok buf])). unfold serve_action, dispatch_action. cbn [action_type].
       rewrite (proj2 (String.eqb_neq _ _)) by done. rewrite String.eqb_refl.
       unfold action_get_supported_connectors. by rewrite Hb. }
  cbn [first_message rmap_err]. rewrite mseq_lift_ok. cbn [ok_or]. rewrite mseq_lift_ok.
  rewrite (ipc_roundtrip _ _ Hb). cbn [rmap_err]. rewrite mseq_lift_ok.
  cbn [rmap_err collect_batches rbind]. rewrite mseq_lift_ok, concat_single.
  cbn [rmap_err]. by rewrite mseq_lift_ok, connectors_of_sent.
Qed.

(** *** Downloads *)

Variables (encodes : Schema -> bool) (tables_schema : bool -> Schema).
Variable tables_batch : option string -> bool -> list (TableInfo Schema) -> result string RecordBatch.
Variables (sql_info_schema binary_schema : Schema) (sql_info_batch : list nat -> result string RecordBatch).
Variable batch_schema : RecordBatch -> Schema.
Variable flight_encode : Schema -> list (result ConnectorError RecordBatch) ->
  list (result FlightError FlightData).
(** How the client decodes the messages of a stream. *)
Variable flight_decode : list (result Status FlightData) -> list (result DecodeError Batch).

Definition serve_flight_info svc (md : Metadata) (cmd : Command) : M W Status (list (option Command)) :=
  let? i := get_flight_info Schema RecordBatch encodes tables_schema sql_info_schema binary_schema
              svc cmd md in
  mret [Some (fi_ticket _ i)].

Definition serve_do_get svc (md : Metadata) (t : Command) : M W Status (list (result DecodeError Batch)) :=
  let? r := do_get Schema RecordBatch FlightData tables_batch sql_info_schema sql_info_batch binary_schema
              batch_schema flight_encode svc t md in
  mret (flight_decode r).

Lemma attach_three h v h' v' h2 v2 :
  header_to_str v = Some v -> header_to_str v' = Some v' -> header_to_str v2 = Some v2 ->
  attach_all metadata_value [(h, v); (h', v'); (h2, v2)] = Ok (<[h2 := v2]> (<[h' := v']> (<[h := v]> ∅))).
Proof.
  intros Hv Hv' Hv2. unfold attach_all, attach_header. cbn. rewrite (metadata_visible _ Hv). cbn.
  rewrite (metadata_visible _ Hv'). cbn. by rewrite (metadata_visible _ Hv2).
Qed.

Lemma ids_of_headers tok tenant cid :
  header_to_str tenant = Some tenant -> header_to_str cid = Some cid ->
  request_ids (<[X_DATA_CONNECTION_ID := cid]> (<[X_TENANT_ID := tenant]> (<[AUTHORIZATION := tok]> ∅)))
  = Ok (tenant, cid).
Proof.
  intros Ht Hc. unfold request_ids, ctx_tenant_id, ctx_connection_id, header_required.
  rewrite lookup_insert_ne, !lookup_insert_eq by done. cbn. by rewrite Ht, Hc.
Qed.

(** What a download does at the service: the check when the ticket is issued, and
    the read when it is redeemed. *)
Definition downloaded svc (tenant cid path : string) : M W Status (list (result Status Batch)) :=
  let? rd := reader_of Schema RecordBatch svc (tenant, cid) in
  map_err map_connector_error (rd_can_read_binary _ _ rd path) ;?
  lift (flight_info Schema encodes binary_schema (UnknownCommand DOWNLOAD_TYPE_URL path)
          "failed to encode schema") ;?
  let? rd := reader_of Schema RecordBatch svc (tenant, cid) in
  let? s := map_err map_connector_error (rd_read_binary _ _ rd path) in
  mret (rmap_err download_error <$> flight_decode
          (encode_stream Schema RecordBatch FlightData flight_encode binary_schema s)).

(** A download through the REST service reads exactly the requested path of the
    requested connection of the requested tenant: it has the effects and the result
    of asking that connection's reader whether it can read the path, and reading
    it. *)
Theorem downloads_read_requested_path svc tenant cid path tok w w1 w2 :
  utf8_valid path = true ->
  connect w = (Ok tt, w1) -> read_sa_token read_file sa_token_file w1 = (Ok tok, w2) ->
  header_to_str tok = Some tok -> header_to_str tenant = Some tenant -> header_to_str cid = Some cid ->
  download_binary connect read_file metadata_value sa_token_file (serve_flight_info svc)
    (serve_do_get svc) tenant cid path w
  = downloaded svc tenant cid path w2.
Proof.
  intros Hp Hc Ht Htok Hten Hcid. unfold download_binary, downloaded. cbv zeta.
  rewrite (mseq_run _ _ w tt w1) by done. rewrite (mseq_run _ _ w1 tok w2) by done.
  rewrite attach_three, mseq_lift_ok by done. unfold serve_flight_info at 1.
  assert (Hu : from_utf8 path = Some path) by (unfold from_utf8; by rewrite Hp).
  cbn [get_flight_info handle_get_flight_info_fallback]. rewrite String.eqb_refl. cbn [negb].
  rewrite ids_of_headers, Hu by done. cbn [ok_or].
  rewrite !mseq_assoc, mseq_lift_ok, !mseq_assoc, mseq_lift_ok, !mseq_assoc.
  apply mseq_ext. intros rd v. rewrite !mseq_assoc. apply mseq_ext. intros [] v1.
  unfold flight_info. destruct (encodes binary_schema); [|done].
  rewrite !mseq_lift_ok. rewrite (mseq_run _ _ v1 [Some (UnknownCommand DOWNLOAD_TYPE_URL path)] v1) by done.
  cbn [head mbind option_bind ok_or]. rewrite !mseq_lift_ok.
  unfold serve_do_get. cbn [do_get]. unfold handle_do_get_fallback.
  rewrite ids_of_headers, Hu by done. cbn [ok_or].
  rewrite !mseq_assoc, mseq_lift_ok, !mseq_assoc, mseq_lift_ok, !mseq_assoc.
  apply mseq_ext. intros rd' v2. rewrite !mseq_assoc. by apply mseq_ext.
Qed.
End EndToEnd.
End Wire.
