(* ===== verification/FlightSample.v ===== *)
(** A concrete Flight service over the sample world: one connector whose readers
    need a password, and the calls of the samples. *)
From S2P Require Import Prelude Text Json Sql Api MetaStore MetaStoreInv MetaStoreSpec.
From S2P Require Import KubeAuth Traits RestErrors Rest RestSample Flight FlightClient.
From S2P Require Import FlightProps FlightRoundtrip.

Abbreviation World := (Store * Env)%type.
#[local] Instance flight_sample_meta : MetaStoreI World := sample_meta_store.

Definition sample_reader : DataReader (W := World) unit Batch :=
  {| rd_schema q := mret {| q_query := q; q_schema := tt |};
     rd_read_tabular q o := mret [];
     rd_can_read_binary p := mret tt;
     rd_read_binary p := mret [Ok {["data" := [p]]}];
     rd_check_connection := mret tt;
     rd_list_tables f b := mret [] |}.

Definition sample_connector : FlightConnector (W := World) unit Batch :=
  {| fcn_provider := "postgres"; fcn_description := "PostgreSQL";
     fcn_supported_formats := [Tabular; Binary];
     fcn_get_reader conn res :=
       let? p := res conn in
       match p !! "password" with
       | Some "pw" => mret sample_reader
       | _ => throw (ConnectionError "authentication failed")
       end |}.

Definition sample_ingestion : DataIngestionService (W := World) unit Batch :=
  {| connectors_registry := with_connector _ _ ∅ sample_connector; query_options := QueryOptions_default |}.

#[export] Instance Column_eq_dec : EqDecision Column.
Proof. solve_decision. Defined.

(** An encoding of one batch. *)
Definition one_write (b0 b : Columns) : result string string :=
  if decide (b = b0) then Ok "batch" else Err "unknown batch".
Definition one_read (b0 : Columns) (s : string) : result string (list (result string Columns)) :=
  if String.eqb s "batch" then Ok [Ok b0] else Err "not a stream".

Lemma one_roundtrip b0 b s : one_write b0 b = Ok s -> one_read b0 s = Ok [Ok b].
Proof. unfold one_write. destruct (decide _) as [->|]; [by intros [= <-]|done]. Qed.

Definition one_concat (l : list Columns) : result string Columns :=
  match l with [b] => Ok b | _ => Err "several batches" end.

Definition sample_new_id (w : World) : string * World := ("probe", w).

Definition sample_creds : TestCredentials :=
  {| tc_type_id := "t1"; tc_credentials := {["password" := "pw"]} |}.

(** ** The middleware *)

Lemma calls_are_authorized_witness :
  exists e w', forall inner',
    auth_call (W := nat) (B := nat) (R := nat)
      (fun t w => (if String.eqb t "good" then Ok {| username := "alice"; groups := [] |}
                   else Err (Unauthenticated "bad token"), S w))
      (fun a t v w => (Ok tt, S w)) "discovery" inner'
      {| rq_uri := "/arrow.flight.protocol.FlightService/DoGet";
         rq_md := {[AUTHORIZATION := "Bearer stolen"; X_TENANT_ID := "a"]}; rq_msg := 0 |} 0
    = (Err e, w').
Proof.
  edestruct (calls_are_authorized (W := nat) (B := nat) (R := nat)
      (fun t w => (if String.eqb t "good" then Ok {| username := "alice"; groups := [] |}
                   else Err (Unauthenticated "bad token"), S w))
      (fun a t v w => (Ok tt, S w)) "discovery"
      {| rq_uri := "/arrow.flight.protocol.FlightService/DoGet";
         rq_md := {[AUTHORIZATION := "Bearer stolen"; X_TENANT_ID := "a"]}; rq_msg := 0 |}
      (fun _ w => (Ok 0, w)) 0) as [Hr|(token & info & w1 & w2 & Ht & Ha & _)].
  - reflexivity.
  - exact Hr.
  - exfalso. vm_compute in Ht. injection Ht as <-. vm_compute in Ha. discriminate Ha.
Defined.

(** ** Readers and round trips *)

Lemma readers_use_tenant_secrets_witness :
  exists conn dct c w1 w2,
    ms_get_data_connection "a" "1" sample_world = (Ok conn, w1) /\
    id (dc_metadata conn) = "1" /\ tenant_id (dc_metadata conn) = Some "a" /\
    ms_get_data_connection_type "a" (data_connection_type_id (dc_resource conn)) w1 = (Ok dct, w2) /\
    connectors_registry _ _ sample_ingestion !! provider (dct_resource dct) = Some c /\
    fcn_get_reader _ _ c conn resolve w2
      = (Ok sample_reader, ({| db := db rest_store; tick := 2 |}, sample_env)) /\
    forall w3 : World, resolve conn w3 =
      match ss_get_secret "a" (secret (credentials_ref (dc_resource conn))) w3 with
      | (Ok s, w4) => (Ok (secret_properties s), w4)
      | (Err e, w4) => (Err (ConnectionError (secret_store_error_display e)), w4)
      end.
Proof.
  apply (@readers_use_tenant_secrets sample_oracle Env _ "global" unit Batch sample_ingestion "a" "1"
           sample_world ({| db := db rest_store; tick := 2 |}, sample_env) sample_reader).
  - exact rest_wf.
  - vm_compute. reflexivity.
Defined.

Lemma tested_credentials_arrive_witness :
  test_credentials (W := World) (mret tt) (fun _ => throw "no file") header_to_str None
    (serve_action (one_write (credentials_columns sample_creds)) (one_read (credentials_columns sample_creds))
       sample_new_id sample_ingestion)
    (one_write (credentials_columns sample_creds)) "a" sample_creds sample_world
  = tested sample_new_id sample_ingestion "a" "t1" {["password" := "pw"]} sample_world.
Proof.
  apply (@tested_credentials_arrive (one_write (credentials_columns sample_creds))
    (one_read (credentials_columns sample_creds)) (one_roundtrip _) World _ _ unit Batch (mret tt)
    (fun _ => throw "no file") header_to_str None sample_new_id (fun v H => H)
    sample_ingestion "a" sample_creds "batch" "Bearer none" sample_world sample_world sample_world);
    vm_compute; reflexivity.
Defined.

Definition sample_columns : Columns := connectors_columns unit Batch [sample_connector].

Lemma supported_connectors_arrive_witness :
  get_supported_connectors (W := World) (mret tt) (fun _ => throw "no file") header_to_str None
    (serve_action (one_write sample_columns) (one_read sample_columns) sample_new_id sample_ingestion)
    (one_read sample_columns) one_concat "a" sample_world
  = (Ok [{| sc_name := "postgres"; sc_description := "PostgreSQL"; sc_formats := ["tabular"; "binary"] |}],
     sample_world).
Proof.
  apply (@supported_connectors_arrive (one_write sample_columns) (one_read sample_columns)
    (one_roundtrip _) World _ _ unit Batch (mret tt) (fun _ => throw "no file") header_to_str None
    one_concat sample_new_id (fun v H => H) (fun b => eq_refl)
    sample_ingestion "a" "batch" "Bearer none" sample_world sample_world sample_world);
    vm_compute; reflexivity.
Defined.

(** Every message of a stream carries one batch. *)
Definition plain_encode (s : unit) (l : list (result ConnectorError Batch)) : list (result FlightError Batch) :=
  rmap_err ExternalConnector <$> l.
Definition plain_decode (l : list (result Status Batch)) : list (result DecodeError Batch) :=
  rmap_err DecodeTonic <$> l.

Lemma downloads_read_requested_path_witness :
  let out := download_binary (W := World) (mret tt) (fun _ => throw "no file") header_to_str None
    (serve_flight_info (fun _ => true) (fun _ => tt) tt tt sample_ingestion)
    (serve_do_get (fun _ _ _ => Err "") tt tt (fun _ => Err "") (fun _ => tt) plain_encode plain_decode
       sample_ingestion) "a" "1" "dir/file.bin" sample_world in
  fst out = Ok [Ok {["data" := ["dir/file.bin"]]}] /\
  out = downloaded (fun _ => true) tt plain_encode plain_decode sample_ingestion "a" "1" "dir/file.bin"
          sample_world.
Proof.
  split; [vm_compute; reflexivity|].
  apply (@downloads_read_requested_path World _ _ unit Batch Batch (mret tt) (fun _ => throw "no file")
    header_to_str None (fun v H => H) (fun _ => true) (fun _ => tt) (fun _ _ _ => Err "") tt tt
    (fun _ => Err "") (fun _ => tt) plain_encode plain_decode sample_ingestion "a" "1" "dir/file.bin"
    "Bearer none" sample_world sample_world sample_world); vm_compute; reflexivity.
Defined.
