(* ===== verification/Startup.v ===== *)
(** Starting the Flight service ([services/flight/src/lib.rs], [main.rs],
    [utils/mod.rs]): its configuration, the TLS policy of the listener, the accept
    loop, and the registry of connectors. *)
From S2P Require Import Prelude Text TextDebug Json Api Flight.
From Stdlib Require Import NArith.

(** ** Configuration *)

Record IngestionCachePools : Type := { max_capacity : N; ttl_secs : N; idle_secs : N }.
Record QueryConfig : Type := { qc_batch_size : nat }.
Definition default_batch_size : nat := 512.
Definition QueryConfig_default : QueryConfig := {| qc_batch_size := default_batch_size |}.

Definition query_validate (q : QueryConfig) : result string unit :=
  if qc_batch_size q =? 0 then Err "query.batch_size must be greater than 0" else Ok tt.

Record AuthConfig : Type := {
  auth_enabled : bool;
  cache_ttl_secs : N;
  token_review_audiences : list string;
  discovery_service_account : string
}.
Definition AuthConfig_default : AuthConfig :=
  {| auth_enabled := false; cache_ttl_secs := 300; token_review_audiences := []; discovery_service_account := "" |}.

Record TlsConfig : Type := {
  cert_file : option string;
  key_file : option string;
  min_version : option string;
  ciphers : option (list string)
}.

Definition tls_validate (t : TlsConfig) : result string unit :=
  match cert_file t, key_file t with
  | Some _, None | None, Some _ => Err "Both tls.cert_file and tls.key_file must be provided to enable TLS"
  | _, _ => Ok tt
  end.

(** The connectors, in the order they are registered. *)
Inductive Provider : Type := PPostgres | PSqlite | PS3 | PMilvus | PElasticsearch | PNeo4j | PUri.
Definition providers : list Provider := [PPostgres; PSqlite; PS3; PMilvus; PElasticsearch; PNeo4j; PUri].

#[export] Instance Provider_eq_dec : EqDecision Provider.
Proof. solve_decision. Defined.

Definition provider_name (p : Provider) : string :=
  match p with
  | PPostgres => "postgres" | PSqlite => "sqlite" | PS3 => "s3" | PMilvus => "milvus"
  | PElasticsearch => "elasticsearch" | PNeo4j => "neo4j" | PUri => "uri"
  end.

Record ConnectorsConfig : Type := { cc_default : ConnectorConfig; cc_override : Provider -> ConnectorConfigOverride }.

(** [ConnectorsConfig::postgres] and its siblings. *)
Definition connector_config (c : ConnectorsConfig) (p : Provider) : ConnectorConfig :=
  config_merge (cc_default c) (cc_override c p).

Record MetricsConfig : Type := { metrics_enabled : bool; metrics_address : string; metrics_port : N }.
Definition MetricsConfig_default : MetricsConfig :=
  {| metrics_enabled := false; metrics_address := "0.0.0.0"; metrics_port := 9090 |}.

Record ServerConfig : Type := {
  sc_address : string;
  sc_port : N;
  sc_database_url : string;
  sc_global_tenant_id : string;
  sc_metrics : MetricsConfig;
  sc_pools : IngestionCachePools;
  sc_connectors : ConnectorsConfig;
  sc_query : QueryConfig;
  sc_auth : AuthConfig;
  sc_tls : TlsConfig
}.

(** ** TLS *)

Inductive TlsVersion : Type := TLS12 | TLS13.
#[export] Instance TlsVersion_eq_dec : EqDecision TlsVersion.
Proof. solve_decision. Defined.

(** [rustls::SupportedCipherSuite]: its version, its code point and its name. *)
Record SupportedCipherSuite : Type := { cs_version : TlsVersion; cs_id : N; cs_name : option string }.

Definition is_version (v : TlsVersion) (s : SupportedCipherSuite) : bool := bool_decide (cs_version s = v).

(** The suites of a policy, from those of the provider. *)
Definition requested_suites (provider : list SupportedCipherSuite) (requested : list string) : list SupportedCipherSuite :=
  List.filter (fun s => is_version TLS12 s
                        && existsb (fun name => bool_decide (cs_name s = Some name)) requested) provider.

Definition add_tls13 (provider suites : list SupportedCipherSuite) : list SupportedCipherSuite :=
  fold_left (fun suites s =>
               if is_version TLS13 s && negb (existsb (fun t => N.eqb (cs_id t) (cs_id s)) suites)
               then suites ++ [s] else suites) provider suites.

Definition policy_versions (min : string) : result string (list TlsVersion) :=
  if String.eqb min "VersionTLS13" then Ok [TLS13]
  else if String.eqb min "VersionTLS12" then Ok [TLS12; TLS13]
  else Err ("unsupported TLS minimum version " +:+ debug_str min +:+ ": the Flight listener cannot serve below TLS 1.2").

Definition policy_suites (provider : list SupportedCipherSuite) (min : string) (requested : option (list string))
    : result string (list SupportedCipherSuite) :=
  if String.eqb min "VersionTLS13" then Ok []
  else
    match requested with
    | Some requested =>
        match requested_suites provider requested with
        | [] => Err ("no usable cipher suites for TLS <= 1.2 in " +:+ debug_list requested +:+
                     "; provider supports " +:+ debug_list (omap cs_name provider))
        | usable => Ok usable
        end
    | None => Ok (List.filter (is_version TLS12) provider)
    end.

(** Files, [rustls] and [tonic]. *)
Class TlsLib (W : Type) : Type := {
  Cert : Type;
  Key : Type;
  Acceptor : Type;
  TonicTls : Type;
  pem_file_iter : string -> M W string (list (result string Cert));
  key_from_pem_file : string -> M W string Key;
  provider_suites : list SupportedCipherSuite;
  server_config : list TlsVersion -> list SupportedCipherSuite -> list Cert -> Key -> result string Acceptor;
  read_file : string -> M W string string;
  tonic_tls : string -> string -> result string TonicTls
}.

Section Tls.
Context {W : Type} `{TL : TlsLib W}.

(** What the listener serves: plaintext, TLS with the provider's defaults, or TLS with
    an enforced policy. *)
Inductive Listener : Type :=
| Plaintext
| DefaultTls (t : TonicTls)
| EnforcedTls (versions : list TlsVersion) (suites : list SupportedCipherSuite) (a : Acceptor).

Definition build_tls_acceptor (cert key min : string) (requested : option (list string)) : M W string Listener :=
  let? iter := map_err (fun e => "reading certificate file " +:+ cert +:+ ": " +:+ e) (pem_file_iter cert) in
  let? certs := lift (rmap_err (fun e => "parsing certificate file " +:+ cert +:+ ": " +:+ e) (rmapM (fun r => r) iter)) in
  let? k := map_err (fun e => "reading key file " +:+ key +:+ ": " +:+ e) (key_from_pem_file key) in
  let? versions := lift (policy_versions min) in
  let? suites := lift (policy_suites provider_suites min requested) in
  let suites := add_tls13 provider_suites suites in
  let? a := lift (server_config versions suites certs k) in
  mret (EnforcedTls versions suites a).

Definition configure_tls (tls : TlsConfig) : M W string Listener :=
  lift (tls_validate tls) ;?
  match min_version tls, cert_file tls, key_file tls with
  | Some _, None, _ | Some _, _, None =>
      throw "cluster TLS policy projected (min_version set) but tls.cert_file/tls.key_file are not both configured"
  | Some min, Some cert, Some key => build_tls_acceptor cert key min (ciphers tls)
  | None, Some cert, Some key =>
      let? c := read_file cert in
      let? k := read_file key in
      let? t := lift (tonic_tls c k) in
      mret (DefaultTls t)
  | None, _, _ => mret Plaintext
  end.

(** A suite the policy allows. *)
Definition suite_allowed (tls : TlsConfig) (s : SupportedCipherSuite) : Prop :=
  s ∈ provider_suites /\
  (cs_version s = TLS13 \/
   cs_version s = TLS12 /\ min_version tls = Some "VersionTLS12" /\
   forall requested, ciphers tls = Some requested -> exists name, name ∈ requested /\ cs_name s = Some name).

Lemma add_tls13_spec provider suites s :
  s ∈ add_tls13 provider suites -> s ∈ suites \/ s ∈ provider /\ cs_version s = TLS13.
Proof.
  revert suites. induction provider as [|p provider IH]; intros suites; cbn [add_tls13 fold_left]; [by left|].
  intros [Hin|Hin]%IH; [|right; split; [by right; apply Hin|apply Hin]].
  destruct (is_version TLS13 p) eqn:Hv; cbn [andb] in Hin; [|by left].
  destruct (negb _); [|by left]. apply elem_of_app in Hin as [Hin| ->%list_elem_of_singleton]; [by left|].
  right. split; [by left|]. by apply bool_decide_eq_true in Hv.
Qed.

Lemma add_tls13_keeps provider suites s : s ∈ suites -> s ∈ add_tls13 provider suites.
Proof.
  revert suites. induction provider as [|p provider IH]; intros suites Hin; [done|]. apply IH.
  destruct (_ && _); [apply elem_of_app; by left|done].
Qed.

(** Every TLS 1.3 suite stays on offer. *)
Lemma add_tls13_complete provider suites s :
  s ∈ provider -> cs_version s = TLS13 -> exists t, t ∈ add_tls13 provider suites /\ cs_id t = cs_id s.
Proof.
  revert suites. induction provider as [|p provider IH]; intros suites; [by intros ?%elem_of_nil|].
  intros [<-|Hin]%elem_of_cons Hv; [|by apply IH]. cbn [add_tls13 fold_left].
  unfold is_version at 2. rewrite bool_decide_true by done. cbn [andb].
  destruct (existsb (fun t => N.eqb (cs_id t) (cs_id s)) suites) eqn:He; cbn [negb].
  - apply existsb_exists in He as (t & Hin%list_elem_of_In & Heq%N.eqb_eq). exists t. split; [by apply add_tls13_keeps|done].
  - exists s. split; [|done]. apply add_tls13_keeps, elem_of_app. right. by left.
Qed.

(** The suites below TLS 1.3 of a policy: none for a minimum of 1.3, otherwise those
    that are listed, at least one. *)
Lemma policy_suites_spec min requested suites :
  policy_suites provider_suites min requested = Ok suites ->
  (forall s, s ∈ suites -> s ∈ provider_suites /\ cs_version s = TLS12 /\ min <> "VersionTLS13" /\
     forall l, requested = Some l -> exists name, name ∈ l /\ cs_name s = Some name) /\
  (min <> "VersionTLS13" -> is_Some requested -> exists s, s ∈ suites /\ cs_version s = TLS12).
Proof.
  unfold policy_suites. destruct (String.eqb_spec min "VersionTLS13") as [->|Hne].
  { intros [= <-]. split; [by intros s ?%elem_of_nil|done]. }
  assert (Hreq : forall l s, s ∈ requested_suites provider_suites l ->
    s ∈ provider_suites /\ cs_version s = TLS12 /\ exists name, name ∈ l /\ cs_name s = Some name).
  { intros l s. unfold requested_suites. rewrite list_elem_of_In, filter_In, <- list_elem_of_In.
    intros (Hin & [Hv%bool_decide_eq_true (name & Hn%list_elem_of_In & He%bool_decide_eq_true)%existsb_exists]%andb_prop).
    split_and!; [done|done|by exists name]. }
  destruct requested as [l|].
  - destruct (requested_suites provider_suites l) as [|u us] eqn:Hu; [done|]. intros [= <-]. rewrite <- Hu. split.
    + intros s (H1 & H2 & H3)%Hreq. split_and!; [done..|]. by intros ? [= <-].
    + intros _ _. exists u. rewrite Hu. split; [by left|]. apply (Hreq l u). rewrite Hu. by left.
  - intros [= <-]. split; [|by intros _ [? [=]]]. intros s. rewrite list_elem_of_In, filter_In, <- list_elem_of_In.
    intros [Hin Hv%bool_decide_eq_true]. by split_and!.
Qed.

Lemma policy_versions_spec min versions :
  policy_versions min = Ok versions ->
  min = "VersionTLS12" /\ versions = [TLS12; TLS13] \/ min = "VersionTLS13" /\ versions = [TLS13].
Proof.
  unfold policy_versions. destruct (String.eqb_spec min "VersionTLS13") as [->|_]; [intros [= <-]; by right|].
  destruct (String.eqb_spec min "VersionTLS12") as [->|_]; [intros [= <-]; by left|done].
Qed.

(** What a listener that comes up serves, by the policy. *)
Lemma tls_policy tls w l w' :
  configure_tls tls w = (Ok l, w') ->
  match min_version tls with
  | None => l = Plaintext <-> cert_file tls = None /\ key_file tls = None
  | Some min =>
      exists versions suites a, l = EnforcedTls versions suites a /\
        is_Some (cert_file tls) /\ is_Some (key_file tls) /\
        (min = "VersionTLS12" /\ versions = [TLS12; TLS13] \/ min = "VersionTLS13" /\ versions = [TLS13]) /\
        (forall s, s ∈ suites -> suite_allowed tls s) /\
        (forall s, s ∈ provider_suites -> cs_version s = TLS13 -> exists t, t ∈ suites /\ cs_id t = cs_id s) /\
        (min = "VersionTLS12" -> is_Some (ciphers tls) -> exists s, s ∈ suites /\ cs_version s = TLS12)
  end.
Proof.
  unfold configure_tls. intros Hr.
  destruct (tls_validate tls) as [[]|] eqn:Hv; [|done]. rewrite mseq_lift_ok in Hr. unfold tls_validate in Hv.
  destruct (min_version tls) as [min|] eqn:Hm, (cert_file tls) as [cert|], (key_file tls) as [key|]; try done.
  - unfold build_tls_acceptor in Hr. inv_ok.
    match goal with H : policy_versions min = Ok _ |- _ => apply policy_versions_spec in H as Hver end.
    match goal with H : policy_suites _ min _ = Ok ?s |- _ => apply policy_suites_spec in H as [Hall Hsome]; rename s into base end.
    eexists _, _, _. split; [reflexivity|]. split_and!; [by eexists|by eexists|done| | |].
    + intros s [(H1 & H2 & H3 & H4)%Hall|[H1 H2]]%add_tls13_spec; (split; [done|]); [right|by left].
      split_and!; [done| |done]. rewrite Hm. destruct Hver as [[-> _]|[-> _]]; done.
    + intros s H1 H2. by apply add_tls13_complete.
    + intros -> Hc. destruct Hsome as (s & Hs & Hsv); [done|done|]. exists s. split; [by apply add_tls13_keeps|done].
  - inv_ok. by split; [|intros []].
  - inv_ok. done.
Qed.

(** C22: a cluster TLS policy is enforced or the service does not start. Once a minimum
    version is configured, a listener only comes up with TLS, with both files
    configured, with no version below the minimum (which is 1.2 or 1.3), and with
    no suites but the provider's TLS 1.3 suites, all of them, and, for a minimum of
    1.2, those TLS 1.2 suites that the policy lists; a list without a supported suite
    is refused. Plaintext is only served if neither file nor a minimum is
    configured. *)
Theorem tls_policy_enforced tls w l w' :
  configure_tls tls w = (Ok l, w') ->
  match min_version tls with
  | None => l = Plaintext <-> cert_file tls = None /\ key_file tls = None
  | Some min =>
      exists versions suites a, l = EnforcedTls versions suites a /\
        is_Some (cert_file tls) /\ is_Some (key_file tls) /\
        (min = "VersionTLS12" /\ versions = [TLS12; TLS13] \/ min = "VersionTLS13" /\ versions = [TLS13]) /\
        (forall s, s ∈ suites -> suite_allowed tls s) /\
        (forall s, s ∈ provider_suites -> cs_version s = TLS13 -> exists t, t ∈ suites /\ cs_id t = cs_id s) /\
        (min = "VersionTLS12" -> is_Some (ciphers tls) -> exists s, s ∈ suites /\ cs_version s = TLS12)
  end.
Proof. apply tls_policy. Qed.
End Tls.

(** ** The accept loop *)

Module Incoming.
(** [tls_incoming]: a permit per handshake task, a bounded channel to the server. A
    task holds its permit until the connection is handed over. *)
Definition PERMITS : nat := 1024.
Definition CHANNEL : nat := 128.

Inductive Task : Type := Handshaking | Sending.

Record IncomingState : Type := {
  permits : nat;
  tasks : list (nat * Task);
  channel : list nat;
  served : list nat;
  established : list nat;
  rx_closed : bool
}.

Definition incoming_init : IncomingState :=
  {| permits := PERMITS; tasks := []; channel := []; served := []; established := []; rx_closed := false |}.

(** A task ends and releases its permit. *)
Definition release (s : IncomingState) (ts : list (nat * Task)) (ch : list nat) : IncomingState :=
  {| permits := S (permits s); tasks := ts; channel := ch; served := served s;
     established := established s; rx_closed := rx_closed s |}.

(** One step of the listener, a task or the server. *)
Inductive incoming_step : IncomingState -> IncomingState -> Prop :=
| accept_spawns s p c :
    rx_closed s = false -> permits s = S p ->
    incoming_step s {| permits := p; tasks := tasks s ++ [(c, Handshaking)]; channel := channel s; served := served s;
              established := established s; rx_closed := false |}
| accept_drops s : rx_closed s = false -> permits s = 0 -> incoming_step s s
| accept_fails s : rx_closed s = false -> incoming_step s s
| handshake_done s ts1 ts2 c :
    tasks s = ts1 ++ (c, Handshaking) :: ts2 ->
    incoming_step s {| permits := permits s; tasks := ts1 ++ (c, Sending) :: ts2; channel := channel s; served := served s;
              established := established s ++ [c]; rx_closed := rx_closed s |}
| handshake_fails s ts1 ts2 c :
    tasks s = ts1 ++ (c, Handshaking) :: ts2 -> incoming_step s (release s (ts1 ++ ts2) (channel s))
| sends s ts1 ts2 c :
    tasks s = ts1 ++ (c, Sending) :: ts2 -> length (channel s) < CHANNEL -> rx_closed s = false ->
    incoming_step s (release s (ts1 ++ ts2) (channel s ++ [c]))
| send_fails s ts1 ts2 c :
    tasks s = ts1 ++ (c, Sending) :: ts2 -> rx_closed s = true -> incoming_step s (release s (ts1 ++ ts2) (channel s))
| serves s c ch :
    channel s = c :: ch ->
    incoming_step s {| permits := permits s; tasks := tasks s; channel := ch; served := served s ++ [c];
              established := established s; rx_closed := rx_closed s |}
| closes s :
    incoming_step s {| permits := permits s; tasks := tasks s; channel := channel s; served := served s;
              established := established s; rx_closed := true |}.

Lemma elem_of_skip {A} (x y : A) l1 l2 : x ∈ l1 ++ l2 -> x ∈ l1 ++ y :: l2.
Proof. rewrite !elem_of_app, elem_of_cons. tauto. Qed.

(** The permits account for the tasks, and only established connections get on. *)
Record inv (s : IncomingState) : Prop := {
  inv_permits : permits s + length (tasks s) = PERMITS;
  inv_channel : length (channel s) <= CHANNEL;
  inv_sending : forall c, (c, Sending) ∈ tasks s -> c ∈ established s;
  inv_channel_est : forall c, c ∈ channel s -> c ∈ established s;
  inv_served : forall c, c ∈ served s -> c ∈ established s
}.

Lemma incoming_step_inv s s' : incoming_step s s' -> inv s -> inv s'.
Proof.
  intros Hstep [Hp Hc Hs Hch Hse].
  destruct Hstep as [s p c Hcl Hper|s Hcl Hper|s Hcl|s ts1 ts2 c Ht|s ts1 ts2 c Ht|s ts1 ts2 c Ht Hlen Hcl
    |s ts1 ts2 c Ht Hcl|s c ch Hchan|s]; try (by constructor).
  - constructor; cbn; [rewrite length_app; cbn; lia|done| |done|done].
    intros c' [Hin|[=]%list_elem_of_singleton]%elem_of_app. by apply Hs.
  - rewrite Ht in Hp, Hs. constructor; cbn; [rewrite length_app in *; cbn in *; lia|done| | |].
    + intros c'. rewrite elem_of_app, elem_of_cons. intros [Hin|[[= ->]|Hin]]; apply elem_of_app; [left|by right; left|left];
        apply Hs; apply elem_of_app; [by left|right; by right].
    + intros c' Hin. apply elem_of_app. left. by apply Hch.
    + intros c' Hin. apply elem_of_app. left. by apply Hse.
  - rewrite Ht in Hp, Hs. constructor; cbn; [rewrite length_app in *; cbn in *; lia|done| |done|done].
    intros c' Hin. by apply Hs, elem_of_skip.
  - rewrite Ht in Hp, Hs. constructor; cbn; [rewrite length_app in *; cbn in *; lia|rewrite length_app; cbn; lia| | |done].
    + intros c' Hin. by apply Hs, elem_of_skip.
    + intros c' [Hin| ->%list_elem_of_singleton]%elem_of_app; [by apply Hch|]. apply Hs, elem_of_app. right. by left.
  - rewrite Ht in Hp, Hs. constructor; cbn; [rewrite length_app in *; cbn in *; lia|done| |done|done].
    intros c' Hin. by apply Hs, elem_of_skip.
  - rewrite Hchan in Hc, Hch. constructor; cbn; [done|cbn in Hc; lia|done|intros c' Hin; apply Hch; by right|].
    intros c' [Hin| ->%list_elem_of_singleton]%elem_of_app; [by apply Hse|apply Hch; by left].
Qed.

End Incoming.

(** ** The metadata store's connection ([PgMetaStore::new]) *)

Inductive PgSslMode : Type := SslDisable | SslAllow | SslPrefer | SslRequire | SslVerifyCa | SslVerifyFull.

Definition SECRETS_CA_CERT_PATH : string := "/secrets/postgresql-ca.crt".

(** [sqlx]'s options and pool, [url]'s query parameters, the environment and files. *)
Class MetaConn (W : Type) : Type := {
  PgOptions : Type;
  Pool : Type;
  options_from_str : string -> result string PgOptions;
  ssl_mode : PgOptions -> PgSslMode;
  ssl_root_cert : string -> PgOptions -> PgOptions;
  query_keys : string -> option (list string);
  env_var : string -> W -> option string;
  path_exists : string -> W -> bool;
  connect_with : PgOptions -> M W string Pool;
  run_schema : Pool -> M W string unit
}.

Section MetaConn.
Context {W : Type} `{MC : MetaConn W}.

Definition has_root_cert (url : string) (w : W) : bool :=
  bool_decide (is_Some (env_var "PGSSLROOTCERT" w))
  || match query_keys url with
     | Some ks => existsb (fun k => existsb (String.eqb k) ["sslrootcert"; "ssl-root-cert"; "ssl-ca"]) ks
     | None => false
     end.

Definition verifies (m : PgSslMode) : bool := match m with SslVerifyCa | SslVerifyFull => true | _ => false end.

Definition meta_options (url : string) : M W MetaStoreError PgOptions :=
  fun w =>
    match options_from_str url with
    | Err _ => (Err (Connection "invalid database URL"), w)
    | Ok options =>
        (Ok (if verifies (ssl_mode options) && negb (has_root_cert url w) && path_exists SECRETS_CA_CERT_PATH w
             then ssl_root_cert SECRETS_CA_CERT_PATH options else options), w)
    end.

Definition meta_store_new (url : string) : M W MetaStoreError Pool :=
  let? options := meta_options url in
  let? pool := map_err (fun _ => Connection "failed to connect to the metadata database") (connect_with options) in
  map_err (fun _ => Query "failed to initialize database schema") (run_schema pool) ;?
  mret pool.

(** The mounted certificate is used exactly when the server's certificate is to be
    verified and no other root was chosen. *)
Lemma meta_options_ca url w options options' :
  options_from_str url = Ok options -> meta_options url w = (Ok options', w) ->
  options' = ssl_root_cert SECRETS_CA_CERT_PATH options /\
    verifies (ssl_mode options) = true /\ has_root_cert url w = false /\ path_exists SECRETS_CA_CERT_PATH w = true
  \/ options' = options.
Proof.
  intros Ho. unfold meta_options. rewrite Ho. intros [= <-].
  destruct (verifies _), (has_root_cert url w), (path_exists _ w); cbn; auto.
Qed.
End MetaConn.

(** ** The registry and the service (main.rs) *)

Section Main.
Context {W : Type} `{TL : !TlsLib W} `{MC : !MetaConn W}.
Variables ArrowSchema Batch KubeAuth Addr : Type.
Abbreviation Connector := (FlightConnector (W := W) ArrowSchema Batch).
(** The connectors' constructors, which take the limits of their caches, if they
    expire; the features the program is built with; the other parts that are
    started. *)
Variable new_connector : Provider -> option (N * N * N) -> ConnectorConfig -> Connector.
Variable features : Provider -> bool.
Variable load_config : M W string ServerConfig.
Variable init_tracing : M W string unit.
Variable parse_addr : string -> result string Addr.
Variable start_metrics : string -> N -> M W string unit.
Variable secret_store_default : M W string unit.
Variable kube_auth_default : N -> list string -> M W string KubeAuth.
Variable show_meta_error : MetaStoreError -> string.

Definition cache_limits (p : Provider) (pools : IngestionCachePools) : option (N * N * N) :=
  match p with PSqlite => None | _ => Some (ttl_secs pools, idle_secs pools, max_capacity pools) end.

Definition register (config : ServerConfig) (r : gmap string Connector) (p : Provider) : gmap string Connector :=
  let c := connector_config (sc_connectors config) p in
  if features p && enabled c
  then with_connector ArrowSchema Batch r (new_connector p (cache_limits p (sc_pools config)) c)
  else r.

Definition build_connectors_registry (config : ServerConfig) : gmap string Connector :=
  fold_left (register config) providers ∅.

Definition configure_metrics (m : MetricsConfig) : M W string unit :=
  if metrics_enabled m then start_metrics (metrics_address m) (metrics_port m) else mret tt.

(** What is served: the listener, the authenticating layer if there is one, the
    connectors and the query options. *)
Record FlightServer : Type := {
  fs_addr : Addr;
  fs_listener : Listener;
  fs_auth : option (KubeAuth * string);
  fs_registry : gmap string Connector;
  fs_options : QueryOptions
}.

(** [start_server], up to serving. *)
Definition start_server (listener : Listener) (auth : AuthConfig) (registry : gmap string Connector)
    (options : QueryOptions) (addr : Addr) : M W string FlightServer :=
  let? layer :=
    if auth_enabled auth
    then let? k := kube_auth_default (cache_ttl_secs auth) (token_review_audiences auth) in
         mret (Some (k, discovery_service_account auth))
    else mret None in
  mret {| fs_addr := addr; fs_listener := listener; fs_auth := layer; fs_registry := registry; fs_options := options |}.

Definition flight_main : M W string FlightServer :=
  let? config := load_config in
  lift (query_validate (sc_query config)) ;?
  init_tracing ;?
  let? addr := lift (parse_addr (sc_address config +:+ ":" +:+ pretty (sc_port config))) in
  let? listener := configure_tls (sc_tls config) in
  configure_metrics (sc_metrics config) ;?
  let registry := build_connectors_registry config in
  secret_store_default ;?
  map_err show_meta_error (meta_store_new (sc_database_url config)) ;?
  start_server listener (sc_auth config) registry {| batch_size := qc_batch_size (sc_query config) |} addr.

Hypothesis new_connector_provider : forall p l c, fcn_provider _ _ (new_connector p l c) = provider_name p.

#[local] Instance provider_name_inj : Inj (=) (=) provider_name.
Proof. by intros [] []. Qed.

(** A provider is registered exactly if it is built in and enabled, with the
    configuration that merges its own over the default. *)
Lemma registry_lookup config p :
  build_connectors_registry config !! provider_name p =
  let c := connector_config (sc_connectors config) p in
  if features p && enabled c then Some (new_connector p (cache_limits p (sc_pools config)) c) else None.
Proof using new_connector_provider.
  unfold build_connectors_registry.
  assert (Hfold : forall l r, NoDup l -> fold_left (register config) l r !! provider_name p =
    if decide (p ∈ l)
    then if features p && enabled (connector_config (sc_connectors config) p)
         then Some (new_connector p (cache_limits p (sc_pools config)) (connector_config (sc_connectors config) p))
         else r !! provider_name p
    else r !! provider_name p).
  { induction l as [|q l IH]; intros r Hl; [done|]. apply NoDup_cons in Hl as [Hq Hl]. cbn [fold_left]. rewrite IH by done.
    assert (Hother : q <> p -> register config r q !! provider_name p = r !! provider_name p).
    { intros Hne. unfold register. cbv zeta.
      destruct (features q && enabled (connector_config (sc_connectors config) q)); [|done].
      unfold with_connector. rewrite new_connector_provider. apply lookup_insert_ne. by intros ?%(inj _). }
    destruct (decide (q = p)) as [->|Hne].
    - rewrite decide_False by done. rewrite decide_True by by left. unfold register. cbv zeta.
      destruct (features p && enabled (connector_config (sc_connectors config) p)); [|done]. unfold with_connector. rewrite new_connector_provider. apply lookup_insert_eq.
    - rewrite Hother by done. destruct (decide (p ∈ l)), (decide (p ∈ q :: l)); [done|set_solver|set_solver|done]. }
  rewrite Hfold by (unfold providers; repeat constructor; set_solver).
  rewrite decide_True; [by rewrite lookup_empty|]. unfold providers. destruct p; set_solver.
Qed.

(** What a service that starts serves: a positive batch size, as the readers need it,
    the listener its TLS policy allows, an authenticating layer exactly if
    authentication is enabled, and the enabled connectors. *)
Lemma served_configuration w server w' :
  flight_main w = (Ok server, w') ->
  exists config w1 w2 w3, load_config w = (Ok config, w1) /\
    0 < batch_size (fs_options server) /\ batch_size (fs_options server) = qc_batch_size (sc_query config) /\
    configure_tls (sc_tls config) w2 = (Ok (fs_listener server), w3) /\
    (is_Some (fs_auth server) <-> auth_enabled (sc_auth config) = true) /\
    fs_registry server = build_connectors_registry config.
Proof.
  unfold flight_main. intros Hr. inv_ok. unfold start_server in *. inv_ok.
  match goal with H : query_validate _ = Ok _ |- _ => unfold query_validate in H; rename H into Hq end.
  match goal with H : (if auth_enabled _ then _ else _) _ = _ |- _ => rename H into Hauth end.
  eexists _, _, _, _. split_and!; [eassumption| |done|eassumption| |done].
  - cbn. destruct (Nat.eqb_spec (qc_batch_size (sc_query a)) 0); [done|lia].
  - cbn. destruct (auth_enabled (sc_auth a)).
    + inv_ok. split; [done|by eexists].
    + inv_ok. split; [by intros [? [=]]|done].
Qed.
End Main.

(** ** Concrete instances *)

#[local] Instance sample_tls : TlsLib unit := {|
  Cert := unit; Key := unit; Acceptor := unit; TonicTls := unit;
  pem_file_iter _ := mret [Ok tt]; key_from_pem_file _ := mret tt;
  provider_suites := [{| cs_version := TLS13; cs_id := 4865; cs_name := Some "TLS13_AES_128_GCM_SHA256" |};
                      {| cs_version := TLS12; cs_id := 49199; cs_name := Some "TLS_ECDHE_RSA_WITH_AES_128_GCM_SHA256" |};
                      {| cs_version := TLS12; cs_id := 49200; cs_name := Some "TLS_ECDHE_RSA_WITH_AES_256_GCM_SHA384" |}];
  server_config _ _ _ _ := Ok tt; read_file _ := mret ""; tonic_tls _ _ := Ok tt
|}.

Definition sample_policy : TlsConfig :=
  {| cert_file := Some "tls.crt"; key_file := Some "tls.key"; min_version := Some "VersionTLS12";
     ciphers := Some ["TLS_ECDHE_RSA_WITH_AES_256_GCM_SHA384"; "UNKNOWN"] |}.

Definition sample_listener : Listener :=
  EnforcedTls [TLS12; TLS13]
    [{| cs_version := TLS12; cs_id := 49200; cs_name := Some "TLS_ECDHE_RSA_WITH_AES_256_GCM_SHA384" |};
     {| cs_version := TLS13; cs_id := 4865; cs_name := Some "TLS13_AES_128_GCM_SHA256" |}] tt.

Lemma tls_policy_enforced_witness :
  exists versions suites a, sample_listener = EnforcedTls versions suites a /\
    forall s, s ∈ suites -> suite_allowed sample_policy s.
Proof.
  destruct (tls_policy_enforced sample_policy tt sample_listener tt eq_refl)
    as (versions & suites & a & He & _ & _ & _ & Hall & _).
  exists versions, suites, a. split; [exact He|exact Hall].
Defined.

