(* ===== verification/Readers.v ===== *)
(** Decoding files ([libs/format-readers/src]): how the format of a file is chosen, how the bytes of an object are fed to
    arrow's incremental CSV and JSON decoders, how a schema is inferred from a sample,
    and how the rows of a JSON document are converted.

    Arrow's decoders, its schema inference and its Parquet reader are operations of
    classes; [DecoderLaws] states what arrow documents of [decode] and [flush]. *)
From S2P Require Import Prelude Streams Text Json Floats Api Arrow.
From Stdlib Require Import NArith.

(** * Formats *)

Inductive FileFormat : Type := Parquet | Csv | JsonLines | JsonFile.

#[export] Instance FileFormat_eq_dec : EqDecision FileFormat.
Proof. solve_decision. Defined.

(** [str::to_lowercase], on ASCII letters; the names compared are ASCII. *)
Definition to_lowercase : string -> string := to_ascii_lowercase.

Definition from_format_str (fmt : string) : result ConnectorError FileFormat :=
  let s := to_lowercase fmt in
  if String.eqb s "parquet" then Ok Parquet
  else if String.eqb s "csv" then Ok Csv
  else if String.eqb s "jsonl" || String.eqb s "ndjson" || String.eqb s "jsonlines" then Ok JsonLines
  else if String.eqb s "json" then Ok JsonFile
  else Err (CInvalidRequest ("Unsupported format: " +:+ s)).

Definition detect (path : string) (properties : option string) : result ConnectorError FileFormat :=
  match properties with
  | Some fmt => from_format_str fmt
  | None =>
      let path_only := default path (head (split "?" path)) in
      let lower := to_lowercase path_only in
      if ends_with ".parquet" lower then Ok Parquet
      else if ends_with ".csv" lower then Ok Csv
      else if ends_with ".jsonl" lower || ends_with ".ndjson" lower || ends_with ".jsonlines" lower
      then Ok JsonLines
      else if ends_with ".json" lower then Ok JsonFile
      else Err (CInvalidRequest ("Cannot detect format for path: " +:+ path +:+
                                 ". Set 'format' in connection properties."))
  end.

(** A parsed media type. *)
Record Mime : Type := { mime_type : string; mime_subtype : string; mime_suffix : option string }.

Section ContentType.
Variable parse_mime : string -> result string Mime.

Definition from_content_type (content_type : string) : result ConnectorError FileFormat :=
  let?? mt := rmap_err (fun e => CInvalidRequest ("Invalid Content-Type '" +:+ content_type +:+ "': " +:+ e))
                (parse_mime content_type) in
  if bool_decide (mime_suffix mt = Some "json") then Ok JsonFile
  else if String.eqb (mime_type mt) "text" && String.eqb (mime_subtype mt) "csv" then Ok Csv
  else
    let sub := mime_subtype mt in
    let sub_is s := String.eqb (mime_type mt) "application" && String.eqb sub s in
    if sub_is "json" then Ok JsonFile
    else if sub_is "x-ndjson" || sub_is "ndjson" || sub_is "jsonl" || sub_is "jsonlines" || sub_is "x-jsonlines" then Ok JsonLines
    else if sub_is "vnd.apache.parquet" || sub_is "x-parquet" then Ok Parquet
    else Err (CInvalidRequest ("Cannot determine format from Content-Type '" +:+ content_type +:+ "'")).
End ContentType.

(** * Readers *)

Abbreviation bytes := (list ascii).
Definition NEWLINE : ascii := "010".

(** ** Decoders (lib.rs) *)

Section Decoding.
Context `{AR : Arrow}.

(** An incremental decoder: [decode] consumes a prefix of the buffer and returns its
    length; [flush] returns what was decoded, if anything. *)
Class RowDecoder (D : Type) : Type := {
  decode : bytes -> M D string nat;
  flush : M D string (option RecordBatch)
}.

(** [enum Decoder] and its two dispatching methods. *)
Inductive Decoder (C J : Type) : Type := DecoderCsv (d : C) | DecoderJson (d : J).
Arguments DecoderCsv {C J} d. Arguments DecoderJson {C J} d.

#[export] Instance decoder_dispatch {C J} `{!RowDecoder C, !RowDecoder J} : RowDecoder (Decoder C J) := {|
  decode buf d := match d with
    | DecoderCsv c => let (r, c') := decode buf c in (r, DecoderCsv c')
    | DecoderJson j => let (r, j') := decode buf j in (r, DecoderJson j')
    end;
  flush d := match d with
    | DecoderCsv c => let (r, c') := flush c in (r, DecoderCsv c')
    | DecoderJson j => let (r, j') := flush j in (r, DecoderJson j')
    end
|}.

Section Stream.
Context {D : Type} `{!RowDecoder D}.
Variable format : string.

Definition decode_error (e : string) : ConnectorError := IOError (format +:+ " decode error: " +:+ e).
Definition flush_error (e : string) : ConnectorError := IOError (format +:+ " flush error: " +:+ e).
Definition read_error (e : string) : ConnectorError := IOError (format +:+ " stream read error: " +:+ e).

(** The inner loop; [chunk] is what is left of the buffer. *)
Fixpoint decode_chunk (fuel : nat) (chunk : bytes) : Gen D ConnectorError RecordBatch unit :=
  match fuel with
  | O => diverge
  | S fuel =>
      match chunk with
      | [] => gret tt
      | _ =>
          let! consumed := call (map_err decode_error (decode chunk)) in
          if consumed =? 0
          then
            let! b := call (map_err flush_error flush) in
            match b with
            | Some batch => yield batch ;! decode_chunk fuel chunk
            | None => gret tt
            end
          else decode_chunk fuel (drop consumed chunk)
      end
  end.

(** A buffer needs at most two rounds per byte. *)
Definition chunk_fuel (chunk : bytes) : nat := S (S (2 * length chunk)).

(** The outer loop, over the buffers of the object. *)
Fixpoint decode_buffers (bufs : list (result string bytes)) : Gen D ConnectorError RecordBatch unit :=
  match bufs with
  | [] => gret tt
  | buf :: bufs =>
      let! chunk := glift (rmap_err read_error buf) in
      decode_chunk (chunk_fuel chunk) chunk ;! decode_buffers bufs
  end.

Definition decode_end : Gen D ConnectorError RecordBatch unit :=
  call (map_err decode_error (decode [])) ;!
  let! b := call (map_err flush_error flush) in
  match b with Some batch => yield batch | None => gret tt end.

Definition decode_body (bufs : list (result string bytes)) : Gen D ConnectorError RecordBatch unit :=
  decode_buffers bufs ;! decode_end.
End Stream.

(** ** What a decoder does *)

(** The rows a text completes, and where it leaves the decoder. *)
Fixpoint parse {Row State : Type} (step : State -> ascii -> list Row * result string State)
    (q : State) (s : bytes) : list Row * result string State :=
  match s with
  | [] => ([], Ok q)
  | a :: s =>
      match step q a with
      | (rs, Ok q') => let (rs', r) := parse step q' s in (rs ++ rs', r)
      | (rs, Err e) => (rs, Err e)
      end
  end.

(** A decoder reads bytes into rows: [step] is one byte, [finish] the end of the
    text, [partial] the error of a text that stops inside a row. It keeps the rows
    read since the last flush and stops at [batch_size] of them. The laws hold of the
    decoders built for that batch size, which are [valid]. *)
Class DecoderLaws (batch_size : nat) (D : Type) `{!RowDecoder D} : Type := {
  Row : Type;
  State : Type;
  step : State -> ascii -> list Row * result string State;
  finish : State -> list Row * result string State;
  partial : State -> option string;
  to_batch : list Row -> result string RecordBatch;
  valid : D -> Prop;
  buffered : D -> list Row;
  position : D -> State;
  buffered_bound d : valid d -> length (buffered d) <= batch_size;
  decode_some d buf :
    buf <> [] -> valid d ->
    match decode buf d with
    | (Ok n, d') => valid d' /\ n <= length buf /\
        exists rs, parse step (position d) (take n buf) = (rs, Ok (position d')) /\
          buffered d' = buffered d ++ rs /\
          (n < length buf -> length (buffered d') = batch_size /\ partial (position d') = None)
    | (Err e, _) => exists rs, parse step (position d) buf = (rs, Err e) /\ length (buffered d ++ rs) <= batch_size
    end;
  decode_none d :
    valid d ->
    match decode [] d with
    | (Ok _, d') => valid d' /\
        exists rs, finish (position d) = (rs, Ok (position d')) /\ buffered d' = buffered d ++ rs
    | (Err e, _) => exists rs, finish (position d) = (rs, Err e) /\ length (buffered d ++ rs) <= batch_size
    end;
  flush_rows d :
    valid d ->
    match flush d with
    | (Ok None, _) => partial (position d) = None /\ buffered d = []
    | (Ok (Some b), d') => valid d' /\ partial (position d) = None /\ buffered d <> [] /\
        to_batch (buffered d) = Ok b /\ buffered d' = [] /\ position d' = position d
    | (Err e, _) => partial (position d) = Some e \/
        partial (position d) = None /\ buffered d <> [] /\ to_batch (buffered d) = Err e
    end
}.

(** ** The rows of an object *)

(** [slice::chunks], for a positive size. *)
Fixpoint row_chunks_fuel {A} (fuel n : nat) (l : list A) : list (list A) :=
  match fuel, l with
  | S fuel, _ :: _ => take n l :: row_chunks_fuel fuel n (drop n l)
  | _, _ => []
  end.
Definition row_chunks {A} (n : nat) (l : list A) : list (list A) := row_chunks_fuel (length l) n l.

Lemma row_chunks_fuel_enough {A} n fuel (l : list A) :
  0 < n -> length l <= fuel -> row_chunks_fuel fuel n l = row_chunks n l.
Proof.
  intros Hn. unfold row_chunks. generalize (le_n (length l)). generalize (length l) at 2 4. revert l fuel.
  intros l fuel m. revert l fuel. induction m as [|m IH]; intros [|a l] [|fuel] Hm Hf; cbn in *; try done; try lia.
  f_equal. apply IH; rewrite length_drop; cbn; lia.
Qed.

Lemma row_chunks_app {A} n (c l : list A) :
  0 < n -> length c = n -> row_chunks n (c ++ l) = c :: row_chunks n l.
Proof.
  intros Hn Hc. unfold row_chunks. destruct c as [|a c]; [cbn in Hc; lia|]. cbn [length app row_chunks_fuel].
  change (a :: c ++ l) with ((a :: c) ++ l). rewrite take_app_length', drop_app_length' by done. f_equal.
  apply row_chunks_fuel_enough; [done|]. rewrite length_app. lia.
Qed.

Lemma row_chunks_last {A} n (l : list A) :
  length l <= n -> row_chunks n l = if decide (l = []) then [] else [l].
Proof.
  intros Hl. destruct l as [|a l]; [done|]. unfold row_chunks. cbn [length row_chunks_fuel].
  rewrite take_ge, drop_ge by done. by destruct (length l).
Qed.

(** How a stream over [rows] ends: it delivers all of them in chunks of [n]; or it
    stops with the error of the text, when at most [n] rows were not delivered yet;
    or with the error of a chunk that cannot be converted. *)
Inductive decoded {Row E : Type} (n : nat) (convert : list Row -> result E RecordBatch)
    (rows : list Row) (failure : option E) : list RecordBatch -> result E unit -> Prop :=
| decoded_all bs :
    failure = None -> Forall2 (fun c b => convert c = Ok b) (row_chunks n rows) bs ->
    decoded n convert rows failure bs (Ok tt)
| decoded_failure chunks rest bs e :
    failure = Some e -> rows = concat chunks ++ rest -> length rest <= n ->
    Forall (fun c => length c = n) chunks -> Forall2 (fun c b => convert c = Ok b) chunks bs ->
    decoded n convert rows failure bs (Err e)
| decoded_batch chunks c rest bs e :
    rows = concat chunks ++ c ++ rest -> 0 < length c <= n -> convert c = Err e ->
    Forall (fun c => length c = n) chunks -> Forall2 (fun c b => convert c = Ok b) chunks bs ->
    decoded n convert rows failure bs (Err e).

Lemma decoded_cons {Row E} n (convert : list Row -> result E RecordBatch) c b rows failure bs r :
  0 < n -> length c = n -> convert c = Ok b -> decoded n convert rows failure bs r ->
  decoded n convert (c ++ rows) failure (b :: bs) r.
Proof.
  intros Hn Hc Hb [bs' -> Hbs|cs rest bs' e -> -> Hr Hf Hbs|cs c' rest bs' e -> Hr He Hf Hbs].
  - apply decoded_all; [done|]. rewrite row_chunks_app by done. by constructor.
  - apply (decoded_failure _ _ _ _ (c :: cs) rest); [done|by rewrite app_assoc|done|by constructor|by constructor].
  - apply (decoded_batch _ _ _ _ (c :: cs) c' rest); [by rewrite app_assoc|done|done|by constructor|by constructor].
Qed.

Lemma decoded_nil {Row E} n (convert : list Row -> result E RecordBatch) bs r :
  decoded n convert [] None bs r -> bs = [] /\ r = Ok tt.
Proof.
  intros [bs' _ Hbs|cs rest bs' e [=]|cs c rest bs' e Hc Hr _ _ _]; [by inversion Hbs|].
  symmetry in Hc. apply app_nil in Hc as [_ [-> _]%app_nil]. cbn in Hr. lia.
Qed.

(** What is read of the object, and the error that ends it, if one does. *)
Fixpoint read_text (bufs : list (result string bytes)) : bytes * option string :=
  match bufs with
  | [] => ([], None)
  | Err e :: _ => ([], Some e)
  | Ok b :: bufs => let (s, e) := read_text bufs in (b ++ s, e)
  end.

Section Correct.
Context {batch_size : nat} {D : Type} `{!RowDecoder D, !DecoderLaws batch_size D}.
Hypothesis batch_size_positive : 0 < batch_size.
Variable format : string.

(** The rows of a text and its error, if it is malformed or was not read to its end. *)
Definition text_rows (q : State) (s : bytes) (io : option string) : list Row * option ConnectorError :=
  match parse step q s, io with
  | (rs, Err e), _ => (rs, Some (decode_error format e))
  | (rs, Ok _), Some e => (rs, Some (read_error format e))
  | (rs, Ok q), None =>
      match finish q with
      | (rs', Err e) => (rs ++ rs', Some (decode_error format e))
      | (rs', Ok q') => (rs ++ rs', flush_error format <$> partial q')
      end
  end.

Abbreviation converted := (fun rows => rmap_err (flush_error format) (to_batch rows)).

Lemma parse_app q s t :
  parse step q (s ++ t) =
  match parse step q s with
  | (rs, Ok q') => let (rs', r) := parse step q' t in (rs ++ rs', r)
  | (rs, Err e) => (rs, Err e)
  end.
Proof.
  revert q. induction s as [|a s IH]; intros q; cbn [app parse]; [by destruct (parse step q t)|].
  destruct (step q a) as [rs [q'|e]]; [|done]. rewrite IH.
  destruct (parse step q' s) as [rs1 [q1|e1]]; [|done]. destruct (parse step q1 t) as [rs2 r].
  by rewrite app_assoc.
Qed.

(** A full decoder between two rows is flushed to a batch of its rows, unless they
    cannot be converted. *)
Lemma flush_full d :
  valid d -> length (buffered d) = batch_size -> partial (position d) = None ->
  exists d', (exists b, flush d = (Ok (Some b), d') /\ valid d' /\ to_batch (buffered d) = Ok b /\
                buffered d' = [] /\ position d' = position d) \/
             (exists e, flush d = (Err e, d') /\ to_batch (buffered d) = Err e).
Proof using batch_size_positive.
  intros Hv Hfull Hpart. pose proof (flush_rows d Hv) as Hfl.
  destruct (flush d) as [[[b|]|e] d']; exists d'.
  - left. exists b. naive_solver.
  - destruct Hfl as [_ Hnil]. rewrite Hnil in Hfull. cbn in Hfull. lia.
  - right. exists e. naive_solver.
Qed.

(** Running a buffer and then [k]: if [k] delivers what follows the buffer, the whole
    delivers what the decoder holds, the buffer's rows and what follows. *)
Lemma decode_chunk_then fuel chunk (k : unit -> Gen D ConnectorError RecordBatch unit) d rows failure :
  valid d ->
  2 * length chunk + (if length (buffered d) =? batch_size then 1 else 0) < fuel ->
  match (parse step (position d) chunk).2 with
  | Ok q => forall d', valid d' -> position d' = q ->
      exists bs r d'', k tt d' = (bs, Some r, d'') /\
        decoded batch_size converted (buffered d' ++ rows) failure bs r
  | Err e => rows = [] /\ failure = Some (decode_error format e)
  end ->
  exists bs r d'', gbind (decode_chunk format fuel chunk) k d = (bs, Some r, d'') /\
    decoded batch_size converted (buffered d ++ (parse step (position d) chunk).1 ++ rows) failure bs r.
Proof using batch_size_positive.
  revert chunk d. induction fuel as [|fuel IH]; intros chunk d Hd Hfuel Hk; [lia|]. cbn [decode_chunk].
  destruct chunk as [|a s].
  { cbn in Hk. destruct (Hk d Hd eq_refl) as (bs & r & d' & Hrun & Hdec). exists bs, r, d'.
    split; [|done]. unfold gbind, gret. by rewrite Hrun. }
  remember (a :: s) as chunk eqn:Hchunk. assert (Hlen : 0 < length chunk) by (subst; cbn; lia).
  pose proof (decode_some d chunk ltac:(by subst) Hd) as Hlaw.
  replace (match chunk with [] => gret tt | _ :: _ => _ end) with
    (let! consumed := call (map_err (decode_error format) (decode chunk)) in
     if consumed =? 0
     then let! b := call (map_err (flush_error format) flush) in
          match b with Some batch => yield batch ;! decode_chunk format fuel chunk | None => gret tt end
     else decode_chunk format fuel (drop consumed chunk)) by (by subst).
  rewrite gbind_assoc. destruct (decode chunk d) as [[n|e] d1] eqn:Hdec; cycle 1.
  { destruct Hlaw as (rs & Hp & Hrs). rewrite Hp in Hk |- *. cbn [fst snd] in Hk |- *. destruct Hk as [-> ->].
    eexists [], _, d1. split; [apply gbind_call_err; unfold map_err; by rewrite Hdec|].
    eapply (decoded_failure _ _ _ _ [] (buffered d ++ rs)); [done|by rewrite app_nil_r|done|constructor|constructor]. }
  destruct Hlaw as (Hd1 & Hn & rs & Hp & Hb & Hfull).
  rewrite (gbind_call_ok _ _ _ n d1) by (unfold map_err; by rewrite Hdec).
  destruct (Nat.eqb_spec n 0) as [->|Hn0].
  - cbn in Hp. injection Hp as <- Hq. rewrite app_nil_r in Hb.
    destruct Hfull as [Hfull Hpart]; [lia|]. rewrite gbind_assoc.
    destruct (flush_full d1 Hd1 Hfull Hpart) as (d2 & [(b & Hflush & Hd2 & Hbatch & Hb2 & Hq2)|(e & Hflush & He)]).
    + rewrite (gbind_call_ok _ _ _ (Some b) d2) by (unfold map_err; by rewrite Hflush).
      rewrite gbind_assoc, gbind_yield.
      destruct (IH chunk d2) as (bs & r & d3 & Hrun & Hdel); [done| |by rewrite Hq2, <- Hq|].
      { rewrite <- Hb, Hfull, Nat.eqb_refl in Hfuel. rewrite Hb2. destruct (Nat.eqb_spec (length (@nil Row)) batch_size); cbn in *; lia. }
      rewrite Hrun. exists (b :: bs), r, d3. split; [done|].
      rewrite <- Hb. apply decoded_cons; [done|done|by rewrite Hbatch|]. by rewrite Hb2, Hq2, <- Hq in Hdel.
    + eexists [], _, d2. split; [apply gbind_call_err; unfold map_err; by rewrite Hflush|].
      eapply (decoded_batch _ _ _ _ [] (buffered d1)); [by rewrite Hb|lia|by rewrite He|constructor|constructor].
  - assert (Hsplit : parse step (position d) chunk =
      (rs ++ (parse step (position d1) (drop n chunk)).1, (parse step (position d1) (drop n chunk)).2)).
    { rewrite <- (take_drop n chunk) at 1. rewrite parse_app, Hp. by destruct (parse step (position d1) (drop n chunk)). }
    rewrite Hsplit in Hk |- *. cbn [fst snd] in Hk |- *.
    destruct (IH (drop n chunk) d1) as (bs & r & d2 & Hrun & Hdel); [done| |done|].
    { rewrite length_drop. destruct (Nat.eqb_spec (length (buffered d1)) batch_size); lia. }
    exists bs, r, d2. split; [done|]. by rewrite Hb, <- !app_assoc in Hdel; rewrite <- !app_assoc.
Qed.

Lemma text_rows_app q b s io :
  text_rows q (b ++ s) io =
  match parse step q b with
  | (rs, Ok q') => (rs ++ (text_rows q' s io).1, (text_rows q' s io).2)
  | (rs, Err e) => (rs, Some (decode_error format e))
  end.
Proof.
  unfold text_rows. rewrite parse_app. destruct (parse step q b) as [rs [q'|e]]; [|done].
  destruct (parse step q' s) as [rs1 [q1|e]]; [|done]. destruct io; [done|].
  by destruct (finish q1) as [rs2 [q2|e]]; cbn; rewrite ?app_assoc.
Qed.

Lemma decode_end_ends d :
  valid d ->
  exists bs r d', decode_end format d = (bs, Some r, d') /\
    decoded batch_size converted (buffered d ++ (text_rows (position d) [] None).1)
      (text_rows (position d) [] None).2 bs r.
Proof.
  intros Hd. unfold text_rows, decode_end. cbn [parse]. pose proof (decode_none d Hd) as Hlaw.
  destruct (decode [] d) as [[n|e] d1] eqn:Hdec;
    [destruct Hlaw as (Hd1 & rs & -> & Hb)|destruct Hlaw as (rs & -> & Hlaw)]; cbn [app fst snd]; cycle 1.
  { eexists [], _, d1. split; [apply gbind_call_err; unfold map_err; by rewrite Hdec|].
    by eapply (decoded_failure _ _ _ _ [] (buffered d ++ rs)); try constructor. }
  rewrite (gbind_call_ok _ _ _ n d1) by (unfold map_err; by rewrite Hdec).
  pose proof (flush_rows d1 Hd1) as Hfl. pose proof (buffered_bound d1 Hd1) as Hb1. rewrite <- Hb. destruct (flush d1) as [[[b|]|e] d2] eqn:Hflush.
  - rewrite (gbind_call_ok _ _ _ (Some b) d2) by (unfold map_err; by rewrite Hflush).
    destruct Hfl as (_ & -> & Hne & Hbatch & _). exists [b], (Ok tt), d2. split; [done|]. apply decoded_all; [done|].
    rewrite row_chunks_last by done. rewrite decide_False by done. constructor; [by rewrite Hbatch|constructor].
  - rewrite (gbind_call_ok _ _ _ None d2) by (unfold map_err; by rewrite Hflush).
    destruct Hfl as [-> ->]. exists [], (Ok tt), d2. split; [done|]. apply decoded_all; [done|constructor].
  - eexists [], _, d2. split; [apply gbind_call_err; unfold map_err; by rewrite Hflush|].
    destruct Hfl as [->|(-> & Hne & He)].
    + by eapply (decoded_failure _ _ _ _ [] (buffered d1)); try constructor.
    + eapply (decoded_batch _ _ _ _ [] (buffered d1) []); [by rewrite app_nil_r| |by rewrite He|constructor..].
      split; [by destruct (buffered d1); cbn; [|lia]|done].
Qed.

Lemma decode_body_ends bufs d :
  valid d ->
  let (s, io) := read_text bufs in
  exists bs r d', decode_body format bufs d = (bs, Some r, d') /\
    decoded batch_size converted (buffered d ++ (text_rows (position d) s io).1) (text_rows (position d) s io).2 bs r.
Proof using batch_size_positive.
  revert d. induction bufs as [|[b|e] bufs IH]; intros d Hd; cbn [read_text].
  - destruct (decode_end_ends d Hd) as (bs & r & d' & Hrun & Hdec). exists bs, r, d'. split; [|done].
    unfold decode_body, gbind. cbn. by rewrite Hrun.
  - destruct (read_text bufs) as [s io]. rewrite text_rows_app. unfold decode_body. cbn [decode_buffers rmap_err].
    set (k := fun _ : unit => decode_body format bufs).
    assert (Hk : forall d, gbind (gbind (glift (Ok b)) (fun chunk =>
        decode_chunk format (chunk_fuel chunk) chunk ;! decode_buffers format bufs)) (fun _ => decode_end format) d =
      gbind (decode_chunk format (chunk_fuel b) b) k d).
    { intros d1. rewrite gbind_assoc, gbind_lift, gbind_assoc. done. }
    rewrite Hk. pose proof (decode_chunk_then (chunk_fuel b) b k d) as Hc.
    destruct (parse step (position d) b) as [rs [q|e]] eqn:Hp; cbn [fst snd] in *.
    + apply Hc; [done|unfold chunk_fuel; destruct (_ =? _); lia|]. intros d' Hd' <-. by apply IH.
    + rewrite <- (app_nil_r rs). apply Hc; [done|unfold chunk_fuel; destruct (_ =? _); lia|done].
  - exists [], (Err (read_error format e)), d. split; [done|].
    eapply (decoded_failure _ _ _ _ [] (buffered d)); [done|cbn; by rewrite app_nil_r|by apply buffered_bound|constructor..].
Qed.

End Correct.

(** *** Dispatch *)

(** A decoder that behaves as another one behind a constructor. *)
Section Embed.
Context {D D' : Type} `{!RowDecoder D, !RowDecoder D'}.
Variable inj : D -> D'.
Hypothesis decode_inj : forall buf d, decode buf (inj d) = let (r, d1) := decode buf d in (r, inj d1).
Hypothesis flush_inj : forall d, flush (inj d) = let (r, d1) := flush d in (r, inj d1).

Definition embedded {A} (g : Gen D ConnectorError RecordBatch A) (g' : Gen D' ConnectorError RecordBatch A) : Prop :=
  forall d, g' (inj d) = let '(bs, r, d1) := g d in (bs, r, inj d1).

Lemma embedded_bind {A C} g g' (k : A -> Gen D ConnectorError RecordBatch C) k' :
  embedded g g' -> (forall a, embedded (k a) (k' a)) -> embedded (gbind g k) (gbind g' k').
Proof.
  intros Hg Hk d. unfold gbind. rewrite Hg. destruct (g d) as [[bs [[a|e]|]] d1]; [|done..].
  rewrite Hk. by destruct (k a d1) as [[??]?].
Qed.

Lemma embedded_call {A} f (m : M D string A) m' :
  (forall d, m' (inj d) = let (r, d1) := m d in (r, inj d1)) -> embedded (call (map_err f m)) (call (map_err f m')).
Proof. intros Hm d. unfold call, map_err. rewrite Hm. by destruct (m d) as [[a|e] d1]. Qed.

Lemma decode_chunk_embed format fuel chunk :
  embedded (decode_chunk format fuel chunk) (decode_chunk format fuel chunk).
Proof using decode_inj flush_inj.
  revert chunk. induction fuel as [|fuel IH]; intros chunk; [done|]. cbn [decode_chunk].
  destruct chunk as [|a s]; [done|]. apply embedded_bind; [by apply embedded_call|]. intros [|n]; [|apply IH].
  cbn [Nat.eqb]. apply embedded_bind; [by apply embedded_call|]. intros [b|]; [|done]. by apply embedded_bind.
Qed.

Lemma decode_body_embed format bufs : embedded (decode_body format bufs) (decode_body format bufs).
Proof using decode_inj flush_inj.
  apply embedded_bind.
  - induction bufs as [|buf bufs IH]; [done|]. cbn [decode_buffers]. apply embedded_bind; [done|]. intros chunk.
    apply embedded_bind; [apply decode_chunk_embed|done].
  - intros _. apply embedded_bind; [by apply embedded_call|]. intros _.
    apply embedded_bind; [by apply embedded_call|]. by intros [b|].
Qed.
End Embed.

(** ** Samples *)

Definition MAX_SCHEMA_SAMPLE : N := 1048576.

Fixpoint rposition {A} (p : A -> bool) (l : list A) : option nat :=
  match l with
  | [] => None
  | a :: l => match rposition p l with
              | Some i => Some (S i)
              | None => if p a then Some 0 else None
              end
  end.

(** The loop of [read_sample]: what was read, and whether the limit was hit. *)
Fixpoint sample_loop (buf : bytes) (bufs : list (result string bytes)) : result ConnectorError (bytes * bool) :=
  match bufs with
  | [] => Ok (buf, false)
  | Err e :: _ => Err (IOError ("Stream read error: " +:+ e))
  | Ok chunk :: bufs =>
      let buf := buf ++ chunk in
      if (MAX_SCHEMA_SAMPLE <=? N.of_nat (length buf))%N then Ok (buf, true) else sample_loop buf bufs
  end.

Definition truncate_line (buf : bytes) : bytes :=
  match rposition (Ascii.eqb NEWLINE) buf with Some pos => take (S pos) buf | None => buf end.

Definition sample_of (bufs : list (result string bytes)) : result ConnectorError bytes :=
  let?? s := sample_loop [] bufs in
  let (buf, hit_limit) := s in
  Ok (if hit_limit then truncate_line buf else buf).

Lemma rposition_some {A} (p : A -> bool) l i :
  rposition p l = Some i ->
  exists a, l !! i = Some a /\ p a = true /\ Forall (fun b => p b = false) (drop (S i) l).
Proof.
  revert i. induction l as [|a l IH]; intros i; cbn; [done|]. destruct (rposition p l) as [j|] eqn:Hj.
  - intros [= <-]. apply (IH j eq_refl).
  - destruct (p a) eqn:Ha; [|done]. intros [= <-]. exists a. split_and!; [done|done|]. cbn. rewrite drop_0. clear IH.
    induction l as [|b l IH]; [constructor|]. cbn in Hj. destruct (rposition p l); [done|].
    destruct (p b) eqn:Hb; [done|]. constructor; [done|]. by apply IH.
Qed.

Lemma rposition_none {A} (p : A -> bool) l : rposition p l = None -> Forall (fun b => p b = false) l.
Proof.
  induction l as [|b l IH]; cbn; [constructor|]. destruct (rposition p l); [done|].
  destruct (p b) eqn:Hb; [done|]. constructor; [done|]. by apply IH.
Qed.

(** The sample read from an object: either all of it, or at least 1 MiB of it (and
    not a buffer more). *)
Lemma sample_loop_spec buf bufs s hit :
  (N.of_nat (length buf) < MAX_SCHEMA_SAMPLE)%N -> sample_loop buf bufs = Ok (s, hit) ->
  exists pre post, bufs = (Ok <$> pre) ++ post /\ s = buf ++ concat pre /\
    if hit then (MAX_SCHEMA_SAMPLE <= N.of_nat (length s))%N /\
      (N.of_nat (length (concat (removelast pre)) + length buf) < MAX_SCHEMA_SAMPLE)%N
    else post = [] /\ (N.of_nat (length s) < MAX_SCHEMA_SAMPLE)%N.
Proof.
  revert buf. induction bufs as [|[c|e] bufs IH]; intros buf Hb; cbn [sample_loop]; [| |done].
  - intros [= <- <-]. exists [], []. cbn [concat]. by rewrite !app_nil_r.
  - cbv zeta. destruct (N.leb_spec MAX_SCHEMA_SAMPLE (N.of_nat (length (buf ++ c)))) as [Hle|Hlt].
    + intros [= <- <-]. exists [c], bufs. cbn [concat removelast length]. rewrite app_nil_r. done.
    + intros Hs. destruct (IH (buf ++ c) Hlt Hs) as (pre & post & -> & -> & Hc). exists (c :: pre), post.
      split; [done|]. split; [cbn; by rewrite app_assoc|]. destruct hit; [|done].
      destruct Hc as [Hge Hlast]. split; [done|]. destruct pre as [|c' pre].
      { cbn in Hge. rewrite app_nil_r in Hge. lia. }
      change (removelast (c :: c' :: pre)) with (c :: removelast (c' :: pre)). cbn [concat] in *.
      rewrite !length_app in *. lia.
Qed.

Definition complete_lines (s : bytes) : Prop := exists s', s = s' ++ [NEWLINE].

(** A schema is inferred from whole lines. A sample is the whole object if that is
    smaller than 1 MiB; otherwise it is a prefix of the object that ends with a line
    end, the last one among the bytes read, unless those hold no line end at all. *)
Lemma sample_whole_lines bufs s :
  sample_of bufs = Ok s ->
  (read_text bufs = (s, None) /\ (N.of_nat (length s) < MAX_SCHEMA_SAMPLE)%N) \/
  (exists rest, ~ (NEWLINE ∈ rest) /\ (MAX_SCHEMA_SAMPLE <= N.of_nat (length (s ++ rest)))%N /\
     (exists tail, (read_text bufs).1 = s ++ rest ++ tail) /\
     (complete_lines s \/ rest = [] /\ ~ (NEWLINE ∈ s))).
Proof.
  unfold sample_of. destruct (sample_loop [] bufs) as [[buf hit]|] eqn:Hl; [|done]. cbn [rbind]. intros [= <-].
  destruct (sample_loop_spec [] bufs buf hit) as (pre & post & -> & -> & Hc); [done|done|]. cbn [app] in *.
  assert (Hread : forall post, read_text ((Ok <$> pre) ++ post) = (concat pre ++ (read_text post).1, (read_text post).2)).
  { clear. intros post. induction pre as [|c pre IH]; cbn; [by destruct (read_text post)|].
    by rewrite IH, app_assoc. }
  assert (Hno : forall l, Forall (fun b => Ascii.eqb NEWLINE b = false) l -> NEWLINE ∉ l).
  { intros l Hf Hin. rewrite Forall_forall in Hf. specialize (Hf _ Hin). by rewrite Ascii.eqb_refl in Hf. }
  rewrite Hread. destruct hit; cycle 1.
  { left. destruct Hc as [-> Hlt]. cbn. by rewrite app_nil_r. }
  right. destruct Hc as [Hge _]. unfold truncate_line.
  destruct (rposition (Ascii.eqb NEWLINE) (concat pre)) as [i|] eqn:Hi.
  - apply rposition_some in Hi as (a & Ha & Hn & Hf). apply Ascii.eqb_eq in Hn as <-.
    exists (drop (S i) (concat pre)).
    split_and!; [by apply Hno|by rewrite take_drop|eexists; by rewrite app_assoc, take_drop|].
    left. exists (take i (concat pre)). by apply take_S_r.
  - apply rposition_none in Hi. exists [].
    split_and!; [by apply not_elem_of_nil|by rewrite app_nil_r|by eexists|].
    right. split; [done|]. by apply Hno.
Qed.

(** ** The readers of each format *)

(** [opendal]'s errors. *)
Inductive ErrorKind : Type := OdNotFound | OdPermissionDenied | OdOther.
Record OpError : Type := { od_kind : ErrorKind; od_text : string }.

(** [parquet]'s [AsyncFileReader] and [MetadataSuffixFetch]: how its reader reads a
    file. Ranges are half open. *)
Record AsyncFileReader (W Metadata : Type) : Type := {
  get_bytes : N * N -> M W string bytes;
  get_byte_ranges : list (N * N) -> M W string (list bytes);
  get_metadata : M W string Metadata;
  fetch_suffix : N -> M W string bytes
}.
Arguments get_bytes {W Metadata}.
Arguments get_byte_ranges {W Metadata}.
Arguments get_metadata {W Metadata}.
Arguments fetch_suffix {W Metadata}.

(** [opendal]'s reader of an object; arrow's schema inference, decoders and the JSON
    reader over a text of lines; the Parquet reader; [serde_json]. *)
Class FormatLib (W : Type) : Type := {
  Reader : Type;
  into_stream : Reader -> M W OpError (list (result OpError bytes));
  read_range : Reader -> N * N -> M W OpError bytes;
  read_suffix : Reader -> N -> M W OpError bytes;
  fetch_ranges : Reader -> list (N * N) -> M W OpError (list bytes);
  CsvDecoder : Type;
  csv_rows :: RowDecoder CsvDecoder;
  csv_decoder : Schema -> nat -> CsvDecoder;
  infer_csv : bytes -> result string Schema;
  JsonDecoder : Type;
  json_rows :: RowDecoder JsonDecoder;
  json_decoder : Schema -> nat -> result string JsonDecoder;
  infer_jsonl : bytes -> result string Schema;
  infer_json : list json -> result string Schema;
  json_reader : Schema -> nat -> bytes -> result string (list (result string RecordBatch));
  from_slice : bytes -> result string json;
  to_writer : json -> result string bytes;
  ParquetMetaData : Type;
  load_via_suffix_and_finish : (N -> M W string bytes) -> M W string ParquetMetaData;
  ParquetBuilder : Type;
  parquet_new : AsyncFileReader W ParquetMetaData -> M W string ParquetBuilder;
  parquet_schema : ParquetBuilder -> Schema;
  parquet_build : ParquetBuilder -> nat -> result string (list (result string RecordBatch))
}.

Section Formats.
Context {W : Type} `{FL : FormatLib W}.

(** The elements of a stream; [None] is a stream that does not end. *)
Abbreviation QueryOutput := (M W ConnectorError (option (list (result ConnectorError RecordBatch)))).

(** The buffers of an object, with the texts of errors: what the readers report. *)
Definition open_stream (reader : Reader) : M W string (list (result string bytes)) :=
  let? bufs := map_err od_text (into_stream reader) in
  mret (rmap_err od_text <$> bufs).

Definition decode_stream (reader : Reader) (decoder : Decoder CsvDecoder JsonDecoder) (format : string) : QueryOutput :=
  let? bufs := map_err (fun e => IOError ("Failed to open " +:+ format +:+ " stream: " +:+ e)) (open_stream reader) in
  mret (try_stream (decode_body format bufs) decoder).1.

Definition read_sample (reader : Reader) : M W ConnectorError bytes :=
  let? bufs := map_err (fun e => IOError ("Failed to open stream: " +:+ e)) (open_stream reader) in
  lift (sample_of bufs).

Definition read_csv_schema (reader : Reader) : M W ConnectorError Schema :=
  let? buf := read_sample reader in
  lift (rmap_err (fun e => IOError ("Failed to infer CSV schema: " +:+ e)) (infer_csv buf)).

Definition read_csv_batches (reader : Reader) (schema : Schema) (n : nat) : QueryOutput :=
  decode_stream reader (DecoderCsv (csv_decoder schema n)) "CSV".

(** [u8::is_ascii_whitespace]: space, tab, line feed, form feed, carriage return. *)
Definition is_ascii_whitespace (a : ascii) : bool :=
  existsb (Ascii.eqb a) ["032"; "009"; "010"; "012"; "013"]%char.

Definition read_jsonl_schema (reader : Reader) : M W ConnectorError Schema :=
  let? buf := read_sample reader in
  if forallb is_ascii_whitespace buf then throw NoDataError
  else lift (rmap_err (fun e => IOError ("Failed to infer JSONL schema: " +:+ e)) (infer_jsonl buf)).

Definition read_jsonl_batches (reader : Reader) (schema : Schema) (n : nat) : QueryOutput :=
  let? decoder := lift (rmap_err (fun e => IOError ("Failed to build JSONL decoder: " +:+ e)) (json_decoder schema n)) in
  decode_stream reader (DecoderJson decoder) "JSONL".

(** The elements of a stream whose body may panic. *)
Abbreviation Elements := (option (list (result (failure ConnectorError) RecordBatch))).

Definition never_panics (o : option (list (result ConnectorError RecordBatch))) : Elements :=
  option_map (List.map (rmap_err Fail)) o.

(** *** JSON documents (json.rs) *)

Definition resolve_data_path (value : json) (path : string) : option json :=
  fold_left (fun current segment => current ≫= jget segment) (split "." path) (Some value).

Definition extract_rows (response : json) (data_path : option string) : result ConnectorError (list json) :=
  let?? target :=
    match data_path with
    | Some path => ok_or (resolve_data_path response path)
                     (CInvalidRequest ("data_path '" +:+ path +:+ "' not found in response"))
    | None => Ok response
    end in
  ok_or (as_array target) (CInvalidRequest "Response data is not a JSON array").

(** The rows as lines of JSON. *)
Definition json_lines (rows : list json) : result ConnectorError bytes :=
  let?? lines := rmapM (fun row => rmap_err (fun e => IOError ("Failed to serialize JSON row: " +:+ e)) (to_writer row)) rows in
  Ok (concat ((fun line => line ++ [NEWLINE]) <$> lines)).

Definition build_reader (rows : list json) (schema : Schema) (n : nat)
    : result ConnectorError (list (result string RecordBatch)) :=
  let?? jsonl := json_lines rows in
  rmap_err (fun e => IOError ("Failed to build JSON reader: " +:+ e)) (json_reader schema n jsonl).

Definition parse_document (data : bytes) : result ConnectorError json :=
  rmap_err (fun e => IOError ("Failed to parse JSON: " +:+ e)) (from_slice data).

Definition read_json_schema (data : bytes) (data_path : option string) : result ConnectorError Schema :=
  let?? value := parse_document data in
  let?? rows := extract_rows value data_path in
  match rows with
  | [] => Err NoDataError
  | _ => rmap_err (fun e => IOError ("Failed to infer JSON schema: " +:+ e)) (infer_json rows)
  end.

(** The batches of one reader. *)
Fixpoint yield_batches (batches : list (result string RecordBatch)) : Gen unit (failure ConnectorError) RecordBatch unit :=
  match batches with
  | [] => gret tt
  | b :: batches =>
      let! b := glift (rmap_err (fun e => Fail (IOError ("JSON decode error: " +:+ e))) b) in
      yield b ;! yield_batches batches
  end.

Fixpoint json_chunks (schema : Schema) (n : nat) (chunks : list (list json))
    : Gen unit (failure ConnectorError) RecordBatch unit :=
  match chunks with
  | [] => gret tt
  | chunk :: chunks =>
      let! reader := glift (rmap_err Fail (build_reader chunk schema n)) in
      yield_batches reader ;! json_chunks schema n chunks
  end.

(** [rows.chunks(0)] panics. *)
Definition json_body (data : bytes) (schema : Schema) (n : nat) (data_path : option string)
    : Gen unit (failure ConnectorError) RecordBatch unit :=
  let! value := glift (rmap_err Fail (parse_document data)) in
  let! rows := glift (rmap_err Fail (extract_rows value data_path)) in
  if n =? 0 then glift (Err Panic) else json_chunks schema n (row_chunks n rows).

Definition read_json_batches (data : bytes) (schema : Schema) (n : nat) (data_path : option string)
    : option (list (result (failure ConnectorError) RecordBatch)) :=
  (try_stream (json_body data schema n data_path) tt).1.

(** *** Parquet *)

(** [OpendalAsyncReader]: an object read by ranges; the metadata from its end. *)
Definition opendal_async_reader (reader : Reader) : AsyncFileReader W ParquetMetaData :=
  let suffix n := map_err od_text (read_suffix reader n) in
  {| get_bytes range := map_err od_text (read_range reader range);
     get_byte_ranges ranges := map_err od_text (fetch_ranges reader ranges);
     get_metadata := load_via_suffix_and_finish suffix;
     fetch_suffix := suffix |}.

Definition read_parquet_schema (reader : Reader) : M W ConnectorError Schema :=
  let? builder := map_err (fun e => IOError ("Failed to read Parquet metadata: " +:+ e)) (parquet_new (opendal_async_reader reader)) in
  mret (parquet_schema builder).

Definition read_parquet_batches (reader : Reader) (n : nat) : QueryOutput :=
  let? builder := map_err (fun e => IOError ("Failed to open Parquet reader: " +:+ e)) (parquet_new (opendal_async_reader reader)) in
  let? stream := lift (rmap_err (fun e => IOError ("Failed to build Parquet reader: " +:+ e)) (parquet_build builder n)) in
  mret (Some (rmap_err (fun e => IOError ("Parquet read error: " +:+ e)) <$> stream)).

(** *** What the readers deliver *)

Section Deliver.
Variables (schema : Schema) (n : nat).
Hypothesis n_positive : 0 < n.
Context `{csv_laws : !DecoderLaws n CsvDecoder, json_laws : !DecoderLaws n JsonDecoder}.
Hypothesis csv_fresh : valid (csv_decoder schema n) /\ buffered (csv_decoder schema n) = [].
Hypothesis json_fresh : forall d, json_decoder schema n = Ok d -> valid d /\ buffered d = [].

(** The elements of a stream over a text that was read as [bufs], by a decoder. *)
Definition delivers {D} `{!RowDecoder D, !DecoderLaws n D} (format : string) (d : D)
    (bufs : list (result string bytes)) (elements : list (result ConnectorError RecordBatch)) : Prop :=
  let (s, io) := read_text bufs in
  exists bs r, elements = Streams.items bs r /\
    decoded n (fun rows => rmap_err (flush_error format) (to_batch rows))
      (text_rows format (position d) s io).1 (text_rows format (position d) s io).2 bs r.

Lemma decode_stream_delivers {D} `{!RowDecoder D, !DecoderLaws n D} (inj : D -> Decoder CsvDecoder JsonDecoder)
    reader d format w bufs w' :
  (forall buf d, decode buf (inj d) = let (r, d1) := decode buf d in (r, inj d1)) ->
  (forall d, flush (inj d) = let (r, d1) := flush d in (r, inj d1)) ->
  valid d -> buffered d = [] -> open_stream reader w = (Ok bufs, w') ->
  exists elements, decode_stream reader (inj d) format w = (Ok (Some elements), w') /\ delivers format d bufs elements.
Proof using n_positive.
  intros Hdec Hfl Hv Hb Hopen. unfold decode_stream, delivers.
  rewrite (mseq_run _ _ _ bufs w') by (unfold map_err; by rewrite Hopen).
  pose proof (decode_body_ends n_positive format bufs d Hv) as Hends. destruct (read_text bufs) as [s io].
  destruct Hends as (bs & r & d' & Hrun & Hdel). exists (Streams.items bs r). split; [|exists bs, r; by rewrite Hb in Hdel].
  unfold try_stream. by rewrite (decode_body_embed inj Hdec Hfl format bufs d), Hrun.
Qed.

(** C20: reading a CSV or JSON Lines file depends on its text only, and ends. However
    the object is cut into buffers, empty ones included, the stream ends and delivers
    the rows of the whole text in order, in batches of exactly the batch size except
    for the last; a row that spans buffers is read as one, and a last row without a
    line end is not lost. If the text is malformed, cannot be read to its end, or a
    batch cannot be converted, the stream ends with that error, and the batches
    before hold the rows before it, of which at most one batch is missing. *)
Theorem files_delivered reader w bufs w' :
  into_stream reader w = (Ok bufs, w') ->
  (exists elements, read_csv_batches reader schema n w = (Ok (Some elements), w') /\
     delivers "CSV" (csv_decoder schema n) (rmap_err od_text <$> bufs) elements) /\
  (forall d, json_decoder schema n = Ok d ->
     exists elements, read_jsonl_batches reader schema n w = (Ok (Some elements), w') /\
       delivers "JSONL" d (rmap_err od_text <$> bufs) elements).
Proof using n_positive csv_fresh json_fresh.
  intros Hinto.
  assert (Hopen : open_stream reader w = (Ok (rmap_err od_text <$> bufs), w')).
  { unfold open_stream. by rewrite (mseq_run _ _ _ bufs w') by (unfold map_err; by rewrite Hinto). }
  split.
  - apply (decode_stream_delivers DecoderCsv); [done|done|apply csv_fresh|apply csv_fresh|done].
  - intros d Hd. unfold read_jsonl_batches. rewrite Hd. cbn [rmap_err]. rewrite mseq_lift_ok.
    apply (decode_stream_delivers DecoderJson); [done|done|by apply json_fresh|by apply json_fresh|done].
Qed.
End Deliver.

(** A JSON document is delivered the same way: every chunk of its rows is written as
    lines and read back as one batch. *)
Lemma json_rows_delivered schema n data data_path value rows
    (json_batch : list json -> result string RecordBatch) :
  0 < n -> from_slice data = Ok value -> extract_rows value data_path = Ok rows ->
  (forall chunk, 0 < length chunk <= n ->
     exists text, json_lines chunk = Ok text /\ json_reader schema n text = Ok [json_batch chunk]) ->
  exists bs r, json_body data schema n data_path tt = (bs, Some r, tt) /\
    decoded n (fun c => rmap_err (fun e => Fail (IOError ("JSON decode error: " +:+ e))) (json_batch c)) rows None bs r.
Proof.
  intros Hn Hv Hrows Hreader. unfold json_body, parse_document. rewrite Hv. cbn [rmap_err]. rewrite gbind_lift, Hrows.
  cbn [rmap_err]. rewrite gbind_lift, (proj2 (Nat.eqb_neq n 0)) by lia. clear Hrows Hv value.
  remember (length rows) as m eqn:Hm. revert rows Hm. induction (lt_wf m) as [m _ IH]. intros rows ->.
  destruct (decide (rows = [])) as [->|Hne].
  { exists [], (Ok tt). split; [done|]. apply decoded_all; [done|constructor]. }
  assert (Hlen : 0 < length rows) by (destruct rows; [done|cbn; lia]).
  assert (Hsplit : row_chunks n rows = take n rows :: row_chunks n (drop n rows)).
  { destruct rows as [|x l]; [done|]. unfold row_chunks at 1. cbn [length row_chunks_fuel]. f_equal.
    apply row_chunks_fuel_enough; [done|]. rewrite length_drop. cbn. lia. }
  rewrite Hsplit. cbn [json_chunks]. destruct (Hreader (take n rows)) as (text & Ht & Hr); [rewrite length_take; lia|].
  unfold build_reader. rewrite Ht. cbn [rbind]. rewrite Hr. cbn [rmap_err].
  rewrite gbind_lift. cbn [yield_batches]. rewrite gbind_assoc. destruct (json_batch (take n rows)) as [b|e] eqn:Hb; cycle 1.
  { eexists [], _. split; [done|].
    eapply (decoded_batch _ _ _ _ [] (take n rows) (drop n rows)); [by rewrite app_nil_l, take_drop|rewrite length_take; lia|by rewrite Hb|constructor..]. }
  cbn [rmap_err]. rewrite gbind_lift, gbind_assoc, gbind_yield.
  destruct (IH (length (drop n rows)) ltac:(rewrite length_drop; lia) (drop n rows) eq_refl) as (bs & r & Hrun & Hdel).
  exists (b :: bs), r. split.
  { unfold gbind, gret. by rewrite Hrun. }
  destruct (Nat.le_gt_cases n (length rows)) as [Hle|Hlt].
  - rewrite <- (take_drop n rows). apply decoded_cons; [done|rewrite length_take; lia|by rewrite Hb|done].
  - rewrite take_ge in Hb by lia. rewrite drop_ge in Hdel by lia. apply decoded_nil in Hdel as [-> ->].
    apply decoded_all; [done|]. rewrite Hsplit, take_ge, drop_ge by lia. constructor; [by rewrite Hb|constructor].
Qed.
End Formats.
End Decoding.

(** ** A concrete decoder *)

(** Every byte is a row; the decoder holds its batch size and the bytes read. *)
Definition sample_bytes_batch (l : bytes) : RecordBatch :=
  ([nullable "byte" Utf8], [StringArray ((fun a => Some (String a "")) <$> l)]).

#[local] Instance sample_decoder : RowDecoder (nat * bytes) := {|
  decode buf d := let k := Nat.min (d.1 - length d.2) (length buf) in (Ok k, (d.1, d.2 ++ take k buf));
  flush d := match d.2 with [] => (Ok None, d) | _ => (Ok (Some (sample_bytes_batch d.2)), (d.1, [])) end
|}.

Definition byte_step (q : unit) (a : ascii) : list ascii * result string unit := ([a], Ok tt).

Lemma parse_bytes s : parse byte_step tt s = (s, Ok tt).
Proof. induction s as [|a s IH]; [done|]. cbn. by rewrite IH. Qed.

#[local] Instance sample_decoder_laws n : DecoderLaws n (nat * bytes).
Proof.
  refine {| step := byte_step; finish := fun _ => ([], Ok tt); partial := fun _ => None;
            to_batch := fun l => Ok (sample_bytes_batch l); valid := fun d => d.1 = n /\ length d.2 <= n;
            buffered := snd; position := fun _ => tt |}.
  - by intros d [_ Hd].
  - intros d buf _ [Hn Hd]. cbn. split_and!; [done|rewrite length_app, length_take; lia|lia|].
    eexists. split; [apply parse_bytes|]. split; [done|]. intros Hk. rewrite length_app, length_take. split; [lia|done].
  - intros d [Hn Hd]. cbn. rewrite take_nil, app_nil_r. split; [done|]. exists []. by rewrite app_nil_r.
  - intros [m [|a l]] [Hn Hd]; cbn in *; [done|]. split_and!; [done|lia|done..].
Defined.

#[export] Instance sample_formats {W} : FormatLib W := {|
  Reader := list (result OpError bytes);
  into_stream r := mret r; read_range _ _ := mret []; read_suffix _ _ := mret []; fetch_ranges _ _ := mret [];
  csv_decoder _ n := (n, []); infer_csv _ := Err "";
  json_decoder _ n := Ok (n, []); infer_jsonl _ := Err ""; infer_json _ := Ok [];
  json_reader _ _ _ := Err ""; from_slice _ := Ok (JArray [JNull]); to_writer _ := Err "";
  ParquetMetaData := unit; load_via_suffix_and_finish _ := mret tt;
  ParquetBuilder := unit; parquet_new _ := throw ""; parquet_schema _ := []; parquet_build _ _ := Err ""
|}.

Definition sample_buffers : list (result OpError bytes) := [Ok ["a"; "b"]; Ok []; Ok ["c"]]%char.

Lemma files_delivered_witness :
  exists elements, read_csv_batches (FL := sample_formats) sample_buffers [] 2 tt = (Ok (Some elements), tt) /\
    delivers 2 "CSV" (2, [] : bytes) (rmap_err od_text <$> sample_buffers) elements.
Proof.
  apply (files_delivered (FL := sample_formats) [] 2 ltac:(lia) (csv_laws := sample_decoder_laws 2)
    (json_laws := sample_decoder_laws 2) ltac:(cbn; split_and!; [done|lia|done])
    ltac:(intros d [= <-]; cbn; split_and!; [done|lia|done]) sample_buffers tt sample_buffers tt eq_refl).
Defined.
