(* ===== verification/S3.v ===== *)
(** The S3 connector ([connectors/s3/src/connector.rs]): credentials, listing,
    reading with the format readers and the cached JSON document, over an object store
    as a parameter. *)
From S2P Require Import Prelude Streams Text Like Json Floats Api Arrow Batches Readers.
From Stdlib Require Import NArith.

Definition KEY_BUCKET : string := "AWS_S3_BUCKET".
Definition KEY_ACCESS_KEY_ID : string := "AWS_ACCESS_KEY_ID".
Definition KEY_SECRET_ACCESS_KEY : string := "AWS_SECRET_ACCESS_KEY".
Definition KEY_REGION : string := "AWS_DEFAULT_REGION".
Definition KEY_ENDPOINT : string := "AWS_S3_ENDPOINT".
Definition KEY_CA_CERT : string := "AWS_S3_CA_CERT".

Definition non_blank (v : option string) : option string :=
  v ← v; if is_empty (trim v) then None else Some (trim v).

Definition resolve_region (credentials : gmap string string) : string :=
  default "us-east-1" (non_blank (credentials !! KEY_REGION)).

(** What [build_operator] configures the client with. *)
Record OperatorConfig : Type := {
  oc_bucket : string;
  oc_access_key : string;
  oc_secret_key : string;
  oc_region : string;
  oc_endpoint : option string;
  oc_ca_cert : option string
}.

Definition required (k : string) (credentials : gmap string string) : result ConnectorError string :=
  ok_or (credentials !! k) (ConfigError (k +:+ " is required")).

(** The credentials part of [build_operator]. *)
Definition operator_config (credentials : gmap string string) : result ConnectorError OperatorConfig :=
  let?? bucket := required KEY_BUCKET credentials in
  let?? access := required KEY_ACCESS_KEY_ID credentials in
  let?? secret := required KEY_SECRET_ACCESS_KEY credentials in
  Ok {| oc_bucket := bucket; oc_access_key := access; oc_secret_key := secret;
        oc_region := resolve_region credentials;
        oc_endpoint := non_blank (credentials !! KEY_ENDPOINT);
        oc_ca_cert := v ← credentials !! KEY_CA_CERT; if is_empty (trim v) then None else Some v |}.

(** ** The object store *)

Definition map_opendal_error (e : OpError) (context path : string) : ConnectorError :=
  match od_kind e with
  | OdNotFound => CNotFound ("'" +:+ path +:+ "' not found")
  | OdPermissionDenied => ConnectionError ("access denied for '" +:+ path +:+ "'")
  | OdOther => IOError (context +:+ " '" +:+ path +:+ "'")
  end.

(** A listed object: whether it is a file, and its path. *)
Record Entry : Type := { entry_is_file : bool; entry_path : string }.

Section S3.
Context {W : Type} `{AR : Arrow} `{FL : !FormatLib W}.
(** Opening a reader, in chunks of a size if one is given, listing below a prefix,
    [stat] and [check]. *)
Variable op_reader : string -> option N -> M W OpError Reader.
Variable op_list : string -> M W OpError (list Entry).
Variable op_stat : string -> M W OpError unit.
Variable op_check : M W OpError unit.

Definition MAX_JSON_BYTES : N := 134217728.

Definition too_large : ConnectorError := IOError "JSON file too large (limit 134217728 bytes)".

Definition byte_len (s : bytes) : N := N.of_nat (length s).

(** The loop of [read_json_checked]: [data] holds what was read so far. *)
Fixpoint read_chunks (path : string) (data : bytes) (l : list (result OpError bytes))
    : result ConnectorError bytes :=
  match l with
  | [] => Ok data
  | Err e :: _ => Err (map_opendal_error e "Failed to read" path)
  | Ok chunk :: l =>
      if N.ltb MAX_JSON_BYTES (byte_len data + byte_len chunk) then Err too_large
      else read_chunks path (data ++ chunk) l
  end.

Definition read_json_checked (path : string) : M W ConnectorError bytes :=
  let? reader := map_err (fun e => map_opendal_error e "Failed to create reader for" path) (op_reader path None) in
  let? s := map_err (fun e => map_opendal_error e "Failed to open stream for" path) (into_stream reader) in
  lift (read_chunks path [] s).

(** The chunk size of the connector's configuration. *)
Variable chunk_size : N.

Definition make_reader (path : string) : M W ConnectorError Reader :=
  map_err (fun e => map_opendal_error e "Failed to create S3 reader for" path) (op_reader path (Some chunk_size)).

(** ** A reader *)

(** The reader's only state is its cached document. *)
Abbreviation RW := (option (string * bytes) * W)%type.

Definition with_world {E A} (m : M W E A) : M RW E A :=
  fun s => let (r, w) := m (snd s) in (r, (fst s, w)).
Definition set_cache (c : option (string * bytes)) : M RW ConnectorError unit :=
  fun s => (Ok tt, (c, snd s)).
Definition get_cache : M RW ConnectorError (option (string * bytes)) := fun s => (Ok (fst s), s).

Variable format_hint : option string.

Definition detect_format (path : string) : result ConnectorError FileFormat := detect path format_hint.

Definition schema (query : string) : M RW ConnectorError (string * Schema) :=
  let? f := lift (detect_format query) in
  let? sc :=
    match f with
    | Parquet => let? reader := with_world (make_reader query) in with_world (read_parquet_schema reader)
    | Csv => let? reader := with_world (make_reader query) in with_world (read_csv_schema reader)
    | JsonLines => let? reader := with_world (make_reader query) in with_world (read_jsonl_schema reader)
    | JsonFile =>
        let? data := with_world (read_json_checked query) in
        let? sc := lift (read_json_schema data None) in
        set_cache (Some (query, data)) ;?
        mret sc
    end in
  mret (query, sc).

(** The elements of a stream. *)
Abbreviation Elements := (option (list (result (failure ConnectorError) RecordBatch))).

(** The document of a query is taken out of the cache. *)
Definition take_cached (query : string) : M RW ConnectorError (option bytes) :=
  let? c := get_cache in
  match c with
  | Some (p, d) => if String.eqb p query then set_cache None ;? mret (Some d) else mret None
  | None => mret None
  end.

Definition read_tabular (view : string * Schema) (batch_size : nat) : M RW ConnectorError Elements :=
  let? f := lift (detect_format view.1) in
  match f with
  | Parquet => let? reader := with_world (make_reader view.1) in
               let? s := with_world (read_parquet_batches reader batch_size) in mret (never_panics s)
  | Csv => let? reader := with_world (make_reader view.1) in
           let? s := with_world (read_csv_batches reader view.2 batch_size) in mret (never_panics s)
  | JsonLines => let? reader := with_world (make_reader view.1) in
                 let? s := with_world (read_jsonl_batches reader view.2 batch_size) in mret (never_panics s)
  | JsonFile =>
      let? cached := take_cached view.1 in
      let? data := match cached with
                   | Some d => mret d
                   | None => with_world (read_json_checked view.1)
                   end in
      mret (read_json_batches data view.2 batch_size None)
  end.

Definition can_read_binary (path : string) : M W ConnectorError unit :=
  map_err (fun e => map_opendal_error e "Cannot read" path) (op_stat path).

(** One batch per chunk of the object. *)
Definition read_binary (path : string) : M W ConnectorError (list (result ConnectorError RecordBatch)) :=
  let? reader := make_reader path in
  let? s := map_err (fun e => map_opendal_error e "Failed to open stream for" path) (into_stream reader) in
  mret (binary_batches ((fun r => rmap Stdlib.Strings.String.string_of_list_ascii
                                   (rmap_err (fun e => map_opendal_error e "Stream read error for" path) r)) <$> s)).

Definition check_connection : M W ConnectorError unit :=
  map_err (fun e => ConnectionError ("S3 connection check failed: " +:+ od_text e)) op_check.

(** ** Tables *)

Record S3Table : Type := { s3t_name : string; s3t_schema : Schema }.

(** The schema of a listed table: not read for JSON documents, empty if it cannot
    be read. *)
Definition table_schema (include_schema : bool) (path : string) : M RW ConnectorError Schema :=
  let is_json := match detect_format path with Ok JsonFile => true | _ => false end in
  if include_schema && negb is_json
  then let? r := attempt (schema path) in
       mret match r with Ok q => q.2 | Err _ => [] end
  else mret [].

Fixpoint build_tables (filter : option string) (include_schema : bool) (paths : list string)
    : M RW ConnectorError (list S3Table) :=
  match paths with
  | [] => mret []
  | p :: r =>
      if match filter with Some pat => negb (sql_like_match p pat) | None => false end
      then build_tables filter include_schema r
      else
        let? sc := table_schema include_schema p in
        let? ts := build_tables filter include_schema r in
        mret ({| s3t_name := p; s3t_schema := sc |} :: ts)
  end.

Definition list_tables (filter : option string) (include_schema : bool)
    : M RW ConnectorError (list S3Table) :=
  let list_prefix := default "" (like_prefix <$> filter) in
  let? entries := map_err (fun _ => IOError "failed to list S3 objects") (with_world (op_list list_prefix)) in
  let paths := List.filter (fun p => is_ok (detect_format p))
                 (entry_path <$> List.filter entry_is_file entries) in
  build_tables filter include_schema paths.

(** ** Properties *)

Lemma byte_len_app a b : byte_len (a ++ b) = (byte_len a + byte_len b)%N.
Proof. unfold byte_len. rewrite length_app. lia. Qed.

Lemma read_chunks_ok path data l r :
  read_chunks path data l = Ok r -> (byte_len data <= MAX_JSON_BYTES)%N ->
  (byte_len r <= MAX_JSON_BYTES)%N /\ exists cs, l = Ok <$> cs /\ r = data ++ concat cs.
Proof.
  revert data. induction l as [|[c|e] l IH]; intros data; cbn -[N.ltb MAX_JSON_BYTES byte_len].
  - intros [= <-] Hb. split; [done|]. exists []. by rewrite app_nil_r.
  - destruct (N.ltb_spec MAX_JSON_BYTES (byte_len data + byte_len c)); [done|]. intros Hr _.
    apply IH in Hr as (Hb & cs & -> & ->); [|by rewrite byte_len_app]. split; [done|].
    exists (c :: cs). split; [done|]. by rewrite <- app_assoc.
  - done.
Qed.

(** A JSON document is read once and never beyond its limit. When the schema of
    a JSON object was inferred, it was inferred from exactly the object's chunks,
    at most 128 MiB, and reading the table afterwards decodes those same bytes
    without another access to the object store, and drops them. *)
Theorem json_document_read_once query c w view c' w' :
  detect_format query = Ok JsonFile ->
  schema query (c, w) = (Ok view, (c', w')) ->
  exists data chunks reader w1, view.1 = query /\ read_json_schema data None = Ok view.2 /\
    (byte_len data <= MAX_JSON_BYTES)%N /\ data = concat chunks /\
    op_reader query None w = (Ok reader, w1) /\ into_stream reader w1 = (Ok (Ok <$> chunks), w') /\
    forall n, read_tabular view n (c', w') = (Ok (read_json_batches data view.2 n None), (None, w')).
Proof.
  intros Hd Hr. remember (c', w') as s' eqn:Hs.
  unfold schema in Hr. rewrite Hd, mseq_lift_ok in Hr. inv_ok. unfold with_world in *. cbn [fst snd] in *.
  destruct (read_json_checked query w) as [r w2] eqn:E. injection Hrun1 as -> <-.
  unfold set_cache in *. simplify_eq/=. unfold read_json_checked in E. inv_ok.
  apply read_chunks_ok in Hval0 as (Hb & cs & -> & ->); [|done]. rewrite app_nil_l in *.
  eexists _, cs, _, _. split_and!; [done..|].
  intros n. unfold read_tabular, take_cached, mseq, get_cache, lift. cbn. rewrite Hd. cbn. by rewrite String.eqb_refl.
Qed.

Definition table_paths (es : list Entry) : list string :=
  List.filter (fun p => is_ok (detect_format p)) (entry_path <$> List.filter entry_is_file es).

Definition matches (filter : option string) (p : string) : bool :=
  match filter with Some pat => sql_like_match p pat | None => true end.

(** Building the tables never fails: a schema that cannot be read is empty. *)
Lemma build_tables_ok filter b paths s :
  exists ts s', build_tables filter b paths s = (Ok ts, s') /\
    s3t_name <$> ts = List.filter (matches filter) paths.
Proof.
  revert s. induction paths as [|p r IH]; intros s; [by exists [], s|]. cbn [build_tables List.filter].
  assert (Hm : match filter with Some pat => negb (sql_like_match p pat) | None => false end
               = negb (matches filter p)) by (by destruct filter).
  rewrite Hm. destruct (matches filter p); cbn [negb]; [|apply IH].
  assert (Hs : exists sc s1, table_schema b p s = (Ok sc, s1)).
  { unfold table_schema. cbv zeta. destruct (b && _); [|by eexists _, _].
    unfold mseq, attempt. destruct (schema p s) as [r0 s0]. by eexists _, _. }
  destruct Hs as (sc & s1 & Hs). destruct (IH s1) as (ts & s2 & Hb & Hn).
  exists ({| s3t_name := p; s3t_schema := sc |} :: ts), s2.
  rewrite (mseq_run _ _ _ _ _ Hs), (mseq_run _ _ _ _ _ Hb). split; [done|]. by rewrite fmap_cons, Hn.
Qed.

Lemma filter_filter {A} (p q : A -> bool) l :
  (forall a, a ∈ l -> q a = true -> p a = true) -> List.filter q (List.filter p l) = List.filter q l.
Proof.
  induction l as [|a l IH]; intros Hpq; [done|]. cbn [List.filter].
  assert (IH' : List.filter q (List.filter p l) = List.filter q l) by (apply IH; intros; apply Hpq; [by right|done]).
  destruct (p a) eqn:Hp; cbn [List.filter]; [by rewrite IH'|].
  destruct (q a) eqn:Hq; [|done]. by rewrite Hpq in Hp; [|left|].
Qed.

Lemma paths_filter (q : string -> bool) (es : list Entry) :
  table_paths (List.filter (fun e => q (entry_path e)) es) = List.filter q (table_paths es).
Proof.
  unfold table_paths. induction es as [|e es IH]; [done|]. cbn [List.filter].
  destruct (q (entry_path e)) eqn:Hq, (entry_is_file e) eqn:Hf; cbn [List.filter];
    rewrite ?Hf, ?fmap_cons; cbn [List.filter]; try done;
    destruct (is_ok (detect_format (entry_path e))); cbn [List.filter]; rewrite ?Hq, ?IH; done.
Qed.

(** Listing tables finds every object that matches. Over a store whose listing
    returns the objects below a prefix, and whose paths contain no percent sign, the
    tables for a pattern are exactly the readable files that match it in the sense
    of SQL's LIKE, in listing order, although only the objects below the pattern's
    literal prefix are listed; without a pattern, all readable files. *)
Theorem list_tables_complete objects filter include_schema c w :
  (forall p, op_list p w = (Ok (List.filter (fun e => starts_with p (entry_path e)) objects), w)) ->
  Forall (fun e => PCT ∉ chars (entry_path e)) objects ->
  exists ts s', list_tables filter include_schema (c, w) = (Ok ts, s') /\
    s3t_name <$> ts = List.filter (matches filter) (table_paths objects) /\
    forall pat p, filter = Some pat -> p ∈ s3t_name <$> ts <->
      p ∈ table_paths objects /\ Like (chars pat) (chars p).
Proof.
  intros Hl Hp.
  assert (Hpath : forall p, p ∈ table_paths objects -> PCT ∉ chars p).
  { intros p. unfold table_paths. rewrite list_elem_of_In, filter_In, in_map_iff.
    intros [(e & <- & [He _]%filter_In) _]. rewrite Forall_forall in Hp. by apply Hp, list_elem_of_In. }
  unfold list_tables. set (pre := default "" (like_prefix <$> filter)).
  set (es := List.filter (fun e => starts_with pre (entry_path e)) objects).
  rewrite (mseq_run _ _ _ es (c, w)).
  2: { unfold map_err, with_world. cbn. by rewrite Hl. }
  destruct (build_tables_ok filter include_schema (table_paths es) (c, w)) as (ts & s' & Hb & Hn).
  exists ts, s'. split; [exact Hb|].
  assert (Hnames : s3t_name <$> ts = List.filter (matches filter) (table_paths objects)).
  { rewrite Hn. unfold es. rewrite (paths_filter (starts_with pre)). apply filter_filter.
    intros p Hin. destruct filter as [pat|]; [|done]. cbn. intros Hm.
    apply like_prefix_sound, sql_like_match_decides; auto. }
  split; [done|]. intros pat p ->. rewrite Hnames, !list_elem_of_In, filter_In. cbn [matches].
  split; intros [Hin Hm]; (split; [done|]); apply sql_like_match_decides; auto; by apply Hpath, list_elem_of_In.
Qed.
End S3.

(** ** Concrete instances *)

Definition sample_objects : list Entry :=
  [{| entry_is_file := true; entry_path := "logs/a.csv" |};
   {| entry_is_file := false; entry_path := "logs/" |};
   {| entry_is_file := true; entry_path := "logs/readme.txt" |};
   {| entry_is_file := true; entry_path := "data/b.json" |}].

Definition sample_list (p : string) : M nat OpError (list Entry) :=
  fun w => (Ok (List.filter (fun e => starts_with p (entry_path e)) sample_objects), w).

(** Every object holds the document [[1]] in two chunks. *)
Definition sample_reader (p : string) (chunk : option N) : M nat OpError (list (result OpError bytes)) :=
  mret [Ok ["["]; Ok ["1"; "]"]]%char.

Lemma list_tables_complete_witness :
  exists ts s', list_tables (FL := sample_formats) sample_reader sample_list 4%N None (Some "logs/%.csv") false (None, 0)
      = (Ok ts, s') /\
    s3t_name <$> ts = List.filter (matches (Some "logs/%.csv")) (table_paths None sample_objects) /\
    forall pat p, Some "logs/%.csv" = Some pat -> p ∈ s3t_name <$> ts <->
      p ∈ table_paths None sample_objects /\ Like (chars pat) (chars p).
Proof.
  apply (list_tables_complete (FL := sample_formats) sample_reader sample_list 4%N None sample_objects
           (Some "logs/%.csv") false None 0).
  - reflexivity.
  - repeat constructor; vm_compute; set_solver.
Defined.

Lemma json_document_read_once_witness :
  exists data chunks : list _, data = ["["; "1"; "]"]%char /\ data = concat chunks /\
    (byte_len data <= MAX_JSON_BYTES)%N /\
    forall n, read_tabular (FL := sample_formats) sample_reader 4%N None ("d.json", []) n (Some ("d.json", data), 0)
      = (Ok (read_json_batches (FL := sample_formats (W := nat)) data [] n None), (None, 0)).
Proof.
  destruct (json_document_read_once (FL := sample_formats) sample_reader 4%N None "d.json" None 0
    ("d.json", []) (Some ("d.json", ["["; "1"; "]"]%char)) 0)
    as (data & chunks & reader & w1 & H1 & H2 & H3 & H4 & H5 & H6 & H7); [reflexivity|vm_compute; reflexivity|].
  assert (Hd : data = ["["; "1"; "]"]%char).
  { injection H5 as <- <-. injection H6 as Hc. destruct chunks as [|c1 [|c2 [|]]]; simplify_eq/=; done. }
  exists data, chunks. rewrite Hd in *. split_and!; auto.
Defined.
