(* ===== verification/S3Connect.v ===== *)
(** How the S3 connector builds and caches its clients ([connectors/s3/src/connector.rs]):
    credentials, the certificates it trusts and its time limits. *)
From S2P Require Import Prelude Text Json Api ClientCache Like Sql Readers S3.
From Stdlib Require Import NArith.

(** [reqwest]'s certificates and client and [opendal]'s operator. *)
Class S3Lib : Type := {
  RootCert : Type;
  TlsClient : Type;
  Operator : Type;
  from_pem_bundle : string -> result string (list RootCert);
  build_tls_client : list RootCert -> result string TlsClient;
  (** bucket, access key, secret key, region, endpoint *)
  operator_new : string -> string -> string -> string -> option string -> result string Operator;
  with_transport : TlsClient -> Operator -> Operator;
  with_timeouts : N -> N -> Operator -> Operator
}.

Section Connect.
Context `{SL : S3Lib}.

Definition build_http_transport (ca_cert : string) : result ConnectorError TlsClient :=
  let?? certificates := rmap_err (fun e => ConfigError (KEY_CA_CERT +:+ " contains invalid PEM data: " +:+ e))
                          (from_pem_bundle ca_cert) in
  match certificates with
  | [] => Err (ConfigError (KEY_CA_CERT +:+ " must contain at least one certificate"))
  | _ => rmap_err (fun e => ConfigError ("failed to configure S3 TLS client: " +:+ e)) (build_tls_client certificates)
  end.

(** [operator_config] reads the credentials. *)
Definition build_operator (credentials : gmap string string) (connection_timeout io_timeout : N)
    : result ConnectorError Operator :=
  let?? c := operator_config credentials in
  let?? op := rmap_err (fun e => ConnectionError ("failed to create S3 operator: " +:+ e))
                (operator_new (oc_bucket c) (oc_access_key c) (oc_secret_key c) (oc_region c) (oc_endpoint c)) in
  let?? op := match oc_ca_cert c with
              | Some ca => let?? t := build_http_transport ca in Ok (with_transport t op)
              | None => Ok op
              end in
  Ok (with_timeouts connection_timeout io_timeout op).

Context {W : Type} `{CC : !ClientCache W Operator}.

(** The reader: its operator and the format its connection prescribes. *)
Definition s3_get_reader (config : ConnectorConfig) (connection : DataConnectionResource)
    (resolver : DataConnectionResource -> M W ConnectorError (gmap string string))
    : M W ConnectorError (Operator * option string) :=
  let? operator := connector_client
    (fun credentials => lift (build_operator credentials (connection_timeout_secs config) (read_timeout_secs config)))
    connection resolver in
  mret (operator, properties (dc_resource connection) !! "format").

(** A configured certificate is used or the client is not built: a client is never
    made that ignores it, and never without the time limits. *)
Lemma build_operator_tls credentials t1 t2 op :
  build_operator credentials t1 t2 = Ok op ->
  exists c op0, operator_config credentials = Ok c /\
    operator_new (oc_bucket c) (oc_access_key c) (oc_secret_key c) (oc_region c) (oc_endpoint c) = Ok op0 /\
    match oc_ca_cert c with
    | Some ca => exists certs client, from_pem_bundle ca = Ok certs /\ certs <> [] /\
        build_tls_client certs = Ok client /\ op = with_timeouts t1 t2 (with_transport client op0)
    | None => op = with_timeouts t1 t2 op0
    end.
Proof.
  unfold build_operator. destruct (operator_config credentials) as [c|]; [|done]. cbn [rbind].
  destruct (operator_new _ _ _ _ _) as [op0|] eqn:Ho; [|done]. cbn [rmap_err rbind].
  intros Hop. exists c, op0. split_and!; [done|done|]. destruct (oc_ca_cert c) as [ca|]; [|by injection Hop as <-].
  unfold build_http_transport in Hop. destruct (from_pem_bundle ca) as [[|x certs]|] eqn:Hp; [done| |done].
  cbn [rmap_err rbind] in Hop. destruct (build_tls_client (x :: certs)) as [client|] eqn:Hc; [|done].
  cbn in Hop. injection Hop as <-. by exists (x :: certs), client.
Qed.
End Connect.
