(* ===== verification/PgVector.v ===== *)
(** The binary wire formats of pgvector's [vector], [halfvec] and [sparsevec]
    ([connectors/postgres/src/pgvector.rs]).

    Indexing a slice beyond its end panics: the readers return [None] there. A
    [usize] holds every length that occurs, the largest being [12 + 8 * i32::MAX]. *)
From S2P Require Import Prelude Text Json Floats Arrow Api Batches.
From Stdlib Require Import ZArith Strings.Byte.
Open Scope Z_scope.

Abbreviation bytes := (list byte).

Definition byte_val (b : byte) : Z := Z.of_N (Byte.to_N b).
Definition byte_of_Z (z : Z) : byte := default x00 (Byte.of_N (Z.to_N (z mod 256))).

(** ** Big-endian words *)

(** [from_be_bytes], and its inverse on [n] bytes. *)
Definition from_be_bytes (l : bytes) : Z := fold_left (fun acc b => 256 * acc + byte_val b) l 0.

Fixpoint to_be_bytes (n : nat) (z : Z) : bytes :=
  match n with
  | O => []
  | S n => to_be_bytes n (z / 256) ++ [byte_of_Z z]
  end.

Definition read_be_u16 (bs : bytes) (offset : nat) : option Z :=
  b0 ← bs !! offset; b1 ← bs !! (offset + 1)%nat;
  Some (from_be_bytes [b0; b1]).

Definition read_be_u32 (bs : bytes) (offset : nat) : option Z :=
  b0 ← bs !! offset; b1 ← bs !! (offset + 1)%nat;
  b2 ← bs !! (offset + 2)%nat; b3 ← bs !! (offset + 3)%nat;
  Some (from_be_bytes [b0; b1; b2; b3]).

(** [as i32] keeps the bits. *)
Definition as_i32 (z : Z) : Z := if z <? 2 ^ 31 then z else z - 2 ^ 32.

Definition read_be_i32 (bs : bytes) (offset : nat) : option Z := as_i32 <$> read_be_u32 bs offset.

Definition VECTOR : string := "vector".
Definition HALFVEC : string := "halfvec".
Definition SPARSEVEC : string := "sparsevec".

Definition check_len (type_name : string) (bs : bytes) (expected : nat) : result string unit :=
  if (length bs =? expected)%nat then Ok tt
  else Err ("invalid " +:+ type_name +:+ " binary value: expected " +:+ show_nat expected +:+
            " bytes, got " +:+ show_nat (length bs)).

Definition too_short (type_name : string) (bs : bytes) : string :=
  "invalid " +:+ type_name +:+ " binary value: " +:+ show_nat (length bs) +:+ " bytes".

(** ** Decoders *)

Definition decode_vector (bs : bytes) : result (failure string) (list f32) :=
  if (length bs <? 4)%nat then Err (Fail (too_short VECTOR bs))
  else
    let?? d := or_panic (read_be_u16 bs 0) in
    let dim := Z.to_nat d in
    let?? _ := rmap_err Fail (check_len VECTOR bs (4 + dim * 4)) in
    or_panic (mapM (fun i => read_be_u32 bs (4 + i * 4)) (seq 0 dim)).

Section Half.
(** Widening a half-precision number. *)
Variable f16_to_f32 : Z -> f32.

Definition decode_halfvec (bs : bytes) : result (failure string) (list f32) :=
  if (length bs <? 4)%nat then Err (Fail (too_short HALFVEC bs))
  else
    let?? d := or_panic (read_be_u16 bs 0) in
    let dim := Z.to_nat d in
    let?? _ := rmap_err Fail (check_len HALFVEC bs (4 + dim * 2)) in
    or_panic (mapM (fun i => f16_to_f32 <$> read_be_u16 bs (4 + i * 2)) (seq 0 dim)).
End Half.

Definition sparse_element (bs : bytes) (values_offset i : nat) : option string :=
  index ← read_be_i32 bs (12 + i * 4);
  value ← read_be_u32 bs (values_offset + i * 4);
  Some (pretty (index + 1) +:+ ":" +:+ f32_display value).

Definition decode_sparsevec (bs : bytes) : result (failure string) string :=
  if (length bs <? 12)%nat then Err (Fail (too_short SPARSEVEC bs))
  else
    let?? dim := or_panic (read_be_i32 bs 0) in
    let?? n := or_panic (read_be_i32 bs 4) in
    if n <? 0 then Err (Fail "invalid sparsevec nnz")
    else
      let nnz := Z.to_nat n in
      let?? _ := rmap_err Fail (check_len SPARSEVEC bs (12 + nnz * 8)) in
      let?? elements := or_panic (mapM (sparse_element bs (12 + nnz * 4)) (seq 0 nnz)) in
      Ok ("{" +:+ join "," elements +:+ "}/" +:+ pretty dim).

(** ** The formats pgvector documents *)

Definition words (n : nat) (l : list Z) : bytes := concat (to_be_bytes n <$> l).

(** [int16 dim, int16 unused, float4[dim]]; [half[dim]] for the half-precision one. *)
Definition vector_format (width : nat) (unused : bytes) (vs : list Z) : bytes :=
  to_be_bytes 2 (Z.of_nat (length vs)) ++ unused ++ words width vs.

(** [int32 dim, int32 nnz, int32 unused, int32[nnz] indices, float4[nnz] values]. *)
Definition sparse_format (dim : Z) (unused : bytes) (elements : list (Z * f32)) : bytes :=
  to_be_bytes 4 dim ++ to_be_bytes 4 (Z.of_nat (length elements)) ++ unused ++
  words 4 elements.*1 ++ words 4 elements.*2.

Definition sparse_text (dim : Z) (elements : list (Z * f32)) : string :=
  "{" +:+ join "," ((fun e => pretty (e.1 + 1) +:+ ":" +:+ f32_display e.2) <$> elements)
  +:+ "}/" +:+ pretty dim.

Definition is_u (n : nat) (z : Z) : Prop := 0 <= z < 256 ^ Z.of_nat n.
Definition is_i32 (z : Z) : Prop := - 2 ^ 31 <= z < 2 ^ 31.

(** ** Words round-trip *)

Lemma byte_val_range b : 0 <= byte_val b < 256.
Proof. unfold byte_val. pose proof (Byte.to_N_bounded b). lia. Qed.

Lemma byte_val_of_Z z : byte_val (byte_of_Z z) = z mod 256.
Proof.
  unfold byte_val, byte_of_Z. pose proof (Z.mod_pos_bound z 256 ltac:(lia)).
  destruct (Byte.of_N (Z.to_N (z mod 256))) as [b|] eqn:E; cbn [from_option Datatypes.id].
  - apply Byte.to_of_N in E. rewrite E. lia.
  - apply Byte.of_N_None_iff in E. lia.
Qed.

Lemma byte_of_val b : byte_of_Z (byte_val b) = b.
Proof.
  unfold byte_of_Z. pose proof (byte_val_range b). rewrite Z.mod_small by done.
  unfold byte_val. by rewrite N2Z.id, Byte.of_to_N.
Qed.

Lemma from_be_bytes_snoc l b : from_be_bytes (l ++ [b]) = 256 * from_be_bytes l + byte_val b.
Proof. unfold from_be_bytes. by rewrite fold_left_app. Qed.

Lemma length_to_be_bytes n z : length (to_be_bytes n z) = n.
Proof. revert z; induction n; intros z; cbn; [done|]. rewrite length_app, IHn; cbn; lia. Qed.

Lemma from_to_be_bytes n z : is_u n z -> from_be_bytes (to_be_bytes n z) = z.
Proof.
  revert z. induction n as [|n IH]; intros z Hz; unfold is_u in *; cbn [to_be_bytes].
  { cbn in *. lia. }
  rewrite from_be_bytes_snoc, byte_val_of_Z, IH; [pose proof (Z.div_mod z 256); lia|].
  rewrite Nat2Z.inj_succ, Z.pow_succ_r in Hz by lia.
  split; [apply Z.div_pos; lia|apply Z.div_lt_upper_bound; lia].
Qed.

Lemma to_from_be_bytes l : to_be_bytes (length l) (from_be_bytes l) = l.
Proof.
  induction l as [|b l IH] using rev_ind; [done|]. rewrite length_app, Nat.add_comm. cbn [length Nat.add to_be_bytes].
  rewrite from_be_bytes_snoc. pose proof (byte_val_range b).
  assert (Hd : (256 * from_be_bytes l + byte_val b) / 256 = from_be_bytes l)
    by (symmetry; apply (Z.div_unique _ _ _ (byte_val b)); lia).
  rewrite Hd, IH. f_equal. f_equal. rewrite <- (byte_of_val b) at 2. unfold byte_of_Z. do 3 f_equal.
  rewrite Z.add_comm, Z.mul_comm, Z.mod_add by lia. done.
Qed.

Lemma from_be_bytes_range l : is_u (length l) (from_be_bytes l).
Proof.
  unfold is_u. induction l as [|b l IH] using rev_ind; [cbn; lia|].
  rewrite from_be_bytes_snoc, length_app, Nat.add_comm. cbn [length Nat.add].
  rewrite Nat2Z.inj_succ, Z.pow_succ_r by lia. pose proof (byte_val_range b). lia.
Qed.

(** Taking a byte string apart, and putting words together, are inverse. *)
Lemma to_be_bytes_iff l z n : length l = n -> is_u n z -> from_be_bytes l = z <-> l = to_be_bytes n z.
Proof.
  intros <- Hz. split; [intros <-; by rewrite to_from_be_bytes|intros ->]. by rewrite from_to_be_bytes.
Qed.

(** ** Reading words *)

(** A reader of words of [k] bytes. *)
Class WordReader (k : nat) (read : bytes -> nat -> option Z) : Prop :=
  read_word pre w post : length w = k -> read (pre ++ w ++ post) (length pre) = Some (from_be_bytes w).

Lemma lookup_after (pre l : bytes) i : (pre ++ l) !! (length pre + i)%nat = l !! i.
Proof. rewrite lookup_app_r by lia. f_equal. lia. Qed.

Lemma lookup_at_end (pre l : bytes) : (pre ++ l) !! length pre = head l.
Proof. rewrite lookup_app_r, Nat.sub_diag by lia. by destruct l. Qed.

#[local] Instance reader_u16 : WordReader 2 read_be_u16.
Proof.
  intros pre w post Hw. destruct w as [|a [|b [|??]]]; try done. unfold read_be_u16.
  by rewrite lookup_at_end, lookup_after.
Qed.

#[local] Instance reader_u32 : WordReader 4 read_be_u32.
Proof.
  intros pre w post Hw. destruct w as [|a [|b [|c [|d [|??]]]]]; try done. unfold read_be_u32.
  by rewrite lookup_at_end, !lookup_after.
Qed.

Lemma read_u_at `{WordReader k read} pre z post n :
  is_u k z -> n = length pre -> read (pre ++ to_be_bytes k z ++ post) n = Some z.
Proof. intros Hz ->. rewrite read_word by apply length_to_be_bytes. by rewrite from_to_be_bytes. Qed.

Lemma read_words `{WordReader k read} pre vs post n :
  Forall (is_u k) vs -> n = length pre ->
  mapM (fun i => read (pre ++ words k vs ++ post) (n + i * k)%nat) (seq 0 (length vs)) = Some vs.
Proof.
  intros Hvs ->. apply mapM_Some. revert pre. induction Hvs as [|v vs Hv Hvs IH]; intros pre; [constructor|].
  unfold words in *. cbn [fmap list_fmap concat length seq]. rewrite <- !app_assoc. constructor.
  - apply read_u_at; [done|lia].
  - rewrite <- seq_shift. apply Forall2_fmap_l.
    specialize (IH (pre ++ to_be_bytes k v)). rewrite <- !app_assoc in IH.
    eapply Forall2_impl; [exact IH|]. cbn. intros i x <-. f_equal.
    rewrite length_app, length_to_be_bytes. lia.
Qed.

Lemma words_cons k v vs : words k (v :: vs) = to_be_bytes k v ++ words k vs.
Proof. reflexivity. Qed.

Lemma length_words k vs : length (words k vs) = (length vs * k)%nat.
Proof.
  unfold words. induction vs as [|v vs IH]; [done|]. cbn. rewrite length_app, length_to_be_bytes, IH. lia.
Qed.

(** Every byte string of the right length is a string of words. *)
Lemma as_words k n bs :
  length bs = (n * k)%nat -> exists vs, length vs = n /\ Forall (is_u k) vs /\ bs = words k vs.
Proof.
  revert bs. induction n as [|n IH]; intros bs Hl.
  { exists []. destruct bs; [|done]. by repeat constructor. }
  destruct (IH (drop k bs)) as (vs & Hn & Hvs & Hd); [rewrite length_drop; lia|].
  assert (Hk : length (take k bs) = k) by (rewrite length_take; lia).
  exists (from_be_bytes (take k bs) :: vs). split_and!; [cbn; lia| |].
  - constructor; [|done]. pose proof (from_be_bytes_range (take k bs)) as Hw. by rewrite Hk in Hw.
  - unfold words in *. cbn. rewrite <- Hd. rewrite <- (take_drop k bs) at 1. f_equal.
    pose proof (to_from_be_bytes (take k bs)) as Hw. by rewrite Hk in Hw.
Qed.

Lemma as_word k bs : length bs = k -> exists z, is_u k z /\ bs = to_be_bytes k z.
Proof.
  intros <-. exists (from_be_bytes bs). split; [apply from_be_bytes_range|by rewrite to_from_be_bytes].
Qed.

(** ** Dense vectors *)

Lemma dense_cases width (bs : bytes) :
  (4 <= length bs)%nat ->
  exists d unused rest, is_u 2 d /\ length unused = 2%nat /\ bs = to_be_bytes 2 d ++ unused ++ rest /\
    read_be_u16 bs 0 = Some d /\
    (length bs = (4 + Z.to_nat d * width)%nat ->
     exists vs, length vs = Z.to_nat d /\ Forall (is_u width) vs /\ bs = vector_format width unused vs).
Proof.
  intros Hl. destruct (as_word 2 (take 2 bs)) as (d & Hd & Ht); [rewrite length_take; lia|].
  exists d, (take 2 (drop 2 bs)), (drop 4 bs).
  assert (Hbs : bs = to_be_bytes 2 d ++ take 2 (drop 2 bs) ++ drop 4 bs).
  { rewrite <- Ht. change (drop 4 bs) with (drop (2 + 2) bs). by rewrite <- drop_drop, !take_drop. }
  split_and!; [done|rewrite length_take, length_drop; lia|done| |].
  - rewrite Hbs. by apply (read_u_at []).
  - intros Hw. destruct (as_words width (Z.to_nat d) (drop 4 bs)) as (vs & Hn & Hvs & Hr).
    { rewrite length_drop. lia. }
    exists vs. split_and!; [done|done|]. unfold vector_format. rewrite <- Hr, Hn, Z2Nat.id; [done|].
    unfold is_u in Hd. lia.
Qed.

Lemma length_vector_format width unused vs :
  length unused = 2%nat -> length (vector_format width unused vs) = (4 + length vs * width)%nat.
Proof.
  intros Hu. unfold vector_format. rewrite !length_app, length_to_be_bytes, length_words. lia.
Qed.

Lemma read_dim width unused vs :
  Z.of_nat (length vs) < 65536 ->
  read_be_u16 (vector_format width unused vs) 0 = Some (Z.of_nat (length vs)).
Proof. intros Hl. apply (read_u_at []); [|done]. unfold is_u. lia. Qed.

Lemma read_elements `{WordReader k read} unused vs :
  length unused = 2%nat -> Forall (is_u k) vs ->
  mapM (fun i => read (vector_format k unused vs) (4 + i * k)%nat) (seq 0 (length vs)) = Some vs.
Proof.
  intros Hu Hvs.
  assert (Hf : vector_format k unused vs
               = (to_be_bytes 2 (Z.of_nat (length vs)) ++ unused) ++ words k vs ++ [])
    by (unfold vector_format; by rewrite app_nil_r, <- app_assoc).
  rewrite Hf. apply read_words; [done|]. rewrite length_app, length_to_be_bytes. lia.
Qed.

Lemma check_len_ok name bs n : check_len name bs n = Ok tt <-> length bs = n.
Proof. unfold check_len. destruct (Nat.eqb_spec (length bs) n); naive_solver. Qed.

Lemma decode_vector_format unused vs :
  length unused = 2%nat -> Z.of_nat (length vs) < 65536 -> Forall (is_u 4) vs ->
  decode_vector (vector_format 4 unused vs) = Ok vs.
Proof.
  intros Hu Hl Hvs. unfold decode_vector. rewrite length_vector_format, read_dim by done.
  destruct (Nat.ltb_spec (4 + length vs * 4) 4); [lia|]. cbn [or_panic ok_or rbind]. rewrite Nat2Z.id.
  rewrite (proj2 (check_len_ok VECTOR _ _)) by (by rewrite length_vector_format).
  cbn [rmap_err rbind]. by rewrite read_elements.
Qed.

Lemma decode_halfvec_format f unused hs :
  length unused = 2%nat -> Z.of_nat (length hs) < 65536 -> Forall (is_u 2) hs ->
  decode_halfvec f (vector_format 2 unused hs) = Ok (f <$> hs).
Proof.
  intros Hu Hl Hvs. unfold decode_halfvec. rewrite length_vector_format, read_dim by done.
  destruct (Nat.ltb_spec (4 + length hs * 2) 4); [lia|]. cbn [or_panic ok_or rbind]. rewrite Nat2Z.id.
  rewrite (proj2 (check_len_ok HALFVEC _ _)) by (by rewrite length_vector_format).
  pose proof (read_elements unused hs Hu Hvs) as Hr. apply mapM_Some in Hr.
  cbn [rmap_err rbind]. rewrite (proj2 (mapM_Some _ _ (f <$> hs))); [done|]. apply Forall2_fmap_r.
  eapply Forall2_impl; [exact Hr|]. cbn. by intros i x ->.
Qed.

(** A decoder either reports an error or its input has the format. *)
Lemma decode_vector_cases bs :
  (exists e, decode_vector bs = Err (Fail e)) \/
  exists unused vs, length unused = 2%nat /\ Z.of_nat (length vs) < 65536 /\ Forall (is_u 4) vs /\
    bs = vector_format 4 unused vs.
Proof.
  unfold decode_vector. destruct (Nat.ltb_spec (length bs) 4) as [|Hl]; [left; eauto|].
  destruct (dense_cases 4 bs Hl) as (d & unused & rest & Hd & Hu & _ & Hr & Hf). rewrite Hr.
  cbn [or_panic ok_or rbind]. destruct (check_len _ _ _) as [[]|e] eqn:Hc; [right|left; eauto].
  apply check_len_ok in Hc. destruct (Hf Hc) as (vs & Hn & Hvs & Hb). exists unused, vs.
  split_and!; try done. unfold is_u in Hd. cbn in Hd. lia.
Qed.

Lemma decode_halfvec_cases f bs :
  (exists e, decode_halfvec f bs = Err (Fail e)) \/
  exists unused hs, length unused = 2%nat /\ Z.of_nat (length hs) < 65536 /\ Forall (is_u 2) hs /\
    bs = vector_format 2 unused hs.
Proof.
  unfold decode_halfvec. destruct (Nat.ltb_spec (length bs) 4) as [|Hl]; [left; eauto|].
  destruct (dense_cases 2 bs Hl) as (d & unused & rest & Hd & Hu & _ & Hr & Hf). rewrite Hr.
  cbn [or_panic ok_or rbind]. destruct (check_len _ _ _) as [[]|e] eqn:Hc; [right|left; eauto].
  apply check_len_ok in Hc. destruct (Hf Hc) as (hs & Hn & Hvs & Hb). exists unused, hs.
  split_and!; try done. unfold is_u in Hd. cbn in Hd. lia.
Qed.

(** ** Sparse vectors *)

Lemma to_be_bytes_period n z k : to_be_bytes n (z + 256 ^ Z.of_nat n * k) = to_be_bytes n z.
Proof.
  revert z k. induction n as [|n IH]; intros z k; [done|]. cbn [to_be_bytes].
  rewrite Nat2Z.inj_succ, Z.pow_succ_r by lia.
  replace (z + 256 * 256 ^ Z.of_nat n * k) with (z + (256 ^ Z.of_nat n * k) * 256) by lia.
  rewrite Z.div_add, IH by lia. f_equal. unfold byte_of_Z. by rewrite Z.mod_add by lia.
Qed.

Lemma as_i32_word u : is_u 4 u -> is_i32 (as_i32 u) /\ to_be_bytes 4 (as_i32 u) = to_be_bytes 4 u.
Proof.
  unfold is_u, is_i32, as_i32. change (256 ^ Z.of_nat 4) with (2 ^ 32). intros Hu.
  destruct (Z.ltb_spec u (2 ^ 31)); [split; [lia|done]|]. split; [lia|].
  by rewrite <- (to_be_bytes_period 4 (u - 2 ^ 32) 1), Z.mul_1_r, Z.sub_add.
Qed.

Lemma i32_word z : is_i32 z -> exists u, is_u 4 u /\ as_i32 u = z.
Proof.
  unfold is_u, is_i32, as_i32. change (256 ^ Z.of_nat 4) with (2 ^ 32). intros Hz.
  destruct (Z.ltb_spec z 0); [exists (z + 2 ^ 32)|exists z];
    (split; [lia|]); destruct_match; lia.
Qed.

Lemma i32_words zs : Forall is_i32 zs ->
  exists us, Forall (is_u 4) us /\ as_i32 <$> us = zs /\ words 4 us = words 4 zs.
Proof.
  induction 1 as [|z zs Hz _ (us & Hus & Hm & Hw)]; [by exists []|].
  destruct (i32_word z Hz) as (u & Hu & <-). exists (u :: us). split_and!; [by constructor|by rewrite fmap_cons, Hm|].
  rewrite !words_cons, <- Hw. f_equal. symmetry. by apply as_i32_word.
Qed.

Lemma as_i32_words us : Forall (is_u 4) us ->
  Forall is_i32 (as_i32 <$> us) /\ words 4 (as_i32 <$> us) = words 4 us.
Proof.
  induction 1 as [|u us Hu _ [Hi Hw]]; [done|]. destruct (as_i32_word u Hu) as [Hi' Hw'].
  split; [by constructor|]. by rewrite fmap_cons, !words_cons, Hw, Hw'.
Qed.

Lemma read_words_at `{WordReader k read} pre vs post n i v :
  Forall (is_u k) vs -> n = length pre -> vs !! i = Some v ->
  read (pre ++ words k vs ++ post) (n + i * k)%nat = Some v.
Proof.
  intros Hvs Hn Hi. pose proof (read_words pre vs post n Hvs Hn) as Hr. apply mapM_Some in Hr.
  assert (Hlt : (i < length vs)%nat) by (by eapply lookup_lt_Some).
  exact (Forall2_lookup_lr _ _ _ i i v Hr (proj2 (lookup_seq 0 (length vs) i i) (conj eq_refl Hlt)) Hi).
Qed.

(** The format with its words unsigned, as they are read. *)
Lemma sparse_format_words dim unused elements :
  is_i32 dim -> Forall (fun e => is_i32 e.1 /\ is_u 4 e.2) elements ->
  exists d us, is_u 4 d /\ as_i32 d = dim /\ Forall (is_u 4) us /\ as_i32 <$> us = elements.*1 /\
    Forall (is_u 4) elements.*2 /\ length us = length elements /\
    sparse_format dim unused elements =
      to_be_bytes 4 d ++ to_be_bytes 4 (Z.of_nat (length elements)) ++ unused ++
      words 4 us ++ words 4 elements.*2.
Proof.
  intros Hd He. destruct (i32_word dim Hd) as (d & Hu & <-).
  destruct (i32_words elements.*1) as (us & Hus & Hm & Hw).
  { apply Forall_fmap. eapply Forall_impl; [exact He|]. by intros ? []. }
  exists d, us. split_and!; try done.
  - apply Forall_fmap. eapply Forall_impl; [exact He|]. by intros ? [].
  - by rewrite <- (length_fmap as_i32 us), Hm, length_fmap.
  - unfold sparse_format. rewrite Hw. f_equal. by apply as_i32_word.
Qed.

Lemma sparse_elements pre us vs n m bs :
  Forall (is_u 4) us -> Forall (is_u 4) vs -> length us = length vs ->
  bs = pre ++ words 4 us ++ words 4 vs -> length pre = 12%nat -> n = length us -> m = (12 + n * 4)%nat ->
  mapM (sparse_element bs m) (seq 0 n)
  = Some ((fun e => pretty (e.1 + 1) +:+ ":" +:+ f32_display e.2) <$> zip (as_i32 <$> us) vs).
Proof.
  intros Hus Hvs Hl Hbs Hp -> ->. apply mapM_Some. apply Forall2_same_length_lookup. split.
  { rewrite length_fmap, length_zip, length_fmap, length_seq. lia. }
  intros i x y [-> Hlt]%lookup_seq Hy. rewrite list_lookup_fmap in Hy. change (0 + i)%nat with i.
  destruct (lookup_lt_is_Some_2 us i Hlt) as [u Hu].
  destruct (lookup_lt_is_Some_2 vs i) as [v Hv]; [lia|].
  assert (Hz : zip (as_i32 <$> us) vs !! i = Some (as_i32 u, v))
    by (apply lookup_zip_Some; split; [by rewrite list_lookup_fmap, Hu|done]).
  rewrite Hz in Hy. injection Hy as <-.
  assert (Hi : read_be_u32 bs (12 + i * 4) = Some u)
    by (rewrite Hbs; by apply read_words_at).
  assert (Hw : read_be_u32 bs (12 + length us * 4 + i * 4) = Some v).
  { rewrite Hbs, app_assoc, <- (app_nil_r (words 4 vs)). apply read_words_at; [done| |done].
    rewrite length_app, length_words. lia. }
  unfold sparse_element, read_be_i32. rewrite Hi. cbn [fmap option_fmap option_map mbind option_bind].
  by rewrite Hw.
Qed.

Lemma decode_sparsevec_format dim unused elements :
  length unused = 4%nat -> is_i32 dim -> Z.of_nat (length elements) < 2 ^ 31 ->
  Forall (fun e => is_i32 e.1 /\ is_u 4 e.2) elements ->
  decode_sparsevec (sparse_format dim unused elements) = Ok (sparse_text dim elements).
Proof.
  intros Hu Hd Hl He.
  destruct (sparse_format_words dim unused elements Hd He) as (d & us & Hdu & <- & Hus & Hm & Hvs & Hlen & Hf).
  set (n := Z.of_nat (length elements)) in *. set (bs := sparse_format (as_i32 d) unused elements) in *.
  assert (Hlb : length bs = (12 + length elements * 8)%nat).
  { rewrite Hf, !length_app, !length_to_be_bytes, !length_words, length_fmap. lia. }
  assert (Hn : is_u 4 n) by (unfold is_u; change (256 ^ Z.of_nat 4) with (2 ^ 32); lia).
  assert (Hr0 : read_be_u32 bs 0 = Some d) by (rewrite Hf; by apply (read_u_at [])).
  assert (Hr4 : read_be_u32 bs 4 = Some n).
  { rewrite Hf. apply (read_u_at (to_be_bytes 4 d)); [done|]. by rewrite length_to_be_bytes. }
  unfold decode_sparsevec, read_be_i32. destruct (Nat.ltb_spec (length bs) 12); [lia|].
  rewrite Hr0, Hr4. cbn [fmap option_fmap option_map or_panic ok_or rbind].
  assert (Hni : as_i32 n = n) by (unfold as_i32; destruct (Z.ltb_spec n (2 ^ 31)); lia). rewrite Hni.
  destruct (Z.ltb_spec n 0); [lia|]. unfold n at 1 2 3. rewrite !Nat2Z.id.
  rewrite (proj2 (check_len_ok SPARSEVEC _ _)) by done. cbn [rmap_err rbind].
  rewrite (sparse_elements (to_be_bytes 4 d ++ to_be_bytes 4 n ++ unused) us elements.*2); try done.
  - cbn [or_panic ok_or rbind]. unfold sparse_text. rewrite Hm. by rewrite zip_fst_snd.
  - by rewrite length_fmap.
  - rewrite !length_app, !length_to_be_bytes, Hu. done.
Qed.

Lemma decode_sparsevec_cases bs :
  (exists e, decode_sparsevec bs = Err (Fail e)) \/
  exists dim unused elements, length unused = 4%nat /\ is_i32 dim /\
    Z.of_nat (length elements) < 2 ^ 31 /\
    Forall (fun e => is_i32 e.1 /\ is_u 4 e.2) elements /\ bs = sparse_format dim unused elements.
Proof.
  unfold decode_sparsevec, read_be_i32. destruct (Nat.ltb_spec (length bs) 12) as [|Hl]; [left; eauto|].
  destruct (as_words 4 2 (take 8 bs)) as ([|d [|n [|??]]] & Hk & Hdn & Ht); try done.
  { rewrite length_take. lia. }
  apply Forall_cons in Hdn as [Hd [Hn _]%Forall_cons]. rewrite !words_cons, app_nil_r in Ht.
  assert (Hbs : bs = to_be_bytes 4 d ++ to_be_bytes 4 n ++ take 4 (drop 8 bs) ++ drop 12 bs).
  { rewrite app_assoc, <- Ht. change (drop 12 bs) with (drop (8 + 4) bs). by rewrite <- drop_drop, !take_drop. }
  assert (Hr0 : read_be_u32 bs 0 = Some d) by (rewrite Hbs; by apply (read_u_at [])).
  assert (Hr4 : read_be_u32 bs 4 = Some n).
  { rewrite Hbs. apply (read_u_at (to_be_bytes 4 d)); [done|]. by rewrite length_to_be_bytes. }
  rewrite Hr0, Hr4. cbn [fmap option_fmap option_map or_panic ok_or rbind].
  destruct (Z.ltb_spec (as_i32 n) 0) as [|Hpos]; [left; eauto|].
  destruct (check_len _ _ _) as [[]|e] eqn:Hc; [right|left; eauto]. apply check_len_ok in Hc.
  destruct (as_i32_word n Hn) as [Hni _]. destruct (as_i32_word d Hd) as [Hdi Hdw].
  set (k := Z.to_nat (as_i32 n)) in *.
  destruct (as_words 4 k (take (k * 4) (drop 12 bs))) as (us & Hus & Hu4 & Hut).
  { rewrite length_take, length_drop. lia. }
  destruct (as_words 4 k (drop (k * 4) (drop 12 bs))) as (vs & Hvs & Hv4 & Hvt).
  { rewrite !length_drop. lia. }
  destruct (as_i32_words us Hu4) as [Hi Hiw].
  assert (Hlz : length (as_i32 <$> us) = length vs) by (rewrite length_fmap; lia).
  exists (as_i32 d), (take 4 (drop 8 bs)), (zip (as_i32 <$> us) vs).
  assert (Hlen : length (zip (as_i32 <$> us) vs) = k) by (rewrite length_zip, length_fmap; lia).
  split_and!; [rewrite length_take, length_drop; lia|done|unfold is_i32 in Hni; lia| |].
  - rewrite Forall_forall in Hi, Hv4. apply Forall_forall. intros [x y] Hxy. cbn. split.
    + apply Hi. apply (elem_of_zip_l _ _ _ _ Hxy).
    + apply Hv4. apply (elem_of_zip_r _ _ _ _ Hxy).
  - unfold sparse_format. rewrite Hlen, fst_zip, snd_zip by lia. rewrite Hiw, Hdw, <- Hut, <- Hvt, take_drop.
    rewrite Hbs at 1. do 2 f_equal. unfold k. rewrite Z2Nat.id by done. symmetry. by apply as_i32_word.
Qed.

Lemma decoders_safe (f : Z -> f32) bs :
  decode_vector bs <> Err Panic /\ decode_halfvec f bs <> Err Panic /\ decode_sparsevec bs <> Err Panic.
Proof.
  split_and!.
  - destruct (decode_vector_cases bs) as [[e ->]|(u & vs & H1 & H2 & H3 & ->)]; [done|by rewrite decode_vector_format].
  - destruct (decode_halfvec_cases f bs) as [[e ->]|(u & vs & H1 & H2 & H3 & ->)]; [done|by rewrite decode_halfvec_format].
  - destruct (decode_sparsevec_cases bs) as [[e ->]|(d & u & vs & H1 & H2 & H3 & H4 & ->)]; [done|].
    by rewrite decode_sparsevec_format.
Qed.

(** C26: the pgvector decoders accept exactly the documented formats. On every byte
    string none of them reads beyond its end; [vector] and [halfvec] return the
    elements, and [sparsevec] the text of the elements with one-based indices,
    exactly when the bytes are the binary form of those elements, whatever the unused
    bytes are; everything else is an error. *)
Theorem pgvector_decoders_exact (f16_to_f32 : Z -> f32) (bs : bytes) :
  (decode_vector bs <> Err Panic /\ decode_halfvec f16_to_f32 bs <> Err Panic /\
   decode_sparsevec bs <> Err Panic) /\
  (forall vs, decode_vector bs = Ok vs <->
     exists unused, length unused = 2%nat /\ Z.of_nat (length vs) < 65536 /\ Forall (is_u 4) vs /\
       bs = vector_format 4 unused vs) /\
  (forall vs, decode_halfvec f16_to_f32 bs = Ok vs <->
     exists unused hs, length unused = 2%nat /\ Z.of_nat (length hs) < 65536 /\ Forall (is_u 2) hs /\
       vs = f16_to_f32 <$> hs /\ bs = vector_format 2 unused hs) /\
  (forall s, decode_sparsevec bs = Ok s <->
     exists dim unused elements, length unused = 4%nat /\ is_i32 dim /\
       Z.of_nat (length elements) < 2 ^ 31 /\ Forall (fun e => is_i32 e.1 /\ is_u 4 e.2) elements /\
       s = sparse_text dim elements /\ bs = sparse_format dim unused elements).
Proof.
  pose proof (decode_vector_cases bs) as Hv. pose proof (decode_halfvec_cases f16_to_f32 bs) as Hh.
  pose proof (decode_sparsevec_cases bs) as Hs. split; [apply decoders_safe|]. split_and!.
  - intros vs. split; [|intros (u & H1 & H2 & H3 & ->); by rewrite decode_vector_format].
    destruct Hv as [[e ->]|(u & vs' & H1 & H2 & H3 & ->)]; [done|]. rewrite decode_vector_format by done.
    intros [= <-]. by exists u.
  - intros vs. split; [|intros (u & hs & H1 & H2 & H3 & -> & ->); by rewrite decode_halfvec_format].
    destruct Hh as [[e ->]|(u & hs & H1 & H2 & H3 & ->)]; [done|]. rewrite decode_halfvec_format by done.
    intros [= <-]. by exists u, hs.
  - intros s. split; [|intros (d & u & es & H1 & H2 & H3 & H4 & -> & ->); by rewrite decode_sparsevec_format].
    destruct Hs as [[e ->]|(d & u & es & H1 & H2 & H3 & H4 & ->)]; [done|]. rewrite decode_sparsevec_format by done.
    intros [= <-]. by exists d, u, es.
Qed.

(** [{1:1.5,3:2.5}/5]. *)
Example decode_sparsevec_sample :
  decode_sparsevec (sparse_format 5 [x00; x00; x00; x00] [(0, 0x3fc00000); (2, 0x40200000)])
  = Ok "{1:1.5,3:2.5}/5".
Proof. reflexivity. Qed.

(** ** Columns *)

Definition PG_READ_ONLY_SQL_TRANSACTION : string := "25006".

(** [map_sqlx_error] of connector.rs. *)
Definition map_sqlx_error (e : SqlxError) : ConnectorError :=
  if bool_decide (sqlx_code e = Some PG_READ_ONLY_SQL_TRANSACTION)
  then CInvalidRequest "data source is read-only"
  else SQLError (sqlx_text e).

(** The raw value of a column. *)
Record RawValue : Type := {
  raw_null : bool;
  raw_binary : bool;
  raw_type : string;
  raw_bytes : result string bytes
}.

Section Columns.
Context {PgRow : Type}.
Variable try_get_raw : PgRow -> nat -> result SqlxError RawValue.

Definition raw_binary_value (col_idx : nat) (r : PgRow) : result ConnectorError (option bytes) :=
  let?? value := rmap_err map_sqlx_error (try_get_raw r col_idx) in
  if raw_null value then Ok None
  else if negb (raw_binary value)
  then Err (SQLError ("unexpected text format for column " +:+ show_nat col_idx +:+ " of type " +:+ raw_type value))
  else rmap_err SQLError (rmap Some (raw_bytes value)).

Definition raw_binary_values (rows : list PgRow) (col_idx : nat)
    : result ConnectorError (list (option bytes)) :=
  rmapM (raw_binary_value col_idx) rows.

(** Errors of a decoder as errors of the connector. *)
Definition sql_failure (e : failure string) : failure ConnectorError :=
  match e with Panic => Panic | Fail e => Fail (SQLError e) end.

Definition decode_values {A} (decode : bytes -> result (failure string) A) (values : list (option bytes))
    : result (failure ConnectorError) (list (option A)) :=
  rmapM (fun v => match v with
                  | Some bs => rmap Some (rmap_err sql_failure (decode bs))
                  | None => Ok None
                  end) values.

Definition build_list_array (rows : list PgRow) (col_idx : nat)
    (decode : bytes -> result (failure string) (list f32)) : result (failure ConnectorError) ArrayRef :=
  let?? values := rmap_err Fail (raw_binary_values rows col_idx) in
  rmap Float32ListArray (decode_values decode values).

Definition build_vector_array (rows : list PgRow) (col_idx : nat)
    : result (failure ConnectorError) ArrayRef :=
  build_list_array rows col_idx decode_vector.

Definition build_halfvec_array (f16_to_f32 : Z -> f32) (rows : list PgRow) (col_idx : nat)
    : result (failure ConnectorError) ArrayRef :=
  build_list_array rows col_idx (decode_halfvec f16_to_f32).

Definition build_sparsevec_array (rows : list PgRow) (col_idx : nat)
    : result (failure ConnectorError) ArrayRef :=
  let?? values := rmap_err Fail (raw_binary_values rows col_idx) in
  rmap StringArray (decode_values decode_sparsevec values).

(** ** No column panics, and each has its type *)

Definition list_type : DataType := ListOf Float32.

Lemma decoded_column {A} (decode : bytes -> result (failure string) A) (mk : list (option A) -> ArrayRef)
    ty rows col_idx :
  (forall bs, decode bs <> Err Panic) -> (forall l, data_type (mk l) = ty /\ array_len (mk l) = length l) ->
  column_ok (length rows) ty
    (let?? values := rmap_err Fail (raw_binary_values rows col_idx) in rmap mk (decode_values decode values)).
Proof.
  intros Hd Hmk. destruct (raw_binary_values rows col_idx) as [values|e] eqn:Hv; [|done]. cbn.
  apply rmapM_ok, Forall2_length in Hv. unfold decode_values.
  destruct (rmapM _ values) as [l|e] eqn:Hl; cbn.
  - apply rmapM_ok, Forall2_length in Hl. rewrite !(proj1 (Hmk l)), (proj2 (Hmk l)). split; [done|congruence].
  - apply rmapM_err in Hl as ([bs|] & _ & He); [|done]. specialize (Hd bs).
    destruct (decode bs) as [|[|m]]; cbn in He; naive_solver.
Qed.

Lemma vector_column rows col_idx : column_ok (length rows) list_type (build_vector_array rows col_idx).
Proof. apply decoded_column; [|done]. intros bs. apply (decoders_safe (fun z => z)). Qed.

Lemma halfvec_column f rows col_idx : column_ok (length rows) list_type (build_halfvec_array f rows col_idx).
Proof. apply decoded_column; [|done]. intros bs. apply (decoders_safe f). Qed.

Lemma sparsevec_column rows col_idx : column_ok (length rows) Utf8 (build_sparsevec_array rows col_idx).
Proof. apply decoded_column; [|done]. intros bs. apply (decoders_safe (fun z => z)). Qed.
End Columns.
Close Scope Z_scope.
