(* ===== verification/Postgres.v ===== *)
(** The PostgreSQL connector ([connectors/postgres/src/connector.rs]): the types of
    columns, their arrays, reading a query in chunks inside a read-only transaction,
    and listing tables, over the database and sqlx's decoding as parameters. *)
From S2P Require Import Prelude Streams Text Json Floats Api Arrow Batches ClientCache PgVector.
From Stdlib Require Import ZArith.

Definition PG_KEY_URI : string := "URI".
Definition PG_KEY_CA_CERT : string := "CA_CERT".

(** ** Type names *)

(** [str::trim_matches] of one character. *)
Definition trim_matches (c : ascii) (s : string) : string :=
  string_rev "" (trim_start_char c (string_rev "" (trim_start_char c s))).

Definition unqualified_type_name (pg_type : string) : string :=
  trim_matches dquote (match rsplit_once "." pg_type with Some (_, name) => name | None => pg_type end).

(** How a column is decoded: the patterns that [pg_type_to_arrow] and [build_array]
    share. *)
Inductive PgKind : Type :=
| PgBool | PgInt2 | PgInt4 | PgInt8 | PgFloat4 | PgFloat8 | PgBytea | PgTimestamp | PgTimestamptz
| PgDate | PgTime | PgUuid | PgJson | PgNumeric | PgVec | PgHalfvec | PgSparsevec | PgOther.

Definition one_of (s : string) (l : list string) : bool := existsb (String.eqb s) l.

Definition pg_kind (pg_type : string) : PgKind :=
  let name := unqualified_type_name pg_type in
  if one_of name ["BOOL"] then PgBool
  else if one_of name ["INT2"; "SMALLINT"; "SMALLSERIAL"] then PgInt2
  else if one_of name ["INT4"; "INT"; "INTEGER"; "SERIAL"] then PgInt4
  else if one_of name ["INT8"; "BIGINT"; "BIGSERIAL"] then PgInt8
  else if one_of name ["FLOAT4"; "REAL"] then PgFloat4
  else if one_of name ["FLOAT8"; "DOUBLE PRECISION"] then PgFloat8
  else if one_of name ["BYTEA"] then PgBytea
  else if one_of name ["TIMESTAMP"] then PgTimestamp
  else if one_of name ["TIMESTAMPTZ"] then PgTimestamptz
  else if one_of name ["DATE"] then PgDate
  else if one_of name ["TIME"] then PgTime
  else if one_of name ["UUID"] then PgUuid
  else if one_of name ["JSON"; "JSONB"] then PgJson
  else if one_of name ["NUMERIC"] then PgNumeric
  else if one_of name [VECTOR] then PgVec
  else if one_of name [HALFVEC] then PgHalfvec
  else if one_of name [SPARSEVEC] then PgSparsevec
  else PgOther.

Definition pg_type_to_arrow (pg_type : string) : DataType :=
  match pg_kind pg_type with
  | PgBool => Boolean
  | PgInt2 => Int16
  | PgInt4 => Int32
  | PgInt8 => Int64
  | PgFloat4 => Float32
  | PgFloat8 => Float64
  | PgBytea => Binary
  | PgTimestamp => Timestamp Microsecond None
  | PgTimestamptz => Timestamp Microsecond (Some "UTC")
  | PgDate => Date32
  | PgTime => Time64 Microsecond
  | PgNumeric | PgUuid | PgJson => Utf8
  | PgVec | PgHalfvec => list_type
  | PgSparsevec => Utf8
  | PgOther => Utf8
  end.

(** ** Rows *)

(** The Rust types the columns are read as. *)
Inductive RustType : Type :=
| TBool | TI16 | TI32 | TI64 | TF32 | TF64 | TBytes | TNaiveDateTime | TDateTimeUtc | TNaiveDate
| TNaiveTime | TUuid | TJson | TBigDecimal | TString.

Section RustTypes.
Variables NaiveDateTime DateTimeUtc NaiveDate NaiveTime Uuid BigDecimal : Type.

Definition rust_type (t : RustType) : Type :=
  match t with
  | TBool => bool
  | TI16 | TI32 | TI64 => Z
  | TF32 | TF64 => Z
  | TBytes => string
  | TNaiveDateTime => NaiveDateTime
  | TDateTimeUtc => DateTimeUtc
  | TNaiveDate => NaiveDate
  | TNaiveTime => NaiveTime
  | TUuid => Uuid
  | TJson => json
  | TBigDecimal => BigDecimal
  | TString => string
  end.
End RustTypes.

(** Rows as sqlx decodes them: their columns, [try_get] and [try_get_raw], with the
    types of chrono, uuid and bigdecimal and what is asked of them. *)
Class PgValues : Type := {
  NaiveDateTime : Type;
  DateTimeUtc : Type;
  NaiveDate : Type;
  NaiveTime : Type;
  Uuid : Type;
  BigDecimal : Type;
  naive_timestamp_micros : NaiveDateTime -> Z;
  utc_timestamp_micros : DateTimeUtc -> Z;
  num_days_since_epoch : NaiveDate -> Z;
  num_seconds_from_midnight : NaiveTime -> Z;
  nanosecond : NaiveTime -> Z;
  show_uuid : Uuid -> string;
  show_decimal : BigDecimal -> string;
  pg_json_text : json -> string;
  f16_to_f32 : Z -> f32;
  PgRow : Type;
  row_columns : PgRow -> list SqlColumn;
  try_get t : PgRow -> nat ->
    result SqlxError (option (rust_type NaiveDateTime DateTimeUtc NaiveDate NaiveTime Uuid BigDecimal t));
  try_get_raw : PgRow -> nat -> result SqlxError RawValue
}.

(** The database, through sqlx: options and pools; prepared statements, and queries
    with bound parameters; connections and transactions. [fetch] streams the rows,
    the errors among them. A transaction that is dropped before [commit] is rolled
    back. *)
Class PgDriver (W : Type) `{PgValues} : Type := {
  PgConnectOptions : Type;
  PgPool : Type;
  Conn : Type;
  Tx : Type;
  parse_options : string -> result string PgConnectOptions;
  ssl_root_cert_from_pem : string -> PgConnectOptions -> PgConnectOptions;
  connect_with : N -> PgConnectOptions -> M W SqlxError PgPool;
  prepare : PgPool -> string -> M W SqlxError (list SqlColumn);
  execute : PgPool -> string -> M W SqlxError unit;
  fetch_all : PgPool -> string -> list string -> M W SqlxError (list (string * string * string * string));
  acquire : PgPool -> M W SqlxError Conn;
  begin : Conn -> M W SqlxError Tx;
  tx_execute : Tx -> string -> M W SqlxError unit;
  fetch : Tx -> string -> W -> list (result SqlxError PgRow) * W;
  commit : Tx -> M W SqlxError unit
}.

Section Postgres.
Context `{PV : PgValues} `{AR : Arrow}.
Abbreviation value_of := (rust_type NaiveDateTime DateTimeUtc NaiveDate NaiveTime Uuid BigDecimal).

Definition timestamp_to_micros (dt : NaiveDateTime) : Z := naive_timestamp_micros dt.
Definition timestamptz_to_micros (dt : DateTimeUtc) : Z := utc_timestamp_micros dt.
Definition date_to_days (d : NaiveDate) : Z := wrap_i32 (num_days_since_epoch d).
Definition time_to_micros (t : NaiveTime) : Z :=
  (num_seconds_from_midnight t * 1000000 + nanosecond t / 1000)%Z.

(** The values of a column, read as [t]. *)
Definition column_values (t : RustType) (rows : list PgRow) (col_idx : nat)
    : result (failure ConnectorError) (list (option (value_of t))) :=
  rmap_err (fun e => Fail (map_sqlx_error e)) (rmapM (fun r => try_get t r col_idx) rows).

Definition build_array (pg_type : string) (rows : list PgRow) (col_idx : nat)
    : result (failure ConnectorError) ArrayRef :=
  let read t := column_values t rows col_idx in
  match pg_kind pg_type with
  | PgBool => rmap BooleanArray (read TBool)
  | PgInt2 => rmap Int16Array (read TI16)
  | PgInt4 => rmap Int32Array (read TI32)
  | PgInt8 => rmap Int64Array (read TI64)
  | PgFloat4 => rmap Float32Array (read TF32)
  | PgFloat8 => rmap Float64Array (read TF64)
  | PgBytea => rmap BinaryArray (read TBytes)
  | PgTimestamp =>
      rmap (fun l => TimestampArray Microsecond None (map_slots timestamp_to_micros l)) (read TNaiveDateTime)
  | PgTimestamptz =>
      rmap (fun l => TimestampArray Microsecond (Some "UTC") (map_slots timestamptz_to_micros l))
        (read TDateTimeUtc)
  | PgDate => rmap (fun l => Date32Array (map_slots date_to_days l)) (read TNaiveDate)
  | PgTime => rmap (fun l => Time64MicrosecondArray (map_slots time_to_micros l)) (read TNaiveTime)
  | PgUuid => rmap (fun l => StringArray (map_slots show_uuid l)) (read TUuid)
  | PgJson => rmap (fun l => StringArray (map_slots pg_json_text l)) (read TJson)
  | PgNumeric => rmap (fun l => StringArray (map_slots show_decimal l)) (read TBigDecimal)
  | PgVec => build_vector_array try_get_raw rows col_idx
  | PgHalfvec => build_halfvec_array try_get_raw f16_to_f32 rows col_idx
  | PgSparsevec => build_sparsevec_array try_get_raw rows col_idx
  | PgOther => rmap StringArray (read TString)
  end.

(** [rows[0]] panics without rows. *)
Definition rows_to_batch (schema : Schema) (rows : list PgRow)
    : result (failure ConnectorError) RecordBatch :=
  let?? first := or_panic (head rows) in
  columns_to_batch (fun ty i => build_array ty rows i) schema (row_columns first).

(** The schema of a prepared statement. *)
Definition statement_schema : list SqlColumn -> Schema := columns_schema pg_type_to_arrow.

(** ** The connector *)

Context {W : Type} `{!PgDriver W} `{!ClientCache W PgPool}.
Variable config : ConnectorConfig.

(** The pool [get_reader] opens for the credentials. *)
Definition open_pool (credentials : gmap string string) : M W ConnectorError PgPool :=
  let? url := lift (ok_or (credentials !! PG_KEY_URI)
                      (ConnectionError ("'" +:+ PG_KEY_URI +:+ "' credential is required"))) in
  let? options := lift (rmap_err (fun e => ConnectionError ("invalid PostgreSQL URL: " +:+ e))
                          (parse_options url)) in
  let options := match credentials !! PG_KEY_CA_CERT with
                 | Some ca_cert => ssl_root_cert_from_pem ca_cert options
                 | None => options
                 end in
  map_err (fun e => ConnectionError ("unable to connect to PostgreSQL: " +:+ sqlx_text e))
    (connect_with (connection_timeout_secs config) options).

Definition pg_get_reader (connection : DataConnectionResource)
    (resolver : DataConnectionResource -> M W ConnectorError (gmap string string))
    : M W ConnectorError PgPool :=
  connector_client open_pool connection resolver.

Definition pg_schema (pool : PgPool) (query : string) : M W ConnectorError (string * Schema) :=
  let? columns := map_err map_sqlx_error (prepare pool query) in
  mret (query, statement_schema columns).

Definition SET_READ_ONLY : string := "SET TRANSACTION READ ONLY".

(** An error of sqlx inside the stream. *)
Definition sql {A} (m : M W SqlxError A) : Gen W (failure ConnectorError) RecordBatch A :=
  call (map_err (fun e => Fail (map_sqlx_error e)) m).

Definition pg_read_tabular (pool : PgPool) (query : string) (schema : Schema) (batch_size : nat)
    : Gen W (failure ConnectorError) RecordBatch unit :=
  let! conn := call (map_err (fun e => Fail (ConnectionError (sqlx_text e))) (acquire pool)) in
  let! tx := sql (begin conn) in
  sql (tx_execute tx SET_READ_ONLY) ;!
  let! rows := effect (fetch tx query) in
  chunked (rows_to_batch schema) batch_size
    (rmap_err (fun e => Fail (map_sqlx_error e)) <$> rows) ;!
  sql (commit tx).

Definition pg_check_connection (pool : PgPool) : M W ConnectorError unit :=
  map_err (fun _ => ConnectionError "PostgreSQL connection check failed") (execute pool "SELECT 1").

(** ** Tables *)

Record PgTable : Type := {
  pgt_catalog : string; pgt_schema_name : string; pgt_name : string; pgt_type : string;
  pgt_schema : Schema
}.

Definition TABLES_SQL : string :=
  "SELECT table_catalog, table_schema, table_name, table_type " +:+
  "FROM information_schema.tables " +:+
  "WHERE table_schema NOT IN ('information_schema', 'pg_catalog') ".

(** The statement whose columns are a table's. *)
Definition table_query (schema_name table_name : string) : string :=
  "SELECT * FROM " +:+ quote_ident schema_name +:+ "." +:+ quote_ident table_name +:+ " LIMIT 0".

Fixpoint table_infos (pool : PgPool) (include_schema : bool) (rows : list (string * string * string * string))
    : M W ConnectorError (list PgTable) :=
  match rows with
  | [] => mret []
  | (catalog, schema_name, table_name, table_type) :: rows =>
      let? table_schema :=
        if include_schema
        then let? columns := map_err map_sqlx_error (prepare pool (table_query schema_name table_name)) in
             mret (statement_schema columns)
        else mret [] in
      let? tables := table_infos pool include_schema rows in
      mret ({| pgt_catalog := catalog; pgt_schema_name := schema_name; pgt_name := table_name;
               pgt_type := table_type; pgt_schema := table_schema |} :: tables)
  end.

(** The statement that lists the tables, and the pattern that is bound to it. *)
Definition tables_statement (table_name_filter : option string) : string :=
  match table_name_filter with
  | Some _ => TABLES_SQL +:+ "AND table_name LIKE $1 ORDER BY table_schema, table_name"
  | None => TABLES_SQL +:+ "ORDER BY table_schema, table_name"
  end.

Definition pg_list_tables (pool : PgPool) (table_name_filter : option string) (include_schema : bool)
    : M W ConnectorError (list PgTable) :=
  let? rows := map_err map_sqlx_error
    (fetch_all pool (tables_statement table_name_filter) (option_list table_name_filter)) in
  table_infos pool include_schema rows.

(** ** Types *)

Lemma read_column (t : RustType) (mk : list (option (value_of t)) -> ArrayRef) ty rows col_idx :
  (forall l, data_type (mk l) = ty /\ array_len (mk l) = length l) ->
  column_ok (length rows) ty (rmap mk (column_values t rows col_idx)).
Proof.
  intros Hmk. unfold column_values. destruct (rmapM _ rows) as [l|e] eqn:Hl; cbn; [|done].
  destruct (Hmk l) as [-> ->]. split; [done|]. symmetry. by eapply Forall2_length, rmapM_ok.
Qed.

(** Every column is built as the type its name is mapped to, one slot per row, and
    never panics. *)
Lemma build_array_ok pg_type rows col_idx :
  column_ok (length rows) (pg_type_to_arrow pg_type) (build_array pg_type rows col_idx).
Proof.
  unfold pg_type_to_arrow, build_array. cbv zeta.
  destruct (pg_kind pg_type);
    first [apply vector_column | apply halfvec_column | apply sparsevec_column | idtac];
    lazymatch goal with
    | |- column_ok _ _ (rmap _ (column_values ?t _ _)) =>
        apply (read_column t); intros l; cbn; unfold map_slots; by rewrite ?length_map
    end.
Qed.

(** C33: the batches of a query have the schema that was announced for it. If the
    rows have the columns of the prepared statement, a chunk of rows is converted to
    a batch with exactly the statement's schema, whose columns have the fields' types
    and one slot per row, or fails because the database's value of some column cannot
    be read as the column's type; it never panics and never fails for a type
    mismatch. *)
Theorem pg_batches_typed columns rows :
  columns <> [] -> row_columns <$> head rows = Some columns ->
  match rows_to_batch (statement_schema columns) rows with
  | Ok b => batch_schema b = statement_schema columns /\
            conforms (statement_schema columns) (length rows) (batch_columns b)
  | Err e => e <> Panic /\ exists i c, columns !! i = Some c /\ build_array (col_type c) rows i = Err e
  end.
Proof.
  intros Hne Hcols. unfold rows_to_batch. destruct (head rows) as [r|]; [|done]. injection Hcols as <-.
  apply (columns_to_batch_typed (fun ty i => build_array ty rows i)); [|done]. intros. apply build_array_ok.
Qed.

(** ** Reading a query *)

Lemma rows_to_batch_safe schema rows : rows <> [] -> rows_to_batch schema rows <> Err Panic.
Proof.
  destruct rows as [|r rows]; [done|]. intros _. eapply columns_to_batch_safe. intros. apply build_array_ok.
Qed.

Lemma delivered_safe schema n rows bs r :
  delivered (rows_to_batch schema) n (rmap_err (fun e => Fail (map_sqlx_error e)) <$> rows) bs r ->
  r <> Err Panic.
Proof.
  intros Hd. inversion Hd as [|? ? ? e tail Hf Hlt Hb Hrows|? rest ? e tail Hf Hlt Hb Hrows He]; subst; [done|..].
  - intros [= ->].
    assert (Hin : Err Panic ∈ rmap_err (fun e => Fail (map_sqlx_error e)) <$> rows)
      by (rewrite Hrows; apply elem_of_app; right; by left).
    apply list_elem_of_fmap in Hin as ([row|e] & He & _); done.
  - intros [= ->]. apply (rows_to_batch_safe schema rest); [|done]. intros ->. cbn in Hlt. lia.
Qed.

(** C24: a query's stream ends and delivers its rows. Once a connection is acquired
    and the transaction made read-only, the stream yields the rows the database
    returned, in order and each once, in batches of exactly the batch size except
    for the last, and commits; if a row cannot be fetched or a chunk not converted,
    it yields the full batches before and ends with that error. It never panics,
    also for a batch size of 0, when every batch holds one row. *)
Theorem pg_read_delivers pool query schema batch_size w conn w1 tx w2 w3 rows w4 :
  acquire pool w = (Ok conn, w1) -> begin conn w1 = (Ok tx, w2) ->
  tx_execute tx SET_READ_ONLY w2 = (Ok tt, w3) -> fetch tx query w3 = (rows, w4) ->
  exists bs r,
    delivered (rows_to_batch schema) batch_size
      (rmap_err (fun e => Fail (map_sqlx_error e)) <$> rows) bs r /\
    r <> Err Panic /\
    pg_read_tabular pool query schema batch_size w =
      match r with
      | Err e => (bs, Some (Err e), w4)
      | Ok _ => (bs, Some (rmap_err (fun e => Fail (map_sqlx_error e)) (commit tx w4).1), (commit tx w4).2)
      end.
Proof.
  intros Ha Hb Hs Hf.
  destruct (chunked_ends (rows_to_batch schema) batch_size
              (rmap_err (fun e => Fail (map_sqlx_error e)) <$> rows) w4) as (bs & r & Hc & Hd).
  exists bs, r. split_and!; [done|by eapply delivered_safe|].
  unfold pg_read_tabular, sql.
  erewrite gbind_call_ok by (erewrite map_err_run by exact Ha; reflexivity).
  erewrite gbind_call_ok by (erewrite map_err_run by exact Hb; reflexivity).
  erewrite gbind_call_ok by (erewrite map_err_run by exact Hs; reflexivity).
  erewrite gbind_effect by exact Hf. destruct r as [[]|e].
  - erewrite gbind_ret by exact Hc. unfold call, map_err. destruct (commit tx w4). cbn. by rewrite app_nil_r.
  - by erewrite gbind_err by exact Hc.
Qed.

(** ** Reading does not write *)

Section ReadOnly.
(** The data of the database, and the transactions that may not write. *)
Variables (Data : Type) (data : W -> Data) (read_only : Tx -> W -> Prop).
(** Connections, beginning a transaction and its characteristics leave the data
    alone; the statement makes the transaction read-only; a read-only transaction
    writes nothing, whatever it executes, and committing it changes nothing. *)
Hypothesis acquire_data : forall pool w, data (snd (acquire pool w)) = data w.
Hypothesis begin_data : forall conn w, data (snd (begin conn w)) = data w.
Hypothesis set_data : forall tx w, data (snd (tx_execute tx SET_READ_ONLY w)) = data w.
Hypothesis set_read_only : forall tx w w',
  tx_execute tx SET_READ_ONLY w = (Ok tt, w') -> read_only tx w'.
Hypothesis fetch_data : forall tx q w,
  read_only tx w -> data (snd (fetch tx q w)) = data w /\ read_only tx (snd (fetch tx q w)).
Hypothesis commit_data : forall tx w, read_only tx w -> data (snd (commit tx w)) = data w.

Lemma pg_read_keeps_data pool query schema batch_size w :
  data (pg_read_tabular pool query schema batch_size w).2 = data w.
Proof.
  set (I := fun v => data v = data w).
  cut (gtriple I (pg_read_tabular pool query schema batch_size) (fun _ _ => True) I).
  { intros Ht. by apply Ht. }
  unfold pg_read_tabular, sql.
  apply (gtriple_bind _ _ _ (fun _ => I)); [|intros conn; apply (gtriple_bind _ _ _ (fun _ => I))];
    [|..|intros tx; apply (gtriple_bind _ _ _ (fun _ v => I v /\ read_only tx v))].
  - apply gtriple_call. intros v r v' Hv Hr. pose proof (acquire_data pool v) as H1.
    apply map_err_inv in Hr as (r' & Hr & ->). rewrite Hr in H1. unfold I in *. cbn in *. by rewrite H1.
  - apply gtriple_call. intros v r v' Hv Hr. pose proof (begin_data conn v) as H1.
    apply map_err_inv in Hr as (r' & Hr & ->). rewrite Hr in H1. unfold I in *. cbn in *. by rewrite H1.
  - apply gtriple_call. intros v r v' Hv Hr. pose proof (set_data tx v) as H1.
    apply map_err_inv in Hr as (r' & Hr & ->). rewrite Hr in H1. unfold I in *. cbn in *. rewrite H1.
    split; [done|]. intros [] Hok. destruct r' as [[]|]; [|done]. split; [done|]. by eapply set_read_only.
  - intros _. apply (gtriple_bind _ _ _ (fun _ v => I v /\ read_only tx v)).
    { apply gtriple_effect. intros v [Hv Hro]. destruct (fetch_data tx query v Hro) as [H1 H2].
      unfold I in *. by rewrite H1. }
    intros rows. apply (gtriple_bind _ _ _ (fun _ v => I v /\ read_only tx v)).
    { apply chunked_keeps. by intros ? []. }
    intros _. apply gtriple_call. intros v r v' [Hv Hro] Hr. pose proof (commit_data tx v Hro) as H1.
    apply map_err_inv in Hr as (r' & Hr & ->). rewrite Hr in H1. unfold I in *. cbn in *. by rewrite H1.
Qed.

(** Reading a query changes no data. Whatever text the client sends as its
    query and however the stream ends, the database holds the same data afterwards,
    because the query only runs in a transaction that was made read-only. *)
Theorem pg_reads_do_not_write pool query schema batch_size w :
  data (pg_read_tabular pool query schema batch_size w).2 = data w.
Proof. apply pg_read_keeps_data. Qed.
End ReadOnly.
End Postgres.

(** ** A concrete database *)

(** Rows of one 64-bit column; the world is whether the transaction is read-only and
    the number of rows stored, which every query that is allowed to deletes. *)
Definition sample_column : SqlColumn := {| col_name := "n"; col_type := "INT8" |}.

#[local] Instance sample_values : PgValues := {|
  NaiveDateTime := Z; DateTimeUtc := Z; NaiveDate := Z; NaiveTime := Z; Uuid := Z; BigDecimal := Z;
  naive_timestamp_micros := fun z => z; utc_timestamp_micros := fun z => z;
  num_days_since_epoch := fun z => z; num_seconds_from_midnight := fun z => z; nanosecond := fun z => z;
  show_uuid := fun _ => ""; show_decimal := fun _ => ""; pg_json_text := fun _ => "";
  f16_to_f32 := fun z => z;
  PgRow := Z;
  row_columns := fun _ => [sample_column];
  try_get t := match t with
               | TI64 => fun r _ => Ok (Some r)
               | _ => fun _ _ => Err {| sqlx_code := None; sqlx_text := "mismatched types" |}
               end;
  try_get_raw := fun _ _ => Err {| sqlx_code := None; sqlx_text := "no such column" |}
|}.

#[local] Instance sample_driver : PgDriver (bool * nat) := {|
  PgConnectOptions := string; PgPool := unit; Conn := unit; Tx := unit;
  parse_options := fun s => Ok s;
  ssl_root_cert_from_pem := fun _ o => o;
  connect_with := fun _ _ => mret tt;
  prepare := fun _ _ => mret [sample_column];
  execute := fun _ _ => mret tt;
  fetch_all := fun _ _ _ => mret [];
  acquire := fun _ => mret tt;
  begin := fun _ w => (Ok tt, (false, snd w));
  tx_execute := fun _ _ w => (Ok tt, (true, snd w));
  fetch := fun _ _ w => (Ok <$> [1%Z; 2%Z; 3%Z], if fst w then w else (fst w, 0));
  commit := fun _ w => (Ok tt, w)
|}.

Lemma pg_batches_typed_witness :
  match rows_to_batch (statement_schema [sample_column]) [1%Z; 2%Z] with
  | Ok b => batch_schema b = statement_schema [sample_column] /\
            conforms (statement_schema [sample_column]) 2 (batch_columns b)
  | Err e => e <> Panic /\ exists i c, [sample_column] !! i = Some c /\
             build_array (col_type c) [1%Z; 2%Z] i = Err e
  end.
Proof. apply (pg_batches_typed (PV := sample_values) [sample_column] [1%Z; 2%Z]); done. Defined.

Lemma pg_read_delivers_witness :
  exists bs r,
    delivered (rows_to_batch (statement_schema [sample_column])) 2
      (rmap_err (fun e => Fail (map_sqlx_error e)) <$> (Ok <$> [1%Z; 2%Z; 3%Z])) bs r /\
    r <> Err Panic /\
    pg_read_tabular tt "SELECT n FROM t" (statement_schema [sample_column]) 2 (false, 3) =
      match r with
      | Err e => (bs, Some (Err e), (true, 3))
      | Ok _ => (bs, Some (Ok tt), (true, 3))
      end.
Proof.
  apply (pg_read_delivers (PV := sample_values) (PgDriver0 := sample_driver) tt "SELECT n FROM t" (statement_schema [sample_column]) 2
           (false, 3) tt (false, 3) tt (false, 3) (true, 3)); reflexivity.
Defined.

Lemma pg_reads_do_not_write_witness :
  snd (pg_read_tabular tt "DELETE FROM t RETURNING n" [] 2 (false, 3)).2 = 3.
Proof.
  apply (pg_reads_do_not_write nat snd (fun _ w => fst w = true)); try reflexivity.
  - intros tx w w' [= <-]. reflexivity.
  - intros tx q w Hw. cbn. rewrite Hw. auto.
Defined.
