(* ===== verification/Sqlite.v ===== *)
(** The SQLite connector ([connectors/sqlite/src/connector.rs]): the types of
    columns, their arrays, reading a query in chunks on a connection that may not
    write, and listing tables, over the database and sqlx's decoding. *)
From S2P Require Import Prelude Streams Text Like Json Floats Api Arrow Batches ClientCache Postgres.
From Stdlib Require Import ZArith.

Definition SQLITE_KEY_URI : string := "URI".

(** [str::to_uppercase], on ASCII letters. *)
Definition upper_ascii (a : ascii) : ascii :=
  if byte_in 97 122 a then ascii_of_nat (nat_of_ascii a - 32) else a.
Definition to_uppercase : string -> string := string_map upper_ascii.

(** The patterns that [sqlite_type_to_arrow] and [build_array] share. *)
Inductive SqliteKind : Type := SqliteBoolean | SqliteInteger | SqliteReal | SqliteBlob | SqliteOther.

Definition sqlite_kind (sqlite_type : string) : SqliteKind :=
  if String.eqb sqlite_type "BOOLEAN" then SqliteBoolean
  else if String.eqb sqlite_type "INTEGER" then SqliteInteger
  else if String.eqb sqlite_type "REAL" then SqliteReal
  else if String.eqb sqlite_type "BLOB" then SqliteBlob
  else SqliteOther.

Definition sqlite_type_to_arrow (sqlite_type : string) : DataType :=
  match sqlite_kind sqlite_type with
  | SqliteBoolean => Boolean
  | SqliteInteger => Int64
  | SqliteReal => Float64
  | SqliteBlob => Binary
  | SqliteOther => Utf8
  end.

(** Rows as sqlx decodes them. *)
Class SqliteValues : Type := {
  SqliteRow : Type;
  sqlite_columns : SqliteRow -> list SqlColumn;
  get_bool : SqliteRow -> nat -> result SqlxError (option bool);
  get_i64 : SqliteRow -> nat -> result SqlxError (option Z);
  get_f64 : SqliteRow -> nat -> result SqlxError (option f64);
  get_bytes : SqliteRow -> nat -> result SqlxError (option string);
  get_string : SqliteRow -> nat -> result SqlxError (option string)
}.

Class SqliteDriver (W : Type) `{SqliteValues} : Type := {
  SqlitePool : Type;
  SqliteConn : Type;
  sqlite_connect : N -> string -> M W SqlxError SqlitePool;
  sqlite_prepare : SqlitePool -> string -> M W SqlxError (list SqlColumn);
  sqlite_execute : SqlitePool -> string -> M W SqlxError unit;
  sqlite_fetch_all : SqlitePool -> string -> list string -> M W SqlxError (list (string * string));
  sqlite_acquire : SqlitePool -> M W SqlxError SqliteConn;
  conn_execute : SqliteConn -> string -> M W SqlxError unit;
  conn_fetch : SqliteConn -> string -> W -> list (result SqlxError SqliteRow) * W
}.

(** Every error of the database but those of connecting. *)
Definition sqlite_error (e : SqlxError) : ConnectorError := SQLError (sqlx_text e).

Section Sqlite.
Context `{SV : SqliteValues} `{AR : Arrow}.

Definition sqlite_values {A} (get : SqliteRow -> nat -> result SqlxError (option A))
    (rows : list SqliteRow) (col_idx : nat) : result (failure ConnectorError) (list (option A)) :=
  rmap_err (fun e => Fail (sqlite_error e)) (rmapM (fun r => get r col_idx) rows).

Definition sqlite_build_array (sqlite_type : string) (rows : list SqliteRow) (col_idx : nat)
    : result (failure ConnectorError) ArrayRef :=
  match sqlite_kind sqlite_type with
  | SqliteBoolean => rmap BooleanArray (sqlite_values get_bool rows col_idx)
  | SqliteInteger => rmap Int64Array (sqlite_values get_i64 rows col_idx)
  | SqliteReal => rmap Float64Array (sqlite_values get_f64 rows col_idx)
  | SqliteBlob => rmap BinaryArray (sqlite_values get_bytes rows col_idx)
  | SqliteOther => rmap StringArray (sqlite_values get_string rows col_idx)
  end.

Definition sqlite_rows_to_batch (schema : Schema) (rows : list SqliteRow)
    : result (failure ConnectorError) RecordBatch :=
  let?? first := or_panic (head rows) in
  columns_to_batch (fun ty i => sqlite_build_array ty rows i) schema (sqlite_columns first).

Definition sqlite_statement_schema : list SqlColumn -> Schema := columns_schema sqlite_type_to_arrow.

Context {W : Type} `{!SqliteDriver W} `{!ClientCache W SqlitePool}.
Variable config : ConnectorConfig.

(** The pool [get_reader] opens for the credentials. *)
Definition sqlite_open_pool (credentials : gmap string string) : M W ConnectorError SqlitePool :=
  let? url := lift (ok_or (credentials !! SQLITE_KEY_URI)
                      (ConnectionError ("'" +:+ SQLITE_KEY_URI +:+ "' credential is required"))) in
  map_err (fun e => ConnectionError ("unable to connect to SQLite: " +:+ sqlx_text e))
    (sqlite_connect (connection_timeout_secs config) url).

Definition sqlite_get_reader (connection : DataConnectionResource)
    (resolver : DataConnectionResource -> M W ConnectorError (gmap string string))
    : M W ConnectorError SqlitePool :=
  connector_client sqlite_open_pool connection resolver.

Definition sqlite_schema (pool : SqlitePool) (query : string) : M W ConnectorError (string * Schema) :=
  let? columns := map_err sqlite_error (sqlite_prepare pool query) in
  mret (query, sqlite_statement_schema columns).

Definition QUERY_ONLY : string := "PRAGMA query_only = ON".

Definition sqlite_read_tabular (pool : SqlitePool) (query : string) (schema : Schema) (batch_size : nat)
    : Gen W (failure ConnectorError) RecordBatch unit :=
  let! conn := call (map_err (fun e => Fail (ConnectionError (sqlx_text e))) (sqlite_acquire pool)) in
  call (map_err (fun e => Fail (sqlite_error e)) (conn_execute conn QUERY_ONLY)) ;!
  let! rows := effect (conn_fetch conn query) in
  chunked (sqlite_rows_to_batch schema) batch_size (rmap_err (fun e => Fail (sqlite_error e)) <$> rows).

Definition sqlite_check_connection (pool : SqlitePool) : M W ConnectorError unit :=
  map_err (fun e => ConnectionError ("SQLite connection check failed: " +:+ sqlx_text e))
    (sqlite_execute pool "SELECT 1").

(** ** Tables *)

Record SqliteTable : Type := { sqt_name : string; sqt_type : string; sqt_schema : Schema }.

(** The names the statement leaves out. *)
Definition INTERNAL_TABLES : string := "sqlite_%".

Definition SQLITE_TABLES_SQL : string :=
  "SELECT name, type FROM sqlite_master " +:+
  "WHERE type IN ('table', 'view') AND name NOT LIKE '" +:+ INTERNAL_TABLES +:+ "' ".

Definition sqlite_table_query (table_name : string) : string :=
  "SELECT * FROM " +:+ quote_ident table_name +:+ " LIMIT 0".

Fixpoint sqlite_table_infos (pool : SqlitePool) (include_schema : bool) (rows : list (string * string))
    : M W ConnectorError (list SqliteTable) :=
  match rows with
  | [] => mret []
  | (table_name, table_type) :: rows =>
      let? table_schema :=
        if include_schema
        then let? columns := map_err sqlite_error (sqlite_prepare pool (sqlite_table_query table_name)) in
             mret (sqlite_statement_schema columns)
        else mret [] in
      let? tables := sqlite_table_infos pool include_schema rows in
      mret ({| sqt_name := table_name; sqt_type := to_uppercase table_type; sqt_schema := table_schema |} :: tables)
  end.

Definition sqlite_tables_statement (table_name_filter : option string) : string :=
  match table_name_filter with
  | Some _ => SQLITE_TABLES_SQL +:+ "AND name LIKE ?1 ORDER BY name"
  | None => SQLITE_TABLES_SQL +:+ "ORDER BY name"
  end.

Definition sqlite_list_tables (pool : SqlitePool) (table_name_filter : option string) (include_schema : bool)
    : M W ConnectorError (list SqliteTable) :=
  let? rows := map_err sqlite_error
    (sqlite_fetch_all pool (sqlite_tables_statement table_name_filter) (option_list table_name_filter)) in
  sqlite_table_infos pool include_schema rows.

(** ** Types *)

Lemma sqlite_column {A} (get : SqliteRow -> nat -> result SqlxError (option A)) (mk : list (option A) -> ArrayRef)
    ty rows col_idx :
  (forall l, data_type (mk l) = ty /\ array_len (mk l) = length l) ->
  column_ok (length rows) ty (rmap mk (sqlite_values get rows col_idx)).
Proof.
  intros Hmk. unfold sqlite_values. destruct (rmapM _ rows) as [l|e] eqn:Hl; cbn; [|done].
  destruct (Hmk l) as [-> ->]. split; [done|]. symmetry. by eapply Forall2_length, rmapM_ok.
Qed.

Lemma sqlite_build_array_ok ty rows col_idx :
  column_ok (length rows) (sqlite_type_to_arrow ty) (sqlite_build_array ty rows col_idx).
Proof.
  unfold sqlite_type_to_arrow, sqlite_build_array. destruct (sqlite_kind ty); by apply sqlite_column.
Qed.

(** The batches of a query have the schema announced for it, if the rows have the
    columns of the prepared statement. *)
Lemma sqlite_batches_typed columns rows :
  columns <> [] -> sqlite_columns <$> head rows = Some columns ->
  match sqlite_rows_to_batch (sqlite_statement_schema columns) rows with
  | Ok b => batch_schema b = sqlite_statement_schema columns /\
            conforms (sqlite_statement_schema columns) (length rows) (batch_columns b)
  | Err e => e <> Panic /\ exists i c, columns !! i = Some c /\ sqlite_build_array (col_type c) rows i = Err e
  end.
Proof.
  intros Hne Hcols. unfold sqlite_rows_to_batch. destruct (head rows) as [r|]; [|done]. injection Hcols as <-.
  apply (columns_to_batch_typed (fun ty i => sqlite_build_array ty rows i)); [|done].
  intros. apply sqlite_build_array_ok.
Qed.

(** ** Reading *)

(** The stream ends and delivers the rows of the database in chunks. *)
Lemma sqlite_read_delivers pool query schema batch_size w conn w1 w2 rows w3 :
  sqlite_acquire pool w = (Ok conn, w1) -> conn_execute conn QUERY_ONLY w1 = (Ok tt, w2) ->
  conn_fetch conn query w2 = (rows, w3) ->
  exists bs r,
    delivered (sqlite_rows_to_batch schema) batch_size
      (rmap_err (fun e => Fail (sqlite_error e)) <$> rows) bs r /\
    sqlite_read_tabular pool query schema batch_size w = (bs, Some r, w3).
Proof.
  intros Ha Hq Hf.
  destruct (chunked_ends (sqlite_rows_to_batch schema) batch_size
              (rmap_err (fun e => Fail (sqlite_error e)) <$> rows) w3) as (bs & r & Hc & Hd).
  exists bs, r. split; [done|]. unfold sqlite_read_tabular.
  erewrite gbind_call_ok by (erewrite map_err_run by exact Ha; reflexivity).
  erewrite gbind_call_ok by (erewrite map_err_run by exact Hq; reflexivity).
  by erewrite gbind_effect by exact Hf.
Qed.

Section QueryOnly.
(** The data of the database, and the connections that may not write. *)
Variables (Data : Type) (data : W -> Data) (query_only : SqliteConn -> W -> Prop).
Hypothesis acquire_data : forall pool w, data (snd (sqlite_acquire pool w)) = data w.
Hypothesis pragma_data : forall conn w, data (snd (conn_execute conn QUERY_ONLY w)) = data w.
Hypothesis pragma_query_only : forall conn w w',
  conn_execute conn QUERY_ONLY w = (Ok tt, w') -> query_only conn w'.
(** The queries that leave the pragma as it is. The driver executes every statement of
    a text, so that [PRAGMA query_only = OFF; ...] is not one of them. *)
Variable keeps_query_only : string -> Prop.
Hypothesis fetch_data : forall conn q w,
  query_only conn w -> keeps_query_only q -> data (snd (conn_fetch conn q w)) = data w.

(** Such a query leaves the data of the database as they are. *)
Lemma sqlite_reads_do_not_write pool query schema batch_size w :
  keeps_query_only query -> data (sqlite_read_tabular pool query schema batch_size w).2 = data w.
Proof.
  intros Hq.
  set (I := fun v => data v = data w).
  cut (gtriple I (sqlite_read_tabular pool query schema batch_size) (fun _ => I) I).
  { intros Ht. by apply Ht. }
  unfold sqlite_read_tabular. apply (gtriple_bind _ _ _ (fun _ => I)).
  { apply gtriple_call. intros v r v' Hv Hr. pose proof (acquire_data pool v) as H1.
    apply map_err_inv in Hr as (r' & Hr & ->). rewrite Hr in H1. unfold I in *. cbn in *. by rewrite H1. }
  intros conn. apply (gtriple_bind _ _ _ (fun _ v => I v /\ query_only conn v)).
  { apply gtriple_call. intros v r v' Hv Hr. pose proof (pragma_data conn v) as H1.
    apply map_err_inv in Hr as (r' & Hr & ->). rewrite Hr in H1. unfold I in *. cbn in *. rewrite H1.
    split; [done|]. intros [] Hok. destruct r' as [[]|]; [|done]. split; [done|]. by eapply pragma_query_only. }
  intros _. apply (gtriple_bind _ _ _ (fun _ => I)).
  { apply gtriple_effect. intros v [Hv Hro]. pose proof (fetch_data conn query v Hro Hq) as H1. unfold I in *. by rewrite H1. }
  intros rows. by apply chunked_keeps.
Qed.
End QueryOnly.
End Sqlite.

(** ** The generated statements *)

(** No table name can change the statement its schema is read with. The
    statement [list_tables] prepares for a table reads, as SQL, as a selection from
    the table with exactly the schema and name the catalogue reported, whatever
    characters they contain; for PostgreSQL and SQLite alike. *)
Theorem generated_statements_name_table schema_name table_name :
  (exists r r', strip_prefix "SELECT * FROM " (table_query schema_name table_name) = Some r /\
     lex_ident r = Some (schema_name, String "." r') /\ lex_ident r' = Some (table_name, " LIMIT 0")) /\
  (exists r, strip_prefix "SELECT * FROM " (sqlite_table_query table_name) = Some r /\
     lex_ident r = Some (table_name, " LIMIT 0")).
Proof.
  split.
  - eexists _, (quote_ident table_name +:+ " LIMIT 0"). split_and!.
    + apply strip_prefix_spec. reflexivity.
    + rewrite sapp_cons, sapp_nil_l. by apply lex_quote_ident.
    + by apply lex_quote_ident.
  - eexists. split; [apply strip_prefix_spec; reflexivity|]. by apply lex_quote_ident.
Qed.

(** The underscore of the pattern stands for any character: a user's table whose
    name merely begins with the letters of [sqlite] is left out of the listing. *)
Example listing_hides_user_table : sql_like_match "sqlitedata" INTERNAL_TABLES = true.
Proof. reflexivity. Qed.
