(* ===== verification/Http.v ===== *)
(** HTTP clients, as the connectors use [reqwest]: how a client is configured, what
    is sent, and what is received. *)
From S2P Require Import Prelude Text Json Api.
From Stdlib Require Import NArith.

Inductive Authorization : Type :=
| NoAuth
| Bearer (token : string)
| Basic (username password : string)
| ApiKey (encoded : string).

(** A request: its timeout is the client's unless it has its own. *)
Record HttpRequest : Type := {
  rq_method : string;
  rq_url : string;
  rq_auth : Authorization;
  rq_json : option json;
  rq_timeout : option N
}.

(** A response; reading its body may fail. *)
Record HttpResponse : Type := {
  rs_status : N;
  rs_content_type : option string;
  rs_content_length : option N;
  rs_body : result string string
}.

(** [StatusCode::is_success]. *)
Definition is_success (status : N) : bool := (200 <=? status)%N && (status <? 300)%N.

(** [text().await.unwrap_or_default()]. *)
Definition text_or_default (r : HttpResponse) : string :=
  match rs_body r with Ok s => s | Err _ => "" end.

(** [reqwest] and [serde_json]: certificates, clients with their timeouts and root
    certificate, sending, the display of a status, and parsing. *)
Class Http (W : Type) : Type := {
  HttpClient : Type;
  Certificate : Type;
  cert_from_pem : string -> result string Certificate;
  build_http : N -> N -> N -> option Certificate -> result string HttpClient;
  send : HttpClient -> HttpRequest -> M W string HttpResponse;
  show_status : N -> string;
  from_str : string -> result string json
}.

Section Http.
Context {W : Type} `{Http W}.

(** [response.json().await]. *)
Definition response_json (r : HttpResponse) : result string json :=
  let?? s := rs_body r in from_str s.

(** A client with the connector's timeouts that also trusts the certificate of the
    credentials: how every HTTP connector builds its own. *)
Definition http_client (config : ConnectorConfig) (ca_cert : option string)
    : result ConnectorError HttpClient :=
  let?? cert :=
    match ca_cert with
    | Some pem => rmap Some (rmap_err (fun e => ConnectionError ("Invalid CA certificate: " +:+ e))
                               (cert_from_pem pem))
    | None => Ok None
    end in
  rmap_err (fun e => ConnectionError ("Failed to build HTTP client: " +:+ e))
    (build_http (connection_timeout_secs config) (read_timeout_secs config)
       (request_timeout_secs config) cert).
End Http.

(** [str::trim_end_matches('/')]. *)
Fixpoint drop_slashes (s : string) : string :=
  match s with
  | String a r => if Ascii.eqb a "/" then drop_slashes r else s
  | "" => ""
  end.
Definition trim_end_slashes (s : string) : string := string_rev "" (drop_slashes (string_rev "" s)).
