(* ===== verification/Uri.v ===== *)
(** The URI connector ([connectors/uri/src]): requests below a base URI, and files read
    from their responses. *)
From S2P Require Import Prelude Streams Text Json Floats Api Arrow ClientCache Readers Http Batches.
From Stdlib Require Import NArith.

Definition URI_KEY_URI : string := "URI".
Definition URI_KEY_TOKEN : string := "TOKEN".
Definition URI_KEY_USERNAME : string := "USERNAME".
Definition URI_KEY_PASSWORD : string := "PASSWORD".
Definition URI_KEY_CA_CERT : string := "CA_CERT".

(** ** Requests (query.rs) *)

Record UriRequest : Type := { uri_path : string; data_path : option string; uri_format : option string }.

(** [trim_start_matches('/')] is [drop_slashes]. *)
Definition uri_parse (from_str : string -> result string json) (query : string) : result ConnectorError UriRequest :=
  let?? value := rmap_err (fun e => CInvalidRequest ("Invalid JSON: " +:+ e)) (from_str query) in
  let?? obj := ok_or (as_object value) (CInvalidRequest "Query must be a JSON object") in
  let?? raw_path := ok_or (obj !! "path" ≫= as_str) (CInvalidRequest "'path' is required") in
  let path := drop_slashes raw_path in
  let request := {| uri_path := path; data_path := obj !! "data_path" ≫= as_str;
                    uri_format := obj !! "format" ≫= as_str |} in
  match obj !! "method" ≫= as_str with
  | Some method =>
      if String.eqb (to_ascii_lowercase method) "get" then Ok request
      else Err (CInvalidRequest ("Only GET is supported, got '" +:+ method +:+ "'"))
  | None => Ok request
  end.

(** ** URLs *)

(** The [url] crate: parsing, joining and the parts that are used. Clearing the query
    or the fragment keeps the origin and the path; setting a path keeps the origin,
    and a path that ends with a slash still does. *)
Class UrlLib : Type := {
  Url : Type;
  Origin : Type;
  origin_eq_dec :: EqDecision Origin;
  url_parse : string -> result string Url;
  join : Url -> string -> result string Url;
  url_origin : Url -> Origin;
  url_path : Url -> string;
  url_str : Url -> string;
  clear_query : Url -> Url;
  clear_fragment : Url -> Url;
  set_path : string -> Url -> Url;
  clear_query_parts u : url_origin (clear_query u) = url_origin u /\ url_path (clear_query u) = url_path u;
  clear_fragment_parts u : url_origin (clear_fragment u) = url_origin u /\ url_path (clear_fragment u) = url_path u;
  set_path_parts p u : url_origin (set_path p u) = url_origin u /\
    (ends_with "/" p = true -> ends_with "/" (url_path (set_path p u)) = true)
}.

Section Uri.
Context {W : Type} `{HW : Http W} `{UL : UrlLib} `{AR : Arrow} `{FL : !FormatLib W}.
(** [mime]'s parser; the chunks of a response's body; [opendal]'s memory operator. *)
Variable parse_mime : string -> result string Mime.
Variable bytes_stream : HttpResponse -> list (result string string).
Context {Op : Type}.
Variable mem_new : M W string Op.
Variable mem_write : Op -> bytes -> M W string unit.
Variable mem_reader : Op -> M W string Reader.

(** ** The client *)

Record UriClient : Type := { uri_http : HttpClient; uri_base_url : Url; uri_auth : Authorization }.

(** [UriClient::request]: the request, with an optional timeout of its own. *)
Definition uri_request (c : UriClient) (method path : string) (timeout : option N)
    : result ConnectorError HttpRequest :=
  let?? url := rmap_err (fun e => CInvalidRequest ("Invalid path '" +:+ path +:+ "': " +:+ e))
                 (join (uri_base_url c) path) in
  if negb (bool_decide (url_origin url = url_origin (uri_base_url c)))
     || negb (starts_with (url_path (uri_base_url c)) (url_path url))
  then Err (CInvalidRequest ("Path '" +:+ path +:+ "' must not escape the base URI"))
  else Ok {| rq_method := method; rq_url := url_str url; rq_auth := uri_auth c; rq_json := None;
             rq_timeout := timeout |}.

Definition normalize_base (u : Url) : Url :=
  let u := clear_fragment (clear_query u) in
  if ends_with "/" (url_path u) then u else set_path (url_path u +:+ "/") u.

Definition uri_authorization (credentials : gmap string string) : Authorization :=
  match credentials !! URI_KEY_TOKEN with
  | Some token => Bearer token
  | None =>
      match credentials !! URI_KEY_USERNAME, credentials !! URI_KEY_PASSWORD with
      | Some username, Some password => Basic username password
      | _, _ => NoAuth
      end
  end.

Definition uri_build_client (credentials : gmap string string) (config : ConnectorConfig)
    : result ConnectorError UriClient :=
  let?? raw_url := ok_or (credentials !! URI_KEY_URI)
                     (ConnectionError ("'" +:+ URI_KEY_URI +:+ "' credential is required")) in
  let?? base_url := rmap_err (fun e => ConnectionError ("Invalid URI: " +:+ e)) (url_parse raw_url) in
  let?? http := http_client config (credentials !! URI_KEY_CA_CERT) in
  Ok {| uri_http := http; uri_base_url := normalize_base base_url; uri_auth := uri_authorization credentials |}.

Definition uri_get_reader `{!ClientCache W UriClient} (config : ConnectorConfig)
    (connection : DataConnectionResource)
    (resolver : DataConnectionResource -> M W ConnectorError (gmap string string))
    : M W ConnectorError UriClient :=
  connector_client (fun credentials => lift (uri_build_client credentials config)) connection resolver.

(** ** Responses *)

Record CachedResponse : Type := { cr_format : FileFormat; cr_bytes : string }.

Definition MAX_RESPONSE_BYTES : N := 134217728.

Definition uri_detect_format (content_type : option string) (request : UriRequest) : result ConnectorError FileFormat :=
  match uri_format request with
  | Some fmt => from_format_str fmt
  | None =>
      let?? by_type :=
        match content_type with
        | Some ct =>
            let?? ct_str := ok_or (header_to_str ct)
              (ConnectionError "Invalid HTTP Content-Type header: failed to convert header to a str") in
            Ok (match from_content_type parse_mime ct_str with Ok f => Some f | Err _ => None end)
        | None => Ok None
        end in
      match by_type with
      | Some f => Ok f
      | None =>
          match detect (uri_path request) None with
          | Ok f => Ok f
          | Err _ => Err (ConnectionError "Cannot determine response format. Set 'format' in query or ensure the server returns a recognized Content-Type header.")
          end
      end
  end.

Definition uri_send (c : UriClient) (method path : string) (timeout : option N) (context : string)
    : M W ConnectorError HttpResponse :=
  let? request := lift (uri_request c method path timeout) in
  map_err (fun e => ConnectionError (context +:+ e)) (send (uri_http c) request).

Definition response_too_large (len : N) : ConnectorError :=
  ConnectionError ("Response too large (" +:+ pretty len +:+ " bytes, limit 134217728)").

Definition body_len (s : string) : N := N.of_nat (String.length s).

Definition fetch_response (c : UriClient) (request : UriRequest) : M W ConnectorError CachedResponse :=
  let? response := uri_send c "GET" (uri_path request) None "HTTP request failed: " in
  if negb (is_success (rs_status response))
  then throw (ConnectionError ("HTTP request failed (status " +:+ show_status (rs_status response) +:+ "): "
                               +:+ text_or_default response))
  else
    let? format := lift (uri_detect_format (rs_content_type response) request) in
    match rs_content_length response with
    | Some len =>
        if (MAX_RESPONSE_BYTES <? len)%N then throw (response_too_large len) else mret tt
    | None => mret tt
    end ;?
    let? body := lift (rmap_err (fun e => ConnectionError ("Failed to read response: " +:+ e)) (rs_body response)) in
    if (MAX_RESPONSE_BYTES <? body_len body)%N then throw (response_too_large (body_len body))
    else mret {| cr_format := format; cr_bytes := body |}.

Definition bytes_to_opendal_reader (data : bytes) : M W ConnectorError Reader :=
  let? op := map_err (fun e => IOError ("Failed to create memory operator: " +:+ e)) mem_new in
  map_err (fun e => IOError ("Failed to buffer response: " +:+ e)) (mem_write op data) ;?
  map_err (fun e => IOError ("Failed to create reader: " +:+ e)) (mem_reader op).

(** ** A reader *)

(** A reader's only state is its cached response. *)
Abbreviation RW := (option CachedResponse * W)%type.

Definition on_world {E A} (m : M W E A) : M RW E A := fun s => let (r, w) := m s.2 in (r, (s.1, w)).
Definition put_response (c : option CachedResponse) : M RW ConnectorError unit := fun s => (Ok tt, (c, s.2)).
Definition take_response : M RW ConnectorError (option CachedResponse) := fun s => (Ok s.1, (None, s.2)).

Definition response_schema (cached : CachedResponse) (path : option string) : M W ConnectorError Schema :=
  let data := Stdlib.Strings.String.list_ascii_of_string (cr_bytes cached) in
  match cr_format cached with
  | JsonFile => lift (read_json_schema data path)
  | Csv => let? reader := bytes_to_opendal_reader data in read_csv_schema reader
  | JsonLines => let? reader := bytes_to_opendal_reader data in read_jsonl_schema reader
  | Parquet => let? reader := bytes_to_opendal_reader data in read_parquet_schema reader
  end.

Definition uri_schema (c : UriClient) (query : string) : M RW ConnectorError (string * Schema) :=
  let? request := lift (uri_parse from_str query) in
  let? cached := on_world (fetch_response c request) in
  let? schema := on_world (response_schema cached (data_path request)) in
  put_response (Some cached) ;?
  mret (query, schema).

(** The elements of the stream. *)
Abbreviation Elements := (option (list (result (failure ConnectorError) RecordBatch))).

Definition response_batches (resp : CachedResponse) (schema : Schema) (n : nat) (path : option string)
    : M W ConnectorError Elements :=
  let data := Stdlib.Strings.String.list_ascii_of_string (cr_bytes resp) in
  match cr_format resp with
  | JsonFile => mret (read_json_batches data schema n path)
  | Csv => let? reader := bytes_to_opendal_reader data in
           let? s := read_csv_batches reader schema n in mret (never_panics s)
  | JsonLines => let? reader := bytes_to_opendal_reader data in
                 let? s := read_jsonl_batches reader schema n in mret (never_panics s)
  | Parquet => let? reader := bytes_to_opendal_reader data in
               let? s := read_parquet_batches reader n in mret (never_panics s)
  end.

Definition uri_read_tabular (c : UriClient) (view : string * Schema) (n : nat) : M RW ConnectorError Elements :=
  let? request := lift (uri_parse from_str view.1) in
  let? cached := take_response in
  let? resp := match cached with Some r => mret r | None => on_world (fetch_response c request) end in
  on_world (response_batches resp view.2 n (data_path request)).

Definition uri_can_read_binary (c : UriClient) (path : string) : M W ConnectorError unit :=
  let? response := uri_send c "HEAD" path None "HTTP HEAD failed: " in
  if (rs_status response =? 404)%N then throw (CNotFound ("'" +:+ path +:+ "' not found"))
  else if negb (is_success (rs_status response))
  then throw (IOError ("Cannot read '" +:+ path +:+ "': HTTP " +:+ show_status (rs_status response)))
  else mret tt.

Definition DAY : N := 86400.

Definition uri_read_binary (c : UriClient) (path : string) : M W ConnectorError (list (result ConnectorError RecordBatch)) :=
  let? response := uri_send c "GET" path (Some DAY) "HTTP request failed: " in
  if (rs_status response =? 404)%N then throw (CNotFound ("'" +:+ path +:+ "' not found"))
  else if negb (is_success (rs_status response))
  then throw (ConnectionError ("HTTP request failed (status " +:+ show_status (rs_status response) +:+ "): "
                               +:+ text_or_default response))
  else mret (binary_batches (rmap_err (fun e => IOError ("Stream read error: " +:+ e)) <$> bytes_stream response)).

Definition uri_check_connection (c : UriClient) : M W ConnectorError unit :=
  let? response := uri_send c "HEAD" "" None "Connection test failed: " in
  if (rs_status response =? 401)%N || (rs_status response =? 403)%N
  then throw (ConnectionError ("Authentication failed (HTTP " +:+ show_status (rs_status response) +:+ ")"))
  else mret tt.

(** ** Where requests go *)

(** A request below the client's base, with the client's authorization. *)
Definition within (c : UriClient) (r : HttpRequest) : Prop :=
  exists u rest, rq_url r = url_str u /\ url_origin u = url_origin (uri_base_url c) /\
    url_path u = url_path (uri_base_url c) +:+ rest /\ rq_auth r = uri_auth c /\ rq_json r = None /\
    (rq_method r = "GET" \/ rq_method r = "HEAD").

Lemma uri_request_within c method path timeout r :
  method = "GET" \/ method = "HEAD" -> uri_request c method path timeout = Ok r -> within c r.
Proof.
  intros Hm. unfold uri_request. destruct (join _ path) as [u|e]; [|done]. cbn [rmap_err rbind].
  destruct (bool_decide_reflect (url_origin u = url_origin (uri_base_url c))); [|done]. cbn [negb orb].
  destruct (starts_with _ (url_path u)) eqn:Hs; [|done]. apply starts_with_spec in Hs as [rest Hrest].
  intros [= <-]. exists u, rest. by split_and!.
Qed.

(** The base of a client is that of its credentials, with a path that ends at a
    segment boundary. *)
Lemma uri_build_client_base credentials config c :
  uri_build_client credentials config = Ok c ->
  (exists raw u, credentials !! URI_KEY_URI = Some raw /\ url_parse raw = Ok u /\
     url_origin (uri_base_url c) = url_origin u) /\
  ends_with "/" (url_path (uri_base_url c)) = true /\ uri_auth c = uri_authorization credentials.
Proof.
  unfold uri_build_client. destruct (credentials !! URI_KEY_URI) as [raw|]; [|done]. cbn [ok_or rbind].
  destruct (url_parse raw) as [u|] eqn:Hu; [|done]. cbn [rmap_err rbind].
  destruct (http_client _ _) as [http|]; [|done]. cbn [rbind]. intros [= <-]. cbn [uri_base_url uri_auth].
  destruct (clear_query_parts u) as [Hq1 Hq2]. destruct (clear_fragment_parts (clear_query u)) as [Hf1 Hf2].
  unfold normalize_base. cbv zeta. destruct (ends_with "/" (url_path (clear_fragment (clear_query u)))) eqn:He.
  - split_and!; [exists raw, u; by rewrite Hf1|done|done].
  - destruct (set_path_parts (url_path (clear_fragment (clear_query u)) +:+ "/") (clear_fragment (clear_query u))) as [Hs1 Hs2].
    split_and!; [exists raw, u; by rewrite Hs1, Hf1| |done]. apply Hs2. unfold ends_with.
    generalize (url_path (clear_fragment (clear_query u))). intros p.
    assert (Hrev : forall p acc, string_rev acc (p +:+ "/") = String "/" (string_rev acc p)); [|by rewrite Hrev].
    { clear. induction p as [|a p IH]; intros acc; [by rewrite sapp_nil_l|]. rewrite sapp_cons. cbn. apply IH. }
Qed.

Section Sent.
(** The requests sent so far; reading a buffered response sends none. *)
Variable sent : W -> list HttpRequest.
Hypothesis sent_send : forall c r w, sent (send c r w).2 = sent w ++ [r].
Abbreviation quiet m := (steps (fun w w' => sent w' = sent w) m).
Hypothesis stream_quiet : forall r, quiet (into_stream r).
Hypothesis parquet_quiet : forall r, quiet (parquet_new (opendal_async_reader r)).
Hypothesis mem_quiet : quiet mem_new /\ (forall op b, quiet (mem_write op b)) /\ forall op, quiet (mem_reader op).

Definition stays (c : UriClient) (w w' : W) : Prop :=
  exists reqs, sent w' = sent w ++ reqs /\ Forall (within c) reqs.

#[local] Instance quiet_preorder : PreOrder (fun w w' : W => sent w' = sent w).
Proof. split; [done|]. intros a b d H1 H2. congruence. Qed.

#[local] Instance stays_preorder c : PreOrder (stays c).
Proof.
  split; [intros w; exists []; by rewrite app_nil_r|].
  intros a b d (r1 & H1 & F1) (r2 & H2 & F2). exists (r1 ++ r2). rewrite H2, H1, app_assoc.
  split; [done|by apply Forall_app].
Qed.

#[local] Instance pair_preorder {A} (R : W -> W -> Prop) `{!PreOrder R} : PreOrder (fun s s' : A * W => R s.2 s'.2).
Proof. split; [by intros s|]. intros a b d H1 H2. by etrans. Qed.

Lemma quiet_stays {E A} c (m : M W E A) : quiet m -> steps (stays c) m.
Proof. intros Hm w. exists []. rewrite app_nil_r. split; [apply Hm|constructor]. Qed.

Lemma steps_on_world {E A} (R : W -> W -> Prop) (m : M W E A) :
  steps R m -> steps (fun s s' : RW => R s.2 s'.2) (on_world m).
Proof. intros Hm s. unfold on_world. specialize (Hm s.2). by destruct (m s.2). Qed.

Lemma steps_uri_send c method path timeout context :
  method = "GET" \/ method = "HEAD" -> steps (stays c) (uri_send c method path timeout context).
Proof using sent_send.
  intros Hm w. unfold uri_send, mseq, lift. destruct (uri_request c method path timeout) as [r|e] eqn:Hr; cbn.
  - unfold map_err. pose proof (sent_send (uri_http c) r w) as Hs. destruct (send _ r w) as [x w1].
    exists [r]. cbn in *. split; [by destruct x|]. constructor; [|constructor]. by eapply uri_request_within.
  - exists []. by rewrite app_nil_r.
Qed.

Lemma steps_reader c data : steps (stays c) (bytes_to_opendal_reader data).
Proof using mem_quiet.
  destruct mem_quiet as (H1 & H2 & H3).
  apply (steps_mseq (stays c)); [by apply steps_map_err, quiet_stays|]. intros op.
  apply (steps_mseq (stays c)); [by apply steps_map_err, quiet_stays|]. intros _. by apply steps_map_err, quiet_stays.
Qed.

Ltac walk := repeat first [apply steps_uri_send; first [by left|by right]
  | lazymatch goal with |- steps _ (bytes_to_opendal_reader _) => apply steps_reader end | apply (steps_mseq _); [|intros ?]
  | apply steps_map_err | apply (steps_mret _) | apply (steps_throw _) | apply (steps_lift _) | apply steps_if
  | apply quiet_stays; solve [auto] | destruct_match].

Lemma steps_fetch c request : steps (stays c) (fetch_response c request).
Proof using sent_send. unfold fetch_response. walk. Qed.

Lemma steps_response_schema c cached p : steps (stays c) (response_schema cached p).
Proof using stream_quiet parquet_quiet mem_quiet.
  unfold response_schema, read_csv_schema, read_jsonl_schema, read_parquet_schema, read_sample. walk.
Qed.

Lemma steps_response_batches c resp schema n p : steps (stays c) (response_batches resp schema n p).
Proof using stream_quiet parquet_quiet mem_quiet.
  unfold response_batches, read_csv_batches, read_jsonl_batches, read_parquet_batches, decode_stream. walk.
Qed.

End Sent.

(** ** One response *)

Lemma fetch_response_bound c request w cached w' :
  fetch_response c request w = (Ok cached, w') -> (body_len (cr_bytes cached) <= MAX_RESPONSE_BYTES)%N.
Proof.
  unfold fetch_response. intros Hr. inv_ok.
  destruct (negb _); [done|]. inv_ok.
  destruct (N.ltb_spec MAX_RESPONSE_BYTES (body_len a2)); [done|]. by inv_ok.
Qed.

(** The schema and the rows of a query come from one response. When a schema was
    read, it was read from one response of at most 128 MiB, and reading the table
    afterwards decodes that response without asking the server again, and drops it. *)
Theorem uri_response_read_once c query x w view x' w' :
  uri_schema c query (x, w) = (Ok view, (x', w')) ->
  exists request cached w1, uri_parse from_str query = Ok request /\ view.1 = query /\
    fetch_response c request w = (Ok cached, w1) /\
    response_schema cached (data_path request) w1 = (Ok view.2, w') /\
    (body_len (cr_bytes cached) <= MAX_RESPONSE_BYTES)%N /\
    forall n, uri_read_tabular c view n (x', w') =
      let (r, w2) := response_batches cached view.2 n (data_path request) w' in (r, (None, w2)).
Proof.
  unfold uri_schema. intros Hr. destruct (uri_parse from_str query) as [request|] eqn:Hq; [|done].
  rewrite mseq_lift_ok in Hr. unfold mseq, on_world in Hr. cbn [snd fst] in Hr.
  destruct (fetch_response c request w) as [[cached|] w1] eqn:Hf; [|done]. cbn [snd fst] in Hr.
  destruct (response_schema cached (data_path request) w1) as [[schema|] w2] eqn:Hs; [|done].
  cbn in Hr. injection Hr as <- <- <-. exists request, cached, w1.
  split_and!; [done|done|done|done|by eapply fetch_response_bound|].
  intros n. unfold uri_read_tabular. cbn [fst]. rewrite Hq, mseq_lift_ok. unfold mseq, on_world, take_response. cbn.
  by destruct (response_batches cached schema n (data_path request) w2).
Qed.
End Uri.

(** ** A concrete server *)

(** URLs as an origin and a path. *)
#[local] Instance sample_urls : UrlLib.
Proof.
  refine {| Url := string * string; Origin := string; url_parse s := Ok ("https://host", s);
            join u p := Ok (u.1, u.2 +:+ p); url_origin := fst; url_path := snd; url_str u := u.1 +:+ u.2;
            clear_query u := u; clear_fragment u := u; set_path p u := (u.1, p) |}; done.
Defined.

#[local] Instance sample_http : Http (list HttpRequest) := {|
  HttpClient := unit; Certificate := unit;
  cert_from_pem := fun _ => Ok tt; build_http := fun _ _ _ _ => Ok tt;
  send := fun _ r w => (Ok {| rs_status := 200; rs_content_type := None; rs_content_length := None;
                              rs_body := Ok "[null]" |}, w ++ [r]);
  show_status := fun _ => ""; from_str := fun _ => Ok (JObject {[ "path" := JString "/items.json" ]})
|}.

Definition sample_credentials : gmap string string :=
  <[URI_KEY_URI := "/data"]> {[ URI_KEY_TOKEN := "t" ]}.
Definition sample_uri_client : UriClient :=
  {| uri_http := tt : HttpClient; uri_base_url := ("https://host", "/data/") : Url; uri_auth := Bearer "t" |}.


Lemma uri_response_read_once_witness :
  exists request cached w1, uri_parse from_str "q" = Ok request /\ "q" = "q" /\
    fetch_response (fun _ => Err "") sample_uri_client request [] = (Ok cached, w1) /\
    (body_len (cr_bytes cached) <= MAX_RESPONSE_BYTES)%N.
Proof.
  destruct (uri_response_read_once (HW := sample_http) (FL := sample_formats) (fun _ => Err "") (Op := unit)
    (mret tt) (fun _ _ => mret tt) (fun _ => mret []) sample_uri_client "q" None [] ("q", [])
    _ _ eq_refl) as (request & cached & w1 & H1 & H2 & H3 & H4 & H5 & H6).
  exists request, cached, w1. done.
Defined.
