(* ===== verification/Elastic.v ===== *)
(** The Elasticsearch connector ([connectors/elasticsearch/src]): query parsing,
    mappings, and reading an index page by page through a point in time (PIT); with a
    concrete server. *)
From S2P Require Import Prelude Streams Text Json Floats Api Arrow Batches ArrowConvert ClientCache Http.
From Stdlib Require Import ZArith.

Definition ES_KEY_URI : string := "URI".
Definition ES_KEY_USERNAME : string := "USERNAME".
Definition ES_KEY_PASSWORD : string := "PASSWORD".
Definition ES_KEY_API_KEY : string := "API_KEY".
Definition ES_KEY_CA_CERT : string := "CA_CERT".

(** ** Types (types.rs) *)

Definition es_type_to_arrow (es_type : string) : DataType :=
  if String.eqb es_type "boolean" then Boolean
  else if String.eqb es_type "byte" then Int8
  else if String.eqb es_type "short" then Int16
  else if String.eqb es_type "integer" then Int32
  else if String.eqb es_type "long" then Int64
  else if String.eqb es_type "half_float" || String.eqb es_type "float" then Float32
  else if String.eqb es_type "double" || String.eqb es_type "scaled_float" then Float64
  else if String.eqb es_type "date" || String.eqb es_type "date_nanos" then Timestamp Millisecond (Some "UTC")
  else Utf8.

Record EsMappingField : Type := { path : string; es_type : string }.

Section Mapping.
(** The entries of an object, in the order the map iterates. *)
Variable entries : gmap string json -> list (string * json).

(** The fields found so far and where each path is among them. *)
Abbreviation Seen := (list EsMappingField * gmap string nat)%type.

(** A leaf: new, or of a type to reconcile. [fields[pos]] is in range whenever
    [seen] only holds positions of [fields]. *)
Definition merge_leaf (p ty : string) (s : Seen) : Seen :=
  let '(fields, seen) := s in
  match seen !! p with
  | None => (fields ++ [{| path := p; es_type := ty |}], <[p := length fields]> seen)
  | Some pos =>
      match fields !! pos with
      | Some f =>
          if String.eqb (es_type f) ty then s
          else (<[pos := {| path := path f; es_type := "text" |}]> fields, seen)
      | None => s
      end
  end.

Definition join_path (prefix name : string) : string :=
  if is_empty prefix then name else prefix +:+ "." +:+ name.

(** [fuel] bounds the nesting of the mapping. *)
Fixpoint merge_properties (fuel : nat) (properties : json) (prefix : string) (s : Seen) : Seen :=
  match fuel, properties with
  | S fuel, JObject obj =>
      fold_left (fun s '(name, value) =>
        let p := join_path prefix name in
        match jget "properties" value with
        | Some sub_props => merge_properties fuel sub_props p s
        | None =>
            match jget "type" value ≫= as_str with
            | Some ty => merge_leaf p ty s
            | None => s
            end
        end) (entries obj) s
  | _, _ => s
  end.

Definition merge_mapping (properties : json) (s : Seen) : Seen :=
  merge_properties (json_size properties) properties "" s.

Definition index_properties (idx_mapping : json) : option json :=
  jget "mappings" idx_mapping ≫= jget "properties".

Definition parse_mapping (mapping_json : json) : list EsMappingField :=
  let s :=
    match mapping_json with
    | JObject obj =>
        if existsb (fun kv => match jget "mappings" (snd kv) with Some _ => true | None => false end) (entries obj)
        then fold_left (fun s kv => match index_properties (snd kv) with
                                    | Some props => merge_mapping props s
                                    | None => s
                                    end) (entries obj) ([], ∅)
        else ([], ∅)
    | _ => ([], ∅)
    end in
  match fst s with
  | [] =>
      match index_properties mapping_json with
      | Some props => fst (merge_mapping props s)
      | None => []
      end
  | fields => fields
  end.

Definition mapping_fields_to_schema (fields : list EsMappingField) : Schema :=
  (fun f => nullable (path f) (es_type_to_arrow (es_type f))) <$> fields.

(** ** What the merge computes *)

Hypothesis entries_spec : forall m, entries m ≡ₚ map_to_list m.

(** The leaves of a mapping, with their paths, in the order they are met. *)
Fixpoint leaves (fuel : nat) (properties : json) (prefix : string) : list (string * string) :=
  match fuel, properties with
  | S fuel, JObject obj =>
      concat ((fun '(name, value) =>
        let p := join_path prefix name in
        match jget "properties" value with
        | Some sub_props => leaves fuel sub_props p
        | None =>
            match jget "type" value ≫= as_str with
            | Some ty => [(p, ty)]
            | None => []
            end
        end) <$> entries obj)
  | _, _ => []
  end.

Definition merge_leaves (s : Seen) (l : list (string * string)) : Seen :=
  fold_left (fun s '(p, ty) => merge_leaf p ty s) l s.

Lemma merge_properties_leaves fuel properties prefix s :
  merge_properties fuel properties prefix s = merge_leaves s (leaves fuel properties prefix).
Proof.
  revert properties prefix s. induction fuel as [|fuel IH]; intros properties prefix s; [done|].
  destruct properties as [| | | | |obj]; [done..|]. cbn [merge_properties leaves].
  generalize (entries obj). intros l. revert s. induction l as [|[name value] l IHl]; intros s; [done|].
  cbn [fold_left fmap list_fmap concat]. unfold merge_leaves in *. rewrite fold_left_app, <- IHl. f_equal.
  destruct (jget "properties" value); [apply IH|]. by destruct (jget "type" value ≫= as_str).
Qed.

(** The fuel is enough: more of it finds no more leaves. *)
Lemma leaves_fuel fuel fuel' properties prefix :
  json_size properties <= fuel -> json_size properties <= fuel' ->
  leaves fuel properties prefix = leaves fuel' properties prefix.
Proof.
  revert fuel' properties prefix. induction fuel as [|fuel IH]; intros fuel' properties prefix H1 H2.
  { destruct properties; cbn in H1; lia. }
  destruct properties as [| | | | |obj]; [by destruct fuel'..|].
  destruct fuel' as [|fuel']; [cbn in H2; lia|]. cbn [leaves]. f_equal. apply list_fmap_ext.
  intros i [name value] Hi. destruct (jget "properties" value) as [sub|] eqn:Hs; [|done].
  apply list_elem_of_lookup_2 in Hi. rewrite entries_spec in Hi. apply elem_of_map_to_list in Hi.
  apply json_size_lookup in Hi. destruct value as [| | | | |vm]; try done.
  apply json_size_lookup in Hs. apply IH; lia.
Qed.

(** The fields merged from the leaves [ls]: one per path, its type the type all
    leaves of the path have, or [text] if two of them differ. *)
Record merged (ls : list (string * string)) (s : Seen) : Prop := {
  merged_seen p i : snd s !! p = Some i <-> exists f, fst s !! i = Some f /\ path f = p;
  merged_path p : p ∈ path <$> fst s <-> p ∈ ls.*1;
  merged_type f : f ∈ fst s ->
    (path f, es_type f) ∈ ls /\ (forall t, (path f, t) ∈ ls -> t = es_type f) \/
    es_type f = "text" /\ exists t t', t <> t' /\ (path f, t) ∈ ls /\ (path f, t') ∈ ls
}.

Lemma merged_empty : merged [] ([], ∅).
Proof.
  split; cbn.
  - intros p i. rewrite lookup_empty. split; [done|]. by intros (f & Hf & _).
  - intros p. split; by intros ?%elem_of_nil.
  - by intros f ?%elem_of_nil.
Qed.

Lemma merged_nodup ls s : merged ls s -> NoDup (path <$> fst s).
Proof.
  intros [Hs _ _]. apply NoDup_alt. intros i j p Hi Hj. rewrite list_lookup_fmap in Hi, Hj.
  destruct (fst s !! i) as [f|] eqn:Hfi; [|done]. destruct (fst s !! j) as [g|] eqn:Hfj; [|done].
  injection Hi as Hi. injection Hj as Hj.
  assert (H1 : snd s !! p = Some i) by (apply Hs; eauto).
  assert (H2 : snd s !! p = Some j) by (apply Hs; eauto). congruence.
Qed.

Lemma merged_new ls fields seen p ty :
  merged ls (fields, seen) -> seen !! p = None ->
  merged (ls ++ [(p, ty)]) (fields ++ [{| path := p; es_type := ty |}], <[p := length fields]> seen).
Proof.
  intros [Hs Hp Ht] Hnone. cbn in *.
  assert (Hnew : p ∉ path <$> fields).
  { intros Hin. apply list_elem_of_lookup in Hin as [i Hi]. rewrite list_lookup_fmap in Hi.
    destruct (fields !! i) as [f|] eqn:Hf; [|done]. injection Hi as Hi.
    assert (seen !! p = Some i) by (apply Hs; eauto). congruence. }
  assert (Hls : forall t, (p, t) ∉ ls).
  { intros t Hin. apply Hnew, Hp. apply list_elem_of_fmap. by exists (p, t). }
  split; cbn.
  - intros q i. destruct (decide (p = q)) as [<-|Hne].
    + rewrite lookup_insert_eq. split.
      * intros [= <-]. exists {| path := p; es_type := ty |}. by rewrite lookup_app_r, Nat.sub_diag.
      * intros (f & Hf & Hpf). apply lookup_app_Some in Hf as [Hf|[Hle Hf]].
        -- destruct Hnew. apply list_elem_of_fmap. exists f. split; [done|]. by eapply list_elem_of_lookup_2.
        -- apply list_lookup_singleton_Some in Hf as [Hi _]. f_equal. lia.
    + rewrite lookup_insert_ne by done. rewrite Hs. split; intros (f & Hf & Hpf); exists f; (split; [|done]).
      * by apply lookup_app_l_Some.
      * apply lookup_app_Some in Hf as [Hf|[_ Hf]]; [done|].
        apply list_lookup_singleton_Some in Hf as [_ <-]. done.
  - intros q. rewrite !fmap_app, !elem_of_app, Hp. done.
  - intros f. rewrite elem_of_app, list_elem_of_singleton. intros [Hf| ->]; cbn.
    + assert (Hne : path f <> p) by (intros <-; apply Hnew, list_elem_of_fmap; eauto).
      destruct (Ht f Hf) as [[H1 H2]|(H1 & t & t' & H2 & H3 & H4)].
      * left. split; [apply elem_of_app; by left|]. intros t. rewrite elem_of_app, list_elem_of_singleton.
        intros [Hin|[= ? ?]]; [by apply H2|done].
      * right. split; [done|]. exists t, t'. rewrite !elem_of_app. auto.
    + left. split; [apply elem_of_app; right; by apply list_elem_of_singleton|].
      intros t. rewrite elem_of_app, list_elem_of_singleton. intros [Hin|[= ->]]; [by destruct (Hls t)|done].
Qed.

Lemma merged_old ls fields seen p ty pos f :
  merged ls (fields, seen) -> seen !! p = Some pos -> fields !! pos = Some f -> path f = p ->
  merged (ls ++ [(p, ty)])
    (if String.eqb (es_type f) ty then (fields, seen)
     else (<[pos := {| path := path f; es_type := "text" |}]> fields, seen)).
Proof.
  intros [Hs Hp Ht] Hpos Hf <-. cbn in *.
  assert (Hpath : path f ∈ ls.*1) by (apply Hp, list_elem_of_fmap; exists f; split; [done|by eapply list_elem_of_lookup_2]).
  assert (Hpaths : forall q, q ∈ path <$> fields <-> q ∈ (ls ++ [(path f, ty)]).*1).
  { intros q. rewrite Hp, fmap_app, elem_of_app. cbn. rewrite list_elem_of_singleton. naive_solver. }
  assert (Hold : forall g, g ∈ fields -> path g <> path f \/ es_type g = ty ->
    (path g, es_type g) ∈ ls ++ [(path f, ty)] /\
      (forall t, (path g, t) ∈ ls ++ [(path f, ty)] -> t = es_type g) \/
    es_type g = "text" /\ exists t t', t <> t' /\ (path g, t) ∈ ls ++ [(path f, ty)] /\
      (path g, t') ∈ ls ++ [(path f, ty)]).
  { intros g Hg Hne. destruct (Ht g Hg) as [[H1 H2]|(H1 & t & t' & H2 & H3 & H4)].
    - left. split; [apply elem_of_app; by left|]. intros t. rewrite elem_of_app, list_elem_of_singleton.
      intros [Hin|[= ? ?]]; [by apply H2|naive_solver].
    - right. split; [done|]. exists t, t'. rewrite !elem_of_app. auto. }
  destruct (String.eqb_spec (es_type f) ty) as [Heq|Hne].
  - split; cbn; [done|done|]. intros g Hg. apply Hold; [done|]. destruct (decide (path g = path f)) as [Hgf|]; [|by left].
    right. assert (g = f) as ->; [|done]. apply list_elem_of_lookup in Hg as [i Hi].
    assert (seen !! path f = Some i) by (apply Hs; eauto). congruence.
  - assert (Hlt : pos < length fields) by (by eapply lookup_lt_Some). split; cbn.
    + intros q i. rewrite Hs. destruct (decide (pos = i)) as [<-|Hi].
      * rewrite list_lookup_insert_eq by done. rewrite Hf. naive_solver.
      * by rewrite list_lookup_insert_ne.
    + intros q. rewrite <- Hpaths, list_fmap_insert. cbn. by rewrite list_insert_id; [|by rewrite list_lookup_fmap, Hf].
    + intros g Hg. apply list_elem_of_lookup in Hg as [i Hi]. destruct (decide (pos = i)) as [<-|Hne'].
      * rewrite list_lookup_insert_eq in Hi by done. injection Hi as <-. cbn. right. split; [done|].
        destruct (Ht f) as [[H1 _]|(_ & t & t' & H1 & H2 & H3)]; [by eapply list_elem_of_lookup_2|..].
        -- exists (es_type f), ty. rewrite !elem_of_app, !list_elem_of_singleton. auto.
        -- exists t, t'. rewrite !elem_of_app. auto.
      * rewrite list_lookup_insert_ne in Hi by done. apply Hold; [by eapply list_elem_of_lookup_2|].
        left. intros Hgf. assert (seen !! path f = Some i) by (apply Hs; eauto). congruence.
Qed.

Lemma merged_leaf ls s p ty : merged ls s -> merged (ls ++ [(p, ty)]) (merge_leaf p ty s).
Proof.
  intros Hm. destruct s as [fields seen]. unfold merge_leaf. destruct (seen !! p) as [pos|] eqn:Hpos.
  - destruct (proj1 (merged_seen _ _ Hm p pos) Hpos) as (f & Hf & Hpf). cbn in Hf. rewrite Hf.
    by eapply merged_old.
  - by apply merged_new.
Qed.

Lemma merged_leaves ls ls' s : merged ls s -> merged (ls ++ ls') (merge_leaves s ls').
Proof.
  revert ls s. induction ls' as [|[p ty] ls' IH]; intros ls s Hm; [by rewrite app_nil_r|].
  cbn [merge_leaves fold_left]. rewrite (cons_middle (p, ty)), app_assoc. by apply IH, merged_leaf.
Qed.

(** The leaves of one index, and of a mapping response: of all its indices, or of
    the response itself if it is that of a single index. *)
Definition index_leaves (idx_mapping : json) : list (string * string) :=
  match index_properties idx_mapping with
  | Some props => leaves (json_size props) props ""
  | None => []
  end.

Definition mapping_leaves (mapping_json : json) : list (string * string) :=
  let per_index := match mapping_json with
                   | JObject obj => concat ((fun kv => index_leaves (snd kv)) <$> entries obj)
                   | _ => []
                   end in
  match per_index with [] => index_leaves mapping_json | _ => per_index end.

Lemma merge_index idx_mapping s :
  match index_properties idx_mapping with Some props => merge_mapping props s | None => s end
  = merge_leaves s (index_leaves idx_mapping).
Proof.
  unfold index_leaves, merge_mapping. destruct (index_properties idx_mapping); [|done].
  apply merge_properties_leaves.
Qed.

Lemma merge_indices l s :
  fold_left (fun s kv => match index_properties (snd kv) with
                         | Some props => merge_mapping props s
                         | None => s
                         end) l s
  = merge_leaves s (concat ((fun kv : string * json => index_leaves (snd kv)) <$> l)).
Proof.
  revert s. induction l as [|kv l IH]; intros s; [done|]. cbn [fold_left fmap list_fmap concat].
  rewrite merge_index, IH. unfold merge_leaves. by rewrite fold_left_app.
Qed.

Lemma no_index_keys l :
  existsb (fun kv : string * json => match jget "mappings" (snd kv) with Some _ => true | None => false end) l = false ->
  concat ((fun kv => index_leaves (snd kv)) <$> l) = [].
Proof.
  induction l as [|[k v] l IH]; [done|]. cbn [existsb fmap list_fmap concat snd].
  rewrite orb_false_iff. intros [Hv Hl]. rewrite IH by done. unfold index_leaves, index_properties.
  by destruct (jget "mappings" v).
Qed.

Lemma merge_leaves_nil ls s : merged ls s -> fst s = [] -> ls = [].
Proof.
  intros [_ Hp _] Hs. destruct ls as [|[p t] ls]; [done|]. exfalso.
  assert (Hin : p ∈ path <$> fst s) by (apply Hp; cbn; by left). rewrite Hs in Hin. by apply elem_of_nil in Hin.
Qed.

Lemma parse_mapping_leaves mapping_json :
  parse_mapping mapping_json = fst (merge_leaves ([], ∅) (mapping_leaves mapping_json)).
Proof.
  unfold parse_mapping, mapping_leaves.
  set (per_index := match mapping_json with JObject obj => _ | _ => [] end).
  assert (Hs : (match mapping_json with
    | JObject obj =>
        if existsb (fun kv => match jget "mappings" (snd kv) with Some _ => true | None => false end) (entries obj)
        then fold_left (fun s kv => match index_properties (snd kv) with
                                    | Some props => merge_mapping props s
                                    | None => s
                                    end) (entries obj) ([], ∅)
        else ([], ∅)
    | _ => ([], ∅)
    end) = merge_leaves ([], ∅) per_index).
  { unfold per_index. destruct mapping_json as [| | | | |obj]; try done.
    destruct (existsb _ (entries obj)) eqn:He; [apply merge_indices|]. by rewrite no_index_keys. }
  rewrite Hs. pose proof (merged_leaves [] per_index _ merged_empty) as Hm. rewrite app_nil_l in Hm.
  destruct (fst (merge_leaves ([], ∅) per_index)) as [|f fields] eqn:Hf.
  - rewrite (merge_leaves_nil _ _ Hm Hf). cbn [merge_leaves fold_left].
    pose proof (merge_index mapping_json ([], ∅)) as Hi.
    unfold index_leaves in *. by destruct (index_properties mapping_json); rewrite <- ?Hi.
  - destruct per_index as [|l ls]; [done|]. done.
Qed.

(** The schema of an index, an alias or a pattern of indices is the merge of all
    their mappings. The fields are the leaves of the mappings, each dotted path once;
    a field has the type every index gives the path, or [text] exactly when two
    indices disagree. *)
Theorem mapping_merge_correct mapping_json :
  let fields := parse_mapping mapping_json in
  let ls := mapping_leaves mapping_json in
  NoDup (path <$> fields) /\
  (forall p, p ∈ path <$> fields <-> exists t, (p, t) ∈ ls) /\
  (forall f, f ∈ fields ->
     (path f, es_type f) ∈ ls /\ (forall t, (path f, t) ∈ ls -> t = es_type f) \/
     es_type f = "text" /\ exists t t', t <> t' /\ (path f, t) ∈ ls /\ (path f, t') ∈ ls).
Proof.
  cbv zeta. rewrite parse_mapping_leaves.
  pose proof (merged_leaves [] (mapping_leaves mapping_json) _ merged_empty) as Hm. rewrite app_nil_l in Hm.
  split; [by eapply merged_nodup|]. destruct Hm as [_ Hp Ht]. split; [|done]. intros p. rewrite Hp, list_elem_of_fmap.
  split; [intros ([q t] & -> & Hin); by exists t|intros [t Hin]; by exists (p, t)].
Qed.
End Mapping.

(** ** Queries (query.rs) *)

Record EsRequestInput : Type := {
  es_index : option string;
  es_body : json;
  es_size : option N;
  has_user_sort : bool
}.

Definition jnum (n : N) : json := JNumber (PosInt n).

Section Query.
Variable from_str : string -> result string json.

Definition es_parse (query : string) : result ConnectorError EsRequestInput :=
  let?? value := rmap_err (fun e => CInvalidRequest ("Invalid JSON: " +:+ e)) (from_str query) in
  match value with
  | JObject obj =>
      let index := obj !! "index" ≫= as_str in
      let obj := delete "index" obj in
      match obj !! "_source" with
      | Some (JBool false) =>
          Err (CInvalidRequest (String dquote ("_source" +:+ String dquote
                 ": false is not supported; this connector reads data from _source")))
      | _ =>
          Ok {| es_index := index; es_body := JObject obj; es_size := obj !! "size" ≫= as_u64;
                has_user_sort := bool_decide (is_Some (obj !! "sort")) |}
      end
  | _ => Err (CInvalidRequest "Query must be a JSON object")
  end.
End Query.

Definition resolve_index (r : EsRequestInput) (default_index : option string) : result ConnectorError string :=
  ok_or (match es_index r with Some i => Some i | None => default_index end)
    (CInvalidRequest ("No index specified: set 'index' in the query or configure a default index in connection properties")).

Definition shard_doc_asc : json := JObject {[ "_shard_doc" := JString "asc" ]}.

(** Whether a sort criterion is the tie-breaker. *)
Definition is_shard_doc (s : json) : bool :=
  match s with
  | JObject o => bool_decide (is_Some (o !! "_shard_doc"))
  | JString t => String.eqb t "_shard_doc"
  | _ => false
  end.

(** [as_object_mut().unwrap()] panics on a body that is no object. *)
Definition build_pit_search_body (r : EsRequestInput) (pit_id : string) (page_size : N)
    (search_after : option json) : result (failure ConnectorError) json :=
  let?? obj := or_panic (as_object (es_body r)) in
  let obj := <["pit" := JObject (<["id" := JString pit_id]> {[ "keep_alive" := JString "5m" ]})]> obj in
  let obj := <["size" := jnum page_size]> obj in
  let obj :=
    if negb (has_user_sort r) then <["sort" := JArray [shard_doc_asc]]> obj
    else match obj !! "sort" with
         | Some (JArray sort_arr) =>
             if existsb is_shard_doc sort_arr then obj
             else <["sort" := JArray (sort_arr ++ [shard_doc_asc])]> obj
         | _ => obj
         end in
  let obj := match search_after with Some sa => <["search_after" := sa]> obj | None => obj end in
  Ok (JObject obj).

(** ** The client (connector.rs) *)

Section Client.
Context {W : Type} `{HW : Http W}.

Record EsClient : Type := { es_http : HttpClient; es_base_url : string; es_auth : Authorization }.

Definition es_request (c : EsClient) (method p : string) (body : option json) : HttpRequest :=
  {| rq_method := method; rq_url := trim_end_slashes (es_base_url c) +:+ p; rq_auth := es_auth c;
     rq_json := body; rq_timeout := None |}.

Definition es_build_client (credentials : gmap string string) (config : ConnectorConfig)
    : result ConnectorError EsClient :=
  let?? base_url := ok_or (credentials !! ES_KEY_URI)
                      (ConnectionError ("'" +:+ ES_KEY_URI +:+ "' credential is required")) in
  let?? http := http_client config (credentials !! ES_KEY_CA_CERT) in
  let auth :=
    match credentials !! ES_KEY_API_KEY with
    | Some encoded => ApiKey encoded
    | None =>
        match credentials !! ES_KEY_USERNAME, credentials !! ES_KEY_PASSWORD with
        | Some username, Some password => Basic username password
        | _, _ => NoAuth
        end
    end in
  Ok {| es_http := http; es_base_url := base_url; es_auth := auth |}.

Definition es_send (c : EsClient) (context method p : string) (body : option json)
    : M W ConnectorError HttpResponse :=
  map_err (fun e => ConnectionError (context +:+ e)) (send (es_http c) (es_request c method p body)).

Definition fetch_search_page (c : EsClient) (body : json) : M W ConnectorError json :=
  let? response := es_send c "Search failed: " "POST" "/_search" (Some body) in
  let? j := lift (rmap_err (fun e => ConnectionError ("Failed to parse search response: " +:+ e))
                    (response_json response)) in
  if is_success (rs_status response) then mret j
  else
    let reason := default "unknown error" ((jget "error" j ≫= jget "reason") ≫= as_str) in
    throw (SQLError ("Search failed (HTTP " +:+ show_status (rs_status response) +:+ "): " +:+ reason)).

(** A failure to close is only logged. *)
Definition close_pit (c : EsClient) (pit_id : string) : M W ConnectorError unit :=
  attempt (send (es_http c) (es_request c "DELETE" "/_pit" (Some (JObject {[ "id" := JString pit_id ]})))) ;?
  mret tt.

(** ** Reading *)

Context `{AR : Arrow} {DateTime : Type}.
Variable string_to_datetime : string -> result string DateTime.
Variables timestamp timestamp_millis timestamp_micros : DateTime -> Z.
Variable timestamp_nanos_opt : DateTime -> option Z.
Variable show_datetime : DateTime -> string.
Variable json_text : json -> string.
Variable entries : gmap string json -> list (string * json).

(** [current.get(segment)?] along a dotted path. *)
Definition resolve_path (v : json) (p : string) : option json :=
  fold_left (fun current segment => current ≫= jget segment) (split "." p) (Some v).

Definition hit_value (field_path : string) (hit : json) : option json :=
  source ← jget "_source" hit; resolve_path source field_path.

Definition extract_column_from_hits (field_path : string) (ty : DataType) (hits : list json)
    : result ConnectorError ArrayRef :=
  json_values_to_array string_to_datetime timestamp timestamp_millis timestamp_micros timestamp_nanos_opt
    show_datetime json_text field_path ty (hit_value field_path <$> hits).

Definition hits_to_record_batch (schema : Schema) (hits : list json) : result ConnectorError RecordBatch :=
  fields_to_batch (fun f => extract_column_from_hits (f_name f) (f_type f) hits) schema.

Record ElasticsearchReader : Type := { esr_client : EsClient; esr_default_index : option string }.

Definition es_get_reader `{!ClientCache W EsClient} (config : ConnectorConfig)
    (connection : DataConnectionResource)
    (resolver : DataConnectionResource -> M W ConnectorError (gmap string string))
    : M W ConnectorError ElasticsearchReader :=
  let? client := connector_client (fun credentials => lift (es_build_client credentials config)) connection resolver in
  mret {| esr_client := client; esr_default_index := properties (dc_resource connection) !! "index" |}.

Definition es_schema (rd : ElasticsearchReader) (query : string) : M W ConnectorError (string * Schema) :=
  let? request := lift (es_parse from_str query) in
  let? index := lift (resolve_index request (esr_default_index rd)) in
  let? response := es_send (esr_client rd) "Failed to get mapping: " "GET" ("/" +:+ index +:+ "/_mapping") None in
  if negb (is_success (rs_status response))
  then throw (ConnectionError ("Mapping request failed (HTTP " +:+ show_status (rs_status response) +:+
                               "): " +:+ text_or_default response))
  else
    let? mapping_json := lift (rmap_err (fun e => ConnectionError ("Failed to parse mapping response: " +:+ e))
                                 (response_json response)) in
    match parse_mapping entries mapping_json with
    | [] => throw NoDataError
    | fields => mret (query, mapping_fields_to_schema fields)
    end.

Definition es_check_connection (rd : ElasticsearchReader) : M W ConnectorError unit :=
  let? response := es_send (esr_client rd) "Connection test failed: " "GET" "/" None in
  if is_success (rs_status response) then mret tt
  else throw (ConnectionError ("Elasticsearch returned HTTP " +:+ show_status (rs_status response))).

(** The hits of a search response. *)
Definition hits_of (j : json) : option (list json) := (jget "hits" j ≫= jget "hits") ≫= as_array.

(** The loop's variables. *)
Record EsLoop : Type := { search_after : option json; pit_id_current : string; total_fetched : N }.

(** The loop, and how it was left: [loop_error] and the current id of the PIT. *)
Fixpoint es_loop (fuel : nat) (client : EsClient) (request : EsRequestInput) (schema : Schema)
    (batch_size : N) (st : EsLoop)
    : Gen W (failure ConnectorError) RecordBatch (option ConnectorError * string) :=
  match fuel with
  | O => diverge
  | S fuel =>
      let pit := pit_id_current st in
      let remaining := (fun limit => (limit - total_fetched st)%N) <$> es_size request in
      if bool_decide (remaining = Some 0%N) then gret (None, pit)
      else
        let page_size := match remaining with Some r => N.min r batch_size | None => batch_size end in
        let! body := glift (build_pit_search_body request pit page_size (search_after st)) in
        let! page := call (attempt (fetch_search_page client body)) in
        match page with
        | Err e => gret (Some e, pit)
        | Ok j =>
            let pit := default pit (jget "pit_id" j ≫= as_str) in
            match hits_of j with
            | None | Some [] => gret (None, pit)
            | Some hits =>
                let num_hits := N.of_nat (length hits) in
                match hits_to_record_batch schema hits with
                | Err e => gret (Some e, pit)
                | Ok batch =>
                    yield batch ;!
                    match last hits ≫= jget "sort" with
                    | None => gret (None, pit)
                    | Some sa =>
                        if (num_hits <? page_size)%N then gret (None, pit)
                        else es_loop fuel client request schema batch_size
                               {| search_after := Some sa; pit_id_current := pit;
                                  total_fetched := (total_fetched st + num_hits)%N |}
                    end
                end
            end
        end
  end.

(** Opening a point in time. *)
Definition open_pit (client : EsClient) (index : string) : M W ConnectorError string :=
  let? response := es_send client "Failed to open PIT: " "POST" ("/" +:+ index +:+ "/_pit?keep_alive=5m") None in
  let? j := lift (rmap_err (fun e => ConnectionError ("Failed to parse PIT response: " +:+ e))
                    (response_json response)) in
  lift (ok_or (jget "id" j ≫= as_str) (ConnectionError "PIT response missing 'id'")).

Definition es_stream (fuel : nat) (client : EsClient) (request : EsRequestInput) (index : string)
    (schema : Schema) (batch_size : N) : Gen W (failure ConnectorError) RecordBatch unit :=
  let! pit := call (map_err Fail (open_pit client index)) in
  let! left := es_loop fuel client request schema batch_size
                 {| search_after := None; pit_id_current := pit; total_fetched := 0 |} in
  call (map_err Fail (close_pit client (snd left))) ;!
  match fst left with
  | Some e => glift (Err (Fail e))
  | None => gret tt
  end.

Definition es_read_tabular (rd : ElasticsearchReader) (fuel : nat) (query : string) (schema : Schema)
    (batch_size : N) : M W ConnectorError (Gen W (failure ConnectorError) RecordBatch unit) :=
  let? request := lift (es_parse from_str query) in
  let? index := lift (resolve_index request (esr_default_index rd)) in
  mret (es_stream fuel (esr_client rd) request index schema batch_size).

(** ** Requests sent *)

(** The body of a parsed query is an object, so that building a search body does not
    panic. *)
Lemma es_parse_body query r : es_parse from_str query = Ok r -> exists obj, es_body r = JObject obj.
Proof.
  unfold es_parse. destruct (from_str query) as [v|]; [|done]. cbn. destruct v as [| | | | |obj]; try done.
  destruct (delete "index" obj !! "_source") as [[|[]| | | |]|]; intros [= <-]; eauto.
Qed.

Lemma build_body_ok r obj pit n sa :
  es_body r = JObject obj -> exists body, build_pit_search_body r pit n sa = Ok body.
Proof. intros Hr. unfold build_pit_search_body. rewrite Hr. cbn. eauto. Qed.

Section Sent.
(** The requests sent so far. *)
Variable sent : W -> list HttpRequest.
Hypothesis sent_send : forall c r w, sent (snd (send c r w)) = sent w ++ [r].

Lemma es_send_sent c context method p body w :
  sent (snd (es_send c context method p body w)) = sent w ++ [es_request c method p body].
Proof. unfold es_send, map_err. rewrite <- (sent_send (es_http c)). by destruct (send _ _ w). Qed.

Lemma fetch_page_sent c body w :
  sent (snd (fetch_search_page c body w)) = sent w ++ [es_request c "POST" "/_search" (Some body)].
Proof.
  rewrite <- (es_send_sent c "Search failed: "). unfold fetch_search_page, mseq.
  destruct (es_send _ _ _ _ _ w) as [[r|e] w']; [|done]. cbn. unfold lift.
  destruct (rmap_err _ (response_json r)); [|done]. by destruct (is_success _).
Qed.

Lemma open_pit_sent c index w :
  sent (snd (open_pit c index w)) =
  sent w ++ [es_request c "POST" ("/" +:+ index +:+ "/_pit?keep_alive=5m") None].
Proof.
  rewrite <- (es_send_sent c "Failed to open PIT: "). unfold open_pit, mseq.
  destruct (es_send _ _ _ _ _ w) as [[r|e] w']; [|done]. cbn. unfold lift.
  by destruct (rmap_err _ (response_json r)).
Qed.

Definition close_request (c : EsClient) (pit_id : string) : HttpRequest :=
  es_request c "DELETE" "/_pit" (Some (JObject {[ "id" := JString pit_id ]})).

Lemma close_pit_run c pit w :
  exists w', close_pit c pit w = (Ok tt, w') /\ sent w' = sent w ++ [close_request c pit].
Proof.
  unfold close_pit, mseq, attempt. pose proof (sent_send (es_http c) (close_request c pit) w) as Hs.
  unfold close_request in *. destruct (send _ _ w) as [r w']. by exists w'.
Qed.

Definition is_search (c : EsClient) (r : HttpRequest) : Prop :=
  exists body, r = es_request c "POST" "/_search" (Some body).

(** How the loop ends: never by a panic or an error that would skip closing the PIT;
    it only sends searches, and with a limit it ends before its fuel, one round for
    each row that is missing, runs out. *)
Definition loop_post (fuel : nat) (client : EsClient) (request : EsRequestInput) (batch_size : N)
    (st : EsLoop) (w : W)
    (out : list RecordBatch * option (result (failure ConnectorError) (option ConnectorError * string)) * W)
    : Prop :=
  let '(bs, r, w') := out in
  (r = None \/ exists e pit, r = Some (Ok (e, pit))) /\
  (exists searches, sent w' = sent w ++ searches /\ Forall (is_search client) searches /\
     forall n, es_size request = Some n -> (0 < batch_size)%N ->
       length searches <= N.to_nat (n - total_fetched st)) /\
  (forall n, es_size request = Some n -> (0 < batch_size)%N ->
     N.to_nat (n - total_fetched st) < fuel -> r <> None).

Lemma loop_stop fuel client request batch_size st w bs e pit w' searches :
  sent w' = sent w ++ searches -> Forall (is_search client) searches ->
  (forall n, es_size request = Some n -> (0 < batch_size)%N ->
     length searches <= N.to_nat (n - total_fetched st)) ->
  loop_post fuel client request batch_size st w (bs, Some (Ok (e, pit)), w').
Proof. intros H1 H2 H3. split_and!; [right; eauto|by exists searches|done]. Qed.

Lemma es_loop_ends fuel client request schema batch_size st w obj :
  es_body request = JObject obj ->
  loop_post fuel client request batch_size st w (es_loop fuel client request schema batch_size st w).
Proof.
  intros Hobj. revert st w. induction fuel as [|fuel IH]; intros st w.
  { split_and!; [by left|exists []; rewrite app_nil_r; split_and!; [done..|cbn; lia]|]. intros n _ _ ?. lia. }
  cbn [es_loop]. cbv zeta.
  case_bool_decide as Hrem; [eapply (loop_stop _ _ _ _ _ _ _ _ _ _ []); [by rewrite app_nil_r|constructor|cbn; lia]|].
  set (page_size := match _ with Some r => N.min r batch_size | None => batch_size end).
  destruct (build_body_ok request obj (pit_id_current st) page_size (search_after st) Hobj) as [body ->].
  rewrite gbind_lift. pose proof (fetch_page_sent client body w) as Hsent.
  destruct (fetch_search_page client body w) as [page w1] eqn:Hp. cbn in Hsent.
  assert (Hsearch : is_search client (es_request client "POST" "/_search" (Some body))) by (by eexists).
  assert (Hstop : forall bs e pit, loop_post (S fuel) client request batch_size st w (bs, Some (Ok (e, pit)), w1)).
  { intros bs e pit. eapply loop_stop; [exact Hsent|by repeat constructor|].
    intros n Hn _. rewrite Hn in Hrem. cbn in *. assert (n - total_fetched st <> 0)%N by congruence. lia. }
  rewrite (gbind_call_ok _ _ _ page w1) by (unfold attempt; by rewrite Hp).
  destruct page as [j|e]; [|apply Hstop]. set (pit := default _ _).
  destruct (hits_of j) as [[|h hits]|]; [apply Hstop| |apply Hstop].
  destruct (hits_to_record_batch schema (h :: hits)) as [b|e]; [|apply Hstop].
  rewrite gbind_yield. destruct (last (h :: hits) ≫= jget "sort") as [sa|]; [|apply Hstop].
  destruct (N.ltb_spec (N.of_nat (length (h :: hits))) page_size) as [Hlt|Hge]; [apply Hstop|].
  set (st' := {| search_after := Some sa; pit_id_current := pit;
                 total_fetched := total_fetched st + N.of_nat (length (h :: hits)) |}).
  assert (Hprog : forall n, es_size request = Some n -> (0 < batch_size)%N ->
            N.to_nat (n - total_fetched st') < N.to_nat (n - total_fetched st)).
  { intros n Hn Hb. unfold page_size in Hge. rewrite Hn in Hge, Hrem. cbn in Hge, Hrem.
    assert (n - total_fetched st <> 0)%N by congruence. cbn. lia. }
  specialize (IH st' w1).
  destruct (es_loop fuel _ _ _ _ _ w1) as [[bs r] w2]. destruct IH as (Hr & (ss & Hss & Hall & Hlen) & Hterm).
  cbn [fst snd]. split_and!; [done| |].
  - exists (es_request client "POST" "/_search" (Some body) :: ss). split_and!; [by rewrite Hss, Hsent, <- app_assoc|by constructor|].
    intros n Hn Hb. specialize (Hlen n Hn Hb). specialize (Hprog n Hn Hb). cbn [length] in *. lia.
  - intros n Hn Hb Hfuel. apply (Hterm n Hn Hb). specialize (Hprog n Hn Hb). lia.
Qed.

(** A limited read of an index ends, whatever the server answers, and always
    closes its point in time. For a query with a size, a positive batch size and any
    sequence of responses, as many rounds as rows were asked for (and one) are enough
    for the stream to end; it does not panic; and once the point in time is open it
    sends nothing but at most that many searches and then exactly one request to
    close it, which is its last, also when a search or the conversion of a page
    fails. *)
Theorem es_read_ends_and_closes query request n fuel client index schema batch_size w :
  es_parse from_str query = Ok request -> es_size request = Some n -> (0 < batch_size)%N ->
  N.to_nat n < fuel ->
  exists bs r w', es_stream fuel client request index schema batch_size w = (bs, Some r, w') /\
    r <> Err Panic /\
    let opening := es_request client "POST" ("/" +:+ index +:+ "/_pit?keep_alive=5m") None in
    match (open_pit client index w).1 with
    | Err e => bs = [] /\ r = Err (Fail e) /\ sent w' = sent w ++ [opening]
    | Ok _ => exists searches pit,
        sent w' = sent w ++ [opening] ++ searches ++ [close_request client pit] /\
        Forall (is_search client) searches /\ length searches <= N.to_nat n
    end.
Proof.
  intros Hq Hn Hb Hfuel. destruct (es_parse_body _ _ Hq) as [obj Hobj].
  pose proof (open_pit_sent client index w) as Hopen. unfold es_stream.
  destruct (open_pit client index w) as [[pit0|e] w1] eqn:Ho; cbn in Hopen; cbn [fst]; cycle 1.
  { exists [], (Err (Fail e)), w1. split_and!; [|done..].
    by rewrite (gbind_call_err _ _ _ (Fail e) w1) by (unfold map_err; by rewrite Ho). }
  rewrite (gbind_call_ok _ _ _ pit0 w1) by (unfold map_err; by rewrite Ho).
  pose proof (es_loop_ends fuel client request schema batch_size
    {| search_after := None; pit_id_current := pit0; total_fetched := 0 |} w1 obj Hobj) as Hl.
  destruct (es_loop _ _ _ _ _ _ w1) as [[bs r] w2] eqn:Hrun.
  destruct Hl as (Hr & (ss & Hss & Hall & Hlen) & Hterm).
  assert (Hr' : r <> None) by (apply (Hterm n Hn Hb); cbn; lia).
  destruct Hr as [?|(oe & pit & ->)]; [done|]. rewrite (gbind_ret _ _ _ _ _ _ Hrun). cbn [snd fst].
  destruct (close_pit_run client pit w2) as (w3 & Hc & Hsent).
  rewrite (gbind_call_ok _ _ _ tt w3) by (unfold map_err; by rewrite Hc).
  assert (Hfin : exists searches pit, sent w3 = sent w ++ [es_request client "POST" ("/" +:+ index +:+ "/_pit?keep_alive=5m") None]
      ++ searches ++ [close_request client pit] /\ Forall (is_search client) searches /\ length searches <= N.to_nat n).
  { exists ss, pit. split_and!; [by rewrite Hsent, Hss, Hopen, <- !app_assoc|done|].
    specialize (Hlen n Hn Hb). cbn in Hlen. lia. }
  destruct oe as [e|]; cbn; eexists _, _, w3; (split; [rewrite ?app_nil_r; reflexivity|]); (split; [done|exact Hfin]).
Qed.
End Sent.

(** ** Reading everything *)

Section Pages.
(** The documents a point in time holds, in the order of the search; each hit
    carries its sort key, and a search after a key returns the hits that follow. *)
Variables (client : EsClient) (request : EsRequestInput) (schema : Schema) (batch_size : N).
Variable docs : list json.
Hypothesis docs_sorted : Forall (fun d => is_Some (jget "sort" d)) docs.

Definition follows (after : option json) (rest : list json) : Prop :=
  match after with
  | None => rest = docs
  | Some k => exists pre d, docs = pre ++ d :: rest /\ jget "sort" d = Some k
  end.

Hypothesis server_pages : forall pit size after rest w, follows after rest ->
  exists body j w', build_pit_search_body request pit size after = Ok body /\
    fetch_search_page client body w = (Ok j, w') /\ hits_of j = Some (take (N.to_nat size) rest).
Hypothesis convertible : forall page, (forall h, h ∈ page -> h ∈ docs) ->
  exists b, hits_to_record_batch schema page = Ok b.
Hypothesis batch_positive : (0 < batch_size)%N.

(** The rows asked for. *)
Definition wanted : nat := match es_size request with Some n => N.to_nat n | None => length docs end.

Lemma es_loop_pages fuel st pre rest w :
  docs = pre ++ rest -> total_fetched st = N.of_nat (length pre) -> length pre <= wanted ->
  follows (search_after st) rest -> length rest < fuel ->
  exists pages bs pit w',
    es_loop fuel client request schema batch_size st w = (bs, Some (Ok (None, pit)), w') /\
    concat pages = take (wanted - length pre) rest /\
    Forall2 (fun page b => hits_to_record_batch schema page = Ok b) pages bs /\
    Forall (fun page => 0 < length page <= N.to_nat batch_size) pages.
Proof.
  revert st pre rest w. induction fuel as [|fuel IH]; intros st pre rest w Hd Ht Hw Hf Hfuel; [lia|].
  cbn [es_loop]. cbv zeta.
  assert (Hlen : length docs = length pre + length rest) by (rewrite Hd; apply length_app).
  case_bool_decide as Hrem.
  { exists [], [], (pit_id_current st), w. split_and!; [done| |constructor..]. unfold wanted in *.
    destruct (es_size request) as [n|]; [|done]. injection Hrem as Hrem.
    by replace (N.to_nat n - length pre) with 0 by lia. }
  set (page_size := match _ with Some r => N.min r batch_size | None => batch_size end).
  assert (Hps : (0 < page_size <= batch_size)%N /\ (N.to_nat page_size <= wanted - length pre \/ wanted = length docs)).
  { unfold page_size, wanted in *. destruct (es_size request) as [n|]; cbn in *; [|by split; [lia|right]].
    assert (n - total_fetched st <> 0)%N by congruence. split; [lia|]. left. lia. }
  destruct Hps as [Hps Hlim].
  destruct (server_pages (pit_id_current st) page_size (search_after st) rest w Hf) as (body & j & w1 & -> & Hp & Hh).
  rewrite gbind_lift, (gbind_call_ok _ _ _ (Ok j) w1) by (unfold attempt; by rewrite Hp).
  rewrite Hh. set (pit := default _ _).
  destruct (take (N.to_nat page_size) rest) as [|h hits] eqn:Htake.
  { exists [], [], pit, w1. split_and!; [done| |constructor..].
    destruct rest as [|x rest]; [by rewrite take_nil|]. destruct (N.to_nat page_size) eqn:E; [lia|done]. }
  destruct (convertible (h :: hits)) as [b Hb].
  { intros x Hx. rewrite <- Htake in Hx. apply elem_of_take in Hx as (i & Hi & _).
    rewrite Hd. apply elem_of_app. right. by eapply list_elem_of_lookup_2. }
  rewrite Hb, gbind_yield.
  assert (Hne : h :: hits <> []) by done. apply last_is_Some in Hne as [d Hlast].
  assert (Hpage : h :: hits = take (N.to_nat page_size) rest) by done.
  assert (Hpl : length (h :: hits) = N.to_nat page_size `min` length rest) by (rewrite Hpage; apply length_take).
  assert (Hok : 0 < length (h :: hits) <= N.to_nat batch_size) by (split; [cbn; lia|rewrite Hpl; lia]).
  assert (Hin : d ∈ docs).
  { apply last_Some in Hlast as (l & Hl). rewrite Hd, <- (take_drop (N.to_nat page_size) rest), <- Hpage, Hl.
    rewrite !elem_of_app, list_elem_of_singleton. auto. }
  rewrite Forall_forall in docs_sorted. destruct (docs_sorted d Hin) as [sa Hsa].
  rewrite Hlast. cbn [mbind option_bind]. rewrite Hsa.
  destruct (N.ltb_spec (N.of_nat (length (h :: hits))) page_size) as [Hlt|Hge].
  { exists [h :: hits], [b], pit, w1. split_and!; [done| |by constructor|by constructor].
    cbn [concat]. rewrite app_nil_r, Hpage. rewrite !take_ge; [done|..]; [|lia].
    lia. }
  destruct (IH {| search_after := Some sa; pit_id_current := pit;
                  total_fetched := total_fetched st + N.of_nat (length (h :: hits)) |}
              (pre ++ h :: hits) (drop (N.to_nat page_size) rest) w1)
    as (pages & bs & pit' & w2 & Hrun & Hc & Hbs & Hall).
  - by rewrite Hpage, <- app_assoc, take_drop.
  - cbn [total_fetched]. rewrite length_app, Ht. lia.
  - rewrite length_app, Hpl. lia.
  - cbn. apply last_Some in Hlast as (l & Hl). exists (pre ++ l), d. split; [|done].
    rewrite Hd, <- (take_drop (N.to_nat page_size) rest) at 1. rewrite <- Hpage, Hl, <- !app_assoc. done.
  - rewrite length_drop. lia.
  - exists ((h :: hits) :: pages), (b :: bs), pit', w2. rewrite Hrun. cbn [fst snd].
    split_and!; [done| |by constructor|by constructor]. cbn [concat]. rewrite Hc, length_app, Hpl, Hpage, take_take_drop.
    f_equal. lia.
Qed.

(** C21: a read delivers exactly the documents asked for. If the point in time opens
    and the server returns pages of the documents it holds, the stream ends (with one
    round more than there are documents at most), closes the point in time, and
    yields the first [size] documents, or all without a size, in the order of the
    search, each exactly once, in non-empty batches of at most the batch size. *)
Theorem es_read_complete index pit0 w w1 fuel :
  open_pit client index w = (Ok pit0, w1) -> length docs < fuel ->
  exists pages bs w',
    es_stream fuel client request index schema batch_size w = (bs, Some (Ok tt), w') /\
    concat pages = take wanted docs /\
    Forall2 (fun page b => hits_to_record_batch schema page = Ok b) pages bs /\
    Forall (fun page => 0 < length page <= N.to_nat batch_size) pages.
Proof.
  intros Ho Hfuel.
  destruct (es_loop_pages fuel {| search_after := None; pit_id_current := pit0; total_fetched := 0 |} [] docs w1)
    as (pages & bs & pit & w2 & Hrun & Hc & Hb & Hall); [done|done|cbn; lia|done|done|].
  assert (Hclose : exists w3, close_pit client pit w2 = (Ok tt, w3)).
  { unfold close_pit, mseq, attempt. destruct (send _ _ w2) as [r w3]. by exists w3. }
  destruct Hclose as [w3 Hclose]. exists pages, bs, w3. cbn [length] in Hc. rewrite Nat.sub_0_r in Hc.
  split_and!; [|done..]. unfold es_stream.
  rewrite (gbind_call_ok _ _ _ pit0 w1) by (unfold map_err; by rewrite Ho).
  rewrite (gbind_ret _ _ _ _ _ _ Hrun), (gbind_call_ok _ _ _ tt w3) by (unfold map_err; cbn; by rewrite Hclose).
  cbn. by rewrite app_nil_r.
Qed.
End Pages.

(** ** Types *)

Lemma es_type_supported t : supported (es_type_to_arrow t) = true.
Proof. unfold es_type_to_arrow. by repeat destruct_match. Qed.

(** The batches of an index have the schema of its mapping; only a value that does not
    fit its field's type is an error. *)
Lemma es_batches_typed fields hits :
  fields <> [] ->
  match hits_to_record_batch (mapping_fields_to_schema fields) hits with
  | Ok b => batch_schema b = mapping_fields_to_schema fields /\
            conforms (mapping_fields_to_schema fields) (length hits) (batch_columns b)
  | Err e => exists f, f ∈ mapping_fields_to_schema fields /\
             extract_column_from_hits (f_name f) (f_type f) hits = Err e
  end.
Proof.
  intros Hne. apply fields_to_batch_typed.
  - by destruct fields.
  - apply Forall_fmap, Forall_true. done.
  - intros f a Hf Ha. apply json_array_shape in Ha as [-> ->]. rewrite length_fmap.
    apply list_elem_of_fmap in Hf as (m & -> & _). cbn. by rewrite es_type_supported.
Qed.
End Client.

(** * A concrete server *)

Definition sample_doc : json :=
  JObject (<["sort" := JArray [jnum 7]]> {[ "_source" := JObject {[ "n" := jnum 1 ]} ]}).

Definition hits_response (hits : list json) : json := JObject {[ "hits" := JObject {[ "hits" := JArray hits ]} ]}.

(** The texts of the messages it sends. *)
Definition sample_from_str (s : string) : result string json :=
  if String.eqb s "query" then Ok (JObject {[ "size" := jnum 1 ]})
  else if String.eqb s "pit" then Ok (JObject {[ "id" := JString "p" ]})
  else if String.eqb s "page" then Ok (hits_response [sample_doc])
  else Ok (hits_response []).

(** The document is on the first page, unless no hits are asked for. *)
Definition sample_answer (r : HttpRequest) : string :=
  match rq_json r with
  | None => "pit"
  | Some b =>
      match jget "search_after" b, jget "size" b with
      | None, Some (JNumber (PosInt (Npos _))) => "page"
      | _, _ => "none"
      end
  end.

#[local] Instance sample_http : Http (list HttpRequest) := {|
  HttpClient := unit; Certificate := unit;
  cert_from_pem := fun _ => Ok tt; build_http := fun _ _ _ _ => Ok tt;
  send := fun _ r w => (Ok {| rs_status := 200; rs_content_type := None; rs_content_length := None;
                              rs_body := Ok (sample_answer r) |}, w ++ [r]);
  show_status := fun _ => ""; from_str := sample_from_str
|}.

Definition sample_client : EsClient := {| es_http := tt : HttpClient; es_base_url := "http://es/"; es_auth := NoAuth |}.
Definition sample_request : EsRequestInput :=
  {| es_index := None; es_body := JObject {[ "size" := jnum 1 ]}; es_size := Some 1%N; has_user_sort := false |}.
Definition sample_schema : Schema := [nullable "n" Int64].

(** No timestamps occur. *)
Abbreviation sample_stream fuel :=
  (es_stream (W := list HttpRequest) (DateTime := Z) (fun _ => Err "") (fun z => z) (fun z => z) (fun z => z) Some
     (fun _ => "") (fun _ => "") fuel sample_client sample_request "idx" sample_schema 10).

Abbreviation sample_batch hits :=
  (hits_to_record_batch (DateTime := Z) (fun _ => Err "") (fun z => z) (fun z => z) (fun z => z) Some
     (fun _ => "") (fun _ => "") sample_schema hits).

Lemma es_read_ends_and_closes_witness :
  exists bs r w', sample_stream 2 [] = (bs, Some r, w') /\ r <> Err Panic /\
    exists searches pit,
      w' = [es_request sample_client "POST" "/idx/_pit?keep_alive=5m" None] ++ searches ++
           [close_request sample_client pit] /\
      Forall (is_search sample_client) searches /\ length searches <= 1.
Proof.
  apply (es_read_ends_and_closes (HW := sample_http) (DateTime := Z) (fun _ => Err "") (fun z => z) (fun z => z)
    (fun z => z) Some (fun _ => "") (fun _ => "") (fun w => w) (fun _ _ _ => eq_refl) "query" sample_request 1 2
    sample_client "idx" sample_schema 10 []); [reflexivity|reflexivity|reflexivity|vm_compute; lia].
Defined.

Lemma es_read_complete_witness :
  exists pages bs w', sample_stream 2 [] = (bs, Some (Ok tt), w') /\
    concat pages = [sample_doc] /\
    Forall2 (fun page b => sample_batch page = Ok b) pages bs /\
    Forall (fun page => 0 < length page <= 10) pages.
Proof.
  apply (es_read_complete (HW := sample_http) (DateTime := Z) (fun _ => Err "") (fun z => z) (fun z => z)
    (fun z => z) Some (fun _ => "") (fun _ => "") sample_client sample_request sample_schema 10 [sample_doc])
    with (index := "idx") (pit0 := "p") (w1 := [es_request sample_client "POST" "/idx/_pit?keep_alive=5m" None]).
  - constructor; [by eexists|constructor].
  - intros pit size after rest w Hf.
    destruct after as [k|], size as [|n]; cbn in Hf;
      (eexists _, _, _; split; [reflexivity|]; split; [reflexivity|]).
    + reflexivity.
    + destruct Hf as (pre & d & Hd & _). destruct pre as [|? [|]]; [|done..]. injection Hd as _ <-.
      by rewrite take_nil.
    + reflexivity.
    + subst. change (N.to_nat (N.pos n)) with (Pos.to_nat n). destruct (Pos2Nat.is_succ n) as [m ->].
      cbn [take]. by rewrite take_nil.
  - intros page _. by eexists.
  - done.
  - reflexivity.
  - cbn. lia.
Defined.
