(* ===== verification/Milvus.v ===== *)
(** The Milvus connector ([connectors/milvus/src]): requests, schemas, and reading
    entities: queries page by page, searches and lookups at once; with a concrete server. *)
From S2P Require Import Prelude Streams Text Json Floats Api Arrow Batches ArrowConvert ClientCache Http.
From Stdlib Require Import ZArith.

Definition MV_KEY_URI : string := "URI".
Definition MV_KEY_TOKEN : string := "TOKEN".
Definition MV_KEY_DATABASE : string := "DATABASE".
Definition MV_KEY_CA_CERT : string := "CA_CERT".

(** ** Requests (query.rs) *)

Inductive MilvusOperation : Type := MvQuery | MvSearch | MvGet.

Record MilvusRequestInput : Type := {
  collection_name : string;
  operation : MilvusOperation;
  mv_limit : option Z;
  mv_offset : option Z;
  mv_body : json
}.

Section Parse.
Variable from_str : string -> result string json.

Definition mv_parse (query : string) : result ConnectorError MilvusRequestInput :=
  let?? value := rmap_err (fun e => CInvalidRequest ("Invalid Milvus JSON query: " +:+ e)) (from_str query) in
  let?? obj := ok_or (as_object value) (CInvalidRequest "Query must be a JSON object") in
  let?? collection := ok_or (obj !! "collectionName" ≫= as_str)
                        (CInvalidRequest "'collectionName' is required") in
  let op := if bool_decide (is_Some (obj !! "data")) then MvSearch
            else if bool_decide (is_Some (obj !! "id")) then MvGet
            else MvQuery in
  Ok {| collection_name := collection; operation := op; mv_limit := obj !! "limit" ≫= as_i64;
        mv_offset := obj !! "offset" ≫= as_i64; mv_body := value |}.
End Parse.

Definition output_fields (r : MilvusRequestInput) : option (list string) :=
  match jget "outputFields" (mv_body r) ≫= as_array with
  | Some arr => Some (omap (M := list) as_str arr)
  | None => None
  end.

(** ** Schemas *)

Record MilvusFieldDesc : Type := { mf_name : string; field_type : string }.

Definition milvus_type_to_arrow (t : string) : DataType :=
  if String.eqb t "Bool" then Boolean
  else if String.eqb t "Int8" then Int8
  else if String.eqb t "Int16" then Int16
  else if String.eqb t "Int32" then Int32
  else if String.eqb t "Int64" then Int64
  else if String.eqb t "Float" then Float32
  else if String.eqb t "Double" then Float64
  else Utf8.

Definition is_vector_type (t : string) : bool :=
  String.eqb t "FloatVector" || String.eqb t "Float16Vector" || String.eqb t "BFloat16Vector"
  || String.eqb t "BinaryVector" || String.eqb t "SparseFloatVector".

(** Collecting pairs into a [HashMap]: the last of a name wins. *)
Definition type_map (descs : list MilvusFieldDesc) : gmap string string :=
  fold_left (fun m f => <[mf_name f := field_type f]> m) descs ∅.

(** An asterisk stands for all fields. *)
Definition expand_fields (descs : list MilvusFieldDesc) (fields : list string) : list string :=
  concat ((fun name => if String.eqb name "*" then mf_name <$> descs else [name]) <$> fields).

Definition build_schema (descs : list MilvusFieldDesc) (fields : option (list string)) (op : MilvusOperation)
    : Schema :=
  let arrow_fields :=
    match fields with
    | Some fields =>
        (fun name => nullable name
           (match type_map descs !! name with Some t => milvus_type_to_arrow t | None => Utf8 end))
        <$> expand_fields descs fields
    | None =>
        (fun f => nullable (mf_name f) (milvus_type_to_arrow (field_type f)))
        <$> List.filter (fun f => negb (is_vector_type (field_type f))) descs
    end in
  match op with
  | MvSearch =>
      if existsb (fun f => String.eqb (f_name f) "distance") arrow_fields then arrow_fields
      else arrow_fields ++ [nullable "distance" Float64]
  | _ => arrow_fields
  end.

Definition operation_endpoint (op : MilvusOperation) : string :=
  match op with
  | MvQuery => "/v2/vectordb/entities/query"
  | MvSearch => "/v2/vectordb/entities/search"
  | MvGet => "/v2/vectordb/entities/get"
  end.

Definition extract_data_rows (response : json) : list json :=
  match response with
  | JObject m => match m !! "data" with Some (JArray arr) => arr | _ => [] end
  | _ => []
  end.

(** ** The client *)

Section Client.
Context {W : Type} `{HW : Http W}.

Record MilvusClient : Type := {
  mv_http : HttpClient; mv_base_url : string; mv_token : option string; mv_database : option string
}.

(** [entry("dbName").or_insert(db)]. *)
Definition with_database (c : MilvusClient) (body : json) : json :=
  match mv_database c, body with
  | Some db, JObject obj =>
      match obj !! "dbName" with
      | Some _ => body
      | None => JObject (<["dbName" := JString db]> obj)
      end
  | _, _ => body
  end.

Definition mv_request (c : MilvusClient) (p : string) (body : json) : HttpRequest :=
  {| rq_method := "POST"; rq_url := trim_end_slashes (mv_base_url c) +:+ p;
     rq_auth := match mv_token c with Some t => Bearer t | None => NoAuth end;
     rq_json := Some (with_database c body); rq_timeout := None |}.

Definition mv_execute (c : MilvusClient) (p : string) (body : json) : M W ConnectorError json :=
  let? response := map_err (fun e => ConnectionError ("Milvus request failed: " +:+ e))
                     (send (mv_http c) (mv_request c p body)) in
  let? text := lift (rmap_err (fun e => ConnectionError ("Failed to read Milvus response body: " +:+ e))
                       (rs_body response)) in
  if negb (is_success (rs_status response))
  then throw (ConnectionError ("Milvus error (HTTP " +:+ show_status (rs_status response) +:+ "): " +:+ text))
  else
    let? j := lift (rmap_err (fun e => ConnectionError ("Failed to parse Milvus response: " +:+ e)) (from_str text)) in
    let code := default 0%Z (jget "code" j ≫= as_i64) in
    if (code =? 0)%Z then mret j
    else
      let message := default "unknown error" (jget "message" j ≫= as_str) in
      throw (ConnectionError ("Milvus error (code " +:+ pretty code +:+ "): " +:+ message)).

Definition mv_build_client (credentials : gmap string string) (config : ConnectorConfig)
    : result ConnectorError MilvusClient :=
  let?? base_url := ok_or (credentials !! MV_KEY_URI)
                      (ConnectionError ("'" +:+ MV_KEY_URI +:+ "' credential is required")) in
  let?? http := http_client config (credentials !! MV_KEY_CA_CERT) in
  Ok {| mv_http := http; mv_base_url := base_url; mv_token := credentials !! MV_KEY_TOKEN;
        mv_database := credentials !! MV_KEY_DATABASE |}.

Definition mv_get_reader `{!ClientCache W MilvusClient} (config : ConnectorConfig)
    (connection : DataConnectionResource)
    (resolver : DataConnectionResource -> M W ConnectorError (gmap string string))
    : M W ConnectorError MilvusClient :=
  connector_client (fun credentials => lift (mv_build_client credentials config)) connection resolver.

Definition mv_check_connection (c : MilvusClient) : M W ConnectorError unit :=
  mv_execute c "/v2/vectordb/collections/list" (JObject ∅) ;? mret tt.

Definition field_desc (f : json) : option MilvusFieldDesc :=
  name ← jget "name" f ≫= as_str;
  ty ← jget "type" f ≫= as_str;
  Some {| mf_name := name; field_type := ty |}.

Definition describe_collection (c : MilvusClient) (name : string) : M W ConnectorError (list MilvusFieldDesc) :=
  let? response := mv_execute c "/v2/vectordb/collections/describe"
                     (JObject {[ "collectionName" := JString name ]}) in
  let? fields := lift (ok_or ((jget "data" response ≫= jget "fields") ≫= as_array)
                         (ConnectionError "Invalid describe response: missing fields")) in
  mret (omap field_desc fields).

Definition mv_schema (c : MilvusClient) (query : string) : M W ConnectorError (string * Schema) :=
  let? request := lift (mv_parse from_str query) in
  let? descs := describe_collection c (collection_name request) in
  mret (query, build_schema descs (output_fields request) (operation request)).

(** ** Reading *)

Context `{AR : Arrow} {DateTime : Type}.
Variable string_to_datetime : string -> result string DateTime.
Variables timestamp timestamp_millis timestamp_micros : DateTime -> Z.
Variable timestamp_nanos_opt : DateTime -> option Z.
Variable show_datetime : DateTime -> string.
Variable json_text : json -> string.

Definition mv_column (rows : list json) (f : Field) : result ConnectorError ArrayRef :=
  json_values_to_array string_to_datetime timestamp timestamp_millis timestamp_micros timestamp_nanos_opt
    show_datetime json_text (f_name f) (f_type f) (jget (f_name f) <$> rows).

Definition rows_to_record_batch (schema : Schema) (rows : list json) : result ConnectorError RecordBatch :=
  fields_to_batch (mv_column rows) schema.

(** The page at an offset. *)
Definition page_body (body : json) (limit offset : Z) : json :=
  match body with
  | JObject obj => JObject (<["offset" := jint offset]> (<["limit" := jint limit]> obj))
  | _ => body
  end.

(** The loop of [read_query_paginated]; its integers are [i64]s. *)
Fixpoint mv_pages (fuel : nat) (client : MilvusClient) (request : MilvusRequestInput) (schema : Schema)
    (page_size : Z) (fetched : Z) : Gen W ConnectorError RecordBatch unit :=
  match fuel with
  | O => diverge
  | S fuel =>
      let remaining := (fun l => wrap_i64 (l - fetched)) <$> mv_limit request in
      let this_page := match remaining with
                       | Some r => if (r <=? 0)%Z then None else Some (Z.min r page_size)
                       | None => Some page_size
                       end in
      match this_page with
      | None => gret tt
      | Some this_page =>
          let client_offset := default 0%Z (mv_offset request) in
          let body := page_body (mv_body request) this_page (wrap_i64 (client_offset + fetched)) in
          let! response := call (mv_execute client (operation_endpoint MvQuery) body) in
          match extract_data_rows response with
          | [] => gret tt
          | rows =>
              let! batch := glift (rows_to_record_batch schema rows) in
              yield batch ;!
              let num_rows := Z.of_nat (length rows) in
              if (num_rows <? this_page)%Z then gret tt
              else mv_pages fuel client request schema page_size (wrap_i64 (fetched + num_rows))
          end
      end
  end.

(** The loop over the rows of a search or lookup. *)
Fixpoint mv_chunks (fuel : nat) (schema : Schema) (rows : list json) (batch_size offset : nat)
    : Gen W ConnectorError RecordBatch unit :=
  match fuel with
  | O => diverge
  | S fuel =>
      if offset <? length rows
      then
        let stop := Nat.min (offset + batch_size) (length rows) in
        let! batch := glift (rows_to_record_batch schema (take (stop - offset) (drop offset rows))) in
        yield batch ;!
        mv_chunks fuel schema rows batch_size stop
      else gret tt
  end.

Definition mv_read_tabular (client : MilvusClient) (fuel : nat) (query : string) (schema : Schema)
    (batch_size : nat) : M W ConnectorError (Gen W ConnectorError RecordBatch unit) :=
  let? request := lift (mv_parse from_str query) in
  match operation request with
  | MvQuery => mret (mv_pages fuel client request schema (Z.of_nat batch_size) 0)
  | op =>
      let? response := mv_execute client (operation_endpoint op) (mv_body request) in
      mret (mv_chunks fuel schema (extract_data_rows response) batch_size 0)
  end.

(** ** Termination *)

(** The rows one response holds. *)
Definition bounded_responses (client : MilvusClient) (bound : Z) : Prop :=
  forall body w j w', mv_execute client (operation_endpoint MvQuery) body w = (Ok j, w') ->
    (Z.of_nat (length (extract_data_rows j)) <= bound)%Z.

Lemma mv_pages_end fuel client request schema page_size fetched w l bound :
  mv_limit request = Some l -> (0 < page_size)%Z -> bounded_responses client bound -> (0 <= bound)%Z -> (l + bound < 2 ^ 63)%Z ->
  (- 2 ^ 63 <= l)%Z -> (0 <= fetched < 2 ^ 63)%Z -> (fetched = 0 \/ 0 < l)%Z ->
  (Z.to_nat (l - fetched) < fuel) ->
  exists bs r w', mv_pages fuel client request schema page_size fetched w = (bs, Some r, w') /\
    length bs <= Z.to_nat (l - fetched).
Proof.
  intros Hl Hp Hb Hb0 Hbound Hmin. revert fetched w. induction fuel as [|fuel IH]; intros fetched w Hf Hfl Hfuel; [lia|].
  cbn [mv_pages]. rewrite Hl. cbn [fmap option_fmap option_map]. cbv zeta. rewrite wrap_i64_id by lia.
  destruct (Z.leb_spec (l - fetched) 0) as [|Hpos]; [exists [], (Ok tt), w; by split; [|cbn; lia]|].
  set (body := page_body _ _ _).
  destruct (mv_execute client (operation_endpoint MvQuery) body w) as [[j|e] w1] eqn:Hx; cycle 1.
  { rewrite (gbind_call_err _ _ _ _ _ Hx). eexists _, _, _. split; [done|cbn; lia]. }
  rewrite (gbind_call_ok _ _ _ _ _ Hx). pose proof (Hb _ _ _ _ Hx) as Hrows.
  destruct (extract_data_rows j) as [|r0 rows] eqn:Hj; [eexists _, _, _; split; [done|cbn; lia]|].
  destruct (rows_to_record_batch schema (r0 :: rows)) as [b|e]; cycle 1.
  { eexists _, _, _. split; [done|cbn; lia]. }
  rewrite gbind_lift, gbind_yield.
  destruct (Z.ltb_spec (Z.of_nat (length (r0 :: rows))) (Z.min (l - fetched) page_size)) as [|Hge].
  { eexists _, _, _. split; [done|cbn; lia]. }
  rewrite wrap_i64_id by lia.
  destruct (IH (fetched + Z.of_nat (length (r0 :: rows)))%Z w1) as (bs & r & w2 & -> & Hn); [lia..|].
  eexists _, _, _. split; [done|]. cbn [fst length]. lia.
Qed.

(** The rows of a search or lookup, in chunks. *)
Lemma mv_chunks_end fuel schema rows batch_size offset w :
  0 < batch_size -> length rows - offset < fuel ->
  exists bs r, mv_chunks fuel schema rows batch_size offset w = (bs, Some r, w) /\
    delivered (rows_to_record_batch schema) batch_size (Ok <$> drop offset rows) bs r.
Proof.
  intros Hb. revert offset. induction fuel as [|fuel IH]; intros offset Hfuel; [lia|]. cbn [mv_chunks].
  destruct (Nat.ltb_spec offset (length rows)) as [Hlt|Hge]; cycle 1.
  { exists [], (Ok tt). split; [done|]. eapply (delivered_all _ _ _ [] []); [constructor|unfold Streams.chunk_size; cbn; lia| |constructor].
    by rewrite drop_ge. }
  cbv zeta. set (stop := Nat.min _ _). set (c := take (stop - offset) (drop offset rows)).
  assert (Hc : length c = stop - offset) by (unfold c, stop; rewrite length_take, length_drop; lia).
  assert (Hsplit : drop offset rows = c ++ drop stop rows).
  { unfold c. replace (drop stop rows) with (drop (stop - offset) (drop offset rows)).
    - by rewrite take_drop.
    - rewrite drop_drop. f_equal. unfold stop. lia. }
  destruct (rows_to_record_batch schema c) as [b|e] eqn:Hbatch; cycle 1.
  { exists [], (Err e). split; [done|]. eapply (delivered_batch_error _ _ _ [] c); [constructor| |constructor| |done].
    - rewrite Hc. unfold Streams.chunk_size, stop. lia.
    - cbn. by rewrite Hsplit, fmap_app. }
  rewrite gbind_lift, gbind_yield. destruct (IH stop) as (bs & r & -> & Hd); [unfold stop; lia|].
  exists (b :: bs), r. split; [done|]. rewrite Hsplit, fmap_app.
  destruct (decide (offset + batch_size <= length rows)) as [Hle|Hgt].
  { apply delivered_cons; [|done..]. rewrite Hc. unfold Streams.chunk_size, stop. lia. }
  assert (Hnil : drop stop rows = []) by (apply drop_ge; unfold stop; lia). rewrite Hnil in *.
  inversion Hd as [chunks rest ? Hf Hr Heq Hbs|chunks rest ? e tail Hf Hr Hbs Heq|chunks rest ? e tail Hf Hr Hbs Heq He]; subst.
  - symmetry in Heq. apply fmap_nil_inv, app_nil in Heq as [Hcs ->].
    destruct chunks as [|x chunks]; cycle 1.
    { apply Forall_cons in Hf as [Hx _]. unfold Streams.chunk_size in Hx. destruct x; [cbn in Hx; lia|done]. }
    cbn in Hbs. inversion Hbs; subst. eapply (delivered_all _ _ _ [] c); [constructor| |by rewrite app_nil_r|].
    + rewrite Hc. unfold Streams.chunk_size, stop. lia.
    + cbn. destruct (decide (c = [])) as [Hc0|]; [|by repeat constructor].
      exfalso. rewrite Hc0 in Hc. cbn in Hc. unfold stop in Hc. lia.
  - by destruct (Ok <$> concat chunks ++ rest).
  - exfalso. symmetry in Heq. apply app_nil in Heq as [Heq _]. apply fmap_nil_inv, app_nil in Heq as [_ ->]. cbn in Hr. lia.
Qed.

(** Why a batch size of 0 is refused at start-up: the loop would yield empty batches
    for ever. *)
Lemma mv_chunks_zero fuel schema row rows b w :
  rows_to_record_batch schema [] = Ok b ->
  (mv_chunks fuel schema (row :: rows) 0 0 w).1.2 = None.
Proof.
  intros Hb. induction fuel as [|fuel IH]; [done|]. cbn -[gbind]. rewrite Hb, gbind_lift, gbind_yield. done.
Qed.

(** ** Reading everything *)

(** The first entity a query asks for. *)
Definition mv_start (request : MilvusRequestInput) : Z := default 0%Z (mv_offset request).

Section Entities.
(** The entities that match a query, in the order the server pages through them. *)
Variables (client : MilvusClient) (request : MilvusRequestInput) (schema : Schema) (page_size : Z).
Variable entities : list json.
Hypothesis server_pages : forall limit o w, (0 < limit)%Z -> (0 <= o)%Z ->
  exists j w', mv_execute client (operation_endpoint MvQuery) (page_body (mv_body request) limit o) w = (Ok j, w') /\
    extract_data_rows j = take (Z.to_nat limit) (drop (Z.to_nat o) entities).
Hypothesis convertible : forall rows, (forall r, r ∈ rows -> r ∈ entities) ->
  exists b, rows_to_record_batch schema rows = Ok b.
Hypothesis page_positive : (0 < page_size)%Z.
Hypothesis offset_range : (0 <= mv_start request)%Z.
Hypothesis no_overflow : (mv_start request + Z.of_nat (length entities) < 2 ^ 63)%Z.
Hypothesis limit_range : forall l, mv_limit request = Some l -> (- 2 ^ 63 <= l < 2 ^ 63)%Z.

(** The entities asked for: those after the offset, up to the limit. *)
Definition mv_wanted : list json :=
  let rest := drop (Z.to_nat (mv_start request)) entities in
  match mv_limit request with Some l => take (Z.to_nat l) rest | None => rest end.

(** The size of the page to ask for after [k] entities, if any is left. *)
Lemma mv_page_plan (k : nat) :
  (k = 0 \/ k <= length entities - Z.to_nat (mv_start request)) ->
  (forall l, mv_limit request = Some l -> k = 0 \/ (Z.of_nat k <= l)%Z) ->
  let rest := drop (Z.to_nat (mv_start request) + k) entities in
  let this_page := match (fun l => wrap_i64 (l - Z.of_nat k)) <$> mv_limit request with
                   | Some r => if (r <=? 0)%Z then None else Some (Z.min r page_size)
                   | None => Some page_size
                   end in
  (this_page = None /\ drop k mv_wanted = []) \/
  exists p, this_page = Some p /\ (0 < p <= page_size)%Z /\
    (Z.of_nat (length rest) < p -> drop k mv_wanted = rest)%Z /\
    drop k mv_wanted = take (Z.to_nat p) rest ++ drop (k + Z.to_nat p) mv_wanted /\
    (forall l, mv_limit request = Some l -> (Z.of_nat k + p <= l)%Z).
Proof using page_positive limit_range.
  intros Hk Hl rest. unfold mv_wanted. cbv zeta.
  assert (Hafter : forall n, drop (Z.to_nat (mv_start request) + (k + n)) entities = drop n rest)
    by (intros n; unfold rest; rewrite drop_drop; f_equal; lia).
  destruct (mv_limit request) as [l|] eqn:El; cbn [fmap option_fmap option_map].
  - specialize (Hl l eq_refl). specialize (limit_range l eq_refl). rewrite wrap_i64_id by lia.
    destruct (Z.leb_spec (l - Z.of_nat k) 0); [left; split; [done|]; apply drop_ge; rewrite length_take; lia|].
    right. eexists. split; [done|]. split; [lia|]. rewrite !skipn_firstn_comm, !drop_drop, Hafter. fold rest. split_and!.
    + intros Hlt. rewrite take_ge; [done|]. lia.
    + rewrite take_take_drop. f_equal. lia.
    + intros ? [= <-]. lia.
  - right. eexists. split; [done|]. split; [lia|]. rewrite !drop_drop, Hafter. fold rest. split_and!; [done| |done].
    by rewrite take_drop.
Qed.

Lemma mv_pages_all fuel (k : nat) w :
  (k = 0 \/ k <= length entities - Z.to_nat (mv_start request)) ->
  (forall l, mv_limit request = Some l -> k = 0 \/ (Z.of_nat k <= l)%Z) ->
  length entities - Z.to_nat (mv_start request) - k < fuel ->
  exists pages bs w',
    mv_pages fuel client request schema page_size (Z.of_nat k) w = (bs, Some (Ok tt), w') /\
    concat pages = drop k mv_wanted /\
    Forall2 (fun page b => rows_to_record_batch schema page = Ok b) pages bs /\
    Forall (fun page => 0 < length page <= Z.to_nat page_size) pages.
Proof using server_pages convertible page_positive offset_range no_overflow limit_range.
  revert k w. induction fuel as [|fuel IH]; intros k w Hk Hl Hfuel; [lia|]. cbn [mv_pages]. cbv zeta. change (default 0%Z (mv_offset request)) with (mv_start request).
  set (rest := drop (Z.to_nat (mv_start request) + k) entities).
  assert (Hlen : length rest = length entities - (Z.to_nat (mv_start request) + k)) by apply length_drop.
  destruct (mv_page_plan k Hk Hl) as [[Hd Hp]|(p & Ep & Hp & Hshort & Hsplit & Hlim)].
  { rewrite Hd. exists [], [], w. split_and!; [done|by rewrite Hp|constructor..]. }
  rewrite Ep. fold rest in Hshort, Hsplit.
  destruct (server_pages p (mv_start request + Z.of_nat k) w) as (j & w1 & Hx & Hj); [lia..|].
  rewrite wrap_i64_id by lia. rewrite (gbind_call_ok _ _ _ _ _ Hx), Hj.
  replace (Z.to_nat (mv_start request + Z.of_nat k)) with (Z.to_nat (mv_start request) + k) by lia. fold rest.
  destruct (take (Z.to_nat p) rest) as [|r0 rows] eqn:Ht.
  { exists [], [], w1. split_and!; [done| |constructor..].
    assert (rest = []) as Hr by (destruct rest; [done|]; destruct (Z.to_nat p) eqn:E; [lia|done]).
    rewrite Hshort, Hr; [done|]. rewrite Hr. cbn. lia. }
  assert (Hpl : length (r0 :: rows) = Z.to_nat p `min` length rest) by (rewrite <- Ht; apply length_take).
  destruct (convertible (r0 :: rows)) as [b Hb].
  { intros r Hr. rewrite <- Ht in Hr. apply elem_of_take in Hr as (i & Hi & _).
    unfold rest in Hi. rewrite lookup_drop in Hi. by eapply list_elem_of_lookup_2. }
  rewrite Hb, gbind_lift, gbind_yield.
  assert (Hpage : 0 < length (r0 :: rows) <= Z.to_nat page_size) by (split; [cbn; lia|rewrite Hpl; lia]).
  destruct (Z.ltb_spec (Z.of_nat (length (r0 :: rows))) p) as [Hlt|Hge].
  { exists [r0 :: rows], [b], w1. split_and!; [done| |by constructor|by constructor].
    cbn [concat]. rewrite app_nil_r, <- Ht, Hshort by lia. by rewrite take_ge by lia. }
  rewrite wrap_i64_id by lia. rewrite <- Nat2Z.inj_add.
  destruct (IH (k + length (r0 :: rows)) w1) as (pages & bs & w2 & Hrun & Hc & Hbs & Hall).
  - right. lia.
  - intros l El. right. specialize (Hlim l El). lia.
  - lia.
  - exists ((r0 :: rows) :: pages), (b :: bs), w2. rewrite Hrun. cbn [fst snd].
    split_and!; [done| |by constructor|by constructor]. cbn [concat]. rewrite Hc, Hsplit. f_equal. f_equal. lia.
Qed.

End Entities.

(** Reading from Milvus ends. A query with a limit ends whatever the server
    answers, after at most as many batches as rows were asked for, as long as a
    response does not hold so many rows that the 64-bit counter overflows; a search
    or lookup ends for every response and delivers its rows in chunks of the batch
    size. Both need a positive batch size. *)
Theorem milvus_read_ends client request schema batch_size w :
  0 < batch_size ->
  (forall l bound fuel, mv_limit request = Some l -> (- 2 ^ 63 <= l)%Z ->
     bounded_responses client bound -> (0 <= bound)%Z -> (l + bound < 2 ^ 63)%Z -> Z.to_nat l < fuel ->
     exists bs r w', mv_pages fuel client request schema (Z.of_nat batch_size) 0 w = (bs, Some r, w') /\
       length bs <= Z.to_nat l) /\
  (forall rows fuel, length rows < fuel ->
     exists bs r, mv_chunks fuel schema rows batch_size 0 w = (bs, Some r, w) /\
       delivered (rows_to_record_batch schema) batch_size (Ok <$> rows) bs r).
Proof.
  intros Hb. split.
  - intros l bound fuel Hl Hmin Hr H0 Hbound Hfuel.
    destruct (mv_pages_end fuel client request schema (Z.of_nat batch_size) 0 w l bound)
      as (bs & r & w' & Hrun & Hn); try done; try lia. rewrite Z.sub_0_r in Hn. by exists bs, r, w'.
  - intros rows fuel Hfuel. apply (mv_chunks_end fuel schema rows batch_size 0); lia.
Qed.

(** ** Types *)

Lemma milvus_type_supported t : supported (milvus_type_to_arrow t) = true.
Proof. unfold milvus_type_to_arrow. by repeat destruct_match. Qed.

Lemma build_schema_supported descs fields op f :
  f ∈ build_schema descs fields op -> supported (f_type f) = true /\ f_nullable f = true.
Proof.
  assert (Hbase : forall g, g ∈ match fields with
    | Some fields => (fun name => nullable name
           (match type_map descs !! name with Some t => milvus_type_to_arrow t | None => Utf8 end))
        <$> expand_fields descs fields
    | None => (fun f => nullable (mf_name f) (milvus_type_to_arrow (field_type f)))
        <$> List.filter (fun f => negb (is_vector_type (field_type f))) descs
    end -> supported (f_type g) = true /\ f_nullable g = true).
  { intros g. destruct fields as [fs|]; rewrite list_elem_of_fmap; intros (x & -> & _); cbn; (split; [|done]).
    - destruct (type_map descs !! x); [apply milvus_type_supported|done].
    - apply milvus_type_supported. }
  unfold build_schema. destruct op; [apply Hbase| |apply Hbase]. destruct (existsb _ _); [apply Hbase|].
  rewrite elem_of_app, list_elem_of_singleton. intros [H| ->]; [by apply Hbase|done].
Qed.

(** The batches have the schema announced for the request; only a value that does not
    fit its field's type is an error. *)
Lemma milvus_batches_typed descs fields op rows :
  build_schema descs fields op <> [] ->
  match rows_to_record_batch (build_schema descs fields op) rows with
  | Ok b => batch_schema b = build_schema descs fields op /\
            conforms (build_schema descs fields op) (length rows) (batch_columns b)
  | Err e => exists f, f ∈ build_schema descs fields op /\ mv_column rows f = Err e
  end.
Proof.
  intros Hne. apply fields_to_batch_typed; [done|..].
  - apply Forall_forall. intros f Hf. by apply (build_schema_supported descs fields op).
  - intros f a Hf Ha. apply json_array_shape in Ha as [-> ->]. rewrite length_fmap.
    by rewrite (proj1 (build_schema_supported _ _ _ _ Hf)).
Qed.
End Client.

(** * A concrete server *)

Definition sample_entity (z : Z) : json := JObject {[ "n" := jint z ]}.
Definition sample_entities : list json := [sample_entity 1; sample_entity 2].

Definition data_response (rows : list json) : json := JObject {[ "data" := JArray rows ]}.

(** The texts of the responses. *)
Definition sample_from_str (s : string) : result string json :=
  Ok (data_response
        (if String.eqb s "both" then sample_entities
         else if String.eqb s "first" then take 1 sample_entities
         else if String.eqb s "second" then drop 1 sample_entities
         else [])).

Definition sample_answer (r : HttpRequest) : string :=
  match rq_json r with
  | None => ""
  | Some b =>
      match jget "offset" b, jget "limit" b with
      | Some (JNumber (PosInt 0)), Some (JNumber (PosInt 1)) => "first"
      | Some (JNumber (PosInt 0)), _ => "both"
      | Some (JNumber (PosInt 1)), _ => "second"
      | _, _ => ""
      end
  end.

#[local] Instance sample_http : Http unit := {|
  HttpClient := unit; Certificate := unit;
  cert_from_pem := fun _ => Ok tt; build_http := fun _ _ _ _ => Ok tt;
  send := fun _ r w => (Ok {| rs_status := 200; rs_content_type := None; rs_content_length := None;
                              rs_body := Ok (sample_answer r) |}, w);
  show_status := fun _ => ""; from_str := sample_from_str
|}.

Definition sample_client : MilvusClient :=
  {| mv_http := tt : HttpClient; mv_base_url := "http://milvus/"; mv_token := None; mv_database := None |}.
Definition sample_request (limit : option Z) : MilvusRequestInput :=
  {| collection_name := "c"; operation := MvQuery; mv_limit := limit; mv_offset := None; mv_body := JObject ∅ |}.
Definition sample_schema : Schema := [nullable "n" Int64].

(** No timestamps occur. *)
Abbreviation sample_pages fuel limit size :=
  (mv_pages (W := unit) (DateTime := Z) (fun _ => Err "") (fun z => z) (fun z => z) (fun z => z) Some
     (fun _ => "") (fun _ => "") fuel sample_client (sample_request limit) sample_schema size 0).

Abbreviation sample_batch rows :=
  (rows_to_record_batch (DateTime := Z) (fun _ => Err "") (fun z => z) (fun z => z) (fun z => z) Some
     (fun _ => "") (fun _ => "") sample_schema rows).

(** An entity has the one field of the schema. *)
Lemma sample_convertible rows :
  (forall r, r ∈ rows -> r ∈ sample_entities) -> exists b, sample_batch rows = Ok b.
Proof.
  intros Hrows.
  pose proof (milvus_batches_typed (DateTime := Z) (fun _ => Err "") (fun z => z) (fun z => z) (fun z => z) Some
    (fun _ => "") (fun _ => "") [{| mf_name := "n"; field_type := "Int64" |}] None MvQuery rows) as Ht.
  change (build_schema _ _ _) with sample_schema in Ht.
  destruct (sample_batch rows) as [b|e]; [by exists b|]. destruct (Ht ltac:(done)) as (f & Hf & Hcol).
  apply list_elem_of_singleton in Hf as ->. done.
Qed.


Lemma milvus_read_ends_witness :
  (exists bs r w', sample_pages 2 (Some 1%Z) 2 tt = (bs, Some r, w') /\ length bs <= 1).
Proof.
  refine (proj1 (milvus_read_ends (HW := sample_http) (DateTime := Z) (fun _ => Err "") (fun z => z) (fun z => z)
    (fun z => z) Some (fun _ => "") (fun _ => "") sample_client (sample_request (Some 1%Z)) sample_schema 2 tt
    ltac:(lia)) 1%Z 2%Z 2 eq_refl _ _ _ _ _); [lia| |lia|lia|cbn; lia].
  intros body [] j w' Hx. set (text := sample_answer (mv_request sample_client (operation_endpoint MvQuery) body)).
  assert (sample_from_str text = Ok j) as Hj by (change (mv_execute _ _ _ _) with (@Ok ConnectorError _ (match sample_from_str text with Ok j => j | Err _ => JNull end), tt) in Hx;
    injection Hx as <-; done).
  injection Hj as <-. by repeat (destruct (String.eqb _ _); [by vm_compute|]).
Defined.
