(* ===== verification/Neo4j.v ===== *)
(** The Neo4j connector ([connectors/neo4j/src]): Bolt values, connecting with a CA
    certificate in a temporary file, and reading a query's rows. *)
From S2P Require Import Prelude Streams Text Json Floats Api Arrow Batches ClientCache.
From Stdlib Require Import ZArith NArith.

Definition NEO_KEY_URI : string := "URI".
Definition NEO_KEY_USERNAME : string := "USERNAME".
Definition NEO_KEY_PASSWORD : string := "PASSWORD".
Definition NEO_KEY_DATABASE : string := "DATABASE".
Definition NEO_KEY_CA_CERT : string := "CA_CERT".

(** ** Bolt values (types.rs) *)

(** [neo4rs::BoltType]; [T] are its temporal values. *)
Unset Elimination Schemes.
Inductive BoltType (T : Type) : Type :=
| BNull
| BBoolean (b : bool)
| BInteger (z : Z)
| BFloat (f : f64)
| BString (s : string)
| BList (l : list (BoltType T))
| BMap (m : list (string * BoltType T))
| BNode (nid : Z) (labels : list (BoltType T)) (props : list (string * BoltType T))
| BRelation (rid start_node end_node : Z) (typ : string) (props : list (string * BoltType T))
| BUnboundedRelation (rid : Z) (typ : string) (props : list (string * BoltType T))
| BPath (nodes : list (Z * list (BoltType T) * list (string * BoltType T)))
        (rels : list (Z * string * list (string * BoltType T)))
| BPoint2D (srid : Z) (x y : f64)
| BPoint3D (srid : Z) (x y z : f64)
| BBytes (b : string)
| BDuration (t : T) | BDate (t : T) | BTime (t : T) | BLocalTime (t : T)
| BDateTime (t : T) | BDateTimeZoneId (t : T) | BLocalDateTime (t : T).
Set Elimination Schemes.

Arguments BNull {T}. Arguments BBoolean {T}. Arguments BInteger {T}. Arguments BFloat {T}. Arguments BString {T}.
Arguments BList {T}. Arguments BMap {T}. Arguments BNode {T}. Arguments BRelation {T}.
Arguments BUnboundedRelation {T}. Arguments BPath {T}. Arguments BPoint2D {T}. Arguments BPoint3D {T}.
Arguments BBytes {T}. Arguments BDuration {T}. Arguments BDate {T}. Arguments BTime {T}. Arguments BLocalTime {T}.
Arguments BDateTime {T}. Arguments BDateTimeZoneId {T}. Arguments BLocalDateTime {T}.

Definition bolt_type_to_arrow {T} (bolt : BoltType T) : DataType :=
  match bolt with
  | BBoolean _ => Boolean
  | BInteger _ => Int64
  | BFloat _ => Float64
  | BString _ => Utf8
  | BBytes _ => Binary
  | BDate _ => Date32
  | BDateTime _ | BDateTimeZoneId _ => Timestamp Millisecond (Some "UTC")
  | BLocalDateTime _ => Timestamp Millisecond None
  | _ => Utf8
  end.

(** [neo4rs]' rows and temporal values, chrono's conversions and [serde_json]'s
    printing. A [get] fails if the field is missing or of another type. *)
Class NeoValues : Type := {
  Temporal : Type;
  (** [try_into] chrono and its text, or the default's; [{:?}] of the others. *)
  date_text : Temporal -> string;
  datetime_text : Temporal -> string;
  local_datetime_text : Temporal -> string;
  debug_temporal : Temporal -> string;
  debug_bytes : string -> string;
  datetime_millis : Temporal -> option Z;
  local_datetime_millis : Temporal -> option Z;
  bolt_text : BoltType Temporal -> string;
  float_repr : f64 -> option string;
  neo_json_text : json -> string;
  NeoRow : Type;
  row_to_json : NeoRow -> result string json;
  get_bool : NeoRow -> string -> result string (option bool);
  get_i64 : NeoRow -> string -> result string (option Z);
  get_f64 : NeoRow -> string -> result string (option f64);
  get_string : NeoRow -> string -> result string (option string);
  get_naive_date : NeoRow -> string -> result string Z;
  get_datetime_millis : NeoRow -> string -> result string Z;
  get_bytes : NeoRow -> string -> result string string;
  get_bolt : NeoRow -> string -> result string (BoltType Temporal)
}.

Section Values.
Context `{NV : NeoValues}.

(** [json!(f)]: null unless finite. *)
Definition json_f64 (f : f64) : json :=
  match float_repr f with Some r => JNumber (Float r) | None => JNull end.

Definition json_object (entries : list (string * json)) : json := JObject (list_to_map entries).

Fixpoint bolt_value_to_json (bolt : BoltType Temporal) : json :=
  let bolt_map_to_json_object (m : list (string * BoltType Temporal)) : json :=
    (* the last entry of a key wins, as in [collect] *)
    json_object (rev (List.map (fun kv => (kv.1, bolt_value_to_json kv.2)) m)) in
  let labels_json (labels : list (BoltType Temporal)) : json :=
    JArray (List.map (fun l => JString (bolt_text l)) labels) in
  match bolt with
  | BNull => JNull
  | BBoolean b => JBool b
  | BInteger i => jint i
  | BFloat f => json_f64 f
  | BString s => JString s
  | BList l => JArray (List.map bolt_value_to_json l)
  | BMap m => bolt_map_to_json_object m
  | BNode nid labels props =>
      json_object [("id", jint nid); ("labels", labels_json labels); ("properties", bolt_map_to_json_object props)]
  | BRelation rid start_node end_node typ props =>
      json_object [("id", jint rid); ("start_node_id", jint start_node); ("end_node_id", jint end_node);
                   ("typ", JString typ); ("properties", bolt_map_to_json_object props)]
  | BUnboundedRelation rid typ props =>
      json_object [("id", jint rid); ("typ", JString typ); ("properties", bolt_map_to_json_object props)]
  | BPath nodes rels =>
      json_object
        [("nodes", JArray (List.map (fun n => json_object [("id", jint n.1.1); ("labels", labels_json n.1.2);
                                       ("properties", bolt_map_to_json_object n.2)]) nodes));
         ("relationships", JArray (List.map (fun r => json_object [("id", jint r.1.1); ("typ", JString r.1.2);
                                       ("properties", bolt_map_to_json_object r.2)]) rels))]
  | BPoint2D srid x y => json_object [("srid", jint srid); ("x", json_f64 x); ("y", json_f64 y)]
  | BPoint3D srid x y z =>
      json_object [("srid", jint srid); ("x", json_f64 x); ("y", json_f64 y); ("z", json_f64 z)]
  | BDuration d => JString (debug_temporal d)
  | BDate d => JString (date_text d)
  | BTime t | BLocalTime t => JString (debug_temporal t)
  | BDateTime dt => JString (datetime_text dt)
  | BDateTimeZoneId dt => JString (debug_temporal dt)
  | BLocalDateTime dt => JString (local_datetime_text dt)
  | BBytes b => JString (debug_bytes b)
  end.

(** ** Columns (connector.rs) *)

Definition ok {E A} (r : result E A) : option A := match r with Ok a => Some a | Err _ => None end.

Definition extract_as_string (row : NeoRow) (key : string) : option string :=
  match get_string row key with
  | Ok (Some s) => Some s
  | _ =>
      match get_bolt row key with
      | Ok BNull => None
      | Ok other => Some (neo_json_text (bolt_value_to_json other))
      | Err _ => None
      end
  end.

Definition timestamp_value (row : NeoRow) (key : string) : option Z :=
  match ok (get_bolt row key) with
  | Some (BDateTime dt) => datetime_millis dt
  | Some (BDateTimeZoneId _) => ok (get_datetime_millis row key)
  | Some (BLocalDateTime dt) => local_datetime_millis dt
  | _ => None
  end.

(** A [NaiveDate] is its days since the epoch. *)
Definition build_column_array (field_name : string) (ty : DataType) (rows : list NeoRow) : ArrayRef :=
  match ty with
  | Boolean => BooleanArray ((fun r => mjoin (ok (get_bool r field_name))) <$> rows)
  | Int64 => Int64Array ((fun r => mjoin (ok (get_i64 r field_name))) <$> rows)
  | Float64 => Float64Array ((fun r => mjoin (ok (get_f64 r field_name))) <$> rows)
  | Date32 => Date32Array ((fun r => wrap_i32 <$> ok (get_naive_date r field_name)) <$> rows)
  | Timestamp Millisecond tz => TimestampArray Millisecond tz ((fun r => timestamp_value r field_name) <$> rows)
  | Binary => BinaryArray ((fun r => ok (get_bytes r field_name)) <$> rows)
  | _ => StringArray ((fun r => extract_as_string r field_name) <$> rows)
  end.

Context `{AR : Arrow}.

Definition neo_rows_to_batch (schema : Schema) (rows : list NeoRow) : result ConnectorError RecordBatch :=
  fields_to_batch (fun f => Ok (build_column_array (f_name f) (f_type f) rows)) schema.
End Values.

(** ** The driver *)

Inductive ConnectError : Type := ConnectTimeout | ConnectFailed (e : string).

(** Temporary files, [neo4rs]' configuration and connections, and the rows of a
    query: each is a row or the error of fetching it. *)
Class NeoDriver `{NV : NeoValues} (W : Type) : Type := {
  TempFile : Type;
  temp_new : M W string TempFile;
  temp_write : TempFile -> string -> M W string unit;
  temp_path : TempFile -> string;
  temp_drop : TempFile -> W -> W;
  NeoConfig : Type;
  build_config : string -> string -> string -> string -> option string -> result string NeoConfig;
  Graph : Type;
  graph_connect : N -> NeoConfig -> M W ConnectError Graph;
  execute : Graph -> string -> M W string (list (result string NeoRow));
  json_keys : gmap string json -> list string
}.

Section Driver.
Context {W : Type} `{NV : NeoValues} `{ND : !NeoDriver W} `{AR : Arrow}.

(** [str::to_lowercase]; the words searched for are ASCII. *)
Definition map_neo4j_error (e : string) : ConnectorError :=
  let msg := to_ascii_lowercase e in
  if contains "permission" msg || contains "not allowed" msg || contains "read only" msg
     || contains "write operations are not allowed" msg
  then CInvalidRequest "Data source is read-only"
  else SQLError e.

(** The value goes out of scope when [m] returns, with an error or not. *)
Definition dropping {E A} (f : TempFile) (m : M W E A) : M W E A :=
  fun w => let (r, w') := m w in (r, temp_drop f w').

Definition connect_graph (connection_timeout : N) (uri username password database : string)
    (ca_path : option string) : M W ConnectorError Graph :=
  let? config := lift (rmap_err (fun e => ConnectionError ("Invalid Neo4j config: " +:+ e))
                         (build_config uri username password database ca_path)) in
  map_err (fun e => match e with
                    | ConnectTimeout => ConnectionError "Connection timeout"
                    | ConnectFailed e => ConnectionError ("Failed to connect to Neo4j: " +:+ e)
                    end) (graph_connect connection_timeout config).

Definition build_graph (credentials : gmap string string) (connection_timeout : N) : M W ConnectorError Graph :=
  let? uri := lift (ok_or (credentials !! NEO_KEY_URI)
                      (ConnectionError ("'" +:+ NEO_KEY_URI +:+ "' credential is required"))) in
  let username := default "neo4j" (credentials !! NEO_KEY_USERNAME) in
  let? password := lift (ok_or (credentials !! NEO_KEY_PASSWORD)
                           (ConnectionError ("'" +:+ NEO_KEY_PASSWORD +:+ "' credential is required"))) in
  let database := default "neo4j" (credentials !! NEO_KEY_DATABASE) in
  match credentials !! NEO_KEY_CA_CERT with
  | Some pem =>
      let? file := map_err (fun e => IOError ("Failed to create temporary Neo4j CA certificate: " +:+ e)) temp_new in
      dropping file
        (map_err (fun e => IOError ("Failed to write temporary Neo4j CA certificate: " +:+ e)) (temp_write file pem) ;?
         connect_graph connection_timeout uri username password database (Some (temp_path file)))
  | None => connect_graph connection_timeout uri username password database None
  end.

Definition neo_get_reader `{!ClientCache W Graph} (config : ConnectorConfig) (connection : DataConnectionResource)
    (resolver : DataConnectionResource -> M W ConnectorError (gmap string string)) : M W ConnectorError Graph :=
  connector_client (fun credentials => build_graph credentials (connection_timeout_secs config)) connection resolver.

(** The fields of the first row, with the types of its values. *)
Definition row_schema (row : NeoRow) : result ConnectorError Schema :=
  let?? json_row := rmap_err (fun e => SQLError ("Failed to deserialize row: " +:+ e)) (row_to_json row) in
  let?? obj := ok_or (as_object json_row) (SQLError "Expected row to be a JSON object") in
  Ok ((fun key => nullable key (match get_bolt row key with
                                | Ok bt => bolt_type_to_arrow bt
                                | Err _ => Utf8
                                end)) <$> json_keys obj).

Definition neo_schema (graph : Graph) (query : string) : M W ConnectorError (string * Schema) :=
  let? result := map_err map_neo4j_error (execute graph query) in
  match result with
  | [] => mret (query, [])
  | first :: _ =>
      let? row := lift (rmap_err map_neo4j_error first) in
      let? schema := lift (row_schema row) in
      mret (query, schema)
  end.

Definition neo_read_tabular (graph : Graph) (query : string) (schema : Schema) (batch_size : nat)
    : Gen W ConnectorError RecordBatch unit :=
  let! result := call (map_err map_neo4j_error (execute graph query)) in
  chunked (neo_rows_to_batch schema) batch_size (rmap_err map_neo4j_error <$> result).

Definition neo_check_connection (graph : Graph) : M W ConnectorError unit :=
  let? result := map_err map_neo4j_error (execute graph "RETURN 1") in
  match result with
  | Err e :: _ => throw (map_neo4j_error e)
  | _ => mret tt
  end.

(** ** Types *)

(** The types a value can give a field: an array of them has exactly its field's type. *)
Definition bolt_arrow (ty : DataType) : Prop := ty = Utf8 \/ exists bt : BoltType Temporal, ty = bolt_type_to_arrow bt.

Lemma build_column_typed name ty rows :
  bolt_arrow ty ->
  data_type (build_column_array name ty rows) = ty /\ array_len (build_column_array name ty rows) = length rows.
Proof. intros [->|[bt ->]]; [|destruct bt]; cbn; by rewrite length_fmap. Qed.

Lemma row_schema_fields row schema :
  row_schema row = Ok schema -> Forall (fun f => bolt_arrow (f_type f) /\ f_nullable f = true) schema.
Proof.
  unfold row_schema. destruct (row_to_json row) as [j|]; [|done]. cbn. destruct (as_object j) as [obj|]; [|done].
  cbn. intros [= <-]. apply Forall_fmap, Forall_true. intros key. cbn. split; [|done].
  destruct (get_bolt row key); [right; by eexists|by left].
Qed.

(** Rows of the announced schema are always converted. *)
Lemma neo_batches_typed row schema rows :
  row_schema row = Ok schema -> schema <> [] ->
  exists b, neo_rows_to_batch schema rows = Ok b /\ batch_schema b = schema /\
    conforms schema (length rows) (batch_columns b).
Proof.
  intros Hs%row_schema_fields Hne. rewrite Forall_forall in Hs. unfold neo_rows_to_batch.
  pose proof (fields_to_batch_typed (fun f => Ok (build_column_array (f_name f) (f_type f) rows)) schema (length rows)) as Ht.
  destruct (fields_to_batch _ schema) as [b|e].
  - exists b. split; [done|]. apply Ht; [done|apply Forall_forall; intros f Hf; by apply Hs|].
    intros f a Hf [= <-]. by apply build_column_typed, Hs.
  - destruct Ht as (f & _ & [=]); [done|apply Forall_forall; intros f Hf; by apply Hs|].
    intros f a Hf [= <-]. by apply build_column_typed, Hs.
Qed.

(** Reading a Cypher query ends and delivers typed batches. If the schema is the
    one announced from a first row and is not empty, the stream yields the rows the
    database returned, in order and each once, in batches of exactly the batch size
    except for the last; every batch has the announced schema and its columns the
    announced types, whatever types the values of later rows have; only a row that
    cannot be fetched ends the stream early, with that error. *)
Theorem neo4j_read_typed graph query schema first batch_size w rows w' :
  row_schema first = Ok schema -> schema <> [] -> execute graph query w = (Ok rows, w') ->
  exists bs r,
    neo_read_tabular graph query schema batch_size w = (bs, Some r, w') /\
    delivered (neo_rows_to_batch schema) batch_size (rmap_err map_neo4j_error <$> rows) bs r /\
    Forall (fun b => batch_schema b = schema /\ exists n, conforms schema n (batch_columns b)) bs /\
    (r = Ok tt \/ exists e, Err e ∈ rows /\ r = Err (map_neo4j_error e)).
Proof.
  intros Hs Hne Hx. unfold neo_read_tabular.
  rewrite (gbind_call_ok _ _ _ rows w') by (unfold map_err; by rewrite Hx).
  destruct (chunked_ends (neo_rows_to_batch schema) batch_size (rmap_err map_neo4j_error <$> rows) w')
    as (bs & r & Hrun & Hd).
  exists bs, r. split_and!; [done|done| |].
  - assert (Hb : forall chunks bs, built (neo_rows_to_batch schema) chunks bs ->
      Forall (fun b => batch_schema b = schema /\ exists n, conforms schema n (batch_columns b)) bs).
    { clear bs r Hrun Hd. intros chunks bs Hb. induction Hb as [|c b chunks bs Hc Hb IH]; constructor; [|done].
      destruct (neo_batches_typed first schema c Hs Hne) as (b' & Hc' & Hb' & Hconf). rewrite Hc in Hc'.
      injection Hc' as <-. eauto. }
    destruct Hd; eauto.
  - destruct Hd as [| |chunks rest bs e tail _ _ _ _ He]; [by left| |].
    + right. assert (Herr : Err e ∈ rmap_err map_neo4j_error <$> rows) by (rewrite H2; set_solver).
      apply list_elem_of_fmap in Herr as ([a|e'] & [= ->] & Hin). eauto.
    + destruct (neo_batches_typed first schema rest Hs Hne) as (b & Hb & _). congruence.
Qed.

(** ** The certificate file *)

Section Files.
Variable files : W -> gmap string string.
Hypothesis new_file : forall w, match temp_new w with
  | (Ok f, w') => files w !! temp_path f = None /\ files w' = <[temp_path f := ""]> (files w)
  | (Err _, w') => files w' = files w
  end.
Hypothesis write_file : forall f s w, exists s', files (temp_write f s w).2 = <[temp_path f := s']> (files w).
Hypothesis drop_file : forall f w, files (temp_drop f w) = delete (temp_path f) (files w).
Hypothesis connect_files : forall t c w, files (graph_connect t c w).2 = files w.

(** However connecting ends, the file with the certificate is gone afterwards. *)
Lemma neo_ca_file_removed credentials timeout w : files (build_graph credentials timeout w).2 = files w.
Proof using new_file write_file drop_file connect_files.
  assert (Hc : forall u n p d ca v, files (connect_graph timeout u n p d ca v).2 = files v).
  { intros. unfold connect_graph, mseq, lift. destruct (build_config _ _ _ _ _) as [c|]; cbn; [|done].
    unfold map_err. rewrite <- (connect_files timeout c v). by destruct (graph_connect timeout c v). }
  unfold build_graph. unfold mseq at 1. unfold lift at 1. destruct (credentials !! NEO_KEY_URI) as [uri|]; cbn [ok_or]; [|done].
  cbv zeta. unfold mseq at 1. unfold lift at 1. destruct (credentials !! NEO_KEY_PASSWORD) as [pw|]; cbn [ok_or]; [|done].
  destruct (credentials !! NEO_KEY_CA_CERT) as [pem|]; [|apply Hc].
  unfold mseq at 1, map_err at 1. pose proof (new_file w) as Hn. destruct (temp_new w) as [[f|e] w1]; [|done].
  destruct Hn as [Hfresh Hnew]. cbn -[connect_graph]. unfold dropping.
  assert (Hd : forall v s, files v = <[temp_path f := s]> (files w) -> files (temp_drop f v) = files w).
  { intros v s Hv. rewrite drop_file, Hv, delete_insert_eq. by apply delete_id. }
  destruct (write_file f pem w1) as [s' Hw]. rewrite Hnew, insert_insert_eq in Hw.
  unfold mseq, map_err. destruct (temp_write f pem w1) as [[u|e] w2]; cbn in Hw; cbn -[connect_graph]; [|by eapply Hd].
  specialize (Hc uri (default "neo4j" (credentials !! NEO_KEY_USERNAME)) pw
    (default "neo4j" (credentials !! NEO_KEY_DATABASE)) (Some (temp_path f)) w2).
  destruct (connect_graph _ _ _ _ _ _ w2) as [r w3]. eapply Hd. cbn in Hc. rewrite Hc. exact Hw.
Qed.
End Files.
End Driver.

(** ** A concrete database *)

(** One row with an integer field. *)
#[local] Instance sample_values : NeoValues := {|
  Temporal := unit; date_text _ := ""; datetime_text _ := ""; local_datetime_text _ := "";
  debug_temporal _ := ""; debug_bytes b := b; datetime_millis _ := None; local_datetime_millis _ := None;
  bolt_text _ := ""; float_repr _ := None; neo_json_text _ := "";
  NeoRow := Z; row_to_json z := Ok (JObject {[ "n" := jint z ]});
  get_bool _ _ := Err ""; get_i64 z _ := Ok (Some z); get_f64 _ _ := Err ""; get_string _ _ := Err "";
  get_naive_date _ _ := Err ""; get_datetime_millis _ _ := Err ""; get_bytes _ _ := Err "";
  get_bolt z _ := Ok (BInteger z)
|}.

#[local] Instance sample_driver : NeoDriver unit := {|
  TempFile := unit; temp_new := mret tt; temp_write _ _ := mret tt; temp_path _ := ""; temp_drop _ w := w;
  NeoConfig := unit; build_config _ _ _ _ _ := Ok tt; Graph := unit; graph_connect _ _ := mret tt;
  execute _ _ := mret [Ok 1%Z; Ok 2%Z]; json_keys m := (map_to_list m).*1
|}.

Lemma neo4j_read_typed_witness :
  exists bs r,
    neo_read_tabular (ND := sample_driver) (tt : @Graph _ unit sample_driver) "MATCH (n) RETURN n" [nullable "n" Int64] 1 tt = (bs, Some r, tt) /\
    delivered (neo_rows_to_batch [nullable "n" Int64]) 1 (rmap_err map_neo4j_error <$> [Ok 1%Z; Ok 2%Z]) bs r /\
    Forall (fun b => batch_schema b = [nullable "n" Int64] /\
      exists n, conforms [nullable "n" Int64] n (batch_columns b)) bs /\
    (r = Ok tt \/ exists e, Err e ∈ [Ok 1%Z; Ok 2%Z] /\ r = Err (map_neo4j_error e)).
Proof.
  apply (neo4j_read_typed (ND := sample_driver) (tt : @Graph _ unit sample_driver) "MATCH (n) RETURN n" [nullable "n" Int64] 1%Z 1 tt
    [Ok 1%Z; Ok 2%Z] tt); [reflexivity|discriminate|reflexivity].
Defined.
