(* ===== verification/Redact.v ===== *)
(** What the REST service logs of its configuration ([services/rest/src/main.rs]:
    [redact_db_url], [redact_sensitive_fields], [log_config_source]). *)
From S2P Require Import Prelude Text Json.

(** A key that names a credential. *)
Definition sensitive (key : string) : bool :=
  let key := to_ascii_lowercase key in
  contains "password" key || contains "secret" key || contains "token" key ||
  contains "api_key" key || contains "private_key" key.

Definition MASK : json := JString "***".

Fixpoint redact_sensitive_fields (v : json) : json :=
  match v with
  | JObject m =>
      JObject (map_imap (fun k x => Some (if sensitive k then MASK else x))
                 (redact_sensitive_fields <$> m))
  | JArray l => JArray (redact_sensitive_fields <$> l)
  | v => v
  end.

Section Url.
(** [url::Url]: parsing, the password, replacing it, and the text. *)
Context {Url : Type}.
Variable parse_url : string -> option Url.
Variable url_password : Url -> option string.
Variable set_password : Url -> string -> option Url.
Variable url_text : Url -> string.

Definition redact_db_url (url : string) : string :=
  match parse_url url with
  | None => url
  | Some parsed =>
      match url_password parsed with
      | None => url
      | Some _ => match set_password parsed "***" with
                  | None => url
                  | Some u => url_text u
                  end
      end
  end.

(** [params["database"]["url"] = ...], where both exist. *)
Definition set_db_url (url : string) (params : json) : json :=
  match params with
  | JObject m =>
      match m !! "database" with
      | Some (JObject d) => JObject (<["database" := JObject (<["url" := JString url]> d)]> m)
      | _ => params
      end
  | _ => params
  end.

Definition as_object_empty (v : json) : bool :=
  match v with JObject m => bool_decide (m = ∅) | _ => true end.

(** The parameters [log_config_source] logs, if any, for a file that was read. *)
Definition logged_params (params : json) : option json :=
  if as_object_empty params then None
  else
    let params :=
      match (d ← jget "database" params; u ← jget "url" d; as_str u) with
      | Some url => set_db_url (redact_db_url url) params
      | None => params
      end in
    Some (redact_sensitive_fields params).
End Url.

(** ** Where a value is *)

Inductive step_in : Type := Key (k : string) | Index (i : nat).

Fixpoint at_path (p : list step_in) (v : json) : option json :=
  match p with
  | [] => Some v
  | Key k :: p => match v with JObject m => x ← m !! k; at_path p x | _ => None end
  | Index i :: p => match v with JArray l => x ← l !! i; at_path p x | _ => None end
  end.

Definition is_sensitive (s : step_in) : bool :=
  match s with Key k => sensitive k | Index _ => false end.

Lemma redact_lookup m k :
  map_imap (fun k x => Some (if sensitive k then MASK else x)) (redact_sensitive_fields <$> m) !! k
  = (fun v => if sensitive k then MASK else redact_sensitive_fields v) <$> m !! k.
Proof. rewrite map_lookup_imap, lookup_fmap. by destruct (m !! k). Qed.

Lemma redact_plain p v :
  forallb (fun s => negb (is_sensitive s)) p = true ->
  at_path p (redact_sensitive_fields v) = redact_sensitive_fields <$> at_path p v.
Proof.
  revert v. induction p as [|[k|i] p IH]; intros v; cbn [forallb is_sensitive at_path]; [done|..].
  - rewrite andb_true_iff, negb_true_iff. intros [Hk Hp]. destruct v as [| | | | |m]; try done.
    cbn [redact_sensitive_fields]. rewrite redact_lookup, Hk. destruct (m !! k); [by apply IH|done].
  - intros Hp. destruct v as [| | | |l|]; try done. cbn [redact_sensitive_fields].
    rewrite list_lookup_fmap. destruct (l !! i); [by apply IH|done].
Qed.

(** Logged configuration shows no credential and hides nothing else. After
    [redact_sensitive_fields] the value of every key that names a credential, at
    any depth and also inside arrays, is the mask and has no parts; every value on a
    path without such a key is the original one, redacted in turn, so that strings,
    numbers, booleans and nulls there are unchanged. *)
Theorem redaction_masks_exactly v p k q :
  (forallb (fun s => negb (is_sensitive s)) p = true ->
   at_path p (redact_sensitive_fields v) = redact_sensitive_fields <$> at_path p v) /\
  (forallb (fun s => negb (is_sensitive s)) p = true -> sensitive k = true ->
   at_path (p ++ Key k :: q) (redact_sensitive_fields v) =
     match at_path (p ++ [Key k]) v, q with
     | Some _, [] => Some MASK
     | _, _ => None
     end).
Proof.
  split; [apply redact_plain|]. intros Hp Hk. revert v.
  induction p as [|[k'|i] p IH]; intros v; cbn [app at_path].
  - destruct v as [| | | | |m]; try done. cbn [redact_sensitive_fields]. rewrite redact_lookup, Hk.
    destruct (m !! k); [|done]. by destruct q as [|[] q].
  - cbn [forallb is_sensitive] in Hp. apply andb_true_iff in Hp as [Hk' Hp]. apply negb_true_iff in Hk'.
    destruct v as [| | | | |m]; try done. cbn [redact_sensitive_fields]. rewrite redact_lookup, Hk'.
    destruct (m !! k'); [by apply IH|done].
  - cbn [forallb is_sensitive] in Hp. destruct v as [| | | |l|]; try done. cbn [redact_sensitive_fields].
    rewrite list_lookup_fmap. destruct (l !! i); [by apply IH|done].
Qed.

(** ** Concrete instance *)

Definition sample_config : json :=
  JObject {["auth" := JObject {["Api_Key" := JString "abc"; "port" := JString "8080"]};
            "hosts" := JArray [JObject {["secret" := JString "s3cr3t"]}]]}.

Lemma redaction_masks_exactly_witness :
  at_path [Key "auth"; Key "port"] (redact_sensitive_fields sample_config) = Some (JString "8080") /\
  at_path [Key "hosts"; Index 0; Key "secret"] (redact_sensitive_fields sample_config) = Some MASK.
Proof.
  split.
  - exact (proj1 (redaction_masks_exactly sample_config [Key "auth"; Key "port"] "" []) eq_refl).
  - exact (proj2 (redaction_masks_exactly sample_config [Key "hosts"; Index 0] "secret" []) eq_refl eq_refl).
Defined.
