(* ===== verification/Observability.v ===== *)
(** What the services report about themselves ([libs/commons/src/utils/mod.rs], the
    metrics of both services, [services/flight/src/flight/trace.rs]): structured log
    records, the export of traces, metrics, and the tracing of calls and streams. *)
From S2P Require Import Prelude Text Json Floats.
From Stdlib Require Import ZArith NArith.

(** ** Log records *)

Definition RESERVED_LOG_FIELDS : list string :=
  ["ts"; "level"; "logger"; "service.name"; "trace_id"; "span_id"; "request-path"; "msg"].

Definition reserved (key : string) : bool := existsb (String.eqb key) RESERVED_LOG_FIELDS.

(** A field of an event as it is recorded; a debug value is its text. *)
Inductive LogValue : Type :=
| LDebug (text : string) | LI64 (z : Z) | LU64 (n : N) | LBool (b : bool) | LF64 (repr : option string) | LStr (s : string).

(** [RestJsonVisitor]. *)
Definition record_value (v : LogValue) : json :=
  match v with
  | LDebug t => JString t
  | LI64 z => jint z
  | LU64 n => JNumber (PosInt n)
  | LBool b => JBool b
  | LF64 (Some r) => JNumber (Float r)
  | LF64 None => JNull
  | LStr s => JString s
  end.

Definition visit (fields : list (string * LogValue)) : gmap string json :=
  fold_left (fun m kv => <[kv.1 := record_value kv.2]> m) fields ∅.

Record LogEvent : Type := {
  ev_timestamp : string;
  ev_level : string;
  ev_target : string;
  (** The current span's trace and span id, if it is valid. *)
  ev_span : option (string * string);
  (** The formatted fields of the enclosing spans, from the inside out. *)
  ev_scope : list (option string);
  ev_fields : list (string * LogValue)
}.

Section Logs.
Variable from_str : string -> result string json.

Definition span_path (formatted : option string) : option string :=
  text ← formatted;
  match from_str text with
  | Ok (JObject fields) => fields !! "request.path" ≫= as_str
  | _ => None
  end.

Fixpoint find_map {A B} (f : A -> option B) (l : list A) : option B :=
  match l with
  | [] => None
  | a :: l => match f a with Some b => Some b | None => find_map f l end
  end.

Definition insert_opt (k : string) (v : option json) (m : gmap string json) : gmap string json :=
  match v with Some v => <[k := v]> m | None => m end.

(** The fixed part of a record. *)
Definition fixed_fields (e : LogEvent) : gmap string json :=
  insert_opt "request-path" (JString <$> find_map span_path (ev_scope e))
    (insert_opt "span_id" (JString ∘ snd <$> ev_span e)
      (insert_opt "trace_id" (JString ∘ fst <$> ev_span e)
        (<["service.name" := JString "data-connect-hub"]>
          (<["logger" := JString (ev_target e)]>
            (<["level" := JString (ev_level e)]>
              (<["ts" := JString (ev_timestamp e)]> ∅)))))).

Definition format_event (e : LogEvent) : gmap string json :=
  let fields := visit (ev_fields e) in
  let log := fixed_fields e in
  if decide (fields = ∅)
  then <["msg" := JNull]> log
  else
    let message := default JNull (fields !! "message") in
    let fields := delete "message" fields in
    filter (fun kv => reserved kv.1 = false) fields ∪ <["msg" := message]> log.

(** No field of an event can change what a record says of itself: time, severity,
    source, trace and request are those of the event, the message is its message, and
    every other field is recorded under its own name, or dropped if that is
    reserved. *)
Lemma log_record_protected e k :
  format_event e !! k =
  if decide (k = "msg") then Some (default JNull (visit (ev_fields e) !! "message"))
  else if reserved k then fixed_fields e !! k
  else if decide (k = "message") then None
  else visit (ev_fields e) !! k.
Proof.
  assert (Hfixed : forall k, reserved k = false -> fixed_fields e !! k = None).
  { intros key. unfold reserved, RESERVED_LOG_FIELDS. cbn [existsb].
    rewrite !orb_false_iff. intros H. destruct_and! H. rewrite !String.eqb_neq in *.
    unfold fixed_fields, insert_opt. destruct (find_map _ _), (ev_span e); cbn; by rewrite ?lookup_insert_ne, lookup_empty by done. }
  unfold format_event. cbv zeta. destruct (decide (visit (ev_fields e) = ∅)) as [He|Hne].
  { rewrite He, !lookup_empty. destruct (decide (k = "msg")) as [->|Hk]; [by rewrite lookup_insert_eq|].
    rewrite lookup_insert_ne by done. destruct (reserved k) eqn:Hr; [done|]. rewrite Hfixed by done. by destruct (decide _). }
  destruct (reserved k) eqn:Hr.
  - rewrite lookup_union_r by (apply map_lookup_filter_None; right; intros x _ Hf; cbn [fst] in Hf; congruence).
    destruct (decide (k = "msg")) as [->|Hk]; [by rewrite lookup_insert_eq|by rewrite lookup_insert_ne].
  - rewrite decide_False by (intros ->; done).
    rewrite lookup_union_l by (rewrite lookup_insert_ne by (intros <-; done); by apply Hfixed).
    destruct (decide (k = "message")) as [->|Hk].
    + apply map_lookup_filter_None. left. apply lookup_delete_eq.
    + rewrite map_lookup_filter, lookup_delete_ne by done.
      destruct (visit (ev_fields e) !! k); cbn [mbind option_bind fst]; [|done]. by rewrite option_guard_True by done.
Qed.
End Logs.

(** ** Exporting traces *)

Definition ENV_OTLP_ENDPOINT : string := "OTEL_EXPORTER_OTLP_ENDPOINT".
Definition ENV_OTLP_INSECURE : string := "OTEL_EXPORTER_OTLP_INSECURE".
Definition ENV_OTLP_CERTIFICATE : string := "OTEL_EXPORTER_OTLP_CERTIFICATE".

Record TraceConfig : Type := { tr_endpoint : option string; tr_insecure : bool; tr_certificate : option string }.

Definition from_vars (get : string -> option string) : TraceConfig :=
  let value key := v ← get key; if is_empty (trim v) then None else Some (trim v) in
  {| tr_endpoint := value ENV_OTLP_ENDPOINT;
     tr_insecure := match value ENV_OTLP_INSECURE with
                    | Some v => String.eqb (to_ascii_lowercase v) "true"
                    | None => false
                    end;
     tr_certificate := value ENV_OTLP_CERTIFICATE |}.

Definition resolve_endpoint (endpoint : string) (insecure : bool) : string :=
  match strip_prefix "https://" endpoint with
  | Some host => if insecure then "http://" +:+ host else endpoint
  | None => endpoint
  end.

(** What [init_tracing_inner] configures the exporter with: its endpoint and the CA
    certificate it trusts. *)
Definition exporter_config {W} (read : string -> M W string string) (t : TraceConfig)
    : M W string (option (string * option string)) :=
  match tr_endpoint t with
  | None => mret None
  | Some endpoint =>
      let? ca :=
        match tr_insecure t, tr_certificate t with
        | false, Some path =>
            let? pem := map_err (fun e => "reading OTLP CA certificate " +:+ path +:+ ": " +:+ e) (read path) in
            mret (Some pem)
        | _, _ => mret None
        end in
      mret (Some (resolve_endpoint endpoint (tr_insecure t), ca))
  end.

(** Transport security is only given up when it was switched off: otherwise the
    endpoint is used as it is, with the configured certificate. *)
Lemma exporter_keeps_tls {W} (read : string -> M W string string) t w endpoint ca w' :
  exporter_config read t w = (Ok (Some (endpoint, ca)), w') ->
  if tr_insecure t then starts_with "https://" endpoint = false /\ ca = None
  else tr_endpoint t = Some endpoint /\ (is_Some ca <-> is_Some (tr_certificate t)).
Proof.
  unfold exporter_config. destruct (tr_endpoint t) as [ep|]; [|by intros [=]].
  remember (resolve_endpoint ep (tr_insecure t)) as x eqn:Hx. intros Hr. inv_ok. unfold resolve_endpoint in Hx.
  destruct (tr_insecure t).
  - inv_ok. split; [|done]. unfold starts_with.
    destruct (strip_prefix "https://" ep) as [host|] eqn:Hs; subst; [by rewrite !sapp_cons|by rewrite Hs].
  - split; [by destruct (strip_prefix "https://" ep); subst|]. destruct (tr_certificate t); inv_ok; by rewrite !is_Some_alt.
Qed.

(** ** Metrics *)

Definition method_label (method : string) : string :=
  if existsb (String.eqb method)
       ["GET"; "POST"; "PUT"; "PATCH"; "DELETE"; "HEAD"; "OPTIONS"; "CONNECT"; "TRACE"]
  then method else "OTHER".

(** The recorder, if one is installed: requests in progress, and requests served. *)
Record Metrics : Type := {
  active : gmap (string * string) Z;
  requests_total : gmap (string * string * string) N
}.
Abbreviation Recorder := (option Metrics).

Definition gauge_add (d : Z) (labels : string * string) (m : Recorder) : Recorder :=
  (fun m => {| active := <[labels := (default 0%Z (active m !! labels) + d)%Z]> (active m);
               requests_total := requests_total m |}) <$> m.

Definition observe_request (labels : string * string * string) (m : Recorder) : Recorder :=
  (fun m => {| active := active m;
               requests_total := <[labels := (default 0 (requests_total m !! labels) + 1)%N]> (requests_total m) |}) <$> m.

Definition UNMATCHED_ROUTE : string := "unmatched".

(** A handler that is observed: a guard counts it as active until the end, and its
    answer or error, whose status is counted, is returned as it is. *)
Definition observed {W A} (labels : string * string) (status : A -> string)
    (next : Recorder * W -> A * (Recorder * W)) : Recorder * W -> A * (Recorder * W) :=
  fun s =>
    let '(response, (m, w)) := next (gauge_add 1 labels s.1, s.2) in
    let m := observe_request (labels, status response) m in
    (response, (gauge_add (-1) labels m, w)).

Definition observe_http_request {W A} (status : A -> string) (method : string) (pattern : option string)
    : (Recorder * W -> A * (Recorder * W)) -> Recorder * W -> A * (Recorder * W) :=
  observed (method_label method, default UNMATCHED_ROUTE pattern) status.

(** The gauges are where they were, and exactly the counter of these labels and this
    status went up by one. *)
Definition counted (labels : string * string) (status : string) (m m' : Metrics) : Prop :=
  (forall l, default 0%Z (active m' !! l) = default 0%Z (active m !! l)) /\
  (forall l, default 0%N (requests_total m' !! l) =
     (default 0 (requests_total m !! l) + if decide (l = (labels, status)) then 1 else 0)%N).

Lemma observed_correct {W A} labels status (next : Recorder * W -> A * (Recorder * W)) m w r w' :
  (forall m, next (m, w) = (r, (m, w'))) ->
  exists m', observed labels status next (Some m, w) = (r, (Some m', w')) /\ counted labels (status r) m m'.
Proof.
  intros Hnext. unfold observed. cbn [fst snd]. rewrite Hnext. eexists. split; [reflexivity|].
  split; intros l; cbn.
  - destruct (decide (l = labels)) as [->|Hne].
    + rewrite !lookup_insert_eq. cbn. lia.
    + by rewrite !lookup_insert_ne by done.
  - destruct (decide (l = _)) as [->|Hne]; [by rewrite lookup_insert_eq|]. rewrite lookup_insert_ne by done. lia.
Qed.

(** *** The metrics endpoint *)

Definition no_metrics : Metrics := {| active := ∅; requests_total := ∅ |}.

(** [install_prometheus_recorder]: once; [install] builds and installs the exporter. *)
Definition install_prometheus_recorder {W} (install : M W string unit) : M (Recorder * W) string unit := fun s =>
  match s.1 with
  | Some _ => (Ok tt, s)
  | None =>
      match install s.2 with
      | (Ok _, w) => (Ok tt, (Some no_metrics, w))
      | (Err e, w) => (Err ("failed to install Prometheus recorder: " +:+ e), (None, w))
      end
  end.

Record MetricsResponse : Type := { mr_status : N; mr_content_type : option string; mr_body : string }.

Definition metrics_handler (render : Metrics -> string) (r : Recorder) : MetricsResponse :=
  match r with
  | Some m => {| mr_status := 200; mr_content_type := Some "text/plain; version=0.0.4; charset=utf-8"; mr_body := render m |}
  | None => {| mr_status := 503; mr_content_type := None; mr_body := "metrics recorder not installed" +:+ String (ascii_of_nat 10) "" |}
  end.

Section MetricsServer.
Context {W Addr Socket : Type}.
Variable parse : string -> result string Addr.
Variable show_addr : Addr -> string.
Variable bind : Addr -> M W string Socket.
Variable set_nonblocking : Socket -> M W string unit.
(** Serving on a thread of its own. *)
Variable serve : Socket -> M W string unit.

(** Of the REST service: it does not start when the endpoint cannot be bound. *)
Definition spawn_metrics_server (address : string) (port : N) : M W string unit :=
  let at_ := address +:+ ":" +:+ pretty port in
  let? addr := lift (rmap_err (fun e => "invalid metrics listen address '" +:+ at_ +:+ "': " +:+ e) (parse at_)) in
  let? socket := map_err (fun e => "failed to bind metrics endpoint on " +:+ show_addr addr +:+ ": " +:+ e) (bind addr) in
  map_err (fun e => "failed to configure metrics endpoint on " +:+ show_addr addr +:+ ": " +:+ e) (set_nonblocking socket) ;?
  attempt (serve socket) ;?
  mret tt.

(** Of the Flight service: a failure is only logged. *)
Definition flight_spawn_metrics_server (address : string) (port : N) : M W string unit :=
  match parse (address +:+ ":" +:+ pretty port) with
  | Err _ => mret tt
  | Ok addr => attempt (let? socket := bind addr in serve socket) ;? mret tt
  end.

(** Only the REST service depends on its metrics endpoint to start. *)
Lemma flight_metrics_never_fail address port w : (flight_spawn_metrics_server address port w).1 = Ok tt.
Proof.
  unfold flight_spawn_metrics_server. destruct (parse _); [|done]. unfold mseq at 1, attempt. by destruct (mseq _ _ w).
Qed.
End MetricsServer.

(** Once installed the endpoint answers, and installing again keeps what was counted. *)
Lemma installed_recorder {W} (install : M W string unit) render s s' :
  install_prometheus_recorder install s = (Ok tt, s') ->
  mr_status (metrics_handler render s'.1) = 200%N /\ install_prometheus_recorder install s' = (Ok tt, s').
Proof.
  unfold install_prometheus_recorder. destruct s as [[m|] w]; cbn; [by intros [= <-]|].
  destruct (install w) as [[u|e] w1]; [by intros [= <-]|done].
Qed.

(** ** Tracing calls and streams *)

(** What a span records of a call's response: its [grpc-status] header, parsed. *)
Definition call_records (code : option Z) : list (string * json) :=
  match code with
  | Some c => ("rpc.grpc.status_code", jint c)
              :: (if (c =? 0)%Z then [] else [("otel.status_code", JString "ERROR")])
  | None => []
  end.

(** [TracedStream]: what the consumer sees, and what the span records. *)
Fixpoint traced {T E} (batches : N) (items : list (result E T)) : list (result E T) * list (string * json) :=
  match items with
  | [] => ([], [("batch_count", JNumber (PosInt batches))])
  | Ok b :: items => let (out, rec) := traced (batches + 1) items in (Ok b :: out, rec)
  | Err e :: items =>
      let (out, rec) := traced batches items in
      (Err e :: out, ("otel.status_code", JString "ERROR") :: ("batch_count", JNumber (PosInt batches)) :: rec)
  end.

(** Tracing a stream does not change it, and counts its batches. *)
Lemma traced_transparent {T E} n (items : list (result E T)) :
  (traced n items).1 = items /\
  last (traced n items).2 =
    Some ("batch_count", JNumber (PosInt (n + N.of_nat (length (List.filter is_ok items))))).
Proof.
  revert n. induction items as [|[b|e] items IH]; intros n; cbn [traced List.filter is_ok length].
  - by rewrite N.add_0_r.
  - specialize (IH (n + 1)%N). destruct (traced (n + 1) items) as [out rec]. cbn in *. destruct IH as [-> ->].
    split; [done|]. do 4 f_equal. lia.
  - specialize (IH n). destruct (traced n items) as [out rec]. cbn in *. destruct IH as [-> Hl].
    split; [done|]. destruct rec; [done|]. exact Hl.
Qed.
