(* ===== verification/Connectors.v ===== *)
(** The seven connectors behind the interface of the Flight service
    ([FlightConnector] and [DataReader] of [libs/commons/src/api/connector.rs]).

    The interface of [Flight] takes a stream as the elements a client receives. The
    connectors' streams run when they are consumed: here they run when they are handed
    over, which is when the service starts to send them. *)
From S2P Require Import Prelude Streams Text Json Floats Api Arrow Batches ClientCache Readers Http.
From S2P Require Import S3 S3Connect PgVector Postgres Sqlite Elastic Milvus Uri Neo4j Traits Flight Arrow.
From Stdlib Require Import NArith ZArith.

(** ** Streams *)

(** What a client receives of a stream after its batches: the error it failed with. A
    body that panicked or has not ended sends nothing more. *)
Definition received_end {A} (r : option (result (failure ConnectorError) A)) : option ConnectorError :=
  match r with Some (Err (Fail e)) => Some e | _ => None end.

Definition received {B} (bs : list B) (e : option ConnectorError) : list (result ConnectorError B) :=
  (Ok <$> bs) ++ match e with Some e => [Err e] | None => [] end.

Definition run_stream {W B} (g : Gen W (failure ConnectorError) B unit)
    : M W ConnectorError (list (result ConnectorError B)) :=
  fun w => let '(bs, r, w) := g w in (Ok (received bs (received_end r)), w).

(** A stream whose body cannot panic. *)
Definition run_safe_stream {W B} (g : Gen W ConnectorError B unit)
    : M W ConnectorError (list (result ConnectorError B)) :=
  fun w => let '(bs, r, w) := g w in (Ok (received bs (received_end (rmap_err Fail <$> r))), w).

(** The elements of a stream up to a panic. *)
Fixpoint received_elements {B} (l : list (result (failure ConnectorError) B)) : list (result ConnectorError B) :=
  match l with
  | Ok b :: l => Ok b :: received_elements l
  | Err (Fail e) :: l => Err e :: received_elements l
  | Err Panic :: _ => []
  | [] => []
  end.

Definition run_elements {B} (o : option (list (result (failure ConnectorError) B))) : list (result ConnectorError B) :=
  received_elements (default [] o).

(** ** Readers *)

Section Adapters.
Context {W : Type} `{AR : Arrow}.

(** [Query::new]. *)
Definition to_query {E} (m : M W E (string * Schema)) : M W E (ReaderQuery Schema) :=
  let? v := m in mret {| q_query := v.1; q_schema := v.2 |}.

Section Pg.
Context `{PV : PgValues} `{PD : !PgDriver W} `{CC : !ClientCache W PgPool}.

Definition pg_reader (pool : PgPool) : DataReader Schema RecordBatch := {|
  rd_schema q := to_query (pg_schema pool q);
  rd_read_tabular v o := run_stream (pg_read_tabular pool (q_query _ v) (q_schema _ v) (batch_size o));
  rd_can_read_binary := default_can_read_binary;
  rd_read_binary := default_read_binary RecordBatch;
  rd_check_connection := pg_check_connection pool;
  rd_list_tables f b :=
    let? ts := pg_list_tables pool f b in
    mret ((fun t => {| catalog := pgt_catalog t; schema_name := pgt_schema_name t; table_name := pgt_name t;
                       table_type := pgt_type t; table_schema := pgt_schema t |}) <$> ts)
|}.

Definition pg_connector (config : ConnectorConfig) : FlightConnector Schema RecordBatch := {|
  fcn_provider := "postgres";
  fcn_description := "PostgreSQL connector";
  fcn_supported_formats := default_supported_formats;
  fcn_get_reader connection resolver :=
    let? pool := pg_get_reader config connection resolver in mret (pg_reader pool)
|}.
End Pg.

Section Sqlite.
Context `{SV : SqliteValues} `{SD : !SqliteDriver W} `{CC : !ClientCache W SqlitePool}.

Definition sqlite_reader (pool : SqlitePool) : DataReader Schema RecordBatch := {|
  rd_schema q := to_query (sqlite_schema pool q);
  rd_read_tabular v o := run_stream (sqlite_read_tabular pool (q_query _ v) (q_schema _ v) (batch_size o));
  rd_can_read_binary := default_can_read_binary;
  rd_read_binary := default_read_binary RecordBatch;
  rd_check_connection := sqlite_check_connection pool;
  rd_list_tables f b :=
    let? ts := sqlite_list_tables pool f b in
    mret ((fun t => {| catalog := ""; schema_name := ""; table_name := sqt_name t;
                       table_type := sqt_type t; table_schema := sqt_schema t |}) <$> ts)
|}.

Definition sqlite_connector (config : ConnectorConfig) : FlightConnector Schema RecordBatch := {|
  fcn_provider := "sqlite";
  fcn_description := "SQLite connector";
  fcn_supported_formats := default_supported_formats;
  fcn_get_reader connection resolver :=
    let? pool := sqlite_get_reader config connection resolver in mret (sqlite_reader pool)
|}.
End Sqlite.

Section Neo.
Context `{NV : NeoValues} `{ND : !NeoDriver W} `{CC : !ClientCache W Graph}.

Definition neo_reader (graph : Graph) : DataReader Schema RecordBatch := {|
  rd_schema q := to_query (neo_schema graph q);
  rd_read_tabular v o := run_safe_stream (neo_read_tabular graph (q_query _ v) (q_schema _ v) (batch_size o));
  rd_can_read_binary := default_can_read_binary;
  rd_read_binary := default_read_binary RecordBatch;
  rd_check_connection := neo_check_connection graph;
  rd_list_tables := default_list_tables Schema
|}.

Definition neo_connector (config : ConnectorConfig) : FlightConnector Schema RecordBatch := {|
  fcn_provider := "neo4j";
  fcn_description := "Neo4j graph database connector";
  fcn_supported_formats := default_supported_formats;
  fcn_get_reader connection resolver :=
    let? graph := neo_get_reader config connection resolver in mret (neo_reader graph)
|}.
End Neo.

(** The connectors over HTTP, which convert JSON to arrays. *)
Section Http.
Context `{HW : !Http W} {DateTime : Type}.
Variable string_to_datetime : string -> result string DateTime.
Variables timestamp timestamp_millis timestamp_micros : DateTime -> Z.
Variable timestamp_nanos_opt : DateTime -> option Z.
Variable show_datetime : DateTime -> string.
Variable json_text : json -> string.
Variable entries : gmap string json -> list (string * json).
(** The rounds of the paging loops that are looked at. *)
Variable fuel : nat.

Section Elastic.
Context `{CC : !ClientCache W EsClient}.

Definition es_reader (rd : ElasticsearchReader) : DataReader Schema RecordBatch := {|
  rd_schema q := to_query (es_schema entries rd q);
  rd_read_tabular v o :=
    let? g := es_read_tabular string_to_datetime timestamp timestamp_millis timestamp_micros timestamp_nanos_opt
                show_datetime json_text rd fuel (q_query _ v) (q_schema _ v) (N.of_nat (batch_size o)) in
    run_stream g;
  rd_can_read_binary := default_can_read_binary;
  rd_read_binary := default_read_binary RecordBatch;
  rd_check_connection := es_check_connection rd;
  rd_list_tables := default_list_tables Schema
|}.

Definition es_connector (config : ConnectorConfig) : FlightConnector Schema RecordBatch := {|
  fcn_provider := "elasticsearch";
  fcn_description := "Elasticsearch connector";
  fcn_supported_formats := default_supported_formats;
  fcn_get_reader connection resolver :=
    let? rd := es_get_reader config connection resolver in mret (es_reader rd)
|}.
End Elastic.

Section Milvus.
Context `{CC : !ClientCache W MilvusClient}.

Definition mv_reader (client : MilvusClient) : DataReader Schema RecordBatch := {|
  rd_schema q := to_query (mv_schema client q);
  rd_read_tabular v o :=
    let? g := mv_read_tabular string_to_datetime timestamp timestamp_millis timestamp_micros timestamp_nanos_opt
                show_datetime json_text client fuel (q_query _ v) (q_schema _ v) (batch_size o) in
    run_safe_stream g;
  rd_can_read_binary := default_can_read_binary;
  rd_read_binary := default_read_binary RecordBatch;
  rd_check_connection := mv_check_connection client;
  rd_list_tables := default_list_tables Schema
|}.

Definition mv_connector (config : ConnectorConfig) : FlightConnector Schema RecordBatch := {|
  fcn_provider := "milvus";
  fcn_description := "Milvus vector database connector";
  fcn_supported_formats := default_supported_formats;
  fcn_get_reader connection resolver :=
    let? client := mv_get_reader config connection resolver in mret (mv_reader client)
|}.
End Milvus.
End Http.

(** *** Readers with a state of their own

    An S3 reader holds the document whose schema it inferred, a URI reader the
    response: each reader has a cell of its own, empty at first, behind a mutex. *)

Section Cells.
Context {C : Type}.

Class ReaderCells : Type := {
  cells : W -> gmap positive (option C);
  set_cells : gmap positive (option C) -> W -> W;
  cells_set c w : cells (set_cells c w) = c
}.
Context `{RC : ReaderCells}.

(** A new cell, empty. *)
Definition new_cell {E} : M W E positive :=
  fun w => let l := fresh (dom (cells w)) in (Ok l, set_cells (<[l := None]> (cells w)) w).

(** An operation of the reader whose cell is [l]. *)
Definition in_cell {E A} (l : positive) (m : M (option C * W) E A) : M W E A :=
  fun w => let '(r, (c, w)) := m (mjoin (cells w !! l), w) in (r, set_cells (<[l := c]> (cells w)) w).
End Cells.
Arguments ReaderCells : clear implicits.

Section S3.
Context `{FL : !FormatLib W} `{SL : S3Lib} `{CC : !ClientCache W Operator} `{RC : !ReaderCells (string * Readers.bytes)}.
(** The operations of an operator. *)
Variable op_reader : Operator -> string -> option N -> M W OpError Reader.
Variable op_list : Operator -> string -> M W OpError (list Entry).
Variable op_stat : Operator -> string -> M W OpError unit.
Variable op_check : Operator -> M W OpError unit.

Definition s3_reader (chunk : N) (op : Operator) (hint : option string) (cell : positive)
    : DataReader Schema RecordBatch := {|
  rd_schema q := to_query (in_cell cell (S3.schema (op_reader op) chunk hint q));
  rd_read_tabular v o :=
    let? es := in_cell cell (S3.read_tabular (op_reader op) chunk hint (q_query _ v, q_schema _ v) (batch_size o)) in
    mret (run_elements es);
  rd_can_read_binary := S3.can_read_binary (op_stat op);
  rd_read_binary := S3.read_binary (op_reader op) chunk;
  rd_check_connection := S3.check_connection (op_check op);
  rd_list_tables f b :=
    let? ts := in_cell cell (S3.list_tables (op_reader op) (op_list op) chunk hint f b) in
    mret ((fun t => {| catalog := ""; schema_name := ""; table_name := s3t_name t;
                       table_type := "TABLE"; table_schema := s3t_schema t |}) <$> ts)
|}.

Definition s3_connector (config : ConnectorConfig) : FlightConnector Schema RecordBatch := {|
  fcn_provider := "s3";
  fcn_description := "Amazon compatible S3 connector";
  fcn_supported_formats := [Tabular; Api.Binary];
  fcn_get_reader connection resolver :=
    let? rd := s3_get_reader config connection resolver in
    let? cell := new_cell in
    mret (s3_reader (Api.chunk_size config) rd.1 rd.2 cell)
|}.
End S3.

Section Uri.
Context `{HW : !Http W} `{UL : UrlLib} `{FL : !FormatLib W} `{CC : !ClientCache W UriClient} `{RC : !ReaderCells CachedResponse}.
Variable parse_mime : string -> result string Mime.
Variable bytes_stream : HttpResponse -> list (result string string).
Context {Op : Type}.
Variable mem_new : M W string Op.
Variable mem_write : Op -> Readers.bytes -> M W string unit.
Variable mem_reader : Op -> M W string Reader.

Definition uri_reader (client : UriClient) (cell : positive) : DataReader Schema RecordBatch := {|
  rd_schema q := to_query (in_cell cell (uri_schema parse_mime mem_new mem_write mem_reader client q));
  rd_read_tabular v o :=
    let? es := in_cell cell (uri_read_tabular parse_mime mem_new mem_write mem_reader client
                               (q_query _ v, q_schema _ v) (batch_size o)) in
    mret (run_elements es);
  rd_can_read_binary := uri_can_read_binary client;
  rd_read_binary := uri_read_binary bytes_stream client;
  rd_check_connection := uri_check_connection client;
  rd_list_tables := default_list_tables Schema
|}.

Definition uri_connector (config : ConnectorConfig) : FlightConnector Schema RecordBatch := {|
  fcn_provider := "uri";
  fcn_description := "URI connector";
  fcn_supported_formats := [Tabular; Api.Binary];
  fcn_get_reader connection resolver :=
    let? client := uri_get_reader config connection resolver in
    let? cell := new_cell in
    mret (uri_reader client cell)
|}.
End Uri.
End Adapters.
Arguments ReaderCells : clear implicits.
