(* ===== verification/ReadOnly.v ===== *)
(** The Flight service only reads. [Confined] is what the service needs of a connector
    for that; the connectors for PostgreSQL, S3, Milvus and URIs have it, for
    whatever query a client sends. *)
From S2P Require Import Prelude Streams Text Json Floats Sql Api Arrow Batches ClientCache Readers Http.
From S2P Require Import KubeAuth Traits S3 S3Connect PgVector Postgres Sqlite Milvus Uri Flight Connectors Arrow.
From Stdlib Require Import NArith ZArith.

(** ** The interface *)

Section Interface.
Context {W : Type} (R : W -> W -> Prop) `{HR : !PreOrder R}.
Variables Schema RecordBatch : Type.

(** Every operation of a reader stays within [R]. *)
Record reader_confined (rd : DataReader (W := W) Schema RecordBatch) : Prop := {
  confined_schema q : steps R (rd_schema _ _ rd q);
  confined_read_tabular v o : steps R (rd_read_tabular _ _ rd v o);
  confined_can_read_binary p : steps R (rd_can_read_binary _ _ rd p);
  confined_read_binary p : steps R (rd_read_binary _ _ rd p);
  confined_check_connection : steps R (rd_check_connection _ _ rd);
  confined_list_tables f b : steps R (rd_list_tables _ _ rd f b)
}.

(** What a connector promises: obtaining a reader, with a resolver that stays within
    [R], and everything its readers do. *)
Class Confined (c : FlightConnector (W := W) Schema RecordBatch) : Prop := {
  confined_get_reader connection resolver :
    steps R (resolver connection) -> steps R (fcn_get_reader _ _ c connection resolver);
  confined_readers connection resolver w rd w' :
    fcn_get_reader _ _ c connection resolver w = (Ok rd, w') -> reader_confined rd
}.

(** ** The service *)

Context `{MS : !MetaStoreI W} `{SS : !SecretStoreI W}.
Context {FlightData : Type}.
Variable encodes : Schema -> bool.
Variable tables_schema : bool -> Schema.
Variable tables_batch : option string -> bool -> list (TableInfo Schema) -> result string RecordBatch.
Variable sql_info_schema : Schema.
Variable sql_info_batch : list nat -> result string RecordBatch.
Variable binary_schema : Schema.
Variable batch_schema : RecordBatch -> Schema.
Variable flight_encode : Schema -> list (result ConnectorError RecordBatch) -> list (result FlightError FlightData).
Variable ipc_write : Columns -> result string string.
Variable ipc_read : string -> result string (list (result string Columns)).
Variable new_id : W -> string * W.

(** A call of the service, decoded. *)
Inductive FlightCall : Type :=
| GetFlightInfo (cmd : Command)
| DoGet (ticket : Command)
| DoAction (action : Action).

Inductive FlightAnswer : Type :=
| AnswerInfo (i : FlightInfo Schema)
| AnswerStream (l : list (result Status FlightData))
| AnswerAction (l : list string).

Definition flight_call (svc : DataIngestionService Schema RecordBatch) (rq : GrpcRequest FlightCall)
    : M W Status FlightAnswer :=
  match rq_msg rq with
  | GetFlightInfo cmd =>
      let? i := get_flight_info Schema RecordBatch encodes tables_schema sql_info_schema binary_schema svc cmd (rq_md rq) in
      mret (AnswerInfo i)
  | DoGet ticket =>
      let? l := do_get Schema RecordBatch FlightData tables_batch sql_info_schema sql_info_batch binary_schema batch_schema
                  flight_encode svc ticket (rq_md rq) in
      mret (AnswerStream l)
  | DoAction action =>
      let? l := dispatch_action Schema RecordBatch ipc_write ipc_read new_id svc (rq_md rq) action in
      mret (AnswerAction l)
  end.

Variable authenticate : string -> M W AuthError AuthInfo.
Variable authorize : AuthInfo -> string -> string -> M W AuthError unit.
Variable discovery_service_account : string.

(** The parts the service calls besides its connectors stay within [R]. *)
Hypothesis authenticate_steps : forall token, steps R (authenticate token).
Hypothesis authorize_steps : forall info t verb, steps R (authorize info t verb).
Hypothesis connection_steps : forall t i, steps R (ms_get_data_connection t i).
Hypothesis type_steps : forall t i, steps R (ms_get_data_connection_type t i).
Hypothesis secret_steps : forall ns n, steps R (ss_get_secret ns n).
Hypothesis new_id_steps : forall w, R w (new_id w).2.

Variable svc : DataIngestionService (W := W) Schema RecordBatch.
Hypothesis registry_confined : forall p c, connectors_registry _ _ svc !! p = Some c -> Confined c.

(** Walks through a handler. *)
Ltac walk := repeat first
  [ apply authenticate_steps | apply authorize_steps | apply connection_steps | apply type_steps | apply secret_steps
  | apply (steps_mseq _); [|intros ?] | apply steps_map_err | apply (steps_mret _) | apply (steps_throw _)
  | apply (steps_lift _) | apply steps_if | destruct_match ].

Lemma resolve_steps connection : steps R (resolve connection).
Proof using HR secret_steps. unfold resolve. walk. Qed.

Lemma get_connector_confined {E} (f : ConnectorError -> E) p c :
  rmap_err f (get_connector _ _ (connectors_registry _ _ svc) p) = Ok c -> Confined c.
Proof using registry_confined.
  unfold get_connector. destruct (connectors_registry _ _ svc !! p) as [c'|] eqn:Hc; [|done].
  intros [= <-]. by eapply registry_confined.
Qed.

(** A connector is found without leaving [R], and is confined. *)
Lemma by_connection_steps t i : steps R (get_connector_by_connection_id Schema RecordBatch svc t i).
Proof using HR connection_steps type_steps. unfold get_connector_by_connection_id. walk. Qed.

Lemma by_connection_confined t i w cc w' :
  get_connector_by_connection_id Schema RecordBatch svc t i w = (Ok cc, w') -> Confined cc.2.
Proof using registry_confined.
  unfold get_connector_by_connection_id. intros Hr. inv_ok. cbn. by eapply get_connector_confined.
Qed.

Lemma reader_of_steps ids : steps R (reader_of Schema RecordBatch svc ids).
Proof using HR connection_steps type_steps secret_steps registry_confined.
  unfold reader_of. apply (steps_bind R); [apply by_connection_steps|]. intros w cc w' Hr.
  apply by_connection_confined in Hr as Hc. apply steps_map_err, confined_get_reader, resolve_steps.
Qed.

Lemma reader_of_confined ids w rd w' : reader_of Schema RecordBatch svc ids w = (Ok rd, w') -> reader_confined rd.
Proof using registry_confined.
  unfold reader_of. intros Hr. inv_ok.
  match goal with H : get_connector_by_connection_id _ _ _ _ _ _ = _ |- _ => apply by_connection_confined in H as Hc end.
  by eapply confined_readers.
Qed.

(** A handler that obtains a reader and uses it. *)
Lemma with_reader_steps {A} ids (k : DataReader Schema RecordBatch -> M W Status A) :
  (forall rd, reader_confined rd -> steps R (k rd)) ->
  steps R (let? rd := reader_of Schema RecordBatch svc ids in k rd).
Proof using HR connection_steps type_steps secret_steps registry_confined.
  intros Hk. apply (steps_bind R); [apply reader_of_steps|]. intros w rd w' Hr. by apply Hk, (reader_of_confined ids w rd w').
Qed.

Ltac use_reader := apply with_reader_steps; intros rd [];
  repeat first [ solve [auto] | apply (steps_mseq _); [|intros ?] | apply steps_map_err | apply (steps_mret _)
               | apply (steps_lift _) ].

Lemma get_flight_info_steps cmd md :
  steps R (get_flight_info Schema RecordBatch encodes tables_schema sql_info_schema binary_schema svc cmd md).
Proof using HR connection_steps type_steps secret_steps registry_confined.
  destruct cmd; cbn [get_flight_info];
    unfold handle_get_flight_info_sql_info, handle_get_flight_info_tables, handle_get_flight_info_statement,
      handle_get_flight_info_fallback, unimplemented;
    try solve [walk].
  - apply (steps_mseq _); [apply (steps_lift _)|intros ids]. use_reader.
  - apply steps_if; [apply (steps_throw _)|]. do 2 (apply (steps_mseq _); [apply (steps_lift _)|intros ?]). use_reader.
Qed.

Lemma do_get_steps ticket md :
  steps R (do_get Schema RecordBatch FlightData tables_batch sql_info_schema sql_info_batch binary_schema batch_schema
             flight_encode svc ticket md).
Proof using HR connection_steps type_steps secret_steps registry_confined.
  destruct ticket; cbn [do_get];
    unfold handle_do_get_sql_info, handle_do_get_tables, handle_do_get_statement, handle_do_get_fallback, unimplemented;
    try solve [walk].
  - apply (steps_mseq _); [apply (steps_lift _)|intros ids]. use_reader.
  - do 2 (apply (steps_mseq _); [apply (steps_lift _)|intros ?]). use_reader.
  - do 2 (apply (steps_mseq _); [apply (steps_lift _)|intros ?]). use_reader.
Qed.

Lemma dispatch_action_steps md action :
  steps R (dispatch_action Schema RecordBatch ipc_write ipc_read new_id svc md action).
Proof using HR connection_steps type_steps secret_steps registry_confined new_id_steps.
  unfold dispatch_action. repeat apply steps_if; [..|apply (steps_throw _)].
  - unfold action_check_connection. apply (steps_mseq _); [apply (steps_lift _)|intros ids]. use_reader.
  - unfold action_get_supported_connectors. walk.
  - unfold action_check_credentials. do 3 (apply (steps_mseq _); [apply (steps_lift _)|intros ?]). cbv zeta.
    apply (steps_bind R). { unfold get_connector_by_type_id. walk. }
    intros w dc w' Hr. assert (Hc : Confined dc.2).
    { unfold get_connector_by_type_id in Hr. inv_ok. cbn. by eapply get_connector_confined. }
    apply (steps_mseq _); [apply (steps_lift _)|intros _].
    apply (steps_mseq _). { intros v. pose proof (new_id_steps v). by destruct (new_id v). }
    intros uid. apply (steps_mseq _); [|intros _; apply (steps_mret _)].
    apply steps_map_err, confined_get_reader. apply (steps_mret _).
Qed.

Lemma flight_call_steps rq : steps R (flight_call svc rq).
Proof using HR connection_steps type_steps secret_steps registry_confined new_id_steps.
  unfold flight_call. destruct (rq_msg rq); (apply (steps_mseq _); [|intros ?; apply (steps_mret _)]).
  - apply get_flight_info_steps.
  - apply do_get_steps.
  - apply dispatch_action_steps.
Qed.

(** Every call, authenticated or not, stays within [R]. *)
Lemma served_call_steps rq :
  steps R (auth_call authenticate authorize discovery_service_account (flight_call svc) rq).
Proof using All.
  unfold auth_call. apply steps_if; [apply flight_call_steps|]. destruct (extract_bearer_token _); [|apply (steps_throw _)].
  apply (steps_mseq _); [apply steps_map_err, authenticate_steps|intros info].
  apply steps_if; [apply (steps_throw _)|]. apply (steps_mseq _); [walk|intros _]. apply flight_call_steps.
Qed.
End Interface.

(** ** Connectors that only read *)

Section Data.
Context {W Data : Type} (data : W -> Data).

(** The same data as before. *)
Definition same (w w' : W) : Prop := data w' = data w.

#[global] Instance same_preorder : PreOrder same.
Proof. split; [done|]. unfold same. intros a b c. congruence. Qed.

Lemma steps_run_stream {B} (g : Gen W (failure ConnectorError) B unit) :
  (forall w, data (g w).2 = data w) -> steps same (run_stream g).
Proof. intros Hg w. unfold run_stream, same. specialize (Hg w). by destruct (g w) as [[bs r] w']. Qed.

Lemma steps_run_safe_stream {B} (g : Gen W ConnectorError B unit) :
  (forall w, data (g w).2 = data w) -> steps same (run_safe_stream g).
Proof. intros Hg w. unfold run_safe_stream, same. specialize (Hg w). by destruct (g w) as [[bs r] w']. Qed.

(** A client's cache is not part of the data. *)
Class QuietCache (C : Type) `{CC : ClientCache W C} : Prop :=
  set_cache_data : forall c w, data (ClientCache.set_cache c w) = data w.

Lemma steps_connector_client `{QC : QuietCache C} build connection resolver :
  steps same (resolver connection) -> (forall credentials, steps same (build credentials)) ->
  steps same (connector_client (C := C) build connection resolver).
Proof.
  intros Hr Hb w. unfold connector_client, ClientCache.try_get_with. destruct (cache_of w !! Api.id (dc_metadata connection)); [done|].
  assert (Hi : steps same (let? credentials := resolver connection in build credentials)) by (by apply (steps_mseq _)).
  specialize (Hi w). destruct (mseq _ _ w) as [[c|e] w']; [|done]. cbn in *. unfold same in *. by rewrite set_cache_data.
Qed.

Ltac walk := repeat first
  [ solve [auto] | apply (steps_mseq same); [|intros ?] | apply steps_map_err | apply steps_attempt | apply (steps_mret _)
  | apply (steps_throw _) | apply (steps_lift _) | apply steps_if | destruct_match ].

Context `{AR : Arrow}.

(** *** PostgreSQL *)

Section Pg.
Context `{PV : PgValues} `{PD : !PgDriver W} `{CC : !ClientCache W PgPool} `{QC : !QuietCache PgPool}.

(** What PostgreSQL and its driver promise: connecting, preparing, and the statements
    of the connector itself change no data; a transaction made read-only stays so and
    changes none, whatever it executes. *)
Class PgReads : Type := {
  read_only : Tx -> W -> Prop;
  connect_data n o : steps same (connect_with n o);
  prepare_data pool q : steps same (prepare pool q);
  ping_data pool : steps same (execute pool "SELECT 1");
  tables_data pool f : steps same (fetch_all pool (tables_statement f) (option_list f));
  acquire_data pool : steps same (acquire pool);
  begin_data conn : steps same (begin conn);
  set_data tx : steps same (tx_execute tx SET_READ_ONLY);
  set_read_only tx w w' : tx_execute tx SET_READ_ONLY w = (Ok tt, w') -> read_only tx w';
  fetch_data tx q w : read_only tx w -> data (fetch tx q w).2 = data w /\ read_only tx (fetch tx q w).2;
  commit_data tx w : read_only tx w -> data (commit tx w).2 = data w
}.
Context `{PR : PgReads}.

Lemma pg_stream_data pool query schema n w : data (pg_read_tabular pool query schema n w).2 = data w.
Proof using PR.
  apply (pg_read_keeps_data Data data read_only); intros.
  - apply acquire_data.
  - apply begin_data.
  - apply set_data.
  - by eapply set_read_only.
  - by apply fetch_data.
  - by apply commit_data.
Qed.

Lemma table_infos_steps pool b rows : steps same (table_infos pool b rows).
Proof using PR.
  induction rows as [|[[[c s] t] ty] rows IH]; cbn [table_infos]; [apply (steps_mret _)|].
  apply (steps_mseq same); [|intros sc; walk].
  apply steps_if; [|apply (steps_mret _)]. apply (steps_mseq same); [apply steps_map_err, prepare_data|intros; apply (steps_mret _)].
Qed.

#[global] Instance pg_confined config : Confined same Schema RecordBatch (pg_connector config).
Proof using PR QC.
  split.
  - intros connection resolver Hr. cbn. apply (steps_mseq same); [|intros; apply (steps_mret _)].
    apply steps_connector_client; [done|]. intros credentials. unfold open_pool.
    do 2 (apply (steps_mseq same); [apply (steps_lift _)|intros ?]). apply steps_map_err, connect_data.
  - intros connection resolver w rd w' Hr. cbn in Hr. inv_ok. split; intros; cbn.
    + unfold to_query, pg_schema. do 2 (apply (steps_mseq same); [|intros; apply (steps_mret _)]).
      apply steps_map_err, prepare_data.
    + apply steps_run_stream. intros. apply pg_stream_data.
    + apply (steps_throw _).
    + apply (steps_throw _).
    + apply steps_map_err, ping_data.
    + apply (steps_mseq same); [|intros; apply (steps_mret _)]. unfold pg_list_tables.
      apply (steps_mseq same); [apply steps_map_err, tables_data|intros; apply table_infos_steps].
Qed.
End Pg.

(** *** Readers of files *)

(** Opening a stream and reading a file's footer change no data. *)
Class QuietFormats `{FL : !FormatLib W} : Prop := {
  into_stream_data r : steps same (into_stream r);
  parquet_new_data r : steps same (parquet_new (opendal_async_reader r))
}.

Section Files.
Context `{FL : !FormatLib W} `{QF : !QuietFormats}.

Lemma open_stream_steps reader : steps same (open_stream reader).
Proof using QF. unfold open_stream. apply (steps_mseq same); [apply steps_map_err, into_stream_data|intros; apply (steps_mret _)]. Qed.

Lemma read_sample_steps reader : steps same (read_sample reader).
Proof using QF.
  unfold read_sample. apply (steps_mseq same); [apply steps_map_err, open_stream_steps|intros; apply (steps_lift _)].
Qed.

Lemma decode_stream_steps reader d f : steps same (decode_stream reader d f).
Proof using QF.
  unfold decode_stream. apply (steps_mseq same); [apply steps_map_err, open_stream_steps|intros; apply (steps_mret _)].
Qed.

Lemma parquet_steps {A} reader msg (k : ParquetBuilder -> M W ConnectorError A) :
  (forall b, steps same (k b)) -> steps same (let? b := map_err msg (parquet_new (opendal_async_reader reader)) in k b).
Proof using QF. intros Hk. apply (steps_mseq same); [apply steps_map_err, parquet_new_data|done]. Qed.

Lemma schema_steps reader :
  steps same (read_csv_schema reader) /\ steps same (read_jsonl_schema reader) /\ steps same (read_parquet_schema reader).
Proof using QF.
  split_and!.
  - apply (steps_mseq same); [apply read_sample_steps|intros; apply (steps_lift _)].
  - apply (steps_mseq same); [apply read_sample_steps|intros; walk].
  - apply parquet_steps. intros. apply (steps_mret _).
Qed.

Lemma batches_steps reader schema n :
  steps same (read_csv_batches reader schema n) /\ steps same (read_jsonl_batches reader schema n) /\
  steps same (read_parquet_batches reader n).
Proof using QF.
  split_and!.
  - apply decode_stream_steps.
  - apply (steps_mseq same); [apply (steps_lift _)|intros; apply decode_stream_steps].
  - apply parquet_steps. intros. walk.
Qed.
End Files.

(** The state of a reader is not part of the data. *)
Class QuietCells (C : Type) `{RC : !ReaderCells W C} : Prop :=
  set_cells_data : forall c w, data (set_cells c w) = data w.

Abbreviation same_world := (fun s s' => same s.2 s'.2).

#[local] Instance same_world_preorder {A} : PreOrder (fun s s' : A * W => same s.2 s'.2).
Proof. split; [done|]. unfold same. intros a b c. congruence. Qed.

Section Cells.
Context `{QC : QuietCells C}.

Lemma steps_new_cell {E} : steps same (new_cell (C := C) (E := E)).
Proof using QC. intros w. apply set_cells_data. Qed.

Lemma steps_in_cell {E A} l (m : M (option C * W) E A) : steps same_world m -> steps same (in_cell l m).
Proof using QC.
  intros Hm w. unfold in_cell. specialize (Hm (mjoin (cells w !! l), w)).
  destruct (m _) as [r [c w']]. unfold same in *. cbn in *. by rewrite set_cells_data.
Qed.
End Cells.

(** *** S3 *)

Section S3.
Context `{FL : !FormatLib W} `{QF : !QuietFormats} `{SL : S3Lib}.
Context `{CC : !ClientCache W Operator} `{QC : !QuietCache Operator}.
Context `{RC : !ReaderCells W (string * Readers.bytes)} `{QCE : !QuietCells (string * Readers.bytes)}.
Variable op_reader : Operator -> string -> option N -> M W OpError Reader.
Variable op_list : Operator -> string -> M W OpError (list Entry).
Variable op_stat : Operator -> string -> M W OpError unit.
Variable op_check : Operator -> M W OpError unit.
(** The operations of the operator the connector uses are reads. *)
Hypothesis op_reader_data : forall op p c, steps same (op_reader op p c).
Hypothesis op_list_data : forall op p, steps same (op_list op p).
Hypothesis op_stat_data : forall op p, steps same (op_stat op p).
Hypothesis op_check_data : forall op, steps same (op_check op).

Lemma steps_with_world {A E} (m : M W E A) : steps same m -> steps same_world (S3.with_world m).
Proof. intros Hm s. unfold S3.with_world. specialize (Hm s.2). by destruct (m s.2). Qed.

Lemma s3_json_steps op p : steps same (S3.read_json_checked (op_reader op) p).
Proof using QF op_reader_data.
  unfold S3.read_json_checked. apply (steps_mseq same); [apply steps_map_err, op_reader_data|intros reader].
  apply (steps_mseq same); [apply steps_map_err, into_stream_data|intros; apply (steps_lift _)].
Qed.

Lemma s3_make_reader_steps op chunk p : steps same (S3.make_reader (op_reader op) chunk p).
Proof using op_reader_data. apply steps_map_err, op_reader_data. Qed.

Lemma s3_schema_steps op chunk hint q : steps same_world (S3.schema (op_reader op) chunk hint q).
Proof using QF op_reader_data.
  unfold S3.schema. apply (steps_mseq same_world); [apply (steps_lift _)|intros f].
  apply (steps_mseq same_world); [|intros; apply (steps_mret _)]. destruct f;
    apply (steps_mseq same_world); try (apply steps_with_world; first [apply s3_make_reader_steps | apply s3_json_steps]);
    intros x; try (apply steps_with_world; apply schema_steps).
  apply (steps_mseq same_world); [apply (steps_lift _)|intros sc].
  apply (steps_mseq same_world); [by intros s|intros; apply (steps_mret _)].
Qed.

Lemma s3_read_steps op chunk hint v n : steps same_world (S3.read_tabular (op_reader op) chunk hint v n).
Proof using QF op_reader_data.
  unfold S3.read_tabular. apply (steps_mseq same_world); [apply (steps_lift _)|intros f]. destruct f;
    try (apply (steps_mseq same_world); [apply steps_with_world, s3_make_reader_steps|intros reader];
         apply (steps_mseq same_world); [apply steps_with_world; apply (batches_steps reader v.2 n)|intros; apply (steps_mret _)]).
  apply (steps_mseq same_world).
  { unfold S3.take_cached. apply (steps_mseq same_world); [by intros s|intros [[p d]|]; [|apply (steps_mret _)]].
    apply steps_if; [|apply (steps_mret _)]. apply (steps_mseq same_world); [by intros s|intros; apply (steps_mret _)]. }
  intros cached. apply (steps_mseq same_world); [|intros; apply (steps_mret _)].
  destruct cached; [apply (steps_mret _)|apply steps_with_world, s3_json_steps].
Qed.

Lemma s3_tables_steps op chunk hint f b paths : steps same_world (S3.build_tables (op_reader op) chunk hint f b paths).
Proof using QF op_reader_data.
  induction paths as [|p paths IH]; cbn [S3.build_tables]; [apply (steps_mret _)|].
  apply steps_if; [done|]. apply (steps_mseq same_world).
  - unfold S3.table_schema. cbv zeta. apply steps_if; [|apply (steps_mret _)].
    apply (steps_mseq same_world); [apply steps_attempt, s3_schema_steps|intros; apply (steps_mret _)].
  - intros sc. apply (steps_mseq same_world); [done|intros; apply (steps_mret _)].
Qed.

#[global] Instance s3_confined config :
  Confined same Schema RecordBatch (s3_connector op_reader op_list op_stat op_check config).
Proof using All.
  split.
  - intros connection resolver Hr. cbn. apply (steps_mseq same).
    + unfold s3_get_reader. apply (steps_mseq same); [|intros; apply (steps_mret _)].
      apply steps_connector_client; [done|intros; apply (steps_lift _)].
    + intros rd. apply (steps_mseq same); [apply steps_new_cell|intros; apply (steps_mret _)].
  - intros connection resolver w rd w' Hr. cbn in Hr. inv_ok. split; intros; cbn.
    + apply (steps_mseq same); [apply steps_in_cell, s3_schema_steps|intros; apply (steps_mret _)].
    + apply (steps_mseq same); [apply steps_in_cell, s3_read_steps|intros; apply (steps_mret _)].
    + apply steps_map_err, op_stat_data.
    + unfold S3.read_binary. apply (steps_mseq same); [apply s3_make_reader_steps|intros reader].
      apply (steps_mseq same); [apply steps_map_err, into_stream_data|intros; apply (steps_mret _)].
    + apply steps_map_err, op_check_data.
    + apply (steps_mseq same); [|intros; apply (steps_mret _)]. apply steps_in_cell. unfold S3.list_tables. cbv zeta.
      apply (steps_mseq same_world); [|intros; apply s3_tables_steps].
      apply steps_map_err, steps_with_world, op_list_data.
Qed.
End S3.

(** *** Connectors over HTTP *)

(** Milvus's endpoints that read. *)
Definition MILVUS_READS : list string :=
  ["/v2/vectordb/collections/list"; "/v2/vectordb/collections/describe"; "/v2/vectordb/entities/query";
   "/v2/vectordb/entities/search"; "/v2/vectordb/entities/get"].

(** A request that changes nothing at the server: GET and HEAD are safe methods, and
    Milvus reads by POST. *)
Definition read_request (r : HttpRequest) : Prop :=
  rq_method r ∈ ["GET"; "HEAD"] \/
  rq_method r = "POST" /\ exists base p, p ∈ MILVUS_READS /\ rq_url r = base +:+ p.

Class QuietHttp `{HW : !Http W} : Prop :=
  send_data : forall c r, read_request r -> steps same (send c r).

Section Milvus.
Context `{HW : !Http W} `{QH : !QuietHttp}.
Context {DateTime : Type}.
Variable string_to_datetime : string -> result string DateTime.
Variables timestamp timestamp_millis timestamp_micros : DateTime -> Z.
Variable timestamp_nanos_opt : DateTime -> option Z.
Variable show_datetime : DateTime -> string.
Variable json_text : json -> string.
Variable fuel : nat.

Lemma mv_execute_steps c p body : p ∈ MILVUS_READS -> steps same (mv_execute c p body).
Proof using QH.
  intros Hp. unfold mv_execute. apply (steps_mseq same).
  - apply steps_map_err, send_data. right. split; [done|]. by eexists _, p.
  - intros. apply (steps_mseq same); [apply (steps_lift _)|intros]. apply steps_if; [apply (steps_throw _)|].
    apply (steps_mseq same); [apply (steps_lift _)|intros]. cbv zeta. apply steps_if; [apply (steps_mret _)|apply (steps_throw _)].
Qed.

Lemma endpoint_reads op : operation_endpoint op ∈ MILVUS_READS.
Proof. destruct op; unfold MILVUS_READS; cbn; set_solver. Qed.

Lemma mv_pages_data k c request schema n fetched w :
  data (mv_pages string_to_datetime timestamp timestamp_millis timestamp_micros timestamp_nanos_opt show_datetime json_text
          k c request schema n fetched w).2 = data w.
Proof using QH.
  revert fetched w. induction k as [|k IH]; intros fetched w; cbn [mv_pages]; [done|]. cbv zeta.
  match goal with |- context [match ?o with Some _ => _ | None => gret tt end] => destruct o as [page|] end; [|done].
  unfold gbind at 1, call. pose proof (mv_execute_steps c (operation_endpoint MvQuery)
    (page_body (mv_body request) page (wrap_i64 (default 0%Z (mv_offset request) + fetched))) (endpoint_reads _) w) as Hx.
  destruct (mv_execute _ _ _ w) as [[response|e] w1]; [|done]. unfold same in Hx. cbn in Hx. rewrite <- Hx.
  destruct (extract_data_rows response) as [|row rows]; [done|].
  unfold gbind at 1, glift. destruct (rows_to_record_batch _ _ _ _ _ _ _ schema (row :: rows)) as [b|e]; [|done].
  rewrite gbind_yield. cbn [snd]. destruct (_ <? _)%Z; [done|].
  specialize (IH (wrap_i64 (fetched + Z.of_nat (length (row :: rows)))) w1). by destruct (mv_pages _ _ _ _ _ _ _ _ _ _ _ _ _ w1) as [[??]?].
Qed.

Lemma mv_chunks_data k schema rows n offset (w : W) :
  data (mv_chunks string_to_datetime timestamp timestamp_millis timestamp_micros timestamp_nanos_opt show_datetime json_text
          k schema rows n offset w).2 = data w.
Proof.
  revert offset w. induction k as [|k IH]; intros offset w; cbn [mv_chunks]; [done|].
  destruct (offset <? length rows); [|done]. cbv zeta. unfold gbind at 1, glift.
  destruct (rows_to_record_batch _ _ _ _ _ _ _ schema _) as [b|e]; [|done]. rewrite gbind_yield. cbn [snd].
  specialize (IH (Nat.min (offset + n) (length rows)) w). by destruct (mv_chunks _ _ _ _ _ _ _ _ _ _ _ _ w) as [[??]?].
Qed.

Context `{CC : !ClientCache W MilvusClient} `{QC : !QuietCache MilvusClient}.

#[global] Instance mv_confined config :
  Confined same Schema RecordBatch (mv_connector string_to_datetime timestamp timestamp_millis timestamp_micros
    timestamp_nanos_opt show_datetime json_text fuel config).
Proof using QH QC.
  split.
  - intros connection resolver Hr. cbn. apply (steps_mseq same); [|intros; apply (steps_mret _)].
    apply steps_connector_client; [done|intros; apply (steps_lift _)].
  - intros connection resolver w rd w' Hr. cbn in Hr. inv_ok. split; intros; cbn.
    + apply (steps_mseq same); [|intros; apply (steps_mret _)]. unfold mv_schema, describe_collection.
      apply (steps_mseq same); [apply (steps_lift _)|intros request].
      apply (steps_mseq same); [|intros; apply (steps_mret _)].
      apply (steps_mseq same); [apply mv_execute_steps; unfold MILVUS_READS; set_solver|intros; walk].
    + unfold mv_read_tabular. apply (steps_bind same).
      * apply (steps_mseq same); [apply (steps_lift _)|intros request]. destruct (operation request); [apply (steps_mret _)|..];
          (apply (steps_mseq same); [apply mv_execute_steps, endpoint_reads|intros; apply (steps_mret _)]).
      * intros w1 g w2 Hg. apply steps_run_safe_stream. intros w3. inv_ok. destruct (operation _); inv_ok;
          [apply mv_pages_data|apply mv_chunks_data..].
    + apply (steps_throw _).
    + apply (steps_throw _).
    + apply (steps_mseq same); [|intros; apply (steps_mret _)]. apply mv_execute_steps. unfold MILVUS_READS. set_solver.
    + apply (steps_mret _).
Qed.
End Milvus.

Section Uri.
Context `{HW : !Http W} `{QH : !QuietHttp} `{UL : UrlLib} `{FL : !FormatLib W} `{QF : !QuietFormats}.
Context `{CC : !ClientCache W UriClient} `{QC : !QuietCache UriClient}.
Context `{RC : !ReaderCells W CachedResponse} `{QCE : !QuietCells CachedResponse}.
Variable parse_mime : string -> result string Mime.
Variable bytes_stream : HttpResponse -> list (result string string).
Context {Op : Type}.
Variable mem_new : M W string Op.
Variable mem_write : Op -> Readers.bytes -> M W string unit.
Variable mem_reader : Op -> M W string Reader.
(** The memory operator holds responses, not the data. *)
Hypothesis mem_data : steps same mem_new /\ (forall op b, steps same (mem_write op b)) /\ (forall op, steps same (mem_reader op)).

Lemma uri_send_steps c method p t context :
  method ∈ ["GET"; "HEAD"] -> steps same (uri_send c method p t context).
Proof using QH.
  intros Hm. unfold uri_send. apply (steps_bind same); [apply (steps_lift _)|]. intros w r w' Hr.
  apply steps_map_err, send_data. left. injection Hr as Hr _. unfold uri_request in Hr.
  destruct (Uri.join _ p); cbn in Hr; [|done]. destruct (_ || _); [done|]. by injection Hr as <-.
Qed.

Lemma uri_fetch_steps c request : steps same (fetch_response parse_mime c request).
Proof using QH.
  unfold fetch_response. apply (steps_mseq same); [apply uri_send_steps; first [by left|by right; left]|intros response]. walk.
Qed.

Lemma mem_reader_steps b : steps same (bytes_to_opendal_reader mem_new mem_write mem_reader b).
Proof using mem_data.
  destruct mem_data as (H1 & H2 & H3). unfold bytes_to_opendal_reader.
  apply (steps_mseq same); [by apply steps_map_err|intros op].
  apply (steps_mseq same); [apply steps_map_err, H2|intros; apply steps_map_err, H3].
Qed.

Lemma steps_same_world {A E} (m : M W E A) : steps same m -> steps same_world (on_world m).
Proof. intros Hm s. unfold on_world. specialize (Hm s.2). by destruct (m s.2). Qed.

Lemma response_schema_steps cached path : steps same (response_schema mem_new mem_write mem_reader cached path).
Proof using QF mem_data.
  unfold response_schema. cbv zeta. destruct (cr_format cached); try apply (steps_lift _);
    (apply (steps_mseq same); [apply mem_reader_steps|intros; apply schema_steps]).
Qed.

Lemma response_batches_steps resp schema n path : steps same (response_batches mem_new mem_write mem_reader resp schema n path).
Proof using QF mem_data.
  unfold response_batches. cbv zeta. destruct (cr_format resp); try apply (steps_mret _);
    (apply (steps_mseq same); [apply mem_reader_steps|intros reader]);
    (apply (steps_mseq same); [apply (batches_steps reader schema n)|intros; apply (steps_mret _)]).
Qed.

#[global] Instance uri_confined config :
  Confined same Schema RecordBatch (uri_connector parse_mime bytes_stream mem_new mem_write mem_reader config).
Proof using All.
  split.
  - intros connection resolver Hr. cbn. apply (steps_mseq same).
    + apply steps_connector_client; [done|intros; apply (steps_lift _)].
    + intros. apply (steps_mseq same); [apply steps_new_cell|intros; apply (steps_mret _)].
  - intros connection resolver w rd w' Hr. cbn in Hr. inv_ok. split; intros; cbn.
    + apply (steps_mseq same); [apply steps_in_cell|intros; apply (steps_mret _)]. unfold uri_schema.
      apply (steps_mseq same_world); [apply (steps_lift _)|intros request].
      apply (steps_mseq same_world); [apply steps_same_world, uri_fetch_steps|intros cached].
      apply (steps_mseq same_world); [apply steps_same_world, response_schema_steps|intros sc].
      apply (steps_mseq same_world); [by intros s|intros; apply (steps_mret _)].
    + apply (steps_mseq same); [apply steps_in_cell|intros; apply (steps_mret _)]. unfold uri_read_tabular.
      apply (steps_mseq same_world); [apply (steps_lift _)|intros request].
      apply (steps_mseq same_world); [by intros s|intros cached].
      apply (steps_mseq same_world); [|intros; apply steps_same_world, response_batches_steps].
      destruct cached; [apply (steps_mret _)|apply steps_same_world, uri_fetch_steps].
    + unfold uri_can_read_binary. apply (steps_mseq same); [apply uri_send_steps; first [by left|by right; left]|intros; walk].
    + unfold uri_read_binary. apply (steps_mseq same); [apply uri_send_steps; first [by left|by right; left]|intros; walk].
    + unfold uri_check_connection. apply (steps_mseq same); [apply uri_send_steps; first [by left|by right; left]|intros; walk].
    + apply (steps_mret _).
Qed.
End Uri.
End Data.
