(* ===== verification/Hub.v ===== *)
(** The Flight service with its seven connectors, as [build_connectors_registry]
    ([services/flight/src/main.rs]) assembles it, and what it announces about itself
    ([DataIngestionService::new] of [services/flight/src/flight/service.rs]). *)
From S2P Require Import Prelude Streams Text Json Floats Sql Api Arrow Batches ClientCache Readers Http.
From S2P Require Import KubeAuth Traits S3 S3Connect PgVector Postgres Sqlite Elastic Milvus Uri Neo4j Flight Connectors.
From S2P Require Import Startup ReadOnly Arrow.
From Stdlib Require Import NArith ZArith.

(** ** What the service announces *)

Inductive SqlInfoValue : Type := InfoText (s : string) | InfoFlag (b : bool).

(** The entries of [sql_info], by the names of [SqlInfo]. *)
Definition sql_info : list (string * SqlInfoValue) :=
  [("FlightSqlServerName", InfoText "Data Connect Hub");
   ("FlightSqlServerVersion", InfoText "0.1.0");
   ("FlightSqlServerArrowVersion", InfoText "1.3");
   ("FlightSqlServerReadOnly", InfoFlag true);
   ("FlightSqlServerSql", InfoFlag true);
   ("FlightSqlServerSubstrait", InfoFlag false)].

(** The name a request's entry is logged with; [sql_info_name] is [SqlInfo::try_from]. *)
Definition query_to_string (sql_info_name : nat -> option string) (info : list nat) : list string :=
  (fun i => default ("Unknown(" +:+ show_nat i +:+ ")") (sql_info_name i)) <$> info.

(** ** The registry *)

Section Hub.
Context {W : Type} `{AR : Arrow}.
Context `{PV : PgValues} `{PD : !PgDriver W} `{SV : SqliteValues} `{SD : !SqliteDriver W}.
Context `{NV : NeoValues} `{ND : !NeoDriver W} `{HW : !Http W} `{UL : UrlLib} `{FL : !FormatLib W} `{SL : S3Lib}.
Context `{!ClientCache W PgPool, !ClientCache W SqlitePool, !ClientCache W Graph, !ClientCache W EsClient}.
Context `{!ClientCache W MilvusClient, !ClientCache W Operator, !ClientCache W UriClient}.
Context `{!ReaderCells W (string * Readers.bytes), !ReaderCells W CachedResponse}.
(** chrono's timestamps, [serde_json]'s printing and order of keys. *)
Context {DateTime : Type}.
Variable string_to_datetime : string -> result string DateTime.
Variables timestamp timestamp_millis timestamp_micros : DateTime -> Z.
Variable timestamp_nanos_opt : DateTime -> option Z.
Variable show_datetime : DateTime -> string.
Variable json_text : json -> string.
Variable entries : gmap string json -> list (string * json).
(** opendal's operators, mime types and the chunks of a response. *)
Variable op_reader : Operator -> string -> option N -> M W OpError Reader.
Variable op_list : Operator -> string -> M W OpError (list Entry).
Variable op_stat : Operator -> string -> M W OpError unit.
Variable op_check : Operator -> M W OpError unit.
Variable parse_mime : string -> result string Mime.
Variable bytes_stream : HttpResponse -> list (result string string).
Context {Op : Type}.
Variable mem_new : M W string Op.
Variable mem_write : Op -> Readers.bytes -> M W string unit.
Variable mem_reader : Op -> M W string Reader.
(** The rounds of the paging loops that are looked at. *)
Variable fuel : nat.

(** The connectors' constructors. The limits of the caches of clients only decide when
    entries disappear. *)
Definition hub_connector (p : Provider) (limits : option (N * N * N)) (config : ConnectorConfig)
    : FlightConnector (W := W) Schema RecordBatch :=
  match p with
  | PPostgres => pg_connector config
  | PSqlite => sqlite_connector config
  | PS3 => s3_connector op_reader op_list op_stat op_check config
  | PMilvus => mv_connector string_to_datetime timestamp timestamp_millis timestamp_micros timestamp_nanos_opt
                 show_datetime json_text fuel config
  | PElasticsearch => es_connector string_to_datetime timestamp timestamp_millis timestamp_micros timestamp_nanos_opt
                        show_datetime json_text entries fuel config
  | PNeo4j => neo_connector config
  | PUri => uri_connector parse_mime bytes_stream mem_new mem_write mem_reader config
  end.

Variable features : Provider -> bool.

Definition hub_registry (config : ServerConfig) : gmap string (FlightConnector Schema RecordBatch) :=
  build_connectors_registry Schema RecordBatch hub_connector features config.

(** A connection type's provider finds exactly the connector of that name, if it is
    built in and enabled. *)
Lemma hub_registry_lookup config p :
  hub_registry config !! provider_name p =
  let c := connector_config (sc_connectors config) p in
  if features p && enabled c then Some (hub_connector p (cache_limits p (sc_pools config)) c) else None.
Proof. apply registry_lookup. by intros []. Qed.

Lemma hub_registry_inv config name c :
  hub_registry config !! name = Some c ->
  exists p, features p && enabled (connector_config (sc_connectors config) p) = true /\
    c = hub_connector p (cache_limits p (sc_pools config)) (connector_config (sc_connectors config) p).
Proof.
  unfold hub_registry, build_connectors_registry.
  assert (Hfold : forall l (r : gmap string _),
    (forall k c, r !! k = Some c -> exists p, features p && enabled (connector_config (sc_connectors config) p) = true /\
       c = hub_connector p (cache_limits p (sc_pools config)) (connector_config (sc_connectors config) p)) ->
    fold_left (register Schema RecordBatch hub_connector features config) l r !! name = Some c ->
    exists p, features p && enabled (connector_config (sc_connectors config) p) = true /\
      c = hub_connector p (cache_limits p (sc_pools config)) (connector_config (sc_connectors config) p)).
  { induction l as [|p l IH]; intros r Hr; cbn [fold_left]; [apply Hr|]. apply IH. intros k d.
    unfold register. cbv zeta. destruct (features p && _) eqn:Hp; [|apply Hr].
    unfold with_connector. rewrite lookup_insert_Some. intros [[_ <-]|[_ Hd]]; [by exists p|by eapply Hr]. }
  apply Hfold. intros k d. by rewrite lookup_empty.
Qed.

(** ** Only reading *)

(** The connectors that keep the announcement whatever the query is: a Neo4j query
    runs with the connection's own rights, a SQLite query may switch its pragma off,
    and the index of an Elasticsearch query is part of the request's path. *)
Definition only_reads (p : Provider) : bool :=
  match p with PPostgres | PS3 | PMilvus | PUri => true | PSqlite | PElasticsearch | PNeo4j => false end.

Context {Data : Type} (data : W -> Data).
Context `{PR : !PgReads data} `{QF : !QuietFormats data} `{QH : !QuietHttp data}.
Context `{!QuietCache data PgPool, !QuietCache data Operator, !QuietCache data MilvusClient, !QuietCache data UriClient}.
Context `{!QuietCells data (string * Readers.bytes), !QuietCells data CachedResponse}.
Hypothesis op_data : (forall op p c, steps (same data) (op_reader op p c)) /\ (forall op p, steps (same data) (op_list op p)) /\
  (forall op p, steps (same data) (op_stat op p)) /\ (forall op, steps (same data) (op_check op)).
Hypothesis mem_data : steps (same data) mem_new /\ (forall op b, steps (same data) (mem_write op b)) /\
  (forall op, steps (same data) (mem_reader op)).

Lemma hub_connector_confined p limits config :
  only_reads p = true -> Confined (same data) Schema RecordBatch (hub_connector p limits config).
Proof using All.
  destruct op_data as (H1 & H2 & H3 & H4). destruct p; intros Hp; try done; cbn [hub_connector].
  - exact _.
  - by eapply s3_confined.
  - exact _.
  - by eapply uri_confined.
Qed.

(** The rest of the service: the stores are only read, and so are the reviews. *)
Context `{MS : !MetaStoreI W} `{SS : !SecretStoreI W} {FlightData : Type}.
Variable encodes : Schema -> bool.
Variable tables_schema : bool -> Schema.
Variable tables_batch : option string -> bool -> list (TableInfo Schema) -> result string RecordBatch.
Variable sql_info_schema : Schema.
Variable sql_info_batch : list nat -> result string RecordBatch.
Variable flight_encode : Schema -> list (result ConnectorError RecordBatch) -> list (result FlightError FlightData).
Variable ipc_write : Columns -> result string string.
Variable ipc_read : string -> result string (list (result string Columns)).
Variable new_id : W -> string * W.
Variable authenticate : string -> M W AuthError AuthInfo.
Variable authorize : AuthInfo -> string -> string -> M W AuthError unit.

(** A call to the service that [config] starts: without authentication there is no
    layer in front of it. *)
Definition hub_call (config : ServerConfig) : GrpcRequest FlightCall -> M W Status (FlightAnswer Schema) :=
  let inner := flight_call Schema RecordBatch encodes tables_schema tables_batch sql_info_schema sql_info_batch
    binary_schema batch_schema flight_encode ipc_write ipc_read new_id
    {| connectors_registry := hub_registry config;
       query_options := {| batch_size := qc_batch_size (sc_query config) |} |} in
  if auth_enabled (sc_auth config)
  then auth_call authenticate authorize (discovery_service_account (sc_auth config)) inner
  else inner.

Hypothesis auth_data : (forall token, steps (same data) (authenticate token)) /\
  (forall info t verb, steps (same data) (authorize info t verb)).
Hypothesis stores_data : (forall t i, steps (same data) (ms_get_data_connection t i)) /\
  (forall t i, steps (same data) (ms_get_data_connection_type t i)) /\
  (forall ns n, steps (same data) (ss_get_secret ns n)) /\ (forall w, same data w (new_id w).2).

(** C8: the service announces that it is read-only, and so it is: whatever call
    arrives, with whatever query, path or action, authenticated or not, the data of
    every source stays what it was, if only PostgreSQL, S3, Milvus and URI connectors
    are enabled. *)
Theorem hub_only_reads config rq w :
  (forall p, features p && enabled (connector_config (sc_connectors config) p) = true -> only_reads p = true) ->
  data (hub_call config rq w).2 = data w.
Proof using All.
  intros Hp. destruct auth_data as [? ?], stores_data as (? & ? & ? & ?).
  assert (Hc : forall name c, hub_registry config !! name = Some c -> Confined (same data) Schema RecordBatch c).
  { intros name c (p & Hf & ->)%hub_registry_inv. by apply hub_connector_confined, Hp. }
  revert w. change (steps (same data) (hub_call config rq)). unfold hub_call. destruct (auth_enabled _).
  - by apply (served_call_steps (same data)).
  - by apply (flight_call_steps (same data)).
Qed.
End Hub.

(** *** A connector that may write

    The Neo4j driver runs what it is given, in a transaction with the rights of the
    connection. *)
Section Writes.
Context {W : Type} `{AR : Arrow} `{NV : NeoValues} `{ND : !NeoDriver W}.
(** The statements the database has executed. *)
Variable executed : W -> list string.
Hypothesis execute_logged : forall graph q w, executed (Neo4j.execute graph q w).2 = executed w ++ [q].

Lemma neo_schema_runs graph q w st w' :
  rd_schema _ _ (neo_reader graph) q w = (Ok st, w') -> q_query _ st = q /\ executed w' = executed w ++ [q].
Proof using execute_logged.
  cbn. unfold to_query, neo_schema. intros Hr. inv_ok.
  pose proof (execute_logged graph q w) as Hx.
  match goal with H : Neo4j.execute _ _ _ = _ |- _ => rewrite H in Hx end.
  repeat case_match; inv_ok; by subst.
Qed.

(** A statement is executed for its schema and again for its rows: one that creates
    nodes creates them twice. *)
Lemma neo4j_statement_runs_twice graph q o w l w' :
  (let? st := rd_schema _ _ (neo_reader graph) q in rd_read_tabular _ _ (neo_reader graph) st o) w = (Ok l, w') ->
  executed w' = executed w ++ [q; q].
Proof using execute_logged.
  intros Hr. inv_ok. destruct (neo_schema_runs graph q w a w0) as [Hq Hw]; [done|].
  match goal with H : rd_read_tabular _ _ _ _ _ _ = _ |- _ => rename H into Hr end.
  cbn in Hr. unfold run_safe_stream, neo_read_tabular, gbind, call, map_err in Hr. rewrite Hq in Hr.
  pose proof (execute_logged graph q w0) as Hx. destruct (Neo4j.execute graph q w0) as [[rows|e] w1]; cbn in *.
  - destruct (chunked_ends (neo_rows_to_batch (q_schema _ a)) (batch_size o) (rmap_err map_neo4j_error <$> rows) w1)
      as (bs & r & Hc & _).
    rewrite Hc in Hr. simplify_eq/=. by rewrite Hx, Hw, <- app_assoc.
  - simplify_eq/=. by rewrite Hx, Hw, <- app_assoc.
Qed.
End Writes.

(** ** A concrete hub

    One PostgreSQL source with three rows, which a transaction that is not read-only
    loses; the other drivers have no clients. *)

Record HubWorld : Type := {
  hw_read_only : bool;
  hw_rows : nat;
  hw_pools : gmap string unit;
  hw_documents : gmap positive (option (string * Readers.bytes));
  hw_responses : gmap positive (option CachedResponse)
}.

#[local] Existing Instances Postgres.sample_values Neo4j.sample_values sample_urls.

#[local] Instance hub_pg : PgDriver HubWorld := {|
  Postgres.PgConnectOptions := string; Postgres.PgPool := unit; Postgres.Conn := unit; Postgres.Tx := unit;
  Postgres.parse_options s := Ok s; Postgres.ssl_root_cert_from_pem _ o := o; Postgres.connect_with _ _ := mret tt;
  Postgres.prepare _ _ := mret [sample_column]; Postgres.execute _ _ := mret tt; Postgres.fetch_all _ _ _ := mret [];
  Postgres.acquire _ := mret tt;
  Postgres.begin _ w := (Ok tt, {| hw_read_only := false; hw_rows := hw_rows w; hw_pools := hw_pools w;
                          hw_documents := hw_documents w; hw_responses := hw_responses w |});
  Postgres.tx_execute _ q w := (Ok tt, {| hw_read_only := String.eqb q SET_READ_ONLY; hw_rows := hw_rows w;
                                 hw_pools := hw_pools w; hw_documents := hw_documents w;
                                 hw_responses := hw_responses w |});
  Postgres.fetch _ q w := (Ok <$> [1%Z; 2%Z; 3%Z],
                  if hw_read_only w then w
                  else {| hw_read_only := false; hw_rows := 0; hw_pools := hw_pools w;
                          hw_documents := hw_documents w; hw_responses := hw_responses w |});
  Postgres.commit _ w := (Ok tt, w)
|}.

#[local] Instance hub_sqlite_values : SqliteValues := {|
  SqliteRow := unit; sqlite_columns _ := []; Sqlite.get_bool _ _ := Ok None; Sqlite.get_i64 _ _ := Ok None;
  Sqlite.get_f64 _ _ := Ok None; Sqlite.get_bytes _ _ := Ok None; Sqlite.get_string _ _ := Ok None
|}.

Definition no_driver : SqlxError := {| sqlx_code := None; sqlx_text := "no driver" |}.

#[local] Instance hub_sqlite : SqliteDriver HubWorld := {|
  SqlitePool := Empty_set; SqliteConn := Empty_set; sqlite_connect _ _ := throw no_driver;
  sqlite_prepare _ _ := throw no_driver; sqlite_execute _ _ := throw no_driver;
  sqlite_fetch_all _ _ _ := throw no_driver; sqlite_acquire _ := throw no_driver;
  conn_execute _ _ := throw no_driver; conn_fetch _ _ w := ([], w)
|}.

#[local] Instance hub_neo : NeoDriver HubWorld := {|
  TempFile := unit; temp_new := mret tt; temp_write _ _ := mret tt; temp_path _ := ""; temp_drop _ w := w;
  NeoConfig := unit; build_config _ _ _ _ _ := Ok tt; Graph := Empty_set; graph_connect _ _ := throw ConnectTimeout;
  Neo4j.execute _ _ := throw "no driver"; json_keys m := (map_to_list m).*1
|}.

#[local] Instance hub_http : Http HubWorld := {|
  HttpClient := Empty_set; Certificate := unit; cert_from_pem _ := Ok tt; build_http _ _ _ _ := Err "no client";
  send _ _ := throw "no client"; show_status _ := ""; from_str _ := Err ""
|}.

#[local] Instance hub_s3 : S3Lib := {|
  RootCert := unit; TlsClient := unit; Operator := Empty_set; from_pem_bundle _ := Ok []; build_tls_client _ := Ok tt;
  operator_new _ _ _ _ _ := Err "no operator"; with_transport _ o := o; with_timeouts _ _ o := o
|}.

(** A cache of clients that do not exist. *)
Definition no_clients {C : Type} (no : C -> False) : ClientCache HubWorld C.
Proof.
  refine {| cache_of _ := ∅; ClientCache.set_cache _ w := w |}.
  intros c _. apply map_eq. intros i. rewrite lookup_empty. by destruct (c !! i) as [x|] eqn:E; [destruct (no x)|].
Defined.

#[local] Instance hub_sqlite_cache : ClientCache HubWorld (SqlitePool (W := HubWorld)) := no_clients (Empty_set_rect (fun _ => False)).
#[local] Instance hub_graph_cache : ClientCache HubWorld (Graph (W := HubWorld)) := no_clients (Empty_set_rect (fun _ => False)).
#[local] Instance hub_operator_cache : ClientCache HubWorld Operator := no_clients (Empty_set_rect (fun _ => False)).
#[local] Instance hub_es_cache : ClientCache HubWorld (EsClient (W := HubWorld)) := no_clients (fun c => Empty_set_rect (fun _ => False) (es_http c)).
#[local] Instance hub_mv_cache : ClientCache HubWorld (MilvusClient (W := HubWorld)) := no_clients (fun c => Empty_set_rect (fun _ => False) (mv_http c)).
#[local] Instance hub_uri_cache : ClientCache HubWorld (UriClient (W := HubWorld)) :=
  no_clients (fun c => Empty_set_rect (fun _ => False) (uri_http c)).
#[local] Instance hub_pg_cache : ClientCache HubWorld (PgPool (W := HubWorld)) := {|
  cache_of := hw_pools;
  ClientCache.set_cache c w := {| hw_read_only := hw_read_only w; hw_rows := hw_rows w; hw_pools := c;
                                  hw_documents := hw_documents w; hw_responses := hw_responses w |};
  cache_of_set c w := eq_refl
|}.
#[local] Instance hub_documents : ReaderCells HubWorld (string * Readers.bytes) := {|
  cells := hw_documents;
  set_cells c w := {| hw_read_only := hw_read_only w; hw_rows := hw_rows w; hw_pools := hw_pools w;
                      hw_documents := c; hw_responses := hw_responses w |};
  cells_set c w := eq_refl
|}.
#[local] Instance hub_responses : ReaderCells HubWorld CachedResponse := {|
  cells := hw_responses;
  set_cells c w := {| hw_read_only := hw_read_only w; hw_rows := hw_rows w; hw_pools := hw_pools w;
                      hw_documents := hw_documents w; hw_responses := c |};
  cells_set c w := eq_refl
|}.

#[local] Instance hub_pg_reads : PgReads hw_rows.
Proof.
  refine {| read_only := fun _ w => hw_read_only w = true |}; try done.
  - by intros tx w w' [= <-].
  - intros tx q w Hw. cbn. by rewrite Hw.
Defined.

#[local] Instance hub_meta : MetaStoreI HubWorld :=
  let missing {A} : M HubWorld MetaStoreError A := throw (ResourceNotFound "") in
  {| ms_get_data_connection t i := mret
       {| dc_metadata := {| Api.id := i; tenant_id := Some t; created_at := ""; updated_at := "" |};
          dc_resource := {| name := "rows"; data_connection_type_id := "pg"; format := Api.Tabular;
                            credentials_ref := {| secret := "pg" |}; properties := ∅ |};
          dc_status := DataConnectionStatus_default |};
     ms_get_data_connection_type t i := mret
       {| dct_metadata := {| Api.id := i; tenant_id := Some t; created_at := ""; updated_at := "" |};
          dct_resource := {| type_name := "pg"; label := None; provider := "postgres"; type_description := None;
                             credentials_fields := []; tags := None |};
          dct_status := DataConnectionTypeStatus_default |};
     ms_get_data_connections _ := missing; ms_get_data_connection_types _ := missing;
     ms_create_data_connection _ _ := missing; ms_update_data_connection _ _ _ := missing;
     ms_update_data_connection_status _ _ _ := missing; ms_delete_data_connection _ _ := missing;
     ms_get_all_data_connection_types := missing; ms_create_data_connection_type _ _ := missing;
     ms_update_data_connection_type _ _ _ := missing; ms_update_data_connection_type_status _ _ := missing;
     ms_delete_data_connection_type _ _ := missing; ms_create_flight_service _ := missing;
     ms_get_all_flight_services := missing; ms_get_flight_service_by_connector _ := missing;
     ms_get_flight_service _ := missing; ms_update_flight_service _ _ := missing; ms_delete_flight_service _ := missing |}.

#[local] Instance hub_secrets : SecretStoreI HubWorld := {|
  ss_get_secret ns n := mret {| secret_name := n; secret_namespace := ns; secret_properties := {["URI" := "postgres://db"]};
                                secret_labels := None; secret_annotations := None |};
  ss_create_secret _ _ := throw (Forbidden ""); ss_delete_secret _ _ := throw (Forbidden "");
  ss_set_secret_labels _ _ _ := throw (Forbidden "")
|}.

Definition hub_config : ServerConfig := {|
  sc_address := "0.0.0.0"; sc_port := 50051; sc_database_url := "sqlite::memory:"; sc_global_tenant_id := "global";
  sc_metrics := MetricsConfig_default; sc_pools := {| max_capacity := 10; ttl_secs := 60; idle_secs := 60 |};
  sc_connectors := {| cc_default := ConnectorConfig_default; cc_override _ := ConnectorConfigOverride_default |};
  sc_query := QueryConfig_default;
  sc_auth := {| auth_enabled := true; cache_ttl_secs := 300; token_review_audiences := []; discovery_service_account := "" |};
  sc_tls := {| cert_file := None; key_file := None; min_version := None; ciphers := None |}
|}.

Definition hub_world : HubWorld :=
  {| hw_read_only := false; hw_rows := 3; hw_pools := ∅; hw_documents := ∅; hw_responses := ∅ |}.

Definition no_operator : OpError := {| od_kind := OdOther; od_text := "no operator" |}.

Definition hub_delete : GrpcRequest FlightCall :=
  {| rq_uri := "/arrow.flight.protocol.FlightService/DoGet";
     rq_md := {[AUTHORIZATION := "Bearer good"; X_TENANT_ID := "a"; X_DATA_CONNECTION_ID := "1"]};
     rq_msg := DoGet (TicketStatementQuery "DELETE FROM t RETURNING n") |}.

(** The call of the sample, on a hub with every connector that only reads. *)
Definition hub_sample_call : M HubWorld Status (FlightAnswer (FlightData := RecordBatch) Schema) :=
  hub_call (DateTime := unit) (fun _ => Err "") (fun _ => 0%Z) (fun _ => 0%Z) (fun _ => 0%Z) (fun _ => None) (fun _ => "")
    (fun _ => "") map_to_list (fun _ _ _ => throw no_operator)
    (fun _ _ => throw no_operator)
    (fun _ _ => throw no_operator) (fun _ => throw no_operator)
    (fun _ => Err "") (fun _ => []) (Op := unit) (mret tt) (fun _ _ => mret tt) (fun _ => mret []) 0 only_reads
    (fun _ => true) (fun _ => []) (fun _ _ _ => Err "") [] (fun _ => Err "") (fun _ l => rmap_err ExternalConnector <$> l)
    (fun _ => Err "") (fun _ => Err "") (fun w => ("probe", w))
    (fun _ => mret {| username := "alice"; groups := [] |}) (fun _ _ _ => mret tt) hub_config hub_delete.

Lemma hub_only_reads_witness :
  match (hub_sample_call hub_world).1 with Ok (AnswerStream _ l) => length l = 1 | _ => False end /\
  hw_rows (hub_sample_call hub_world).2 = 3.
Proof.
  split; [vm_compute; reflexivity|]. unfold hub_sample_call.
  match goal with |- _ = ?n => change n with (hw_rows hub_world) end. eapply hub_only_reads with (data := hw_rows); first [exact hub_pg_reads | try done].
  by intros [].
Defined.
