(* ===== verification/Tracing.v ===== *)
(** Spans and metrics around the handlers of both services: [trace_request]
    ([services/rest/src/rest/middleware.rs]), [TraceMiddleware]
    ([services/flight/src/flight/trace.rs]), the trace context a call of the Flight
    service carries ([services/rest/src/clients/flight.rs]), and the metrics of Flight
    calls ([services/flight/src/flight/service.rs], [metrics.rs]).

    OpenTelemetry's propagator is a parameter: it reads a context from an [Extractor]
    and writes one through an [Injector]. *)
From S2P Require Import Prelude Text Json Sql Api Traits Flight Observability.
From Stdlib Require Import ZArith NArith.

(** A span: its name, its parent and its fields in the order they were recorded. A
    field declared [Empty] is there once it is recorded. *)
Record Span (Ctx : Type) : Type := { span_name : string; span_parent : Ctx; span_fields : list (string * json) }.
Arguments span_name {Ctx}. Arguments span_parent {Ctx}. Arguments span_fields {Ctx}.
Arguments Build_Span {Ctx}.

(** [Span::record]. *)
Definition record_all {Ctx} (fields : list (string * json)) (s : Span Ctx) : Span Ctx :=
  {| span_name := span_name s; span_parent := span_parent s; span_fields := span_fields s ++ fields |}.

Definition error_mark : string * json := ("otel.status_code", JString "ERROR").

(** [HeaderExtractor] and [MetadataExtractor]: [get] and [keys]. *)
Definition extractor_get (headers : Metadata) (key : string) : option string := headers !! key ≫= header_to_str.
Definition extractor_keys (headers : Metadata) : list string := (map_to_list headers).*1.

Section Trace.
Context {W Ctx : Type}.
Variable extract : (string -> option string) -> list string -> Ctx.

Definition parent_of (headers : Metadata) : Ctx := extract (extractor_get headers) (extractor_keys headers).

(** ** Requests of the REST service *)

Section Http.
Context {Resp E : Type}.
Variable resp_status : Resp -> nat.
Variable error_status : E -> nat.

Definition is_server_error (status : nat) : bool := (500 <=? status) && (status <=? 599).

Definition http_span (method : string) (pattern : option string) (path : string) (headers : Metadata) : Span Ctx :=
  let route := default path pattern in
  {| span_name := "http_request";
     span_parent := parent_of headers;
     span_fields :=
       [("otel.name", JString (method +:+ " " +:+ route)); ("otel.kind", JString "server");
        ("http.request.method", JString method); ("http.route", JString route);
        ("request.path", JString path); ("url.path", JString path);
        ("tenant.id", JString (default "" (extractor_get headers X_TENANT_ID)))] |}.

Definition http_records (response : result E Resp) : list (string * json) :=
  match response with
  | Ok res => ("http.response.status_code", JNumber (PosInt (N.of_nat (resp_status res))))
              :: (if is_server_error (resp_status res) then [error_mark] else [])
  | Err err => [("http.response.status_code", JNumber (PosInt (N.of_nat (error_status err)))); error_mark]
  end.

(** The handler runs inside the span; its answer is returned. *)
Definition trace_request (method : string) (pattern : option string) (path : string) (headers : Metadata)
    (next : W -> result E Resp * W) (w : W) : result E Resp * Span Ctx * W :=
  let span := http_span method pattern path headers in
  let (response, w) := next w in
  (response, record_all (http_records response) span, w).

(** Tracing changes neither an answer nor what a request does. The span is marked as
    an error exactly for server errors and for handlers that fail, and carries the
    status the client sees. *)
Lemma trace_request_transparent method pattern path headers next w :
  let '(response, span, w') := trace_request method pattern path headers next w in
  (response, w') = next w /\
  (error_mark ∈ span_fields span <->
     match response with Ok res => 500 <= resp_status res <= 599 | Err _ => True end) /\
  ("http.response.status_code",
   JNumber (PosInt (N.of_nat (match response with Ok res => resp_status res | Err e => error_status e end))))
    ∈ span_fields span.
Proof.
  unfold trace_request. destruct (next w) as [response w']. split; [done|]. cbn [record_all span_fields http_span].
  unfold error_mark. destruct response as [res|e]; cbn [http_records].
  - unfold is_server_error, error_mark.
    destruct (Nat.leb_spec 500 (resp_status res)), (Nat.leb_spec (resp_status res) 599); cbn [andb app];
      rewrite !elem_of_cons, elem_of_nil; (split; [split; [|intros]|]); naive_solver lia.
  - cbn [app]. rewrite !elem_of_cons. split; [split; [done|]|]; naive_solver.
Qed.
End Http.

(** ** Calls of the Flight service *)

Definition split_grpc_path (path : string) : string * string :=
  let trimmed := trim_start_char "/" path in
  match rsplit_once "/" trimmed with
  | Some (service, method) => (service, method)
  | None => (trimmed, "")
  end.

Definition GRPC_STATUS : string := "grpc-status".

Definition grpc_span (path : string) (headers : Metadata) : Span Ctx :=
  let (service, method) := split_grpc_path path in
  {| span_name := "grpc_request";
     span_parent := parent_of headers;
     span_fields :=
       [("otel.name", JString (trim_start_char "/" path)); ("otel.kind", JString "server");
        ("request.path", JString path); ("rpc.system", JString "grpc"); ("rpc.service", JString service);
        ("rpc.method", JString method);
        ("tenant.id", JString (default "" (extractor_get headers X_TENANT_ID)))] |}.

(** The status of a response without a body is in its headers. *)
Definition response_code (headers : Metadata) : option Z := extractor_get headers GRPC_STATUS ≫= parse_i32.

Section Grpc.
Context {B R E : Type}.
Variable response_headers : R -> Metadata.

(** [TraceMiddleware::call]: health checks are not traced. *)
Definition trace_call (inner : GrpcRequest B -> W -> result E R * W) (req : GrpcRequest B) (w : W)
    : result E R * option (Span Ctx) * W :=
  if starts_with HEALTH_PATH_PREFIX (rq_uri req)
  then let (response, w) := inner req w in (response, None, w)
  else
    let span := grpc_span (rq_uri req) (rq_md req) in
    let (response, w) := inner req w in
    let records := match response with
                   | Ok res => call_records (response_code (response_headers res))
                   | Err _ => [error_mark]
                   end in
    (response, Some (record_all records span), w).

(** Tracing does not change a call. A span is marked as an error exactly when the
    call failed or its response carries a status other than OK; health checks have
    none. *)
Lemma trace_call_transparent inner req w :
  let '(response, span, w') := trace_call inner req w in
  (response, w') = inner req w /\
  (span = None <-> starts_with HEALTH_PATH_PREFIX (rq_uri req) = true) /\
  (forall s, span = Some s -> (error_mark ∈ span_fields s <->
     match response with
     | Ok res => exists c, response_code (response_headers res) = Some c /\ c <> 0%Z
     | Err _ => True
     end)).
Proof.
  unfold trace_call. destruct (starts_with _ _) eqn:Hh, (inner req w) as [response w']; [done|].
  split_and!; [done..|]. intros s [= <-]. unfold grpc_span. destruct (split_grpc_path _) as [service method].
  cbn [record_all span_fields]. unfold error_mark. destruct response as [res|e].
  - unfold call_records. destruct (response_code _) as [c|]; [|cbn [app]; rewrite !elem_of_cons, elem_of_nil; naive_solver].
    destruct (Z.eqb_spec c 0); cbn [app]; rewrite !elem_of_cons, elem_of_nil; naive_solver.
  - cbn [app]. rewrite !elem_of_cons. naive_solver.
Qed.
End Grpc.

End Trace.

(** ** The context a client sends *)

Section Inject.
Context {Ctx : Type}.
Variable inject_context : Ctx -> list (string * string).
(** [MetadataKey::from_bytes] and [MetadataValue::try_from]. *)
Variable metadata_key : string -> option string.
Variable metadata_value : string -> option string.

(** [MetadataInjector::set]: what cannot be a header is dropped. *)
Definition injector_set (md : Metadata) (kv : string * string) : Metadata :=
  match metadata_key kv.1, metadata_value kv.2 with
  | Some k, Some v => <[k := v]> md
  | _, _ => md
  end.

(** The headers of [traced_request]. *)
Definition traced_request (context : Ctx) : Metadata := fold_left injector_set (inject_context context) ∅.

(** A key and a value that are headers already, as those of a trace context are. *)
Definition sendable (kv : string * string) : Prop :=
  metadata_key kv.1 = Some kv.1 /\ metadata_value kv.2 = Some kv.2 /\ header_to_str kv.2 = Some kv.2.

Lemma injected_lookup l md k v :
  NoDup l.*1 -> Forall sendable l -> (k, v) ∈ l \/ (k ∉ l.*1) /\ md !! k = Some v ->
  fold_left injector_set l md !! k = Some v.
Proof.
  revert md. induction l as [|[k' v'] l IH]; intros md Hn Ha H; [by destruct H as [?%elem_of_nil|[_ ?]]|].
  cbn [fmap list_fmap fst] in Hn, H. apply NoDup_cons in Hn as [Hk' Hn].
  apply Forall_cons in Ha as [(Hk & Hv & _) Ha]. cbn [fold_left]. apply IH; [done|done|].
  unfold injector_set. cbn [fst snd] in *. rewrite Hk, Hv.
  destruct H as [[[= -> ->]|H]%elem_of_cons|[H Hm]]; [right|by left|right].
  - split; [done|]. by rewrite lookup_insert_eq.
  - apply not_elem_of_cons in H as [Hne H]. split; [done|]. by rewrite lookup_insert_ne.
Qed.

(** The server's extractor reads what the client's propagator wrote. *)
Lemma context_arrives context k v :
  NoDup (inject_context context).*1 -> Forall sendable (inject_context context) ->
  (k, v) ∈ inject_context context -> extractor_get (traced_request context) k = Some v.
Proof.
  intros Hnd Hok Hin. unfold extractor_get, traced_request. rewrite (injected_lookup _ ∅ k v) by auto.
  rewrite Forall_forall in Hok. by destruct (Hok _ Hin) as (_ & _ & Hh).
Qed.
End Inject.

(** A path of the form [/package.Service/Method] is split at its last slash. *)
Lemma split_grpc_path_spec service method :
  is_empty service = false -> starts_with "/" service = false -> no_char "/" method = true ->
  split_grpc_path ("/" +:+ service +:+ "/" +:+ method) = (service, method).
Proof.
  intros He Hs Hm. unfold split_grpc_path. rewrite sapp_cons, sapp_nil_l. cbn [trim_start_char].
  change (Ascii.eqb "/" "/") with true. cbv iota.
  assert (Ht : trim_start_char "/" (service +:+ "/" +:+ method) = service +:+ "/" +:+ method).
  { destruct service as [|a s]; [done|]. rewrite sapp_cons. cbn [trim_start_char].
    unfold starts_with in Hs. cbn in Hs. rewrite (Ascii.eqb_sym a "/"). destruct (Ascii.eqb_spec "/" a) as [<-|Hne]; [|done].
    by destruct s. }
  rewrite Ht, (sapp_cons "/" "" method), sapp_nil_l. by rewrite (proj2 (rsplit_once_spec "/" _ service method) (conj eq_refl Hm)).
Qed.

(** ** Metrics of Flight calls *)

Definition grpc_status_label (status : Status) : string :=
  match grpc_code status with
  | GrpcOk => "OK" | Cancelled => "Cancelled" | Unknown => "Unknown" | InvalidArgument => "InvalidArgument"
  | DeadlineExceeded => "DeadlineExceeded" | NotFound => "NotFound" | AlreadyExists => "AlreadyExists"
  | PermissionDenied => "PermissionDenied" | ResourceExhausted => "ResourceExhausted"
  | FailedPrecondition => "FailedPrecondition" | GrpcAborted => "Aborted" | OutOfRange => "OutOfRange"
  | Unimplemented => "Unimplemented" | GrpcInternal => "Internal" | Unavailable => "Unavailable"
  | DataLoss => "DataLoss" | GrpcUnauthenticated => "Unauthenticated"
  end.

Definition STATUS_OK : string := "OK".

Definition rpc_label {A} (r : result Status A) : string :=
  match r with Ok _ => STATUS_OK | Err e => grpc_status_label e end.

(** A handler between its guard and [observe_rpc], the pattern of the eight methods of
    [FlightSqlService]. *)
Definition observed_rpc {W A} (method operation : string)
    : (Recorder * W -> result Status A * (Recorder * W)) -> Recorder * W -> result Status A * (Recorder * W) :=
  observed (method, operation) rpc_label.

(** Observing a call does not change it; afterwards the gauge is where it was, and the
    counter of the call's status went up by one. *)
Lemma observed_rpc_correct {W A} method operation (handler : Recorder * W -> result Status A * (Recorder * W)) m w r w' :
  (forall m, handler (m, w) = (r, (m, w'))) ->
  exists m', observed_rpc method operation handler (Some m, w) = (r, (Some m', w')) /\
    counted (method, operation) (rpc_label r) m m'.
Proof. apply observed_correct. Qed.

(** Different codes have different labels. *)
Lemma grpc_status_label_inj s t : grpc_status_label s = grpc_status_label t -> grpc_code s = grpc_code t.
Proof. unfold grpc_status_label. by destruct (grpc_code s), (grpc_code t). Qed.

(** [metrics_handler]: the rendered metrics, or 503 while no recorder is installed. *)
Definition metrics_handler (render : Metrics -> string) (m : Recorder) : nat * string :=
  match render <$> m with
  | Some body => (200, body)
  | None => (503, "metrics recorder not installed" +:+ String (ascii_of_nat 10) "")
  end.
