(* ===== verification/RestStartup.v ===== *)
(** Starting the REST service ([services/rest/src/main.rs], [utils/mod.rs],
    [state/mod.rs]): its configuration, the parts its service is made of, and the
    channels to Flight services ([services/rest/src/clients/flight.rs]).

    The [config] crate, files, the Kubernetes client, [tonic]'s endpoints and actix are
    parameters. *)
From S2P Require Import Prelude Text Json Sql Api MetaStore KubeAuth Traits Flight Startup Observability.
From Stdlib Require Import NArith.

Module RestConfig.

Record Server : Type := { address : string; port : N; sa_token_file : option string }.
Record FlightServiceConfig : Type := { ca_cert : option string }.
Record RestAuthConfig : Type := { enabled : bool; cache_ttl_secs : N }.
Definition RestAuthConfig_default : RestAuthConfig := {| enabled := false; cache_ttl_secs := 300 |}.
Record RestMetricsConfig : Type := { metrics_enabled : bool; metrics_address : string; metrics_port : N }.
Definition RestMetricsConfig_default : RestMetricsConfig :=
  {| metrics_enabled := false; metrics_address := "0.0.0.0"; metrics_port := 9090 |}.

Record RestServerConfig : Type := {
  server : Server;
  database_url : string;
  global_tenant_id : string;
  flight_service : FlightServiceConfig;
  metrics : RestMetricsConfig;
  auth : RestAuthConfig
}.
End RestConfig.
Import RestConfig.

(** [ApiService]: the stores, what its Flight clients are given, and the authorizer. *)
Record ApiParts (Pool SecretStore Authorizer : Type) : Type := {
  meta_store : Pool;
  store_tenant_id : string;
  secret_store : SecretStore;
  flight_ca_cert : option string;
  service_account_token_file : option string;
  parts_global_tenant_id : string;
  authorizer : option Authorizer
}.
Arguments meta_store {_ _ _}. Arguments store_tenant_id {_ _ _}. Arguments secret_store {_ _ _}.
Arguments flight_ca_cert {_ _ _}. Arguments service_account_token_file {_ _ _}.
Arguments parts_global_tenant_id {_ _ _}. Arguments authorizer {_ _ _}.
Arguments Build_ApiParts {_ _ _}.

(** [with_authorizer]. *)
Definition with_authorizer {P S A} (a : A) (s : ApiParts P S A) : ApiParts P S A :=
  {| meta_store := meta_store s; store_tenant_id := store_tenant_id s; secret_store := secret_store s;
     flight_ca_cert := flight_ca_cert s; service_account_token_file := service_account_token_file s;
     parts_global_tenant_id := parts_global_tenant_id s; authorizer := Some a |}.

Section Main.
Context {W : Type} `{MC : !MetaConn W}.
Context {SecretStore Authorizer Bound : Type}.
Variable load_config : M W string RestServerConfig.
Variable init_tracing : TraceConfig -> M W string unit.
Variable trace_env : W -> string -> option string.
Variable read : string -> M W string string.
Variable secret_store_default : M W string SecretStore.
Variable kube_auth_default : N -> list string -> M W string Authorizer.
Variable install_recorder : M W string unit.
Variable spawn_metrics_server : string -> N -> M W string unit.
Variable bind : string -> N -> M W string Bound.
Variable show_meta_error : MetaStoreError -> string.

(** The certificate Flight services are verified with. *)
Definition read_ca_cert (config : RestServerConfig) : M W string (option string) :=
  match ca_cert (flight_service config) with
  | Some path => let? pem := read path in mret (Some pem)
  | None => mret None
  end.

(** The service is built without an authorizer and gets one if authentication is
    enabled. It reviews no tokens, so it configures no audiences. *)
Definition build_service (config : RestServerConfig) (pool : Pool) (secrets : SecretStore) (ca : option string)
    : M W string (ApiParts Pool SecretStore Authorizer) :=
  let service := {| meta_store := pool; store_tenant_id := global_tenant_id config; secret_store := secrets;
                    flight_ca_cert := ca; service_account_token_file := sa_token_file (server config);
                    parts_global_tenant_id := global_tenant_id config; authorizer := None |} in
  if enabled (auth config)
  then let? a := kube_auth_default (cache_ttl_secs (auth config)) [] in mret (with_authorizer a service)
  else mret service.

(** What is served: the service, whether requests are observed, and the socket. *)
Record RestServer : Type := {
  rs_service : ApiParts Pool SecretStore Authorizer;
  rs_observed : bool;
  rs_bound : Bound
}.

(** [main], up to serving. *)
Definition rest_main : M W string RestServer :=
  let? config := load_config in
  let? trace := (fun w => (Ok (from_vars (trace_env w)), w)) in
  init_tracing trace ;?
  let? pool := map_err show_meta_error (meta_store_new (database_url config)) in
  let? secrets := secret_store_default in
  let? ca := read_ca_cert config in
  let? service := build_service config pool secrets ca in
  (if metrics_enabled (metrics config)
   then install_recorder ;? spawn_metrics_server (metrics_address (metrics config)) (metrics_port (metrics config))
   else mret tt) ;?
  let? bound := bind (address (server config)) (port (server config)) in
  mret {| rs_service := service; rs_observed := metrics_enabled (metrics config); rs_bound := bound |}.

(** The certificate is there exactly if one is configured, as its file has it. *)
Lemma read_ca_cert_spec config w ca w' :
  read_ca_cert config w = (Ok ca, w') ->
  match ca_cert (flight_service config) with
  | Some path => exists pem, ca = Some pem /\ read path w = (Ok pem, w')
  | None => ca = None
  end.
Proof. unfold read_ca_cert. destruct (ca_cert _); intros Hr; inv_ok; [by eexists|done]. Qed.

Lemma build_service_spec config pool secrets ca w s w' :
  build_service config pool secrets ca w = (Ok s, w') ->
  (is_Some (authorizer s) <-> enabled (auth config) = true) /\ flight_ca_cert s = ca /\
  service_account_token_file s = sa_token_file (server config) /\
  store_tenant_id s = global_tenant_id config /\ parts_global_tenant_id s = global_tenant_id config.
Proof.
  unfold build_service. cbv zeta. destruct (enabled (auth config)); intros Hr; inv_ok; (split; [|done]).
  - split; [done|by eexists].
  - split; [by intros []|done].
Qed.

(** A service that starts checks requesters exactly if authentication is enabled,
    holds the certificate for Flight services exactly if one is configured (it does
    not start if that cannot be read), sends the configured token, and treats the same
    tenant as global as its store does. *)
Lemma rest_main_configuration w s w' :
  rest_main w = (Ok s, w') ->
  exists config w1 w2 w3, load_config w = (Ok config, w1) /\
    (is_Some (authorizer (rs_service s)) <-> enabled (auth config) = true) /\
    match ca_cert (flight_service config) with
    | Some path => exists pem, flight_ca_cert (rs_service s) = Some pem /\ read path w2 = (Ok pem, w3)
    | None => flight_ca_cert (rs_service s) = None
    end /\
    service_account_token_file (rs_service s) = sa_token_file (server config) /\
    store_tenant_id (rs_service s) = parts_global_tenant_id (rs_service s) /\
    rs_observed s = metrics_enabled (metrics config).
Proof.
  unfold rest_main. intros Hr. inv_ok.
  match goal with H : load_config w = (Ok ?c, _) |- _ => rename c into config end.
  match goal with H : read_ca_cert config _ = _ |- _ => apply read_ca_cert_spec in H as Hca end.
  match goal with H : build_service config _ _ _ _ = _ |- _ => apply build_service_spec in H as (Ha & Hc & Ht & H1 & H2) end.
  eexists config, _, _, _. cbn [rs_service rs_observed]. split_and!; [eassumption|done| |done|congruence|done].
  rewrite Hc. exact Hca.
Qed.
End Main.

(** ** Channels to Flight services *)

(** [tonic]'s endpoints and channels. *)
Class Tonic (W : Type) : Type := {
  Endpoint : Type;
  Channel : Type;
  from_shared : string -> result string Endpoint;
  tls_config : string -> Endpoint -> result string Endpoint;
  connect : Endpoint -> M W string Channel
}.

(** [FlightClient]; its channel, once there is one, is part of the world. *)
Record ClientConfig : Type := { endpoint : string; tls_ca_cert : option string; client_token_file : option string }.

(** [ApiService::flight_client]. *)
Definition flight_client {P S A} (s : ApiParts P S A) (endpoint : string) : ClientConfig :=
  {| endpoint := endpoint; tls_ca_cert := flight_ca_cert s; client_token_file := service_account_token_file s |}.

Section Channels.
Context {W : Type} `{TN : Tonic W}.

Definition client_endpoint (c : ClientConfig) : result Status Endpoint :=
  let?? e := rmap_err (fun m => grpc GrpcInternal ("invalid flight endpoint: " +:+ m)) (from_shared (endpoint c)) in
  match tls_ca_cert c with
  | Some pem => rmap_err (fun m => grpc GrpcInternal ("invalid TLS config: " +:+ m)) (tls_config pem e)
  | None => Ok e
  end.

Definition open_channel (c : ClientConfig) : M W Status Channel :=
  let? e := lift (client_endpoint c) in
  map_err (fun m => grpc Unavailable ("failed to connect to flight service: " +:+ m)) (connect e).

(** [OnceCell::get_or_try_init]: a failure leaves the cell empty. *)
Definition client (c : ClientConfig) : M (option Channel * W) Status Channel :=
  fun '(cell, w) =>
    match cell with
    | Some ch => (Ok ch, (cell, w))
    | None =>
        match open_channel c w with
        | (Ok ch, w) => (Ok ch, (Some ch, w))
        | (Err e, w) => (Err e, (None, w))
        end
    end.

(** The channels a client's calls use, one after the other; the calls themselves may
    change the world. *)
Fixpoint client_calls (c : ClientConfig) (calls : list (W -> W)) (s : option Channel * W) : list (result Status Channel) :=
  match calls with
  | [] => []
  | f :: calls => let '(r, (cell, w)) := client c s in r :: client_calls c calls (cell, f w)
  end.

(** A channel connected to the endpoint, with the certificate as its TLS configuration
    if there is one. *)
Definition configured (c : ClientConfig) (ch : Channel) : Prop :=
  exists e0 e w w', from_shared (endpoint c) = Ok e0 /\ connect e w = (Ok ch, w') /\
    match tls_ca_cert c with Some pem => tls_config pem e0 = Ok e | None => e = e0 end.

Lemma open_channel_configured c w ch w' : open_channel c w = (Ok ch, w') -> configured c ch.
Proof.
  unfold open_channel. intros Hr. inv_ok.
  match goal with H : client_endpoint c = Ok ?x |- _ => rename H into He; rename x into e end.
  unfold client_endpoint in He. destruct (from_shared (endpoint c)) as [e0|] eqn:Hf; [|done]. cbn [rmap_err] in He.
  exists e0, e. do 2 eexists. split_and!; [done|eassumption|].
  destruct (tls_ca_cert c) as [pem|]; [|by injection He]. cbn in He. destruct (tls_config pem e0); [by injection He as ->|done].
Qed.

(** A client connects once: after a first success every call uses that channel. Every
    channel it uses was connected to its endpoint, with its certificate. *)
Lemma client_calls_configured c calls cell w :
  (forall ch, cell = Some ch -> configured c ch) ->
  (forall ch, Ok ch ∈ client_calls c calls (cell, w) -> configured c ch) /\
  (forall ch ch', Ok ch ∈ client_calls c calls (cell, w) -> Ok ch' ∈ client_calls c calls (cell, w) -> ch = ch') /\
  (forall ch ch', cell = Some ch -> Ok ch' ∈ client_calls c calls (cell, w) -> ch' = ch).
Proof.
  revert cell w. induction calls as [|f calls IH]; intros cell w Hcell; cbn [client_calls].
  { split_and!; intros *; rewrite ?elem_of_nil; naive_solver. }
  assert (Hc : exists r cell' w1, client c (cell, w) = (r, (cell', w1)) /\
    (forall ch, cell' = Some ch -> configured c ch) /\ (forall ch, cell = Some ch -> r = Ok ch /\ cell' = Some ch) /\
    (forall ch, r = Ok ch -> cell' = Some ch)).
  { unfold client. destruct cell as [ch|]; [by do 3 eexists; split_and!; naive_solver|].
    destruct (open_channel c w) as [[ch|e] w1] eqn:Ho; do 3 eexists; (split; [done|]); split_and!; try naive_solver.
    intros ? [= <-]. by eapply open_channel_configured. }
  destruct Hc as (r & cell' & w1 & -> & Hs & Hkeep & Hput). destruct (IH cell' (f w1) Hs) as (I1 & I2 & I3).
  split_and!; intros *; rewrite !elem_of_cons; naive_solver.
Qed.
End Channels.

(** ** The channels of a service *)

Section ServiceChannels.
Context {W : Type} `{MC : !MetaConn W} `{TN : !Tonic W}.
Context {SecretStore Authorizer Bound : Type}.
Variable load_config : M W string RestServerConfig.
Variable init_tracing : TraceConfig -> M W string unit.
Variable trace_env : W -> string -> option string.
Variable read : string -> M W string string.
Variable secret_store_default : M W string SecretStore.
Variable kube_auth_default : N -> list string -> M W string Authorizer.
Variable install_recorder : M W string unit.
Variable spawn_metrics_server : string -> N -> M W string unit.
Variable bind : string -> N -> M W string Bound.
Variable show_meta_error : MetaStoreError -> string.

(** Once a certificate is configured, a REST service that starts has read it, and
    every channel it uses to a Flight service, over which it sends its token and
    credentials, was connected with that certificate as its TLS configuration. Whether
    TLS is spoken is then up to [tonic] and the scheme of the endpoint. *)
Lemma flight_channels_configured w s w' :
  rest_main load_config init_tracing trace_env read secret_store_default kube_auth_default install_recorder
    spawn_metrics_server bind show_meta_error w = (Ok s, w') ->
  exists config w1, load_config w = (Ok config, w1) /\
    forall path, ca_cert (flight_service config) = Some path ->
    exists pem w2 w3, read path w2 = (Ok pem, w3) /\
      forall url calls w4 ch, Ok ch ∈ client_calls (flight_client (rs_service s) url) calls (None, w4) ->
        exists e0 e w5 w6, from_shared url = Ok e0 /\ tls_config pem e0 = Ok e /\ connect e w5 = (Ok ch, w6).
Proof.
  intros (config & w1 & w2 & w3 & Hl & _ & Hca & _)%rest_main_configuration. exists config, w1. split; [done|].
  intros path Hp. rewrite Hp in Hca. destruct Hca as (pem & Hf & Hread). exists pem, w2, w3. split; [done|].
  intros url calls w4 ch Hin. apply (client_calls_configured _ _ None) in Hin as (e0 & e & w5 & w6 & H1 & H2 & H3); [|done].
  cbn in H1, H3. rewrite Hf in H3. by exists e0, e, w5, w6.
Qed.
End ServiceChannels.
