(* ===== verification/Settings.v ===== *)
(** Reading the services' configuration ([load_config] of [services/flight/src/lib.rs]
    and [services/rest/src/main.rs], with the [Deserialize] derives of their
    configuration types).

    The [config] crate is a parameter: how it reads a file into a tree of values, lays
    one tree over another, and turns a value into a scalar, which for a value of the
    very type is that value. *)
From S2P Require Import Prelude Text Json Api Flight Startup RestStartup.
From Stdlib Require Import NArith.

Class ConfigCrate : Type := {
  (** [add_source] of a later source over an earlier one. *)
  overlay : gmap string json -> gmap string json -> gmap string json;
  de_bool : json -> option bool;
  de_uint : N -> json -> option N;
  de_str : json -> option string
}.

(** Sources are laid over each other key by key, and scalars of their own type are read
    as they are. *)
Class ConfigLaws `{ConfigCrate} : Prop := {
  overlay_base : forall b s k, s !! k = None -> overlay b s !! k = b !! k;
  overlay_local : forall b b' s k, b !! k = b' !! k -> overlay b s !! k = overlay b' s !! k;
  de_bool_ok : forall b, de_bool (JBool b) = Some b;
  de_uint_ok : forall bound n, (n <= bound)%N -> de_uint bound (JNumber (PosInt n)) = Some n;
  de_str_ok : forall s, de_str (JString s) = Some s
}.

Definition u16_max : N := 2 ^ 16 - 1.
Definition u64_max : N := 2 ^ 64 - 1.

Section Derive.
Context `{CC : ConfigCrate}.

(** ** Fields *)

Definition table (v : json) : option (gmap string json) := as_object v.

(** A field that must be there, one with a default, and one of an [Option]. *)
Definition field {A} (de : json -> option A) (k : string) (m : gmap string json) : option A := v ← m !! k; de v.
Definition field_or {A} (de : json -> option A) (d : A) (k : string) (m : gmap string json) : option A :=
  match m !! k with Some v => de v | None => Some d end.
Definition field_opt {A} (de : json -> option A) (k : string) (m : gmap string json) : option (option A) :=
  match m !! k with
  | Some JNull | None => Some None
  | Some v => Some <$> de v
  end.

Definition de_strings (v : json) : option (list string) := l ← as_array v; mapM de_str l.
Definition de_u16 : json -> option N := de_uint u16_max.
Definition de_u64 : json -> option N := de_uint u64_max.

(** ** The Flight service *)

Definition pools_decode (v : json) : option IngestionCachePools :=
  m ← table v; c ← field de_u64 "max_capacity" m; t ← field de_u64 "ttl_secs" m; i ← field de_u64 "idle_secs" m;
  Some {| max_capacity := c; ttl_secs := t; idle_secs := i |}.

Definition query_decode (v : json) : option QueryConfig :=
  m ← table v; b ← field_or de_u64 (N.of_nat default_batch_size) "batch_size" m; Some {| qc_batch_size := N.to_nat b |}.

Definition auth_decode (v : json) : option AuthConfig :=
  m ← table v; e ← field_or de_bool false "enabled" m; t ← field_or de_u64 300%N "cache_ttl_secs" m;
  a ← field_or de_strings [] "token_review_audiences" m; d ← field_or de_str "" "discovery_service_account" m;
  Some {| auth_enabled := e; cache_ttl_secs := t; token_review_audiences := a; discovery_service_account := d |}.

Definition metrics_decode (v : json) : option MetricsConfig :=
  m ← table v; e ← field_or de_bool false "enabled" m; a ← field_or de_str "0.0.0.0" "address" m;
  p ← field_or de_u16 9090%N "port" m; Some {| metrics_enabled := e; metrics_address := a; metrics_port := p |}.

Definition tls_decode (v : json) : option TlsConfig :=
  m ← table v; c ← field_opt de_str "cert_file" m; k ← field_opt de_str "key_file" m;
  n ← field_opt de_str "min_version" m; s ← field_opt de_strings "ciphers" m;
  Some {| cert_file := c; key_file := k; min_version := n; ciphers := s |}.

Definition override_decode (v : json) : option ConnectorConfigOverride :=
  m ← table v; e ← field_opt de_bool "enabled" m; c ← field_opt de_u64 "connection_timeout_secs" m;
  q ← field_opt de_u64 "request_timeout_secs" m; r ← field_opt de_u64 "read_timeout_secs" m;
  s ← field_opt de_u64 "chunk_size" m;
  Some {| o_enabled := e; o_connection_timeout_secs := c; o_request_timeout_secs := q; o_read_timeout_secs := r;
          o_chunk_size := s |}.

Definition connector_decode (v : json) : option ConnectorConfig :=
  m ← table v; e ← field_or de_bool true "enabled" m; c ← field_or de_u64 10%N "connection_timeout_secs" m;
  q ← field_or de_u64 30%N "request_timeout_secs" m; r ← field_or de_u64 30%N "read_timeout_secs" m;
  s ← field_or de_u64 (4 * 1024 * 1024)%N "chunk_size" m;
  Some {| enabled := e; connection_timeout_secs := c; request_timeout_secs := q; read_timeout_secs := r; chunk_size := s |}.

Definition override_of (m : gmap string json) (p : Provider) : option ConnectorConfigOverride :=
  field_or override_decode ConnectorConfigOverride_default (provider_name p) m.

Definition connectors_decode (v : json) : option ConnectorsConfig :=
  m ← table v;
  d ← field_or connector_decode ConnectorConfig_default "default" m;
  pg ← override_of m PPostgres; sq ← override_of m PSqlite; el ← override_of m PElasticsearch; ne ← override_of m PNeo4j;
  mi ← override_of m PMilvus; s3 ← override_of m PS3; ur ← override_of m PUri;
  Some {| cc_default := d;
          cc_override p := match p with
                           | PPostgres => pg | PSqlite => sq | PElasticsearch => el | PNeo4j => ne | PMilvus => mi
                           | PS3 => s3 | PUri => ur
                           end |}.

Definition connectors_default : ConnectorsConfig :=
  {| cc_default := ConnectorConfig_default; cc_override _ := ConnectorConfigOverride_default |}.
Definition tls_default : TlsConfig := {| cert_file := None; key_file := None; min_version := None; ciphers := None |}.

Definition server_decode (v : json) : option (string * N) :=
  m ← table v; a ← field de_str "address" m; p ← field de_u16 "port" m; Some (a, p).
Definition database_decode (v : json) : option string := m ← table v; field de_str "url" m.
Definition global_types_decode (v : json) : option string := m ← table v; field de_str "tenant-id" m.

Definition flight_config_decode (m : gmap string json) : option ServerConfig :=
  s ← field server_decode "server" m; d ← field database_decode "database" m;
  i ← field pools_decode "ingestion_cache_pools" m;
  c ← field_or connectors_decode connectors_default "connectors" m;
  q ← field_or query_decode QueryConfig_default "query" m;
  a ← field_or auth_decode AuthConfig_default "auth" m;
  me ← field_or metrics_decode MetricsConfig_default "metrics" m;
  t ← field_or tls_decode tls_default "tls" m;
  g ← field global_types_decode "global-connection-types" m;
  Some {| sc_address := s.1; sc_port := s.2; sc_database_url := d; sc_global_tenant_id := g; sc_metrics := me;
          sc_pools := i; sc_connectors := c; sc_query := q; sc_auth := a; sc_tls := t |}.

(** ** The REST service *)

Definition rest_server_decode (v : json) : option RestConfig.Server :=
  m ← table v; a ← field de_str "address" m; p ← field de_u16 "port" m; t ← field_opt de_str "sa-token-file" m;
  Some {| RestConfig.address := a; RestConfig.port := p; RestConfig.sa_token_file := t |}.
Definition rest_flight_decode (v : json) : option RestConfig.FlightServiceConfig :=
  m ← table v; c ← field_opt de_str "ca-cert" m; Some {| RestConfig.ca_cert := c |}.
Definition rest_auth_decode (v : json) : option RestConfig.RestAuthConfig :=
  m ← table v; e ← field_or de_bool false "enabled" m; t ← field_or de_u64 300%N "cache_ttl_secs" m;
  Some {| RestConfig.enabled := e; RestConfig.cache_ttl_secs := t |}.
Definition rest_metrics_decode (v : json) : option RestConfig.RestMetricsConfig :=
  m ← table v; e ← field_or de_bool false "enabled" m; a ← field_or de_str "0.0.0.0" "address" m;
  p ← field_or de_u16 9090%N "port" m;
  Some {| RestConfig.metrics_enabled := e; RestConfig.metrics_address := a; RestConfig.metrics_port := p |}.

Definition rest_config_decode (m : gmap string json) : option RestConfig.RestServerConfig :=
  s ← field rest_server_decode "server" m; d ← field database_decode "database" m;
  g ← field global_types_decode "global-connection-types" m;
  f ← field rest_flight_decode "flight-service" m;
  me ← field_or rest_metrics_decode RestConfig.RestMetricsConfig_default "metrics" m;
  a ← field_or rest_auth_decode RestConfig.RestAuthConfig_default "auth" m;
  Some {| RestConfig.server := s; RestConfig.database_url := d; RestConfig.global_tenant_id := g;
          RestConfig.flight_service := f; RestConfig.metrics := me; RestConfig.auth := a |}.

(** ** Loading *)

Section Load.
Context {W : Type}.
(** [File::with_name]: the values of a file, if it is there. *)
Variable source : string -> M W string (option (gmap string json)).

Definition load_values (config_file secret_config_file : string) : M W string (gmap string json) :=
  let? base := source config_file in
  match base with
  | None => throw ("configuration file " +:+ debug_str config_file +:+ " not found")
  | Some base =>
      let? secret := source secret_config_file in
      mret match secret with Some s => overlay base s | None => base end
  end.

Definition load_as {A} (decode : gmap string json -> option A) (config_file secret_config_file : string) : M W string A :=
  let? v := load_values config_file secret_config_file in
  lift (ok_or (decode v) "invalid configuration").

Definition load_flight_config : string -> string -> M W string ServerConfig := load_as flight_config_decode.
Definition load_rest_config : string -> string -> M W string RestConfig.RestServerConfig := load_as rest_config_decode.
End Load.
End Derive.
