(* ===== verification/Cluster.v ===== *)
(** The Kubernetes API as the controller of [dc-controller] uses it: objects, also
    unstructured ones ([k8s.io/apimachinery]: a tree of maps, slices and strings with
    accessors that tell an absent field from one of another type), the
    errors it tells apart, and the operations of controller-runtime's [client.Client]
    over a world [W]. *)
From S2P Require Import Prelude Text Json.

(** * Unstructured objects *)

(** ** Reading *)

(** [unstructured.NestedFieldNoCopy]. *)
Fixpoint nested (path : list string) (v : json) : option json :=
  match path with [] => Some v | k :: r => x ← jget k v; nested r x end.

(** [NestedSlice] and [NestedString]: absent, or not of that type, is not found. *)
Definition nested_slice (path : list string) (v : json) : option (list json) := x ← nested path v; as_array x.
Definition nested_string (path : list string) (v : json) : option string := x ← nested path v; as_str x.

(** [NestedStringMap]: absent is not an error, a value that is not a string is. *)
Definition nested_string_map (path : list string) (v : json) : result string (option (gmap string string)) :=
  match nested path v with
  | None => Ok None
  | Some x =>
      match (m ← as_object x; map_values as_str m) with
      | Some m => Ok (Some m)
      | None => Err "accessor error: contains non-string value"
      end
  end.

Definition get_kind (v : json) : string := default "" (nested_string ["kind"] v).
Definition get_name (v : json) : string := default "" (nested_string ["metadata"; "name"] v).

(** [GetLabels] and [GetAnnotations]: nil when they cannot be read. *)
Definition string_entries (path : list string) (v : json) : gmap string string :=
  match nested_string_map path v with Ok (Some m) => m | _ => ∅ end.
Definition get_labels : json -> gmap string string := string_entries ["metadata"; "labels"].
Definition get_annotations : json -> gmap string string := string_entries ["metadata"; "annotations"].

(** ** Writing *)

Definition jset (k : string) (x v : json) : json := match v with JObject m => JObject (<[k := x]> m) | _ => v end.
Definition jdelete (k : string) (v : json) : json := match v with JObject m => JObject (delete k m) | _ => v end.

(** [SetNestedField]: missing maps are made; a step that is not a map leaves the object
    as it was. *)
Fixpoint set_nested (path : list string) (x v : json) : json :=
  match path with
  | [] => v
  | [k] => jset k x v
  | k :: r =>
      match jget k v with
      | Some (JObject m) => jset k (set_nested r x (JObject m)) v
      | Some _ => v
      | None => jset k (set_nested r x (JObject ∅)) v
      end
  end.

Definition jstrings (m : gmap string string) : json := JObject (JString <$> m).

Definition set_name (n : string) : json -> json := set_nested ["metadata"; "name"] (JString n).
Definition set_namespace (n : string) : json -> json := set_nested ["metadata"; "namespace"] (JString n).
Definition set_labels (m : gmap string string) : json -> json := set_nested ["metadata"; "labels"] (jstrings m).
Definition set_annotations (m : gmap string string) : json -> json := set_nested ["metadata"; "annotations"] (jstrings m).

(** ** Lemmas *)

Lemma jget_jset k x v : is_object v = true -> jget k (jset k x v) = Some x.
Proof. destruct v; try done. intros _. cbn. by rewrite lookup_insert_eq. Qed.

Lemma jget_jset_ne k k' x v : k <> k' -> jget k (jset k' x v) = jget k v.
Proof. intros Hk. destruct v; try done. cbn. by rewrite lookup_insert_ne. Qed.

(** A path whose steps are maps or absent can be written, and reads back. *)
Fixpoint writable (path : list string) (v : json) : bool :=
  match path with
  | [] => false
  | [k] => is_object v
  | k :: r => is_object v && match jget k v with Some x => writable r x | None => true end
  end.

Lemma writable_empty k r : writable (k :: r) (JObject ∅) = true.
Proof. destruct r; done. Qed.

Lemma nested_set path x v : writable path v = true -> nested path (set_nested path x v) = Some x.
Proof.
  revert v. induction path as [|k [|k' r] IH]; intros v Hw; [done| |].
  - cbn. by rewrite jget_jset.
  - change (is_object v && match jget k v with Some y => writable (k' :: r) y | None => true end = true) in Hw.
    apply andb_true_iff in Hw as [Ho Hw].
    change (nested (k :: k' :: r) (set_nested (k :: k' :: r) x v)) with
      (y ← jget k (match jget k v with
                   | Some (JObject m) => jset k (set_nested (k' :: r) x (JObject m)) v
                   | Some _ => v
                   | None => jset k (set_nested (k' :: r) x (JObject ∅)) v
                   end); nested (k' :: r) y).
    destruct (jget k v) as [y|] eqn:Hk.
    + destruct y as [| | | | |m]; try (destruct r; discriminate Hw). rewrite jget_jset by done. by apply IH.
    + rewrite jget_jset by done. apply IH, writable_empty.
Qed.

(** Writing one field of the metadata leaves the others, and the rest of the object. *)
Lemma nested_metadata_ne k k' x v :
  k <> k' -> nested ["metadata"; k] (set_nested ["metadata"; k'] x v) = nested ["metadata"; k] v.
Proof.
  intros Hk. cbn. destruct v as [| | | | |m]; try done. cbn. destruct (m !! "metadata") as [md|] eqn:Hm; cbn.
  - destruct md as [| | | | |d]; cbn; rewrite ?Hm; try done. rewrite lookup_insert_eq. cbn. by rewrite lookup_insert_ne.
  - rewrite lookup_insert_eq. cbn. rewrite lookup_insert_ne, lookup_empty; done.
Qed.

Lemma nested_kind_metadata k' x v : nested ["kind"] (set_nested ["metadata"; k'] x v) = nested ["kind"] v.
Proof.
  cbn. destruct v as [| | | | |m]; try done. cbn. destruct (m !! "metadata") as [md|] eqn:Hm; cbn.
  - destruct md as [| | | | |d]; cbn; try done. by rewrite lookup_insert_ne.
  - by rewrite lookup_insert_ne.
Qed.

(** * The API *)

(** ** Errors *)

(** What [apierrors] and [meta] classify; anything else is [Other]. *)
Inductive Reason : Type :=
| IsNotFound | IsConflict | IsAlreadyExists | IsNoMatch | IsForbidden | IsUnauthorized | Other.

Record KubeError : Type := { reason : Reason; error_text : string }.

#[export] Instance Reason_eq_dec : EqDecision Reason.
Proof. solve_decision. Defined.

(** [fmt.Errorf("...: %w", err)] keeps what the error is. *)
Definition wrap (context : string) (e : KubeError) : KubeError :=
  {| reason := reason e; error_text := context +:+ ": " +:+ error_text e |}.

(** ** Objects *)

Record ObjectMeta : Type := {
  om_name : string;
  om_namespace : string;
  om_uid : string;
  om_generation : Z;
  om_deleting : bool;
  om_finalizers : list string;
  om_owners : list (string * bool);
  om_labels : gmap string string;
  om_annotations : gmap string string
}.

(** A missing key of a Go map reads as the zero value. *)
Definition go_get (k : string) (m : gmap string string) : string := default "" (m !! k).

Definition annotation (k : string) (o : ObjectMeta) : string := go_get k (om_annotations o).

Definition with_annotations (a : gmap string string) (o : ObjectMeta) : ObjectMeta :=
  {| om_name := om_name o; om_namespace := om_namespace o; om_uid := om_uid o; om_generation := om_generation o;
     om_deleting := om_deleting o; om_finalizers := om_finalizers o; om_owners := om_owners o;
     om_labels := om_labels o; om_annotations := a |}.

Definition with_finalizers (l : list string) (o : ObjectMeta) : ObjectMeta :=
  {| om_name := om_name o; om_namespace := om_namespace o; om_uid := om_uid o; om_generation := om_generation o;
     om_deleting := om_deleting o; om_finalizers := l; om_owners := om_owners o; om_labels := om_labels o;
     om_annotations := om_annotations o |}.

Record KubeSecret : Type := { ks_meta : ObjectMeta; ks_data : gmap string string }.
Record ConfigMap : Type := { cm_meta : ObjectMeta; cm_data : gmap string string; cm_binary : gmap string string }.

(** ** Operations *)

(** The namespace and the labels a list is restricted to; a label without a value must
    only be present. *)
Record Selector : Type := { sel_namespace : option string; sel_labels : list (string * option string) }.

Definition everything : Selector := {| sel_namespace := None; sel_labels := [] |}.

Definition selects (s : Selector) (o : ObjectMeta) : bool :=
  match sel_namespace s with Some ns => String.eqb (om_namespace o) ns | None => true end &&
  forallb (fun '(k, v) => match v with
                          | Some v => bool_decide (om_labels o !! k = Some v)
                          | None => bool_decide (is_Some (om_labels o !! k))
                          end) (sel_labels s).

(** The calls for one kind of object. [k_patch] sends the difference between two
    versions of an object's annotations. *)
Class Kube (W A : Type) : Type := {
  k_get : string -> string -> M W KubeError A;
  k_list : Selector -> M W KubeError (list A);
  k_create : A -> M W KubeError unit;
  k_update : A -> M W KubeError unit;
  k_update_status : A -> M W KubeError unit;
  k_patch : A -> A -> M W KubeError unit;
  k_delete : A -> M W KubeError unit
}.

(** [ctrl.Result]: done, again at once, or again after so many seconds. *)
Inductive Result : Type := Done | Requeue | RequeueAfter (seconds : N).

(** What a reconciler needs of its loop: a failed call is retried by the workqueue. *)
Definition Reconciler (W : Type) : Type := string * string -> M W KubeError Result.
