(* ===== verification/ControllerRest.v ===== *)
(** The controller's client of the REST service ([dc-controller/internal/controller/restclient.go]):
    its payloads, requests and how it classifies the answers. *)
From S2P Require Import Prelude Text Json Sql Api MetaStore KubeAuth Traits RestErrors Rest Http Cluster.
From Stdlib Require Import NArith.

(** ** Payloads *)

Record EnumValue : Type := { ge_value : string; ge_label : string }.

Record Field : Type := {
  gf_name : string;
  gf_label : string;
  gf_description : option string;
  gf_required : bool;
  gf_type : string;
  gf_enum_values : list EnumValue;
  gf_default_value : option string;
  gf_sensitive : bool;
  gf_multiple : bool
}.

Record ConnectionType : Type := {
  gct_name : string;
  gct_label : option string;
  gct_provider : string;
  gct_description : option string;
  gct_fields : list Field;
  gct_tags : list string
}.

Record Connection : Type := {
  gc_name : string;
  gc_type_id : string;
  gc_format : string;
  gc_secret : string;
  gc_properties : gmap string string
}.

Record FlightServiceRegistration : Type := {
  gfs_name : string;
  gfs_namespace : string;
  gfs_external_url : string;
  gfs_internal_url : string;
  gfs_ready : bool
}.

Record GoMetadata : Type := { gm_id : string; gm_tenant_id : string; gm_created_at : string; gm_updated_at : string }.
Record ConnectionTypeResource : Type := { gr_metadata : GoMetadata; gr_resource : ConnectionType }.

(** *** [json.Marshal]

    [omitempty] leaves out a nil pointer and an empty slice. *)

Definition omit_nil (o : option string) : option json := JString <$> o.
Definition omit_empty {A} (f : A -> json) (l : list A) : option json :=
  match l with [] => None | _ => Some (JArray (f <$> l)) end.

Definition enum_value_json (e : EnumValue) : json :=
  obj [("value", Some (JString (ge_value e))); ("label", Some (JString (ge_label e)))].

Definition field_json (f : Field) : json :=
  obj [("name", Some (JString (gf_name f)));
       ("label", Some (JString (gf_label f)));
       ("description", omit_nil (gf_description f));
       ("required", Some (JBool (gf_required f)));
       ("type", Some (JString (gf_type f)));
       ("enum_values", omit_empty enum_value_json (gf_enum_values f));
       ("default_value", omit_nil (gf_default_value f));
       ("sensitive", Some (JBool (gf_sensitive f)));
       ("multiple", Some (JBool (gf_multiple f)))].

Definition connection_type_json (ct : ConnectionType) : json :=
  obj [("name", Some (JString (gct_name ct)));
       ("label", omit_nil (gct_label ct));
       ("provider", Some (JString (gct_provider ct)));
       ("description", omit_nil (gct_description ct));
       ("credentials_fields", Some (JArray (field_json <$> gct_fields ct)));
       ("tags", omit_empty JString (gct_tags ct))].

Definition connection_json (c : Connection) : json :=
  obj [("name", Some (JString (gc_name c)));
       ("data_connection_type_id", Some (JString (gc_type_id c)));
       ("format", Some (JString (gc_format c)));
       ("credentials_ref", Some (obj [("secret", Some (JString (gc_secret c)))]));
       ("properties", Some (JObject (JString <$> gc_properties c)))].

Definition registration_json (r : FlightServiceRegistration) : json :=
  obj [("name", Some (JString (gfs_name r)));
       ("namespace", Some (JString (gfs_namespace r)));
       ("external_url", Some (JString (gfs_external_url r)));
       ("internal_url", Some (JString (gfs_internal_url r)));
       ("status", Some (obj [("ready", Some (JBool (gfs_ready r)))]))].

(** *** [json.Unmarshal]

    Keys match whatever their case; of keys that differ only in case the exact one is
    taken. A missing key and [null] leave the zero value; a value of another type is an
    error. *)

Definition same_fold (k k' : string) : bool := String.eqb (to_ascii_lowercase k) (to_ascii_lowercase k').
Definition find_key (k : string) (m : gmap string json) : option json :=
  match m !! k with
  | Some v => Some v
  | None => snd <$> List.find (fun p => same_fold k p.1) (map_to_list m)
  end.

Definition zero_or {A} (zero : A) (dec : json -> option A) (v : json) : option A :=
  match v with JNull => Some zero | _ => dec v end.
Definition key {A} (zero : A) (dec : json -> option A) (k : string) (m : gmap string json) : option A :=
  match find_key k m with Some v => zero_or zero dec v | None => Some zero end.
Definition slice {A} (zero : A) (dec : json -> option A) (v : json) : option (list A) :=
  match v with JArray l => mapM (zero_or zero dec) l | _ => None end.
Definition pointer {A} (dec : json -> option A) (v : json) : option (option A) := Some <$> dec v.

Definition enum_value_zero : EnumValue := {| ge_value := ""; ge_label := "" |}.
Definition enum_value_decode (v : json) : option EnumValue :=
  m ← as_object v; a ← key "" as_str "value" m; b ← key "" as_str "label" m;
  Some {| ge_value := a; ge_label := b |}.

Definition field_zero : Field :=
  {| gf_name := ""; gf_label := ""; gf_description := None; gf_required := false; gf_type := "";
     gf_enum_values := []; gf_default_value := None; gf_sensitive := false; gf_multiple := false |}.
Definition field_decode (v : json) : option Field :=
  m ← as_object v;
  n ← key "" as_str "name" m; l ← key "" as_str "label" m; d ← key None (pointer as_str) "description" m;
  r ← key false as_bool "required" m; t ← key "" as_str "type" m;
  e ← key [] (slice enum_value_zero enum_value_decode) "enum_values" m;
  dv ← key None (pointer as_str) "default_value" m; s ← key false as_bool "sensitive" m;
  mu ← key false as_bool "multiple" m;
  Some {| gf_name := n; gf_label := l; gf_description := d; gf_required := r; gf_type := t;
          gf_enum_values := e; gf_default_value := dv; gf_sensitive := s; gf_multiple := mu |}.

Definition connection_type_zero : ConnectionType :=
  {| gct_name := ""; gct_label := None; gct_provider := ""; gct_description := None; gct_fields := []; gct_tags := [] |}.
Definition connection_type_decode (v : json) : option ConnectionType :=
  m ← as_object v;
  n ← key "" as_str "name" m; l ← key None (pointer as_str) "label" m; p ← key "" as_str "provider" m;
  d ← key None (pointer as_str) "description" m; f ← key [] (slice field_zero field_decode) "credentials_fields" m;
  t ← key [] (slice "" as_str) "tags" m;
  Some {| gct_name := n; gct_label := l; gct_provider := p; gct_description := d; gct_fields := f; gct_tags := t |}.

Definition metadata_zero : GoMetadata := {| gm_id := ""; gm_tenant_id := ""; gm_created_at := ""; gm_updated_at := "" |}.
Definition metadata_decode (v : json) : option GoMetadata :=
  m ← as_object v;
  i ← key "" as_str "id" m; t ← key "" as_str "tenant_id" m; c ← key "" as_str "created_at" m;
  u ← key "" as_str "updated_at" m;
  Some {| gm_id := i; gm_tenant_id := t; gm_created_at := c; gm_updated_at := u |}.

Definition resource_zero : ConnectionTypeResource := {| gr_metadata := metadata_zero; gr_resource := connection_type_zero |}.
Definition resource_decode (v : json) : option ConnectionTypeResource :=
  m ← as_object v;
  md ← key metadata_zero metadata_decode "metadata" m; r ← key connection_type_zero connection_type_decode "resource" m;
  Some {| gr_metadata := md; gr_resource := r |}.

(** [connectionTypeListResponse], of which the items are used. *)
Definition list_response_decode (v : json) : option (list ConnectionTypeResource) :=
  m ← zero_or ∅ as_object v;
  _ ← key 0%Z as_i64 "total_count" m;
  key [] (slice resource_zero resource_decode) "items" m.

(** ** Requests *)

Inductive ClientError : Type :=
| ErrConflict
| ErrServiceUnavailable
| ErrNotFound (what : string)
| ClientOther (text : string).

Record ClientRequest : Type := {
  cr_method : string;
  cr_url : string;
  cr_headers : gmap string string;
  cr_body : option json
}.
Record ClientResponse : Type := { cr_status : nat; cr_text : string }.

Definition maxResponseBodyBytes : N := 1048576.
(** What [io.LimitReader] lets through. *)
Definition limited (s : string) : string :=
  if (N.of_nat (String.length s) <=? maxResponseBodyBytes)%N then s
  else String.substring 0 (N.to_nat maxResponseBodyBytes) s.

Definition connectionTypesResource : string := "connection-types".
Definition connectionsResource : string := "connections".
Definition flightsResource : string := "flights".

Definition restDataURL (base resource : string) : string :=
  trim_end_slashes base +:+ "/api/v1alpha1/data/" +:+ resource.

Section Client.
Context {W : Type}.
(** The base URL, the token file (an absent file is no token), building and sending a
    request, and parsing a body. *)
Variable resolveURL : M W string string.
Variable read_token_file : M W string (option string).
Variable new_request : string -> option string.
Variable http_do : ClientRequest -> M W string ClientResponse.
Variable json_parse : string -> option json.
Variable json_error : string -> string.

(** [readToken]; its error is ignored like an empty token. *)
Definition read_token {E} : M W E string :=
  let? r := attempt read_token_file in
  mret match r with Ok (Some data) => trim data | _ => "" end.

Definition set_headers {E} (tenant_id : string) : M W E (gmap string string) :=
  let? token := read_token in
  let h := <["x-tenant-id" := tenant_id]> {["Content-Type" := "application/json"]} in
  mret (if is_empty token then h else <["Authorization" := "Bearer " +:+ token]> h).

(** Resolving the URL, building the request and sending it. *)
Definition send_request (method tenant_id resource : string) (body : option json) : M W ClientError ClientResponse :=
  let? url := map_err (fun _ => ErrServiceUnavailable) resolveURL in
  let target := restDataURL url resource in
  lift (match new_request target with Some e => Err (ClientOther ("creating request: " +:+ e)) | None => Ok tt end) ;?
  let? headers := set_headers tenant_id in
  map_err (fun _ => ErrServiceUnavailable)
    (http_do {| cr_method := method; cr_url := target; cr_headers := headers; cr_body := body |}).

Definition unexpected (r : ClientResponse) : ClientError :=
  ClientOther ("unexpected status " +:+ show_nat (cr_status r) +:+ ": " +:+ limited (cr_text r)).

(** The statuses every creation tells apart. *)
Definition created (r : ClientResponse) : result ClientError unit :=
  if cr_status r =? 201 then Ok tt
  else if cr_status r =? 409 then Err ErrConflict
  else if 500 <=? cr_status r then Err ErrServiceUnavailable
  else Err (unexpected r).

Definition create_connection_type (tenant_id : string) (ct : ConnectionType) : M W ClientError unit :=
  let? r := send_request "POST" tenant_id connectionTypesResource (Some (connection_type_json ct)) in
  lift (created r).

Definition create_connection (tenant_id : string) (c : Connection) : M W ClientError unit :=
  let? r := send_request "POST" tenant_id connectionsResource (Some (connection_json c)) in
  lift (created r).

Definition list_connection_types (tenant_id : string) : M W ClientError (list ConnectionTypeResource) :=
  let? r := send_request "GET" tenant_id connectionTypesResource None in
  let body := limited (cr_text r) in
  if 500 <=? cr_status r then throw ErrServiceUnavailable
  else if negb (cr_status r =? 200) then throw (unexpected r)
  else
    match json_parse body with
    | Some v => match list_response_decode v with
                | Some l => mret l
                | None => throw (ClientOther ("decoding connection types: " +:+ json_error body))
                end
    | None => throw (ClientOther ("decoding connection types: " +:+ json_error body))
    end.

Definition register_flight_service (tenant_id : string) (fs : FlightServiceRegistration) : M W ClientError unit :=
  let? r := send_request "POST" tenant_id flightsResource (Some (registration_json fs)) in
  lift match created r with
       | Err (ClientOther e) =>
           if (cr_status r =? 400) && contains "connectors_already_exists" (limited (cr_text r))
           then Err ErrConflict else Err (ClientOther e)
       | other => other
       end.
End Client.

(** [NewRestServiceURLResolver]: the service of the namespace of the first
    DataConnectService. *)
Definition rest_service_url {W} (list_namespaces : M W KubeError (list string)) : M W string string :=
  let? items := map_err (fun e => "listing DataConnectService CRs: " +:+ error_text e) list_namespaces in
  match items with
  | [] => throw "no DataConnectService CR found"
  | ns :: _ => mret ("https://dch-rest-service." +:+ ns +:+ ".svc.cluster.local:8443")
  end.

(** ** The payloads as the service reads them *)

Definition rust_enum_value (e : EnumValue) : Api.EnumValue := {| value := ge_value e; ev_label := ge_label e |}.

Definition rust_field (f : Field) : Api.Field :=
  {| field_name := gf_name f; field_label := gf_label f; description := gf_description f; required := gf_required f;
     d_type := gf_type f;
     enum_values := match gf_enum_values f with [] => None | l => Some (rust_enum_value <$> l) end;
     default_value := gf_default_value f; sensitive := gf_sensitive f; multiple := gf_multiple f |}.

Definition rust_type (ct : ConnectionType) : DataConnectionType :=
  {| type_name := gct_name ct; label := gct_label ct; provider := gct_provider ct;
     type_description := gct_description ct; credentials_fields := rust_field <$> gct_fields ct;
     tags := match gct_tags ct with [] => None | l => Some l end |}.

Definition rust_connection (c : Connection) (fmt : DataFormat) : DataConnection :=
  {| name := gc_name c; data_connection_type_id := gc_type_id c; format := fmt;
     credentials_ref := {| secret := gc_secret c |}; properties := gc_properties c |}.

Definition rust_flight (r : FlightServiceRegistration) : FlightService :=
  {| fs_name := gfs_name r; namespace := gfs_namespace r; external_url := gfs_external_url r;
     internal_url := gfs_internal_url r; supported_connectors := []; connector_capabilities := ∅;
     fs_status := {| ready := gfs_ready r |} |}.

(** What the controller makes of a connection type of the service. *)
Definition go_enum_value (e : Api.EnumValue) : EnumValue := {| ge_value := value e; ge_label := ev_label e |}.
Definition go_field (f : Api.Field) : Field :=
  {| gf_name := field_name f; gf_label := field_label f; gf_description := description f; gf_required := required f;
     gf_type := d_type f; gf_enum_values := go_enum_value <$> default [] (enum_values f);
     gf_default_value := default_value f; gf_sensitive := sensitive f; gf_multiple := multiple f |}.
Definition go_type (t : DataConnectionType) : ConnectionType :=
  {| gct_name := type_name t; gct_label := label t; gct_provider := provider t; gct_description := type_description t;
     gct_fields := go_field <$> credentials_fields t; gct_tags := default [] (tags t) |}.
Definition go_resource (r : DataConnectionTypeResource) : ConnectionTypeResource :=
  {| gr_metadata := {| gm_id := Api.id (dct_metadata r); gm_tenant_id := default "" (tenant_id (dct_metadata r));
                       gm_created_at := created_at (dct_metadata r); gm_updated_at := updated_at (dct_metadata r) |};
     gr_resource := go_type (dct_resource r) |}.

(** *** Sent *)

Lemma field_sent f : field_json f = to_value (rust_field f).
Proof.
  assert (He : forall es : list EnumValue, enum_value_json <$> es = to_value <$> (rust_enum_value <$> es)).
  { intros es. rewrite <- list_fmap_compose. by apply list_fmap_ext. }
  unfold field_json, omit_empty. rewrite He. by destruct f as [n l d r t [|e es] dv s m].
Qed.

Lemma connection_type_sent ct : connection_type_json ct = to_value (rust_type ct).
Proof.
  destruct ct as [n l p d fs ts]. unfold connection_type_json, rust_type. cbn.
  assert (Hf : field_json <$> fs = to_value <$> (rust_field <$> fs)).
  { rewrite <- list_fmap_compose. apply list_fmap_ext. intros. apply field_sent. }
  rewrite Hf. by destruct ts.
Qed.

Lemma connection_sent c fmt :
  gc_format c = data_format_display fmt -> connection_json c = to_value (rust_connection c fmt).
Proof. intros Hf. unfold connection_json. by rewrite Hf. Qed.

Lemma registration_sent r : registration_json r = to_value (rust_flight r).
Proof. done. Qed.

(** *** Received *)

Lemma key_fields {A} (zero : A) dec k l v a :
  assoc k l = Some v -> v <> JNull -> dec v = Some a -> key zero dec k (fields l) = Some a.
Proof. intros Hk Hv Hd. unfold key, find_key. rewrite fields_lookup, Hk. by destruct v. Qed.

(** No other key of the struct is taken for [k]. *)
Definition distinct_key (k : string) (l : list (string * option json)) : bool :=
  forallb (fun p => String.eqb p.1 k || negb (same_fold k p.1)) l.

Lemma fields_key k v l : fields l !! k = Some v -> exists o, (k, o) ∈ l.
Proof.
  induction l as [|[k' [x|]] l IH]; cbn; [by rewrite lookup_empty| |].
  - rewrite lookup_insert_Some. intros [[<- _]|[_ Hl]]; [eexists; by left|].
    destruct (IH Hl) as [o Ho]. exists o. by right.
  - intros Hl. destruct (IH Hl) as [o Ho]. exists o. by right.
Qed.

Lemma key_missing {A} (zero : A) dec k l :
  assoc k l = None -> distinct_key k l = true -> key zero dec k (fields l) = Some zero.
Proof.
  intros Hk Hd. unfold key, find_key. rewrite fields_lookup, Hk.
  destruct (List.find _ _) as [[k' v]|] eqn:Hf; [exfalso|done].
  apply List.find_some in Hf as [Hin Hs]. apply list_elem_of_In, elem_of_map_to_list in Hin. cbn in Hs.
  apply fields_key in Hin as Ho. destruct Ho as [o Ho].
  unfold distinct_key in Hd. rewrite forallb_forall in Hd. specialize (Hd _ (proj1 (list_elem_of_In _ _) Ho)). cbn in Hd.
  rewrite Hs, orb_false_r in Hd. apply String.eqb_eq in Hd as ->. by rewrite fields_lookup, Hk in Hin.
Qed.

Lemma slice_map {A B} (zero : A) dec (enc : B -> json) (f : B -> A) l :
  (forall b, enc b <> JNull) -> (forall b, dec (enc b) = Some (f b)) ->
  slice zero dec (JArray (enc <$> l)) = Some (f <$> l).
Proof.
  intros Hn Hd. cbn. apply mapM_Some. induction l as [|b l IH]; cbn; constructor; [|done].
  specialize (Hn b). unfold zero_or. rewrite Hd. by destruct (enc b).
Qed.

Lemma key_string k l s : assoc k l = Some (JString s) -> key "" as_str k (fields l) = Some s.
Proof. intros Hk. by eapply key_fields. Qed.

Lemma key_bool k l b : assoc k l = Some (JBool b) -> key false as_bool k (fields l) = Some b.
Proof. intros Hk. by eapply key_fields. Qed.

Lemma key_pointer k l o :
  assoc k l = skip_none o -> distinct_key k l = true -> key None (pointer as_str) k (fields l) = Some o.
Proof.
  intros Hk Hd. destruct o; [by eapply key_fields|by apply key_missing].
Qed.

Lemma key_slice {A B} `{Serde B} (zero : A) dec (f : B -> A) k l (bs : list B) :
  (forall b, to_value b <> JNull) -> (forall b : B, dec (to_value b) = Some (f b)) ->
  assoc k l = Some (to_value bs) \/ assoc k l = None /\ bs = [] /\ distinct_key k l = true ->
  key [] (slice zero dec) k (fields l) = Some (f <$> bs).
Proof.
  intros Hn Hd [Hk|(Hk & -> & Hl)]; [|by apply key_missing].
  eapply key_fields; [done|done|]. by apply slice_map.
Qed.

(** An absent option is no key. *)
Ltac eval_option o :=
  destruct o; cbn [skip_none fmap option_fmap option_map]; [left|right]; [eval_assoc|split_and!; [eval_assoc|done|done]].

(** Reads the next key of a serialised struct. *)
Ltac read_key :=
  match goal with
  | |- context [key "" as_str ?k (fields ?l)] => erewrite (key_string k l) by eval_assoc
  | |- context [key false as_bool ?k (fields ?l)] => erewrite (key_bool k l) by eval_assoc
  | |- context [key None (pointer as_str) ?k (fields ?l)] =>
      match l with context [(k, skip_none ?o)] => rewrite (key_pointer k l o) by first [eval_assoc | reflexivity] end
  end; cbn [mbind option_bind].

Ltac read_struct inst := cbn [to_value inst]; unfold obj at 1; cbn [as_object mbind option_bind]; repeat read_key.

Lemma enum_value_received e : enum_value_decode (to_value e) = Some (go_enum_value e).
Proof. unfold enum_value_decode. by read_struct serde_enum_value. Qed.

Lemma field_received f : field_decode (to_value f) = Some (go_field f).
Proof.
  unfold field_decode. read_struct serde_field.
  rewrite (key_slice enum_value_zero enum_value_decode go_enum_value "enum_values" _ (default [] (enum_values f))).
  - cbn [mbind option_bind]. by repeat read_key.
  - done.
  - apply enum_value_received.
  - eval_option (enum_values f).
Qed.

Lemma type_received t : connection_type_decode (to_value t) = Some (go_type t).
Proof.
  unfold connection_type_decode. read_struct serde_connection_type.
  rewrite (key_slice field_zero field_decode go_field "credentials_fields" _ (credentials_fields t));
    [|done|apply field_received|left; eval_assoc].
  cbn [mbind option_bind].
  rewrite (key_slice "" as_str (fun s : string => s) "tags" _ (default [] (tags t)));
    [|done|done|eval_option (tags t)].
  cbn [mbind option_bind]. by rewrite list_fmap_id.
Qed.

Lemma metadata_received m :
  metadata_decode (to_value m) =
  Some {| gm_id := Api.id m; gm_tenant_id := default "" (tenant_id m); gm_created_at := created_at m; gm_updated_at := updated_at m |}.
Proof.
  unfold metadata_decode. read_struct serde_metadata.
  assert (Ht : key "" as_str "tenant_id" (fields [("id", Some (to_value (Api.id m))); ("tenant_id", skip_none (tenant_id m));
    ("created_at", Some (to_value (created_at m))); ("updated_at", Some (to_value (updated_at m)))])
    = Some (default "" (tenant_id m))).
  { destruct (tenant_id m); [by apply key_string|by apply key_missing]. }
  rewrite Ht. cbn [mbind option_bind]. by repeat read_key.
Qed.

Lemma resource_received r : resource_decode (to_value r) = Some (go_resource r).
Proof.
  unfold resource_decode. cbn [to_value serde_type_resource]. unfold obj at 1. cbn [as_object mbind option_bind].
  rewrite (key_fields _ metadata_decode "metadata" _ (to_value (dct_metadata r)) (gr_metadata (go_resource r)));
    [|eval_assoc|done|apply metadata_received].
  cbn [mbind option_bind].
  by rewrite (key_fields _ connection_type_decode "resource" _ (to_value (dct_resource r)) (go_type (dct_resource r)));
    [|eval_assoc|done|apply type_received].
Qed.

(** The list of connection types the service answers with is the one the controller
    reads: a count fits [int], and no item is lost. *)
Lemma list_received (l : ResourceList DataConnectionTypeResource) :
  (Z.of_nat (total_count l) < 2 ^ 63)%Z -> list_response_decode (to_value l) = Some (go_resource <$> items l).
Proof.
  intros Hn. unfold list_response_decode. cbn [to_value serde_resource_list]. unfold obj, zero_or.
  cbn [as_object mbind option_bind].
  rewrite (key_fields _ as_i64 "total_count" _ (to_value (total_count l)) (Z.of_nat (total_count l)));
    [|eval_assoc|done|].
  - cbn [mbind option_bind].
    rewrite (key_slice resource_zero resource_decode go_resource "items" _ (items l));
      [done|done|apply resource_received|left; eval_assoc].
  - cbn. rewrite nat_N_Z. by rewrite decide_True.
Qed.

(** ** The interfaces the reconcilers call *)

Class ConnectionTypeClient (W : Type) : Type :=
  CreateConnectionType : string -> ConnectionType -> M W ClientError unit.

Class ConnectionMigrationClient (W : Type) : Type := {
  ListConnectionTypes : string -> M W ClientError (list ConnectionTypeResource);
  CreateConnection : string -> Connection -> M W ClientError unit
}.

Class FlightServiceClient (W : Type) : Type :=
  RegisterFlightService : string -> FlightServiceRegistration -> M W ClientError unit.
