(* ===== verification/Watchers.v ===== *)
(** The reconcilers that bring connections and connection types into the hub
    ([dc-controller/internal/controller]): the Secret watcher, the ConfigMap watcher
    and the InitDataConnectionType and InitDataConnection reconcilers. *)
From S2P Require Import Prelude Text Json Cluster ControllerRest.
From Stdlib Require Import NArith.

Definition labelODHConnectionType : string := "opendatahub.io/connection-type".
Definition labelODHDashboard : string := "opendatahub.io/dashboard".
Definition annotationConnectionTypeRef : string := "opendatahub.io/connection-type-ref".
Definition annotationDisplayName : string := "openshift.io/display-name".
Definition annotationDescription : string := "openshift.io/description".
Definition annotationDCHSynced : string := "dataconnecthub.opendatahub.io/synced".
Definition valueSyncedTrue : string := "true".
Definition requeueOnMigrationServiceUnavailable : N := 30.
Definition requeueOnServiceUnavailable : N := 15.

(** [builtinProviderAliases]: the provider a legacy ConfigMap stands for. *)
Definition builtinProviderAliases (n : string) : option string :=
  if String.eqb n "uri-v1" then Some "uri" else None.

Definition synced (o : ObjectMeta) : bool := String.eqb (annotation annotationDCHSynced o) valueSyncedTrue.
Definition mark (o : ObjectMeta) : ObjectMeta :=
  with_annotations (<[annotationDCHSynced := valueSyncedTrue]> (om_annotations o)) o.

(** ** Connection types of the dashboard *)

Record odhDropdownItem : Type := { oi_label : string; oi_value : string }.
Record odhField : Type := {
  of_type : string;
  of_name : string;
  of_description : string;
  of_envVar : string;
  of_required : bool;
  of_helperText : string;
  of_variant : string;
  of_items : list odhDropdownItem
}.

Definition odh_item_decode (v : json) : option odhDropdownItem :=
  m ← as_object v; l ← key "" as_str "label" m; x ← key "" as_str "value" m; Some {| oi_label := l; oi_value := x |}.

Definition odh_properties_decode (v : json) : option (string * string * list odhDropdownItem) :=
  m ← as_object v;
  h ← key "" as_str "helperText" m; x ← key "" as_str "variant" m;
  i ← key [] (slice {| oi_label := ""; oi_value := "" |} odh_item_decode) "items" m;
  Some (h, x, i).

Definition odh_field_zero : odhField :=
  {| of_type := ""; of_name := ""; of_description := ""; of_envVar := ""; of_required := false; of_helperText := "";
     of_variant := ""; of_items := [] |}.

Definition odh_field_decode (v : json) : option odhField :=
  m ← as_object v;
  t ← key "" as_str "type" m; n ← key "" as_str "name" m; d ← key "" as_str "description" m;
  e ← key "" as_str "envVar" m; r ← key false as_bool "required" m;
  p ← key ("", "", []) odh_properties_decode "properties" m;
  Some {| of_type := t; of_name := n; of_description := d; of_envVar := e; of_required := r;
          of_helperText := p.1.1; of_variant := p.1.2; of_items := p.2 |}.

(** The options of a dropdown, without those that have no value. *)
Definition dropdown_values (items : list odhDropdownItem) : list EnumValue :=
  (fun i => {| ge_value := oi_value i; ge_label := if is_empty (oi_label i) then oi_value i else oi_label i |})
    <$> List.filter (fun i => negb (is_empty (oi_value i))) items.

Definition odhFieldToField (f : odhField) : Field :=
  let desc := if is_empty (of_description f) then of_helperText f else of_description f in
  let values := if String.eqb (of_type f) "dropdown" then dropdown_values (of_items f) else [] in
  {| gf_name := of_envVar f; gf_label := of_name f;
     gf_description := if is_empty desc then None else Some desc;
     gf_required := of_required f;
     gf_type := match values with [] => "string" | _ => "enum" end;
     gf_enum_values := values; gf_default_value := None;
     gf_sensitive := String.eqb (of_type f) "hidden" || String.eqb (of_type f) "file";
     gf_multiple := match values with [] => false | _ => String.eqb (of_variant f) "multi" end |}.

(** Sections and fields without a variable carry no credential. *)
Definition carries_value (f : odhField) : bool :=
  negb (String.eqb (of_type f) "section" || is_empty (of_envVar f)).

Section Watchers.
Context {W : Type}.
Variable json_parse : string -> option json.

Definition configMapToConnectionType (cm : ConfigMap) (fields_json : string) : option ConnectionType :=
  v ← json_parse fields_json;
  fields ← zero_or [] (slice odh_field_zero odh_field_decode) v;
  Some {| gct_name := om_name (cm_meta cm); gct_label := None; gct_provider := om_name (cm_meta cm);
          gct_description := om_annotations (cm_meta cm) !! annotationDescription;
          gct_fields := odhFieldToField <$> List.filter carries_value fields; gct_tags := [] |}.

(** ** The DataConnectService being deleted *)

(** The DataConnectServices of the cluster, by their metadata. *)
Variable list_services : M W KubeError (list ObjectMeta).

Definition dataConnectServiceDeleting : M W KubeError bool :=
  let? r := attempt list_services in
  match r with
  | Err e => if bool_decide (reason e = IsNotFound) then mret false else throw e
  | Ok l => mret (existsb om_deleting l)
  end.

(** [client.IgnoreNotFound]-style reads: an object that is gone is nothing to do. *)
Definition get_or_done {A} (get : M W KubeError A) (k : A -> M W KubeError Result) : M W KubeError Result :=
  let? r := attempt get in
  match r with
  | Ok a => k a
  | Err e => if bool_decide (reason e = IsNotFound) then mret Done else throw e
  end.

(** ** Secrets *)

Section Secrets.
Context `{KS : !Kube W KubeSecret} `{RC : !ConnectionMigrationClient W}.

(** The connection type a reference names: by its name, or by the provider it is an
    alias of. *)
Definition find_type (type_ref : string) (types : list ConnectionTypeResource) : option string :=
  match List.find (fun t => String.eqb (gct_name (gr_resource t)) type_ref) types with
  | Some t => Some (gm_id (gr_metadata t))
  | None =>
      alias ← builtinProviderAliases type_ref;
      t ← List.find (fun t => String.eqb (gct_provider (gr_resource t)) alias) types;
      Some (gm_id (gr_metadata t))
  end.

Definition resolveConnectionTypeID (namespace type_ref : string) : M W ClientError string :=
  let? types := ListConnectionTypes namespace in
  lift (ok_or (find_type type_ref types) (ErrNotFound ("connection type " +:+ debug_str type_ref +:+ " not found"))).

Definition mark_secret_synced (s : KubeSecret) : M W KubeError Result :=
  k_patch s {| ks_meta := mark (ks_meta s); ks_data := ks_data s |} ;? mret Done.

(** The connection of a Secret: it refers to the Secret, and holds nothing of it. *)
Definition secret_connection (o : ObjectMeta) (type_id : string) : Connection :=
  let display := annotation annotationDisplayName o in
  {| gc_name := if is_empty display then om_name o else display; gc_type_id := type_id; gc_format := "tabular";
     gc_secret := om_name o; gc_properties := ∅ |}.

Definition secret_reconcile : Reconciler W := fun '(ns, n) =>
  get_or_done (k_get ns n) (fun s =>
    let o := ks_meta s in
    let? deleting := dataConnectServiceDeleting in
    if deleting then mret Done
    else if synced o then mret Done
    else
      let type_ref := annotation annotationConnectionTypeRef o in
      if is_empty type_ref then mret Done
      else
        let? r := attempt (resolveConnectionTypeID (om_namespace o) type_ref) in
        match r with
        | Err ErrServiceUnavailable | Err (ErrNotFound _) => mret (RequeueAfter requeueOnMigrationServiceUnavailable)
        | Err _ => mret Done
        | Ok type_id =>
            let? c := attempt (CreateConnection (om_namespace o) (secret_connection o type_id)) in
            match c with
            | Ok _ | Err ErrConflict => mark_secret_synced s
            | Err ErrServiceUnavailable => mret (RequeueAfter requeueOnMigrationServiceUnavailable)
            | Err _ => mret Done
            end
        end).
End Secrets.

(** ** ConfigMaps *)

Section ConfigMaps.
Context `{KC : !Kube W ConfigMap} `{TC : !ConnectionTypeClient W}.

Definition mark_configmap_synced (cm : ConfigMap) : M W KubeError Result :=
  k_patch cm {| cm_meta := mark (cm_meta cm); cm_data := cm_data cm; cm_binary := cm_binary cm |} ;? mret Done.

Definition configmap_reconcile : Reconciler W := fun '(ns, n) =>
  get_or_done (k_get ns n) (fun cm =>
    let o := cm_meta cm in
    let? deleting := dataConnectServiceDeleting in
    if deleting then mret Done
    else
      let already := synced o in
      match builtinProviderAliases (om_name o) with
      | Some _ => if already then mret Done else mark_configmap_synced cm
      | None =>
          match cm_data cm !! "fields" with
          | None => mret Done
          | Some fields_json =>
              match configMapToConnectionType cm fields_json with
              | None => mret Done
              | Some ct =>
                  let? r := attempt (CreateConnectionType (om_namespace o) ct) in
                  match r with
                  | Ok _ => mark_configmap_synced cm
                  | Err ErrConflict => if already then mret Done else mark_configmap_synced cm
                  | Err ErrServiceUnavailable => mret (RequeueAfter requeueOnMigrationServiceUnavailable)
                  | Err _ => mret Done
                  end
              end
          end
      end).
End ConfigMaps.
End Watchers.

(** ** Conditions *)

Inductive ConditionStatus : Type := ConditionTrue | ConditionFalse | ConditionUnknown.

Record Condition : Type := {
  c_type : string;
  c_status : ConditionStatus;
  c_observed : Z;
  c_reason : string;
  c_message : string
}.

(** [meta.SetStatusCondition]: the condition of that type is replaced where it stands,
    or added. *)
Fixpoint set_condition (c : Condition) (l : list Condition) : list Condition :=
  match l with
  | [] => [c]
  | d :: l => if String.eqb (c_type d) (c_type c) then c :: l else d :: set_condition c l
  end.
Definition remove_condition (t : string) (l : list Condition) : list Condition :=
  List.filter (fun c => negb (String.eqb (c_type c) t)) l.
Definition find_condition (t : string) (l : list Condition) : option Condition :=
  List.find (fun c => String.eqb (c_type c) t) l.

(** ** InitDataConnectionTypes *)

Record CredentialsField : Type := {
  cf_name : string;
  cf_label : string;
  cf_description : option string;
  cf_required : bool;
  cf_type : string;
  cf_enum_values : list EnumValue;
  cf_default_value : option string;
  cf_sensitive : bool;
  cf_multiple : bool
}.

Record InitDataConnectionTypeSpec : Type := {
  is_name : string;
  is_label : option string;
  is_provider : string;
  is_description : option string;
  is_fields : list CredentialsField;
  is_tags : list string
}.

Record InitDataConnectionType : Type := {
  idct_meta : ObjectMeta;
  idct_spec : InitDataConnectionTypeSpec;
  idct_phase : string;
  idct_conditions : list Condition
}.

Definition specToConnectionType (spec : InitDataConnectionTypeSpec) : ConnectionType :=
  {| gct_name := is_name spec; gct_label := is_label spec; gct_provider := is_provider spec;
     gct_description := is_description spec;
     gct_fields := (fun cf =>
       {| gf_name := cf_name cf; gf_label := cf_label cf; gf_description := cf_description cf;
          gf_required := cf_required cf; gf_type := cf_type cf; gf_enum_values := cf_enum_values cf;
          gf_default_value := cf_default_value cf; gf_sensitive := cf_sensitive cf;
          gf_multiple := cf_multiple cf |}) <$> is_fields spec;
     gct_tags := is_tags spec |}.

Definition terminal (phase : string) : bool := String.eqb phase "Completed" || String.eqb phase "AlreadyExists".

Definition client_error_text (e : ClientError) : string :=
  match e with
  | ErrConflict => "resource already exists"
  | ErrServiceUnavailable => "rest service unavailable"
  | ErrNotFound what => "resource not found: " +:+ what
  | ClientOther t => t
  end.

Section Init.
Context {W : Type} `{KI : !Kube W InitDataConnectionType} `{TC : !ConnectionTypeClient W}.

Definition with_status (phase : string) (status : ConditionStatus) (why message : string) (cr : InitDataConnectionType)
    : InitDataConnectionType :=
  {| idct_meta := idct_meta cr; idct_spec := idct_spec cr; idct_phase := phase;
     idct_conditions := set_condition {| c_type := "Synced"; c_status := status; c_observed := om_generation (idct_meta cr);
                                         c_reason := why; c_message := message |} (idct_conditions cr) |}.

(** [setStatus]: a failed update is logged. *)
Definition set_status (cr : InitDataConnectionType) (phase : string) (status : ConditionStatus) (why message : string)
    : M W KubeError unit :=
  attempt (k_update_status (with_status phase status why message cr)) ;? mret tt.

Definition idct_reconcile : Reconciler W := fun '(ns, n) =>
  get_or_done (k_get ns n) (fun cr =>
    if terminal (idct_phase cr) then mret Done
    else
      let? r := attempt (CreateConnectionType (om_namespace (idct_meta cr)) (specToConnectionType (idct_spec cr))) in
      match r with
      | Ok _ => set_status cr "Completed" ConditionTrue "Created" "Connection type registered in the REST service" ;? mret Done
      | Err ErrConflict =>
          set_status cr "AlreadyExists" ConditionTrue "AlreadyExists" "Connection type already exists in the REST service" ;?
          mret Done
      | Err ErrServiceUnavailable =>
          set_status cr "Pending" ConditionFalse "ServiceUnavailable" "REST service is not reachable" ;?
          mret (RequeueAfter requeueOnServiceUnavailable)
      | Err e => set_status cr "Error" ConditionFalse "SyncFailed" (client_error_text e) ;? mret Done
      end).
End Init.

(** The InitDataConnection reconciler only logs. *)
Definition idc_reconcile {W A} (get : string -> string -> M W KubeError A) : Reconciler W := fun '(ns, n) =>
  get_or_done (get ns n) (fun _ => mret Done).
