(* ===== verification/ControllerCalls.v ===== *)
(** The controller's calls, as the REST service serves them: the client of
    [ControllerRest] against the routes and handlers of [Rest], with the
    authenticating proxy of the REST service's pod between them. *)
From S2P Require Import Prelude Text Json Sql Api MetaStore Http KubeAuth Traits RestErrors Rest Cluster ControllerRest.
From Stdlib Require Import NArith.

(** ** Requests on the wire *)

Definition method_of (m : string) : Method :=
  if String.eqb m "GET" then GET else if String.eqb m "POST" then POST else OtherMethod.

(** The segments of an https URL's path. *)
Definition url_segments (u : string) : list string :=
  match strip_prefix "https://" u with Some r => tail (split "/" r) | None => [] end.

(** Names of headers are compared without case. *)
Definition header_of (h : gmap string string) (k : string) : option string :=
  snd <$> List.find (fun p => String.eqb (to_ascii_lowercase p.1) k) (map_to_list h).

(** The service's URL of a namespace. *)
Definition service_url (ns : string) : string := "https://dch-rest-service." +:+ ns +:+ ".svc.cluster.local:8443".

Lemma trim_end_slashes_keep s a : a <> "/"%char -> trim_end_slashes (s +:+ String a "") = s +:+ String a "".
Proof.
  intros Ha. unfold trim_end_slashes. rewrite rev_app. cbn [string_rev drop_slashes].
  destruct (Ascii.eqb_spec a "/"); [done|]. cbn [string_rev]. by rewrite rev_rev.
Qed.

Lemma service_segments ns resource :
  no_char "/" ns = true -> no_char "/" resource = true ->
  url_segments (restDataURL (service_url ns) resource) = ["api"; "v1alpha1"; "data"; resource].
Proof.
  intros Hn Hr. set (host := "dch-rest-service." +:+ ns +:+ ".svc.cluster.local:8443").
  assert (Hu : restDataURL (service_url ns) resource = "https://" +:+ host +:+ String "/" ("api/v1alpha1/data/" +:+ resource)).
  { unfold restDataURL, service_url.
    assert (Ht : "https://dch-rest-service." +:+ ns +:+ ".svc.cluster.local:8443" =
                 ("https://dch-rest-service." +:+ ns +:+ ".svc.cluster.local:844") +:+ "3") by by rewrite !sapp_assoc.
    rewrite Ht, trim_end_slashes_keep by done. unfold host. by rewrite !sapp_assoc. }
  rewrite Hu. unfold url_segments. rewrite (proj2 (strip_prefix_spec _ _ _) eq_refl).
  rewrite split_app.
  - cbn [tail]. change ("api/v1alpha1/data/" +:+ resource)
      with ("api" +:+ String "/" ("v1alpha1" +:+ String "/" ("data" +:+ String "/" resource))).
    rewrite !split_app by done. by rewrite split_no_char.
  - unfold host. by rewrite !no_char_app, Hn.
Qed.

Lemma header_of_unique (h : gmap string string) k k0 v :
  h !! k0 = Some v -> to_ascii_lowercase k0 = k ->
  (forall k', is_Some (h !! k') -> to_ascii_lowercase k' = k -> k' = k0) -> header_of h k = Some v.
Proof.
  intros Hk <- Hu. unfold header_of. destruct (List.find _ _) as [[k' v']|] eqn:Hf.
  - apply List.find_some in Hf as [Hin Hl]. apply list_elem_of_In, elem_of_map_to_list in Hin.
    apply String.eqb_eq in Hl. cbn in *. rewrite (Hu k' (ex_intro _ _ Hin) Hl) in Hin. congruence.
  - exfalso. assert (Hx := List.find_none _ _ Hf (k0, v)
      (proj1 (list_elem_of_In _ _) (proj2 (elem_of_map_to_list h k0 v) Hk))).
    cbn in Hx. by rewrite String.eqb_refl in Hx.
Qed.

Section Calls.
Context {W : Type} `{MS : MetaStoreI W} `{SS : SecretStoreI W} `{FI : FlightI W} `{CL : ClockI W}.
Variable json_merge : json -> json -> json.
Variable serde_text : json -> string.
Variable actix_text : string.
Variable svc : ApiService W.
(** [serde_json]'s printing. *)
Variable json_print : json -> string.
(** kube-rbac-proxy: it answers by itself, or forwards the request with the user it
    authenticated. *)
Variable proxy : ClientRequest -> result ClientResponse string.

Definition rest_request (rq : ClientRequest) (user : string) : Request :=
  {| rq_method := method_of (cr_method rq); rq_path := url_segments (cr_url rq);
     rq_header k := if String.eqb k X_REMOTE_USER then Some user else header_of (cr_headers rq) k;
     rq_query_path := None; rq_body := cr_body rq |}.

Definition body_text (b : HttpBody) : string :=
  match b with
  | JsonBody v => json_print v
  | NoBody => ""
  | StreamBody _ _ chunks => join "" (omap (fun c => match c with Ok s => Some s | Err _ => None end) chunks)
  end.

Definition client_response (r : Rest.HttpResponse) : ClientResponse :=
  {| cr_status := http_status r; cr_text := body_text (http_body r) |}.

Definition rest_http (rq : ClientRequest) : M W string ClientResponse := fun w =>
  match proxy rq with
  | Err r => (Ok r, w)
  | Ok user =>
      let (r, w') := serve json_merge serde_text actix_text svc (rest_request rq user) w in
      (Ok (client_response r), w')
  end.

(** ** What a call does *)

Variables (ns tenant user : string).
Variable resolveURL : M W string string.
Variable read_token_file : M W string (option string).
Variable new_request : string -> option string.
(** The service is found, the token file is only read, the proxy lets the controller
    through, and the tenant is a namespace. *)
Record reachable : Prop := {
  resolved w : resolveURL w = (Ok (service_url ns), w);
  token_read w : (read_token_file w).2 = w;
  request_built u : new_request u = None;
  forwarded rq : proxy rq = Ok user;
  namespace_plain : no_char "/" ns = true;
  tenant_valid : header_to_str tenant = Some tenant;
  tenant_given : tenant <> ""
}.
Hypothesis reach : reachable.

(** The context the service gives its handlers. *)
Definition controller_context : ApiContext :=
  {| ctx_tenant := tenant; ctx_identity := resolve_identity (header_to_str user) |}.

Abbreviation sent := (send_request resolveURL read_token_file new_request rest_http).
Abbreviation routes := (scope_routes json_merge serde_text actix_text svc).

(** The request a handler sees. *)
Definition handled (method resource : string) (body : option json) (h : gmap string string) : Request :=
  {| rq_method := method_of method; rq_path := [resource];
     rq_header k := if String.eqb k X_REMOTE_USER then Some user else header_of h k;
     rq_query_path := None; rq_body := body |}.

Lemma read_token_run {E} w : exists t, read_token read_token_file (E := E) w = (Ok t, w).
Proof using reach.
  unfold read_token, mseq, attempt, mret. pose proof (token_read reach w) as Hw. destruct (read_token_file w) as [r w']. cbn in *.
  subst. by eexists.
Qed.

Lemma sent_headers {E} w :
  exists h, set_headers read_token_file (E := E) tenant w = (Ok h, w) /\ header_of h X_TENANT_ID = Some tenant.
Proof using reach.
  unfold set_headers. destruct (read_token_run (E := E) w) as [t Ht]. rewrite (mseq_run _ _ _ _ _ Ht).
  eexists. split; [done|]. apply (header_of_unique _ _ "x-tenant-id"); [|done|].
  - destruct (is_empty t); [|rewrite lookup_insert_ne by done]; apply lookup_insert_eq.
  - intros k' Hk Hl. destruct (decide (k' = "x-tenant-id")) as [|Hne]; [done|]. exfalso.
    assert (Hor : k' = "Content-Type" \/ k' = "Authorization").
    { destruct Hk as [v Hk]. destruct (is_empty t); rewrite ?lookup_insert_Some, ?lookup_singleton_Some in Hk; naive_solver. }
    by destruct Hor as [-> | ->].
Qed.

Lemma sent_served method resource body w :
  no_char "/" resource = true ->
  exists h, sent method tenant resource body w =
    let (r, w') := routes (handled method resource body h) controller_context w in (Ok (client_response (respond r)), w').
Proof using reach.
  intros Hr. unfold send_request. rewrite (mseq_run _ _ _ (service_url ns) w).
  2:{ unfold map_err. by rewrite (resolved reach). }
  cbv zeta. rewrite (request_built reach), mseq_lift_ok.
  destruct (sent_headers (E := ClientError) w) as (h & Hh & Ht). rewrite (mseq_run _ _ _ _ _ Hh).
  exists h. unfold map_err, rest_http. rewrite (forwarded reach). unfold serve, rest_request. cbn [rq_path cr_url].
  rewrite service_segments by first [apply (namespace_plain reach)|done]. unfold validate_headers. cbn [rq_header cr_headers].
  change (String.eqb X_TENANT_ID X_REMOTE_USER) with false. cbn [cr_method cr_body rq_method rq_query_path rq_body].
  rewrite Ht, (tenant_valid reach).
  assert (He : is_empty tenant = false) by (pose proof (tenant_given reach); by destruct tenant). rewrite He.
  unfold run_handler. change (String.eqb X_REMOTE_USER X_REMOTE_USER) with true. cbn [mbind option_bind].
  unfold controller_context, handled. by destruct (routes _ _ w).
Qed.

Variable json_parse : string -> option json.
Variable json_error : string -> string.

(** The answer to a creation, from what its handler returned. *)
Definition answered {A} (m : M W RestErrorResponse Rest.HttpResponse) (k : ClientResponse -> result ClientError A)
    : M W ClientError A :=
  fun w => let (r, w') := m w in (k (client_response (respond r)), w').

Lemma sent_answered {A} method resource body (k : ClientResponse -> result ClientError A) m w :
  no_char "/" resource = true -> (forall h, routes (handled method resource body h) controller_context w = m w) ->
  (let? r := sent method tenant resource body in lift (k r)) w = answered m k w.
Proof using reach.
  intros Hr Hm. destruct (sent_served method resource body w Hr) as [h Hs]. unfold mseq, answered.
  rewrite Hs, Hm. by destruct (m w).
Qed.

(** Follows a request to its handler. *)
Ltac route := cbn [scope_routes handled rq_method rq_path method_of String.eqb Ascii.eqb Bool.eqb connectionTypesResource
  connectionsResource flightsResource]; unfold with_body, json_body, create_body; cbn [rq_body handled].

Lemma type_creation_served ct w :
  create_connection_type resolveURL read_token_file new_request rest_http tenant ct w =
  answered (Rest.create_connection_type controller_context (rust_type ct)) created w.
Proof using reach.
  apply sent_answered; [done|]. intros h. route. by rewrite connection_type_sent, serde_roundtrip.
Qed.

Lemma connection_creation_served c fmt w :
  gc_format c = data_format_display fmt ->
  create_connection resolveURL read_token_file new_request rest_http tenant c w =
  answered (Rest.create_connection controller_context (DataConnectionWithSecretRef (rust_connection c fmt))) created w.
Proof using reach.
  intros Hf. apply sent_answered; [done|]. intros h. route. unfold create_request_from_value.
  by rewrite (connection_sent c fmt), serde_roundtrip by done.
Qed.

(** What registration makes of an answer. *)
Definition registered (r : ClientResponse) : result ClientError unit :=
  match created r with
  | Err (ClientOther e) =>
      if (cr_status r =? 400) && contains "connectors_already_exists" (limited (cr_text r))
      then Err ErrConflict else Err (ClientOther e)
  | other => other
  end.

Lemma registration_served fs w :
  register_flight_service resolveURL read_token_file new_request rest_http tenant fs w =
  answered (create_flight_service_ep svc (rust_flight fs)) registered w.
Proof using reach.
  unfold register_flight_service. apply (sent_answered _ _ _ registered); [done|]. intros h. route.
  by rewrite registration_sent, serde_roundtrip.
Qed.

(** What fits below the limit is read whole. *)
Lemma limited_whole s : (N.of_nat (String.length s) <= maxResponseBodyBytes)%N -> limited s = s.
Proof. intros Hs. unfold limited. by apply N.leb_le in Hs as ->. Qed.

Lemma types_listed l w w' :
  ms_get_data_connection_types tenant w = (Ok l, w') ->
  json_parse (json_print (to_value l)) = Some (to_value l) -> (Z.of_nat (total_count l) < 2 ^ 63)%Z ->
  (N.of_nat (String.length (json_print (to_value l))) <= maxResponseBodyBytes)%N ->
  list_connection_types resolveURL read_token_file new_request rest_http json_parse json_error tenant w =
  (Ok (go_resource <$> items l), w').
Proof using reach.
  intros Hl Hp Hn Hs. unfold list_connection_types.
  destruct (sent_served "GET" connectionTypesResource None w eq_refl) as [h Hr].
  erewrite mseq_run.
  2:{ rewrite Hr. route. unfold Rest.list_connection_types. rewrite (mseq_run _ _ _ l w'); [reflexivity|].
      unfold map_err. cbn [ctx_tenant controller_context]. by rewrite Hl. }
  cbn [respond client_response cr_text cr_status http_status http_body ok_json body_text].
  change (500 <=? 200) with false. change (negb (200 =? 200)) with false. cbv iota zeta.
  by rewrite limited_whole, Hp, list_received.
Qed.
End Calls.
