(* ===== verification/History.v ===== *)
(** Histories of calls. A world is paired with the list of the calls made so far and
    their answers; what a computation may call is then a property of that list, for any
    API server behind it. *)
From S2P Require Import Prelude Text Json Cluster.

(** ** Recording *)

Section Recording.
Context {W Ev : Type}.

(** Runs [m] and records what it answered. *)
Definition recorded {E A} (event : result E A -> Ev) (m : M W E A) : M (W * list Ev) E A := fun s =>
  let '(r, w) := m s.1 in (r, (w, s.2 ++ [event r])).

(** Runs [m] without recording it. *)
Definition unrecorded {E A} (m : M W E A) : M (W * list Ev) E A := fun s => let '(r, w) := m s.1 in (r, (w, s.2)).
End Recording.

(** The calls for one kind of object, with their answers. *)
Inductive Call (A : Type) : Type :=
| Get (namespace name : string) (r : result KubeError A)
| Listed (s : Selector) (r : result KubeError (list A))
| Create (a : A) (r : result KubeError unit)
| Update (a : A) (r : result KubeError unit)
| UpdateStatus (a : A) (r : result KubeError unit)
| Patch (a b : A) (r : result KubeError unit)
| Delete (a : A) (r : result KubeError unit).
Arguments Get {A}.
Arguments Listed {A}.
Arguments Create {A}.
Arguments Update {A}.
Arguments UpdateStatus {A}.
Arguments Patch {A}.
Arguments Delete {A}.

Definition recording {W Ev A} (event : Call A -> Ev) (K : Kube W A) : Kube (W * list Ev) A := {|
  k_get ns n := recorded (fun r => event (Get ns n r)) (k_get ns n);
  k_list s := recorded (fun r => event (Listed s r)) (k_list s);
  k_create a := recorded (fun r => event (Create a r)) (k_create a);
  k_update a := recorded (fun r => event (Update a r)) (k_update a);
  k_update_status a := recorded (fun r => event (UpdateStatus a r)) (k_update_status a);
  k_patch a b := recorded (fun r => event (Patch a b r)) (k_patch a b);
  k_delete a := recorded (fun r => event (Delete a r)) (k_delete a)
|}.

(** ** Justification *)

Section Justified.
Context {W Ev : Type} (ok : list Ev -> Ev -> Prop).

(** Every call of a history is justified by those before it. *)
Definition justified (t : list Ev) : Prop := forall before e after, t = before ++ e :: after -> ok before e.

(** Calls that need no justification. *)
Definition free (e : Ev) : Prop := forall before, ok before e.

(** The history grows by free calls only. *)
Definition freely (s s' : W * list Ev) : Prop := exists l, s'.2 = s.2 ++ l /\ Forall free l.

#[export] Instance freely_preorder : PreOrder freely.
Proof.
  split.
  - intros s. exists []. by rewrite app_nil_r.
  - intros s1 s2 s3 (l1 & H1 & F1) (l2 & H2 & F2). exists (l1 ++ l2). rewrite H2, H1, app_assoc. split; [done|].
    by apply Forall_app.
Qed.

Lemma justified_nil : justified [].
Proof. intros before e after H. by destruct before. Qed.

Lemma justified_snoc t e : justified t -> ok t e -> justified (t ++ [e]).
Proof.
  intros Ht He before e' after Heq. destruct after as [|z after _] using rev_ind.
  - apply app_inj_tail in Heq as [-> ->]. done.
  - rewrite app_comm_cons, app_assoc in Heq. apply app_inj_tail in Heq as [-> ->]. by eapply Ht.
Qed.

Lemma justified_freely s s' : freely s s' -> justified s.2 -> justified s'.2.
Proof.
  intros (l & -> & Hl) Hs. clear s'. induction l as [|e l IH] using rev_ind; [by rewrite app_nil_r|].
  apply Forall_app in Hl as [Hl He]. rewrite app_assoc. apply justified_snoc; [by apply IH|].
  inversion_clear He as [|? ? H _]. apply H.
Qed.

(** A history only grows: what is in it stays. *)
Lemma freely_elem s s' e : freely s s' -> e ∈ s.2 -> e ∈ s'.2.
Proof. intros (l & -> & _) He. apply elem_of_app. by left. Qed.

Lemma recorded_freely {E A} (event : result E A -> Ev) (m : M W E A) :
  (forall r, free (event r)) -> steps freely (recorded event m).
Proof.
  intros Hf s. unfold recorded. destruct (m s.1) as [r w]. cbn. exists [event r]. split; [done|]. by repeat constructor.
Qed.

Lemma unrecorded_freely {E A} (m : M W E A) : steps freely (unrecorded (Ev := Ev) m).
Proof. intros s. unfold unrecorded. destruct (m s.1) as [r w]. cbn. exists []. by rewrite app_nil_r. Qed.
End Justified.

(** The answer of a recorded call is in the history. *)
Lemma recorded_in {W Ev E A} (event : result E A -> Ev) (m : M W E A) s r s' :
  recorded event m s = (r, s') -> event r ∈ s'.2.
Proof.
  unfold recorded. destruct (m s.1) as [r0 w]. intros [= <- <-]. cbn. apply elem_of_app. right. by apply list_elem_of_singleton.
Qed.

Lemma recorded_snoc {W Ev E A} (event : result E A -> Ev) (m : M W E A) s r s' :
  recorded event m s = (r, s') -> s'.2 = s.2 ++ [event r].
Proof. unfold recorded. destruct (m s.1) as [r0 w]. by intros [= <- <-]. Qed.

#[export] Hint Resolve unrecorded_freely recorded_freely : dch.
