(* ===== verification/SdkModels.v ===== *)
(** The Python SDK's models ([sdk/python/src/data_connect_hub/models.py]): what it
    reads from the REST service's resources, what it writes into request bodies, and
    how its objects print.

    Pydantic validates the scalar fields; it is the parameter [Pydantic], and a model is
    read by its documented rules: an unknown key is ignored, an absent key takes the
    field's default, [null] is accepted where the annotation admits [None]. *)
From S2P Require Import Prelude Text Json Api Rest ControllerRest.

(** ** Pydantic *)

Class Pydantic : Type := {
  DateTime : Type;
  pyd_str : json -> option string;
  pyd_bool : json -> option bool;
  pyd_datetime : json -> option DateTime
}.

(** A value of a field's own type is accepted as it is. *)
Class PydanticLaws `{Pydantic} : Prop := {
  pyd_str_ok s : pyd_str (JString s) = Some s;
  pyd_bool_ok b : pyd_bool (JBool b) = Some b
}.

Definition py_required {A} (dec : json -> option A) (k : string) (m : gmap string json) : option A := v ← m !! k; dec v.
Definition py_default {A} (d : A) (dec : json -> option A) (k : string) (m : gmap string json) : option A :=
  match m !! k with Some v => dec v | None => Some d end.
(** [A | None]. *)
Definition py_optional {A} (dec : json -> option A) (v : json) : option (option A) :=
  if is_null v then Some None else Some <$> dec v.
Definition py_list {A} (dec : json -> option A) (v : json) : option (list A) := l ← as_array v; mapM dec l.
Definition py_dict {A} (dec : json -> option A) (v : json) : option (gmap string A) := m ← as_object v; map_values dec m.

(** ** What the service's resources are read as *)

Section Models.
Context `{Pydantic}.

(** [DataFormat] and [DataConnectionState] are literals. *)
Definition py_format (v : json) : option DataFormat :=
  match v with
  | JString "tabular" => Some Tabular
  | JString "binary" => Some Binary
  | _ => None
  end.

Definition py_state (v : json) : option DataConnectionState :=
  match v with
  | JString "ready" => Some Ready
  | JString "ingestion_not_ready" => Some IngestionNotReady
  | JString "not_ready" => Some NotReady
  | _ => None
  end.

Record PyConnectionStatus : Type := {
  ps_state : DataConnectionState;
  ps_message : option string;
  ps_updated_at : option DateTime;
  ps_phases : list (gmap string json)
}.

Definition py_status_default : PyConnectionStatus :=
  {| ps_state := NotReady; ps_message := None; ps_updated_at := None; ps_phases := [] |}.

Definition py_connection_status (v : json) : option PyConnectionStatus :=
  m ← as_object v;
  s ← py_default NotReady py_state "state" m;
  g ← py_default None (py_optional pyd_str) "message" m;
  u ← py_default None (py_optional pyd_datetime) "updated_at" m;
  p ← py_default [] (py_list as_object) "phases" m;
  Some {| ps_state := s; ps_message := g; ps_updated_at := u; ps_phases := p |}.

(** [_flatten_resource]: the envelope's parts are merged into one object, the resource's
    keys before the metadata's; unpacking a part that is not an object is a [TypeError]. *)
Definition _flatten_resource (data : json) : option json :=
  match data with
  | JObject d =>
      match d !! "metadata", d !! "resource" with
      | Some md, Some r =>
          md ← as_object md; r ← as_object r;
          let flat := r ∪ md in
          Some (JObject match d !! "status" with Some s => <["status" := s]> flat | None => flat end)
      | _, _ => Some data
      end
  | _ => Some data
  end.

(** [CredentialsRef]. *)
Definition py_credentials_ref (v : json) : option string := m ← as_object v; py_required pyd_str "secret" m.

Record PyConnection : Type := {
  pc_id : string;
  pc_name : string;
  pc_type_id : string;
  pc_format : DataFormat;
  pc_tenant_id : string;
  pc_created_at : DateTime;
  pc_updated_at : DateTime;
  pc_secret : string;
  pc_properties : gmap string string;
  pc_status : PyConnectionStatus
}.

(** [DataConnection.model_validate]. *)
Definition py_connection (v : json) : option PyConnection :=
  flat ← _flatten_resource v;
  m ← as_object flat;
  i ← py_required pyd_str "id" m;
  n ← py_required pyd_str "name" m;
  t ← py_required pyd_str "data_connection_type_id" m;
  f ← py_required py_format "format" m;
  te ← py_default "" pyd_str "tenant_id" m;
  c ← py_required pyd_datetime "created_at" m;
  u ← py_required pyd_datetime "updated_at" m;
  s ← py_required py_credentials_ref "credentials_ref" m;
  p ← py_default ∅ (py_dict pyd_str) "properties" m;
  st ← py_default py_status_default py_connection_status "status" m;
  Some {| pc_id := i; pc_name := n; pc_type_id := t; pc_format := f; pc_tenant_id := te; pc_created_at := c;
          pc_updated_at := u; pc_secret := s; pc_properties := p; pc_status := st |}.

Definition py_enum_value (v : json) : option (string * string) :=
  m ← as_object v; a ← py_required pyd_str "value" m; b ← py_required pyd_str "label" m; Some (a, b).

(** A field that was left to its default, or set: [exclude_unset] tells them apart. *)
Record PyField : Type := {
  pf_name : string;
  pf_label : string;
  pf_description : option (option string);
  pf_required : bool;
  pf_type : string;
  pf_enum_values : option (option (list (string * string)));
  pf_default_value : option (option string);
  pf_sensitive : option bool;
  pf_multiple : option bool
}.

(** A key that is present, and its value. *)
Definition py_settable {A} (dec : json -> option A) (k : string) (m : gmap string json) : option (option A) :=
  match m !! k with Some v => Some <$> dec v | None => Some None end.

(** [CredentialField]. *)
Definition py_field (v : json) : option PyField :=
  m ← as_object v;
  n ← py_required pyd_str "name" m;
  l ← py_required pyd_str "label" m;
  d ← py_settable (py_optional pyd_str) "description" m;
  r ← py_required pyd_bool "required" m;
  t ← py_required pyd_str "type" m;
  e ← py_settable (py_optional (py_list py_enum_value)) "enum_values" m;
  dv ← py_settable (py_optional pyd_str) "default_value" m;
  s ← py_settable pyd_bool "sensitive" m;
  mu ← py_settable pyd_bool "multiple" m;
  Some {| pf_name := n; pf_label := l; pf_description := d; pf_required := r; pf_type := t; pf_enum_values := e;
          pf_default_value := dv; pf_sensitive := s; pf_multiple := mu |}.

Record PyTypeStatus : Type := {
  pts_supported_formats : list string;
  pts_flight_ready : bool;
  pts_flight_url : option string;
  pts_message : option string;
  pts_updated_at : option string
}.

Definition py_type_status_default : PyTypeStatus :=
  {| pts_supported_formats := []; pts_flight_ready := false; pts_flight_url := None; pts_message := None; pts_updated_at := None |}.

(** [ConnectionTypeStatus]. *)
Definition py_type_status (v : json) : option PyTypeStatus :=
  m ← as_object v;
  f ← py_default [] (py_list pyd_str) "supported_formats" m;
  r ← py_default false pyd_bool "flight_ready" m;
  u ← py_default None (py_optional pyd_str) "flight_url" m;
  g ← py_default None (py_optional pyd_str) "message" m;
  a ← py_default None (py_optional pyd_str) "updated_at" m;
  Some {| pts_supported_formats := f; pts_flight_ready := r; pts_flight_url := u; pts_message := g; pts_updated_at := a |}.

Record PyConnectionType : Type := {
  pt_id : string;
  pt_name : string;
  pt_label : option string;
  pt_provider : string;
  pt_description : option string;
  pt_tenant_id : string;
  pt_created_at : option DateTime;
  pt_updated_at : option DateTime;
  pt_credentials_fields : list PyField;
  pt_tags : option (list string);
  pt_status : PyTypeStatus
}.

(** [ConnectionType.model_validate]. *)
Definition py_connection_type (v : json) : option PyConnectionType :=
  flat ← _flatten_resource v;
  m ← as_object flat;
  i ← py_required pyd_str "id" m;
  n ← py_required pyd_str "name" m;
  l ← py_default None (py_optional pyd_str) "label" m;
  p ← py_required pyd_str "provider" m;
  d ← py_default None (py_optional pyd_str) "description" m;
  te ← py_default "" pyd_str "tenant_id" m;
  c ← py_default None (py_optional pyd_datetime) "created_at" m;
  u ← py_default None (py_optional pyd_datetime) "updated_at" m;
  f ← py_default [] (py_list py_field) "credentials_fields" m;
  t ← py_default None (py_optional (py_list pyd_str)) "tags" m;
  st ← py_default py_type_status_default py_type_status "status" m;
  Some {| pt_id := i; pt_name := n; pt_label := l; pt_provider := p; pt_description := d; pt_tenant_id := te;
          pt_created_at := c; pt_updated_at := u; pt_credentials_fields := f; pt_tags := t; pt_status := st |}.

End Models.

(** ** Request bodies *)

(** The value of a field that may be unset, or set to [None]. *)
Definition set_value {A} (o : option (option A)) : option A := match o with Some a => a | None => None end.

(** [CreateConnectionRequest]: the secret of [credentials_ref], or the secret and the
    properties of [credentials]. *)
Record PyCreateConnection : Type := {
  cc_name : string;
  cc_type_id : string;
  cc_format : DataFormat;
  cc_credentials_ref : option string;
  cc_credentials : option (string * gmap string string);
  cc_properties : gmap string string
}.

(** [_validate_credentials]. *)
Definition _validate_credentials (r : PyCreateConnection) : bool :=
  negb (Bool.eqb (bool_decide (cc_credentials_ref r = None)) (bool_decide (cc_credentials r = None))).

(** [model_dump(exclude_none=True)], also of the nested models. *)
Definition create_connection_dump (r : PyCreateConnection) : json :=
  obj [("name", Some (to_value (cc_name r)));
       ("data_connection_type_id", Some (to_value (cc_type_id r)));
       ("format", Some (to_value (cc_format r)));
       ("credentials_ref", (fun s => obj [("secret", Some (JString s))]) <$> cc_credentials_ref r);
       ("credentials", (fun c => obj [("secret", Some (JString c.1)); ("properties", Some (to_value c.2))]) <$> cc_credentials r);
       ("properties", Some (to_value (cc_properties r)))].

Record PyUpdateConnection : Type := {
  uc_name : option string;
  uc_type_id : option string;
  uc_format : option DataFormat;
  uc_credentials_ref : option string;
  uc_properties : option (gmap string string)
}.

Definition update_connection_dump (r : PyUpdateConnection) : json :=
  obj [("name", skip_none (uc_name r));
       ("data_connection_type_id", skip_none (uc_type_id r));
       ("format", skip_none (uc_format r));
       ("credentials_ref", (fun s => obj [("secret", Some (JString s))]) <$> uc_credentials_ref r);
       ("properties", skip_none (uc_properties r))].

(** [CredentialTestRequest.model_dump()]. *)
Definition credential_test_dump (type_id : string) (credentials : gmap string string) : json :=
  obj [("data_connection_type_id", Some (JString type_id)); ("credentials", Some (to_value credentials))].

Definition enum_value_dump (e : string * string) : json := obj [("value", Some (JString e.1)); ("label", Some (JString e.2))].
Definition enum_values_dump (l : list (string * string)) : json := JArray (enum_value_dump <$> l).

(** A credential field without the fields that are [None]. *)
Definition field_dump (f : PyField) : json :=
  obj [("name", Some (JString (pf_name f)));
       ("label", Some (JString (pf_label f)));
       ("description", JString <$> set_value (pf_description f));
       ("required", Some (JBool (pf_required f)));
       ("type", Some (JString (pf_type f)));
       ("enum_values", enum_values_dump <$> set_value (pf_enum_values f));
       ("default_value", JString <$> set_value (pf_default_value f));
       ("sensitive", Some (JBool (default false (pf_sensitive f))));
       ("multiple", Some (JBool (default false (pf_multiple f))))].

(** A credential field with the fields that were set, [None] as [null]. *)
Definition null_or {A} (dump : A -> json) (o : option A) : json := match o with Some a => dump a | None => JNull end.
Definition field_dump_set (f : PyField) : json :=
  obj [("name", Some (JString (pf_name f)));
       ("label", Some (JString (pf_label f)));
       ("description", null_or JString <$> pf_description f);
       ("required", Some (JBool (pf_required f)));
       ("type", Some (JString (pf_type f)));
       ("enum_values", null_or enum_values_dump <$> pf_enum_values f);
       ("default_value", null_or JString <$> pf_default_value f);
       ("sensitive", JBool <$> pf_sensitive f);
       ("multiple", JBool <$> pf_multiple f)].

Record PyCreateType : Type := {
  ct_name : string;
  ct_label : option string;
  ct_provider : string;
  ct_description : option string;
  ct_credentials_fields : list PyField;
  ct_tags : option (list string)
}.

Definition create_type_dump (r : PyCreateType) : json :=
  obj [("name", Some (JString (ct_name r)));
       ("label", skip_none (ct_label r));
       ("provider", Some (JString (ct_provider r)));
       ("description", skip_none (ct_description r));
       ("credentials_fields", Some (JArray (field_dump <$> ct_credentials_fields r)));
       ("tags", skip_none (ct_tags r))].

(** [UpdateConnectionTypeRequest]: what was not set, what was set to [None], and what
    was set to a value. *)
Record PyUpdateType : Type := {
  ut_name : option (option string);
  ut_label : option (option string);
  ut_provider : option (option string);
  ut_description : option (option string);
  ut_credentials_fields : option (option (list PyField));
  ut_tags : option (option (list string))
}.

(** The patch of [update_connection_type]: [model_dump(exclude_unset=True)] without the
    fields that are [None], but for the three a [null] clears. *)
Definition update_type_patch (r : PyUpdateType) : json :=
  obj [("name", JString <$> set_value (ut_name r));
       ("label", null_or JString <$> ut_label r);
       ("provider", JString <$> set_value (ut_provider r));
       ("description", null_or JString <$> ut_description r);
       ("credentials_fields", (fun l => JArray (field_dump_set <$> l)) <$> set_value (ut_credentials_fields r));
       ("tags", null_or to_value <$> ut_tags r)].

(** ** Printing *)

(** An argument of a model's [repr]. *)
Inductive PyValue : Type := PyStr (s : string) | PyDict (m : gmap string string) | PyOther (s : string).

(** [_MaskProperties.__repr_args__]. *)
Definition mask_arg (a : string * PyValue) : string * PyValue :=
  match a.2 with
  | PyStr _ => if String.eqb a.1 "secret" then (a.1, PyStr "***") else a
  | PyDict m =>
      if bool_decide (a.1 ∈ ["credentials"; "properties"; "secret"]) && negb (bool_decide (m = ∅))
      then (a.1, PyDict ((fun _ => "***") <$> m)) else a
  | PyOther _ => a
  end.
Definition __repr_args__ (args : list (string * PyValue)) : list (string * PyValue) := mask_arg <$> args.

(** ** The service reads what the SDK writes *)

Definition rust_enum (e : string * string) : Api.EnumValue := {| value := e.1; ev_label := e.2 |}.

Definition rust_py_field (f : PyField) : Api.Field :=
  {| field_name := pf_name f; field_label := pf_label f; description := set_value (pf_description f);
     required := pf_required f; d_type := pf_type f; enum_values := fmap (M := list) rust_enum <$> set_value (pf_enum_values f);
     default_value := set_value (pf_default_value f); sensitive := default false (pf_sensitive f);
     multiple := default false (pf_multiple f) |}.

Definition rust_py_type (r : PyCreateType) : DataConnectionType :=
  {| type_name := ct_name r; label := ct_label r; provider := ct_provider r; type_description := ct_description r;
     credentials_fields := rust_py_field <$> ct_credentials_fields r; tags := ct_tags r |}.

(** The request the service's untagged enum decodes to. *)
Definition rust_py_connection (r : PyCreateConnection) : option CreateConnectionRequest :=
  match cc_credentials_ref r, cc_credentials r with
  | Some s, None => Some (DataConnectionWithSecretRef
      {| name := cc_name r; data_connection_type_id := cc_type_id r; format := cc_format r;
         credentials_ref := {| secret := s |}; properties := cc_properties r |})
  | None, Some (s, p) => Some (DataConnectionWithInlineCreds
      {| wc_name := cc_name r; wc_type_id := cc_type_id r; wc_format := cc_format r;
         wc_credentials := {| ic_secret := s; ic_properties := p |}; wc_properties := cc_properties r |})
  | _, _ => None
  end.

Lemma field_dump_sent f : field_dump f = to_value (rust_py_field f).
Proof.
  unfold field_dump. cbn [to_value serde_field rust_py_field field_name field_label description required d_type
    enum_values default_value sensitive multiple]. do 2 f_equal. repeat f_equal.
  destruct (set_value (pf_enum_values f)) as [l|]; [|done]. cbn. do 2 f_equal. by rewrite <- list_fmap_compose.
Qed.

Lemma create_type_sent r : create_type_dump r = to_value (rust_py_type r).
Proof.
  unfold create_type_dump. cbn [to_value serde_connection_type rust_py_type type_name label provider type_description
    credentials_fields tags serde_list]. repeat f_equal. rewrite <- list_fmap_compose.
  apply list_fmap_ext. intros _ f _. apply field_dump_sent.
Qed.

#[export] Instance serde_inline_creds_ok : SerdeOk InlineCreds.
Proof. serde_struct serde_inline_creds r. Qed.
#[export] Instance serde_with_creds_ok : SerdeOk DataConnectionWithCreds.
Proof. serde_struct serde_with_creds r. Qed.

Lemma create_connection_sent r :
  _validate_credentials r = true -> create_request_from_value (create_connection_dump r) = rust_py_connection r.
Proof.
  unfold _validate_credentials, rust_py_connection, create_request_from_value.
  destruct r as [n t f [s|] [[s' p]|] ps]; cbn [cc_credentials_ref cc_credentials cc_name cc_type_id cc_format cc_properties];
    intros Hv; try (by repeat case_bool_decide).
  - change (create_connection_dump _) with (to_value {| name := n; data_connection_type_id := t; format := f;
      credentials_ref := {| secret := s |}; properties := ps |}). by rewrite serde_roundtrip.
  - set (d := {| wc_name := n; wc_type_id := t; wc_format := f; wc_credentials := {| ic_secret := s'; ic_properties := p |};
      wc_properties := ps |}).
    change (create_connection_dump _) with (to_value d). rewrite serde_roundtrip.
    assert (Hno : from_value (A := DataConnection) (to_value d) = None); [|by rewrite Hno].
    cbn [from_value to_value serde_data_connection serde_with_creds]. unfold obj at 1. cbn [as_struct mbind option_bind].
    do 3 read_field. unfold req. by rewrite fields_lookup.
Qed.

(** No value of a credential is printed. *)
Lemma repr_hides_credentials args k m :
  (k, PyDict m) ∈ __repr_args__ args -> k ∈ ["credentials"; "properties"; "secret"] -> forall p v, m !! p = Some v -> v = "***".
Proof.
  unfold __repr_args__. rewrite list_elem_of_fmap. intros ([k' a] & Ha & _) Hk p v Hp. unfold mask_arg in Ha. cbn in Ha.
  destruct a as [s|m'|s]; [by destruct (String.eqb k' _)| |done].
  destruct (bool_decide (k' ∈ _) && negb (bool_decide (m' = ∅))) eqn:Hm; injection Ha as -> ->.
  - rewrite lookup_fmap in Hp. destruct (m' !! p); cbn in Hp; congruence.
  - apply andb_false_iff in Hm as [Hm|Hm].
    + by apply bool_decide_eq_false in Hm.
    + apply negb_false_iff, bool_decide_eq_true in Hm. subst m'. by rewrite lookup_empty in Hp.
Qed.

(** ** The SDK reads what the service writes *)

Section Received.
Context `{PydanticLaws}.

(** What the SDK holds of a resource, its timestamps parsed. *)
Definition py_status_of (r : DataConnectionStatus) (u : option DateTime) : PyConnectionStatus :=
  {| ps_state := state r; ps_message := message r; ps_updated_at := u; ps_phases := [] |}.

Definition py_connection_of (r : DataConnectionResource) (c u : DateTime) (su : option DateTime) : PyConnection :=
  {| pc_id := id (dc_metadata r); pc_name := name (dc_resource r); pc_type_id := data_connection_type_id (dc_resource r);
     pc_format := format (dc_resource r); pc_tenant_id := default "" (tenant_id (dc_metadata r)); pc_created_at := c;
     pc_updated_at := u; pc_secret := secret (credentials_ref (dc_resource r)); pc_properties := properties (dc_resource r);
     pc_status := py_status_of (dc_status r) su |}.

Definition py_enum_of (e : Api.EnumValue) : string * string := (value e, ev_label e).

Definition py_field_of (f : Api.Field) : PyField :=
  {| pf_name := field_name f; pf_label := field_label f; pf_description := Some <$> description f; pf_required := required f;
     pf_type := d_type f; pf_enum_values := (fun l : list Api.EnumValue => Some (py_enum_of <$> l)) <$> enum_values f;
     pf_default_value := Some <$> default_value f; pf_sensitive := Some (sensitive f); pf_multiple := Some (multiple f) |}.

Definition py_type_status_of (s : DataConnectionTypeStatus) : PyTypeStatus :=
  {| pts_supported_formats := data_format_display <$> supported_formats s; pts_flight_ready := flight_ready s;
     pts_flight_url := flight_url s; pts_message := type_message s; pts_updated_at := type_updated_at s |}.

Definition py_type_of (r : DataConnectionTypeResource) (c u : DateTime) : PyConnectionType :=
  {| pt_id := id (dct_metadata r); pt_name := type_name (dct_resource r); pt_label := label (dct_resource r);
     pt_provider := provider (dct_resource r); pt_description := type_description (dct_resource r);
     pt_tenant_id := default "" (tenant_id (dct_metadata r)); pt_created_at := Some c; pt_updated_at := Some u;
     pt_credentials_fields := py_field_of <$> credentials_fields (dct_resource r); pt_tags := tags (dct_resource r);
     pt_status := py_type_status_of (dct_status r) |}.

Lemma py_required_ok {A} (dec : json -> option A) k l v a :
  assoc k l = Some v -> dec v = Some a -> py_required dec k (fields l) = Some a.
Proof. intros Hk Hd. unfold py_required. by rewrite fields_lookup, Hk. Qed.

Lemma py_default_ok {A} (d : A) (dec : json -> option A) k l a :
  match assoc k l with Some v => dec v = Some a | None => a = d end -> py_default d dec k (fields l) = Some a.
Proof. unfold py_default. rewrite fields_lookup. by destruct (assoc k l); [|intros ->]. Qed.

Lemma py_settable_ok {A B} (dec : json -> option A) (enc : B -> json) (f : B -> A) k l (o : option B) :
  assoc k l = enc <$> o -> (forall b, dec (enc b) = Some (f b)) -> py_settable dec k (fields l) = Some (f <$> o).
Proof. intros Hk Hd. unfold py_settable. rewrite fields_lookup, Hk. destruct o; cbn; [by rewrite Hd|done]. Qed.

Lemma py_list_ok {A B} (dec : json -> option A) (enc : B -> json) (f : B -> A) l :
  (forall b, dec (enc b) = Some (f b)) -> py_list dec (JArray (enc <$> l)) = Some (f <$> l).
Proof. intros Hd. cbn. apply mapM_Some. induction l; cbn; constructor; auto. Qed.

Lemma py_optional_str o : py_optional pyd_str (to_value o) = Some o.
Proof. destruct o; cbn; [by rewrite pyd_str_ok|done]. Qed.

(** The envelope's keys, flattened: the lists of the parts, one after the other. *)
Lemma fields_app l l' : fields (l ++ l') = fields l ∪ fields l'.
Proof.
  induction l as [|[k [v|]] l IH]; cbn; [by rewrite (left_id_L ∅ _)| |done]. by rewrite IH, insert_union_l.
Qed.

Lemma flattened md r st :
  _flatten_resource (obj [("metadata", Some (obj md)); ("resource", Some (obj r)); ("status", Some st)]) =
  Some (obj (("status", Some st) :: r ++ md)).
Proof.
  unfold _flatten_resource, obj at 1. rewrite !fields_lookup. cbn [assoc String.eqb Ascii.eqb Bool.eqb].
  unfold obj. cbn [as_object mbind option_bind fields]. by rewrite fields_app.
Qed.

Ltac is_not_constructor o := lazymatch o with Some _ => fail | None => fail | _ => idtac end.

(** Reads the next key of a flattened object. *)
Ltac read_py_by tac :=
  match goal with
  | |- (py_required ?dec ?k (fields ?l) ≫= _) = _ => erewrite (py_required_ok dec k l) by first [eval_assoc | tac]
  | |- py_required ?dec ?k (fields ?l) = _ => erewrite (py_required_ok dec k l) by first [eval_assoc | tac]
  end; cbn [mbind option_bind].
Ltac read_py := read_py_by ltac:(first [apply pyd_str_ok | apply pyd_bool_ok | eassumption]).

(** Case analysis on the optional keys of a serialised struct. *)
Ltac destruct_skipped :=
  repeat match goal with |- context [skip_none ?o] => is_not_constructor o; destruct o eqn:? end.

(** Reads the next key that may be absent, as the value [a]. *)
Ltac read_py_as a tac :=
  match goal with
  | |- (py_default ?d ?dec ?k (fields ?l) ≫= _) = _ => rewrite (py_default_ok d dec k l a)
  end;
  [ cbn [mbind option_bind]
  | destruct_skipped;
    cbn [assoc String.eqb Ascii.eqb Bool.eqb skip_none fmap option_fmap option_map]; simplify_eq; try done; tac ].

Lemma status_received s u :
  match status_updated_at s with Some t => exists d, pyd_datetime (JString t) = Some d /\ u = Some d | None => u = None end ->
  py_connection_status (to_value s) = Some (py_status_of s u).
Proof using All.
  intros Hu. unfold py_connection_status. cbn [to_value serde_connection_status]. unfold obj. cbn [as_object mbind option_bind].
  read_py_as (state s) ltac:(by destruct (state s)).
  read_py_as (message s) ltac:(apply (py_optional_str (Some _))).
  read_py_as u ltac:(destruct Hu as (d & Hd & ->); cbn; by rewrite Hd).
  by read_py_as (@nil (gmap string json)) idtac.
Qed.

Lemma format_received f : py_format (to_value f) = Some f.
Proof. by destruct f. Qed.

Lemma properties_received (m : gmap string string) : py_dict pyd_str (to_value m) = Some m.
Proof using All. cbn. apply map_values_fmap. apply pyd_str_ok. Qed.

Lemma credentials_ref_received c : py_credentials_ref (to_value c) = Some (secret c).
Proof using All. unfold py_credentials_ref. cbn [to_value serde_credentials_ref]. unfold obj. cbn [as_object mbind option_bind]. by read_py. Qed.

(** [DataConnection.model_validate] reads every connection the service sends. *)
Lemma connection_received r c u su :
  pyd_datetime (JString (created_at (dc_metadata r))) = Some c -> pyd_datetime (JString (updated_at (dc_metadata r))) = Some u ->
  match status_updated_at (dc_status r) with
  | Some t => exists d, pyd_datetime (JString t) = Some d /\ su = Some d | None => su = None end ->
  py_connection (to_value r) = Some (py_connection_of r c u su).
Proof using All.
  intros Hc Hu Hs. unfold py_connection. cbn [to_value serde_connection_resource].
  cbn [to_value serde_metadata serde_data_connection]. rewrite flattened. unfold obj. cbn [as_object mbind option_bind app].
  do 3 read_py. read_py_by ltac:(apply format_received).
  read_py_as (default "" (tenant_id (dc_metadata r))) ltac:(apply pyd_str_ok). do 2 read_py.
  read_py_by ltac:(apply (credentials_ref_received (credentials_ref (dc_resource r)))). read_py_as (properties (dc_resource r)) ltac:(apply properties_received).
  by read_py_as (py_status_of (dc_status r) su) ltac:(by apply status_received).
Qed.

Lemma enum_received e : py_enum_value (to_value e) = Some (py_enum_of e).
Proof using All. unfold py_enum_value. cbn [to_value serde_enum_value]. unfold obj. cbn [as_object mbind option_bind]. by do 2 read_py. Qed.

(** The value of an optional key of a serialised struct. *)
Ltac eval_skipped := destruct_skipped; done.

Lemma py_field_received f : py_field (to_value f) = Some (py_field_of f).
Proof using All.
  unfold py_field. cbn [to_value serde_field]. unfold obj. cbn [as_object mbind option_bind]. do 2 read_py.
  rewrite (py_settable_ok _ JString Some "description" _ (description f)); [|eval_skipped|intros s; apply (py_optional_str (Some s))].
  cbn [mbind option_bind]. do 2 read_py.
  rewrite (py_settable_ok _ to_value (fun l => Some (py_enum_of <$> l)) "enum_values" _ (enum_values f)); [|eval_skipped|].
  2:{ intros l. unfold py_optional. cbn [is_null to_value serde_list]. by rewrite (py_list_ok _ to_value py_enum_of) by apply enum_received. }
  cbn [mbind option_bind].
  rewrite (py_settable_ok _ JString Some "default_value" _ (default_value f)); [|eval_skipped|intros s; apply (py_optional_str (Some s))].
  cbn [mbind option_bind].
  rewrite (py_settable_ok _ JBool (fun b => b) "sensitive" _ (Some (sensitive f))); [|eval_assoc|apply pyd_bool_ok].
  cbn [mbind option_bind].
  by rewrite (py_settable_ok _ JBool (fun b => b) "multiple" _ (Some (multiple f))); [|eval_assoc|apply pyd_bool_ok].
Qed.

Lemma type_status_received s : py_type_status (to_value s) = Some (py_type_status_of s).
Proof using All.
  unfold py_type_status. cbn [to_value serde_type_status]. unfold obj. cbn [as_object mbind option_bind].
  read_py_as (data_format_display <$> supported_formats s) ltac:(apply py_list_ok; intros b; apply pyd_str_ok).
  read_py_as (flight_ready s) ltac:(apply pyd_bool_ok).
  read_py_as (flight_url s) ltac:(apply py_optional_str).
  read_py_as (type_message s) ltac:(apply (py_optional_str (Some _))).
  by read_py_as (type_updated_at s) ltac:(apply py_optional_str).
Qed.

Lemma tags_received l : py_optional (py_list pyd_str) (to_value (A := list string) l) = Some (Some l).
Proof using All.
  unfold py_optional. cbn [is_null to_value serde_list]. rewrite (py_list_ok _ to_value (fun s : string => s)) by apply pyd_str_ok.
  by rewrite list_fmap_id.
Qed.

Lemma datetime_received s d : pyd_datetime (JString s) = Some d -> py_optional pyd_datetime (to_value s) = Some (Some d).
Proof. intros Hs. unfold py_optional. cbn [is_null to_value serde_string]. by rewrite Hs. Qed.

(** [ConnectionType.model_validate] reads every connection type the service sends. *)
Lemma py_type_received r c u :
  pyd_datetime (JString (created_at (dct_metadata r))) = Some c -> pyd_datetime (JString (updated_at (dct_metadata r))) = Some u ->
  py_connection_type (to_value r) = Some (py_type_of r c u).
Proof using All.
  intros Hc Hu. unfold py_connection_type. cbn [to_value serde_type_resource].
  cbn [to_value serde_metadata serde_connection_type]. rewrite flattened. unfold obj. cbn [as_object mbind option_bind app].
  do 2 read_py. read_py_as (label (dct_resource r)) ltac:(apply (py_optional_str (Some _))). read_py.
  read_py_as (type_description (dct_resource r)) ltac:(apply (py_optional_str (Some _))).
  read_py_as (default "" (tenant_id (dct_metadata r))) ltac:(apply pyd_str_ok).
  read_py_as (Some c) ltac:(by apply datetime_received). read_py_as (Some u) ltac:(by apply datetime_received).
  read_py_as (py_field_of <$> credentials_fields (dct_resource r)) ltac:(apply py_list_ok, py_field_received).
  read_py_as (tags (dct_resource r)) ltac:(apply tags_received).
  by read_py_as (py_type_status_of (dct_status r)) ltac:(apply type_status_received).
Qed.
End Received.
