(* ===== verification/Sdk.v ===== *)
(** The Python SDK's REST client ([sdk/python/src/data_connect_hub]): its exceptions
    ([exceptions.py]), tokens and headers ([_auth.py]) and requests with their retries
    ([_rest.py]).

    [httpx], the random numbers and the clock are the operations of the class [Httpx].
    Delays are rationals: the rounding of floats is left out. *)
From S2P Require Import Prelude Text Json Api SdkModels.
From Stdlib Require Import ZArith.
From Stdlib Require QArith.

Abbreviation Q := QArith_base.Q.

(** ** Text *)

(** A leading white space character of [str.isspace], and the rest. *)
Definition py_space (s : string) : option string :=
  match s with
  | String a r =>
      if byte_in 9 13 a || byte_in 28 32 a then Some r
      else match r with
           | String b r2 =>
               if is_ws2 a b then Some r2
               else match r2 with String c r3 => if is_ws3 a b c then Some r3 else None | _ => None end
           | _ => None
           end
  | _ => None
  end.

(** [str.lstrip], on a string as long as the counter. *)
Fixpoint lstrip_upto (n : nat) (s : string) : string :=
  match n with
  | O => s
  | S n => match py_space s with Some r => lstrip_upto n r | None => s end
  end.
Definition py_lstrip (s : string) : string := lstrip_upto (String.length s) s.

(** The characters up to the first white space. *)
Fixpoint py_word (s : string) : string :=
  match s with
  | String a r => match py_space s with Some _ => "" | None => String a (py_word r) end
  | EmptyString => ""
  end.

(** [token.split(None, 1)[0]]: [None] is the [IndexError] of a string of white space. *)
Definition first_word (s : string) : option string :=
  let s := py_lstrip s in if is_empty s then None else Some (py_word s).

(** [s[:n]] and [len(s)], on the characters of UTF-8 text. *)
Fixpoint take_chars (n : nat) (s : string) : string :=
  match s with
  | String a r =>
      if continuation a then String a (take_chars n r)
      else match n with O => "" | S n => String a (take_chars n r) end
  | EmptyString => ""
  end.
Fixpoint char_count (s : string) : nat :=
  match s with String a r => if continuation a then char_count r else S (char_count r) | EmptyString => 0 end.

(** [urllib.parse.quote(value, safe="")]. *)
Definition unreserved (a : ascii) : bool :=
  byte_in 48 57 a || byte_in 65 90 a || byte_in 97 122 a || bool_decide (a ∈ ["_"; "."; "-"; "~"]%char).
Definition upper_hex (n : nat) : ascii := ascii_of_nat (if n <? 10 then 48 + n else 55 + n).
Definition quote_byte (a : ascii) : string :=
  if unreserved a then String a ""
  else String "%" (String (upper_hex (nat_of_ascii a / 16)) (String (upper_hex (nat_of_ascii a mod 16)) "")).
Fixpoint quote (s : string) : string :=
  match s with String a r => quote_byte a +:+ quote r | EmptyString => "" end.

(** ** Exceptions (exceptions.py) *)

Inductive DCHHTTPClass : Type :=
| DCHValidationError | DCHAuthenticationError | DCHForbiddenError | DCHNotFoundError | DCHConflictError
| DCHServerError | DCHHTTPError.

(** What a call raises; [PyException] is an exception outside the SDK's hierarchy. *)
Inductive PyError : Type :=
| DCHError (m : string)
| DCHConnectionError (m : string)
| DCHTimeoutError (m : string)
| DCHHttp (class : DCHHTTPClass) (m : string) (status_code : nat) (body : string)
| DCHResponseError (m : string)
| DCHQueryError (m : string)
| DCHConfigError (m : string)
| PyException (m : string).

Definition http_class (status : nat) : DCHHTTPClass :=
  if (status =? 400) || (status =? 422) then DCHValidationError
  else if status =? 401 then DCHAuthenticationError
  else if status =? 403 then DCHForbiddenError
  else if status =? 404 then DCHNotFoundError
  else if status =? 409 then DCHConflictError
  else if 500 <=? status then DCHServerError
  else DCHHTTPError.

Definition map_http_error (status : nat) (body : string) : PyError :=
  let truncated := if 200 <? char_count body then take_chars 200 body +:+ "…" else body in
  DCHHttp (http_class status) ("HTTP " +:+ show_nat status +:+ ": " +:+ truncated) status body.

(** ** Tokens and headers (_auth.py) *)

(** The loop that removes leading [Bearer] prefixes, in any case. *)
Fixpoint strip_bearer (t : string) : string :=
  match t with
  | String a (String b (String c (String d (String e (String f (String g r)))))) =>
      if String.eqb (to_ascii_lowercase (String a (String b (String c (String d (String e (String f (String g ""))))))))
           "bearer " then strip_bearer r else t
  | _ => t
  end.

Definition _normalize_token (token : string) : result PyError string :=
  if is_empty token then Ok token
  else
    let token := strip_bearer token in
    let?? scheme := if is_empty token then Ok "" else ok_or (first_word token) (PyException "IndexError: list index out of range") in
    if bool_decide (to_ascii_lowercase scheme ∈ ["basic"; "digest"])
    then Err (DCHConfigError ("Unsupported auth scheme '" +:+ scheme +:+ "' — pass only the raw Bearer token value"))
    else Ok ("Bearer " +:+ token).

Definition build_headers (token tenant_id : string) : result PyError (gmap string string) :=
  let?? headers := if is_empty token then Ok ∅ else rmap (fun t => {["Authorization" := t]}) (_normalize_token token) in
  Ok (if is_empty tenant_id then headers else <["x-tenant-id" := tenant_id]> headers).

(** ** The HTTP library *)

Record HttpxRequest : Type := {
  hx_method : string;
  hx_base : string;
  hx_path : string;
  hx_headers : gmap string string;
  hx_json : option json;
  hx_params : list (string * string);
  hx_stream : bool
}.

(** [hx_id] tells the open responses apart; a streamed body is read by [hx_read] and
    [hx_next]. *)
Record HttpxResponse : Type := {
  hx_id : nat;
  hx_status : nat;
  hx_retry_after : option string;
  hx_text : string
}.

(** [httpx.RequestError]: its class, as far as the client asks for it. *)
Inductive RequestClass : Type := TimeoutException | ConnectError | OtherTransportError | NotTransport.
Record RequestError : Type := { re_class : RequestClass; re_name : string; re_text : string }.
(** Building or sending a request can also raise something else, such as [InvalidURL]. *)
Inductive SendError : Type := RequestFailed (e : RequestError) | OtherRaised (m : string).

Class Httpx (W : Type) : Type := {
  hx_send : HttpxRequest -> M W SendError HttpxResponse;
  hx_read : HttpxResponse -> M W RequestError string;
  hx_next : HttpxResponse -> M W RequestError (option string);
  hx_close : HttpxResponse -> W -> W;
  py_random : W -> Q * W;
  py_sleep : Q -> W -> W
}.

Definition _map_request_error (e : RequestError) (base_url : string) : PyError :=
  match re_class e with
  | TimeoutException => DCHTimeoutError ("Request timed out: " +:+ re_text e)
  | ConnectError => DCHConnectionError ("Failed to connect to " +:+ base_url +:+ ": " +:+ re_text e)
  | _ => DCHConnectionError ("Transport error contacting " +:+ base_url +:+ " (" +:+ re_name e +:+ "): " +:+ re_text e)
  end.

(** ** Floats, as the header [Retry-After] gives them *)

Inductive PyFloat : Type := PyFinite (q : Q) | PyInf | PyNegInf | PyNan.

Definition is_digit (a : ascii) : bool := byte_in 48 57 a.
Definition q_of_Z (z : Z) : Q := QArith_base.Qmake z 1.

(** Digits, with single underscores between them: their value, their number and the rest. *)
Fixpoint py_digits (s : string) (m : Z) (n : nat) : Z * nat * string :=
  match s with
  | String a r =>
      if is_digit a then py_digits r (m * 10 + Z.of_nat (nat_of_ascii a - 48))%Z (S n)
      else if Ascii.eqb a "_" && (0 <? n) then
        match r with String b _ => if is_digit b then py_digits r m n else (m, n, s) | _ => (m, n, s) end
      else (m, n, s)
  | EmptyString => (m, n, s)
  end.

Definition py_sign (s : string) : bool * string :=
  match s with
  | String a r => if Ascii.eqb a "-" then (true, r) else if Ascii.eqb a "+" then (false, r) else (false, s)
  | EmptyString => (false, s)
  end.

(** The exponent part: [None] when it is malformed or followed by anything. *)
Definition py_exponent (s : string) : option Z :=
  match s with
  | EmptyString => Some 0%Z
  | String a r =>
      if Ascii.eqb (lower_ascii a) "e" then
        let '(neg, r) := py_sign r in
        let '(e, n, r) := py_digits r 0 0 in
        if (0 <? n) && is_empty r then Some (if neg then - e else e)%Z else None
      else None
  end.

Definition py_unsigned (s : string) : option PyFloat :=
  let l := to_ascii_lowercase s in
  if String.eqb l "inf" || String.eqb l "infinity" then Some PyInf
  else if String.eqb l "nan" then Some PyNan
  else
    let '(m, n, r) := py_digits s 0 0 in
    let '(m, k, r) := match r with
                      | String a r' => if Ascii.eqb a "." then py_digits r' m 0 else (m, 0, r)
                      | EmptyString => (m, 0, r)
                      end in
    if 0 <? n + k then
      e ← py_exponent r;
      Some (PyFinite (QArith_base.Qmult (q_of_Z m) (QArith_base.Qpower (q_of_Z 10) (e - Z.of_nat k)%Z)))
    else None.

Definition py_negate (f : PyFloat) : PyFloat :=
  match f with PyFinite q => PyFinite (QArith_base.Qopp q) | PyInf => PyNegInf | PyNegInf => PyInf | PyNan => PyNan end.

(** [float(text)] of a header's text, which holds no control characters; [None] is the
    [ValueError]. *)
Definition py_float (s : string) : option PyFloat :=
  let '(neg, r) := py_sign (trim s) in
  f ← py_unsigned r; Some (if neg then py_negate f else f).

(** [min(a, b)] is [b] only if it is smaller. *)
Definition q_min (a b : Q) : Q := if QArith_base.Qle_bool a b then a else b.
Definition py_min (a : PyFloat) (b : Q) : PyFloat :=
  match a with
  | PyFinite q => PyFinite (q_min q b)
  | PyInf => PyFinite b
  | PyNegInf => PyNegInf
  | PyNan => PyNan
  end.

(** ** The client (_rest.py) *)

(** The token cache's token, and the world outside the client. *)
Record Sdk (W : Type) : Type := { cached : option string; outside : W }.
Arguments cached {W}.
Arguments outside {W}.
Arguments Build_Sdk {W}.

Definition _RETRYABLE_STATUS_CODES : list nat := [429; 502; 503; 504].
Definition _IDEMPOTENT_METHODS : list string := ["GET"; "HEAD"; "PUT"; "DELETE"; "OPTIONS"].

(** What the client asks the HTTP library to verify a server by. *)
Inductive Verify : Type := VerifyNothing | VerifyWith (ca_cert : string) | VerifySystem.

Record RestClient (W : Type) : Type := {
  rc_base_url : string;
  rc_token : string;
  rc_provider : option (M W string string);
  rc_tenant_id : string;
  rc_api_base : string;
  rc_max_retries : Z;
  rc_backoff_base : Q;
  rc_backoff_max : Q;
  rc_retry_methods : option (list string);
  rc_verify : Verify
}.
Arguments rc_base_url {W}.
Arguments rc_token {W}.
Arguments rc_provider {W}.
Arguments rc_tenant_id {W}.
Arguments rc_api_base {W}.
Arguments rc_max_retries {W}.
Arguments rc_backoff_base {W}.
Arguments rc_backoff_max {W}.
Arguments rc_retry_methods {W}.
Arguments rc_verify {W}.

(** [_unwrap_list]. *)
Definition _unwrap_list (data : json) : result PyError (list json) :=
  match data with
  | JArray l => Ok l
  | JObject m =>
      match m !! "items" with
      | Some (JArray l) => Ok l
      | Some _ => Err (DCHResponseError "Unexpected response format: items must be a list")
      | None => Err (DCHResponseError "Unexpected response format: expected list or items")
      end
  | _ => Err (DCHResponseError "Unexpected response format: expected list or items")
  end.

(** [_validate]: the model accepts the data, or schema drift. *)
Definition _validate {A} (model : string) (decode : json -> option A) (data : json) : result PyError A :=
  ok_or (decode data) (DCHResponseError ("Server returned an unexpected " +:+ model +:+ " payload")).

Definition _segment (value name : string) : result PyError string :=
  if is_empty (py_lstrip value) then Err (DCHConfigError (name +:+ " must be a non-empty string")) else Ok (quote value).

Section Client.
Context {W : Type} `{HX : !Httpx W}.
(** [json.loads]. *)
Variable json_parse : string -> option json.

(** [RestClient.__init__]. *)
Definition rest_client (url token tenant_id : string) (provider : option (M W string string)) (api_base : string)
    (max_retries : Z) (backoff_base backoff_max : Q) (retry_methods : option (list string)) (ca_cert : option string)
    (insecure : bool) : result PyError (RestClient W) :=
  match is_empty token, provider with
  | false, Some _ => Err (DCHConfigError "Cannot specify both 'token' and 'token_provider'. Please provide either a static token or a token_provider callable, not both.")
  | _, _ =>
      Ok {| rc_base_url := string_rev "" (trim_start_char "/" (string_rev "" url)); rc_token := token; rc_provider := provider;
            rc_tenant_id := tenant_id; rc_api_base := api_base; rc_max_retries := max_retries;
            rc_backoff_base := backoff_base; rc_backoff_max := backoff_max; rc_retry_methods := retry_methods;
            rc_verify := if insecure then VerifyNothing
                         else match ca_cert with
                              | Some c => if is_empty c then VerifySystem else VerifyWith c
                              | None => VerifySystem
                              end |}
  end.

(** An operation of the world outside. *)
Definition out {E A} (m : M W E A) : M (Sdk W) E A := fun s =>
  let (r, w) := m (outside s) in (r, {| cached := cached s; outside := w |}).
Definition out_do {E} (f : W -> W) : M (Sdk W) E unit := out (fun w => (Ok tt, f w)).

(** [TokenCache._call_provider], [refresh] and [get]. *)
Definition _call_provider (provider : M W string string) : M (Sdk W) PyError string :=
  map_err (fun e => DCHConfigError ("Token provider failed: " +:+ e)) (out provider).
Definition token_refresh (provider : M W string string) : M (Sdk W) PyError string :=
  let? t := _call_provider provider in
  fun s => (Ok t, {| cached := Some t; outside := outside s |}).
Definition token_get (provider : M W string string) : M (Sdk W) PyError string := fun s =>
  match cached s with Some t => (Ok t, s) | None => token_refresh provider s end.

Definition _headers (c : RestClient W) : M (Sdk W) PyError (gmap string string) :=
  if is_empty (rc_tenant_id c) then throw (DCHConfigError "tenant_id must be provided for REST operations")
  else
    let? token := match rc_provider c with Some p => token_get p | None => mret (rc_token c) end in
    lift (build_headers token (rc_tenant_id c)).

(** [method.upper()] of the literal methods the client uses is the method. *)
Definition _is_retryable (c : RestClient W) (method : string) : bool :=
  match rc_retry_methods c with None => true | Some l => bool_decide (method ∈ l) end.

(** [random.uniform(0.5, 1.0)] is [0.5 + 0.5 * random()]. *)
Definition half : Q := QArith_base.Qmake 1 2.
Definition _backoff_delay (c : RestClient W) (attempt : nat) : M (Sdk W) PyError PyFloat := fun s =>
  let delay := q_min (QArith_base.Qmult (rc_backoff_base c) (q_of_Z (2 ^ Z.of_nat attempt))) (rc_backoff_max c) in
  let (u, w) := py_random (outside s) in
  (Ok (PyFinite (QArith_base.Qmult delay (QArith_base.Qplus half (QArith_base.Qmult half u)))),
   {| cached := cached s; outside := w |}).

Definition _retry_after (c : RestClient W) (r : HttpxResponse) (attempt : nat) : M (Sdk W) PyError PyFloat :=
  match hx_retry_after r with
  | Some v => if is_empty v then _backoff_delay c attempt
              else match py_float v with
                   | Some f => mret (py_min f (rc_backoff_max c))
                   | None => _backoff_delay c attempt
                   end
  | None => _backoff_delay c attempt
  end.

(** [time.sleep]. *)
Definition sleep_for (d : PyFloat) : M (Sdk W) PyError unit :=
  match d with
  | PyFinite q => if QArith_base.Qle_bool (q_of_Z 0) q then out_do (py_sleep q)
                  else throw (PyException "ValueError: sleep length must be non-negative")
  | PyNan => throw (PyException "ValueError: Invalid value NaN (not a number)")
  | PyInf | PyNegInf => throw (PyException "OverflowError: timestamp out of range for platform time_t")
  end.

Definition is_transport (e : RequestError) : bool := match re_class e with NotTransport => false | _ => true end.
Definition retryable_status (n : nat) : bool := bool_decide (n ∈ _RETRYABLE_STATUS_CODES).

(** What a call asks for. *)
Record RestCall : Type := {
  call_method : string;
  call_path : string;
  call_json : option json;
  call_params : list (string * string);
  call_stream : bool
}.

Definition built (c : RestClient W) (k : RestCall) (headers : gmap string string) : HttpxRequest :=
  {| hx_method := call_method k; hx_base := rc_base_url c; hx_path := rc_api_base c +:+ call_path k; hx_headers := headers;
     hx_json := call_json k; hx_params := call_params k; hx_stream := call_stream k |}.

(** The loop of [_do_request], with the attempts that are left. *)
Fixpoint attempts_from (c : RestClient W) (k : RestCall) (i more : nat) : M (Sdk W) PyError HttpxResponse :=
  match more with
  | O => throw (DCHError "Request failed after retries")
  | S more =>
      let? headers := _headers c in
      let? r := attempt (out (hx_send (built c k headers))) in
      match r with
      | Err (OtherRaised m) => throw (PyException m)
      | Err (RequestFailed e) =>
          if is_transport e && (0 <? more) then
            let? delay := _backoff_delay c i in
            sleep_for delay ;? attempts_from c k (S i) more
          else throw (_map_request_error e (rc_base_url c))
      | Ok resp =>
          if retryable_status (hx_status resp) && (0 <? more) then
            let? delay := _retry_after c resp i in
            out_do (hx_close resp) ;? sleep_for delay ;? attempts_from c k (S i) more
          else mret resp
      end
  end.

Definition attempts_of (c : RestClient W) (method : string) : nat :=
  if _is_retryable c method then Z.to_nat (rc_max_retries c + 1) else 1.

Definition _do_request (c : RestClient W) (k : RestCall) : M (Sdk W) PyError HttpxResponse :=
  attempts_from c k 0 (attempts_of c (call_method k)).

Definition success (n : nat) : bool := (200 <=? n) && (n <? 300).

Definition _request (c : RestClient W) (k : RestCall) : M (Sdk W) PyError HttpxResponse :=
  let? resp := _do_request c k in
  let? resp := match rc_provider c with
               | Some p => if hx_status resp =? 401 then token_refresh p ;? _do_request c k else mret resp
               | None => mret resp
               end in
  if success (hx_status resp) then mret resp else throw (map_http_error (hx_status resp) (hx_text resp)).
(** *** Downloads *)

(** The chunks of a response that a caller takes: [n] of them before it drops the
    generator, or all there are. The error of the stream, if it broke. *)
Fixpoint pull (resp : HttpxResponse) (n : nat) : M (Sdk W) PyError (list string * option RequestError) :=
  match n with
  | O => mret ([], None)
  | S n =>
      let? r := attempt (out (hx_next resp)) in
      match r with
      | Err e => mret ([], Some e)
      | Ok None => mret ([], None)
      | Ok (Some chunk) => let? rest := pull resp n in mret (chunk :: rest.1, rest.2)
      end
  end.

(** [_stream_request], iterated by such a caller: the chunks it got and what was raised
    after them. *)
Definition _stream_request (c : RestClient W) (k : RestCall) (n : nat) : M (Sdk W) PyError (list string * option PyError) :=
  let? resp := _do_request c k in
  let? resp := match rc_provider c with
               | Some p =>
                   if hx_status resp =? 401 then out_do (hx_close resp) ;? token_refresh p ;? _do_request c k else mret resp
               | None => mret resp
               end in
  if success (hx_status resp) then
    let? got := pull resp n in
    out_do (hx_close resp) ;?
    mret (got.1, (fun e => _map_request_error e (rc_base_url c)) <$> got.2)
  else
    let? r := attempt (out (hx_read resp)) in
    out_do (hx_close resp) ;?
    throw match r with
          | Ok body => map_http_error (hx_status resp) body
          | Err e => _map_request_error e (rc_base_url c)
          end.

(** *** The operations *)

Definition _parse_json (resp : HttpxResponse) : result PyError json :=
  ok_or (json_parse (hx_text resp))
    (DCHResponseError ("Unexpected non-JSON response (status " +:+ show_nat (hx_status resp) +:+ "): " +:+ take_chars 200 (hx_text resp))).

Definition call_of (method path : string) (body : option json) : RestCall :=
  {| call_method := method; call_path := path; call_json := body; call_params := []; call_stream := false |}.

Context `{Pydantic}.
Variable c : RestClient W.

(** A call whose answer is one object of a model. *)
Definition asked {A} (model : string) (decode : json -> option A) (k : RestCall) : M (Sdk W) PyError A :=
  let? resp := _request c k in
  let? v := lift (_parse_json resp) in
  lift (_validate model decode v).
(** A call whose answer is a list of them. *)
Definition asked_list {A} (model : string) (decode : json -> option A) (k : RestCall) : M (Sdk W) PyError (list A) :=
  let? resp := _request c k in
  let? v := lift (_parse_json resp) in
  let? l := lift (_unwrap_list v) in
  lift (rmapM (_validate model decode) l).
(** A call whose answer is not read. *)
Definition asked_nothing (k : RestCall) : M (Sdk W) PyError unit := _request c k ;? mret tt.

Definition sdk_list_connections : M (Sdk W) PyError (list PyConnection) :=
  asked_list "DataConnection" py_connection (call_of "GET" "/connections" None).
Definition sdk_get_connection (connection_id : string) : M (Sdk W) PyError PyConnection :=
  let? i := lift (_segment connection_id "connection_id") in
  asked "DataConnection" py_connection (call_of "GET" ("/connections/" +:+ i) None).
Definition sdk_create_connection (r : PyCreateConnection) : M (Sdk W) PyError PyConnection :=
  asked "DataConnection" py_connection (call_of "POST" "/connections" (Some (create_connection_dump r))).
Definition sdk_update_connection (connection_id : string) (r : PyUpdateConnection) : M (Sdk W) PyError PyConnection :=
  let? i := lift (_segment connection_id "connection_id") in
  asked "DataConnection" py_connection (call_of "PATCH" ("/connections/" +:+ i) (Some (update_connection_dump r))).
Definition sdk_delete_connection (connection_id : string) : M (Sdk W) PyError unit :=
  let? i := lift (_segment connection_id "connection_id") in
  asked_nothing (call_of "DELETE" ("/connections/" +:+ i) None).
Definition sdk_export_connection (connection_id secret_name : string) : M (Sdk W) PyError unit :=
  let? i := lift (_segment connection_id "connection_id") in
  let? t := lift (_segment secret_name "secret_name") in
  asked_nothing (call_of "PUT" ("/connections/" +:+ i +:+ "/exports/secrets/" +:+ t) None).
Definition sdk_check_connection_readiness (connection_id : string) : M (Sdk W) PyError unit :=
  let? i := lift (_segment connection_id "connection_id") in
  asked_nothing (call_of "POST" ("/connections/" +:+ i +:+ "/readiness") None).
Definition sdk_download_binary (connection_id path : string) (n : nat) : M (Sdk W) PyError (list string * option PyError) :=
  if is_empty path then throw (DCHConfigError "path must be a non-empty string")
  else
    let? i := lift (_segment connection_id "connection_id") in
    _stream_request c {| call_method := "GET"; call_path := "/connections/" +:+ i +:+ "/binary"; call_json := None;
                         call_params := [("path", path)]; call_stream := true |} n.
Definition sdk_test_credentials (type_id : string) (credentials : gmap string string) : M (Sdk W) PyError unit :=
  asked_nothing (call_of "POST" "/test/credentials" (Some (credential_test_dump type_id credentials))).
Definition sdk_list_connection_types : M (Sdk W) PyError (list PyConnectionType) :=
  asked_list "ConnectionType" py_connection_type (call_of "GET" "/connection-types" None).
Definition sdk_get_connection_type (type_id : string) : M (Sdk W) PyError PyConnectionType :=
  let? i := lift (_segment type_id "type_id") in
  asked "ConnectionType" py_connection_type (call_of "GET" ("/connection-types/" +:+ i) None).
Definition sdk_create_connection_type (r : PyCreateType) : M (Sdk W) PyError PyConnectionType :=
  asked "ConnectionType" py_connection_type (call_of "POST" "/connection-types" (Some (create_type_dump r))).
Definition sdk_update_connection_type (type_id : string) (r : PyUpdateType) : M (Sdk W) PyError PyConnectionType :=
  let? i := lift (_segment type_id "type_id") in
  asked "ConnectionType" py_connection_type (call_of "PATCH" ("/connection-types/" +:+ i) (Some (update_type_patch r))).
Definition sdk_delete_connection_type (type_id : string) : M (Sdk W) PyError unit :=
  let? i := lift (_segment type_id "type_id") in
  asked_nothing (call_of "DELETE" ("/connection-types/" +:+ i) None).

(** *** The checks of [DataConnectClient] (client.py) before it calls them *)

Definition client_create_connection (r : PyCreateConnection) : M (Sdk W) PyError PyConnection :=
  if _validate_credentials r then sdk_create_connection r
  else throw (DCHConfigError "exactly one of credentials_ref or credentials must be provided").

Definition client_update_connection (connection_id : string) (r : PyUpdateConnection) : M (Sdk W) PyError PyConnection :=
  match uc_name r, uc_type_id r, uc_format r, uc_credentials_ref r, uc_properties r with
  | None, None, None, None, None => throw (DCHConfigError "at least one field must be provided for update")
  | _, _, _, _, _ => sdk_update_connection connection_id r
  end.

(** [None] of [label], [description] and [tags] is an argument that was not given. *)
Definition client_update_connection_type (type_id : string) (name : option string) (label : option (option string))
    (provider : option string) (description : option (option string)) (credentials_fields : option (list PyField))
    (tags : option (option (list string))) : M (Sdk W) PyError PyConnectionType :=
  match name, label, provider, description, credentials_fields, tags with
  | None, None, None, None, None, None => throw (DCHConfigError "at least one field must be provided for update")
  | _, _, _, _, _, _ =>
      sdk_update_connection_type type_id
        {| ut_name := Some <$> name; ut_label := label; ut_provider := Some <$> provider; ut_description := description;
           ut_credentials_fields := Some <$> credentials_fields; ut_tags := tags |}
  end.
End Client.
