(* ===== verification/SdkProps.v ===== *)
(** What the SDK's REST client sends: the history of its requests, for any server and
    any network behind it. *)
From S2P Require Import Prelude Text Json History SdkModels Sdk.
From Stdlib Require Import ZArith.

(** ** The history of the requests *)

Abbreviation Exchange := (HttpxRequest * result SendError HttpxResponse)%type.

#[local] Instance recording_httpx {W} `{!Httpx W} : Httpx (W * list Exchange) := {|
  hx_send rq := recorded (fun r => (rq, r)) (hx_send rq);
  hx_read r := unrecorded (hx_read r);
  hx_next r := unrecorded (hx_next r);
  hx_close r s := (hx_close r s.1, s.2);
  py_random s := let (u, w) := py_random s.1 in (u, (w, s.2));
  py_sleep d s := (py_sleep d s.1, s.2)
|}.

Definition observed_client {W} (c : RestClient W) : RestClient (W * list Exchange) :=
  {| rc_base_url := rc_base_url c; rc_token := rc_token c; rc_provider := unrecorded <$> rc_provider c;
     rc_tenant_id := rc_tenant_id c; rc_api_base := rc_api_base c; rc_max_retries := rc_max_retries c;
     rc_backoff_base := rc_backoff_base c; rc_backoff_max := rc_backoff_max c; rc_retry_methods := rc_retry_methods c;
     rc_verify := rc_verify c |}.

(** The exchanges of a call that starts with a cached token or none. *)
Definition exchanges {W} `{!Httpx W} (c : RestClient W) (k : RestCall) (token : option string) (w : W) : list Exchange :=
  (outside (_request (observed_client c) k {| cached := token; outside := (w, []) |}).2).2.

(** An answer after which the client tries again. *)
Definition transient (o : result SendError HttpxResponse) : bool :=
  match o with
  | Ok r => retryable_status (hx_status r)
  | Err (RequestFailed e) => is_transport e
  | Err (OtherRaised _) => false
  end.
Definition unauthorized (o : result SendError HttpxResponse) : bool :=
  match o with Ok r => hx_status r =? 401 | Err _ => false end.

(** A request of the call, for the client's tenant. *)
Definition asks {W} (c : RestClient W) (k : RestCall) (rq : HttpxRequest) : Prop :=
  exists headers, rq = built c k headers /\ headers !! "x-tenant-id" = Some (rc_tenant_id c).

(** Why a request is sent after another: the method may be repeated and the failure was
    transient, or this is the first refusal of the token and there is a provider. *)
Definition resendable {W} (c : RestClient W) (k : RestCall) (before : list Exchange) (o : Exchange) : Prop :=
  _is_retryable c (call_method k) = true /\ transient o.2 = true \/
  is_Some (rc_provider c) /\ unauthorized o.2 = true /\ Forall (fun e => unauthorized e.2 = false) before.

(** ** Steps that leave the history alone *)

Section Silent.
Context {W Ev : Type}.
Implicit Types s : Sdk (W * list Ev).

Definition history s : list Ev := (outside s).2.
Definition silent s s' : Prop := history s' = history s.

#[export] Instance silent_preorder : PreOrder silent.
Proof. split; [by intros s|]. intros s1 s2 s3 H1 H2. unfold silent in *. congruence. Qed.

Lemma silent_out {E A} (m : M W E A) : steps silent (out (unrecorded m)).
Proof. intros s. unfold out, unrecorded, silent, history. by destruct (m (outside s).1). Qed.

Lemma silent_out_do {E} (f : W * list Ev -> W * list Ev) : (forall x, (f x).2 = x.2) -> steps silent (out_do (E := E) f).
Proof. intros Hf s. unfold out_do, out, silent, history. cbn. apply Hf. Qed.

Lemma silent_refresh p : steps silent (token_refresh (unrecorded p)).
Proof.
  unfold token_refresh, _call_provider. apply steps_mseq; [apply _|apply steps_map_err, silent_out|]. by intros t s.
Qed.

Lemma silent_get p : steps silent (token_get (unrecorded p)).
Proof. intros s. unfold token_get. destruct (cached s); [reflexivity|apply silent_refresh]. Qed.
End Silent.

Section Resends.
Context {W : Type} `{HX : !Httpx W}.
Abbreviation World := (Sdk (W * list Exchange)).
Implicit Types s : World.

Variable c : RestClient W.

Lemma silent_headers : steps silent (_headers (observed_client c)).
Proof.
  unfold _headers. cbn. destruct (is_empty _); [apply (steps_throw _)|]. apply (steps_mseq _); [|intros; apply (steps_lift _)].
  destruct (rc_provider c) as [p|]; cbn; [apply silent_get|apply (steps_mret _)].
Qed.

Lemma silent_backoff i : steps silent (_backoff_delay (observed_client c) i).
Proof. intros s. unfold _backoff_delay, silent, history. cbn. by destruct (py_random (outside s).1). Qed.

Lemma silent_retry_after r i : steps silent (_retry_after (observed_client c) r i).
Proof. unfold _retry_after. repeat case_match; first [apply silent_backoff|apply (steps_mret _)]. Qed.

Lemma silent_sleep d : steps silent (sleep_for d).
Proof. unfold sleep_for. repeat case_match; first [apply (steps_throw _)|by apply silent_out_do]. Qed.

(** The headers carry the client's tenant. *)
Lemma headers_tenant s h s' :
  _headers (observed_client c) s = (Ok h, s') -> h !! "x-tenant-id" = Some (rc_tenant_id c).
Proof.
  unfold _headers. cbn. destruct (is_empty (rc_tenant_id c)) eqn:He; [done|].
  intros (t & s1 & _ & H)%mseq_ok. apply lift_ok in H as [H _]. unfold build_headers in H. rewrite He in H.
  destruct (if is_empty t then _ else _); cbn in H; [|done]. injection H as <-. apply lookup_insert_eq.
Qed.

Lemma mseq_regroup {E A B} (m1 : M World E A) (m2 : M World E unit) (m3 : A -> M World E unit) (k : M World E B) s :
  (let? a := m1 in m2 ;? m3 a ;? k) s = ((let? a := m1 in m2 ;? m3 a) ;? k) s.
Proof. unfold mseq. repeat (case_match; try done). all: naive_solver. Qed.

(** What a round of attempts sends: requests of the call, as many as allowed, of which
    all but the last failed transiently; its answer is that of the last. *)
Record round (k : RestCall) (n : nat) (l : list Exchange) (r : result PyError HttpxResponse) : Prop := {
  rd_asks : Forall (fun e => asks c k e.1) l;
  rd_bound : length l <= n;
  rd_again before o e after : l = before ++ o :: e :: after -> transient o.2 = true;
  rd_last resp : r = Ok resp -> exists before rq, l = before ++ [(rq, Ok resp)] /\ Forall (fun e => transient e.2 = true) before
}.

Lemma round_nothing k n e : round k n [] (Err e).
Proof. split; [constructor|cbn; lia| |done]. by intros [|? ?]. Qed.

Lemma round_once k n rq o r :
  asks c k rq -> (forall resp, r = Ok resp -> o = Ok resp) -> round k (S n) [(rq, o)] r.
Proof.
  intros Ha Hr. split; [by repeat constructor|cbn; lia| |].
  - intros [|? [|? ?]] o' e after; by intros [=].
  - intros resp H. rewrite (Hr resp H). by exists [], rq.
Qed.

Lemma round_cons k n rq o l r :
  asks c k rq -> transient o = true -> round k n l r -> round k (S n) ((rq, o) :: l) r.
Proof.
  intros Ha Ht [H1 H2 H3 H4]. split; [by constructor|cbn; lia| |].
  - intros [|x before] o' e after; cbn; intros [= <- Hl]; [by subst|by eapply H3].
  - intros resp Hr. destruct (H4 resp Hr) as (before & rq' & -> & Hb). exists ((rq, o) :: before), rq'. split; [done|].
    by constructor.
Qed.

Lemma attempts_round k n : forall i s,
  exists l, history (attempts_from (observed_client c) k i n s).2 = history s ++ l /\
    round k n l (attempts_from (observed_client c) k i n s).1.
Proof.
  induction n as [|n IH]; intros i s; cbn [attempts_from].
  { exists []. rewrite app_nil_r. split; [done|apply round_nothing]. }
  destruct (mseq _ _ s) as [r s'] eqn:H. cbn [fst snd].
  apply mseq_cases in H as [(e & H & ->)|(h & s1 & H1 & H)].
  { apply (steps_run _ _ _ _ _ silent_headers) in H. exists []. rewrite app_nil_r. split; [done|apply round_nothing]. }
  pose proof (headers_tenant _ _ _ H1) as Hh. apply (steps_run _ _ _ _ _ silent_headers) in H1.
  set (rq := built (observed_client c) k h) in *.
  assert (Ha : asks c k rq) by by exists h.
  apply mseq_cases in H as [(e & H & _)|(o & s2 & H2 & H)]; [by apply (fails_attempt (fun _ => False)) in H|].
  assert (Hs : history s2 = history s ++ [(rq, o)]).
  { unfold attempt in H2. destruct (out _ s1) as [o' s2'] eqn:Ho. injection H2 as -> <-. revert Ho. unfold out. cbn [hx_send recording_httpx].
    destruct (recorded _ _ (outside s1)) as [r2 w2] eqn:Hr. intros [= -> <-]. unfold history. cbn. apply recorded_snoc in Hr.
    rewrite Hr. unfold silent, history in H1. by rewrite H1. }
  (* a step that sends nothing, and then the attempts that are left *)
  assert (Hnext : transient o = true -> forall m : M World PyError unit, steps silent m ->
    (m ;? attempts_from (observed_client c) k (S i) n) s2 = (r, s') ->
    exists l, history s' = history s ++ l /\ round k (S n) l r).
  { intros Ht m Hm Hr. apply mseq_cases in Hr as [(e & Hr & ->)|([] & s3 & H3 & Hr)].
    - apply (steps_run _ _ _ _ _ Hm) in Hr. exists [(rq, o)]. rewrite Hr, Hs. split; [done|]. by apply round_once.
    - apply (steps_run _ _ _ _ _ Hm) in H3. destruct (IH (S i) s3) as (l & Hl & Hrd). rewrite Hr in Hl, Hrd. cbn in Hl, Hrd.
      exists ((rq, o) :: l). rewrite Hl, H3, Hs, <- app_assoc. split; [done|]. by apply round_cons. }
  assert (Hstop : forall r', (r', s2) = (r, s') -> (forall resp, r' = Ok resp -> o = Ok resp) ->
    exists l, history s' = history s ++ l /\ round k (S n) l r).
  { intros r' [= -> <-] Hr. exists [(rq, o)]. split; [done|]. by apply round_once. }
  destruct o as [resp|[e|m]].
  - destruct (retryable_status (hx_status resp) && (0 <? n)) eqn:Hb; [|by eapply Hstop; [exact H|intros ? [= ->]]].
    apply andb_true_iff in Hb as [Hb _]. rewrite mseq_regroup in H. eapply Hnext; [done| |exact H].
    apply (steps_mseq _); [apply silent_retry_after|intros d]. apply (steps_mseq _); [by apply silent_out_do|intros; apply silent_sleep].
  - destruct (is_transport e && (0 <? n)) eqn:Hb; [|by eapply Hstop; [exact H|]].
    apply andb_true_iff in Hb as [Hb _]. rewrite <- mseq_assoc in H. eapply Hnext; [done| |exact H].
    apply (steps_mseq _); [apply silent_backoff|intros; apply silent_sleep].
  - by eapply Hstop; [exact H|].
Qed.

Lemma do_request_round k s :
  exists l, history (_do_request (observed_client c) k s).2 = history s ++ l /\
    round k (attempts_of c (call_method k)) l (_do_request (observed_client c) k s).1.
Proof. apply attempts_round. Qed.
End Resends.

(** A request that is not the last of its round is repeated because it may be. *)
Lemma round_resendable {W} (c : RestClient W) k l r before o e after :
  round c k (attempts_of c (call_method k)) l r -> l = before ++ o :: e :: after ->
  _is_retryable c (call_method k) = true /\ transient o.2 = true.
Proof.
  intros [_ Hb Ha _] Hl. split; [|by eapply Ha]. destruct (_is_retryable c _) eqn:Hr; [done|exfalso].
  unfold attempts_of in Hb. rewrite Hr, Hl, length_app in Hb. cbn in Hb. lia.
Qed.

Lemma transient_authorized (o : result SendError HttpxResponse) : transient o = true -> unauthorized o = false.
Proof.
  destruct o as [r|]; [|done]. cbn. unfold retryable_status. intros H%bool_decide_eq_true.
  apply Nat.eqb_neq. intros Hs. rewrite Hs in H. by repeat (apply elem_of_cons in H as [H|H]; [done|]); apply elem_of_nil in H.
Qed.

(** A second round is only made after the first refusal of the token. *)
Lemma rounds_resendable {W} (c : RestClient W) k l1 l2 resp r before o e after :
  is_Some (rc_provider c) -> (hx_status resp =? 401) = true ->
  round c k (attempts_of c (call_method k)) l1 (Ok resp) -> round c k (attempts_of c (call_method k)) l2 r ->
  l1 ++ l2 = before ++ o :: e :: after -> resendable c k before o.
Proof.
  intros Hp Hs H1 H2 Hl. destruct (rd_last _ _ _ _ _ H1 resp eq_refl) as (b1 & rq & -> & Hb1).
  apply app_eq_inv in Hl as [(x & Hx & Hl)|(x & -> & ->)].
  - destruct x as [|o' x]; cbn in Hl.
    + left. rewrite app_nil_r in Hx. subst. eapply (round_resendable c k _ _ []); [exact H2|]. done.
    + injection Hl as <- Hl. destruct x as [|e' x].
      * apply app_inj_tail in Hx as [-> <-]. right. split_and!; [done|done|].
        eapply Forall_impl; [exact Hb1|]. intros y. cbn. apply transient_authorized.
      * injection Hl as <- _. left. eapply (round_resendable c k _ _ before); [exact H1|]. exact Hx.
  - left. by eapply (round_resendable c k _ _ x); [exact H2|].
Qed.

(** How often a call may go through its attempts. *)
Definition rounds_of {W} (c : RestClient W) : nat := match rc_provider c with Some _ => 2 | None => 1 end.

Definition sent_safely {W} (c : RestClient W) (k : RestCall) (l : list Exchange) : Prop :=
  Forall (fun e => asks c k e.1) l /\
  (forall before o e after, l = before ++ o :: e :: after -> resendable c k before o) /\
  length l <= rounds_of c * attempts_of c (call_method k).

Lemma one_round_safe {W} (c : RestClient W) k l r : round c k (attempts_of c (call_method k)) l r -> sent_safely c k l.
Proof.
  intros R. split_and!; [apply R| |].
  - intros before o e after Hl. left. by eapply round_resendable.
  - pose proof (rd_bound _ _ _ _ _ R). unfold rounds_of. destruct (rc_provider c); lia.
Qed.

Lemma two_rounds_safe {W} (c : RestClient W) k l1 l2 resp r :
  is_Some (rc_provider c) -> (hx_status resp =? 401) = true ->
  round c k (attempts_of c (call_method k)) l1 (Ok resp) -> round c k (attempts_of c (call_method k)) l2 r ->
  sent_safely c k (l1 ++ l2).
Proof.
  intros Hp Hs R1 R2. split_and!.
  - apply Forall_app. split; [apply R1|apply R2].
  - intros before o e after Hl. by eapply rounds_resendable.
  - pose proof (rd_bound _ _ _ _ _ R1). pose proof (rd_bound _ _ _ _ _ R2). rewrite length_app. unfold rounds_of.
    destruct Hp as [p ->]. lia.
Qed.

(** Deciding on the status sends nothing. *)
Lemma status_silent {W} `{!Httpx W} (m : M (Sdk (W * list Exchange)) PyError HttpxResponse) s r s' :
  (let? x := m in if success (hx_status x) then mret x else throw (map_http_error (hx_status x) (hx_text x))) s = (r, s') ->
  history s' = history (m s).2.
Proof. unfold mseq. destruct (m s) as [[x|e] s3]; [destruct (success _)|]; by intros [= <- <-]. Qed.

