(* ===== verification/SdkFlight.v ===== *)
(** The Python SDK's Flight client ([sdk/python/src/data_connect_hub/_flight.py]): its
    headers, queries over ADBC with their connections and cursors, the listing of tables
    with its hand-written protobuf message, and the server's information.

    The ADBC driver and pyarrow are the operations of the classes [Adbc] and [PyArrow]. *)
From S2P Require Import Prelude Text Json Sdk.
From Stdlib Require Import NArith ZArith.

(** ** Messages *)

(** [_encode_varint]: seven bits at a time, the low ones first. *)
Fixpoint varint_upto (fuel : nat) (value : N) : string :=
  match fuel with
  | O => ""
  | S fuel =>
      if (0x7F <? value)%N
      then String (ascii_of_N (N.lor (N.land value 0x7F) 0x80)) (varint_upto fuel (N.shiftr value 7))
      else String (ascii_of_N (N.land value 0x7F)) ""
  end.
Definition _encode_varint (value : N) : string := varint_upto (S (N.to_nat (N.log2 value))) value.

Definition _CGT_FIELD_TABLE_NAME_FILTER : N := 3.
Definition _CGT_FIELD_INCLUDE_SCHEMA : N := 5.
Definition _CMD_GET_TABLES_TYPE_URL : string := "type.googleapis.com/arrow.flight.protocol.sql.CommandGetTables".

Definition byte_length (s : string) : N := N.of_nat (String.length s).

(** The message of [_build_command_get_tables], before it is wrapped. *)
Definition get_tables_message (table_name_filter_pattern : option string) (include_schema : bool) : string :=
  match table_name_filter_pattern with
  | Some p => _encode_varint (N.lor (N.shiftl _CGT_FIELD_TABLE_NAME_FILTER 3) 2) +:+ _encode_varint (byte_length p) +:+ p
  | None => ""
  end +:+
  if include_schema then _encode_varint (N.lor (N.shiftl _CGT_FIELD_INCLUDE_SCHEMA 3) 0) +:+ _encode_varint 1 else "".

(** ** The libraries *)

(** [flight_dbapi.Error], and anything else that is raised. *)
Inductive AdbcError : Type := DbapiError (text : string) | OtherException (text : string).

Class Adbc (W : Type) : Type := {
  Conn : Type;
  Cursor : Type;
  Table : Type;
  Batch : Type;
  adbc_connect : string -> gmap string string -> M W AdbcError Conn;
  adbc_cursor : Conn -> M W string Cursor;
  adbc_execute : Cursor -> string -> M W AdbcError unit;
  fetch_arrow_table : Cursor -> M W AdbcError Table;
  fetch_next : Cursor -> M W AdbcError (option Batch);
  adbc_get_info : Conn -> M W AdbcError (list (string * string));
  cursor_close : Cursor -> M W string unit;
  conn_close : Conn -> M W string unit
}.

(** A call of [flight.FlightClient] that raises anything. *)
Class PyArrow (W : Type) : Type := {
  FlightConn : Type;
  FlightTable : Type;
  flight_connect : string -> bool -> option string -> M W string FlightConn;
  (** [get_flight_info] of a command: the first endpoint's ticket, if any. *)
  flight_info_ticket : FlightConn -> string -> list (string * string) -> M W string (option string);
  flight_do_get : FlightConn -> string -> list (string * string) -> M W string FlightTable;
  (** The bodies of the results of an action. *)
  flight_do_action : FlightConn -> string -> string -> list (string * string) -> M W string (list string);
  flight_close : FlightConn -> M W string unit;
  (** The names in a body: of its Arrow stream, or of its JSON when it is not one. *)
  connector_names : string -> result string (list string);
  (** [any_pb2.Any] with a type URL and a value, serialised. *)
  any_message : string -> string -> string
}.

(** ** The client *)

Definition ADBC_HEADER_PREFIX : string := "adbc.flight.sql.rpc.call_header.".

Record FlightClient (W : Type) : Type := {
  fl_url : string;
  fl_tenant_id : string;
  fl_provider : option (M W string string);
  fl_insecure : bool;
  fl_root_certs : option string;
  fl_adbc_opts : gmap string string;
  fl_static_headers : gmap string string
}.
Arguments fl_url {W}.
Arguments fl_tenant_id {W}.
Arguments fl_provider {W}.
Arguments fl_insecure {W}.
Arguments fl_root_certs {W}.
Arguments fl_adbc_opts {W}.
Arguments fl_static_headers {W}.

Definition _is_auth_error (text : string) : bool := contains "unauthenticated" (to_ascii_lowercase text).

(** What an exception prints as. *)
Definition adbc_text (e : AdbcError) : string := match e with DbapiError t | OtherException t => t end.

Section Flight.
Context {W : Type}.
(** The names of the driver's options, and [Path(ca_cert)]: its text, if it is a file. *)
Variables QUERY_TIMEOUT FETCH_TIMEOUT TLS_ROOT_CERTS TLS_SKIP_VERIFY : string.
Variable read_file : string -> option string.

(** [FlightClient.__init__]. *)
Definition flight_client (url token tenant_id : string) (provider : option (M W string string)) (timeout : option string)
    (ca_cert : option string) (insecure : bool) : result PyError (FlightClient W) :=
  match is_empty token, provider with
  | false, Some _ => Err (DCHConfigError "Cannot specify both 'token' and 'token_provider'. Please provide either a static token or a token_provider callable, not both.")
  | _, _ =>
      let opts : gmap string string :=
        match timeout with Some t => <[FETCH_TIMEOUT := t]> {[QUERY_TIMEOUT := t]} | None => ∅ end in
      let?? certs :=
        if insecure then Ok None
        else match ca_cert with
             | Some p => if is_empty p then Ok None
                         else rmap Some (ok_or (read_file p) (DCHConfigError ("CA certificate file not found: " +:+ p)))
             | None => Ok None
             end in
      let opts := if insecure then <[TLS_SKIP_VERIFY := "true"]> opts
                  else match certs with Some t => <[TLS_ROOT_CERTS := t]> opts | None => opts end in
      let?? headers := match provider with Some _ => Ok ∅ | None => build_headers token tenant_id end in
      Ok {| fl_url := url; fl_tenant_id := tenant_id; fl_provider := provider; fl_insecure := insecure; fl_root_certs := certs;
            fl_adbc_opts := opts; fl_static_headers := headers |}
  end.

Variable c : FlightClient W.

(** [_headers]. *)
Definition flight_headers : M (Sdk W) PyError (gmap string string) :=
  if is_empty (fl_tenant_id c) then throw (DCHConfigError "tenant_id must be provided for Flight operations")
  else match fl_provider c with
       | Some p => let? t := token_get p in lift (build_headers t (fl_tenant_id c))
       | None => mret (fl_static_headers c)
       end.

Definition _base_kwargs : M (Sdk W) PyError (gmap string string) :=
  let? h := flight_headers in
  mret (list_to_map ((fun p => (ADBC_HEADER_PREFIX +:+ to_ascii_lowercase p.1, p.2)) <$> map_to_list h) ∪ fl_adbc_opts c).

(** The headers of [_call_options]. *)
Definition _call_options : M (Sdk W) PyError (list (string * string)) :=
  let? h := flight_headers in mret ((fun p => (to_ascii_lowercase p.1, p.2)) <$> map_to_list h).

(** An operation that fails to connect for want of a valid token is repeated once with
    a refreshed one ([read], [server_info], [get_tables]). *)
Definition with_refresh {A} (m : M (Sdk W) PyError A) : M (Sdk W) PyError A :=
  let? r := attempt m in
  match r, fl_provider c with
  | Err (DCHConnectionError t), Some p => if _is_auth_error t then token_refresh p ;? m else lift r
  | _, _ => lift r
  end.

(** [try: m finally: f], where [f] may raise in its turn. *)
Definition finally {A} (m : M (Sdk W) PyError A) (f : M (Sdk W) PyError unit) : M (Sdk W) PyError A :=
  let? r := attempt m in f ;? lift r.
(** [contextlib.suppress(Exception)]. *)
Definition suppressed (m : M W string unit) : M (Sdk W) PyError unit := let? _ := attempt (out m) in mret tt.
(** An exception nothing catches. *)
Definition raised {A} (m : M W string A) : M (Sdk W) PyError A := map_err PyException (out m).

Section Queries.
Context `{AD : !Adbc W}.

(** [flight_dbapi.Error] becomes [f]; anything else passes. *)
Definition dbapi {A} (f : string -> PyError) (m : M W AdbcError A) : M (Sdk W) PyError A :=
  map_err (fun e => match e with DbapiError t => f t | OtherException t => PyException t end) (out m).

Definition _connect (connection_id : string) : M (Sdk W) PyError Conn :=
  let? kwargs := _base_kwargs in
  dbapi DCHConnectionError
    (adbc_connect (fl_url c) (<[ADBC_HEADER_PREFIX +:+ "x-data-connection-id" := connection_id]> kwargs)).

Definition _do_read (sql connection_id : string) : M (Sdk W) PyError Table :=
  let? conn := _connect connection_id in
  finally
    (let? cursor := raised (adbc_cursor conn) in
     finally (dbapi DCHQueryError (adbc_execute cursor sql) ;? dbapi DCHQueryError (fetch_arrow_table cursor))
       (suppressed (cursor_close cursor)))
    (raised (conn_close conn)).

Definition flight_read (sql connection_id : string) : M (Sdk W) PyError Table := with_refresh (_do_read sql connection_id).

(** The batches a caller takes before it drops the generator, and the error that ended
    them. *)
Fixpoint pull_batches (cursor : Cursor) (n : nat) : M (Sdk W) PyError (list Batch * option PyError) :=
  match n with
  | O => mret ([], None)
  | S n =>
      let? r := attempt (dbapi DCHQueryError (fetch_next cursor)) in
      match r with
      | Err e => mret ([], Some e)
      | Ok None => mret ([], None)
      | Ok (Some b) => let? rest := pull_batches cursor n in mret (b :: rest.1, rest.2)
      end
  end.

(** [_iter_batches]. *)
Definition _iter_batches (sql connection_id : string) (n : nat) : M (Sdk W) PyError (list Batch * option PyError) :=
  let? conn := with_refresh (_connect connection_id) in
  finally
    (let? cursor := raised (adbc_cursor conn) in
     finally (dbapi DCHQueryError (adbc_execute cursor sql) ;? pull_batches cursor n) (suppressed (cursor_close cursor)))
    (suppressed (conn_close conn)).
End Queries.

Section Arrow.
Context `{PA : !PyArrow W}.

(** [_flight_connect]. *)
Definition _flight_connect : M (Sdk W) PyError FlightConn :=
  map_err DCHConnectionError
    (out (flight_connect (fl_url c) (fl_insecure c)
            match fl_root_certs c with Some t => if is_empty t then None else Some t | None => None end)).

(** [except Exception as exc: raise DCHConnectionError(str(exc))], also of an exception
    of the SDK itself. *)
Definition py_text (e : PyError) : string :=
  match e with
  | DCHError m | DCHConnectionError m | DCHTimeoutError m | DCHHttp _ m _ _ | DCHResponseError m | DCHQueryError m
  | DCHConfigError m | PyException m => m
  end.
Definition as_connection_error {A} (m : M (Sdk W) PyError A) : M (Sdk W) PyError A :=
  map_err (fun e => DCHConnectionError (py_text e)) m.

Definition _build_command_get_tables (table_name_filter_pattern : option string) (include_schema : bool) : string :=
  any_message _CMD_GET_TABLES_TYPE_URL (get_tables_message table_name_filter_pattern include_schema).

Definition _do_get_tables (connection_id : string) (table_name_filter : option string) (include_schema : bool)
    : M (Sdk W) PyError FlightTable :=
  let cmd := _build_command_get_tables table_name_filter include_schema in
  let? opts := _call_options in
  let headers := opts ++ [("x-data-connection-id", connection_id)] in
  let? client := _flight_connect in
  finally
    (as_connection_error (
       let? ticket := raised (flight_info_ticket client cmd headers) in
       match ticket with
       | None => throw (DCHConnectionError "server returned no Flight endpoints for CommandGetTables")
       | Some t => raised (flight_do_get client t headers)
       end))
    (raised (flight_close client)).

Definition get_tables (connection_id : string) (table_name_filter : option string) (include_schema : bool)
    : M (Sdk W) PyError FlightTable :=
  with_refresh (_do_get_tables connection_id table_name_filter include_schema).

Definition _do_supported_connectors : M (Sdk W) PyError (list string) :=
  let? client := _flight_connect in
  finally
    (as_connection_error (
       let? opts := _call_options in
       let? results := raised (flight_do_action client "GetSupportedConnectors" "" opts) in
       match results with
       | [] => mret []
       | body :: _ => lift (rmap_err PyException (connector_names body))
       end))
    (raised (flight_close client)).

Context `{AD : !Adbc W}.

Definition _do_server_info : M (Sdk W) PyError (list (string * string) * list string) :=
  let? kwargs := _base_kwargs in
  let? conn := dbapi DCHConnectionError (adbc_connect (fl_url c) kwargs) in
  finally
    (let? info := dbapi DCHConnectionError (adbc_get_info conn) in
     let? names := _do_supported_connectors in
     mret (info, names))
    (raised (conn_close conn)).

Definition server_info : M (Sdk W) PyError (list (string * string) * list string) := with_refresh _do_server_info.
End Arrow.
End Flight.
