(* ===== verification/SdkFlightProps.v ===== *)
(** What the SDK's Flight client does with its connections, and that the Flight service
    reads what it sends. *)
From S2P Require Import Prelude Text Json Api History Flight Sdk SdkProps SdkFlight.
From Stdlib Require Import NArith ZArith Lia.

(** ** The history of a query *)

Section Driver.
Context {W : Type} `{AD : !Adbc W}.

Inductive DriverEvent : Type :=
| Connected (conn : Conn)
| Refused
| CursorOpened (cursor : Cursor)
| NoCursor
| Executed (cursor : Cursor) (sql : string)
| CursorClosed (cursor : Cursor)
| ConnClosed (conn : Conn).

#[local] Instance recording_adbc : Adbc (W * list DriverEvent) := {|
  Conn := Conn; Cursor := Cursor; Table := Table; Batch := Batch;
  adbc_connect u k := recorded (fun r => match r with Ok conn => Connected conn | Err _ => Refused end) (adbc_connect u k);
  adbc_cursor conn := recorded (fun r => match r with Ok cur => CursorOpened cur | Err _ => NoCursor end) (adbc_cursor conn);
  adbc_execute cur sql := recorded (fun _ => Executed cur sql) (adbc_execute cur sql);
  fetch_arrow_table cur := unrecorded (fetch_arrow_table cur);
  fetch_next cur := unrecorded (fetch_next cur);
  adbc_get_info conn := unrecorded (adbc_get_info conn);
  cursor_close cur := recorded (fun _ => CursorClosed cur) (cursor_close cur);
  conn_close conn := recorded (fun _ => ConnClosed conn) (conn_close conn)
|}.

Definition observed_flight (c : FlightClient W) : FlightClient (W * list DriverEvent) :=
  {| fl_url := fl_url c; fl_tenant_id := fl_tenant_id c; fl_provider := unrecorded <$> fl_provider c; fl_insecure := fl_insecure c;
     fl_root_certs := fl_root_certs c; fl_adbc_opts := fl_adbc_opts c; fl_static_headers := fl_static_headers c |}.

(** What reading a query does with the driver, from a cached token or none. *)
Definition read_events (c : FlightClient W) (sql connection_id : string) (token : option string) (w : W) : list DriverEvent :=
  (outside (flight_read (observed_flight c) sql connection_id {| cached := token; outside := (w, []) |}).2).2.

Abbreviation World := (Sdk (W * list DriverEvent)).
Implicit Types s : World.

(** A computation that adds the events [l], with the result [r]. *)
Definition does {E A} (m : M World E A) s (P : list DriverEvent -> result E A -> Prop) : Prop :=
  exists l, history (m s).2 = history s ++ l /\ P l (m s).1.

Lemma does_mseq {E A B} (m : M World E A) (f : A -> M World E B) s P Q :
  does m s P ->
  (forall l e, P l (Err e) -> Q l (Err e)) ->
  (forall l a s', m s = (Ok a, s') -> P l (Ok a) -> does (f a) s' (fun l' r => Q (l ++ l') r)) ->
  does (mseq m f) s Q.
Proof.
  intros (l & Hl & HP) He Hf. unfold does, mseq. destruct (m s) as [[a|e] s1] eqn:Hm; cbn in *.
  - destruct (Hf l a s1 eq_refl HP) as (l' & Hl' & HQ). exists (l ++ l'). by rewrite Hl', Hl, app_assoc.
  - exists l. eauto.
Qed.

Lemma does_quiet {E A} (m : M World E A) s : steps silent m -> does m s (fun l _ => l = []).
Proof. intros Hm. exists []. rewrite app_nil_r. split; [apply Hm|done]. Qed.

Lemma does_recorded {E A} (event : result E A -> DriverEvent) (m : M W E A) s :
  does (out (recorded event m)) s (fun l r => l = [event r]).
Proof.
  unfold does, out. destruct (recorded event m (outside s)) as [r y] eqn:Hr. apply recorded_snoc in Hr. cbn. exists [event r]. done.
Qed.

Lemma does_unrecorded {E A} (m : M W E A) s : does (out (unrecorded m)) s (fun l _ => l = []).
Proof. unfold does, out, unrecorded, history. destruct (m (outside s).1) as [r y]. cbn. exists []. by rewrite app_nil_r. Qed.

Lemma does_map_err {E F A} (g : E -> F) (m : M World E A) s P (Q : list DriverEvent -> result F A -> Prop) :
  does m s P -> (forall l r, P l r -> Q l (rmap_err g r)) -> does (map_err g m) s Q.
Proof. intros (l & Hl & HP) Hq. unfold does, map_err. destruct (m s) as [r s1]. exists l. eauto. Qed.

Lemma does_attempt {E F A} (m : M World E A) s P (Q : list DriverEvent -> result F (result E A) -> Prop) :
  does m s P -> (forall l r, P l r -> Q l (Ok r)) -> does (attempt m) s Q.
Proof. intros (l & Hl & HP) Hq. unfold does, attempt. destruct (m s) as [r s1]. exists l. eauto. Qed.

Lemma does_lift {E A} (r : result E A) s (P : list DriverEvent -> result E A -> Prop) : P [] r -> does (lift r) s P.
Proof. intros HP. exists []. by rewrite app_nil_r. Qed.

(** [finally] runs its end whatever happened. *)
Lemma does_finally {A} (m : M World PyError A) (f : M World PyError unit) s P Q R :
  does m s P -> (forall s', does f s' R) ->
  (forall l l' r, P l r -> R l' (Ok tt) -> Q (l ++ l') r) -> (forall l l' r e, P l r -> R l' (Err e) -> Q (l ++ l') (Err e)) ->
  does (finally m f) s Q.
Proof.
  intros Hm Hf H1 H2. unfold finally. eapply does_mseq; [by eapply (does_attempt _ _ P (fun l r => match r with Ok r => P l r | Err _ => False end))|done|].
  intros l r s' _ HP. cbn in HP. eapply does_mseq; [apply Hf| |].
  - intros l' e HR. cbn. eauto.
  - intros l' [] s2 _ HR. apply does_lift. rewrite app_nil_r. by apply H1.
Qed.

Variable c : FlightClient W.
Abbreviation client := (observed_flight c).

Lemma silent_kwargs : steps silent (_base_kwargs client).
Proof.
  unfold _base_kwargs. apply (steps_mseq _); [|intros; apply (steps_mret _)]. unfold flight_headers. cbn.
  destruct (is_empty _); [apply (steps_throw _)|]. destruct (fl_provider c) as [p|]; cbn; [|apply (steps_mret _)].
  apply (steps_mseq _); [apply silent_get|intros; apply (steps_lift _)].
Qed.

(** A connection that came about, or the failure to have one. *)
Definition connecting (l : list DriverEvent) (r : result PyError Conn) : Prop :=
  match r with Ok conn => l = [Connected conn] | Err _ => l = [] \/ l = [Refused] end.

Lemma connect_does cid s : does (_connect client cid) s connecting.
Proof.
  unfold _connect. eapply does_mseq; [apply does_quiet, silent_kwargs|intros l e ->; by left|].
  intros l k s' _ ->. unfold dbapi. eapply does_map_err; [apply does_recorded|]. intros l' r ->. destruct r; cbn; eauto.
Qed.

(** What happens on an open connection: one cursor, one execution, both ended. *)
Definition session (sql : string) (conn : Conn) (l : list DriverEvent) : Prop :=
  l = [NoCursor; ConnClosed conn] \/
  exists cur, l = [CursorOpened cur; Executed cur sql; CursorClosed cur; ConnClosed conn].

(** The error is not one that is answered with a new token. *)
Definition final {A} (r : result PyError A) : Prop := match r with Err (DCHConnectionError _) => False | _ => True end.

Lemma dbapi_query_final {A} (r : result AdbcError A) :
  final (rmap_err (fun e => match e with DbapiError t => DCHQueryError t | OtherException t => PyException t end) r).
Proof. by destruct r as [|[]]. Qed.

Lemma statement_does sql cur s :
  does (dbapi DCHQueryError (adbc_execute cur sql) ;? dbapi DCHQueryError (fetch_arrow_table cur)) s
    (fun l r => l = [Executed cur sql] /\ final r).
Proof.
  unfold dbapi. eapply does_mseq.
  - eapply (does_map_err _ _ _ _ (fun l r => l = [Executed cur sql] /\ final r)); [apply does_recorded|].
    intros l r ->. split; [done|apply dbapi_query_final].
  - intros l e [-> Hf]. by split.
  - intros l [] s' _ [-> _]. eapply does_map_err; [apply does_unrecorded|]. intros l r ->. split; [done|apply dbapi_query_final].
Qed.

Lemma suppressed_does cur s : does (suppressed (cursor_close cur)) s (fun l r => l = [CursorClosed cur] /\ r = Ok tt).
Proof.
  unfold suppressed. eapply does_mseq.
  - eapply (does_attempt _ _ _ (fun l r => l = [CursorClosed cur] /\ is_ok r = true)); [apply does_recorded|]. by intros l r ->.
  - by intros l e [_ ?].
  - intros l a s' _ [-> _]. by apply does_lift.
Qed.

Lemma close_does conn s : does (raised (conn_close conn)) s (fun l r => l = [ConnClosed conn] /\ final r).
Proof. unfold raised. eapply does_map_err; [apply does_recorded|]. intros l r ->. by destruct r. Qed.

Lemma session_does sql conn s :
  does (finally
    (let? cursor := raised (adbc_cursor conn) in
     finally (dbapi DCHQueryError (adbc_execute cursor sql) ;? dbapi DCHQueryError (fetch_arrow_table cursor))
       (suppressed (cursor_close cursor)))
    (raised (conn_close conn))) s (fun l r => session sql conn l /\ final r).
Proof.
  eapply (does_finally _ _ _ (fun l r => (l = [NoCursor] \/ exists cur, l = [CursorOpened cur; Executed cur sql; CursorClosed cur]) /\ final r)).
  - eapply does_mseq.
    + eapply (does_map_err _ _ _ _ (fun l r => match r with Ok cur => l = [CursorOpened cur] | Err e => l = [NoCursor] /\ final (Err (A := Table) e) end));
        [apply does_recorded|]. intros l [cur|e] ->; by cbn.
    + intros l e [-> Hf]. split; [by left|done].
    + intros l cur s' _ ->. eapply does_finally; [apply statement_does|intros; apply suppressed_does| |].
      * intros l l' r [-> Hf] [-> _]. split; [|done]. right. by exists cur.
      * by intros l l' r e _ [_ ?].
  - intros. apply close_does.
  - intros l l' r [[->|(cur & ->)] Hf] [-> _]; (split; [|done]); [by left|right; by exists cur].
  - intros l l' r e [[->|(cur & ->)] _] [-> Hf]; (split; [|done]); [by left|right; by exists cur].
Qed.

(** One attempt at a query: no connection, or a whole session. *)
Definition attempted (sql : string) (l : list DriverEvent) : Prop :=
  l = [] \/ l = [Refused] \/ exists conn rest, l = Connected conn :: rest /\ session sql conn rest.

Lemma do_read_does sql cid s :
  does (_do_read client sql cid) s (fun l r => attempted sql l /\ (final r \/ l = [] \/ l = [Refused])).
Proof.
  unfold _do_read. eapply does_mseq; [apply connect_does| |].
  - intros l e [->| ->]; (split; [unfold attempted; eauto|eauto]).
  - intros l conn s' _ ->. destruct (session_does sql conn s') as (l' & Hl & Hs & Hf). exists l'. split; [done|].
    split; [|by left]. right. right. by exists conn, l'.
Qed.

(** Only an attempt without a connection is made again, and once. *)
Lemma flight_read_does sql cid s :
  does (flight_read client sql cid) s (fun l _ => attempted sql l \/ exists l', l = Refused :: l' /\ attempted sql l').
Proof.
  unfold flight_read, with_refresh. eapply does_mseq.
  - eapply (does_attempt _ _ _ (fun l r => match r with
      | Ok r => attempted sql l /\ (final r \/ l = [] \/ l = [Refused]) | Err _ => False end)); [apply do_read_does|done].
  - by intros l e ?.
  - intros l r s' _ [Ha Hf].
    assert (Hstop : does (lift r) s' (fun l' _ => attempted sql (l ++ l') \/ exists l'', l ++ l' = Refused :: l'' /\ attempted sql l''))
      by (apply does_lift; rewrite app_nil_r; by left).
    destruct r as [t|[]]; try exact Hstop. cbn. destruct (fl_provider c) as [p|]; [|exact Hstop]. cbn.
    destruct (_is_auth_error _); [|exact Hstop]. destruct Hf as [[]|Hl].
    eapply does_mseq; [apply does_quiet, silent_refresh|intros l' e ->; rewrite app_nil_r; by left|].
    intros l' t s2 _ ->. destruct (do_read_does sql cid s2) as (l2 & Hl2 & Ha2 & _). exists l2. split; [done|]. cbn.
    destruct Hl as [->| ->]; [by left|right; by exists l2].
Qed.
End Driver.

(** C38: A query runs at most once and leaves nothing open. Whatever the driver and the
    token provider do, reading with the SDK's Flight client runs the statement at most
    once, also when the token is refreshed: only a connection that did not come about is
    tried again, and once. A connection and a cursor that were opened are closed, the
    cursor first, on every path. *)
Theorem query_runs_once {W} `{!Adbc W} (c : FlightClient W) sql connection_id token w :
  let l := read_events c sql connection_id token w in
  attempted sql l \/ exists l', l = Refused :: l' /\ attempted sql l'.
Proof.
  cbv zeta. destruct (flight_read_does c sql connection_id {| cached := token; outside := (w, []) |}) as (l & Hl & HP).
  unfold read_events. unfold history in Hl. by rewrite Hl.
Qed.

(** ** The headers at the Flight service *)

Lemma string_all_suffix f a s : string_all f (String a s) = true -> string_all f s = true.
Proof. cbn. by intros [_ ?]%andb_true_iff. Qed.

Lemma strip_bearer_all f (n : nat) t : String.length t <= n -> string_all f t = true -> string_all f (strip_bearer t) = true.
Proof.
  revert t. induction n as [|n IH]; intros t Hn Ht; [by destruct t; [|cbn in Hn; lia]|].
  do 7 (destruct t as [|? t]; [done|]). cbn [strip_bearer]. destruct (String.eqb _ _); [|done].
  apply IH; [cbn in Hn; lia|]. do 7 apply string_all_suffix in Ht. done.
Qed.

Lemma normalized t h : t <> "" -> _normalize_token t = Ok h -> h = "Bearer " +:+ strip_bearer t.
Proof.
  intros Hne. unfold _normalize_token. destruct (is_empty t) eqn:He; [by destruct t|].
  destruct (if is_empty (strip_bearer t) then _ else _); [|done]. cbn. destruct (bool_decide _); [done|]. by intros [= <-].
Qed.

Lemma built_headers t tenant h :
  t <> "" -> tenant <> "" -> _normalize_token t = Ok h ->
  build_headers t tenant = Ok (<["x-tenant-id" := tenant]> {["Authorization" := h]}).
Proof. intros Ht Hn Hh. unfold build_headers. destruct t; [done|]. destruct tenant; [done|]. cbn [is_empty]. by rewrite Hh. Qed.

Lemma header_lines (tenant h : string) :
  map_to_list (<["x-tenant-id" := tenant]> {["Authorization" := h]} : gmap string string) = [("Authorization", h); ("x-tenant-id", tenant)].
Proof. vm_compute. reflexivity. Qed.

Section Headers.
Context {W : Type} `{!Adbc W}.
Variables QUERY_TIMEOUT FETCH_TIMEOUT TLS_ROOT_CERTS TLS_SKIP_VERIFY : string.
Variable read_file : string -> option string.
Abbreviation new_client := (flight_client (W := W) QUERY_TIMEOUT FETCH_TIMEOUT TLS_ROOT_CERTS TLS_SKIP_VERIFY read_file).

(** The token a client presents: its own, or its provider's. *)
Definition presents (token : string) (provider : option (M W string string)) (s : Sdk W) (t : string) (s' : Sdk W) : Prop :=
  match provider with None => t = token /\ s' = s | Some p => token_get p s = (Ok t, s') end.

Lemma client_parts url token tenant provider timeout ca_cert insecure c :
  new_client url token tenant provider timeout ca_cert insecure = Ok c ->
  fl_url c = url /\ fl_tenant_id c = tenant /\ fl_provider c = provider /\
  (provider = None -> build_headers token tenant = Ok (fl_static_headers c)).
Proof.
  unfold flight_client. intros H. assert (H' := H). clear H.
  destruct (is_empty token), provider; cbn in H'; try done;
  (destruct (if insecure then Ok None else _) as [certs|]; [|done]); cbn in H';
  try (destruct (build_headers token tenant) as [hs|] eqn:Hb; [|done]; cbn in H'); by simplify_eq.
Qed.

Lemma client_headers url token tenant provider timeout ca_cert insecure c s t s' h :
  new_client url token tenant provider timeout ca_cert insecure = Ok c -> presents token provider s t s' ->
  t <> "" -> tenant <> "" -> _normalize_token t = Ok h ->
  flight_headers c s = (Ok (<["x-tenant-id" := tenant]> {["Authorization" := h]}), s').
Proof.
  intros Hc Hp Ht Hn Hh. destruct (client_parts _ _ _ _ _ _ _ _ Hc) as (_ & Htn & Hpr & Hs).
  assert (Hb := built_headers t tenant h Ht Hn Hh). unfold flight_headers. rewrite Htn, Hpr.
  destruct (is_empty tenant) eqn:He; [by destruct tenant|]. destruct provider as [p|]; cbn in Hp.
  - unfold mseq. rewrite Hp. cbn. by rewrite Hb.
  - destruct Hp as [-> ->]. specialize (Hs eq_refl). rewrite Hb in Hs. by injection Hs as <-.
Qed.
End Headers.

(** C37: The Flight service reads what the SDK's client is told. The connection a client
    opens for a data connection carries call headers in which the service finds the
    client's tenant, that connection and the token without its scheme: the ids its
    handlers use, and the token and the tenant its middleware authorises. *)
Theorem sdk_identity_arrives {W} `{!Adbc W} QUERY_TIMEOUT FETCH_TIMEOUT TLS_ROOT_CERTS TLS_SKIP_VERIFY read_file
    url token tenant provider timeout ca_cert insecure connection_id (c : FlightClient W) s t s' h :
  flight_client QUERY_TIMEOUT FETCH_TIMEOUT TLS_ROOT_CERTS TLS_SKIP_VERIFY read_file
    url token tenant provider timeout ca_cert insecure = Ok c ->
  presents token provider s t s' -> _normalize_token t = Ok h ->
  t <> "" -> tenant <> "" ->
  Forall (fun v => header_to_str v = Some v) [t; tenant; connection_id] ->
  exists kwargs,
    _connect c connection_id s = dbapi DCHConnectionError (adbc_connect url kwargs) s' /\
    forall md : Metadata, (forall name, md !! name = kwargs !! (ADBC_HEADER_PREFIX +:+ name)) ->
      request_ids md = Ok (tenant, connection_id) /\ extract_bearer_token md = Some (strip_bearer t) /\ requested_tenant md = Some tenant.
Proof.
  intros Hc Hp Hh Ht Hn Hv. destruct (client_parts _ _ _ _ _ _ _ _ _ _ _ _ _ Hc) as (Hu & _).
  assert (Hfh := client_headers _ _ _ _ _ _ _ _ _ _ _ _ _ _ _ _ _ Hc Hp Ht Hn Hh).
  eexists. split.
  - unfold _connect, _base_kwargs. unfold mseq at 1 2. rewrite Hfh, Hu. reflexivity.
  - intros md Hmd. rewrite header_lines in Hmd. apply Forall_cons in Hv as [Hvt [Hvn [Hvc _]%Forall_cons]%Forall_cons].
    assert (Ha : md !! AUTHORIZATION = Some ("Bearer " +:+ strip_bearer t)).
    { rewrite Hmd, (normalized t h Ht Hh). rewrite lookup_insert_ne by done. by apply lookup_union_Some_l. }
    assert (Htn : md !! X_TENANT_ID = Some tenant).
    { rewrite Hmd, lookup_insert_ne by done. by apply lookup_union_Some_l. }
    assert (Hci : md !! X_DATA_CONNECTION_ID = Some connection_id) by (rewrite Hmd; apply lookup_insert_eq).
    assert (Hb : header_to_str ("Bearer " +:+ strip_bearer t) = Some ("Bearer " +:+ strip_bearer t)).
    { unfold header_to_str in *. destruct (string_all _ t) eqn:Hall; [|done].
      replace (string_all _ ("Bearer " +:+ strip_bearer t)) with true; [done|]. symmetry. cbn.
      by apply (strip_bearer_all _ (String.length t)). }
    unfold request_ids, extract_bearer_token, requested_tenant, ctx_tenant_id, ctx_connection_id, header_required.
    rewrite Ha, Htn, Hci. cbn. rewrite Hvn. cbn. rewrite Hvc. cbn. rewrite Hb. cbn. destruct tenant; done.
Qed.

(** A driver that reports the options it is connected with. *)
#[local] Instance sample_adbc : Adbc (gmap string string) := {|
  Conn := unit; Cursor := unit; Table := unit; Batch := unit;
  adbc_connect _ k _ := (Ok tt, k);
  adbc_cursor _ := mret tt; adbc_execute _ _ := mret tt; fetch_arrow_table _ := mret tt; fetch_next _ := mret None;
  adbc_get_info _ := mret []; cursor_close _ := mret tt; conn_close _ := mret tt
|}.

Lemma sdk_identity_arrives_witness :
  exists (c : FlightClient (gmap string string)) kwargs s s',
    _connect c "c1" s = dbapi DCHConnectionError (adbc_connect "grpc://hub" kwargs) s' /\
    forall md : Metadata, (forall name, md !! name = kwargs !! (ADBC_HEADER_PREFIX +:+ name)) ->
      request_ids md = Ok ("t1", "c1") /\ extract_bearer_token md = Some "abc" /\ requested_tenant md = Some "t1".
Proof.
  destruct (flight_client (W := gmap string string) "q" "f" "r" "v" (fun _ => None) "grpc://hub" "" "t1" (Some (mret "bearer abc"))
              (Some "30.0") None true) as [c|] eqn:Hc; [|discriminate Hc].
  exists c.
  destruct (sdk_identity_arrives "q" "f" "r" "v" (fun _ => None) "grpc://hub" "" "t1" (Some (mret "bearer abc"))
              (Some "30.0") None true "c1" c {| cached := None; outside := ∅ |} "bearer abc"
              {| cached := Some "bearer abc"; outside := ∅ |} "Bearer abc" Hc) as (kwargs & H1 & H2).
  - reflexivity.
  - reflexivity.
  - discriminate.
  - discriminate.
  - repeat (apply Forall_cons; split; [reflexivity|]). apply Forall_nil_2.
  - eexists kwargs, _, _. split; [exact H1|exact H2].
Defined.

(** ** The message of the table listing *)

(** A varint of the protobuf wire format at the front of a text, and what follows it. *)
Fixpoint read_varint (s : string) : option (N * string) :=
  match s with
  | EmptyString => None
  | String a r =>
      if (N_of_ascii a <? 0x80)%N then Some (N_of_ascii a, r)
      else v ← read_varint r; Some ((N_of_ascii a - 0x80) + 0x80 * v.1, v.2)%N
  end.

Lemma low_bits n : (N.land n 0x7F = n mod 128)%N.
Proof. change 0x7F%N with (N.ones 7). by rewrite N.land_ones. Qed.

Lemma marked x : (x < 128)%N -> (N.lor x 0x80 = x + 0x80)%N.
Proof.
  intros Hx. assert (H : Forall (fun k => N.lor (N.of_nat k) 0x80 = N.of_nat k + 0x80)%N (seq 0 128)) by (vm_compute; repeat constructor).
  rewrite Forall_forall in H. specialize (H (N.to_nat x)). rewrite N2Nat.id in H. apply H, elem_of_seq. lia.
Qed.

Lemma varint_upto_S fuel n :
  varint_upto (S fuel) n =
  if (0x7F <? n)%N then String (ascii_of_N (N.lor (n mod 128) 0x80)) (varint_upto fuel (N.shiftr n 7)) else String (ascii_of_N (n mod 128)) "".
Proof. cbn [varint_upto]. by rewrite low_bits. Qed.

Lemma varint_upto_read fuel n r : (n < 2 ^ (7 * N.of_nat (S fuel)))%N -> read_varint (varint_upto (S fuel) n +:+ r) = Some (n, r).
Proof.
  revert n. induction fuel as [|fuel IH]; intros n Hn; rewrite varint_upto_S;
    assert (Hlt : (n mod 128 < 128)%N) by (apply N.mod_upper_bound; lia);
    destruct (N.ltb_spec 0x7F n) as [Hbig|Hsmall].
  - change (2 ^ _)%N with 128%N in Hn. lia.
  - rewrite N.mod_small by lia. change (String ?a ?x +:+ r) with (String a (x +:+ r)). cbn [read_varint]. rewrite N_ascii_embedding by lia. destruct (N.ltb_spec n 0x80); [done|lia].
  - rewrite marked by done. change (String ?a ?x +:+ r) with (String a (x +:+ r)). cbn [read_varint]. rewrite N_ascii_embedding by lia.
    rewrite (proj2 (N.ltb_ge _ _)) by apply N.le_add_l.
    rewrite IH.
    + cbn. rewrite N.shiftr_div_pow2. change (2 ^ 7)%N with 128%N. rewrite N.add_sub, N.add_comm, <-N.div_mod by done. done.
    + rewrite N.shiftr_div_pow2. apply N.Div0.div_lt_upper_bound. rewrite <-N.pow_add_r.
      replace (7 + 7 * N.of_nat (S fuel))%N with (7 * N.of_nat (S (S fuel)))%N by lia. done.
  - rewrite N.mod_small by lia. change (String ?a ?x +:+ r) with (String a (x +:+ r)). cbn [read_varint]. rewrite N_ascii_embedding by lia. destruct (N.ltb_spec n 0x80); [done|lia].
Qed.

(** The fuel of [_encode_varint], a round per bit, is enough. *)
Lemma varint_read n r : read_varint (_encode_varint n +:+ r) = Some (n, r).
Proof.
  apply varint_upto_read. destruct (N.eq_dec n 0) as [->|Hn]; [done|].
  destruct (N.log2_spec n ltac:(lia)) as [_ Hu]. eapply N.lt_le_trans; [exact Hu|]. apply N.pow_le_mono_r; lia.
Qed.

(** The first [n] bytes and the rest, if there are so many. *)
Fixpoint cut (n : nat) (s : string) : option (string * string) :=
  match n, s with
  | O, _ => Some ("", s)
  | S n, String a s => v ← cut n s; Some (String a v.1, v.2)
  | S _, EmptyString => None
  end.

Lemma cut_app p r : cut (String.length p) (p +:+ r) = Some (p, r).
Proof. induction p as [|a p IH]; [done|]. change (String a p +:+ r) with (String a (p +:+ r)). cbn [String.length cut]. by rewrite IH. Qed.

(** A [CommandGetTables] of the wire format, read field by field: 3 is the filter, 5
    says whether schemas are wanted; a missing field has its default. *)
Fixpoint read_fields (fuel : nat) (s : string) (filter : option string) (schemas : bool) : option Command :=
  if is_empty s then Some (CommandGetTables filter schemas)
  else match fuel with
       | O => None
       | S fuel =>
           tag ← read_varint s; value ← read_varint tag.2;
           if (tag.1 =? 26)%N then v ← cut (N.to_nat value.1) value.2; read_fields fuel v.2 (Some v.1) schemas
           else if (tag.1 =? 40)%N then read_fields fuel value.2 filter (negb (value.1 =? 0)%N)
           else None
       end.
Definition read_get_tables (s : string) : option Command := read_fields (String.length s) s None false.

Lemma read_schemas fuel b filter :
  read_fields (S fuel) (if b : bool then _encode_varint (N.lor (N.shiftl _CGT_FIELD_INCLUDE_SCHEMA 3) 0) +:+ _encode_varint 1 else "") filter false =
  Some (CommandGetTables filter b).
Proof. destruct b; [by destruct fuel|done]. Qed.

Lemma varint_nonempty n r : exists a t, _encode_varint n +:+ r = String a t.
Proof. unfold _encode_varint. rewrite varint_upto_S. destruct (_ <? _)%N; by eexists _, _. Qed.

(** The message the SDK writes for a listing of tables is the command it stands for. *)
Theorem get_tables_message_read pattern schemas :
  read_get_tables (get_tables_message pattern schemas) = Some (CommandGetTables pattern schemas).
Proof.
  unfold get_tables_message, read_get_tables. destruct pattern as [p|]; [|by destruct schemas].
  rewrite !sapp_assoc. change (_encode_varint (N.lor (N.shiftl _CGT_FIELD_TABLE_NAME_FILTER 3) 2)) with (String (ascii_of_N 26) "").
  set (rest := if schemas then _ else _). change (String ?a "" +:+ ?x) with (String a x).
  destruct (varint_nonempty (byte_length p) (p +:+ rest)) as (a & t & Ht).
  assert (Hl : exists k, String.length (_encode_varint (byte_length p) +:+ p +:+ rest) = S k) by (rewrite Ht; by eexists).
  destruct Hl as [k Hk]. cbn [String.length]. rewrite Hk. cbn [read_fields is_empty].
  change (read_varint (String (ascii_of_N 26) ?x)) with (Some (26%N, x)). cbn [mbind option_bind snd fst].
  rewrite varint_read. cbn [mbind option_bind snd fst]. change (26 =? 26)%N with true. cbn iota.
  unfold byte_length. rewrite Nat2N.id, cut_app. apply read_schemas.
Qed.
