(* ===== verification/SdkClient.v ===== *)
(** The SDK's client object ([sdk/python/src/data_connect_hub/client.py]): the addresses
    it derives from an endpoint with Python's [urllib.parse], and the REST and Flight
    clients it makes of them.

    Letters beyond ASCII are not lower-cased. *)
From S2P Require Import Prelude Text Sdk SdkFlight.
From Stdlib Require Import NArith ZArith QArith.

(** ** Python's library *)

(** [str.partition]: the text before the separator, whether there is one, and the rest. *)
Definition partition (c : ascii) (s : string) : string * bool * string :=
  match split_once c s with Some (h, t) => (h, true, t) | None => (s, false, "") end.
(** [str.rpartition], which leaves a text without separator as its last part. *)
Definition rpartition (c : ascii) (s : string) : string * bool * string :=
  match rsplit_once c s with Some (h, t) => (h, true, t) | None => ("", false, s) end.

(** [str.rstrip] and [str.strip]. *)
Fixpoint py_rstrip (s : string) : string :=
  if is_empty (py_lstrip s) then "" else match s with String a r => String a (py_rstrip r) | EmptyString => "" end.
Definition py_strip (s : string) : string := py_rstrip (py_lstrip s).
Definition rstrip_char (c : ascii) (s : string) : string := string_rev "" (trim_start_char c (string_rev "" s)).

Fixpoint string_filter (p : ascii -> bool) (s : string) : string :=
  match s with String a r => if p a then String a (string_filter p r) else string_filter p r | EmptyString => "" end.
Fixpoint drop_while (p : ascii -> bool) (s : string) : string :=
  match s with String a r => if p a then drop_while p r else s | EmptyString => "" end.
(** The text up to the first character of a kind, and the text from it on. *)
Fixpoint break_at (p : ascii -> bool) (s : string) : string * string :=
  match s with
  | String a r => if p a then ("", s) else let (h, t) := break_at p r in (String a h, t)
  | EmptyString => ("", "")
  end.

Definition is_alpha (a : ascii) : bool := byte_in 65 90 a || byte_in 97 122 a.
Definition scheme_char (a : ascii) : bool := is_alpha a || byte_in 48 57 a || Ascii.eqb a "+" || Ascii.eqb a "-" || Ascii.eqb a ".".
Definition ends_netloc (a : ascii) : bool := Ascii.eqb a "/" || Ascii.eqb a "?" || Ascii.eqb a "#".

Definition uses_params : list string :=
  [""; "ftp"; "hdl"; "prospero"; "http"; "https"; "shttp"; "rtsp"; "rtspu"; "sip"; "sips"; "mms"; "sftp"; "tel"].

(** The parameters at the end of a path, which [urlparse] takes off. *)
Definition without_params (path : string) : string :=
  match rsplit_once "/" path with
  | Some (h, t) => h +:+ "/" +:+ (partition ";" t).1.1
  | None => (partition ";" path).1.1
  end.

(** [ParseResult]. *)
Record ParseResult : Type := { pr_scheme : string; pr_netloc : string; pr_path : string; pr_query : string; pr_fragment : string }.

(** ** The client's parts *)

(** [_flight_kwargs]. *)
Record FlightKwargs (W : Type) : Type := {
  fk_url : string;
  fk_token : string;
  fk_tenant_id : string;
  fk_provider : option (M W string string);
  fk_timeout : option string;
  fk_ca_cert : option string;
  fk_insecure : bool
}.
Arguments fk_url {W}.
Arguments fk_token {W}.
Arguments fk_tenant_id {W}.
Arguments fk_provider {W}.
Arguments fk_timeout {W}.
Arguments fk_ca_cert {W}.
Arguments fk_insecure {W}.

Record DataConnectClient (W : Type) : Type := {
  dcc_rest : RestClient W;
  dcc_flight : option (FlightClient W);
  dcc_flight_kwargs : FlightKwargs W
}.
Arguments dcc_rest {W}.
Arguments dcc_flight {W}.
Arguments dcc_flight_kwargs {W}.

(** ** Addresses *)

Section Urls.
(** Python's checks of an address in brackets and of characters beyond ASCII in a
    network location: the text of the [ValueError]. Both depend on tables of its version. *)
Variable check_netloc : string -> option string.

(** [urlparse(url, scheme)]. *)
Definition urlparse (url scheme : string) : result string ParseResult :=
  let url := string_filter (fun a => negb (byte_in 9 10 a || byte_in 13 13 a)) (drop_while (byte_in 0 32) url) in
  let '(scheme, url) :=
    match split_once ":" url with
    | Some (String a h, t) => if is_alpha a && string_all scheme_char (String a h) then (to_ascii_lowercase (String a h), t) else (scheme, url)
    | _ => (scheme, url)
    end in
  let '(netloc, url) := match strip_prefix "//" url with Some r => break_at ends_netloc r | None => ("", url) end in
  if xorb (no_char "[" netloc) (no_char "]" netloc) then Err "Invalid IPv6 URL"
  else match check_netloc netloc with
       | Some e => Err e
       | None =>
           let '(url, _, fragment) := partition "#" url in
           let '(url, _, query) := partition "?" url in
           Ok {| pr_scheme := scheme; pr_netloc := netloc;
                 pr_path := if bool_decide (scheme ∈ uses_params) && negb (no_char ";" url) then without_params url else url;
                 pr_query := query; pr_fragment := fragment |}
       end.

(** [ParseResult.username] and [.password], empty when absent. *)
Definition pr_userinfo (p : ParseResult) : string * string :=
  let '(info, have, _) := rpartition "@" (pr_netloc p) in
  if have then let '(user, _, password) := partition ":" info in (user, password) else ("", "").

(** [_hostinfo]: the host, and the text of the port. *)
Definition pr_hostinfo (p : ParseResult) : string * string :=
  let '(_, _, hostinfo) := rpartition "@" (pr_netloc p) in
  let '(_, open_bracket, bracketed) := partition "[" hostinfo in
  if open_bracket then
    let '(host, _, port) := partition "]" bracketed in
    (host, (partition ":" port).2)
  else let '(host, _, port) := partition ":" hostinfo in (host, port).

(** [ParseResult.hostname]: the zone of a scoped address keeps its case. *)
Definition pr_hostname (p : ParseResult) : string :=
  let '(host, percent, zone) := partition "%" (pr_hostinfo p).1 in
  to_ascii_lowercase host +:+ (if percent : bool then "%" else "") +:+ zone.

(** [ParseResult.port]. *)
Variable repr : string -> string.
Definition pr_port (p : ParseResult) : result string (option N) :=
  let port := (pr_hostinfo p).2 in
  if is_empty port then Ok None
  else match parse_digits 0 port with
       | None => Err ("Port could not be cast to integer value as " +:+ repr port)
       | Some n => if (n <=? 65535)%Z then Ok (Some (Z.to_N n)) else Err "Port out of range 0-65535"
       end.

Definition _build_urls (endpoint : string) : result PyError (string * string) :=
  let endpoint := rstrip_char "/" (py_strip endpoint) in
  if is_empty endpoint then Err (DCHConfigError "endpoint must not be empty")
  else
    let?? parsed := rmap_err (fun e => PyException ("ValueError: " +:+ e))
                      (urlparse (if contains "://" endpoint then endpoint else "//" +:+ endpoint) "https") in
    let (username, password) := pr_userinfo parsed in
    if negb (is_empty username && is_empty password)
    then Err (DCHConfigError "endpoint must not contain credentials; pass a token or token_provider instead")
    else
      let?? port := rmap_err (fun e => DCHConfigError ("invalid port in endpoint " +:+ repr endpoint +:+ ": " +:+ e)) (pr_port parsed) in
      let hostname := pr_hostname parsed in
      if bool_decide (port = Some 0%N)
      then Err (DCHConfigError ("invalid port in endpoint " +:+ repr endpoint +:+ ": port must be between 1 and 65535"))
      else if is_empty hostname then Err (DCHConfigError ("unable to extract host from endpoint: " +:+ repr endpoint))
      else if negb (is_empty (pr_path parsed))
      then Err (DCHConfigError ("endpoint must not contain a path, got " +:+ repr (pr_path parsed) +:+ " in " +:+ repr endpoint))
      else if negb (is_empty (pr_query parsed) && is_empty (pr_fragment parsed))
      then Err (DCHConfigError ("endpoint must not contain a query string or fragment: " +:+ repr endpoint))
      else
        let netloc := if contains ":" hostname then "[" +:+ hostname +:+ "]" else hostname in
        let netloc := match port with Some p => netloc +:+ ":" +:+ pretty p | None => netloc end in
        Ok ("https://" +:+ netloc, "grpc+tls://" +:+ netloc).

Context {W : Type}.

(** [DataConnectClient.__init__]. *)
Definition data_connect_client (endpoint token tenant_id : string) (provider : option (M W string string)) (api_base : string)
    (ca_cert : option string) (insecure : bool) (max_retries : Z) (backoff_base backoff_max : Q) (flight_timeout : option string) :
    result PyError (DataConnectClient W) :=
  match is_empty token, provider with
  | false, Some _ => Err (DCHConfigError "Cannot specify both 'token' and 'token_provider'. Please provide either a static token or a token_provider callable, not both.")
  | _, _ =>
      let?? urls := _build_urls endpoint in
      let?? rest := rest_client urls.1 token tenant_id provider api_base max_retries backoff_base backoff_max None ca_cert insecure in
      Ok {| dcc_rest := rest; dcc_flight := None;
            dcc_flight_kwargs := {| fk_url := urls.2; fk_token := token; fk_tenant_id := tenant_id; fk_provider := provider;
                                    fk_timeout := flight_timeout; fk_ca_cert := ca_cert; fk_insecure := insecure |} |}
  end.

Variables QUERY_TIMEOUT FETCH_TIMEOUT TLS_ROOT_CERTS TLS_SKIP_VERIFY : string.
Variable read_file : string -> option string.

(** [_require_flight]: the Flight client is made when it is first used, if its packages
    are [installed]. *)
Definition _require_flight (installed : bool) : M (DataConnectClient W) PyError (FlightClient W) := fun c =>
  match dcc_flight c with
  | Some f => (Ok f, c)
  | None =>
      if negb installed
      then (Err (DCHConfigError ("Flight SQL support requires the 'flight' extra: pip install " +:+ String dquote "data-connect-hub[flight]" +:+ String dquote "")), c)
      else
        let k := dcc_flight_kwargs c in
        match flight_client QUERY_TIMEOUT FETCH_TIMEOUT TLS_ROOT_CERTS TLS_SKIP_VERIFY read_file
                (fk_url k) (fk_token k) (fk_tenant_id k) (fk_provider k) (fk_timeout k) (fk_ca_cert k) (fk_insecure k) with
        | Ok f => (Ok f, {| dcc_rest := dcc_rest c; dcc_flight := Some f; dcc_flight_kwargs := k |})
        | Err e => (Err e, c)
        end
  end.
End Urls.

(** ** What the addresses are made of *)

(** The characters that end a network location or separate credentials from it. *)
Definition host_char (a : ascii) : bool := negb (ends_netloc a || Ascii.eqb a "@").

Lemma partition_all p c s : string_all p s = true -> string_all p (partition c s).1.1 = true /\ string_all p (partition c s).2 = true.
Proof.
  unfold partition. intros H. enough (forall h t, split_once c s = Some (h, t) -> string_all p h = true /\ string_all p t = true) as Hs.
  { destruct (split_once c s) as [[h t]|]; [by apply Hs|done]. }
  induction s as [|a s IH]; [done|]. cbn in *. apply andb_true_iff in H as [Ha H]. intros h t.
  destruct (Ascii.eqb a c); [by intros [= <- <-]|]. destruct (split_once c s) as [[h' t']|]; [|done]. intros [= <- <-].
  destruct (IH H h' t' eq_refl). cbn. by rewrite Ha.
Qed.

Lemma break_at_all p s : string_all (fun a => negb (p a)) (break_at p s).1 = true.
Proof. induction s as [|a s IH]; [done|]. cbn. destruct (p a) eqn:Ha; [done|]. destruct (break_at p s). cbn in *. by rewrite Ha. Qed.

Lemma string_all_impl p q s : (forall a, p a = true -> q a = true) -> string_all p s = true -> string_all q s = true.
Proof. intros Hpq. induction s as [|a s IH]; [done|]. cbn. rewrite !andb_true_iff. naive_solver. Qed.

Lemma rpartition_all p c s : string_all p s = true -> string_all (fun a => p a && negb (Ascii.eqb a c)) (rpartition c s).2 = true.
Proof.
  unfold rpartition. induction s as [|a s IH]; [done|]. cbn. intros [Ha H]%andb_true_iff. specialize (IH H).
  destruct (rsplit_once c s) as [[h t]|]; cbn in *; [done|]. destruct (Ascii.eqb a c) eqn:Hc; cbn; [done|]. by rewrite Ha, Hc.
Qed.

Lemma hostinfo_host (p : ParseResult) :
  string_all (fun a => negb (ends_netloc a)) (pr_netloc p) = true ->
  string_all host_char (pr_hostinfo p).1 = true /\ string_all host_char (pr_hostinfo p).2 = true.
Proof.
  intros Hn. unfold pr_hostinfo.
  assert (Hh : string_all host_char (rpartition "@" (pr_netloc p)).2 = true).
  { eapply string_all_impl; [|apply rpartition_all, Hn]. intros a. unfold host_char. by rewrite negb_orb. }
  destruct (rpartition "@" (pr_netloc p)) as [[? ?] hostinfo]. cbn in Hh.
  destruct (partition_all _ "[" _ Hh) as [_ Hb]. destruct (partition_all _ ":" _ Hh) as [Hc1 Hc2].
  destruct (partition "[" hostinfo) as [[? []] bracketed]; cbn in Hb.
  - destruct (partition_all _ "]" _ Hb) as [Hd1 Hd2]. destruct (partition "]" bracketed) as [[host ?] port]. cbn in *.
    split; [done|]. by apply partition_all.
  - by destruct (partition ":" hostinfo) as [[host ?] port].
Qed.

Lemma lower_host s : string_all host_char s = true -> string_all host_char (to_ascii_lowercase s) = true.
Proof.
  induction s as [|a s IH]; [done|]. cbn. intros [Ha Hs]%andb_true_iff. apply andb_true_iff. split; [|by apply IH].
  clear -Ha. destruct a as [[] [] [] [] [] [] [] []]; vm_compute in Ha |- *; done.
Qed.

Lemma hostname_host (p : ParseResult) :
  string_all (fun a => negb (ends_netloc a)) (pr_netloc p) = true -> string_all host_char (pr_hostname p) = true.
Proof.
  intros [Hh _]%hostinfo_host. unfold pr_hostname. destruct (partition_all _ "%" _ Hh) as [H1 H2].
  destruct (partition "%" _) as [[host []] zone]; cbn in *; rewrite !string_all_app, lower_host, H2 by done; done.
Qed.

Lemma pretty_go_host (n : N) s : string_all host_char s = true -> string_all host_char (pretty_N_go n s) = true.
Proof.
  revert s. induction (N.lt_wf_0 n) as [n _ IH]; intros s Hs. destruct (N.eq_dec n 0) as [->|Hn]; [done|].
  rewrite pretty_N_go_step by lia. apply IH; [apply N.div_lt; lia|]. cbn. rewrite Hs, andb_true_r.
  unfold pretty_N_char. by repeat case_match.
Qed.

Lemma digits_host (n : N) : string_all host_char (pretty n) = true.
Proof. unfold pretty, pretty_N. case_decide; [done|]. by apply pretty_go_host. Qed.

(** The end of a text of such characters is not a slash. *)
Lemma rev_host s acc : s <> "" -> string_all host_char s = true -> exists a r, string_rev acc s = String a r /\ host_char a = true.
Proof.
  revert acc. induction s as [|a s IH]; intros acc Hs; [done|]. cbn. intros [Ha Hall]%andb_true_iff.
  destruct s as [|b s]; [by eexists _, _|]. by apply IH.
Qed.

Lemma rstrip_host p s : s <> "" -> string_all host_char s = true -> rstrip_char "/" (p +:+ s) = p +:+ s.
Proof.
  intros Hs Hall. unfold rstrip_char. rewrite rev_app. destruct (rev_host s (string_rev "" p) Hs Hall) as (a & r & Hr & Ha).
  rewrite Hr. cbn [trim_start_char]. destruct (Ascii.eqb_spec a "/") as [->|_]; [done|]. rewrite <-Hr, <-rev_app, rev_rev.
  cbn. by rewrite sapp_nil_r.
Qed.

Section Endpoint.
Variables (check_netloc : string -> option string) (repr : string -> string).

Lemma urlparse_netloc url scheme p :
  urlparse check_netloc url scheme = Ok p -> string_all (fun a => negb (ends_netloc a)) (pr_netloc p) = true.
Proof.
  unfold urlparse. destruct (match split_once _ _ with Some _ => _ | None => _ end) as [scheme' url'].
  assert (Hn : string_all (fun a => negb (ends_netloc a))
                 (match strip_prefix "//" url' with Some r => break_at ends_netloc r | None => ("", url') end).1 = true).
  { destruct (strip_prefix "//" url'); [apply break_at_all|done]. }
  destruct (match strip_prefix "//" url' with Some r => _ | None => _ end) as [netloc url2]. cbn in Hn.
  destruct (xorb _ _); [done|]. destruct (check_netloc netloc); [done|].
  destruct (partition "#" url2) as [[url3 ?] fragment]. destruct (partition "?" url3) as [[url4 ?] query]. by intros [= <-].
Qed.

(** Both addresses are of one host, over TLS, and carry nothing else of the endpoint. *)
Lemma build_urls_host endpoint urls :
  _build_urls check_netloc repr endpoint = Ok urls ->
  exists netloc, urls = ("https://" +:+ netloc, "grpc+tls://" +:+ netloc) /\ netloc <> "" /\ string_all host_char netloc = true.
Proof.
  unfold _build_urls. destruct (is_empty _); [done|]. destruct (urlparse _ _ _) as [p|] eqn:Hp; [|done]. cbn [rmap_err rbind].
  apply urlparse_netloc in Hp. destruct (pr_userinfo p) as [user password]. destruct (negb _); [done|].
  destruct (pr_port repr p) as [port|]; [|done]. cbn [rmap_err rbind]. destruct (bool_decide _); [done|].
  assert (Hh := hostname_host p Hp). destruct (pr_hostname p) as [|a h] eqn:Hn; [done|]. cbn [is_empty].
  destruct (negb _); [done|]. destruct (negb _); [done|]. generalize (contains ":" (String a h)). intros b.
  set (host := if b then _ else _). intros [= <-].
  assert (Hhost : host <> "" /\ string_all host_char host = true).
  { unfold host. destruct b; [|done]. split; [done|]. by rewrite !string_all_app, Hh. }
  clearbody host. eexists. split; [reflexivity|]. destruct port as [n|]; [|done]. destruct Hhost as [Hne Hall].
  split; [by destruct host|]. by rewrite !string_all_app, Hall, digits_host.
Qed.
End Endpoint.



(** The slashes of a scheme are stripped as if they ended the endpoint: the scheme
    becomes the host. *)
Example scheme_becomes_host : _build_urls (fun _ => None) debug_str "https://" = Ok ("https://https", "grpc+tls://https").
Proof. reflexivity. Qed.

(** An open bracket escapes as an exception that is not the SDK's. *)
Example bracket_escapes : _build_urls (fun _ => None) debug_str "[::1" = Err (PyException "ValueError: Invalid IPv6 URL").
Proof. reflexivity. Qed.

Example addresses_of_endpoints :
  _build_urls (fun _ => None) debug_str "grpc+tls://Gateway.example.com:8443" =
    Ok ("https://gateway.example.com:8443", "grpc+tls://gateway.example.com:8443") /\
  _build_urls (fun _ => None) debug_str "https://[2001:db8::1]" = Ok ("https://[2001:db8::1]", "grpc+tls://[2001:db8::1]").
Proof. by split. Qed.
