(* ===== verification/SdkCalls.v ===== *)
(** The SDK's calls, as the REST service serves them: the client of [Sdk] against the
    routes and handlers of [Rest], with the authenticating proxy between them. *)
From S2P Require Import Prelude Text Json Sql Api MetaStore KubeAuth Traits RestErrors Rest ControllerRest ControllerCalls SdkModels Sdk.
From Stdlib Require Import ZArith.

(** ** Paths on the wire *)

Definition hex_value (a : ascii) : option nat :=
  let n := nat_of_ascii a in
  if byte_in 48 57 a then Some (n - 48) else if byte_in 65 70 a then Some (n - 55)
  else if byte_in 97 102 a then Some (n - 87) else None.

(** Percent-decoding of a path segment, as the service's router does it. *)
Fixpoint unquote (s : string) : string :=
  match s with
  | String a r =>
      match r with
      | String x (String y r2) =>
          if Ascii.eqb a "%" then
            match hex_value x, hex_value y with
            | Some h, Some l => String (ascii_of_nat (16 * h + l)) (unquote r2)
            | _, _ => String a (unquote r)
            end
          else String a (unquote r)
      | _ => String a (unquote r)
      end
  | EmptyString => ""
  end.

(** The segments of an absolute path. *)
Definition path_segments (p : string) : list string := tail (split "/" p).

(** A path without [.] and [..] segments. *)
Definition plain_path (p : string) : Prop := Forall (fun s => s <> "." /\ s <> "..") (split "/" p).

(** A byte that is not a percent sign stays. *)
Lemma unquote_plain a r : Ascii.eqb a "%" = false -> unquote (String a r) = String a (unquote r).
Proof. intros Ha. destruct r as [|x [|y r]]; [done..|]. cbn [unquote]. by rewrite Ha. Qed.

Lemma unquote_byte a r : unquote (quote_byte a +:+ r) = String a (unquote r).
Proof.
  unfold quote_byte. destruct (unreserved a) eqn:Hu.
  - apply unquote_plain. destruct (Ascii.eqb_spec a "%"); [by subst|done].
  - clear Hu. by destruct a as [[] [] [] [] [] [] [] []].
Qed.

Lemma unquote_quote s : unquote (quote s) = s.
Proof. induction s as [|a s IH]; [done|]. cbn [quote]. by rewrite unquote_byte, IH. Qed.

Lemma quote_no_slash s : no_char "/" (quote s) = true.
Proof.
  induction s as [|a s IH]; [done|]. cbn [quote]. rewrite no_char_app, IH, andb_true_r. by destruct a as [[] [] [] [] [] [] [] []].
Qed.

Lemma quote_plain s : s <> "." /\ s <> ".." -> quote s <> "." /\ quote s <> "..".
Proof.
  intros [H1 H2]. split; intros Hq; apply (f_equal unquote) in Hq; rewrite unquote_quote in Hq; by subst.
Qed.

(** A path of the given segments. *)
Fixpoint path_of (segs : list string) : string :=
  match segs with [] => "" | s :: segs => "/" +:+ quote s +:+ path_of segs end.

Lemma path_of_app l l' : path_of (l ++ l') = path_of l +:+ path_of l'.
Proof. induction l as [|s l IH]; cbn [path_of app]; [done|]. by rewrite IH, !sapp_assoc. Qed.

Lemma split_path p segs : no_char "/" p = true -> split "/" (p +:+ path_of segs) = p :: (quote <$> segs).
Proof.
  revert p. induction segs as [|s segs IH]; intros p Hp; cbn [path_of fmap list_fmap].
  - rewrite sapp_nil_r. by apply split_no_char.
  - change ("/" +:+ quote s +:+ path_of segs) with (String "/" (quote s +:+ path_of segs)).
    rewrite split_app by done. by rewrite IH by apply quote_no_slash.
Qed.

Definition plain_segment (s : string) : Prop := s <> "." /\ s <> "..".

Lemma path_plain segs : Forall plain_segment segs -> plain_path (path_of segs).
Proof.
  intros Hs. unfold plain_path. rewrite <- (sapp_nil_l (path_of segs)), split_path by done. constructor; [done|].
  apply Forall_fmap. eapply Forall_impl; [exact Hs|]. apply quote_plain.
Qed.

Lemma segments_of_path segs : unquote <$> path_segments (path_of segs) = segs.
Proof.
  unfold path_segments. rewrite <- (sapp_nil_l (path_of segs)), split_path by done. cbn [tail].
  rewrite <- list_fmap_compose. rewrite <- (list_fmap_id segs) at 2. apply list_fmap_ext. intros _ s _. apply unquote_quote.
Qed.

(** ** The service behind the client *)

Definition sdk_method (m : string) : Method :=
  if String.eqb m "GET" then GET else if String.eqb m "POST" then POST else if String.eqb m "PUT" then PUT
  else if String.eqb m "PATCH" then PATCH else if String.eqb m "DELETE" then DELETE else OtherMethod.

Section Served.
Context {W : Type} `{MS : MetaStoreI W} `{SS : SecretStoreI W} `{FI : FlightI W} `{CL : ClockI W} `{PD : Pydantic}.
Variable json_merge : json -> json -> json.
Variable serde_text : json -> string.
Variable actix_text : string.
Variable svc : ApiService W.
(** [serde_json]'s printing and Python's parsing. *)
Variable json_print : json -> string.
Variable json_parse : string -> option json.
(** What httpx makes of a path. *)
Variable normalize_path : string -> string.
(** The proxy answers by itself, or forwards the request with the user it authenticated. *)
Variable proxy : HttpxRequest -> result HttpxResponse string.
(** The parts of httpx that no call below reaches. *)
Variable read : HttpxResponse -> M W RequestError string.
Variable next : HttpxResponse -> M W RequestError (option string).
Variable close : HttpxResponse -> W -> W.
Variable random : W -> Q * W.
Variable sleep : Q -> W -> W.

Definition service_request (rq : HttpxRequest) (user : string) : Request :=
  {| rq_method := sdk_method (hx_method rq); rq_path := unquote <$> path_segments (normalize_path (hx_path rq));
     rq_header k := if String.eqb k X_REMOTE_USER then Some user else header_of (hx_headers rq) k;
     rq_query_path := snd <$> List.find (fun p => String.eqb p.1 "path") (hx_params rq); rq_body := hx_json rq |}.

Definition httpx_response (r : Rest.HttpResponse) : HttpxResponse :=
  {| hx_id := 0; hx_status := http_status r; hx_retry_after := None; hx_text := body_text json_print (http_body r) |}.

#[local] Instance service_httpx : Httpx W := {|
  hx_send rq w := match proxy rq with
                  | Err r => (Ok r, w)
                  | Ok user => let (r, w') := serve json_merge serde_text actix_text svc (service_request rq user) w in
                               (Ok (httpx_response r), w')
                  end;
  hx_read := read; hx_next := next; hx_close := close; py_random := random; py_sleep := sleep
|}.

Variable c : RestClient W.
Variable user : string.
Variable headers : gmap string string.
(** The client has a token of its own and the service's base path; the proxy lets it
    through, its tenant is one, and httpx keeps a path that has no dot segments. *)
Record sdk_reachable : Prop := {
  sr_provider : rc_provider c = None;
  sr_api_base : rc_api_base c = "/api/v1alpha1/data";
  sr_retries : (0 <= rc_max_retries c)%Z;
  sr_headers : build_headers (rc_token c) (rc_tenant_id c) = Ok headers;
  sr_forwarded rq : proxy rq = Ok user;
  sr_tenant_valid : header_to_str (rc_tenant_id c) = Some (rc_tenant_id c);
  sr_tenant_given : rc_tenant_id c <> "";
  sr_path p : plain_path p -> normalize_path p = p
}.
Hypothesis reach : sdk_reachable.

(** The context the service gives its handlers. *)
Definition sdk_context : ApiContext := controller_context (rc_tenant_id c) user.
Abbreviation routes := (scope_routes json_merge serde_text actix_text svc).

Lemma tenant_header : header_of headers X_TENANT_ID = Some (rc_tenant_id c).
Proof using reach.
  pose proof (sr_headers reach) as H. unfold build_headers in H.
  assert (He : is_empty (rc_tenant_id c) = false) by (pose proof (sr_tenant_given reach); by destruct (rc_tenant_id c)).
  rewrite He in H.
  assert (Hh : exists h, headers = <["x-tenant-id" := rc_tenant_id c]> h /\ forall k', is_Some (h !! k') -> k' = "Authorization").
  { destruct (is_empty (rc_token c)).
    - injection H as <-. eexists. split; [done|]. intros k' [v Hv]. by rewrite lookup_empty in Hv.
    - destruct (_normalize_token _); cbn in H; [|done]. injection H as <-. eexists. split; [done|].
      intros k' [v Hv]. by apply lookup_singleton_Some in Hv as [-> _]. }
  destruct Hh as (h & -> & Hh). apply (header_of_unique _ _ "x-tenant-id"); [apply lookup_insert_eq|done|].
  intros k' Hk Hl. destruct (decide (k' = "x-tenant-id")) as [|Hne]; [done|]. rewrite lookup_insert_ne in Hk by done.
  by rewrite (Hh k' Hk) in Hl.
Qed.

(** The request a handler sees. *)
Definition seen (k : RestCall) (segs : list string) : Request :=
  {| rq_method := sdk_method (call_method k); rq_path := segs;
     rq_header h := if String.eqb h X_REMOTE_USER then Some user else header_of headers h;
     rq_query_path := snd <$> List.find (fun p => String.eqb p.1 "path") (call_params k); rq_body := call_json k |}.

Lemma sent_to_route k segs w :
  call_path k = path_of segs -> Forall plain_segment segs ->
  hx_send (built c k headers) w =
  let (r, w') := routes (seen k segs) sdk_context w in (Ok (httpx_response (respond r)), w').
Proof using reach.
  intros Hp Hs. cbn [hx_send service_httpx]. rewrite (sr_forwarded reach). unfold serve, service_request. cbn [rq_path built hx_path].
  rewrite (sr_api_base reach), Hp.
  change ("/api/v1alpha1/data" +:+ path_of segs) with (path_of ["api"; "v1alpha1"; "data"] +:+ path_of segs).
  rewrite <- path_of_app. rewrite (sr_path reach) by (apply path_plain; apply Forall_app; split; [by repeat constructor|done]).
  rewrite segments_of_path. cbn [app]. unfold validate_headers. cbn [rq_header built hx_headers].
  change (String.eqb X_TENANT_ID X_REMOTE_USER) with false. cbv iota.
  rewrite tenant_header, (sr_tenant_valid reach).
  assert (He : is_empty (rc_tenant_id c) = false) by (pose proof (sr_tenant_given reach); by destruct (rc_tenant_id c)).
  rewrite He. unfold run_handler. change (String.eqb X_REMOTE_USER X_REMOTE_USER) with true. cbn [mbind option_bind].
  unfold sdk_context, controller_context, seen. cbn [rq_method rq_query_path rq_body built hx_method hx_params hx_json].
  by destruct (routes _ _ w).
Qed.

(** What the client makes of an answer. *)
Definition outcome (r : Rest.HttpResponse) : result PyError HttpxResponse :=
  if success (http_status r) then Ok (httpx_response r)
  else Err (map_http_error (http_status r) (body_text json_print (http_body r))).

Lemma headers_run s : _headers c s = (Ok headers, s).
Proof using reach.
  unfold _headers. rewrite (sr_provider reach).
  assert (He : is_empty (rc_tenant_id c) = false) by (pose proof (sr_tenant_given reach); by destruct (rc_tenant_id c)).
  rewrite He. cbn. by rewrite (sr_headers reach).
Qed.

Lemma attempts_some k : exists n, attempts_of c (call_method k) = S n.
Proof using reach.
  unfold attempts_of. pose proof (sr_retries reach). destruct (_is_retryable c _); [|by exists 0].
  exists (Z.to_nat (rc_max_retries c)). lia.
Qed.

(** A call whose answer is not one of a gateway is one run of its handler. *)
Lemma request_answered k segs s r w' :
  call_path k = path_of segs -> Forall plain_segment segs ->
  routes (seen k segs) sdk_context (outside s) = (r, w') -> retryable_status (http_status (respond r)) = false ->
  _request c k s = (outcome (respond r), {| cached := cached s; outside := w' |}).
Proof using reach.
  intros Hp Hs Hr Hn. unfold _request, _do_request. destruct (attempts_some k) as [n ->]. cbn [attempts_from].
  rewrite mseq_assoc, (mseq_run _ _ _ _ _ (headers_run s)), mseq_assoc.
  assert (Hsend : attempt (F := PyError) (out (hx_send (built c k headers))) s =
    (Ok (Ok (httpx_response (respond r))), {| cached := cached s; outside := w' |})).
  { unfold attempt, out. by rewrite (sent_to_route k segs _ Hp Hs), Hr. }
  rewrite (mseq_run _ _ _ _ _ Hsend). cbn [hx_status httpx_response]. rewrite Hn. cbn [andb]. cbv iota.
  rewrite (mseq_run (mret _) _ _ _ _ eq_refl), (sr_provider reach), (mseq_run (mret _) _ _ _ _ eq_refl). unfold outcome. cbn [hx_status httpx_response].
  by destruct (success _).
Qed.

(** ** Every call and its handler *)

Inductive SdkOp : Type :=
| ListConnections
| GetConnection (connection_id : string)
| CreateConnection (r : PyCreateConnection)
| UpdateConnection (connection_id : string) (r : PyUpdateConnection)
| DeleteConnection (connection_id : string)
| ExportConnection (connection_id secret_name : string)
| CheckConnectionReadiness (connection_id : string)
| TestCredentials (type_id : string) (credentials : gmap string string)
| ListConnectionTypes
| GetConnectionType (type_id : string)
| CreateConnectionType (r : PyCreateType)
| UpdateConnectionType (type_id : string) (r : PyUpdateType)
| DeleteConnectionType (type_id : string).

Inductive SdkAnswer : Type :=
| AConnection (a : PyConnection)
| AConnections (l : list PyConnection)
| AType (a : PyConnectionType)
| ATypes (l : list PyConnectionType)
| ANothing.

Definition sdk_run (op : SdkOp) : M (Sdk W) PyError SdkAnswer :=
  match op with
  | ListConnections => let? l := sdk_list_connections json_parse c in mret (AConnections l)
  | GetConnection i => let? a := sdk_get_connection json_parse c i in mret (AConnection a)
  | CreateConnection r => let? a := sdk_create_connection json_parse c r in mret (AConnection a)
  | UpdateConnection i r => let? a := sdk_update_connection json_parse c i r in mret (AConnection a)
  | DeleteConnection i => sdk_delete_connection c i ;? mret ANothing
  | ExportConnection i t => sdk_export_connection c i t ;? mret ANothing
  | CheckConnectionReadiness i => sdk_check_connection_readiness c i ;? mret ANothing
  | TestCredentials t p => sdk_test_credentials c t p ;? mret ANothing
  | ListConnectionTypes => let? l := sdk_list_connection_types json_parse c in mret (ATypes l)
  | GetConnectionType i => let? a := sdk_get_connection_type json_parse c i in mret (AType a)
  | CreateConnectionType r => let? a := sdk_create_connection_type json_parse c r in mret (AType a)
  | UpdateConnectionType i r => let? a := sdk_update_connection_type json_parse c i r in mret (AType a)
  | DeleteConnectionType i => sdk_delete_connection_type c i ;? mret ANothing
  end.

(** The handler of the endpoint, with the ids and the body as the caller gave them. A
    request with no or both kinds of credentials cannot be made. *)
Definition op_handler (op : SdkOp) : M W RestErrorResponse Rest.HttpResponse :=
  match op with
  | ListConnections => list_connections sdk_context
  | GetConnection i => get_connection sdk_context i
  | CreateConnection r =>
      match rust_py_connection r with Some b => Rest.create_connection sdk_context b | None => not_found end
  | UpdateConnection i r => patch_connection json_merge serde_text sdk_context i (update_connection_dump r)
  | DeleteConnection i => delete_connection sdk_context i
  | ExportConnection i t => export_connection svc sdk_context i t
  | CheckConnectionReadiness i => check_existent_connection sdk_context i
  | TestCredentials t p => Rest.test_credentials sdk_context {| tc_type_id := t; tc_credentials := p |}
  | ListConnectionTypes => Rest.list_connection_types sdk_context
  | GetConnectionType i => get_connection_type sdk_context i
  | CreateConnectionType r => Rest.create_connection_type sdk_context (rust_py_type r)
  | UpdateConnectionType i r => patch_connection_type json_merge serde_text sdk_context i (update_type_patch r)
  | DeleteConnectionType i => delete_connection_type sdk_context i
  end.

(** The ids a call names. *)
Definition op_ids (op : SdkOp) : list string :=
  match op with
  | GetConnection i | UpdateConnection i _ | DeleteConnection i | CheckConnectionReadiness i
  | GetConnectionType i | UpdateConnectionType i _ | DeleteConnectionType i => [i]
  | ExportConnection i t => [i; t]
  | _ => []
  end.

(** An id is not blank and not a dot segment; a creation has one kind of credentials. *)
Definition op_valid (op : SdkOp) : Prop :=
  Forall (fun i => is_empty (py_lstrip i) = false /\ plain_segment i) (op_ids op) /\
  match op with CreateConnection r => _validate_credentials r = true | _ => True end.

Definition read_as {A} (model : string) (decode : json -> option A) (resp : HttpxResponse) : result PyError A :=
  let?? v := _parse_json json_parse resp in _validate model decode v.
Definition read_list {A} (model : string) (decode : json -> option A) (resp : HttpxResponse) : result PyError (list A) :=
  let?? v := _parse_json json_parse resp in let?? l := _unwrap_list v in rmapM (_validate model decode) l.

(** What the caller gets of a successful answer. *)
Definition op_answer (op : SdkOp) (resp : HttpxResponse) : result PyError SdkAnswer :=
  match op with
  | ListConnections => rmap AConnections (read_list "DataConnection" py_connection resp)
  | GetConnection _ | CreateConnection _ | UpdateConnection _ _ =>
      rmap AConnection (read_as "DataConnection" py_connection resp)
  | ListConnectionTypes => rmap ATypes (read_list "ConnectionType" py_connection_type resp)
  | GetConnectionType _ | CreateConnectionType _ | UpdateConnectionType _ _ =>
      rmap AType (read_as "ConnectionType" py_connection_type resp)
  | _ => Ok ANothing
  end.

(** The routes take an id that is not empty. *)
Lemma not_blank i : is_empty (py_lstrip i) = false -> exists a r, i = String a r.
Proof. destruct i as [|a r]; [done|]. eauto. Qed.

Lemma segment_ok i name : is_empty (py_lstrip i) = false -> _segment i name = Ok (quote i).
Proof. intros Hi. unfold _segment. by rewrite Hi. Qed.

(** A call that reads its answer with [f]. *)
Lemma call_answered {A} k segs (f : HttpxResponse -> result PyError A) (h : M W RestErrorResponse Rest.HttpResponse) s :
  call_path k = path_of segs -> Forall plain_segment segs -> routes (seen k segs) sdk_context (outside s) = h (outside s) ->
  retryable_status (http_status (respond (h (outside s)).1)) = false ->
  (let? x := _request c k in lift (f x)) s =
  (rbind (outcome (respond (h (outside s)).1)) f, {| cached := cached s; outside := (h (outside s)).2 |}).
Proof using reach.
  intros Hp Hs Hr Hn. destruct (h (outside s)) as [r w'] eqn:Hh. cbn in *. unfold mseq.
  rewrite (request_answered k segs s r w' Hp Hs Hr Hn). by destruct (outcome (respond r)).
Qed.

(** The three kinds of calls, as one request and what is read of its answer. *)
Lemma asked_reads {A B} model (decode : json -> option A) (F : A -> B) k s :
  (let? a := asked json_parse c model decode k in mret (F a)) s =
  (let? x := _request c k in lift (rmap F (read_as model decode x))) s.
Proof.
  unfold asked, read_as, mseq, lift, mret, rbind. destruct (_request c k s) as [[x|e] s1]; [|done].
  destruct (_parse_json _ x); [|done]. by destruct (_validate _ _ _).
Qed.

Lemma asked_list_reads {A B} model (decode : json -> option A) (F : list A -> B) k s :
  (let? a := asked_list json_parse c model decode k in mret (F a)) s =
  (let? x := _request c k in lift (rmap F (read_list model decode x))) s.
Proof.
  unfold asked_list, read_list, mseq, lift, mret, rbind. destruct (_request c k s) as [[x|e] s1]; [|done].
  destruct (_parse_json _ x); [|done]. destruct (_unwrap_list _); [|done]. by destruct (rmapM _ _).
Qed.

Lemma asked_nothing_reads {B} (b : B) k s :
  (asked_nothing c k ;? mret b) s = (let? x := _request c k in lift (Ok b)) s.
Proof. unfold asked_nothing, mseq, lift, mret. by destruct (_request c k s) as [[x|e] s1]. Qed.

(** Takes the first id of a call: its segment, and that it is not empty. *)
Ltac one_id H :=
  let Hb := fresh "Hblank" in let Hp := fresh "Hplain" in let Hs := fresh "Hseg" in let He := fresh "Hid" in
  apply Forall_cons in H as [[Hb Hp] H];
  pose proof (fun name => segment_ok _ name Hb) as Hs;
  destruct (not_blank _ Hb) as (? & ? & He).

Ltac unfold_call :=
  unfold sdk_run, sdk_list_connections, sdk_get_connection, sdk_create_connection, sdk_update_connection, sdk_delete_connection,
    sdk_export_connection, sdk_check_connection_readiness, sdk_test_credentials, sdk_list_connection_types, sdk_get_connection_type,
    sdk_create_connection_type, sdk_update_connection_type, sdk_delete_connection_type.

(** Follows a call to its handler. *)
Ltac serves segs :=
  unfold_call;
  repeat match goal with H : forall name, _segment _ name = Ok _ |- _ => rewrite !H; clear H end;
  rewrite ?mseq_assoc, ?mseq_lift_ok; rewrite ?mseq_assoc, ?mseq_lift_ok;
  first [rewrite asked_reads | rewrite asked_list_reads | rewrite asked_nothing_reads];
  match goal with |- _ = (rbind (outcome (respond (op_handler ?op _).1)) _, _) =>
    apply (call_answered _ segs (op_answer op) (op_handler op)) end;
  [ cbn [path_of call_path call_of]; rewrite ?sapp_nil_r; reflexivity
  | repeat (apply Forall_cons; split; [first [assumption | by split]|]); by apply Forall_nil
  | repeat match goal with H : _ = String _ _ |- _ => subst end; try reflexivity
  | assumption ].

Ltac at_route :=
  cbn [scope_routes seen sdk_method String.eqb Ascii.eqb Bool.eqb call_of rq_method rq_path call_method op_handler];
  unfold with_body, create_body, json_body; cbn [rq_body seen call_json call_of].

Lemma connection_given r : _validate_credentials r = true -> rust_py_connection r <> None.
Proof.
  unfold _validate_credentials, rust_py_connection. destruct r as [? ? ? [?|] [[? ?]|] ?]; cbn; intros Hv; try done;
    by repeat case_bool_decide.
Qed.

(** Every call is one run of its handler. *)
Lemma call_served op s :
  op_valid op -> retryable_status (http_status (respond (op_handler op (outside s)).1)) = false ->
  sdk_run op s =
  (rbind (outcome (respond (op_handler op (outside s)).1)) (op_answer op),
   {| cached := cached s; outside := (op_handler op (outside s)).2 |}).
Proof using reach.
  intros [Hids Hc] Hn. destruct op; cbn [op_ids] in Hids.
  - serves ["connections"].
  - one_id Hids. unfold sdk_run, sdk_get_connection. serves ["connections"; connection_id].
  - serves ["connections"]. at_route. rewrite create_connection_sent by done.
    destruct (rust_py_connection r) eqn:Hr; [done|]. by apply connection_given in Hc.
  - one_id Hids. serves ["connections"; connection_id].
  - one_id Hids. serves ["connections"; connection_id].
  - one_id Hids. one_id Hids. serves ["connections"; connection_id; "exports"; "secrets"; secret_name].
  - one_id Hids. serves ["connections"; connection_id; "readiness"].
  - serves ["test"; "credentials"]. at_route.
    change (credential_test_dump type_id credentials) with (to_value {| tc_type_id := type_id; tc_credentials := credentials |}).
    by rewrite serde_roundtrip.
  - serves ["connection-types"].
  - one_id Hids. serves ["connection-types"; type_id].
  - serves ["connection-types"]. at_route. by rewrite create_type_sent, serde_roundtrip.
  - one_id Hids. serves ["connection-types"; type_id].
  - one_id Hids. serves ["connection-types"; type_id].
Qed.


(** ** A connection, from the store to Python *)

(** The class of the exception for an error of the store, and its status; [None] where
    the client tries again. *)
Definition store_exception (e : MetaStoreError) : option (DCHHTTPClass * nat) :=
  match e with
  | ResourceNotFound _ => Some (DCHNotFoundError, 404)
  | InvalidRequest _ | Serialization _ | Deserialization _ | Validation _ => Some (DCHValidationError, 400)
  | UnprocessableEntity _ => Some (DCHValidationError, 422)
  | Conflict _ => Some (DCHConflictError, 409)
  | Config _ | Query _ => Some (DCHServerError, 500)
  | Api.Connection _ => None
  end.

Hypothesis parses : forall v, json_parse (json_print v) = Some v.
Context `{!PydanticLaws}.

(** What was stored is what [get_connection] returns. *)
Definition parsed (r : DataConnectionResource) (a : PyConnection) : Prop :=
  exists created updated changed,
    a = py_connection_of r created updated changed /\
    pyd_datetime (JString (created_at (dc_metadata r))) = Some created /\
    pyd_datetime (JString (updated_at (dc_metadata r))) = Some updated /\
    match status_updated_at (dc_status r) with
    | Some t => exists d, pyd_datetime (JString t) = Some d /\ changed = Some d | None => changed = None end.

Lemma sdk_run_inv {A} (m : M (Sdk W) PyError A) F s r s' :
  (let? a := m in mret (F a)) s = (r, s') -> (exists a, m s = (Ok a, s') /\ r = Ok (F a)) \/ (exists e, m s = (Err e, s') /\ r = Err (A := SdkAnswer) e).
Proof. unfold mseq, mret. destruct (m s) as [[a|e] s1]; intros [= <- <-]; eauto. Qed.

(** C39: A connection reaches Python whole, or its failure does. What [get_connection] of
    the SDK does is the store's lookup of that id for the client's tenant: a connection
    that was found is returned with every field, if pydantic reads its timestamps; an
    error of the store that is not an outage is raised as the exception of its kind,
    with the status and the service's own error document. *)
Theorem connection_seen_by_sdk i s :
  is_empty (py_lstrip i) = false -> plain_segment i ->
  let '(got, w') := ms_get_data_connection (rc_tenant_id c) i (outside s) in
  let s' := {| cached := cached s; outside := w' |} in
  match got with
  | Ok r => forall a, parsed r a -> sdk_get_connection json_parse c i s = (Ok a, s')
  | Err e => forall class status, store_exception e = Some (class, status) ->
      exists m, sdk_get_connection json_parse c i s =
        (Err (DCHHttp class m status (json_print (error_body (from_meta_store_error e)))), s')
  end.
Proof using All.
  intros Hb Hp. destruct (ms_get_data_connection _ i (outside s)) as [got w'] eqn:Hg. cbv zeta.
  assert (Hv : op_valid (GetConnection i)) by (split; [by apply Forall_singleton|done]).
  assert (Hh : op_handler (GetConnection i) (outside s) =
    (rmap (fun r => ok_json (to_value r)) (rmap_err from_meta_store_error got), w')).
  { cbn [op_handler]. unfold get_connection, mseq, map_err. cbn [ctx_tenant sdk_context controller_context]. rewrite Hg.
    by destruct got. }
  pose proof (call_served (GetConnection i) s Hv) as Hs. rewrite Hh in Hs. cbn [fst snd sdk_run] in Hs.
  destruct got as [r|e]; cbn [rmap rmap_err respond] in Hs.
  - intros a (cr & u & su & -> & Hc & Hu & Hsu). specialize (Hs eq_refl). unfold outcome in Hs.
    change (success (http_status (ok_json _))) with true in Hs. cbn [rbind op_answer] in Hs. unfold read_as, _parse_json in Hs.
    cbn [hx_text httpx_response body_text http_body ok_json] in Hs. rewrite parses in Hs. cbn [ok_or rbind] in Hs. unfold _validate in Hs.
    rewrite (connection_received r cr u su Hc Hu Hsu) in Hs.
    by apply sdk_run_inv in Hs as [(a & -> & [= ->])|(e & _ & [=])].
  - intros class st He. assert (Hst : status_code (from_meta_store_error e) = st /\ http_class st = class /\ retryable_status st = false /\ success st = false).
    { destruct e; cbn in He; by inversion He; subst. }
    destruct Hst as (Hst & Hcl & Hre & Hsu). cbn [http_status] in Hs. rewrite Hst in Hs. specialize (Hs Hre).
    unfold outcome in Hs. cbn [http_status http_body] in Hs. rewrite Hsu in Hs. cbn [rbind body_text] in Hs. unfold map_http_error in Hs.
    rewrite Hcl in Hs. eexists. by apply sdk_run_inv in Hs as [(a & _ & [=])|(e' & -> & [= ->])].
Qed.
End Served.
