(* ===== verification/SdkSample.v ===== *)
(** A concrete client in front of the sample service, and the inputs for which the SDK
    does not do what its comments say. *)
From S2P Require Import Prelude Text Json JsonCode Sql Api MetaStore MetaStoreSpec KubeAuth Traits RestErrors Rest RestSample.
From S2P Require Import ControllerRest ControllerCalls SdkModels Sdk SdkCalls.
From Stdlib Require Import ZArith.
From Stdlib Require QArith.

(** ** Dot segments, removed as RFC 3986 says *)

(** A dot segment at the end leaves a trailing slash. *)
Definition trailing (segs acc : list string) : list string := match segs with [] => "" :: acc | _ => acc end.
Fixpoint resolve_dots (acc segs : list string) : list string :=
  match segs with
  | [] => rev acc
  | s :: segs =>
      if String.eqb s "." then resolve_dots (trailing segs acc) segs
      else if String.eqb s ".." then resolve_dots (trailing segs (tail acc)) segs
      else resolve_dots (s :: acc) segs
  end.
Definition dot_segment (s : string) : bool := String.eqb s "." || String.eqb s "..".
Definition remove_dots (p : string) : string :=
  if existsb dot_segment (split "/" p) then join "/" (resolve_dots [] (split "/" p)) else p.

Lemma remove_dots_plain p : plain_path p -> remove_dots p = p.
Proof.
  intros Hp. unfold remove_dots. destruct (existsb _ _) eqn:He; [exfalso|done].
  apply existsb_exists in He as (s & Hin & Hs). unfold plain_path in Hp. rewrite Forall_forall in Hp.
  destruct (Hp s) as [H1 H2]; [by apply list_elem_of_In|]. unfold dot_segment in Hs.
  apply orb_true_iff in Hs as [Hs|Hs]; apply String.eqb_eq in Hs; congruence.
Qed.

(** ** The client and its service *)

#[local] Existing Instance sample_oracle.
#[local] Instance sample_pydantic : Pydantic :=
  {| DateTime := string; pyd_str := as_str; pyd_bool := as_bool; pyd_datetime := as_str |}.
#[local] Instance sample_pydantic_laws : PydanticLaws.
Proof. done. Qed.

Definition sample_client : RestClient (Store * Env) :=
  {| rc_base_url := "https://hub.example"; rc_token := "token"; rc_provider := None; rc_tenant_id := "a";
     rc_api_base := "/api/v1alpha1/data"; rc_max_retries := 3; rc_backoff_base := half; rc_backoff_max := q_of_Z 30;
     rc_retry_methods := Some _IDEMPOTENT_METHODS; rc_verify := VerifySystem |}.
Definition sample_headers : gmap string string := <["x-tenant-id" := "a"]> {["Authorization" := "Bearer token"]}.
Definition sample_proxy (rq : HttpxRequest) : result HttpxResponse string := Ok "alice".
Definition unread {A} (r : HttpxResponse) : M (Store * Env) RequestError A :=
  throw {| re_class := NotTransport; re_name := "StreamConsumed"; re_text := "" |}.
Definition unmoved {A} (a : A) (w : Store * Env) : Store * Env := w.
Definition no_chance (w : Store * Env) : Q * (Store * Env) := (q_of_Z 0, w).

Lemma sample_sdk_reachable : sdk_reachable remove_dots sample_proxy sample_client "alice" sample_headers.
Proof. split; try done. apply remove_dots_plain. Qed.

Definition sample_session : Sdk (Store * Env) := {| cached := None; outside := sample_world |}.
Abbreviation sample_call := (sdk_run sample_merge sample_text "" sample_service JsonCode.code uncode remove_dots sample_proxy
  unread unread unmoved no_chance unmoved sample_client).


Abbreviation sample_get := (sdk_get_connection (HX := service_httpx sample_merge sample_text "" sample_service JsonCode.code remove_dots
  sample_proxy unread unread unmoved no_chance unmoved) uncode sample_client).

(** What the SDK holds of a resource, with timestamps as text. *)
Definition sample_seen (r : DataConnectionResource) : PyConnection (H := sample_pydantic) :=
  py_connection_of (H := sample_pydantic) r (created_at (dc_metadata r)) (updated_at (dc_metadata r)) (status_updated_at (dc_status r)).

Lemma sample_parsed r :
  parsed r (sample_seen r).
Proof. do 3 eexists. split_and!; [reflexivity..|]. destruct (status_updated_at (dc_status r)); [by eexists|done]. Qed.

(** The stored connection is returned; a missing one is a [DCHNotFoundError]. *)
Lemma connection_seen_by_sdk_witness :
  (exists a, (sample_get "1" sample_session).1 = Ok a /\ pc_name a = "x" /\ pc_tenant_id a = "a") /\
  (exists m b, (sample_get "2" sample_session).1 = Err (DCHHttp DCHNotFoundError m 404 b)).
Proof.
  split.
  - assert (Hs := connection_seen_by_sdk sample_merge sample_text "" sample_service JsonCode.code uncode remove_dots sample_proxy
      unread unread unmoved no_chance unmoved sample_client "alice" sample_headers sample_sdk_reachable uncode_code "1" sample_session
      ltac:(vm_compute; reflexivity) ltac:(split; discriminate)).
    destruct (ms_get_data_connection (rc_tenant_id sample_client) "1" (outside sample_session)) as [[r|e] w'] eqn:Hg;
      [|vm_compute in Hg; discriminate Hg].
    exists (sample_seen r).
    rewrite (Hs (sample_seen r) (sample_parsed r)). split; [reflexivity|].
    assert (Hr : Ok r = (ms_get_data_connection "a" "1" sample_world).1 :> result MetaStoreError _)
      by (change "a" with (rc_tenant_id sample_client); change sample_world with (outside sample_session); rewrite Hg; reflexivity).
    vm_compute in Hr. injection Hr as ->. split; reflexivity.
  - do 2 eexists. vm_compute. reflexivity.
Defined.

(** ** Inputs the SDK does not handle *)

(** The comment of [_segment] says that an id with [..] does not retarget the request;
    the id [..] is not escaped, and the request leaves the endpoint. *)
Example dot_id_retargets :
  _segment ".." "connection_id" = Ok ".." /\
  remove_dots (rc_api_base sample_client +:+ "/connections/" +:+ "..") = "/api/v1alpha1/data/" /\
  remove_dots (rc_api_base sample_client +:+ "/connections/" +:+ ".." +:+ "/exports/secrets/" +:+ "s") =
    "/api/v1alpha1/data/exports/secrets/s".
Proof. split_and!; vm_compute; reflexivity. Qed.

(** A token of white space raises an [IndexError]. *)
Example blank_token_raises : build_headers "Bearer  " "a" = Err (PyException "IndexError: list index out of range").
Proof. vm_compute. reflexivity. Qed.

(** A negative [Retry-After] of the server raises a [ValueError]. *)
Example negative_retry_after_raises :
  exists d, py_float "-1" = Some d /\
    (sleep_for (HX := service_httpx sample_merge sample_text "" sample_service JsonCode.code remove_dots sample_proxy unread unread unmoved
       no_chance unmoved) (py_min d (rc_backoff_max sample_client)) sample_session).1 =
    Err (PyException "ValueError: sleep length must be non-negative").
Proof. eexists. split; vm_compute; reflexivity. Qed.

(** With a negative number of retries nothing is sent, although the comment calls the end
    of the loop unreachable. *)
Example negative_retries_send_nothing {W} `{!Httpx W} (c : RestClient W) k s :
  rc_max_retries c = (-1)%Z -> _is_retryable c (call_method k) = true ->
  _do_request c k s = (Err (DCHError "Request failed after retries"), s).
Proof. intros Hm Hr. unfold _do_request, attempts_of. by rewrite Hr, Hm. Qed.
