(* ===== verification/Migration.v ===== *)
(** Migration end to end: the watchers of [Watchers], through the client and the REST
    service of [ControllerCalls], down to the rows of [PgMetaStore]. *)
From S2P Require Import Prelude Text Json Sql Api MetaStore MetaStoreInv MetaStoreAtomic MetaStoreSpec MetaStoreRefine.
From S2P Require Import KubeAuth Traits RestErrors Rest RestSample RestIsolation RestFlights Cluster ControllerRest.
From S2P Require Import Watchers ControllerCalls.
From Stdlib Require Import NArith.

(** The cluster is next to the service's database. *)
#[export] Instance zoom_kube {X Y A} `{Kube Y A} : Kube (X * Y) A := {
  k_get ns n := zoom_r (k_get ns n);
  k_list s := zoom_r (k_list s);
  k_create a := zoom_r (k_create a);
  k_update a := zoom_r (k_update a);
  k_update_status a := zoom_r (k_update_status a);
  k_patch a b := zoom_r (k_patch a b);
  k_delete a := zoom_r (k_delete a)
}.

(** ** Stored connection types *)

Section Stored.
Context `{O : Oracle}.
Variable g : string.

Definition type_stored (n t : string) (d : Db) : Prop :=
  exists r, r ∈ types d /\ row_name r = Some n /\ row_tenant r = Some t.

(** The database stays well-formed, and no connection type is lost or renamed. *)
Definition keeps_types (d d' : Db) : Prop :=
  db_wf g d -> db_wf g d' /\ forall n t, type_stored n t d -> type_stored n t d'.

#[export] Instance keeps_types_preorder : PreOrder keeps_types.
Proof. split; [by intros d Hd|]. intros a b c Hab Hbc Ha. destruct (Hab Ha) as [Hb ?], (Hbc Hb). naive_solver. Qed.

Lemma row_name_type (t : DataConnectionTypeResource) : row_name (to_value t) = Some (type_name (dct_resource t)).
Proof.
  unfold row_name, column. cbn [to_value serde_type_resource]. unfold obj, jget.
  rewrite fields_lookup. cbn [assoc String.eqb Ascii.eqb Bool.eqb mbind option_bind].
  cbn [to_value serde_connection_type]. unfold obj. by rewrite fields_lookup.
Qed.

Lemma decoded_name r e s :
  from_value (A := DataConnectionTypeResource) r = Some e -> row_name r = Some s -> type_name (dct_resource e) = s.
Proof.
  destruct r as [| | | |l|f]; try (cbn; done). cbn [from_value serde_type_resource as_struct mbind option_bind].
  intros H. destruct (req "metadata" f); [|done]. cbn [mbind option_bind] in H.
  unfold req, row_name, column, jget in *. destruct (f !! "resource") as [v|]; [|done]. cbn [mbind option_bind] in *.
  destruct (from_value v) as [ty|] eqn:Hv; [|done]. cbn [mbind option_bind] in H.
  destruct (dflt _ _ _); [|done]. cbn in H. simplify_eq/=.
  destruct v as [| | | |l|m]; try done. cbn [from_value serde_connection_type as_struct mbind option_bind] in Hv.
  unfold req in Hv. destruct (m !! "name") as [[]|];
    cbn [mbind option_bind from_value serde_string as_str] in Hv; try done. cbn. intros [= <-].
  repeat (match goal with H : context [mbind _ ?o] |- _ => destruct o; [|done]; cbn [mbind option_bind] in H end).
  by simplify_eq/=.
Qed.

#[local] Arguments to_value : simpl never.
#[local] Arguments from_value : simpl never.

Lemma keeps_type_status uid f : steps (on_db keeps_types) (update_data_connection_type_status uid f).
Proof.
  apply (steps_in_tx keeps_types). intros w a w' H Hw. inv_sql. chase_db. inv_decode. split.
  { eapply wf_rewrite_type; eauto. intros x. by apply sql_eq_true. }
  intros n t (r & Hin & Hn & Ht). cbn [rows set_rows types]. destruct (id_is uid r) eqn:Hid; cycle 1.
  { exists r. split_and!; [|done|done]. apply list_elem_of_fmap. exists r. by rewrite Hid. }
  pose proof (find_some _ _ _ Hfind) as [Hr0 Hid0]. unfold id_is in Hid, Hid0. apply sql_eq_true in Hid, Hid0.
  assert (r = a0) as ->.
  { by apply (unique_rows_id data_connection_types (types (db w)) r a0 uid); [apply (proj1 Hw data_connection_types)|..]. }
  eexists. split_and!.
  - apply list_elem_of_fmap. exists a0. split; [|done]. unfold id_is. by rewrite (proj2 (sql_eq_true _ _) Hid).
  - rewrite row_name_type. cbn. f_equal. by eapply decoded_name.
  - rewrite row_tenant_type. cbn. by eapply decoded_type.
Qed.

(** Creating a type on a database that answers: it is stored, or one of its name was. *)
Hypothesis answers : forall n, db_fault n = None.

Lemma create_type_stored t ty (w : Store) r w' :
  db_wf g (db w) -> (forall x, x ∈ types (db w) -> row_id x <> Some (uuid_at (S (tick w)))) ->
  create_data_connection_type t ty w = (r, w') ->
  db_wf g (db w') /\ type_stored (type_name ty) t (db w') /\
  match r with Ok _ => True | Err (Conflict _) => True | Err _ => False end.
Proof using answers.
  intros Hw Hf Hr.
  assert (Hwf : db_wf g (db w')).
  { pose proof (exec_wf g (CreateDataConnectionType t ty) w Hw) as Hx. cbn in Hx. unfold outcome in Hx. by rewrite Hr in Hx. }
  split; [done|]. revert Hr. unfold create_data_connection_type, mseq, utc_now, new_uuid, map_err, insert_row.
  rewrite db_call_quiet by done. cbn [db tick]. set (row := to_value _).
  assert (Hrow : row_name row = Some (type_name ty) /\ row_tenant row = Some t /\ row_id row = Some (uuid_at (S (tick w)))).
  { unfold row. by rewrite row_name_type, row_tenant_type, row_id_type. }
  destruct Hrow as (Hn & Ht & Hi). destruct (existsb _ _) eqn:He.
  - intros [= <- <-]. cbn. split; [|done]. apply existsb_exists in He as (x & Hx%list_elem_of_In & Hc).
    exists x. split; [done|]. unfold collide in Hc. cbn in Hc. unfold same_key in Hc. rewrite Hn, Ht, Hi in Hc. cbn in Hc.
    rewrite orb_false_r in Hc. apply orb_true_iff in Hc as [Hc|Hc]; apply bool_decide_eq_true in Hc; [naive_solver|].
    exfalso. injection Hc as Hc. by apply (Hf x Hx).
  - intros [= <- <-]. cbn. split; [|done]. exists row. split_and!; [|done|done]. apply elem_of_app. right. by left.
Qed.
End Stored.

Section AuditKeeps.
Context `{O : Oracle} {Y : Type} `{SecretStoreI Y} `{FlightI Y} `{ClockI Y}.
Variable g : string.
#[local] Instance migration_meta : MetaStoreI (Store * Y) := pg_meta_store g Y.

Lemma audit_keeps_types : steps (on_fst (Y := Y) (on_db (keeps_types g))) (audit_data_connection_types (W := Store * Y)).
Proof.
  assert (Hf : steps (on_db (keeps_types g)) get_all_flight_services).
  { unfold get_all_flight_services. walk (on_db (keeps_types g)) ltac:(apply (steps_fetch_all (keeps_types g))). }
  assert (Ht : steps (on_db (keeps_types g)) (get_all_data_connection_types g)).
  { unfold get_all_data_connection_types. walk (on_db (keeps_types g)) ltac:(apply (steps_fetch_all (keeps_types g))). }
  unfold audit_data_connection_types.
  walk (on_fst (Y:=Y) (on_db (keeps_types g))) ltac:(first
    [ intros [x y]; unfold svc_now; cbn; by destruct (clock_now y)
    | apply (steps_zoom_l (on_db (keeps_types g)));
      first [exact Hf | exact Ht | apply keeps_type_status]]).
Qed.
End AuditKeeps.

Lemma audit_fails_500 {W} `{MetaStoreI W} `{ClockI W} :
  fails_with (fun e => status (from_validation_error e) = 500) (audit_data_connection_types (W := W)).
Proof.
  unfold audit_data_connection_types.
  repeat first [apply fails_mseq; [|intros ?] | apply fails_for_each; intros ? | by apply fails_map_err
    | apply fails_mret | match goal with |- fails_with _ (let (_, _) := ?x in _) => destruct x end
    | intros w e w'; unfold svc_now; by destruct (clock_now w) ].
Qed.

(** ** ConfigMaps become connection types *)

(** What a reconciler's first steps come to. *)
Lemma get_or_done_run {W A} (get : M W KubeError A) k (w w1 : W) a :
  get w = (Ok a, w1) -> get_or_done get k w = k a w1.
Proof. intros Hg. unfold get_or_done, mseq, attempt. by rewrite Hg. Qed.

Lemma deleting_run {W} (ls : M W KubeError (list ObjectMeta)) (w w1 : W) l :
  ls w = (Ok l, w1) -> dataConnectServiceDeleting ls w = (Ok (existsb om_deleting l), w1).
Proof. intros Hl. unfold dataConnectServiceDeleting, mseq, attempt. by rewrite Hl. Qed.

Lemma attempt_run {W E F A} (m : M W E A) (w : W) r w1 : m w = (r, w1) -> attempt (F := F) m w = (Ok r, w1).
Proof. intros Hm. unfold attempt. by rewrite Hm. Qed.

Lemma zoom_r_run {X Y E A} (m : M Y E A) (x : X) y r y1 : m y = (r, y1) -> zoom_r m (x, y) = (r, (x, y1)).
Proof. intros Hm. unfold zoom_r. cbn. by rewrite Hm. Qed.

Section Migration.
Context `{O : Oracle} {Y : Type} `{SecretStoreI Y} `{FlightI Y} `{ClockI Y}.
Variable g : string.
#[local] Instance service_meta : MetaStoreI (Store * Y) := pg_meta_store g Y.
Variable json_merge : json -> json -> json.
Variable serde_text : json -> string.
Variable actix_text : string.
Variable svc : ApiService (Store * Y).
Variable json_print : json -> string.
Variable proxy : ClientRequest -> result ClientResponse string.
Variable resolveURL : M (Store * Y) string string.
Variable read_token_file : M (Store * Y) string (option string).
Variable new_request : string -> option string.
Variable json_parse : string -> option json.
Variable json_error : string -> string.

Abbreviation http := (rest_http json_merge serde_text actix_text svc json_print proxy).

(** The controller's clients of the service. *)
#[local] Instance service_types : ConnectionTypeClient (Store * Y) :=
  create_connection_type resolveURL read_token_file new_request http.
#[local] Instance service_migration : ConnectionMigrationClient (Store * Y) := {|
  ListConnectionTypes := list_connection_types resolveURL read_token_file new_request http json_parse json_error;
  CreateConnection := create_connection resolveURL read_token_file new_request http
|}.

Variables (ns tenant user : string).
Hypothesis reach : reachable proxy ns tenant user resolveURL read_token_file new_request.
Hypothesis answers : forall n, db_fault n = None.

Abbreviation context := (controller_context tenant user).

(** Creating a valid type through the service stores it, whatever is answered. *)
Lemma service_stores_type ct (s s' : Store) (y y' : Y) r :
  validate_type (rust_type ct) = Ok tt -> db_wf g (db s) ->
  (forall x, x ∈ types (db s) -> row_id x <> Some (uuid_at (S (tick s)))) ->
  CreateConnectionType tenant ct (s, y) = (r, (s', y')) ->
  db_wf g (db s') /\ type_stored (gct_name ct) tenant (db s') /\
  match r with Ok _ | Err ErrConflict | Err ErrServiceUnavailable => True | Err _ => False end.
Proof using reach answers.
  intros Hv Hw Hf. unfold CreateConnectionType, service_types.
  rewrite (type_creation_served _ _ _ svc _ _ _ _ _ _ _ _ reach).
  unfold answered, Rest.create_connection_type. rewrite Hv. cbn [rmap_err]. rewrite mseq_lift_ok.
  unfold mseq at 1, map_err at 1. cbn [ms_create_data_connection_type service_meta pg_meta_store ctx_tenant controller_context].
  unfold zoom_l at 1. cbn [fst snd].
  destruct (create_data_connection_type tenant (rust_type ct) s) as [r1 s1] eqn:Hc.
  destruct (create_type_stored g answers _ _ _ _ _ Hw Hf Hc) as (Hw1 & Hs1 & Hr1).
  destruct r1 as [res|e]; cbn [rmap_err].
  - pose proof (audit_keeps_types g (s1, y)) as Ha. unfold mseq, map_err.
    destruct (audit_data_connection_types (s1, y)) as [ra [s2 y2]] eqn:Hra. cbn in Ha. destruct (Ha Hw1) as [Hw2 Hk].
    destruct ra as [u|e]; cbn [rmap_err mret]; intros Hr; injection Hr as <- <- <-; (split_and!; [done|by apply Hk|]); [done|].
    pose proof (audit_fails_500 _ _ _ Hra) as He. unfold created, client_response, respond, status_code. cbn [cr_status http_status].
    by rewrite He.
  - intros [= <- <- <-]. by destruct e.
Qed.

Lemma configmap_type_valid cm fields_json ct :
  configMapToConnectionType json_parse cm fields_json = Some ct ->
  gct_name ct = om_name (cm_meta cm) /\ validate_type (rust_type ct) = Ok tt.
Proof.
  unfold configMapToConnectionType. destruct (json_parse fields_json) as [v|]; [|done]. cbn [mbind option_bind].
  destruct (zero_or _ _ v); [|done]. by intros [= <-].
Qed.

Context `{KC : !Kube Y ConfigMap}.
Variable list_services : M Y KubeError (list ObjectMeta).

(** The first steps of a watcher: the object is read, and no DataConnectService is
    being deleted. *)
Record begins {A} `{!Kube Y A} (n : string) (a : A) (y y2 : Y) : Prop := {
  begins_get : exists y1, k_get tenant n y = (Ok a, y1) /\
    exists l, list_services y1 = (Ok l, y2) /\ existsb om_deleting l = false
}.


(** ** Secrets become connections *)

Context `{KS : !Kube Y KubeSecret}.

(** The type a Secret refers to, among those the service lists for its tenant. *)
Record refers (o : ObjectMeta) (s s1 : Store) (type_id : string) : Prop := {
  refers_named : is_empty (annotation annotationConnectionTypeRef o) = false;
  refers_listed : exists l, get_data_connection_types g tenant s = (Ok l, s1) /\
    json_parse (json_print (to_value l)) = Some (to_value l) /\ (Z.of_nat (total_count l) < 2 ^ 63)%Z /\
    (N.of_nat (String.length (json_print (to_value l))) <= maxResponseBodyBytes)%N /\
    find_type (annotation annotationConnectionTypeRef o) (go_resource <$> items l) = Some type_id
}.

Lemma refers_resolves o s s1 y type_id :
  refers o s s1 type_id ->
  resolveConnectionTypeID tenant (annotation annotationConnectionTypeRef o) (s, y) = (Ok type_id, (s1, y)).
Proof using reach.
  intros [_ (l & Hl & Hj & Hn & Hp & Hf)]. unfold resolveConnectionTypeID. cbn [ListConnectionTypes service_migration].
  erewrite mseq_run.
  2:{ eapply (types_listed _ _ _ _ _ _ _ _ _ _ _ _ reach); [|done|done|done].
      cbn [ms_get_data_connection_types service_meta pg_meta_store]. unfold zoom_l. cbn [fst snd]. by rewrite Hl. }
  by rewrite Hf.
Qed.

(** Creating a connection through the service is the store's operation. *)
Lemma service_creates_connection c s y :
  gc_format c = "tabular" ->
  CreateConnection tenant c (s, y) =
  let (r, s') := create_data_connection g tenant (rust_connection c Api.Tabular) s in
  (match r with
   | Ok _ => Ok tt
   | Err e => created {| cr_status := status_code (from_meta_store_error e);
                         cr_text := json_print (error_body (from_meta_store_error e)) |}
   end, (s', y)).
Proof using reach.
  intros Hf. cbn [CreateConnection service_migration].
  rewrite (connection_creation_served _ _ _ svc _ _ _ _ _ _ _ _ reach _ Api.Tabular) by done.
  unfold answered. cbn [Rest.create_connection]. unfold mseq, map_err.
  cbn [ms_create_data_connection service_meta pg_meta_store ctx_tenant controller_context]. unfold zoom_l. cbn [fst snd].
  by destruct (create_data_connection _ _ _ s) as [[c'|e] s'].
Qed.

(** C12: migrating a Secret is one creation in the store, of a connection that refers to
    the Secret and holds nothing of its data, and the Secret is marked exactly when
    the connection was stored or its name was taken. *)
Theorem secrets_are_migrated n sec (s s1 s' : Store) (y y2 y' : Y) type_id r :
  begins n sec y y2 -> om_name (ks_meta sec) = n -> om_namespace (ks_meta sec) = tenant ->
  synced (ks_meta sec) = false -> refers (ks_meta sec) s s1 type_id -> db_wf g (db s1) ->
  secret_reconcile (zoom_r list_services) (tenant, n) (s, y) = (r, (s', y')) ->
  let c := rust_connection (secret_connection (ks_meta sec) type_id) Api.Tabular in
  let spec := spec_create (type_visible g (db s1)) (now_at (2 + tick s1)) (uuid_at (3 + tick s1)) tenant c (abs (db s1)) in
  secret (credentials_ref c) = n /\ properties c = ∅ /\ abs (db s') = snd spec /\
  match fst spec with
  | Ok _ | Err (Conflict _) => exists p, k_patch sec {| ks_meta := mark (ks_meta sec); ks_data := ks_data sec |} y2 = (p, y') /\
                                 r = rmap (fun _ => Done) p
  | Err _ => r = Ok Done /\ y' = y2
  end.
Proof using reach answers.
  intros [(y1 & Hg & l & Hl & Hd)] Hn Hns Hs Href Hw. unfold secret_reconcile.
  rewrite (get_or_done_run _ _ _ (s, y1) sec) by by apply zoom_r_run.
  cbv zeta. rewrite (mseq_run _ _ _ false (s, y2)).
  2:{ rewrite <- Hd. apply deleting_run. by apply zoom_r_run. }
  cbv iota. rewrite Hs, (refers_named _ _ _ _ Href), Hns.
  rewrite (mseq_run _ _ _ (Ok type_id) (s1, y2)) by by apply attempt_run, refers_resolves.
  cbv beta iota. unfold mseq at 1, attempt at 1. rewrite service_creates_connection by done.
  set (c := rust_connection _ _). destruct (create_data_connection_refines g answers tenant c s1 Hw) as [Hr Ha].
  destruct (create_data_connection g tenant c s1) as [rc s3]. cbn [fst snd] in Hr, Ha. rewrite <- Hr, <- Ha.
  assert (Hmark : mark_secret_synced sec (s3, y2) = (r, (s', y')) -> s' = s3 /\
    exists p, k_patch sec {| ks_meta := mark (ks_meta sec); ks_data := ks_data sec |} y2 = (p, y') /\ r = rmap (fun _ => Done) p).
  { unfold mark_secret_synced, mseq. cbn. unfold zoom_r. cbn.
    destruct (k_patch _ _ y2) as [[u|e] y4]; intros [= <- <- <-]; (split; [done|]); by eexists. }
  intros Hrun. split; [done|]. split; [done|].
  destruct rc as [c'|e].
  { apply Hmark in Hrun as (-> & p & Hp & ->). split; [done|]. by exists p. }
  assert (He : (exists m, e = UnprocessableEntity m) \/ exists m, e = Conflict m).
  { unfold spec_create in Hr. destruct (negb _); [left|destruct (taken _ _); [right|done]]; injection Hr as ->; by eexists. }
  destruct He as [[m ->]|[m ->]].
  - by injection Hrun as <- <- <-.
  - apply Hmark in Hrun as (-> & p & Hp & ->). split; [done|]. by exists p.
Qed.
End Migration.
