(* ===== verification/MigrationSample.v ===== *)
(** A concrete cluster next to the sample service: one Secret and one ConfigMap that
    are migrated, and a Secret whose display name is taken. *)
From S2P Require Import Prelude Text Json Sql Api MetaStore MetaStoreInv MetaStoreAtomic MetaStoreSpec MetaStoreRefine.
From S2P Require Import KubeAuth Traits RestErrors Rest RestSample Cluster ControllerRest Watchers ControllerCalls Migration.
From Stdlib Require Import NArith.

Record Objects : Type := {
  ob_secrets : gmap (string * string) KubeSecret;
  ob_configmaps : gmap (string * string) ConfigMap
}.

Definition missing : KubeError := {| reason := IsNotFound; error_text := "not found" |}.

#[local] Instance objects_secrets : Kube (Objects * Env) KubeSecret := {|
  k_get ns n w := (ok_or (ob_secrets w.1 !! (ns, n)) missing, w);
  k_list _ w := (Ok (map_to_list (ob_secrets w.1)).*2, w);
  k_create _ := throw missing; k_update _ := throw missing; k_update_status _ := throw missing; k_delete _ := throw missing;
  k_patch a b w := (Ok tt, ({| ob_secrets := <[(om_namespace (ks_meta a), om_name (ks_meta a)) := b]> (ob_secrets w.1);
                               ob_configmaps := ob_configmaps w.1 |}, w.2))
|}.

#[local] Instance objects_configmaps : Kube (Objects * Env) ConfigMap := {|
  k_get ns n w := (ok_or (ob_configmaps w.1 !! (ns, n)) missing, w);
  k_list _ w := (Ok (map_to_list (ob_configmaps w.1)).*2, w);
  k_create _ := throw missing; k_update _ := throw missing; k_update_status _ := throw missing; k_delete _ := throw missing;
  k_patch a b w := (Ok tt, ({| ob_secrets := ob_secrets w.1;
                               ob_configmaps := <[(om_namespace (cm_meta a), om_name (cm_meta a)) := b]> (ob_configmaps w.1) |}, w.2))
|}.

Definition plain_meta (ns n : string) (annotations : gmap string string) : ObjectMeta :=
  {| om_name := n; om_namespace := ns; om_uid := n; om_generation := 1; om_deleting := false; om_finalizers := [];
     om_owners := []; om_labels := ∅; om_annotations := annotations |}.

Definition no_services : M (Objects * Env) KubeError (list ObjectMeta) := mret [plain_meta "hub" "dcs" ∅].

(** The service's list of types for tenant [a], its text, and a ConfigMap's fields. *)
Definition sample_listing : json :=
  to_value {| total_count := 1;
              items := [@hide_global "global" (sample_type_row "t1" "global" "pg")] |}.
Definition sample_print (v : json) : string := "types".
Definition sample_fields : json :=
  JArray [obj [("type", Some (JString "hidden")); ("name", Some (JString "Password")); ("envVar", Some (JString "PASSWORD"));
               ("required", Some (JBool true))]].
Definition sample_parse (s : string) : option json :=
  if String.eqb s "types" then Some sample_listing else if String.eqb s "fields" then Some sample_fields else None.

Definition sample_configmap : ConfigMap :=
  {| cm_meta := plain_meta "a" "mysql" {[annotationDCHSynced := "true"]}; cm_data := {["fields" := "fields"]}; cm_binary := ∅ |}.
Definition sample_kube_secret (n display : string) : KubeSecret :=
  {| ks_meta := plain_meta "a" n (<[annotationDisplayName := display]> {[annotationConnectionTypeRef := "pg"]});
     ks_data := {["password" := "secret"]} |}.

Definition sample_objects : Objects :=
  {| ob_secrets := {[("a", "s1") := sample_kube_secret "s1" "sales"; ("a", "s2") := sample_kube_secret "s2" "sales"]};
     ob_configmaps := {[("a", "mysql") := sample_configmap]} |}.

Definition hub_world : Store * (Objects * Env) := (rest_store, (sample_objects, sample_env)).

Definition sample_url : M (Store * (Objects * Env)) string string := mret (service_url "hub").
Definition sample_token : M (Store * (Objects * Env)) string (option string) := mret (Some "token").
Definition sample_proxy (rq : ClientRequest) : result ClientResponse string := Ok "controller".

Lemma sample_reachable :
  reachable (W := Store * (Objects * Env)) sample_proxy "hub" "a" "controller" sample_url sample_token (fun _ => None).
Proof. by split. Qed.

Definition hub_service : ApiService (Store * (Objects * Env)) :=
  {| svc_global_tenant_id := "global"; svc_authorizer := None |}.

#[local] Existing Instance sample_oracle.
#[local] Instance hub_meta_store : MetaStoreI (Store * (Objects * Env)) := pg_meta_store "global" (Objects * Env).

Abbreviation sample_http := (rest_http sample_merge sample_text "" hub_service sample_print sample_proxy).
#[local] Instance hub_types : ConnectionTypeClient (Store * (Objects * Env)) :=
  create_connection_type sample_url sample_token (fun _ => None) sample_http.
#[local] Instance hub_migration : ConnectionMigrationClient (Store * (Objects * Env)) := {|
  ListConnectionTypes := list_connection_types sample_url sample_token (fun _ => None) sample_http sample_parse (fun _ => "");
  CreateConnection := create_connection sample_url sample_token (fun _ => None) sample_http
|}.


Definition after_listing : Store := {| db := db rest_store; tick := 1 |}.

Lemma sample_refers : refers "global" sample_print sample_parse "a" (ks_meta (sample_kube_secret "s1" "sales")) rest_store
  after_listing "t1".
Proof.
  split; [reflexivity|]. eexists. split_and!.
  - vm_compute. reflexivity.
  - vm_compute. reflexivity.
  - vm_compute. reflexivity.
  - vm_compute. discriminate.
  - vm_compute. reflexivity.
Qed.

(** The first Secret becomes a connection. *)
Lemma secrets_are_migrated_witness :
  let w := (secret_reconcile (zoom_r no_services) ("a", "s1") hub_world).2 in
  map_size (abs (db w.1)) = 3 /\
  abs (db w.1) = snd (spec_create (type_visible "global" (db after_listing)) (now_at 3) (uuid_at 4) "a"
    (rust_connection (secret_connection (ks_meta (sample_kube_secret "s1" "sales")) "t1") Api.Tabular) (abs (db after_listing))).
Proof.
  split; [vm_compute; reflexivity|].
  destruct (secret_reconcile (zoom_r no_services) ("a", "s1") hub_world) as [r [s' y']] eqn:Hr.
  edestruct (secrets_are_migrated (O := sample_oracle) "global" sample_merge sample_text "" hub_service sample_print sample_proxy
    sample_url sample_token (fun _ => None) sample_parse (fun _ => "") "hub" "a" "controller" sample_reachable
    (fun _ => eq_refl) no_services "s1" (sample_kube_secret "s1" "sales") rest_store after_listing s'
    (sample_objects, sample_env) (sample_objects, sample_env) y' "t1" r) as (_ & _ & Habs & _).
  - split. exists (sample_objects, sample_env). split; [vm_compute; reflexivity|]. eexists. split; reflexivity.
  - reflexivity.
  - reflexivity.
  - vm_compute. reflexivity.
  - exact sample_refers.
  - exact rest_wf.
  - exact Hr.
  - exact Habs.
Defined.

(** A second Secret with the same display name is marked as well, but no connection
    refers to it. *)
Example taken_name_is_lost :
  let w1 := (secret_reconcile (zoom_r no_services) ("a", "s1") hub_world).2 in
  let w2 := (secret_reconcile (zoom_r no_services) ("a", "s2") w1).2 in
  (synced ∘ ks_meta <$> ob_secrets w2.2.1 !! ("a", "s2")) = Some true /\
  List.filter (fun c => String.eqb (secret (credentials_ref (dc_resource c))) "s2") (map_to_list (abs (db w2.1))).*2 = [] /\
  List.filter (fun c => String.eqb (secret (credentials_ref (dc_resource c))) "s1") (map_to_list (abs (db w2.1))).*2 <> [].
Proof. split_and!; vm_compute; [reflexivity|reflexivity|discriminate]. Qed.
