(* ===== verification/Operator.v ===== *)
(** The DataConnectService reconciler
    ([dc-controller/internal/controller/dataconnectservice_controller.go]): its phases,
    the status it publishes and its finalizer. The manifests are rendered and applied
    in [Manifests]; here they are one step that succeeds or fails. *)
From S2P Require Import Prelude Text Json Cluster ControllerRest Watchers.
From Stdlib Require Import NArith ZArith.

(** ** The resource *)

Record Gateway : Type := { gw_name : string; gw_namespace : string }.
Record Duration : Type := { nanoseconds : Z }.
Record ConnectorOverride : Type := {
  co_name : string;
  co_enabled : option bool;
  co_connection_timeout : option Duration;
  co_request_timeout : option Duration;
  co_read_timeout : option Duration
}.
Record Trace : Type := { tr_exporter : string; tr_insecure : option bool; tr_certificate : string }.

(** The parts of [ServiceOverrides] as the patches print them: the lists are those of
    the pod specification, as JSON. *)
Record ServiceOverrides : Type := {
  so_replicas : option Z;
  so_resources : option json;
  so_pull_policy : option string;
  so_env : list json;
  so_env_from : list json;
  so_volumes : list json;
  so_volume_mounts : list json;
  so_connectors : list ConnectorOverride
}.

Record DataConnectServiceSpec : Type := {
  ds_rest : option ServiceOverrides;
  ds_flight : option ServiceOverrides;
  ds_audiences : option (list string);
  ds_gateway : option Gateway;
  ds_trace : option Trace
}.

Record DistributionStatus : Type := { dist_name : string; dist_version : string }.
Record ReleaseStatus : Type := { rel_name : string; rel_repo : string; rel_version : string }.

Record DataConnectServiceStatus : Type := {
  st_observed : Z;
  st_distribution : DistributionStatus;
  st_releases : list ReleaseStatus;
  st_phase : string;
  st_addresses : list (string * string);
  st_http_route : string;
  st_gateway : option Gateway;
  st_conditions : list Condition
}.

Record DataConnectService : Type := {
  dcs_meta : ObjectMeta;
  dcs_spec : DataConnectServiceSpec;
  dcs_status : DataConnectServiceStatus
}.

Record Deployment : Type := {
  dp_meta : ObjectMeta;
  dp_replicas : Z;
  dp_ready : Z;
  dp_updated : Z;
  dp_observed : Z
}.
Record ClusterRole : Type := { role_meta : ObjectMeta }.
Record ClusterRoleBinding : Type := { binding_meta : ObjectMeta }.

(** ** Constants *)

Definition conditionTypeReady : string := "Ready".
Definition conditionTypeProvisioningSucceeded : string := "ProvisioningSucceeded".
Definition conditionTypeDegraded : string := "Degraded".
Definition conditionTypeGRPCGatewaySupported : string := "GRPCGatewaySupported".
Definition annotationHTTP2Enable : string := "ingress.operator.openshift.io/default-enable-http2".
Definition finalizerName : string := "dataconnecthub.opendatahub.io/finalizer".
Definition labelManagedBy : string := "dataconnecthub.opendatahub.io/managed-by".
Definition managedByDCHService : string := "dataconnectservice".
Definition platformConfigName : string := "opendatahub-dataconnecthub-config".
Definition nameDatabaseConfig : string := "dch-database-config".
Definition nameSecretConfigTOML : string := "secret-config.toml".
Definition releasePlatform : string := "platform".
Definition repoURL : string := "https://github.com/opendatahub-io/data-connect-hub".
Definition requeueWaitingForReady : N := 10.
Definition requeueOnError : N := 30.
Definition requeueWhenReady : N := 300.

Definition flightServiceResourceName (cr_name : string) : string := cr_name +:+ "-flight".
Definition httpRouteResourceName (cr_name : string) : string := cr_name +:+ "-route".

(** ** Platform configuration *)

Record platformConfig : Type := {
  pc_distribution : DistributionStatus;
  pc_platform_version : string;
  pc_gateway_name : string;
  pc_gateway_namespace : string;
  pc_audiences : option (list string)
}.

Definition or_default (v d : string) : string := if is_empty v then d else v.

(** [strings.SplitSeq] and [strings.TrimSpace]; a list without entries is nil. *)
Definition parse_audiences (v : string) : option (list string) :=
  if is_empty v then None
  else match List.filter (fun a => negb (is_empty a)) (trim <$> split "," v) with [] => None | l => Some l end.

Definition platform_config (build : string) (data : gmap string string) : platformConfig :=
  {| pc_distribution := {| dist_name := or_default (go_get "distribution.name" data) "Standalone";
                           dist_version := or_default (go_get "distribution.version" data) build |};
     pc_platform_version := go_get "platformVersion" data;
     pc_gateway_name := or_default (go_get "gateway.name" data) "odh-gateway";
     pc_gateway_namespace := or_default (go_get "gateway.namespace" data) "opendatahub";
     pc_audiences := parse_audiences (go_get "auth.tokenReviewAudiences" data) |}.

Definition resolveGateway (cr : DataConnectService) (cfg : platformConfig) : Gateway :=
  match ds_gateway (dcs_spec cr) with
  | Some gw => gw
  | None => {| gw_name := pc_gateway_name cfg; gw_namespace := pc_gateway_namespace cfg |}
  end.

Definition resolveTokenReviewAudiences (cr : DataConnectService) (cfg : platformConfig) : list string :=
  match ds_audiences (dcs_spec cr) with Some l => l | None => default [] (pc_audiences cfg) end.

(** ** Status *)

(** [buildReleases]: the platform's version advances only when the module is ready. *)
Definition buildReleases (build : string) (old : list ReleaseStatus) (cfg : platformConfig) (is_ready : bool)
    : list ReleaseStatus :=
  let own n := {| rel_name := n; rel_repo := repoURL; rel_version := build |} in
  [own "rest-service"; own "flight-service"] ++
  if is_empty (pc_platform_version cfg) then []
  else [{| rel_name := releasePlatform; rel_repo := "";
           rel_version := if is_ready then pc_platform_version cfg
                          else from_option rel_version "" (List.find (fun r => String.eqb (rel_name r) releasePlatform) old) |}].

Definition with_dcs_status (st : DataConnectServiceStatus) (cr : DataConnectService) : DataConnectService :=
  {| dcs_meta := dcs_meta cr; dcs_spec := dcs_spec cr; dcs_status := st |}.

Definition with_conditions (f : list Condition -> list Condition) (st : DataConnectServiceStatus) : DataConnectServiceStatus :=
  {| st_observed := st_observed st; st_distribution := st_distribution st; st_releases := st_releases st;
     st_phase := st_phase st; st_addresses := st_addresses st; st_http_route := st_http_route st;
     st_gateway := st_gateway st; st_conditions := f (st_conditions st) |}.

(** [setCondition]. *)
Definition setCondition (t : string) (status : ConditionStatus) (why message : string) (cr : DataConnectService)
    : DataConnectService :=
  with_dcs_status (with_conditions (set_condition {| c_type := t; c_status := status;
    c_observed := om_generation (dcs_meta cr); c_reason := why; c_message := message |}) (dcs_status cr)) cr.

(** What [updateStatus] sets before the caller's own changes. *)
Definition begin_status (build phase : string) (cfg : platformConfig) (cr : DataConnectService) : DataConnectService :=
  let st := dcs_status cr in
  with_dcs_status
    {| st_observed := om_generation (dcs_meta cr); st_distribution := pc_distribution cfg;
       st_releases := buildReleases build (st_releases st) cfg (String.eqb phase conditionTypeReady);
       st_phase := phase; st_addresses := st_addresses st; st_http_route := st_http_route st;
       st_gateway := st_gateway st; st_conditions := st_conditions st |} cr.

Definition set_gateway (route : string) (gw : Gateway) (cr : DataConnectService) : DataConnectService :=
  let st := dcs_status cr in
  with_dcs_status
    {| st_observed := st_observed st; st_distribution := st_distribution st; st_releases := st_releases st;
       st_phase := st_phase st; st_addresses := st_addresses st; st_http_route := route; st_gateway := Some gw;
       st_conditions := st_conditions st |} cr.

Definition set_addresses (hostname : string) (cr : DataConnectService) : DataConnectService :=
  let st := dcs_status cr in
  with_dcs_status
    {| st_observed := st_observed st; st_distribution := st_distribution st; st_releases := st_releases st;
       st_phase := st_phase st; st_addresses := if is_empty hostname then [] else [("hostname", hostname)];
       st_http_route := st_http_route st; st_gateway := st_gateway st; st_conditions := st_conditions st |} cr.

Definition set_phase (phase : string) (cr : DataConnectService) : DataConnectService :=
  let st := dcs_status cr in
  with_dcs_status
    {| st_observed := st_observed st; st_distribution := st_distribution st; st_releases := st_releases st;
       st_phase := phase; st_addresses := st_addresses st; st_http_route := st_http_route st;
       st_gateway := st_gateway st; st_conditions := st_conditions st |} cr.

Definition http2_message : string :=
  "gRPC (flight-service) traffic routed through an OpenShift Route requires HTTP/2, which OpenShift disables " +:+
  "by default. A cluster-admin must enable it, e.g.: oc annotate ingresses.config/cluster " +:+
  annotationHTTP2Enable +:+ "=true --overwrite. The Route also needs its own dedicated TLS certificate " +:+
  "instead of the shared default one for ALPN to negotiate.".

(** [checkGRPCGatewaySupport], from what is known of HTTP/2. *)
Definition apply_http2 (enabled known : bool) (cr : DataConnectService) : DataConnectService :=
  if negb known then
    with_dcs_status (with_conditions (remove_condition conditionTypeGRPCGatewaySupported) (dcs_status cr)) cr
  else if enabled then
    setCondition conditionTypeGRPCGatewaySupported ConditionTrue "HTTP2Enabled"
      "Cluster ingress has HTTP/2 enabled; gRPC (flight-service) traffic can negotiate ALPN through the gateway route" cr
  else
    let cr := setCondition conditionTypeGRPCGatewaySupported ConditionFalse "HTTP2Disabled" http2_message cr in
    let cr := setCondition conditionTypeDegraded ConditionTrue "GatewayHTTP2Disabled" http2_message cr in
    let cr := setCondition conditionTypeReady ConditionFalse "GatewayHTTP2Disabled" http2_message cr in
    if String.eqb (st_phase (dcs_status cr)) conditionTypeReady then set_phase "Not Ready" cr else cr.

(** ** Gateways *)

Definition firstListenerHostname (gw : json) : string :=
  from_option (fun l => List.hd "" (omap (fun x =>
    h ← (v ← jget "hostname" x; as_str v);
    if is_empty h || contains "*" h then None else Some h) l)) "" (nested_slice ["spec"; "listeners"] gw).

Definition gatewayStatusAddress (gw : json) : string :=
  default "" (l ← nested_slice ["status"; "addresses"] gw; a ← head l; v ← jget "value" a; as_str v).

(** Whether HTTP/2 is switched on by an annotation. *)
Definition http2_on (v : json) : bool := String.eqb (go_get annotationHTTP2Enable (get_annotations v)) "true".

(** ** Deployments *)

Definition isOwnedBy (uid : string) (o : ObjectMeta) : bool := existsb (fun '(u, _) => String.eqb u uid) (om_owners o).

Definition deployment_ready (d : Deployment) : bool :=
  ((dp_ready d =? dp_replicas d) && (dp_updated d =? dp_replicas d) && (om_generation (dp_meta d) =? dp_observed d))%Z.

Definition pending_of (uid : string) (ds : list Deployment) : list string :=
  om_name ∘ dp_meta <$> List.filter (fun d => isOwnedBy uid (dp_meta d) && negb (deployment_ready d)) ds.

(** [%v] of a slice of strings. *)
Definition show_slice (l : list string) : string := "[" +:+ join " " l +:+ "]".

(** ** Connection types of the manifests *)

Record connectionTypeFieldDef : Type := {
  cd_name : string;
  cd_label : string;
  cd_description : string;
  cd_required : bool;
  cd_type : string;
  cd_default_value : string;
  cd_sensitive : bool
}.
Record connectionTypeFile : Type := {
  cx_name : string;
  cx_label : string;
  cx_provider : string;
  cx_description : string;
  cx_fields : list connectionTypeFieldDef;
  cx_tags : list string
}.

(** A pointer to a string that is not empty. *)
Definition unless_empty (s : string) : option string := if is_empty s then None else Some s.

Definition toIDCTSpec (f : connectionTypeFile) : InitDataConnectionTypeSpec :=
  {| is_name := cx_name f; is_label := unless_empty (cx_label f); is_provider := cx_provider f;
     is_description := unless_empty (cx_description f);
     is_fields := (fun cf =>
       {| cf_name := cd_name cf; cf_label := cd_label cf; cf_description := unless_empty (cd_description cf);
          cf_required := cd_required cf; cf_type := cd_type cf; cf_enum_values := [];
          cf_default_value := unless_empty (cd_default_value cf); cf_sensitive := cd_sensitive cf;
          cf_multiple := false |}) <$> cx_fields f;
     is_tags := cx_tags f |}.

(** ** Effects *)

(** Objects without a Go type, by kind: reading them. *)
Class Unstructured (W : Type) : Type := {
  u_get : string -> string -> string -> M W KubeError json;
  u_list : string -> string -> M W KubeError (list json)
}.

Section Operator.
Context {W : Type}.
Context `{KD : !Kube W DataConnectService} `{KS : !Kube W KubeSecret} `{KC : !Kube W ConfigMap}.
Context `{KI : !Kube W InitDataConnectionType} `{KP : !Kube W Deployment} `{KR : !Kube W ClusterRole}.
Context `{KB : !Kube W ClusterRoleBinding} `{UN : !Unstructured W}.
(** [BuildVersion], and rendering and applying the manifests. *)
Variable build : string.
Variable reconcileManifests : DataConnectService -> platformConfig -> M W KubeError unit.
(** The directory [connection-types] of the manifests: its entries, with whether each is
    a directory, and the contents of its files; and [yaml.Unmarshal]. *)
Variable read_dir : M W string (list (string * bool)).
Variable read_file : string -> M W string string.
Variable yaml_unmarshal : string -> option connectionTypeFile.
Variable flight_client : option (FlightServiceClient W).

(** A failure that is only logged. *)
Definition logged {A} (m : M W KubeError A) : M W KubeError unit := attempt m ;? mret tt.

Definition readPlatformConfig (namespace : string) : M W KubeError platformConfig :=
  let? r := attempt (k_get (A := ConfigMap) namespace platformConfigName) in
  mret (platform_config build match r with Ok cm => cm_data cm | Err _ => ∅ end).

Definition other (text : string) : KubeError := {| reason := Other; error_text := text |}.

Definition validateDatabaseSecret (namespace : string) : M W KubeError unit :=
  let? r := attempt (k_get (A := KubeSecret) namespace nameDatabaseConfig) in
  match r with
  | Err e =>
      throw (if bool_decide (reason e = IsNotFound)
             then other ("secret " +:+ debug_str nameDatabaseConfig +:+ " not found in namespace " +:+ debug_str namespace +:+
                         " — it must contain a secret-config.toml key")
             else wrap ("reading secret " +:+ nameDatabaseConfig) e)
  | Ok s =>
      if is_empty (trim (go_get nameSecretConfigTOML (ks_data s)))
      then throw (other ("secret " +:+ debug_str nameDatabaseConfig +:+ " is missing or has empty required key " +:+
                         debug_str nameSecretConfigTOML))
      else mret tt
  end.

(** *** Creating the connection types *)

Definition new_idct (namespace name : string) (spec : InitDataConnectionTypeSpec) : InitDataConnectionType :=
  {| idct_meta := {| om_name := name; om_namespace := namespace; om_uid := ""; om_generation := 0;
                     om_deleting := false; om_finalizers := []; om_owners := []; om_labels := ∅; om_annotations := ∅ |};
     idct_spec := spec; idct_phase := ""; idct_conditions := [] |}.

Definition ensure_type (namespace : string) (entry : string * bool) : M W KubeError unit :=
  let '(file, is_dir) := entry in
  if is_dir || negb (ends_with ".yaml" file) then mret tt
  else
    let? data := attempt (read_file file) in
    match data with
    | Err _ => mret tt
    | Ok data =>
        match yaml_unmarshal data with
        | None => mret tt
        | Some spec =>
            let name := String.substring 0 (String.length file - 5) file in
            let? r := attempt (k_get (A := InitDataConnectionType) namespace name) in
            match r with
            | Ok _ => mret tt
            | Err _ => logged (k_create (new_idct namespace name (toIDCTSpec spec)))
            end
        end
    end.

Definition ensureInitDataConnectionTypes (cr : DataConnectService) : M W KubeError unit :=
  let? r := attempt read_dir in
  match r with
  | Ok entries => for_each entries (ensure_type (om_namespace (dcs_meta cr)))
  | Err _ => mret tt
  end.

Definition deleteInitDataConnectionTypes (namespace : string) : M W KubeError unit :=
  let? r := attempt (k_list (A := InitDataConnectionType) {| sel_namespace := Some namespace; sel_labels := [] |}) in
  match r with
  | Ok l => for_each l (fun i => logged (k_delete i))
  | Err _ => mret tt
  end.

(** *** Annotations of migrated objects *)

Definition unmark (o : ObjectMeta) : ObjectMeta := with_annotations (delete annotationDCHSynced (om_annotations o)) o.

Definition clear_configmap (cm : ConfigMap) : M W KubeError unit :=
  if synced (cm_meta cm)
  then logged (k_patch cm {| cm_meta := unmark (cm_meta cm); cm_data := cm_data cm; cm_binary := cm_binary cm |})
  else mret tt.
Definition clear_secret (s : KubeSecret) : M W KubeError unit :=
  if synced (ks_meta s) then logged (k_patch s {| ks_meta := unmark (ks_meta s); ks_data := ks_data s |}) else mret tt.

Definition labelled (l : string) : Selector := {| sel_namespace := None; sel_labels := [(l, None)] |}.

Definition clearSyncedAnnotations : M W KubeError unit :=
  let? cms := attempt (k_list (A := ConfigMap) (labelled labelODHConnectionType)) in
  match cms with Ok l => for_each l clear_configmap | Err _ => mret tt end ;?
  let? secrets := attempt (k_list (A := KubeSecret) (labelled labelODHDashboard)) in
  match secrets with Ok l => for_each l clear_secret | Err _ => mret tt end.

(** *** Cluster-scoped resources *)

Definition managed : Selector := {| sel_namespace := None; sel_labels := [(labelManagedBy, Some managedByDCHService)] |}.

(** Deletes those owned by the resource; an object that is gone already is deleted.
    The failures are collected. *)
Fixpoint delete_owned {A} `{!Kube W A} (kind : string) (meta : A -> ObjectMeta) (uid : string) (l : list A)
    : M W KubeError (list string) :=
  match l with
  | [] => mret []
  | a :: l =>
      let? failed :=
        if isOwnedBy uid (meta a) then
          let? r := attempt (k_delete a) in
          mret match r with
               | Err e => if bool_decide (reason e = IsNotFound) then []
                          else ["deleting " +:+ kind +:+ " " +:+ om_name (meta a) +:+ ": " +:+ error_text e]
               | Ok _ => []
               end
        else mret [] in
      let? rest := delete_owned kind meta uid l in
      mret (failed ++ rest)
  end.

Definition deleteClusterScopedResources (uid : string) : M W KubeError unit :=
  let? roles := map_err (wrap "listing DCH ClusterRoles for cleanup") (k_list (A := ClusterRole) managed) in
  let? failed := delete_owned "ClusterRole" role_meta uid roles in
  let? bindings := map_err (wrap "listing DCH ClusterRoleBindings for cleanup") (k_list (A := ClusterRoleBinding) managed) in
  let? failed' := delete_owned "ClusterRoleBinding" binding_meta uid bindings in
  match failed ++ failed' with
  | [] => mret tt
  | errs => throw (other (join (String (ascii_of_nat 10) "") errs))
  end.

(** *** Readiness *)

Definition pendingDeployments (namespace uid : string) : M W KubeError (list string) :=
  let? ds := map_err (wrap "listing managed deployments")
    (k_list (A := Deployment) {| sel_namespace := Some namespace; sel_labels := [(labelManagedBy, Some managedByDCHService)] |}) in
  mret (pending_of uid ds).

Definition flight_registration (cr : DataConnectService) : FlightServiceRegistration :=
  let name := flightServiceResourceName (om_name (dcs_meta cr)) in
  let url := "https://dch-" +:+ name +:+ "." +:+ om_namespace (dcs_meta cr) +:+ ".svc:8443" in
  {| gfs_name := name; gfs_namespace := om_namespace (dcs_meta cr); gfs_external_url := url; gfs_internal_url := url;
     gfs_ready := true |}.

Definition registerFlightService (cr : DataConnectService) : M W KubeError unit :=
  match flight_client with
  | None => mret tt
  | Some client =>
      let? r := attempt (client (om_namespace (dcs_meta cr)) (flight_registration cr)) in
      match r with
      | Ok _ | Err ErrConflict => mret tt
      | Err ErrServiceUnavailable => throw (other (client_error_text ErrServiceUnavailable))
      | Err e => throw (other ("registering flight service " +:+ flightServiceResourceName (om_name (dcs_meta cr)) +:+ ": " +:+
                               client_error_text e))
      end
  end.

(** *** The gateway's address *)

Definition gatewayRouteHost (namespace name : string) : M W KubeError string :=
  let? r := attempt (u_get "Route" namespace name) in
  match r with
  | Err e =>
      if bool_decide (reason e ∈ [IsNotFound; IsNoMatch; IsForbidden]) then mret ""
      else throw (wrap ("reading Route " +:+ namespace +:+ "/" +:+ name) e)
  | Ok route => mret (default "" (nested_string ["spec"; "host"] route))
  end.

Definition resolveGatewayHostname (namespace name : string) : M W KubeError string :=
  let? r := attempt (u_get "Gateway" namespace name) in
  match r with
  | Err e =>
      if bool_decide (reason e ∈ [IsNotFound; IsNoMatch]) then mret ""
      else throw (wrap ("reading Gateway " +:+ namespace +:+ "/" +:+ name) e)
  | Ok gw =>
      let hostname := firstListenerHostname gw in
      if negb (is_empty hostname) then mret hostname
      else
        let? host := gatewayRouteHost namespace name in
        mret (if is_empty host then gatewayStatusAddress gw else host)
  end.

(** The resource with the gateway's address, or the failure that left the addresses as
    they were. *)
Definition gatewayStatus (cfg : platformConfig) (cr : DataConnectService) : M W KubeError (DataConnectService * option KubeError) :=
  let gw := resolveGateway cr cfg in
  let cr := set_gateway (httpRouteResourceName (om_name (dcs_meta cr))) gw cr in
  let? r := attempt (resolveGatewayHostname (gw_namespace gw) (gw_name gw)) in
  mret match r with Ok hostname => (set_addresses hostname cr, None) | Err e => (cr, Some e) end.

(** Whether HTTP/2 is enabled, and whether that is known. *)
Definition http2Enabled : M W KubeError (bool * bool) :=
  let? ingress := attempt (u_get "Ingress" "" "cluster") in
  match ingress with
  | Ok v => if http2_on v then mret (true, true)
            else let? l := attempt (u_list "IngressController" "openshift-ingress-operator") in
                 mret match l with Ok l => (existsb http2_on l, true) | Err _ => (false, true) end
  | Err _ => let? l := attempt (u_list "IngressController" "openshift-ingress-operator") in
             mret match l with Ok l => (existsb http2_on l, true) | Err _ => (false, false) end
  end.

Definition checkGRPCGatewaySupport (cr : DataConnectService) : M W KubeError DataConnectService :=
  let? h := http2Enabled in mret (apply_http2 h.1 h.2 cr).

(** *** Reconciling *)

(** [updateStatus]: the resource is read again, and what the caller changes is written
    with it. *)
Definition updateStatus {X} (key : string * string) (cfg : platformConfig) (phase : string)
    (mutate : DataConnectService -> M W KubeError (DataConnectService * X)) : M W KubeError (Result * X) :=
  let? cr := k_get key.1 key.2 in
  let? m := mutate (begin_status build phase cfg cr) in
  let? r := attempt (k_update_status m.1) in
  match r with
  | Err e => if bool_decide (reason e = IsConflict) then mret (Requeue, m.2) else throw e
  | Ok _ =>
      mret (if String.eqb phase conditionTypeReady then RequeueAfter requeueWhenReady
            else if String.eqb phase "Error" then RequeueAfter requeueOnError
            else RequeueAfter requeueWaitingForReady, m.2)
  end.

(** The status of a reconcile that failed. *)
Definition failed (key : string * string) (cfg : platformConfig) (why message : string)
    (provisioned : ConditionStatus) (provisioned_why provisioned_message : string) : M W KubeError Result :=
  let? r := updateStatus key cfg "Error" (fun cr => mret
    (setCondition conditionTypeProvisioningSucceeded provisioned provisioned_why provisioned_message
      (setCondition conditionTypeReady ConditionFalse why message
        (setCondition conditionTypeDegraded ConditionTrue why message cr)), tt)) in
  mret r.1.

(** The statuses that also publish the gateway: a failed lookup is retried soon. *)
Definition settled (key : string * string) (cfg : platformConfig) (phase : string)
    (set : DataConnectService -> DataConnectService) : M W KubeError Result :=
  let? r := updateStatus key cfg phase (fun cr =>
    let? g := gatewayStatus cfg cr in
    let? cr := checkGRPCGatewaySupport (set g.1) in
    mret (cr, g.2)) in
  mret match r.2 with Some _ => RequeueAfter requeueOnError | None => r.1 end.

Definition set_finalizers (l : list string) (cr : DataConnectService) : DataConnectService :=
  {| dcs_meta := with_finalizers l (dcs_meta cr); dcs_spec := dcs_spec cr; dcs_status := dcs_status cr |}.

(** [controllerutil.RemoveFinalizer]. *)
Definition remove_finalizer (cr : DataConnectService) : DataConnectService :=
  set_finalizers (List.filter (fun f => negb (String.eqb f finalizerName)) (om_finalizers (dcs_meta cr))) cr.

Definition finalize (cr : DataConnectService) : M W KubeError Result :=
  if bool_decide (finalizerName ∈ om_finalizers (dcs_meta cr)) then
    clearSyncedAnnotations ;?
    deleteInitDataConnectionTypes (om_namespace (dcs_meta cr)) ;?
    deleteClusterScopedResources (om_uid (dcs_meta cr)) ;?
    k_update (remove_finalizer cr) ;?
    mret Done
  else mret Done.

Definition add_finalizer (cr : DataConnectService) : M W KubeError unit :=
  if bool_decide (finalizerName ∈ om_finalizers (dcs_meta cr)) then mret tt
  else k_update (set_finalizers (om_finalizers (dcs_meta cr) ++ [finalizerName]) cr).

Definition waiting (msg : string) (cr : DataConnectService) : DataConnectService :=
  setCondition conditionTypeDegraded ConditionFalse "WaitingForDeployments" "No errors"
    (setCondition conditionTypeProvisioningSucceeded ConditionTrue "ProvisioningComplete" "Manifests applied successfully"
      (setCondition conditionTypeReady ConditionFalse "WaitingForDeployments" msg cr)).

Definition all_ready (cr : DataConnectService) : DataConnectService :=
  setCondition conditionTypeDegraded ConditionFalse "Reconciled" "No errors"
    (setCondition conditionTypeProvisioningSucceeded ConditionTrue "ProvisioningComplete" "Manifests applied successfully"
      (setCondition conditionTypeReady ConditionTrue "Ready" "All resources reconciled and ready" cr)).

(** The phases after the manifests. *)
Definition reconcile_workload (key : string * string) (cr : DataConnectService) (cfg : platformConfig) : M W KubeError Result :=
  ensureInitDataConnectionTypes cr ;?
  let? pending := attempt (pendingDeployments (om_namespace (dcs_meta cr)) (om_uid (dcs_meta cr))) in
  match pending with
  | Err e => failed key cfg "DeploymentCheckError" (error_text e) ConditionTrue "ProvisioningComplete"
               "Manifests applied successfully"
  | Ok [] =>
      let? r := attempt (registerFlightService cr) in
      match r with
      | Err e => failed key cfg "FlightRegistrationError" (error_text e) ConditionTrue "ProvisioningComplete"
                   "Manifests applied successfully"
      | Ok _ => settled key cfg conditionTypeReady all_ready
      end
  | Ok names => settled key cfg "Progressing" (waiting ("Waiting for deployments: " +:+ show_slice names))
  end.

(** A resource that is not being deleted. *)
Definition reconcile_live (key : string * string) (cr : DataConnectService) : M W KubeError Result :=
  add_finalizer cr ;?
  let? cfg := readPlatformConfig (om_namespace (dcs_meta cr)) in
  let? db := attempt (validateDatabaseSecret (om_namespace (dcs_meta cr))) in
  match db with
  | Err e => failed key cfg "DatabaseSecretMissing" (error_text e) ConditionFalse "DatabaseSecretMissing"
               "Secret 'dch-database-config' with key secret-config.toml is required"
  | Ok _ =>
      let? manifests := attempt (reconcileManifests cr cfg) in
      match manifests with
      | Err e =>
          if bool_decide (reason e = IsNoMatch) then reconcile_workload key cr cfg
          else failed key cfg "ManifestError" (error_text e) ConditionFalse "ManifestError" "Failed to apply manifests"
      | Ok _ => reconcile_workload key cr cfg
      end
  end.

(** [Reconcile]. *)
Definition dcs_reconcile : Reconciler W := fun key =>
  get_or_done (k_get key.1 key.2) (fun cr => if om_deleting (dcs_meta cr) then finalize cr else reconcile_live key cr).

(** [platformConfigToReconcile]: a change of the platform's configuration reconciles every
    resource. *)
Definition platformConfigToReconcile : M W KubeError (list (string * string)) :=
  let? r := attempt (k_list (A := DataConnectService) everything) in
  mret match r with
       | Ok l => (fun cr => (om_namespace (dcs_meta cr), om_name (dcs_meta cr))) <$> l
       | Err _ => []
       end.
End Operator.
