(* ===== verification/Manifests.v ===== *)
(** Rendering and applying the manifests
    ([dc-controller/internal/controller/resources.go], [utils.go] and
    [reconcileManifests]).

    Kustomize, YAML, TOML, SHA-256 and the platform's TLS library are parameters. A Go
    map that is ranged over is a list in the order it was ranged. *)
From S2P Require Import Prelude Text Json Cluster Watchers Operator.

(** ** Text *)

Definition newline : ascii := ascii_of_nat 10.
Definition nl : string := String newline "".
Definition lines_of (l : list string) : string := join nl l.

(** [strings.ReplaceAll] and [strings.Replace(_, _, _, 1)], of a text that is not empty. *)
Fixpoint replace_fuel (once : bool) (fuel : nat) (old new s : string) : string :=
  match fuel with
  | O => s
  | S fuel =>
      match strip_prefix old s with
      | Some r => new +:+ (if once then r else replace_fuel once fuel old new r)
      | None => match s with "" => "" | String a r => String a (replace_fuel once fuel old new r) end
      end
  end.
Definition replace_all (old new s : string) : string := replace_fuel false (String.length s) old new s.
Definition replace_first (old new s : string) : string := replace_fuel true (String.length s) old new s.

Fixpoint trim_left_char (c : ascii) (s : string) : string :=
  match s with "" => "" | String a r => if Ascii.eqb a c then trim_left_char c r else s end.
Definition trim_right_char (c : ascii) (s : string) : string := string_rev "" (trim_left_char c (string_rev "" s)).

Fixpoint spaces (n : nat) : string := match n with O => "" | S n => String " " (spaces n) end.

Definition indent (s : string) (n : nat) : string :=
  lines_of ((fun line => if is_empty line then line else spaces n +:+ line) <$> split newline (trim_right_char newline s)).

(** ** Parameters of the manifests *)

(** The lines of [params.env]: a line that is not a comment and has an equals sign. *)
Definition param_of (line : string) : option (string * string) :=
  let line := trim line in
  if is_empty line || starts_with "#" line then None
  else match split_once "=" line with Some (k, v) => Some (trim k, v) | None => None end.

Definition parse_params (text : string) : gmap string string :=
  foldl (fun m line => match param_of line with Some (k, v) => <[k := v]> m | None => m end) ∅ (split newline text).

(** [bufio.Scanner] gives up on a line of 64 KiB. *)
Definition scan_ok (text : string) : bool := forallb (fun l => Nat.ltb (String.length l) (64 * 1024)) (split newline text).

Fixpoint override_params (path : string) (overrides : list (string * string)) (params : gmap string string)
    : result string (gmap string string) :=
  match overrides with
  | [] => Ok params
  | (key, value) :: rest =>
      if is_empty (trim value) || contains (String (ascii_of_nat 13) "") value || contains nl value
      then Err ("invalid params.env value for key " +:+ debug_str key)
      else match params !! key with
           | None => Err ("params.env key " +:+ debug_str key +:+ " not found in " +:+ path)
           | Some _ => override_params path rest (<[key := value]> params)
           end
  end.

(** ** Patches *)

(** [kustypes.Patch], with the deployment it is for. *)
Record KPatch : Type := { kp_target : option string; kp_patch : string }.

Definition patch_json (p : KPatch) : json :=
  obj [("patch", Some (JString (kp_patch p)));
       ("target", (fun n => obj [("group", Some (JString "apps")); ("version", Some (JString "v1"));
                                 ("kind", Some (JString "Deployment")); ("name", Some (JString n))]) <$> kp_target p)].

Definition deployment_patch (deployment part : string) : KPatch :=
  {| kp_target := Some deployment;
     kp_patch := lines_of ["apiVersion: apps/v1"; "kind: Deployment"; "metadata:"; "  name: " +:+ deployment; part] |}.

Definition container_part (container field : string) (rest : list string) : string :=
  lines_of (["spec:"; "  template:"; "    spec:"; "      containers:"; "        - name: " +:+ container;
             "          " +:+ field] ++ rest).

Section Patches.
(** [json.Marshal] and [sigyaml.JSONToYAML]. *)
Variable to_yaml : json -> option string.

Definition list_part (container field : string) (l : list json) : option string :=
  match l with
  | [] => None
  | _ => (fun y => container_part container (field +:+ ":") [indent y 12]) <$> to_yaml (JArray l)
  end.

Definition buildServicePatches (deployment container : string) (overrides : option ServiceOverrides) : list KPatch :=
  match overrides with
  | None => []
  | Some o =>
      deployment_patch deployment <$> omap id
        [(fun n => lines_of ["spec:"; "  replicas: " +:+ pretty n]) <$> so_replicas o;
         (fun p => container_part container ("imagePullPolicy: " +:+ p) []) <$> so_pull_policy o;
         (r ← so_resources o; y ← to_yaml r; Some (container_part container "resources:" [indent y 12]));
         list_part container "env" (so_env o);
         list_part container "envFrom" (so_env_from o);
         list_part container "volumeMounts" (so_volume_mounts o);
         match so_volumes o with
         | [] => None
         | l => (fun y => lines_of ["spec:"; "  template:"; "    spec:"; "      volumes:"; indent y 8]) <$> to_yaml (JArray l)
         end]
  end.
End Patches.

Definition buildGatewayPatches (gw : Gateway) : list KPatch :=
  [{| kp_target := None;
      kp_patch := lines_of ["apiVersion: gateway.networking.k8s.io/v1"; "kind: HTTPRoute"; "metadata:";
                            "  name: data-connect-hub"; "spec:"; "  parentRefs:"; "    - name: " +:+ gw_name gw;
                            "      namespace: " +:+ gw_namespace gw] |}].

(** ** Rendering *)

Section Render.
Context {W : Type}.
(** What is on disk below the manifests: each entry and what it is. *)
Inductive Entry : Type := Directory | Symlink | RegularFile.
Variable walk : string -> M W string (list (string * Entry)).
Variable read : string -> M W string string.
Variable abs : string -> result string string.
(** [sigyaml.Unmarshal] and [sigyaml.Marshal] of a map, and Kustomize. *)
Variable yaml_map : string -> result string (gmap string json).
Variable yaml_print : json -> result string string.
Variable krusty : gmap string string -> string -> result string (list json).
(** The order a map is written in. *)
Variable ranged : gmap string string -> list (string * string).

Definition context {A} (c : string) : M W string A -> M W string A := map_err (fun e => c +:+ ": " +:+ e).

Fixpoint stage (entries : list (string * Entry)) (fs : gmap string string) : M W string (gmap string string) :=
  match entries with
  | [] => mret fs
  | (path, RegularFile) :: rest =>
      let? data := context ("reading " +:+ path) (read path) in stage rest (<[path := data]> fs)
  | _ :: rest => stage rest fs
  end.

Definition copyDirToMemFS (root : string) : M W string (gmap string string) :=
  let? entries := walk root in stage entries ∅.

Definition mergeParamsEnv (path : string) (overrides : list (string * string)) (fs : gmap string string)
    : result string (gmap string string) :=
  match fs !! path with
  | None => Err ("reading " +:+ path +:+ ": no such file")
  | Some text =>
      if negb (scan_ok text) then Err ("reading " +:+ path +:+ ": bufio.Scanner: token too long")
      else
        let?? params := override_params path overrides (parse_params text) in
        Ok (<[path := lines_of ((fun '(k, v) => k +:+ "=" +:+ v) <$> ranged params) +:+ nl]> fs)
  end.

Definition patchKustomization (dir : string) (patches : list KPatch) (fs : gmap string string)
    : result string (gmap string string) :=
  let path := dir +:+ "/kustomization.yaml" in
  match fs !! path with
  | None => Err "reading kustomization: no such file"
  | Some text =>
      let?? kust := rmap_err (fun e => "parsing kustomization: " +:+ e) (yaml_map text) in
      let existing := default [] (v ← kust !! "patches"; as_array v) in
      let?? out := rmap_err (fun e => "serializing kustomization: " +:+ e)
        (yaml_print (JObject (<["patches" := JArray (existing ++ (patch_json <$> patches))]> kust))) in
      Ok (<[path := out]> fs)
  end.

Definition renderKustomization (root disk : string) (patches : list KPatch) (params : list (string * string))
    : M W string (list json) :=
  let? abs_path := context ("resolving path " +:+ disk) (lift (abs disk)) in
  let? abs_root := context ("resolving root " +:+ root) (lift (abs root)) in
  let? fs := context "copying manifests to memory" (copyDirToMemFS abs_root) in
  let? fs := match params with
             | [] => mret fs
             | _ => context "merging Kustomize params" (lift (mergeParamsEnv (abs_root +:+ "/base/params.env") params fs))
             end in
  let? fs := match patches with
             | [] => mret fs
             | _ => context "patching kustomization" (lift (patchKustomization abs_path patches fs))
             end in
  context ("kustomize run failed for " +:+ abs_path) (lift (krusty fs abs_path)).
End Render.

(** ** The Flight service's name *)

Definition nameRestService : string := "rest-service".
Definition nameRestServiceContainer : string := "rest-server".
Definition nameFlightService : string := "flight-service".
Definition nameFlightServiceContainer : string := "flight-server".
Definition nameKubeRbacProxy : string := "kube-rbac-proxy".
Definition labelAppName : string := "app.kubernetes.io/name".
Definition annotationSpecHash : string := "dataconnecthub/spec-hash".
Definition annotationConfigHash : string := "dataconnecthub/config-hash".

(** Every text but the images. *)
Fixpoint replaceStringValue (old new : string) (v : json) : json :=
  match v with
  | JString s => JString (replace_all old new s)
  | JArray l => JArray (replaceStringValue old new <$> l)
  | JObject m => JObject (map_imap (fun k c => Some (if String.eqb k "image" then c else replaceStringValue old new c)) m)
  | _ => v
  end.

Definition isFlightServiceResource (v : json) : bool :=
  let kind := get_kind v in
  if String.eqb kind "ConfigMap" then String.eqb (go_get labelAppName (get_labels v)) nameFlightService
  else if bool_decide (kind ∈ ["Deployment"; "Service"; "ServiceAccount"; "NetworkPolicy"])
  then contains nameFlightService (get_name v)
  else if String.eqb kind "ClusterRoleBinding" then ends_with "flight-auth-delegator" (get_name v)
  else false.

Definition renameFlightServiceResource (service : string) (v : json) : json :=
  let v := replaceStringValue nameFlightService service v in
  if String.eqb (get_kind v) "ClusterRoleBinding"
  then set_name (replace_first "flight-auth-delegator" (service +:+ "-auth-delegator") (get_name v)) v
  else v.

Definition renderFlightService (cr_name : string) (resources : list json) : list json :=
  let service := flightServiceResourceName cr_name in
  (fun v =>
     if isFlightServiceResource v then renameFlightServiceResource service v
     else if String.eqb (get_kind v) "HTTPRoute"
     then replaceStringValue nameFlightService service (set_name (httpRouteResourceName cr_name) v)
     else v) <$> resources.

(** ** Configuration files *)

Section Config.
(** [toml.Unmarshal], whose map can be nil, and [toml.Marshal]. *)
Variable toml_unmarshal : string -> result string (option (gmap string json)).
Variable toml_marshal : json -> result string string.

(** The configuration of a ConfigMap and all of its data; without a [config.toml] there is
    no configuration. *)
Definition parseConfigMapTOML (v : json) : result string (option (gmap string json) * gmap string string) :=
  let?? data := rmap_err (fun e => "reading ConfigMap data: " +:+ e) (nested_string_map ["data"] v) in
  match data with
  | None => Ok (None, ∅)
  | Some data =>
      match data !! "config.toml" with
      | None => Ok (None, data)
      | Some text =>
          let?? config := rmap_err (fun e => "parsing config.toml: " +:+ e) (toml_unmarshal text) in
          Ok (config, data)
      end
  end.

Definition setConfigMapTOML (config : gmap string json) (data : gmap string string) (v : json) : result string json :=
  let?? out := rmap_err (fun e => "marshaling config.toml: " +:+ e) (toml_marshal (JObject config)) in
  Ok (set_nested ["data"] (jstrings (<["config.toml" := out]> data)) v).

(** Edits the configurations of the ConfigMaps of interest, in order; an edit that gives
    nothing leaves the object alone. [reading] and [updating] name the object in errors. *)
Definition edit_config (interest : json -> bool) (reading updating : string)
    (edit : gmap string json -> result string (option (gmap string json))) (v : json) : result string json :=
  if negb (String.eqb (get_kind v) "ConfigMap" && interest v) then Ok v
  else
    let?? p := rmap_err (fun e => reading +:+ " " +:+ debug_str (get_name v) +:+ ": " +:+ e) (parseConfigMapTOML v) in
    match p.1 with
    | None => Ok v
    | Some config =>
        let?? edited := edit config in
        match edited with
        | None => Ok v
        | Some config =>
            rmap_err (fun e => updating +:+ " " +:+ debug_str (get_name v) +:+ ": " +:+ e) (setConfigMapTOML config p.2 v)
        end
    end.

(** A table of the configuration, written back with one key changed. *)
Definition edit_table (table : string) (f : gmap string json -> option (gmap string json)) (config : gmap string json)
    : result string (option (gmap string json)) :=
  Ok (t ← (v ← config !! table; as_object v); t ← f t; Some (<[table := JObject t]> config)).

Definition setConfigMapFlightServiceAddress (namespace service : string) (resources : list json) : result string (list json) :=
  match List.find (fun v => String.eqb (get_kind v) "Service" && ends_with service (get_name v)) resources with
  | None => Ok resources
  | Some svc =>
      if is_empty (get_name svc) then Ok resources
      else
        rmapM (edit_config (fun _ => true) "ConfigMap" "updating ConfigMap"
          (edit_table "flight-service" (fun t =>
             if bool_decide ((v ← t !! "address"; as_str v) = Some nameFlightService)
             then Some (<["address" := JString (get_name svc +:+ "." +:+ namespace +:+ ".svc")]> t) else None))) resources
  end.

Definition setConfigMapGlobalNamespace (namespace : string) : list json -> result string (list json) :=
  rmapM (edit_config (fun _ => true) "ConfigMap" "updating ConfigMap"
    (edit_table "global-connection-types" (fun t =>
       if bool_decide ((v ← t !! "tenant-id"; as_str v) = Some "opendatahub")
       then Some (<["tenant-id" := JString namespace]> t) else None))).

Definition setConfigMapDiscoveryServiceAccount (namespace flight_name : string) (resources : list json)
    : result string (list json) :=
  match List.find (fun v => String.eqb (get_kind v) "ServiceAccount" && ends_with (nameRestService +:+ "-sa") (get_name v))
          resources with
  | None => Ok resources
  | Some sa =>
      rmapM (edit_config (fun v => contains flight_name (get_name v)) "flight-service ConfigMap"
        "updating flight-service ConfigMap"
        (edit_table "auth" (fun t => Some (<["discovery_service_account" :=
           JString ("system:serviceaccount:" +:+ namespace +:+ ":" +:+ get_name sa)]> t)))) resources
  end.

(** Whether any configuration changed is only logged. *)
Definition setConfigMapAudiences (audiences : list string) : list json -> result string (list json) :=
  rmapM (edit_config (fun _ => true) "ConfigMap" "updating ConfigMap"
    (edit_table "auth" (fun t => Some (<["token_review_audiences" := JArray (JString <$> audiences)]> t)))).

(** *** Connectors *)

Definition second : Z := 1000000000.

(** A timeout in whole seconds. *)
Definition seconds_of (name field : string) (d : Duration) : result string Z :=
  if (nanoseconds d <=? 0)%Z || negb (Z.rem (nanoseconds d) second =? 0)%Z
  then Err ("connector " +:+ name +:+ " " +:+ field +:+ " must be a positive whole number of seconds")
  else Ok (Z.quot (nanoseconds d) second).

Definition set_timeout (name field key : string) (d : option Duration) (section : gmap string json)
    : result string (gmap string json) :=
  match d with
  | None => Ok section
  | Some d => let?? s := seconds_of name field d in Ok (<[key := jint s]> section)
  end.

Definition connector_section (c : ConnectorOverride) (section : gmap string json) : result string (gmap string json) :=
  let section := <["enabled" := JBool (bool_decide (co_enabled c = Some true))]> section in
  let?? section := set_timeout (co_name c) "connectionTimeout" "connection_timeout_secs" (co_connection_timeout c) section in
  let?? section := set_timeout (co_name c) "requestTimeout" "request_timeout_secs" (co_request_timeout c) section in
  set_timeout (co_name c) "readTimeout" "read_timeout_secs" (co_read_timeout c) section.

Fixpoint connector_settings (cs : list ConnectorOverride) (connectors : gmap string json) : result string (gmap string json) :=
  match cs with
  | [] => Ok connectors
  | c :: cs =>
      if is_empty (co_name c) then connector_settings cs connectors
      else
        let?? section := connector_section c (default ∅ (v ← connectors !! co_name c; as_object v)) in
        connector_settings cs (<[co_name c := JObject section]> connectors)
  end.

Definition flight_config (flight_name : string) (v : json) : bool := String.eqb (go_get labelAppName (get_labels v)) flight_name.

Definition setConfigMapFlightConnectorSettings (flight_name : string) (overrides : ServiceOverrides) (resources : list json)
    : result string (list json) :=
  match so_connectors overrides with
  | [] => Ok resources
  | cs =>
      rmapM (edit_config (flight_config flight_name) "parsing flight-service ConfigMap" "updating flight-service ConfigMap"
        (fun config =>
           let?? connectors := connector_settings cs (default ∅ (v ← config !! "connectors"; as_object v)) in
           Ok (Some (<["connectors" := JObject connectors]> config)))) resources
  end.

(** *** The TLS profile *)

(** The cluster's profile, as [platformtls] translates it: the minimum version in Go's
    spelling, the usable cipher suites by their IANA names, and those that
    kube-rbac-proxy takes. *)
Record TLSProfile : Type := {
  tp_tls13 : bool;
  tp_min_version : string;
  tp_ciphers : list string;
  tp_usable : list string;
  tp_proxy_ciphers : string
}.

Definition setConfigMapFlightTLSProfile (flight_name : string) (spec : TLSProfile) (resources : list json)
    : result string (list json) :=
  let suites := if tp_tls13 spec then [] else List.filter (fun n => negb (is_empty n)) (tp_usable spec) in
  if negb (tp_tls13 spec) && bool_decide (tp_ciphers spec <> []) && bool_decide (suites = [])
  then Err ("flight TLS profile has no usable cipher suites for TLS <= 1.2: " +:+ show_slice (tp_ciphers spec))
  else
    rmapM (edit_config (flight_config flight_name) "parsing flight-service ConfigMap" "updating flight-service ConfigMap"
      (edit_table "tls" (fun t =>
         let t := <["min_version" := JString (tp_min_version spec)]> t in
         Some match suites with [] => delete "ciphers" t | _ => <["ciphers" := JArray (JString <$> suites)]> t end))) resources.
End Config.

(** ** Containers *)

Definition containers_path : list string := ["spec"; "template"; "spec"; "containers"].

(** The containers of a deployment, each replaced. *)
Definition map_containers (f : json -> json) (v : json) : json :=
  if String.eqb (get_kind v) "Deployment" then
    match nested_slice containers_path v with
    | Some cs => set_nested containers_path (JArray (f <$> cs)) v
    | None => v
    end
  else v.

Definition field_str (k : string) (v : json) : string := default "" (x ← jget k v; as_str x).

(** The containers with one of the names. *)
Definition on_container (names : list string) (f : gmap string json -> gmap string json) (c : json) : json :=
  match c with
  | JObject m => if bool_decide (field_str "name" c ∈ names) then JObject (f m) else c
  | _ => c
  end.

Definition array_or_nil (k : string) (m : gmap string json) : list json := default [] (v ← m !! k; as_array v).

(** *** Tracing *)

Definition envOTLPEndpoint : string := "OTEL_EXPORTER_OTLP_ENDPOINT".
Definition envOTLPInsecure : string := "OTEL_EXPORTER_OTLP_INSECURE".
Definition envOTLPCertificate : string := "OTEL_EXPORTER_OTLP_CERTIFICATE".
Definition otlp_vars : list string := [envOTLPEndpoint; envOTLPInsecure; envOTLPCertificate].

Definition traceEnv (trace : option Trace) : list (string * string) :=
  match trace with
  | None => []
  | Some t =>
      (if is_empty (tr_exporter t) then [] else [(envOTLPEndpoint, tr_exporter t)]) ++
      match tr_insecure t with Some b => [(envOTLPInsecure, if b then "true" else "false")] | None => [] end ++
      (if is_empty (tr_certificate t) then [] else [(envOTLPCertificate, tr_certificate t)])
  end.

Definition env_entry (v : string * string) : json := obj [("name", Some (JString v.1)); ("value", Some (JString v.2))].

(** An entry that is not a map, or whose name is not one of the exporter's. *)
Definition foreign_env (e : json) : bool :=
  match e with JObject _ => negb (bool_decide (field_str "name" e ∈ otlp_vars)) | _ => true end.

(** An empty slice that was never appended to is nil, and printed as null. *)
Definition trace_container (desired : list (string * string)) (m : gmap string json) : gmap string json :=
  let env := array_or_nil "env" m in
  let new_env := List.filter foreign_env env ++ (env_entry <$> desired) in
  if negb (Nat.eqb (length new_env) (length env)) || negb (Nat.eqb (length desired) 0)
  then <["env" := match new_env with [] => JNull | _ => JArray new_env end]> m else m.

Definition reconcileTraceEnv (trace : option Trace) (names : list string) (resources : list json) : list json :=
  map_containers (on_container names (trace_container (traceEnv trace))) <$> resources.

(** [setDeploymentEnv]: every entry of the name is replaced, or one is added. *)
Definition set_env (v : string * string) (env : list json) : list json :=
  let here e := is_object e && String.eqb (field_str "name" e) v.1 in
  if existsb here env then (fun e => if here e then env_entry v else e) <$> env else env ++ [env_entry v].

Definition setDeploymentEnv (vars : list (string * string)) (names : list string) (resources : list json) : list json :=
  map_containers (on_container names (fun m =>
    <["env" := JArray (foldl (fun env v => set_env v env) (array_or_nil "env" m) vars)]> m)) <$> resources.

(** *** The proxy *)

Definition setKubeRbacProxyAudiences (audiences : list string) (resources : list json) : list json :=
  let flag := "--auth-token-audiences=" in
  map_containers (on_container [nameKubeRbacProxy] (fun m =>
    <["args" := JArray (List.filter (fun a => match a with JString s => negb (starts_with flag s) | _ => true end)
                          (array_or_nil "args" m) ++ [JString (flag +:+ join "," audiences)])]> m)) <$> resources.

(** The TLS options, with a separate value or not. *)
Fixpoint drop_tls_args (l : list json) : list json :=
  match l with
  | [] => []
  | JString s :: r =>
      if bool_decide (s ∈ ["--tls-min-version"; "--tls-cipher-suites"])
      then match r with [] => [] | _ :: r => drop_tls_args r end
      else if starts_with "--tls-min-version=" s || starts_with "--tls-cipher-suites=" s then drop_tls_args r
      else JString s :: drop_tls_args r
  | x :: r => x :: drop_tls_args r
  end.

Definition proxy_tls_args (spec : TLSProfile) (args : list json) : list json :=
  let suites := if tp_tls13 spec then "" else tp_proxy_ciphers spec in
  drop_tls_args args ++ [JString ("--tls-min-version=" +:+ tp_min_version spec)] ++
  if is_empty suites then [] else [JString ("--tls-cipher-suites=" +:+ suites)].

Definition setKubeRbacProxyTLSOpts (spec : TLSProfile) (resources : list json) : list json :=
  map_containers (on_container [nameKubeRbacProxy] (fun m =>
    <["args" := JArray (proxy_tls_args spec (array_or_nil "args" m))]> m)) <$> resources.

(** ** Applying *)

Definition resourcePriority (kind : string) : nat :=
  if String.eqb kind "ServiceAccount" then 0
  else if bool_decide (kind ∈ ["ConfigMap"; "Secret"; "Service"; "NetworkPolicy"; "ClusterRole"; "ClusterRoleBinding";
                               "Role"; "RoleBinding"]) then 1
  else if bool_decide (kind ∈ ["Deployment"; "StatefulSet"; "DaemonSet"; "Job"]) then 2
  else 3.

(** [slices.SortStableFunc] by priority. *)
Fixpoint insert_stable (v : json) (l : list json) : list json :=
  match l with
  | [] => [v]
  | x :: l => if Nat.leb (resourcePriority (get_kind v)) (resourcePriority (get_kind x)) then v :: x :: l
              else x :: insert_stable v l
  end.
Definition by_priority (l : list json) : list json := foldr insert_stable [] l.

Definition patchClusterRoleBindingSubjects (namespace : string) (v : json) : json :=
  match nested_slice ["subjects"] v with
  | None => v
  | Some subjects =>
      set_nested ["subjects"] (JArray ((fun s =>
        if is_object s && String.eqb (field_str "kind" s) "ServiceAccount" then jset "namespace" (JString namespace) s else s)
        <$> subjects)) v
  end.

(** What the hash of an object leaves out: what the API server and other controllers
    write. *)
Definition hashed_content (v : json) : json :=
  let v := jdelete "status" v in
  match jget "metadata" v with
  | Some (JObject md) =>
      jset "metadata" (foldl (fun md k => jdelete k md) (JObject md)
        ["resourceVersion"; "uid"; "creationTimestamp"; "generation"; "managedFields"; "ownerReferences"; "annotations"]) v
  | _ => v
  end.

Definition owner_refs (v : json) : list json := default [] (nested_slice ["metadata"; "ownerReferences"] v).

Definition hasControllerOwner (uid : string) (v : json) : bool :=
  existsb (fun r => String.eqb (field_str "uid" r) uid && bool_decide ((b ← jget "controller" r; as_bool b) = Some true)) (owner_refs v).

(** The calls on rendered objects: by their kind, namespace and name. *)
Class Applier (W : Type) : Type := {
  a_get : json -> M W KubeError json;
  a_create : json -> M W KubeError unit;
  a_update : json -> M W KubeError unit;
  a_apply : json -> M W KubeError unit
}.

Section Apply.
Context {W : Type} `{AP : !Applier W}.
(** The first sixteen hexadecimal digits of the SHA-256 of a printed value;
    [controllerutil.SetControllerReference]. *)
Variable hash_json : json -> string.
Variable set_controller : DataConnectService -> json -> result string json.

Definition specHash (v : json) : string := hash_json (hashed_content v).

Definition describe (v : json) : string := get_kind v +:+ " " +:+ get_name v.

(** The object as it is applied: in the namespace, labelled, owned and with its hash. *)
Definition prepare (cr : DataConnectService) (namespace : string) (v : json) : result string json :=
  let v := set_namespace namespace v in
  let v := if String.eqb (get_kind v) "ClusterRoleBinding" then patchClusterRoleBindingSubjects namespace v else v in
  let v := set_labels (<[labelManagedBy := managedByDCHService]> (get_labels v)) v in
  let?? v := rmap_err (fun e => "setting owner ref on " +:+ describe v +:+ ": " +:+ e) (set_controller cr v) in
  Ok (set_annotations (<[annotationSpecHash := specHash v]> (get_annotations v)) v).

(** By what the API server has: created, left alone, given its owner back, or applied. *)
Definition apply_prepared (cr : DataConnectService) (v : json) (existing : result KubeError json) : M W KubeError unit :=
  match existing with
  | Err e =>
      if bool_decide (reason e = IsNotFound) then
        let? r := attempt (a_create v) in
        match r with
        | Err e => if bool_decide (reason e = IsAlreadyExists) then mret tt else throw (wrap ("creating " +:+ describe v) e)
        | Ok _ => mret tt
        end
      else throw (wrap ("getting " +:+ describe v) e)
  | Ok existing =>
      if String.eqb (go_get annotationSpecHash (get_annotations existing)) (go_get annotationSpecHash (get_annotations v)) then
        if hasControllerOwner (om_uid (dcs_meta cr)) existing then mret tt
        else match set_controller cr existing with
             | Err _ => mret tt
             | Ok owned => map_err (wrap ("repairing owner ref on " +:+ describe v)) (a_update owned)
             end
      else map_err (wrap ("updating " +:+ describe v)) (a_apply v)
  end.

Definition apply_one (cr : DataConnectService) (namespace : string) (v : json) : M W KubeError unit :=
  let? v := map_err other (lift (prepare cr namespace v)) in
  let? existing := attempt (a_get v) in
  apply_prepared cr v existing.

Definition applyResources (cr : DataConnectService) (namespace : string) (resources : list json) : M W KubeError unit :=
  for_each (by_priority resources) (apply_one cr namespace).
End Apply.

(** ** Restarts *)

Section ContentHash.
Context {W : Type} `{KS : !Kube W KubeSecret} `{KC : !Kube W ConfigMap}.
(** The first sixteen hexadecimal digits of the SHA-256 of a text; [json.Marshal]; and
    the base64 that byte slices are marshalled in. *)
Variable hash_text : string -> string.
Variable json_marshal : json -> string.
Variable base64 : string -> string.

Definition findRenderedConfigMapData (name : string) (resources : list json) : option (gmap string string) :=
  v ← List.find (fun v => String.eqb (get_kind v) "ConfigMap" && String.eqb (get_name v) name) resources;
  match nested_string_map ["data"] v with
  | Ok (Some data) => if bool_decide (data = ∅) then None else Some data
  | _ => None
  end.

(** A nil map is printed as null. *)
Definition marshal_map (m : gmap string json) : string := json_marshal (if bool_decide (dom m = ∅) then JNull else JObject m).

Definition nul : string := String (ascii_of_nat 0) "".

(** What a ConfigMap volume adds to the hashed text; nothing when the volume is passed
    over. *)
Definition configmap_content (resources : list json) (namespace : string) (vol : json) : M W KubeError (option string) :=
  match (v ← jget "configMap" vol; as_object v) with
  | None => mret (Some "")
  | Some cm =>
      let name := field_str "name" (JObject cm) in
      if is_empty name then mret None
      else
        let? found :=
          match findRenderedConfigMapData name resources with
          | Some data => mret (Some (data, ∅))
          | None =>
              let? r := attempt (k_get (A := ConfigMap) namespace name) in
              match r with
              | Ok cm => mret (Some (cm_data cm, cm_binary cm))
              | Err e => if bool_decide (reason e = IsNotFound) then mret None else throw e
              end
          end in
        mret ((fun '(data, binary) =>
          if bool_decide (data = ∅) && bool_decide (binary = ∅) then ""
          else "configmap:" +:+ name +:+ nul +:+ marshal_map (JString <$> data) +:+
               marshal_map ((fun b => JString (base64 b)) <$> binary)) <$> found)
  end.

Definition secret_content (namespace : string) (vol : json) : M W KubeError string :=
  match (v ← jget "secret" vol; as_object v) with
  | None => mret ""
  | Some sec =>
      let name := field_str "secretName" (JObject sec) in
      if is_empty name then mret ""
      else
        let? r := attempt (k_get (A := KubeSecret) namespace name) in
        match r with
        | Err e => if bool_decide (reason e = IsNotFound) then mret "" else throw e
        | Ok s =>
            mret (if bool_decide (ks_data s = ∅) then ""
                  else "secret:" +:+ name +:+ nul +:+ marshal_map ((fun b => JString (base64 b)) <$> ks_data s))
        end
  end.

Definition volume_content (resources : list json) (namespace : string) (vol : json) : M W KubeError string :=
  let? c := configmap_content resources namespace vol in
  match c with
  | None => mret ""
  | Some c => let? s := secret_content namespace vol in mret (c +:+ s)
  end.

Fixpoint volumes_content (resources : list json) (namespace : string) (vols : list json) : M W KubeError string :=
  match vols with
  | [] => mret ""
  | v :: vols =>
      let? c := volume_content resources namespace v in
      let? rest := volumes_content resources namespace vols in
      mret (c +:+ rest)
  end.

Definition computeDeploymentContentHash (resources : list json) (namespace : string) (deployment : json) : M W KubeError string :=
  match nested_slice ["spec"; "template"; "spec"; "volumes"] deployment with
  | None => mret ""
  | Some vols =>
      let? text := volumes_content resources namespace vols in
      mret (if is_empty text then "" else hash_text text)
  end.

Definition template_annotations : list string := ["spec"; "template"; "metadata"; "annotations"].

Definition annotate_deployment (resources : list json) (namespace : string) (v : json) : M W KubeError json :=
  if negb (String.eqb (get_kind v) "Deployment") then mret v
  else
    let? hash := map_err (wrap ("computing content hash for deployment " +:+ get_name v))
      (computeDeploymentContentHash resources namespace v) in
    mret (if is_empty hash then v
          else set_nested template_annotations
                 (jstrings (<[annotationConfigHash := hash]> (string_entries template_annotations v))) v).

(** The ConfigMaps are looked up among all resources; the deployments are annotated in
    place. *)
Fixpoint annotate_all (resources : list json) (namespace : string) (l : list json) : M W KubeError (list json) :=
  match l with
  | [] => mret []
  | v :: l =>
      let? v := annotate_deployment resources namespace v in
      let? l := annotate_all resources namespace l in
      mret (v :: l)
  end.
Definition annotateDeploymentsWithContentHash (resources : list json) (namespace : string) : M W KubeError (list json) :=
  annotate_all resources namespace resources.
End ContentHash.

(** ** All together *)

(** [ResolveControllerNamespace]: the environment variable, or else the file of the
    service account, [None] when it cannot be read. *)
Definition ResolveControllerNamespace (env_namespace : string) (namespace_file : option string) : string :=
  if is_empty env_namespace then match namespace_file with Some data => trim data | None => "" end else env_namespace.

Section Reconcile.
Context {W : Type} `{AP : !Applier W} `{KS : !Kube W KubeSecret} `{KC : !Kube W ConfigMap}.
Variable to_yaml : json -> option string.
Variable render : string -> string -> list KPatch -> list (string * string) -> M W string (list json).
Variable toml_unmarshal : string -> result string (option (gmap string json)).
Variable toml_marshal : json -> result string string.
Variable hash_json : json -> string.
Variable hash_text : string -> string.
Variable json_marshal : json -> string.
Variable base64 : string -> string.
Variable set_controller : DataConnectService -> json -> result string json.
(** [RESTMapper().RESTMapping] of a group, version and kind; and
    [platformtls.LoadWithAdherence]. *)
Variable rest_mapping : string -> string -> string -> M W KubeError unit.
Variable load_tls : M W KubeError TLSProfile.

(** The fields of the reconciler. *)
Record Images : Type := { rest_image : string; flight_image : string; proxy_image : string }.
Variable manifests_path : string.
Variable images : Images.
Variable controller_namespace : string.

Definition kindServed (group version kind : string) : M W KubeError bool :=
  let? r := attempt (rest_mapping group version kind) in
  mret match r with Ok _ => true | Err _ => false end.

Definition openShiftMonitoringAvailable : M W KubeError bool :=
  let? openshift := kindServed "config.openshift.io" "v1" "ClusterVersion" in
  if openshift then kindServed "monitoring.coreos.com" "v1" "ServiceMonitor" else mret false.

Definition params_overrides (gw : Gateway) (namespace : string) : list (string * string) :=
  [("RELATED_IMAGE_ODH_DATA_CONNECT_HUB_REST_IMAGE", rest_image images);
   ("RELATED_IMAGE_ODH_DATA_CONNECT_HUB_FLIGHT_IMAGE", flight_image images);
   ("RELATED_IMAGE_ODH_KUBE_RBAC_PROXY_IMAGE", proxy_image images);
   ("GATEWAY_NAME", gw_name gw); ("GATEWAY_NAMESPACE", gw_namespace gw); ("OPERAND_NAMESPACE", namespace)] ++
  if is_empty controller_namespace then [] else [("CONTROLLER_NAMESPACE", controller_namespace)].

Definition patches_for (cr : DataConnectService) (gw : Gateway) : list KPatch :=
  buildServicePatches to_yaml nameRestService nameRestServiceContainer (ds_rest (dcs_spec cr)) ++
  buildServicePatches to_yaml nameFlightService nameFlightServiceContainer (ds_flight (dcs_spec cr)) ++
  buildGatewayPatches gw.

Definition failing {A} (c : string) (r : result string A) : result KubeError A :=
  rmap_err (fun e => other (c +:+ ": " +:+ e)) r.

(** The edits of the rendered resources that need nothing of the cluster. *)
Definition configure (cr : DataConnectService) (cfg : platformConfig) (profile : TLSProfile) (resources : list json)
    : result KubeError (list json) :=
  let namespace := om_namespace (dcs_meta cr) in
  let flight := flightServiceResourceName (om_name (dcs_meta cr)) in
  let resources := setKubeRbacProxyTLSOpts profile (renderFlightService (om_name (dcs_meta cr)) resources) in
  let?? resources := failing "setting config namespace"
    (setConfigMapGlobalNamespace toml_unmarshal toml_marshal namespace resources) in
  let?? resources := failing "setting discovery service account"
    (setConfigMapDiscoveryServiceAccount toml_unmarshal toml_marshal namespace flight resources) in
  let?? resources := failing "setting flight service address"
    (setConfigMapFlightServiceAddress toml_unmarshal toml_marshal namespace flight resources) in
  let?? resources := failing "setting flight TLS profile"
    (setConfigMapFlightTLSProfile toml_unmarshal toml_marshal flight profile resources) in
  let?? resources :=
    match ds_flight (dcs_spec cr) with
    | None => Ok resources
    | Some o => failing "setting flight-service connector configuration"
                  (setConfigMapFlightConnectorSettings toml_unmarshal toml_marshal flight o resources)
    end in
  let resources := reconcileTraceEnv (ds_trace (dcs_spec cr)) [nameRestServiceContainer; nameFlightServiceContainer] resources in
  match resolveTokenReviewAudiences cr cfg with
  | [] => Ok resources
  | audiences =>
      let?? resources := failing "setting token review audiences"
        (setConfigMapAudiences toml_unmarshal toml_marshal audiences resources) in
      Ok (setKubeRbacProxyAudiences audiences resources)
  end.

(** [reconcileManifests]. *)
Definition reconcileManifests (cr : DataConnectService) (cfg : platformConfig) : M W KubeError unit :=
  let? monitoring := openShiftMonitoringAvailable in
  let path := manifests_path +:+ (if monitoring then "/overlays/openshift" else "/base") in
  let gw := resolveGateway cr cfg in
  let namespace := om_namespace (dcs_meta cr) in
  let? resources := map_err (fun e => other ("rendering manifests: " +:+ e))
    (render manifests_path path (patches_for cr gw) (params_overrides gw namespace)) in
  let? profile := map_err (wrap "resolving cluster TLS profile for kube-rbac-proxy") load_tls in
  let? resources := lift (configure cr cfg profile resources) in
  let? resources := map_err (wrap "annotating deployments with content hash")
    (annotateDeploymentsWithContentHash hash_text json_marshal base64 resources namespace) in
  applyResources hash_json set_controller cr namespace resources.
End Reconcile.
