(* ===== verification/ManifestsProps.v ===== *)
(** What the rendered manifests say: the configuration of the Flight service, as the
    service reads it, follows from the resource; and the properties of applying. *)
From S2P Require Import Prelude Text Json Cluster Api Flight Startup RestStartup Settings Watchers Operator Manifests.
From Stdlib Require Import NArith.

(** ** Renaming *)

Lemma strip_prefix_absent old s : contains old s = false -> strip_prefix old s = None.
Proof.
  intros Hc. destruct (strip_prefix old s) as [r|] eqn:Hs; [|done]. apply strip_prefix_spec in Hs as ->.
  assert (contains old (old +:+ r) = true) by (apply contains_spec; by exists "", r). congruence.
Qed.

Lemma contains_tail old a s : contains old (String a s) = false -> contains old s = false.
Proof. cbn. by intros [_ H]%orb_false_iff. Qed.

Lemma replace_absent old new s : contains old s = false -> replace_all old new s = s.
Proof.
  unfold replace_all. generalize (String.length s). intros n. revert s.
  induction n as [|n IH]; intros s Hc; cbn [replace_fuel]; [done|].
  rewrite strip_prefix_absent by done. destruct s as [|a s]; [done|]. by rewrite IH by (by eapply contains_tail).
Qed.

Lemma replace_self old new : old <> "" -> replace_all old new old = new.
Proof.
  intros Ho. unfold replace_all. destruct old as [|a old]; [done|]. set (o := String a old).
  assert (Hp : strip_prefix o o = Some "") by (apply strip_prefix_spec; by rewrite sapp_nil_r).
  change (String.length o) with (S (String.length old)). cbn [replace_fuel]. rewrite Hp.
  assert (Hn : forall n, replace_fuel false n o new "" = "") by (by intros []). rewrite Hn. apply sapp_nil_r.
Qed.

(** Where the old name occurred the new one does. *)
Lemma replace_contains old new s : old <> "" -> contains old s = true -> contains new (replace_all old new s) = true.
Proof.
  intros Ho. unfold replace_all. generalize (le_n (String.length s)). generalize (String.length s) at 2 3. intros n. revert s.
  induction n as [|n IH]; intros s Hn Hc.
  { destruct s; [|cbn in Hn; lia]. destruct old; [done|]. done. }
  cbn [replace_fuel]. destruct (strip_prefix old s) as [r|] eqn:Hs.
  { apply contains_spec. by eexists "", _. }
  destruct s as [|a s]; [by destruct old|]. cbn in Hn, Hc. unfold starts_with in Hc. rewrite Hs in Hc. cbn in Hc.
  cbn [contains]. rewrite IH by (done || lia). apply orb_true_r.
Qed.

(** ** Editing a configuration *)

Section Config.
Variable toml_unmarshal : string -> result string (option (gmap string json)).
Variable toml_marshal : json -> result string string.
(** What is printed is read back. *)
Hypothesis toml_roundtrip : forall c t, toml_marshal (JObject c) = Ok t -> toml_unmarshal t = Ok (Some c).

(** A ConfigMap with a name and labels, and the configuration it holds. *)
Record holds (v : json) (name : string) (labels : gmap string string) (config : gmap string json) : Prop := {
  holds_kind : get_kind v = "ConfigMap";
  holds_name : get_name v = name;
  holds_labels : get_labels v = labels;
  holds_config : exists data, parseConfigMapTOML toml_unmarshal v = Ok (Some config, data)
}.

Lemma kind_object v : get_kind v = "ConfigMap" -> is_object v = true.
Proof. by destruct v. Qed.

Lemma nested_other k p x v : k <> "data" -> nested (k :: p) (jset "data" x v) = nested (k :: p) v.
Proof. intros Hk. cbn. by rewrite jget_jset_ne. Qed.

Lemma set_config_holds v name labels config config' data v' :
  holds v name labels config -> setConfigMapTOML toml_marshal config' data v = Ok v' -> holds v' name labels config'.
Proof using toml_roundtrip.
  intros [Hk Hn Hl _]. unfold setConfigMapTOML. destruct (toml_marshal (JObject config')) as [t|e] eqn:Ht; [|done].
  cbn [rmap_err rbind set_nested]. intros [= <-]. set (x := jstrings _). split.
  - unfold get_kind, nested_string. by rewrite nested_other.
  - unfold get_name, nested_string. by rewrite nested_other.
  - unfold get_labels, string_entries, nested_string_map. by rewrite nested_other.
  - exists (<["config.toml" := t]> data). unfold parseConfigMapTOML, nested_string_map.
    cbn [nested]. rewrite jget_jset by (by apply kind_object). cbn [mbind option_bind]. unfold x, jstrings. cbn [mbind option_bind as_object].
    rewrite map_values_fmap by done. cbn [rmap_err rbind]. rewrite lookup_insert_eq. by rewrite (toml_roundtrip _ _ Ht).
Qed.

(** An edit that applies changes the configuration and nothing else. *)
Lemma edit_holds interest reading updating edit v name labels config v' :
  holds v name labels config -> edit_config toml_unmarshal toml_marshal interest reading updating edit v = Ok v' ->
  if interest v then exists e, edit config = Ok e /\ holds v' name labels (default config e) else v' = v.
Proof using toml_roundtrip.
  intros Hv. pose proof Hv as [Hk _ _ [data Hd]]. unfold edit_config. rewrite Hk. cbn [String.eqb Ascii.eqb Bool.eqb].
  change (("ConfigMap" =? "ConfigMap")%string) with true. cbn [andb].
  destruct (interest v); cbn [negb]; [|by intros [= <-]].
  rewrite Hd. cbn [rmap_err rbind fst snd]. destruct (edit config) as [[config'|]|e] eqn:He; cbn [rbind]; [| |done].
  - destruct (setConfigMapTOML toml_marshal config' data v) as [v0|e] eqn:Hs; [|done]. intros [= <-].
    exists (Some config'). split; [done|]. by eapply set_config_holds.
  - intros [= <-]. by exists None.
Qed.

(** Every ConfigMap stays where it is among the resources. *)
Lemma edit_all interest reading updating edit rs rs' (i : nat) v name labels config :
  rmapM (edit_config toml_unmarshal toml_marshal interest reading updating edit) rs = Ok rs' ->
  rs !! i = Some v -> holds v name labels config -> interest v = true ->
  exists v' e, rs' !! i = Some v' /\ edit config = Ok e /\ holds v' name labels (default config e).
Proof using toml_roundtrip.
  intros Hrs Hi Hv Hint. apply rmapM_ok in Hrs. eapply Forall2_lookup_l in Hrs as (v' & Hi' & He); [|done].
  eapply edit_holds in He; [|done]. rewrite Hint in He. naive_solver.
Qed.

(** *** Renaming the Flight service *)

Lemma nested_replace old new path v :
  "image" ∉ path -> nested path (replaceStringValue old new v) = replaceStringValue old new <$> nested path v.
Proof.
  revert v. induction path as [|k r IH]; intros v Hp; [done|]. apply not_elem_of_cons in Hp as [Hk Hr]. cbn [nested].
  destruct v as [| | | | |m]; try done. cbn. rewrite map_lookup_imap. destruct (m !! k) as [x|]; [|done]. cbn.
  apply not_eq_sym, String.eqb_neq in Hk as ->. by apply IH.
Qed.

Lemma nested_string_replace old new path v :
  "image" ∉ path -> nested_string path (replaceStringValue old new v) = replace_all old new <$> nested_string path v.
Proof. intros Hp. unfold nested_string. rewrite nested_replace by done. by destruct (nested path v) as [[]|]. Qed.

(** Renaming the values of a map of strings. *)
Definition rename_values (old new : string) : gmap string string -> gmap string string :=
  map_imap (fun k s => Some (if String.eqb k "image" then s else replace_all old new s)).

Lemma rename_lookup old new k (m : gmap string string) :
  k <> "image" -> rename_values old new m !! k = replace_all old new <$> m !! k.
Proof.
  intros Hk. unfold rename_values. rewrite map_lookup_imap. destruct (m !! k); [|done]. cbn. by apply String.eqb_neq in Hk as ->.
Qed.

Lemma map_values_spec {A B} (f : A -> option B) (m : gmap string A) r :
  map_values f m = Some r <-> forall k, match m !! k with Some a => exists b, f a = Some b /\ r !! k = Some b | None => r !! k = None end.
Proof.
  unfold map_values. split.
  - case_bool_decide as Hd; [|done]. intros [= <-] k. rewrite lookup_omap.
    destruct (m !! k) as [a|] eqn:Hk; [|done]. cbn. assert (k ∈ dom (omap f m)) as Hin by (rewrite Hd; by apply elem_of_dom).
    apply elem_of_dom in Hin as [b Hb]. rewrite lookup_omap, Hk in Hb. cbn in Hb. eauto.
  - intros H. assert (Hr : omap f m = r).
    { apply map_eq. intros k. rewrite lookup_omap. specialize (H k). destruct (m !! k); cbn; [|done].
      destruct H as (b & -> & ->). done. }
    rewrite Hr, bool_decide_true; [done|]. apply set_eq. intros k. rewrite !elem_of_dom. specialize (H k).
    destruct (m !! k); [destruct H as (b & _ & ->)|rewrite H]; split; intros []; eauto; done.
Qed.

Lemma map_values_replace old new (m : gmap string json) s :
  map_values as_str m = Some s ->
  map_values as_str (map_imap (fun k c => Some (if String.eqb k "image" then c else replaceStringValue old new c)) m) =
  Some (rename_values old new s).
Proof.
  rewrite !map_values_spec. intros H k. specialize (H k). unfold rename_values. rewrite !map_lookup_imap.
  destruct (m !! k) as [c|]; cbn; [|by rewrite H]. destruct H as (t & Hc & ->). destruct c; try done. injection Hc as ->. cbn.
  destruct (String.eqb k "image"); cbn; eauto.
Qed.

Lemma string_map_replace old new path v s :
  "image" ∉ path -> nested_string_map path v = Ok (Some s) ->
  nested_string_map path (replaceStringValue old new v) = Ok (Some (rename_values old new s)).
Proof.
  intros Hp. unfold nested_string_map. rewrite nested_replace by done. destruct (nested path v) as [x|]; [|done]. cbn.
  destruct x as [| | | | |m]; cbn; try done. destruct (map_values as_str m) as [s'|] eqn:Hm; [|done]. intros [= ->].
  by rewrite (map_values_replace _ _ _ _ Hm).
Qed.

(** The Flight service's ConfigMap as Kustomize renders it: labelled and named after the
    service, with a configuration that does not mention the service. *)
Record flight_configmap (v : json) (config : gmap string json) : Prop := {
  fc_kind : get_kind v = "ConfigMap";
  fc_name : contains nameFlightService (get_name v) = true;
  fc_labels : exists labels, nested_string_map ["metadata"; "labels"] v = Ok (Some labels) /\
    labels !! labelAppName = Some nameFlightService;
  fc_data : exists data text, nested_string_map ["data"] v = Ok (Some data) /\ data !! "config.toml" = Some text /\
    contains nameFlightService text = false /\ toml_unmarshal text = Ok (Some config)
}.

Lemma renamed_holds cr_name v config :
  flight_configmap v config -> let service := flightServiceResourceName cr_name in
  exists name labels, isFlightServiceResource v = true /\ holds (renameFlightServiceResource service v) name labels config /\
    contains service name = true /\ go_get labelAppName labels = service.
Proof.
  intros [Hk Hn (labels & Hl & Ha) (data & text & Hd & Ht & Hc & Hp)] service.
  assert (Hkind : get_kind (replaceStringValue nameFlightService service v) = "ConfigMap").
  { unfold get_kind. rewrite nested_string_replace by set_solver. unfold get_kind in Hk.
    destruct (nested_string ["kind"] v) as [k|]; [|done]. cbn in Hk |- *. subst k. by apply replace_absent. }
  exists (get_name (replaceStringValue nameFlightService service v)), (rename_values nameFlightService service labels).
  unfold renameFlightServiceResource. rewrite Hkind. cbn [String.eqb Ascii.eqb Bool.eqb]. split_and!.
  - unfold isFlightServiceResource. rewrite Hk. unfold get_labels, string_entries. rewrite Hl. unfold go_get. by rewrite Ha.
  - split; [done|done| |].
    + unfold get_labels, string_entries. erewrite string_map_replace; [done|set_solver|exact Hl].
    + unfold parseConfigMapTOML. erewrite string_map_replace; [|set_solver|exact Hd]. cbn [rmap_err rbind].
      rewrite rename_lookup by done. rewrite Ht. cbn [fmap option_fmap option_map].
      rewrite replace_absent by done. rewrite Hp. by eexists.
  - unfold get_name. rewrite nested_string_replace by set_solver. unfold get_name in Hn.
    destruct (nested_string ["metadata"; "name"] v) as [n|]; [|done]. by apply replace_contains.
  - unfold go_get. rewrite rename_lookup by done. rewrite Ha. by apply replace_self.
Qed.

(** *** What stays of a resource *)

Definition same_id (v v' : json) : Prop := get_kind v' = get_kind v /\ get_name v' = get_name v.

Lemma set_nested_id k path x v : k <> "kind" -> k <> "metadata" -> same_id v (set_nested (k :: path) x v).
Proof.
  intros Hk Hm. assert (H : forall y, same_id v (jset k y v)).
  { intros y. unfold same_id, get_kind, get_name, nested_string. cbn. by rewrite !jget_jset_ne by done. }
  destruct path as [|k' path]; cbn; [apply H|]. repeat case_match; done.
Qed.

Lemma edit_config_id interest reading updating edit v v' :
  edit_config toml_unmarshal toml_marshal interest reading updating edit v = Ok v' -> same_id v v'.
Proof.
  unfold edit_config. case_match; [by intros [= <-]|].
  destruct (parseConfigMapTOML toml_unmarshal v) as [[[c|] d]|]; cbn; [|by intros [= <-]|done].
  destruct (edit c) as [[c'|]|]; cbn; [|by intros [= <-]|done]. unfold setConfigMapTOML.
  destruct (toml_marshal (JObject c')) as [t|]; [|done]. cbn [rmap_err rbind]. intros [= <-]. by apply (set_nested_id "data" []).
Qed.

Lemma edits_id interest reading updating edit rs rs' :
  rmapM (edit_config toml_unmarshal toml_marshal interest reading updating edit) rs = Ok rs' -> Forall2 same_id rs rs'.
Proof. intros H%rmapM_ok. eapply Forall2_impl; [exact H|]. intros v v'. apply edit_config_id. Qed.

Lemma containers_id f rs : Forall2 same_id rs (map_containers f <$> rs).
Proof.
  apply Forall2_fmap_r, Forall_Forall2_diag, Forall_true. intros v.
  change (same_id v (map_containers f v)). unfold map_containers. destruct (String.eqb (get_kind v) _); [|done]. destruct (nested_slice _ _); [by apply set_nested_id|done].
Qed.

Lemma find_same (p : json -> bool) rs rs' :
  (forall v v', same_id v v' -> p v' = p v) -> Forall2 same_id rs rs' ->
  get_name <$> List.find p rs' = get_name <$> List.find p rs.
Proof.
  intros Hp. induction 1 as [|v v' rs rs' Hv _ IH]; cbn; [done|]. rewrite (Hp _ _ Hv).
  destruct (p v); [|done]. destruct Hv as [_ Hn]. exact (f_equal Some Hn).
Qed.

Lemma containers_lookup f (rs : list json) (i : nat) v :
  rs !! i = Some v -> get_kind v = "ConfigMap" -> (map_containers f <$> rs) !! i = Some v.
Proof. intros Hi Hk. rewrite list_lookup_fmap, Hi. cbn. unfold map_containers. by rewrite Hk. Qed.

(** *** Tables *)

Definition table_edit (t : string) (f : gmap string json -> option (gmap string json)) (c : gmap string json) : gmap string json :=
  default c (m ← (v ← c !! t; as_object v); m ← f m; Some (<[t := JObject m]> c)).

Lemma table_edit_ne t f c k : k <> t -> table_edit t f c !! k = c !! k.
Proof.
  intros Hk. unfold table_edit. destruct (c !! t) as [v|]; [|done]. cbn. destruct (as_object v) as [m|]; [|done]. cbn.
  destruct (f m); [|done]. cbn. by rewrite lookup_insert_ne.
Qed.

Lemma table_edit_eq t f c m : c !! t = Some (JObject m) -> table_edit t f c !! t = Some (JObject (default m (f m))).
Proof. intros Hm. unfold table_edit. rewrite Hm. cbn. destruct (f m); cbn; [by rewrite lookup_insert_eq|done]. Qed.

(** *** The configuration that is written *)

Section Written.
Variable cr : DataConnectService.
Variable cfg : platformConfig.
Variable profile : TLSProfile.

Definition operand_namespace : string := om_namespace (dcs_meta cr).
Definition flight_name : string := flightServiceResourceName (om_name (dcs_meta cr)).

(** The REST service's account among the rendered resources. *)
Definition is_rest_account (v : json) : bool :=
  String.eqb (get_kind v) "ServiceAccount" && ends_with (nameRestService +:+ "-sa") (get_name v).
Definition rest_account (rs : list json) : option string :=
  get_name <$> List.find is_rest_account (renderFlightService (om_name (dcs_meta cr)) rs).

Definition tenant_edit (t : gmap string json) : option (gmap string json) :=
  if bool_decide ((v ← t !! "tenant-id"; as_str v) = Some "opendatahub")
  then Some (<["tenant-id" := JString operand_namespace]> t) else None.

Definition account_edit (account : option string) (t : gmap string json) : gmap string json :=
  match account with
  | Some sa => <["discovery_service_account" := JString ("system:serviceaccount:" +:+ operand_namespace +:+ ":" +:+ sa)]> t
  | None => t
  end.

Definition audience_edit (t : gmap string json) : gmap string json :=
  match resolveTokenReviewAudiences cr cfg with
  | [] => t
  | l => <["token_review_audiences" := JArray (JString <$> l)]> t
  end.

(** The suites below TLS 1.3 that the profile allows. *)
Definition profile_suites : list string :=
  if tp_tls13 profile then [] else List.filter (fun n => negb (is_empty n)) (tp_usable profile).

Definition tls_edit (t : gmap string json) : gmap string json :=
  let t := <["min_version" := JString (tp_min_version profile)]> t in
  match profile_suites with [] => delete "ciphers" t | _ => <["ciphers" := JArray (JString <$> profile_suites)]> t end.

Definition connector_overrides : list ConnectorOverride := from_option so_connectors [] (ds_flight (dcs_spec cr)).

Record written (account : option string) (c c' : gmap string json) : Prop := {
  wr_other : forall k, k ∉ ["global-connection-types"; "auth"; "flight-service"; "tls"; "connectors"] -> c' !! k = c !! k;
  wr_tenant : forall g, c !! "global-connection-types" = Some (JObject g) ->
    c' !! "global-connection-types" = Some (JObject (default g (tenant_edit g)));
  wr_auth : forall a, c !! "auth" = Some (JObject a) ->
    c' !! "auth" = Some (JObject (audience_edit (account_edit account a)));
  wr_tls : forall t, c !! "tls" = Some (JObject t) -> c' !! "tls" = Some (JObject (tls_edit t));
  wr_connectors : match connector_overrides with
    | [] => c' !! "connectors" = c !! "connectors"
    | cs => exists m, connector_settings cs (default ∅ (v ← c !! "connectors"; as_object v)) = Ok m /\
                      c' !! "connectors" = Some (JObject m)
    end
}.

(** The stages of [configure], by the keys they change. *)
Lemma failing_ok {A} c (r : result string A) a : failing c r = Ok a -> r = Ok a.
Proof. unfold failing. by destruct r; cbn; intros [= ->]. Qed.

(** The ConfigMap at place [i] of the resources, and the configuration it holds. *)
Definition at_place (rs : list json) (i : nat) (name : string) (labels : gmap string string) (c : gmap string json) : Prop :=
  exists v, rs !! i = Some v /\ holds v name labels c.

Lemma table_stage interest reading updating t f rs rs' i name labels c :
  rmapM (edit_config toml_unmarshal toml_marshal interest reading updating (edit_table t f)) rs = Ok rs' ->
  (forall v, get_name v = name -> get_labels v = labels -> interest v = true) ->
  at_place rs i name labels c -> at_place rs' i name labels (table_edit t f c).
Proof using toml_roundtrip.
  intros Hrs Hint (v & Hi & Hv). pose proof Hv as [_ Hn Hl _].
  eapply edit_all in Hrs as (v' & e & Hi' & He & Hv'); [|done|exact Hv|by apply Hint].
  unfold edit_table in He. injection He as <-. by exists v'.
Qed.

Lemma containers_stage f rs i name labels c : at_place rs i name labels c -> at_place (map_containers f <$> rs) i name labels c.
Proof. intros (v & Hi & Hv). exists v. split; [|done]. apply containers_lookup; [done|]. by destruct Hv. Qed.

Lemma account_stage rs rs' i name labels c :
  setConfigMapDiscoveryServiceAccount toml_unmarshal toml_marshal operand_namespace flight_name rs = Ok rs' ->
  contains flight_name name = true -> at_place rs i name labels c ->
  at_place rs' i name labels (table_edit "auth" (fun t => Some (account_edit (get_name <$> List.find is_rest_account rs) t)) c).
Proof using toml_roundtrip.
  unfold setConfigMapDiscoveryServiceAccount. fold is_rest_account. intros H Hn Hv.
  destruct (List.find is_rest_account rs) as [sa|].
  - eapply table_stage; [exact H| |done]. intros v Hvn _. cbv beta. by rewrite Hvn.
  - injection H as <-. cbn [fmap option_fmap option_map account_edit]. destruct Hv as (v & Hi & Hv). exists v. split; [done|].
    destruct Hv as [H1 H2 H3 [d H4]]. split; [done..|]. exists d. rewrite H4. repeat f_equal.
    apply map_eq. intros k. destruct (decide (k = "auth")) as [->|Hk]; [|by rewrite table_edit_ne].
    unfold table_edit. destruct (c !! "auth") as [x|] eqn:Hx; cbn; [|done]. destruct (as_object x) as [m|] eqn:Hm; cbn; [|done].
    rewrite lookup_insert_eq. destruct x; try done. by injection Hm as ->.
Qed.

Lemma address_stage rs rs' i name labels c :
  setConfigMapFlightServiceAddress toml_unmarshal toml_marshal operand_namespace flight_name rs = Ok rs' ->
  at_place rs i name labels c ->
  exists c', at_place rs' i name labels c' /\ forall k, k <> "flight-service" -> c' !! k = c !! k.
Proof using toml_roundtrip.
  unfold setConfigMapFlightServiceAddress. intros H Hv.
  destruct (List.find _ rs) as [svc|]; [|injection H as <-; by exists c].
  destruct (is_empty (get_name svc)); [injection H as <-; by exists c|].
  eexists. split; [eapply table_stage; [exact H|done|done]|]. intros k Hk. by apply table_edit_ne.
Qed.

Lemma tls_stage rs rs' i name labels c :
  setConfigMapFlightTLSProfile toml_unmarshal toml_marshal flight_name profile rs = Ok rs' ->
  go_get labelAppName labels = flight_name -> at_place rs i name labels c ->
  at_place rs' i name labels (table_edit "tls" (fun t => Some (tls_edit t)) c).
Proof using toml_roundtrip.
  unfold setConfigMapFlightTLSProfile. intros H Hl Hv. fold profile_suites in H. destruct (_ && _); [done|].
  eapply table_stage; [exact H| |done]. intros v _ Hvl. unfold flight_config. rewrite Hvl, Hl. apply String.eqb_refl.
Qed.

Lemma connector_stage o rs rs' i name labels c :
  setConfigMapFlightConnectorSettings toml_unmarshal toml_marshal flight_name o rs = Ok rs' ->
  go_get labelAppName labels = flight_name -> at_place rs i name labels c ->
  exists c', at_place rs' i name labels c' /\ (forall k, k <> "connectors" -> c' !! k = c !! k) /\
    match so_connectors o with
    | [] => c' = c
    | cs => exists m, connector_settings cs (default ∅ (v ← c !! "connectors"; as_object v)) = Ok m /\
                      c' !! "connectors" = Some (JObject m)
    end.
Proof using toml_roundtrip.
  unfold setConfigMapFlightConnectorSettings. intros H Hl Hv. destruct (so_connectors o) as [|x cs].
  { injection H as <-. by exists c. }
  destruct Hv as (v & Hi & Hv). pose proof Hv as [_ _ Hlab _].
  eapply edit_all in H as (v' & e & Hi' & He & Hv'); [|done|exact Hv|unfold flight_config; rewrite Hlab, Hl; apply String.eqb_refl].
  destruct (connector_settings (x :: cs) _) as [m|] eqn:Hm; [|done]. injection He as <-.
  exists (<["connectors" := JObject m]> c). split; [by exists v'|]. split; [intros k Hk; by rewrite lookup_insert_ne|].
  exists m. by rewrite lookup_insert_eq.
Qed.

Lemma connectors_stage rs rs' i name labels c :
  go_get labelAppName labels = flight_name ->
  match ds_flight (dcs_spec cr) with
  | None => Ok rs
  | Some o => failing "setting flight-service connector configuration"
                (setConfigMapFlightConnectorSettings toml_unmarshal toml_marshal flight_name o rs)
  end = Ok rs' ->
  at_place rs i name labels c ->
  exists c', at_place rs' i name labels c' /\ (forall k, k <> "connectors" -> c' !! k = c !! k) /\
    match connector_overrides with
    | [] => c' = c
    | cs => exists m, connector_settings cs (default ∅ (v ← c !! "connectors"; as_object v)) = Ok m /\
                      c' !! "connectors" = Some (JObject m)
    end.
Proof using toml_roundtrip.
  unfold connector_overrides. destruct (ds_flight (dcs_spec cr)) as [o|]; intros Hl H Hv; cbn.
  - apply failing_ok in H. by eapply connector_stage.
  - injection H as <-. by exists c.
Qed.

Lemma audience_stage rs rs' i name labels c :
  match resolveTokenReviewAudiences cr cfg with
  | [] => Ok rs
  | audiences =>
      let?? rs := failing "setting token review audiences" (setConfigMapAudiences toml_unmarshal toml_marshal audiences rs) in
      Ok (setKubeRbacProxyAudiences audiences rs)
  end = Ok rs' ->
  at_place rs i name labels c ->
  exists c', at_place rs' i name labels c' /\ (forall k, k <> "auth" -> c' !! k = c !! k) /\
    forall a, c !! "auth" = Some (JObject a) -> c' !! "auth" = Some (JObject (audience_edit a)).
Proof using toml_roundtrip.
  unfold audience_edit. destruct (resolveTokenReviewAudiences cr cfg) as [|x l]; intros H Hv.
  { injection H as <-. by exists c. }
  destruct (setConfigMapAudiences _ _ _ rs) as [rs1|] eqn:H1; [|done]. cbn [failing rmap_err rbind] in H. injection H as <-.
  eexists. split; [apply containers_stage; eapply table_stage; [exact H1|done|done]|].
  split; [intros k Hk; by apply table_edit_ne|]. intros a Ha. by rewrite (table_edit_eq _ _ _ _ Ha).
Qed.

(** [configure] as a whole. *)
Lemma configured rs rs' i v config :
  configure toml_unmarshal toml_marshal cr cfg profile rs = Ok rs' -> rs !! i = Some v -> flight_configmap v config ->
  exists name labels config', at_place rs' i name labels config' /\ written (rest_account rs) config config'.
Proof using toml_roundtrip.
  intros H Hi Hv. apply (renamed_holds (om_name (dcs_meta cr))) in Hv as (name & labels & Hflight & Hv & Hname & Hlabel).
  unfold configure in H. cbv zeta in H. fold operand_namespace flight_name in H.
  set (rs0 := renderFlightService _ rs) in H. set (rs1 := setKubeRbacProxyTLSOpts profile rs0) in H.
  assert (P1 : at_place rs1 i name labels config).
  { apply containers_stage. eexists. split; [|exact Hv]. unfold rs0, renderFlightService. rewrite list_lookup_fmap, Hi. cbn.
    by rewrite Hflight. }
  assert (I1 : Forall2 same_id rs0 rs1) by apply containers_id.
  destruct (setConfigMapGlobalNamespace _ _ _ rs1) as [rs2|] eqn:H2; [|done]. cbn [failing rmap_err rbind] in H.
  pose proof (edits_id _ _ _ _ _ _ H2) as I2.
  eapply (table_stage _ _ _ _ tenant_edit) in H2 as P2; [|done|exact P1].
  destruct (setConfigMapDiscoveryServiceAccount _ _ _ _ rs2) as [rs3|] eqn:H3; [|done]. cbn [failing rmap_err rbind] in H.
  eapply account_stage in H3 as P3; [|exact Hname|exact P2].
  assert (Hacc : get_name <$> List.find is_rest_account rs2 = rest_account rs).
  { assert (Hp : forall v v', same_id v v' -> is_rest_account v' = is_rest_account v)
      by (intros v0 v1 [E1 E2]; unfold is_rest_account; by rewrite E1, E2).
    unfold rest_account. fold rs0. rewrite (find_same _ _ _ Hp I2). by apply find_same. }
  rewrite Hacc in P3.
  destruct (setConfigMapFlightServiceAddress _ _ _ _ rs3) as [rs4|] eqn:H4; [|done]. cbn [failing rmap_err rbind] in H.
  eapply address_stage in H4 as (c4 & P4 & K4); [|exact P3].
  destruct (setConfigMapFlightTLSProfile _ _ _ _ rs4) as [rs5|] eqn:H5; [|done]. cbn [failing rmap_err rbind] in H.
  eapply tls_stage in H5 as P5; [|exact Hlabel|exact P4].
  match type of H with rbind ?m _ = _ => destruct m as [rs6|] eqn:H6; [|done] end. cbn [rbind] in H.
  destruct (connectors_stage _ _ _ _ _ _ Hlabel H6 P5) as (c6 & P6 & K6 & C6).
  destruct (audience_stage _ _ _ _ _ _ H (containers_stage _ _ _ _ _ _ P6)) as (c7 & P7 & K7 & A7).
  exists name, labels, c7. split; [exact P7|].
  set (c2 := table_edit "global-connection-types" tenant_edit config) in *.
  set (c3 := table_edit "auth" _ c2) in *. set (c5 := table_edit "tls" _ c4) in *.
  split.
  - intros k Hk. rewrite !not_elem_of_cons in Hk. destruct Hk as (N1 & N2 & N3 & N4 & N5 & _).
    rewrite K7, K6 by done. unfold c5. rewrite table_edit_ne, K4 by done. unfold c3, c2. by rewrite !table_edit_ne.
  - intros g Hg. rewrite K7, K6 by done. unfold c5. rewrite table_edit_ne, K4 by done. unfold c3.
    rewrite table_edit_ne by done. by apply table_edit_eq.
  - intros a Ha. apply A7. rewrite K6 by done. unfold c5. rewrite table_edit_ne, K4 by done. unfold c3.
    rewrite (table_edit_eq _ _ _ a); [done|]. unfold c2. by rewrite table_edit_ne.
  - intros t Ht. rewrite K7, K6 by done. unfold c5. rewrite (table_edit_eq _ _ _ t); [done|].
    rewrite K4 by done. unfold c3, c2. by rewrite !table_edit_ne.
  - assert (Hc : c5 !! "connectors" = config !! "connectors").
    { unfold c5. rewrite table_edit_ne, K4 by done. unfold c3, c2. by rewrite !table_edit_ne. }
    rewrite K7 by done. rewrite Hc in C6. destruct connector_overrides; [by rewrite C6|done].
Qed.
End Written.
End Config.
