(* ===== verification/Applying.v ===== *)
(** Applying the same manifests twice: the second time nothing is written. *)
From S2P Require Import Prelude Text Json JsonCode Cluster Watchers Operator Manifests ManifestsProps.

(** What identifies an object to the API server. *)
Definition object_id (v : json) : string * string * string :=
  (get_kind v, default "" (nested_string ["metadata"; "namespace"] v), get_name v).

Definition hash_of (v : json) : string := go_get annotationSpecHash (get_annotations v).

Section Applying.
Context {W : Type} `{AP : !Applier W}.
Variable hash_json : json -> string.
Variable set_controller : DataConnectService -> json -> result string json.

(** The object is there, with the hash and the owners it was written with. *)
Definition reads_back (w : W) (v : json) : Prop :=
  exists e, (a_get v w).1 = Ok e /\ hash_of e = hash_of v /\ forall uid, hasControllerOwner uid e = hasControllerOwner uid v.

(** An API server that nobody else writes to. *)
Record ServerLaws : Prop := {
  get_pure : forall v w, (a_get v w).2 = w;
  get_by_id : forall v u w, object_id v = object_id u -> a_get v w = a_get u w;
  get_id : forall v w e, (a_get v w).1 = Ok e -> object_id e = object_id v;
  create_reads : forall v w w', a_create v w = (Ok tt, w') -> reads_back w' v;
  create_new : forall v w e w' x, (a_get v w).1 = Err x -> reason x = IsNotFound -> a_create v w = (Err e, w') ->
    reason e <> IsAlreadyExists;
  update_reads : forall v w w', a_update v w = (Ok tt, w') -> reads_back w' v;
  apply_reads : forall v w w', a_apply v w = (Ok tt, w') -> reads_back w' v;
  writes_one : forall v u w, object_id v <> object_id u ->
    (a_get v (a_create u w).2).1 = (a_get v w).1 /\ (a_get v (a_update u w).2).1 = (a_get v w).1 /\
    (a_get v (a_apply u w).2).1 = (a_get v w).1
}.

(** [SetControllerReference] adds an owner and changes nothing else. *)
Record ControllerLaws : Prop := {
  controller_id : forall cr v v', set_controller cr v = Ok v' -> object_id v' = object_id v;
  controller_annotations : forall cr v v', set_controller cr v = Ok v' -> get_annotations v' = get_annotations v;
  controller_owner : forall cr v v', set_controller cr v = Ok v' -> hasControllerOwner (om_uid (dcs_meta cr)) v' = true
}.

Hypothesis SL : ServerLaws.
Hypothesis CTL : ControllerLaws.
Variable cr : DataConnectService.
Variable namespace : string.

Abbreviation prepared := (prepare hash_json set_controller cr namespace).
Abbreviation apply_object := (apply_one hash_json set_controller cr namespace).

(** There is nothing to do for the object. *)
Definition in_place (w : W) (v : json) : Prop :=
  exists p e, prepared v = Ok p /\ (a_get p w).1 = Ok e /\ hash_of e = hash_of p /\
    (hasControllerOwner (om_uid (dcs_meta cr)) e = true \/ exists x, set_controller cr e = Err x).

Lemma get_run v w : a_get v w = ((a_get v w).1, w).
Proof using SL. rewrite <- (get_pure SL v w) at 3. apply surjective_pairing. Qed.

Lemma apply_run v w p : prepared v = Ok p -> apply_object v w = apply_prepared set_controller cr p (a_get p w).1 w.
Proof using SL.
  intros Hp. unfold apply_one. rewrite (mseq_run _ _ _ p w) by (by rewrite Hp).
  rewrite (mseq_run _ _ _ (a_get p w).1 w); [done|]. unfold attempt. by rewrite get_run.
Qed.

Lemma in_place_quiet w v : in_place w v -> apply_object v w = (Ok tt, w).
Proof using SL.
  intros (p & e & Hp & Hg & Hh & Ho). rewrite (apply_run _ _ _ Hp), Hg. unfold apply_prepared. fold (hash_of e) (hash_of p).
  rewrite Hh, String.eqb_refl. destruct Ho as [->|[x ->]]; [done|]. by destruct (hasControllerOwner _ e).
Qed.

Lemma metadata_id k x v : k <> "name" -> same_id v (set_nested ["metadata"; k] x v).
Proof.
  intros Hk. unfold same_id, get_kind, get_name, nested_string. rewrite nested_kind_metadata, nested_metadata_ne; done.
Qed.

Lemma same_id_trans u v w : same_id u v -> same_id v w -> same_id u w.
Proof. intros [H1 H2] [H3 H4]. split; congruence. Qed.

Lemma prepared_spec v p :
  prepared v = Ok p -> same_id v p /\ hasControllerOwner (om_uid (dcs_meta cr)) p = true.
Proof using CTL.
  unfold prepare. set (v1 := set_namespace namespace v). cbv zeta. set (v2 := if String.eqb _ _ then _ else v1).
  set (v3 := set_labels _ v2). destruct (set_controller cr v3) as [q|] eqn:Hq; [|done]. cbn [rmap_err rbind]. intros [= <-].
  assert (H1 : same_id v v1) by by apply metadata_id.
  assert (H2 : same_id v1 v2).
  { unfold v2. destruct (String.eqb _ _); [|done]. unfold patchClusterRoleBindingSubjects.
    destruct (nested_slice _ _); [by apply (set_nested_id "subjects" [])|done]. }
  assert (H3 : same_id v2 v3) by by apply metadata_id.
  assert (H4 : same_id v3 q) by (apply (controller_id CTL) in Hq; by injection Hq).
  assert (H5 : forall a, same_id q (set_annotations a q)) by (intros; by apply metadata_id).
  split; [by repeat (eapply same_id_trans; [eassumption|])|].
  apply (controller_owner CTL) in Hq. unfold hasControllerOwner, owner_refs, nested_slice, set_annotations in *.
  by rewrite nested_metadata_ne.
Qed.

Lemma in_place_read w v p : prepared v = Ok p -> reads_back w p -> in_place w v.
Proof using CTL.
  intros Hp (e & He & Hh & Ho). exists p, e. split_and!; [done..|]. left. rewrite Ho. by apply (prepared_spec v).
Qed.

(** Applying one object puts it in place, and touches no other. *)
Lemma apply_settles v w w' :
  apply_object v w = (Ok tt, w') ->
  in_place w' v /\
  forall u, (forall p, prepared v = Ok p -> object_id u <> object_id p) -> (a_get u w').1 = (a_get u w).1.
Proof using SL CTL.
  intros H. destruct (prepared v) as [p|e] eqn:Hp; [|unfold apply_one in H; by rewrite Hp in H].
  rewrite (apply_run _ _ _ Hp) in H. unfold apply_prepared in H. destruct (a_get p w).1 as [e|x] eqn:Hg.
  - fold (hash_of e) (hash_of p) in H. destruct (String.eqb_spec (hash_of e) (hash_of p)) as [Hh|_].
    + destruct (hasControllerOwner (om_uid (dcs_meta cr)) e) eqn:Ho.
      { injection H as <-. split; [|done]. exists p, e. auto. }
      destruct (set_controller cr e) as [o|x] eqn:Hs; [|injection H as <-; split; [exists p, e; split_and!; eauto|done]].
      apply map_err_ok in H.
      assert (Hid : object_id o = object_id p) by (rewrite (controller_id CTL _ _ _ Hs); by apply (get_id SL) in Hg).
      split.
      * destruct (update_reads SL _ _ _ H) as (e' & He' & Hh' & Ho'). exists p, e'.
        rewrite (get_by_id SL p o) by done. split_and!; [done..| |left; rewrite Ho'; by apply (controller_owner CTL) in Hs].
        rewrite Hh'. unfold hash_of in *. by rewrite (controller_annotations CTL _ _ _ Hs).
      * intros u Hu. destruct (writes_one SL u o w) as (_ & Hup & _); [rewrite Hid; by apply Hu|]. by rewrite H in Hup.
    + apply map_err_ok in H. split; [by eapply in_place_read, (apply_reads SL)|].
      intros u Hu. destruct (writes_one SL u p w) as (_ & _ & Hap); [by apply Hu|]. by rewrite H in Hap.
  - case_bool_decide as Hx; [|done]. apply mseq_ok in H as (r & w1 & H1 & H). unfold attempt in H1.
    destruct (a_create p w) as [r1 w2] eqn:Hc. injection H1 as <- <-. destruct r1 as [[]|e].
    + injection H as <-. split; [by eapply in_place_read, (create_reads SL)|].
      intros u Hu. destruct (writes_one SL u p w) as (Hcr & _ & _); [by apply Hu|]. by rewrite Hc in Hcr.
    + case_bool_decide as He; [|done]. by destruct (create_new SL _ _ _ _ _ Hg Hx Hc).
Qed.

Definition kind_name (v : json) : string * string := (get_kind v, get_name v).

Lemma prepared_distinct u v pu pv :
  prepared u = Ok pu -> prepared v = Ok pv -> kind_name u <> kind_name v -> object_id pu <> object_id pv.
Proof using CTL.
  intros [[Ku Nu] _]%prepared_spec [[Kv Nv] _]%prepared_spec Hne [= Hk _ Hn]. apply Hne. unfold kind_name. congruence.
Qed.

Lemma all_in_place l w w' :
  NoDup (kind_name <$> l) -> for_each l apply_object w = (Ok tt, w') ->
  Forall (in_place w') l /\
  forall u pu, prepared u = Ok pu -> kind_name u ∉ kind_name <$> l -> (a_get pu w').1 = (a_get pu w).1.
Proof using SL CTL.
  revert w. induction l as [|v l IH]; intros w Hnd H; cbn [for_each] in H; [injection H as <-; by split|].
  rewrite fmap_cons in Hnd. apply NoDup_cons in Hnd as [Hv Hnd].
  apply mseq_ok in H as ([] & w1 & H1 & H). apply apply_settles in H1 as [Hin Hother]. apply (IH _ Hnd) in H as [Hall Hframe].
  split.
  - constructor; [|done]. destruct Hin as (p & e & Hp & Hg & Hr). exists p, e.
    split; [done|]. split; [by rewrite (Hframe v p)|done].
  - intros u pu Hu Hnot. rewrite fmap_cons in Hnot. apply not_elem_of_cons in Hnot as [Huv Hul]. rewrite (Hframe u pu) by done.
    apply Hother. intros p Hp. by eapply prepared_distinct.
Qed.

Lemma quiet_all l w : Forall (in_place w) l -> for_each l apply_object w = (Ok tt, w).
Proof using SL. induction 1 as [|v l Hv _ IH]; cbn; [done|]. unfold mseq. by rewrite in_place_quiet. Qed.

Lemma by_priority_perm l : by_priority l ≡ₚ l.
Proof.
  assert (Hins : forall v l, insert_stable v l ≡ₚ v :: l).
  { intros v l0. induction l0 as [|x l0 IH]; cbn; [done|]. case_match; [done|]. rewrite IH. apply Permutation_swap. }
  induction l as [|v l IH]; cbn; [done|]. by rewrite Hins, IH.
Qed.

(** C14: Applying is idempotent. When the rendered resources, each of its own kind and
    name, have been applied and nothing else wrote to the cluster, applying them again
    succeeds and writes nothing: nothing restarts, and no generation advances. *)
Theorem reapplying_writes_nothing resources w w' :
  NoDup (kind_name <$> resources) ->
  applyResources hash_json set_controller cr namespace resources w = (Ok tt, w') ->
  applyResources hash_json set_controller cr namespace resources w' = (Ok tt, w').
Proof using SL CTL.
  intros Hnd H. apply all_in_place in H as [Hall _]; [by apply quiet_all|]. by rewrite by_priority_perm.
Qed.
End Applying.

(** ** A server that stores what it is given *)

Abbreviation Stored := (gmap (string * string * string) json).

Definition missing : KubeError := {| reason := IsNotFound; error_text := "not found" |}.
Definition stored_read (v : json) (w : Stored) : result KubeError json :=
  match w !! object_id v with
  | Some e => if decide (object_id e = object_id v) then Ok e else Err missing
  | None => Err missing
  end.
Definition stored_write (v : json) : M Stored KubeError unit := fun w => (Ok tt, <[object_id v := v]> w).

#[local] Instance stored_applier : Applier Stored := {|
  a_get v := fun w => (stored_read v w, w);
  a_create := stored_write;
  a_update := stored_write;
  a_apply := stored_write
|}.

Lemma stored_reads v w : reads_back (<[object_id v := v]> w) v.
Proof.
  exists v. change (a_get v (<[object_id v := v]> w)).1 with (stored_read v (<[object_id v := v]> w)).
  unfold stored_read. by rewrite lookup_insert_eq, decide_True.
Qed.

Lemma stored_laws : ServerLaws (W := Stored).
Proof.
  assert (Hne : forall v u w, object_id v <> object_id u -> stored_read v (<[object_id u := u]> w) = stored_read v w).
  { intros v u w Hvu. unfold stored_read. by rewrite lookup_insert_ne. }
  split; cbn [a_get a_create a_update a_apply stored_applier fst snd]; try done.
  - intros v u w Hid. unfold stored_read. by rewrite Hid.
  - intros v w e. unfold stored_read. repeat case_match; by intros [= <-].
  - intros v w w' [= <-]. apply stored_reads.
  - intros v w w' [= <-]. apply stored_reads.
  - intros v w w' [= <-]. apply stored_reads.
  - intros v u w Hvu. split_and!; exact (Hne v u w Hvu).
Qed.

Definition own (cr : DataConnectService) (v : json) : result string json :=
  let ref := obj [("uid", Some (JString (om_uid (dcs_meta cr)))); ("controller", Some (JBool true))] in
  let v := set_nested ["metadata"; "ownerReferences"] (JArray [ref]) v in
  if hasControllerOwner (om_uid (dcs_meta cr)) v then Ok v else Err "not an object".

Lemma own_laws : ControllerLaws own.
Proof.
  split; intros cr v v'; unfold own; cbv zeta; remember (set_nested _ _ v) as v1 eqn:Hv1;
    destruct (hasControllerOwner _ v1) eqn:Ho; try done; intros [= <-]; [subst v1| |done].
  - unfold object_id, get_kind, get_name, nested_string. by rewrite nested_kind_metadata, !nested_metadata_ne.
  - subst v1. unfold get_annotations, string_entries, nested_string_map. by rewrite nested_metadata_ne.
Qed.

Definition sample_owner : DataConnectService := {|
  dcs_meta := {| om_name := "hub"; om_namespace := "data"; om_uid := "u"; om_generation := 1; om_deleting := false;
                 om_finalizers := []; om_owners := []; om_labels := ∅; om_annotations := ∅ |};
  dcs_spec := {| ds_rest := None; ds_flight := None; ds_audiences := None; ds_gateway := None; ds_trace := None |};
  dcs_status := {| st_observed := 0; st_distribution := {| dist_name := ""; dist_version := "" |}; st_releases := [];
                   st_phase := ""; st_addresses := []; st_http_route := ""; st_gateway := None; st_conditions := [] |}
|}.

Definition sample_object (kind name : string) : json :=
  obj [("kind", Some (JString kind)); ("metadata", Some (obj [("name", Some (JString name))]))].
Definition sample_objects : list json := [sample_object "Deployment" "flight"; sample_object "ServiceAccount" "sa"].

Definition applied_once : Stored := (applyResources code own sample_owner "data" sample_objects ∅).2.

Lemma reapplying_writes_nothing_witness :
  size applied_once = 2 /\ applyResources code own sample_owner "data" sample_objects applied_once = (Ok tt, applied_once).
Proof.
  split; [vm_compute; reflexivity|].
  apply (reapplying_writes_nothing code own stored_laws own_laws sample_owner "data" sample_objects ∅ applied_once).
  - vm_compute. repeat constructor; set_solver.
  - vm_compute. reflexivity.
Defined.
