(* ===== verification/Projection.v ===== *)
(** From the resource to the running Flight service: the configuration the controller
    writes into the rendered ConfigMap, read back as the service reads it, says what the
    resource and the cluster's TLS profile say; and the service that starts with it
    enforces that. Also the tracing settings, as the services read them from their
    environment. *)
From S2P Require Import Prelude Text Json Cluster Api Flight Startup RestStartup Settings Watchers Operator Manifests ManifestsProps Observability.
From Stdlib Require Import NArith ZArith.

Section Projection.
Context `{CC : ConfigCrate} `{CL : !ConfigLaws}.

(** ** Fields of a map that was written to *)

Lemma field_opt_ne {A} (de : json -> option A) k k' x m : k <> k' -> field_opt de k (<[k' := x]> m) = field_opt de k m.
Proof. intros Hk. unfold field_opt. by rewrite lookup_insert_ne. Qed.

Lemma field_opt_eq {A} (de : json -> option A) k x m a :
  is_null x = false -> de x = Some a -> field_opt de k (<[k := x]> m) = Some (Some a).
Proof. intros Hn Hx. unfold field_opt. rewrite lookup_insert_eq. by destruct x; rewrite ?Hx. Qed.

Lemma field_or_ne {A} (de : json -> option A) d k k' x m : k <> k' -> field_or de d k (<[k' := x]> m) = field_or de d k m.
Proof. intros Hk. unfold field_or. by rewrite lookup_insert_ne. Qed.

Lemma field_or_eq {A} (de : json -> option A) d k x m : field_or de d k (<[k := x]> m) = de x.
Proof. unfold field_or. by rewrite lookup_insert_eq. Qed.

Lemma de_strings_ok l : de_strings (JArray (JString <$> l)) = Some l.
Proof.
  unfold de_strings. cbn [as_array mbind option_bind]. induction l as [|s l IH]; [done|].
  cbn. rewrite de_str_ok. cbn. cbn in IH. by rewrite IH.
Qed.

(** ** Connectors *)

(** A duration is an [int64] of nanoseconds. *)
Definition int64_duration (d : Duration) : Prop := (nanoseconds d < 2 ^ 63)%Z.
Definition durations (c : ConnectorOverride) : list Duration :=
  omap (fun d => d) [co_connection_timeout c; co_request_timeout c; co_read_timeout c].

Definition timeout_or (d : option Duration) (old : option N) : option N :=
  match d with Some d => Some (Z.to_N (Z.quot (nanoseconds d) second)) | None => old end.

(** What the resource asks for, over what the file said before. *)
Definition asked (c : ConnectorOverride) (old : ConnectorConfigOverride) : ConnectorConfigOverride :=
  {| o_enabled := Some (bool_decide (co_enabled c = Some true));
     o_connection_timeout_secs := timeout_or (co_connection_timeout c) (o_connection_timeout_secs old);
     o_request_timeout_secs := timeout_or (co_request_timeout c) (o_request_timeout_secs old);
     o_read_timeout_secs := timeout_or (co_read_timeout c) (o_read_timeout_secs old);
     o_chunk_size := o_chunk_size old |}.

Lemma seconds_decode name what d s :
  int64_duration d -> seconds_of name what d = Ok s -> de_u64 (jint s) = Some (Z.to_N (Z.quot (nanoseconds d) second)).
Proof using CL.
  unfold int64_duration, seconds_of. intros Hd. destruct (nanoseconds d <=? 0)%Z eqn:Hp; [done|]. cbn.
  destruct (Z.rem (nanoseconds d) second =? 0)%Z; [|done]. intros [= <-]. apply Z.leb_gt in Hp.
  assert (Hq : (0 <= Z.quot (nanoseconds d) second <= nanoseconds d)%Z).
  { unfold second. rewrite Z.quot_div_nonneg by lia. split; [apply Z.div_pos; lia|]. apply Z.div_le_upper_bound; lia. }
  unfold jint. rewrite (proj2 (Z.leb_le _ _)) by lia. apply de_uint_ok. unfold u64_max. lia.
Qed.

Lemma set_timeout_decode name what key d m m' old :
  (forall x, d = Some x -> int64_duration x) ->
  set_timeout name what key d m = Ok m' -> field_opt de_u64 key m = Some old ->
  field_opt de_u64 key m' = Some (timeout_or d old) /\
  forall A (de : json -> option A) k, k <> key -> field_opt de k m' = field_opt de k m.
Proof using CL.
  intros Hd. unfold set_timeout. destruct d as [d|]; [|intros [= <-] H; done].
  destruct (seconds_of name what d) as [s|] eqn:Hs; [|done]. cbn. intros [= <-] _. split.
  - apply field_opt_eq; [done|]. by eapply seconds_decode; [apply Hd|].
  - intros A de k Hk. by apply field_opt_ne.
Qed.

Lemma section_decode c m m' old :
  (forall d, d ∈ durations c -> int64_duration d) ->
  connector_section c m = Ok m' -> override_decode (JObject m) = Some old -> override_decode (JObject m') = Some (asked c old).
Proof using CL.
  intros Hd. unfold connector_section. intros H Ho. set (m0 := <["enabled" := _]> m) in H.
  unfold override_decode in Ho. cbn [table as_object mbind option_bind] in Ho.
  destruct (field_opt de_bool "enabled" m) as [e|]; [|done]. cbn in Ho.
  destruct (field_opt de_u64 "connection_timeout_secs" m) as [o1|] eqn:E1; [|done]. cbn in Ho.
  destruct (field_opt de_u64 "request_timeout_secs" m) as [o2|] eqn:E2; [|done]. cbn in Ho.
  destruct (field_opt de_u64 "read_timeout_secs" m) as [o3|] eqn:E3; [|done]. cbn in Ho.
  destruct (field_opt de_u64 "chunk_size" m) as [o4|] eqn:E4; [|done]. injection Ho as <-.
  assert (K0 : forall A (de : json -> option A) k, k <> "enabled" -> field_opt de k m0 = field_opt de k m)
    by (intros; by apply field_opt_ne).
  destruct (set_timeout _ _ _ (co_connection_timeout c) m0) as [m1|] eqn:H1; [|done]. cbn [rbind] in H.
  destruct (set_timeout _ _ _ (co_request_timeout c) m1) as [m2|] eqn:H2; [|done]. cbn [rbind] in H.
  apply (set_timeout_decode _ _ _ _ _ _ o1) in H1 as [F1 K1]; [|intros x Hx; apply Hd; unfold durations; rewrite Hx; set_solver|by rewrite K0].
  apply (set_timeout_decode _ _ _ _ _ _ o2) in H2 as [F2 K2];
    [|intros x Hx; apply Hd; unfold durations; rewrite Hx; destruct (co_connection_timeout c); set_solver|by rewrite K1, K0].
  apply (set_timeout_decode _ _ _ _ _ _ o3) in H as [F3 K3];
    [|intros x Hx; apply Hd; unfold durations; rewrite Hx; destruct (co_connection_timeout c), (co_request_timeout c); set_solver
     |by rewrite K2, K1, K0].
  assert (X0 : field_opt de_bool "enabled" m' = Some (Some (bool_decide (co_enabled c = Some true)))).
  { rewrite K3, K2, K1 by done. apply field_opt_eq; [done|apply de_bool_ok]. }
  assert (X1 : field_opt de_u64 "connection_timeout_secs" m' = Some (timeout_or (co_connection_timeout c) o1)) by by rewrite K3, K2.
  assert (X2 : field_opt de_u64 "request_timeout_secs" m' = Some (timeout_or (co_request_timeout c) o2)) by by rewrite K3.
  assert (X4 : field_opt de_u64 "chunk_size" m' = Some o4) by by rewrite K3, K2, K1, K0.
  unfold override_decode. cbn [table as_object mbind option_bind]. rewrite X0. cbn. rewrite X1. cbn. rewrite X2. cbn.
  rewrite F3. cbn. by rewrite X4.
Qed.

(** The settings for one name. *)
Definition settings_for (name : string) (cs : list ConnectorOverride) : option ConnectorOverride :=
  List.find (fun c => String.eqb (co_name c) name) cs.

Lemma settings_lookup cs m m' k :
  NoDup (co_name <$> cs) -> k <> "" -> connector_settings cs m = Ok m' ->
  match settings_for k cs with
  | Some c => exists s, connector_section c (default ∅ (v ← m !! k; as_object v)) = Ok s /\ m' !! k = Some (JObject s)
  | None => m' !! k = m !! k
  end.
Proof.
  unfold settings_for. intros Hnd Hk. revert m. induction cs as [|c cs IH]; intros m H; cbn in H |- *; [by injection H as <-|].
  rewrite fmap_cons in Hnd. apply NoDup_cons in Hnd as [Hc Hnd]. specialize (IH Hnd).
  destruct (is_empty (co_name c)) eqn:Hem.
  { destruct (String.eqb_spec (co_name c) k) as [<-|_]; [by destruct (co_name c)|by apply IH]. }
  destruct (connector_section c _) as [s|] eqn:Hs; [|done]. cbn in H. apply IH in H.
  destruct (String.eqb_spec (co_name c) k) as [<-|Hne].
  - exists s. split; [done|]. destruct (List.find _ cs) as [c'|] eqn:Hf; [|by rewrite H, lookup_insert_eq].
    apply find_some in Hf as [Hin Hn%String.eqb_eq]. destruct Hc. apply list_elem_of_fmap. exists c'.
    split; [done|]. by apply list_elem_of_In.
  - by rewrite lookup_insert_ne in H.
Qed.

(** The overrides of the resource: distinct names (the list is a map by name), none of
    them the default section, and durations that fit. *)
Record valid_overrides (cs : list ConnectorOverride) : Prop := {
  vo_distinct : NoDup (co_name <$> cs);
  vo_provider : "default" ∉ co_name <$> cs;
  vo_durations : forall c d, c ∈ cs -> d ∈ durations c -> int64_duration d
}.

Definition asked_for (cs : list ConnectorOverride) (p : Provider) (old : ConnectorConfigOverride) : ConnectorConfigOverride :=
  match settings_for (provider_name p) cs with Some c => asked c old | None => old end.

Lemma override_settings cs m m' p old :
  valid_overrides cs -> connector_settings cs m = Ok m' -> override_of m p = Some old ->
  override_of m' p = Some (asked_for cs p old).
Proof using CL.
  intros [Hnd _ Hdur] H Hold. assert (Hp : provider_name p <> "") by (by destruct p).
  pose proof (settings_lookup _ _ _ _ Hnd Hp H) as Hl. unfold asked_for.
  destruct (settings_for (provider_name p) cs) as [c|] eqn:Hc; unfold override_of, field_or in *; [|by rewrite Hl].
  destruct Hl as (s & Hs & ->). apply find_some in Hc as [Hin%list_elem_of_In _].
  eapply section_decode; [intros d; by apply Hdur|exact Hs|].
  destruct (m !! provider_name p) as [v|]; cbn in *; [|by injection Hold as <-]. destruct v; try discriminate Hold. done.
Qed.

Lemma default_settings cs m m' :
  valid_overrides cs -> connector_settings cs m = Ok m' -> m' !! "default" = m !! "default".
Proof.
  intros [Hnd Hdef _] H. pose proof (settings_lookup _ _ _ "default" Hnd ltac:(done) H) as Hl.
  destruct (settings_for "default" cs) as [c|] eqn:Hc; [|done].
  apply find_some in Hc as [Hin Hn%String.eqb_eq]. destruct Hdef. apply list_elem_of_fmap. exists c. by rewrite list_elem_of_In.
Qed.

(** What a table of connectors decodes to, field by field. *)
Lemma connectors_decode_spec m (d : ConnectorConfig) (f : Provider -> ConnectorConfigOverride) :
  field_or connector_decode ConnectorConfig_default "default" m = Some d -> (forall p, override_of m p = Some (f p)) ->
  exists cc, connectors_decode (JObject m) = Some cc /\ cc_default cc = d /\ forall p, cc_override cc p = f p.
Proof.
  intros Hd Hf. unfold connectors_decode. cbn [table as_object mbind option_bind]. rewrite Hd. cbn. rewrite !Hf. cbn.
  eexists. split; [done|]. cbn. split; [done|]. by intros [].
Qed.

Lemma connectors_decode_inv m cc :
  connectors_decode (JObject m) = Some cc ->
  field_or connector_decode ConnectorConfig_default "default" m = Some (cc_default cc) /\
  forall p, override_of m p = Some (cc_override cc p).
Proof.
  unfold connectors_decode. cbn [table as_object mbind option_bind].
  destruct (field_or _ _ _ _) as [d|]; [|done]. cbn.
  destruct (override_of m PPostgres) eqn:E1; [|done]. cbn. destruct (override_of m PSqlite) eqn:E2; [|done]. cbn.
  destruct (override_of m PElasticsearch) eqn:E3; [|done]. cbn. destruct (override_of m PNeo4j) eqn:E4; [|done]. cbn.
  destruct (override_of m PMilvus) eqn:E5; [|done]. cbn. destruct (override_of m PS3) eqn:E6; [|done]. cbn.
  destruct (override_of m PUri) eqn:E7; [|done]. cbn. intros [= <-]. split; [done|]. by intros [].
Qed.

(** The connectors of the configuration that is written. *)
Lemma connectors_written cs c c' cc :
  valid_overrides cs -> field_or connectors_decode connectors_default "connectors" c = Some cc ->
  match cs with
  | [] => c' !! "connectors" = c !! "connectors"
  | _ => exists m, connector_settings cs (default ∅ (v ← c !! "connectors"; as_object v)) = Ok m /\
                   c' !! "connectors" = Some (JObject m)
  end ->
  exists cc', field_or connectors_decode connectors_default "connectors" c' = Some cc' /\ cc_default cc' = cc_default cc /\
    forall p, cc_override cc' p = asked_for cs p (cc_override cc p).
Proof using CL.
  intros Hcs Hcc H. destruct cs as [|x cs]; [unfold field_or; rewrite H; by exists cc|]. destruct H as (m & Hm & Hc').
  set (m0 := default ∅ (v ← c !! "connectors"; as_object v)) in Hm.
  assert (Hm0 : field_or connector_decode ConnectorConfig_default "default" m0 = Some (cc_default cc) /\
                forall p, override_of m0 p = Some (cc_override cc p)).
  { unfold m0. unfold field_or in Hcc. destruct (c !! "connectors") as [v|]; cbn.
    - destruct v; try discriminate Hcc. by apply connectors_decode_inv.
    - by injection Hcc as <-. }
  destruct Hm0 as [Hd Hp]. unfold field_or at 1. rewrite Hc'. apply connectors_decode_spec.
  - unfold field_or. by rewrite (default_settings _ _ _ Hcs Hm).
  - intros p. by eapply override_settings.
Qed.

(** ** TLS, authentication and the tenant *)

Lemma tls_written profile t old :
  tls_decode (JObject t) = Some old ->
  tls_decode (JObject (tls_edit profile t)) =
  Some {| cert_file := cert_file old; key_file := key_file old; min_version := Some (tp_min_version profile);
          ciphers := match profile_suites profile with [] => None | l => Some l end |}.
Proof using CL.
  unfold tls_decode. cbn [table as_object mbind option_bind]. intros H.
  destruct (field_opt de_str "cert_file" t) as [c|] eqn:E1; [|done]. cbn in H.
  destruct (field_opt de_str "key_file" t) as [k|] eqn:E2; [|done]. cbn in H.
  destruct (field_opt de_str "min_version" t) as [n|]; [|done]. cbn in H.
  destruct (field_opt de_strings "ciphers" t) as [s|]; [|done]. injection H as <-.
  unfold tls_edit. set (t1 := <["min_version" := JString (tp_min_version profile)]> t).
  assert (Hmin : field_opt de_str "min_version" t1 = Some (Some (tp_min_version profile)))
    by (apply field_opt_eq; [done|apply de_str_ok]).
  assert (Hother : forall k, k <> "min_version" -> field_opt de_str k t1 = field_opt de_str k t) by (intros; by apply field_opt_ne).
  assert (Hdel : forall k, k <> "ciphers" -> field_opt de_str k (delete "ciphers" t1) = field_opt de_str k t1)
    by (intros; unfold field_opt; by rewrite lookup_delete_ne).
  destruct (profile_suites profile) as [|x l].
  - rewrite !Hdel by done. rewrite (Hother "cert_file"), (Hother "key_file"), E1 by done. cbn. rewrite E2. cbn. rewrite Hmin. cbn.
    unfold field_opt. by rewrite lookup_delete_eq.
  - assert (Hins : forall y k, k <> "ciphers" -> field_opt de_str k (<["ciphers" := y]> t1) = field_opt de_str k t1)
      by (intros; by apply field_opt_ne).
    rewrite !Hins by done. rewrite (Hother "cert_file"), (Hother "key_file"), E1 by done. cbn. rewrite E2. cbn. rewrite Hmin. cbn.
    erewrite field_opt_eq; [done|done|apply (de_strings_ok (x :: l))].
Qed.

Lemma auth_written cr cfg account a old :
  auth_decode (JObject a) = Some old ->
  auth_decode (JObject (audience_edit cr cfg (account_edit cr account a))) =
  Some {| auth_enabled := auth_enabled old; cache_ttl_secs := cache_ttl_secs old;
          token_review_audiences := match resolveTokenReviewAudiences cr cfg with [] => token_review_audiences old | l => l end;
          discovery_service_account := match account with
            | Some sa => "system:serviceaccount:" +:+ operand_namespace cr +:+ ":" +:+ sa
            | None => discovery_service_account old
            end |}.
Proof using CL.
  unfold auth_decode. cbn [table as_object mbind option_bind]. intros H.
  destruct (field_or de_bool false "enabled" a) as [e|] eqn:E1; [|done]. cbn in H.
  destruct (field_or de_u64 300%N "cache_ttl_secs" a) as [t|] eqn:E2; [|done]. cbn in H.
  destruct (field_or de_strings [] "token_review_audiences" a) as [l|] eqn:E3; [|done]. cbn in H.
  destruct (field_or de_str "" "discovery_service_account" a) as [d|] eqn:E4; [|done]. injection H as <-.
  set (a1 := account_edit cr account a).
  assert (Ha : forall A (de : json -> option A) d k, k <> "discovery_service_account" -> field_or de d k a1 = field_or de d k a).
  { intros A de d0 k Hk. unfold a1, account_edit. destruct account; [by apply field_or_ne|done]. }
  assert (Hd : field_or de_str "" "discovery_service_account" a1 =
    Some match account with Some sa => "system:serviceaccount:" +:+ operand_namespace cr +:+ ":" +:+ sa | None => d end).
  { unfold a1, account_edit. destruct account; [|done]. rewrite field_or_eq. apply de_str_ok. }
  unfold audience_edit. destruct (resolveTokenReviewAudiences cr cfg) as [|x r].
  - rewrite (Ha bool), (Ha N), (Ha (list string)), E1 by done. cbn. rewrite E2. cbn. rewrite E3. cbn. by rewrite Hd.
  - assert (Hins : forall A (de : json -> option A) d y k, k <> "token_review_audiences" ->
      field_or de d k (<["token_review_audiences" := y]> a1) = field_or de d k a1) by (intros; by apply field_or_ne).
    rewrite (Hins bool), (Hins N), (Hins string), (Ha bool), (Ha N), E1 by done. cbn [mbind option_bind].
    rewrite E2. cbn [mbind option_bind]. rewrite field_or_eq, (de_strings_ok (x :: r)). cbn. by rewrite Hd.
Qed.

(** ** The whole configuration *)

(** What the service's configuration becomes. *)
Record projected (cr : DataConnectService) (cfg : platformConfig) (profile : TLSProfile) (account : option string)
    (sc sc' : ServerConfig) : Prop := {
  pj_listen : sc_address sc' = sc_address sc /\ sc_port sc' = sc_port sc;
  pj_database : sc_database_url sc' = sc_database_url sc;
  pj_tenant : sc_global_tenant_id sc' = operand_namespace cr;
  pj_metrics : sc_metrics sc' = sc_metrics sc;
  pj_limits : sc_pools sc' = sc_pools sc /\ sc_query sc' = sc_query sc;
  pj_connectors : forall p, connector_config (sc_connectors sc') p =
    config_merge (cc_default (sc_connectors sc)) (asked_for (connector_overrides cr) p (cc_override (sc_connectors sc) p));
  pj_authentication : auth_enabled (sc_auth sc') = auth_enabled (sc_auth sc) /\
    cache_ttl_secs (sc_auth sc') = cache_ttl_secs (sc_auth sc);
  pj_audiences : token_review_audiences (sc_auth sc') =
    match resolveTokenReviewAudiences cr cfg with [] => token_review_audiences (sc_auth sc) | l => l end;
  pj_account : discovery_service_account (sc_auth sc') =
    match account with
    | Some sa => "system:serviceaccount:" +:+ operand_namespace cr +:+ ":" +:+ sa
    | None => discovery_service_account (sc_auth sc)
    end;
  pj_tls : sc_tls sc' =
    {| cert_file := cert_file (sc_tls sc); key_file := key_file (sc_tls sc); min_version := Some (tp_min_version profile);
       ciphers := match profile_suites profile with [] => None | l => Some l end |}
}.

(** The tables of the shipped configuration that the controller edits. *)
Record shipped (config : gmap string json) : Prop := {
  sh_tls : exists t, config !! "tls" = Some (JObject t);
  sh_auth : exists a, config !! "auth" = Some (JObject a);
  sh_tenant : exists g, config !! "global-connection-types" = Some (JObject g) /\
    g !! "tenant-id" = Some (JString "opendatahub")
}.

Definition projected_keys : list string := ["global-connection-types"; "auth"; "tls"; "connectors"].

Lemma field_local {A} (de : json -> option A) k m m' : m' !! k = m !! k -> field de k m' = field de k m.
Proof. unfold field. by intros ->. Qed.
Lemma field_or_local {A} (de : json -> option A) d k m m' : m' !! k = m !! k -> field_or de d k m' = field_or de d k m.
Proof. unfold field_or. by intros ->. Qed.

Lemma config_written cr cfg profile account c c' secret sc :
  written cr cfg profile account c c' -> shipped c -> valid_overrides (connector_overrides cr) ->
  (forall k, k ∈ projected_keys -> secret !! k = None) ->
  flight_config_decode (overlay c secret) = Some sc ->
  exists sc', flight_config_decode (overlay c' secret) = Some sc' /\ projected cr cfg profile account sc sc'.
Proof using CL.
  intros [Wother Wtenant Wauth Wtls Wconn] [[t Ht] [a Ha] (g & Hg & Hg')] Hcs Hsecret H.
  assert (Hbase : forall x k, k ∈ projected_keys -> overlay x secret !! k = x !! k)
    by (intros x k Hk; apply overlay_base, Hsecret, Hk).
  assert (Hkeep : forall k, k ∉ ["global-connection-types"; "auth"; "flight-service"; "tls"; "connectors"] ->
    overlay c' secret !! k = overlay c secret !! k) by (intros k Hk; by apply overlay_local, Wother).
  assert (Htenant : field global_types_decode "global-connection-types" (overlay c' secret) = Some (operand_namespace cr)).
  { unfold field. rewrite Hbase, (Wtenant g Hg) by (unfold projected_keys; set_solver). cbn. unfold tenant_edit. rewrite Hg'. cbn [mbind option_bind as_str].
    rewrite bool_decide_true by done. cbn. unfold field. rewrite lookup_insert_eq. apply de_str_ok. }
  assert (Hlocal : forall x A (de : json -> option A) d k, k ∈ projected_keys ->
    field_or de d k (overlay x secret) = field_or de d k x) by (intros; by apply field_or_local, Hbase).
  unfold flight_config_decode in H |- *.
  rewrite (field_local server_decode _ (overlay c secret)) by (apply Hkeep; set_solver).
  rewrite (field_local database_decode _ (overlay c secret)) by (apply Hkeep; set_solver).
  rewrite (field_local pools_decode _ (overlay c secret)) by (apply Hkeep; set_solver).
  rewrite (field_or_local query_decode _ _ (overlay c secret)) by (apply Hkeep; set_solver).
  rewrite (field_or_local metrics_decode _ _ (overlay c secret)) by (apply Hkeep; set_solver).
  destruct (field server_decode _ _) as [s|]; [|done]. cbn in H |- *.
  destruct (field database_decode _ _) as [d|]; [|done]. cbn in H |- *.
  destruct (field pools_decode _ _) as [i|]; [|done]. cbn in H |- *.
  destruct (field_or connectors_decode _ _ (overlay c secret)) as [cc|] eqn:Hcc; [|done]. cbn in H.
  destruct (field_or query_decode _ _ _) as [q|]; [|done]. cbn in H |- *.
  destruct (field_or auth_decode _ _ (overlay c secret)) as [au|] eqn:Hau; [|done]. cbn in H.
  destruct (field_or metrics_decode _ _ _) as [me|]; [|done]. cbn in H |- *.
  destruct (field_or tls_decode _ _ (overlay c secret)) as [tl|] eqn:Htl; [|done]. cbn in H.
  destruct (field global_types_decode _ (overlay c secret)) as [ten|]; [|done]. injection H as <-.
  rewrite Hlocal in Hcc, Hau, Htl by (unfold projected_keys; set_solver).
  destruct (connectors_written _ _ c' _ Hcs Hcc) as (cc' & Hcc' & Hdef & Hover); [by destruct (connector_overrides cr)|].
  unfold field_or in Hau, Htl. rewrite Ha in Hau. rewrite Ht in Htl.
  apply (auth_written cr cfg account) in Hau. apply (tls_written profile) in Htl.
  rewrite !Hlocal, Hcc' by (unfold projected_keys; set_solver). cbn.
  unfold field_or. rewrite (Wauth a Ha), Hau. cbn. rewrite (Wtls t Ht), Htl. cbn. rewrite Htenant. cbn.
  eexists. split; [done|]. split; try done. intros p. unfold connector_config. cbn. by rewrite Hdef, Hover.
Qed.

(** ** From the resource to the service *)

Section Service.
Variable toml_unmarshal : string -> result string (option (gmap string json)).
Variable toml_marshal : json -> result string string.
Hypothesis toml_roundtrip : forall c t, toml_marshal (JObject c) = Ok t -> toml_unmarshal t = Ok (Some c).

(** The configuration of the Flight service after the controller's edits: it is in the
    ConfigMap at the same place of the resources, and the service reads it so. *)
Lemma service_configuration cr cfg profile rs rs' i v config secret sc :
  configure toml_unmarshal toml_marshal cr cfg profile rs = Ok rs' -> rs !! i = Some v ->
  flight_configmap toml_unmarshal v config -> shipped config -> valid_overrides (connector_overrides cr) ->
  (forall k, k ∈ projected_keys -> secret !! k = None) -> flight_config_decode (overlay config secret) = Some sc ->
  exists v' data config' sc', rs' !! i = Some v' /\ parseConfigMapTOML toml_unmarshal v' = Ok (Some config', data) /\
    flight_config_decode (overlay config' secret) = Some sc' /\ projected cr cfg profile (rest_account cr rs) sc sc'.
Proof using CL toml_roundtrip.
  intros Hc Hi Hv Hsh Hcs Hsec Hsc.
  destruct (configured _ _ toml_roundtrip _ _ _ _ _ _ _ _ Hc Hi Hv) as (name & labels & config' & (v' & Hi' & Hh) & Hw).
  destruct Hh as [_ _ _ [data Hd]]. destruct (config_written _ _ _ _ _ _ _ _ Hw Hsh Hcs Hsec Hsc) as (sc' & Hsc' & Hp).
  by exists v', data, config', sc'.
Qed.

(** C5: The Flight service runs with what the resource says. When the controller renders
    the manifests for a resource, the Flight service that reads the configuration
    written for it, with its secret configuration over it, runs with the operand's
    namespace as the global tenant, for every connector the resource names with that
    connector enabled exactly as asked and its timeouts in seconds, for every other
    connector as shipped, with the token audiences asked for, with the REST service's
    account as the one that may discover, and with the cluster's TLS minimum and
    suites; everything else is as shipped. *)
Theorem configuration_projected cr cfg profile rs rs' i v config secret sc
    {W} (source : string -> M W string (option (gmap string json))) config_file secret_file w w1 w2 v' config' data :
  configure toml_unmarshal toml_marshal cr cfg profile rs = Ok rs' -> rs !! i = Some v ->
  flight_configmap toml_unmarshal v config -> shipped config -> valid_overrides (connector_overrides cr) ->
  (forall k, k ∈ projected_keys -> secret !! k = None) -> flight_config_decode (overlay config secret) = Some sc ->
  rs' !! i = Some v' -> parseConfigMapTOML toml_unmarshal v' = Ok (Some config', data) ->
  source config_file w = (Ok (Some config'), w1) -> source secret_file w1 = (Ok (Some secret), w2) ->
  exists sc', load_flight_config source config_file secret_file w = (Ok sc', w2) /\
    projected cr cfg profile (rest_account cr rs) sc sc'.
Proof using CL toml_roundtrip.
  intros Hc Hi Hv Hsh Hcs Hsec Hsc Hi' Hp Hf Hs.
  destruct (service_configuration _ _ _ _ _ _ _ _ _ _ Hc Hi Hv Hsh Hcs Hsec Hsc) as (v2 & d2 & c2 & sc' & Hi2 & Hp2 & Hd & Hpr).
  rewrite Hi' in Hi2. injection Hi2 as <-. rewrite Hp in Hp2. injection Hp2 as <- <-.
  exists sc'. split; [|done]. unfold load_flight_config, load_as, load_values.
  rewrite (mseq_run _ _ _ (overlay config' secret) w2); [by rewrite Hd|].
  rewrite (mseq_run _ _ _ _ _ Hf). cbn. by rewrite (mseq_run _ _ _ _ _ Hs).
Qed.

(** C23: The cluster's TLS profile reaches the Flight listener. A listener that comes up
    with the configuration the controller wrote serves TLS, no version below the
    profile's minimum, and below TLS 1.3 no suite that the profile does not allow (when
    the profile allows any by name); with a minimum of 1.3 it serves nothing below. *)
Theorem cluster_profile_enforced cr cfg profile rs rs' i v config secret sc {W} `{TL : !TlsLib W} w l w' v' config' data sc' :
  configure toml_unmarshal toml_marshal cr cfg profile rs = Ok rs' -> rs !! i = Some v ->
  flight_configmap toml_unmarshal v config -> shipped config -> valid_overrides (connector_overrides cr) ->
  (forall k, k ∈ projected_keys -> secret !! k = None) -> flight_config_decode (overlay config secret) = Some sc ->
  rs' !! i = Some v' -> parseConfigMapTOML toml_unmarshal v' = Ok (Some config', data) ->
  flight_config_decode (overlay config' secret) = Some sc' -> configure_tls (sc_tls sc') w = (Ok l, w') ->
  exists versions suites a, l = EnforcedTls versions suites a /\
    (tp_min_version profile = "VersionTLS12" /\ versions = [TLS12; TLS13] \/
     tp_min_version profile = "VersionTLS13" /\ versions = [TLS13]) /\
    forall s, s ∈ suites -> cs_version s = TLS13 \/
      cs_version s = TLS12 /\ tp_min_version profile = "VersionTLS12" /\
      (profile_suites profile <> [] -> exists name, name ∈ tp_usable profile /\ cs_name s = Some name).
Proof using CL toml_roundtrip.
  intros Hc Hi Hv Hsh Hcs Hsec Hsc Hi' Hp Hd Ht.
  destruct (service_configuration _ _ _ _ _ _ _ _ _ _ Hc Hi Hv Hsh Hcs Hsec Hsc) as (v2 & d2 & c2 & sc2 & Hi2 & Hp2 & Hd2 & Hpr).
  rewrite Hi' in Hi2. injection Hi2 as <-. rewrite Hp in Hp2. injection Hp2 as <- <-. rewrite Hd in Hd2. injection Hd2 as <-.
  apply tls_policy in Ht. rewrite (pj_tls _ _ _ _ _ _ Hpr) in Ht. cbn in Ht.
  destruct Ht as (versions & suites & a & -> & _ & _ & Hver & Hsuites & _ & _). exists versions, suites, a.
  split; [done|]. split; [done|]. intros s Hs. apply Hsuites in Hs as [_ [H13|(H12 & Hmin & Hnames)]]; [by left|right].
  cbn in Hmin, Hnames. injection Hmin as Hmin. split; [done|]. split; [done|].
  intros Hne. destruct (profile_suites profile) as [|x r] eqn:Hps; [done|].
  destruct (Hnames _ eq_refl) as (name & Hname & Hcs'). exists name. split; [|done]. rewrite <- Hps in Hname.
  unfold profile_suites in Hname. destruct (tp_tls13 profile); [by apply not_elem_of_nil in Hname|].
  apply list_elem_of_In, filter_In in Hname as [Hname _]. by apply list_elem_of_In.
Qed.
End Service.
End Projection.

(** * Tracing *)

(** The value a container's process sees for a variable: the last entry of that name. *)
Definition env_value (k : string) (env : list json) : option string :=
  last (omap (fun e => if String.eqb (field_str "name" e) k then v ← jget "value" e; as_str v else None) env).

Definition nonblank (s : string) : option string := if is_empty (trim s) then None else Some (trim s).

(** What the services should make of the resource's settings. *)
Definition trace_config (trace : option Operator.Trace) : TraceConfig :=
  match trace with
  | None => {| tr_endpoint := None; Observability.tr_insecure := false; Observability.tr_certificate := None |}
  | Some t => {| tr_endpoint := nonblank (tr_exporter t);
                 Observability.tr_insecure := bool_decide (Operator.tr_insecure t = Some true);
                 Observability.tr_certificate := nonblank (Operator.tr_certificate t) |}
  end.

Lemma foreign_env_value k env : k ∈ otlp_vars -> env_value k (List.filter foreign_env env) = None.
Proof.
  intros Hk. unfold env_value. assert (H : omap (fun e => if String.eqb (field_str "name" e) k then v ← jget "value" e; as_str v else None)
    (List.filter foreign_env env) = []); [|by rewrite H].
  induction env as [|e env IH]; [done|]. cbn [List.filter]. destruct (foreign_env e) eqn:He; [|done]. cbn.
  destruct (String.eqb_spec (field_str "name" e) k) as [Hn|_]; [|exact IH].
  destruct e as [| | | | |m]; try exact IH. unfold foreign_env in He. rewrite Hn, bool_decide_true in He by done. done.
Qed.

Lemma entries_value k vars : env_value k (env_entry <$> vars) = last (omap (fun v => if String.eqb v.1 k then Some v.2 else None) vars).
Proof.
  unfold env_value. f_equal. induction vars as [|v vars IH]; [done|].
  assert (Hn : field_str "name" (env_entry v) = v.1) by reflexivity.
  assert (Hv : (x ← jget "value" (env_entry v); as_str x) = Some v.2) by reflexivity.
  rewrite fmap_cons. cbn [omap list_omap]. rewrite Hn, Hv. by destruct (String.eqb v.1 k); rewrite <- IH.
Qed.

Lemma app_value k env env' : env_value k env = None -> env_value k (env ++ env') = env_value k env'.
Proof.
  unfold env_value. rewrite omap_app. intros H. apply last_None in H as ->. done.
Qed.

(** The entries of a container after tracing was reconciled. *)
Lemma trace_container_value trace m k :
  k ∈ otlp_vars ->
  env_value k (array_or_nil "env" (trace_container (traceEnv trace) m)) =
  last (omap (fun v => if String.eqb v.1 k then Some v.2 else None) (traceEnv trace)).
Proof.
  intros Hk. unfold trace_container. set (env := array_or_nil "env" m). set (new := List.filter foreign_env env ++ _).
  assert (Hnew : env_value k new = last (omap (fun v => if String.eqb v.1 k then Some v.2 else None) (traceEnv trace)))
    by (unfold new; by rewrite app_value, entries_value by (by apply foreign_env_value)).
  destruct (negb _ || negb _) eqn:Hc.
  - rewrite <- Hnew. unfold array_or_nil. rewrite lookup_insert_eq. by destruct new.
  - apply orb_false_iff in Hc as [Hlen%negb_false_iff%Nat.eqb_eq Hdes%negb_false_iff%Nat.eqb_eq].
    rewrite <- Hnew. fold env. f_equal. unfold new in *. apply nil_length_inv in Hdes. rewrite Hdes in *. cbn in *.
    rewrite app_nil_r in *. clear -Hlen. induction env as [|e env IH]; [done|]. cbn in *.
    destruct (foreign_env e); cbn in *; [f_equal; apply IH; lia|]. pose proof (filter_length_le foreign_env env). lia.
Qed.

(** Tracing is configured as the resource says, and no more. In a service's
    container, after the controller reconciled its tracing variables, the service reads
    the exporter's endpoint, whether transport security is off, and the certificate
    exactly as the resource has them, whatever variables of these names the manifests
    or an earlier resource set; without tracing in the resource nothing is exported. *)
Theorem trace_settings_projected trace m :
  from_vars (fun k => env_value k (array_or_nil "env" (trace_container (traceEnv trace) m))) = trace_config trace.
Proof.
  unfold from_vars. rewrite !trace_container_value by (unfold otlp_vars; set_solver).
  destruct trace as [[exporter insecure certificate]|]; [|done].
  unfold trace_config, nonblank, traceEnv. cbn [tr_exporter Operator.tr_insecure Operator.tr_certificate].
  assert (Hempty : forall s, is_empty s = true -> is_empty (trim s) = true) by (by intros []).
  destruct (is_empty exporter) eqn:He, (is_empty certificate) eqn:Hc, insecure as [[]|]; cbn;
    rewrite ?(Hempty _ He), ?(Hempty _ Hc); done.
Qed.
