(* ===== verification/ProjectionSample.v ===== *)
(** A resource, rendered resources and a configuration, on which the theorems of
    [Projection] are used. *)
From S2P Require Import Prelude Text Json JsonCode Cluster Api Flight Startup RestStartup Settings Watchers Operator Manifests ManifestsProps Projection.
From Stdlib Require Import NArith ZArith.

#[local] Instance sample_crate : ConfigCrate := {|
  overlay b s := s ∪ b;
  de_bool := as_bool;
  de_uint bound v := n ← as_u64 v; if (n <=? bound)%N then Some n else None;
  de_str := as_str
|}.

#[local] Instance sample_laws : ConfigLaws.
Proof.
  split; cbn; [| |done| |done].
  - intros b s k Hk. by apply lookup_union_r.
  - intros b b' s k Hk. rewrite !lookup_union. by rewrite Hk.
  - intros bound n Hn. by rewrite (proj2 (N.leb_le n bound)).
Qed.

Definition sample_marshal (v : json) : result string string := Ok (code v).
Definition sample_unmarshal (s : string) : result string (option (gmap string json)) :=
  match uncode s with Some (JObject m) => Ok (Some m) | _ => Err "not a table" end.

Lemma sample_roundtrip c t : sample_marshal (JObject c) = Ok t -> sample_unmarshal t = Ok (Some c).
Proof. unfold sample_marshal, sample_unmarshal. intros [= <-]. by rewrite uncode_code. Qed.

Definition str (k v : string) : string * option json := (k, Some (JString v)).
Definition sub (k : string) (l : list (string * option json)) : string * option json := (k, Some (obj l)).
Definition num (k : string) (n : N) : string * option json := (k, Some (JNumber (PosInt n))).

Definition sample_config : gmap string json := fields
  [sub "server" [str "address" "0.0.0.0"; num "port" 8443];
   sub "ingestion_cache_pools" [num "max_capacity" 50; num "ttl_secs" 30; num "idle_secs" 30];
   sub "tls" [str "cert_file" "/tls/tls.crt"; str "key_file" "/tls/tls.key"];
   sub "auth" [("enabled", Some (JBool true))];
   sub "global-connection-types" [str "tenant-id" "opendatahub"]].
Definition sample_secret : gmap string json := fields [sub "database" [str "url" "postgresql://db"]].

Definition sample_resources : list json :=
  [obj [str "kind" "ServiceAccount"; sub "metadata" [str "name" "dch-rest-service-sa"]];
   obj [str "kind" "ConfigMap"; sub "metadata" [str "name" "dch-flight-service-config"; sub "labels" [str labelAppName nameFlightService]];
        sub "data" [str "config.toml" (code (JObject sample_config))]]].

Definition sample_override : ConnectorOverride :=
  {| co_name := "postgres"; co_enabled := Some true; co_connection_timeout := Some {| nanoseconds := 5000000000 |};
     co_request_timeout := None; co_read_timeout := None |}.

Definition sample_service : DataConnectService := {|
  dcs_meta := {| om_name := "hub"; om_namespace := "data"; om_uid := "u"; om_generation := 1; om_deleting := false;
                 om_finalizers := []; om_owners := []; om_labels := ∅; om_annotations := ∅ |};
  dcs_spec := {| ds_rest := None;
                 ds_flight := Some {| so_replicas := None; so_resources := None; so_pull_policy := None; so_env := [];
                                      so_env_from := []; so_volumes := []; so_volume_mounts := [];
                                      so_connectors := [sample_override] |};
                 ds_audiences := Some ["api"]; ds_gateway := None; ds_trace := None |};
  dcs_status := {| st_observed := 0; st_distribution := {| dist_name := ""; dist_version := "" |}; st_releases := [];
                   st_phase := ""; st_addresses := []; st_http_route := ""; st_gateway := None; st_conditions := [] |}
|}.

Definition sample_platform : platformConfig := platform_config "dev" ∅.
Definition sample_profile : TLSProfile :=
  {| tp_tls13 := false; tp_min_version := "VersionTLS12"; tp_ciphers := ["ECDHE"]; tp_usable := ["SUITE-A"];
     tp_proxy_ciphers := "SUITE-A" |}.

Definition sample_configured : list json :=
  match configure sample_unmarshal sample_marshal sample_service sample_platform sample_profile sample_resources with
  | Ok rs => rs
  | Err _ => []
  end.
Definition sample_configmap : json := default JNull (sample_configured !! 1).
Definition sample_written : gmap string json * gmap string string :=
  match parseConfigMapTOML sample_unmarshal sample_configmap with Ok (Some c, d) => (c, d) | _ => (∅, ∅) end.

Definition sample_shipped : option ServerConfig := flight_config_decode (overlay sample_config sample_secret).

Definition sample_source (f : string) : M unit string (option (gmap string json)) :=
  mret (Some (if String.eqb f "config" then sample_written.1 else sample_secret)).

Lemma sample_flight : flight_configmap sample_unmarshal (default JNull (sample_resources !! 1)) sample_config.
Proof.
  split; [by vm_compute|by vm_compute| |].
  - eexists. split; [vm_compute; reflexivity|by vm_compute].
  - eexists _, _. split; [vm_compute; reflexivity|]. split; [vm_compute; reflexivity|]. split; vm_compute; reflexivity.
Qed.

Lemma sample_is_shipped : shipped sample_config.
Proof. split; eexists; [vm_compute; reflexivity..|split; vm_compute; reflexivity]. Qed.

Lemma sample_valid : valid_overrides (connector_overrides sample_service).
Proof.
  split; cbn; [apply NoDup_singleton|set_solver|].
  intros c d ->%list_elem_of_singleton. cbn. intros ->%list_elem_of_singleton. unfold int64_duration. cbn. lia.
Qed.

Lemma sample_secret_keys k : k ∈ projected_keys -> sample_secret !! k = None.
Proof. unfold projected_keys. rewrite !elem_of_cons. intros [->|[->|[->|[->|Hk]]]]; try done. by apply not_elem_of_nil in Hk. Qed.

Lemma configuration_projected_witness :
  exists sc', load_flight_config sample_source "config" "secret" tt = (Ok sc', tt) /\
    connection_timeout_secs (connector_config (sc_connectors sc') PPostgres) = 5%N /\
    sc_global_tenant_id sc' = "data" /\
    discovery_service_account (sc_auth sc') = "system:serviceaccount:data:dch-rest-service-sa".
Proof.
  destruct sample_shipped as [sc|] eqn:Hsc; [|vm_compute in Hsc; discriminate Hsc].
  edestruct (configuration_projected sample_unmarshal sample_marshal sample_roundtrip sample_service sample_platform
    sample_profile sample_resources sample_configured 1 (default JNull (sample_resources !! 1)) sample_config sample_secret sc
    sample_source "config" "secret" tt tt tt sample_configmap sample_written.1 sample_written.2) as (sc' & Hl & Hp).
  - vm_compute. reflexivity.
  - reflexivity.
  - exact sample_flight.
  - exact sample_is_shipped.
  - exact sample_valid.
  - exact sample_secret_keys.
  - exact Hsc.
  - vm_compute. reflexivity.
  - vm_compute. reflexivity.
  - reflexivity.
  - reflexivity.
  - exists sc'. split; [exact Hl|]. rewrite (pj_connectors _ _ _ _ _ _ Hp), (pj_tenant _ _ _ _ _ _ Hp), (pj_account _ _ _ _ _ _ Hp).
    split; [|split]; reflexivity.
Defined.

#[local] Instance sample_tls_lib : TlsLib unit := {|
  Cert := unit; Key := unit; Acceptor := unit; TonicTls := unit;
  pem_file_iter _ := mret [Ok tt];
  key_from_pem_file _ := mret tt;
  provider_suites := [{| cs_version := TLS12; cs_id := 1; cs_name := Some "SUITE-A" |};
                      {| cs_version := TLS12; cs_id := 2; cs_name := Some "SUITE-B" |};
                      {| cs_version := TLS13; cs_id := 3; cs_name := Some "SUITE-C" |}];
  server_config _ _ _ _ := Ok tt;
  read_file _ := mret "";
  tonic_tls _ _ := Ok tt
|}.

Definition sample_running : option ServerConfig := flight_config_decode (overlay sample_written.1 sample_secret).

Lemma cluster_profile_enforced_witness :
  exists sc versions suites a w, sample_running = Some sc /\
    configure_tls (sc_tls sc) tt = (Ok (EnforcedTls versions suites a), w) /\ versions = [TLS12; TLS13] /\
    forall s, s ∈ suites -> cs_version s = TLS12 -> cs_name s = Some "SUITE-A".
Proof.
  destruct sample_shipped as [sc|] eqn:Hsc; [|vm_compute in Hsc; discriminate Hsc].
  destruct sample_running as [sc'|] eqn:Hsc'; [|vm_compute in Hsc'; discriminate Hsc'].
  destruct (configure_tls (sc_tls sc') tt) as [[l|e] w] eqn:Hl; [|revert Hl].
  2: { assert (Hs : Some sc' = sample_running) by done. vm_compute in Hs. injection Hs as ->. vm_compute. discriminate. }
  edestruct (cluster_profile_enforced sample_unmarshal sample_marshal sample_roundtrip sample_service sample_platform
    sample_profile sample_resources sample_configured 1 (default JNull (sample_resources !! 1)) sample_config sample_secret sc
    tt l w sample_configmap sample_written.1 sample_written.2 sc') as (versions & suites & a & -> & Hver & Hsuites).
  - vm_compute. reflexivity.
  - reflexivity.
  - exact sample_flight.
  - exact sample_is_shipped.
  - exact sample_valid.
  - exact sample_secret_keys.
  - exact Hsc.
  - vm_compute. reflexivity.
  - vm_compute. reflexivity.
  - exact Hsc'.
  - exact Hl.
  - exists sc', versions, suites, a, w. split; [reflexivity|]. split; [exact Hl|].
    destruct Hver as [[_ ->]|[Hv _]]; [|discriminate Hv]. split; [reflexivity|]. intros s Hs H12.
    apply Hsuites in Hs as [H13|(_ & _ & Hs)]; [congruence|]. destruct Hs as (name & Hname & ->); [by vm_compute|].
    by apply list_elem_of_singleton in Hname as ->.
Defined.
