(* ===== verification/OperatorProps.v ===== *)
(** What the DataConnectService reconciler does to the cluster, as properties of the
    calls it makes and their answers: when it reports the service ready, when it gives
    up its finalizer, and that it comes back to a service that lives. With examples of
    what it does in corner cases. *)
From S2P Require Import Prelude Text Json Cluster History ControllerRest Watchers Operator.

(** ** The calls *)

Inductive Event : Type :=
| OnService (c : Call DataConnectService)
| OnSecret (c : Call KubeSecret)
| OnConfigMap (c : Call ConfigMap)
| OnType (c : Call InitDataConnectionType)
| OnDeployment (c : Call Deployment)
| OnRole (c : Call ClusterRole)
| OnBinding (c : Call ClusterRoleBinding)
| Read (kind namespace name : string) (r : result KubeError json)
| ReadAll (kind namespace : string) (r : result KubeError (list json))
| Applied (cr : DataConnectService) (cfg : platformConfig) (r : result KubeError unit)
| Registered (tenant : string) (fs : FlightServiceRegistration) (r : result ClientError unit).

Section Recorded.
Context {W : Type}.
Context `{KD : !Kube W DataConnectService} `{KS : !Kube W KubeSecret} `{KC : !Kube W ConfigMap}.
Context `{KI : !Kube W InitDataConnectionType} `{KP : !Kube W Deployment} `{KR : !Kube W ClusterRole}.
Context `{KB : !Kube W ClusterRoleBinding} `{UN : !Unstructured W}.
Variable build : string.
Variable reconcileManifests : DataConnectService -> platformConfig -> M W KubeError unit.
Variable read_dir : M W string (list (string * bool)).
Variable read_file : string -> M W string string.
Variable yaml_unmarshal : string -> option connectionTypeFile.
Variable flight_client : option (FlightServiceClient W).

Abbreviation S := (W * list Event)%type.

#[local] Instance recorded_service : Kube S DataConnectService := recording OnService KD.
#[local] Instance recorded_secret : Kube S KubeSecret := recording OnSecret KS.
#[local] Instance recorded_configmap : Kube S ConfigMap := recording OnConfigMap KC.
#[local] Instance recorded_type : Kube S InitDataConnectionType := recording OnType KI.
#[local] Instance recorded_deployment : Kube S Deployment := recording OnDeployment KP.
#[local] Instance recorded_role : Kube S ClusterRole := recording OnRole KR.
#[local] Instance recorded_binding : Kube S ClusterRoleBinding := recording OnBinding KB.
#[local] Instance recorded_unstructured : Unstructured S := {|
  u_get kind ns n := recorded (fun r => Read kind ns n r) (u_get kind ns n);
  u_list kind ns := recorded (fun r => ReadAll kind ns r) (u_list kind ns)
|}.

Definition recorded_manifests (cr : DataConnectService) (cfg : platformConfig) : M S KubeError unit :=
  recorded (Applied cr cfg) (reconcileManifests cr cfg).
Definition recorded_flight : option (FlightServiceClient S) :=
  match flight_client with
  | Some client => Some (fun tenant fs => recorded (Registered tenant fs) (client tenant fs))
  | None => None
  end.

(** The reconciler over a cluster whose calls are recorded. *)
Definition observed_reconcile : Reconciler S :=
  dcs_reconcile build recorded_manifests (unrecorded read_dir) (fun f => unrecorded (read_file f)) yaml_unmarshal
    recorded_flight.

(** Calls other than writing the resource itself. *)
Definition routine (e : Event) : Prop :=
  match e with OnService (Update _ _) | OnService (UpdateStatus _ _) => False | _ => True end.

Section Routine.
Variable ok : list Event -> Event -> Prop.
Hypothesis routine_ok : forall e, routine e -> free ok e.

Abbreviation freely := (freely (W := W) ok).

Ltac routine_steps :=
  repeat first
    [ apply steps_mseq; [exact _| |intros ?] | apply steps_attempt | apply steps_map_err | apply steps_for_each; [exact _|intros ?]
    | apply steps_mret; exact _ | apply steps_throw; exact _ | apply unrecorded_freely
    | apply recorded_freely; intros ?; by apply routine_ok
    | case_match ].

Lemma validate_freely ns : steps freely (validateDatabaseSecret ns).
Proof. unfold validateDatabaseSecret. routine_steps. Qed.
Lemma platform_freely ns : steps freely (readPlatformConfig build ns).
Proof. unfold readPlatformConfig. routine_steps. Qed.
Lemma manifests_freely cr cfg : steps freely (recorded_manifests cr cfg).
Proof. unfold recorded_manifests. routine_steps. Qed.
Lemma ensure_freely cr :
  steps freely (ensureInitDataConnectionTypes (unrecorded read_dir) (fun f => unrecorded (read_file f)) yaml_unmarshal cr).
Proof. unfold ensureInitDataConnectionTypes, ensure_type, logged. routine_steps. Qed.
Lemma pending_freely ns uid : steps freely (pendingDeployments ns uid).
Proof. unfold pendingDeployments. routine_steps. Qed.
Lemma register_freely cr : steps freely (registerFlightService recorded_flight cr).
Proof. unfold registerFlightService, recorded_flight. destruct flight_client; cbn; routine_steps. Qed.
Lemma gateway_freely cfg cr : steps freely (gatewayStatus cfg cr).
Proof. unfold gatewayStatus, resolveGatewayHostname, gatewayRouteHost. routine_steps. Qed.
Lemma http2_freely : steps freely http2Enabled.
Proof. unfold http2Enabled. routine_steps. Qed.
Lemma grpc_freely cr : steps freely (checkGRPCGatewaySupport cr).
Proof.
  unfold checkGRPCGatewaySupport. apply steps_mseq; [exact _|apply http2_freely|]. intros h. apply steps_mret; exact _.
Qed.
Lemma clear_freely : steps freely clearSyncedAnnotations.
Proof. unfold clearSyncedAnnotations, clear_configmap, clear_secret, logged. routine_steps. Qed.
Lemma delete_types_freely ns : steps freely (deleteInitDataConnectionTypes ns).
Proof. unfold deleteInitDataConnectionTypes, logged. routine_steps. Qed.
Lemma delete_owned_freely {A} (K : Kube W A) (event : Call A -> Event) kind meta uid l :
  (forall c, routine (event c)) -> steps freely (delete_owned (Kube0 := recording event K) kind meta uid l).
Proof. intros He. induction l as [|a l IH]; cbn [delete_owned]; routine_steps; done. Qed.
Lemma delete_cluster_freely uid : steps freely (deleteClusterScopedResources uid).
Proof. unfold deleteClusterScopedResources. routine_steps; by apply delete_owned_freely. Qed.
End Routine.

(** ** Status *)

Definition condition (t : string) (cr : DataConnectService) : option ConditionStatus :=
  c_status <$> find_condition t (st_conditions (dcs_status cr)).
Definition reports_ready (cr : DataConnectService) : Prop := condition conditionTypeReady cr = Some ConditionTrue.

(** The phase and the conditions agree. *)
Record consistent (cr : DataConnectService) : Prop := {
  phase_is_ready : reports_ready cr <-> st_phase (dcs_status cr) = "Ready";
  ready_not_degraded : reports_ready cr -> condition conditionTypeDegraded cr = Some ConditionFalse;
  ready_provisioned : reports_ready cr -> condition conditionTypeProvisioningSucceeded cr = Some ConditionTrue;
  ready_gateway : reports_ready cr -> condition conditionTypeGRPCGatewaySupported cr <> Some ConditionFalse;
  observed_generation : st_observed (dcs_status cr) = om_generation (dcs_meta cr)
}.

(** No answer so far says that the ingress has HTTP/2 disabled: it is on somewhere, or
    neither place could be read. *)
Definition http2_not_disabled (t : list Event) : Prop :=
  (exists v, Read "Ingress" "" "cluster" (Ok v) ∈ t /\ http2_on v = true) \/
  (exists l v, ReadAll "IngressController" "openshift-ingress-operator" (Ok l) ∈ t /\ v ∈ l /\ http2_on v = true) \/
  (exists e e', Read "Ingress" "" "cluster" (Err e) ∈ t /\
                ReadAll "IngressController" "openshift-ingress-operator" (Err e') ∈ t).

Definition in_namespace (ns : string) : Selector :=
  {| sel_namespace := Some ns; sel_labels := [(labelManagedBy, Some managedByDCHService)] |}.

(** What has to have been answered before the resource [live] is reported ready: first
    up to the manifests, *)
Record groundwork (key : string * string) (t : list Event) (live : DataConnectService) : Prop := {
  resource_read : OnService (Get key.1 key.2 (Ok live)) ∈ t;
  not_deleting : om_deleting (dcs_meta live) = false;
  database_secret : exists s, OnSecret (Get (om_namespace (dcs_meta live)) nameDatabaseConfig (Ok s)) ∈ t /\
    trim (go_get nameSecretConfigTOML (ks_data s)) <> "";
  manifests_applied : exists cfg r, Applied live cfg r ∈ t /\
    match r with Ok _ => True | Err e => reason e = IsNoMatch end
}.

(** then about the workload. *)
Record evidence (key : string * string) (t : list Event) (live : DataConnectService) : Prop := {
  prepared : groundwork key t live;
  deployments_ready : exists ds, OnDeployment (Listed (in_namespace (om_namespace (dcs_meta live))) (Ok ds)) ∈ t /\
    forall d, d ∈ ds -> isOwnedBy (om_uid (dcs_meta live)) (dp_meta d) = true -> deployment_ready d = true;
  flight_registered : flight_client <> None ->
    exists r, Registered (om_namespace (dcs_meta live)) (flight_registration live) r ∈ t /\
              match r with Ok _ => True | Err e => e = ErrConflict end;
  gateway_carries_grpc : http2_not_disabled t
}.

(** A status that is written is consistent, and says ready only with the evidence for
    the resource the reconcile read. *)
Definition honest (key : string * string) (t : list Event) (e : Event) : Prop :=
  match e with
  | OnService (UpdateStatus cr _) => consistent cr /\ (reports_ready cr -> exists live, evidence key t live)
  | _ => True
  end.

Lemma honest_routine key e : routine e -> free (honest key) e.
Proof. destruct e as [[]| | | | | | | | | |]; done. Qed.

(** *** Conditions *)

Lemma find_set_condition t c l :
  find_condition t (set_condition c l) = if String.eqb (c_type c) t then Some c else find_condition t l.
Proof.
  unfold find_condition. induction l as [|d l IH]; cbn; [done|].
  destruct (String.eqb_spec (c_type d) (c_type c)) as [Hd|Hd]; cbn.
  - rewrite Hd. by destruct (String.eqb (c_type c) t).
  - rewrite IH. destruct (String.eqb_spec (c_type d) t) as [<-|]; [|done]. by apply not_eq_sym, String.eqb_neq in Hd as ->.
Qed.

Lemma find_remove_condition t t' l :
  find_condition t (remove_condition t' l) = if String.eqb t' t then None else find_condition t l.
Proof.
  unfold find_condition, remove_condition. induction l as [|d l IH]; cbn; [by destruct (String.eqb t' t)|].
  destruct (String.eqb_spec (c_type d) t') as [<-|Hd]; cbn; [rewrite IH; by destruct (String.eqb (c_type d) t)|].
  rewrite IH. destruct (String.eqb_spec (c_type d) t); [|done]. destruct (String.eqb_spec t' t); [congruence|done].
Qed.

Lemma condition_set t t' status why message cr :
  condition t (setCondition t' status why message cr) = if String.eqb t' t then Some status else condition t cr.
Proof.
  unfold condition, setCondition, with_dcs_status, with_conditions. cbn [dcs_status st_conditions].
  rewrite find_set_condition. cbn [c_type]. by destruct (String.eqb t' t).
Qed.

Lemma condition_unknown t cr :
  condition t (apply_http2 false false cr) =
  if String.eqb conditionTypeGRPCGatewaySupported t then None else condition t cr.
Proof.
  unfold condition, apply_http2, with_dcs_status, with_conditions. cbn [negb dcs_status st_conditions].
  rewrite find_remove_condition. by destruct (String.eqb _ t).
Qed.

(** *** The statuses the reconciler makes *)

Definition failed_status (cfg : platformConfig) (why message : string) (provisioned : ConditionStatus)
    (provisioned_why provisioned_message : string) (cr : DataConnectService) : DataConnectService :=
  setCondition conditionTypeProvisioningSucceeded provisioned provisioned_why provisioned_message
    (setCondition conditionTypeReady ConditionFalse why message
      (setCondition conditionTypeDegraded ConditionTrue why message (begin_status build "Error" cfg cr))).

(** A status that does not say ready, in a phase that is not ready, is consistent. *)
Lemma not_ready_honest key t cr r :
  condition conditionTypeReady cr = Some ConditionFalse -> st_phase (dcs_status cr) <> "Ready" ->
  st_observed (dcs_status cr) = om_generation (dcs_meta cr) -> honest key t (OnService (UpdateStatus cr r)).
Proof.
  intros Hr Hp Ho. assert (~ reports_ready cr) by (unfold reports_ready; congruence).
  split; [split|]; done.
Qed.

Lemma failed_honest key t cfg why message p pw pm cr r :
  honest key t (OnService (UpdateStatus (failed_status cfg why message p pw pm cr) r)).
Proof. apply not_ready_honest; [|done|done]. unfold failed_status. by rewrite !condition_set. Qed.

Lemma http2_phase enabled known cr :
  st_phase (dcs_status (apply_http2 enabled known cr)) =
  if known && negb enabled && String.eqb (st_phase (dcs_status cr)) "Ready" then "Not Ready" else st_phase (dcs_status cr).
Proof.
  unfold apply_http2. destruct known, enabled; cbn; try done. unfold conditionTypeReady.
  by destruct (String.eqb (st_phase (dcs_status cr)) "Ready").
Qed.

Lemma http2_condition t enabled known cr :
  condition t (apply_http2 enabled known cr) =
  if known then
    if String.eqb conditionTypeGRPCGatewaySupported t then Some (if enabled then ConditionTrue else ConditionFalse)
    else if negb enabled && String.eqb conditionTypeDegraded t then Some ConditionTrue
    else if negb enabled && String.eqb conditionTypeReady t then Some ConditionFalse
    else condition t cr
  else if String.eqb conditionTypeGRPCGatewaySupported t then None else condition t cr.
Proof.
  destruct known; [|destruct enabled; apply condition_unknown].
  destruct enabled; cbn [apply_http2 negb andb]; [apply condition_set|].
  set (cr' := setCondition conditionTypeReady _ _ _ _).
  assert (Hc : condition t (if String.eqb (st_phase (dcs_status cr')) conditionTypeReady then set_phase "Not Ready" cr' else cr')
               = condition t cr') by by case_match.
  rewrite Hc. unfold cr'. rewrite !condition_set.
  destruct (String.eqb_spec conditionTypeReady t) as [<-|]; [done|].
  destruct (String.eqb_spec conditionTypeDegraded t) as [<-|]; done.
Qed.

(** What [updateStatus] filled in and the later changes leave alone. *)
Definition same_head (cr c : DataConnectService) : Prop :=
  dcs_meta c = dcs_meta cr /\ st_phase (dcs_status c) = st_phase (dcs_status cr) /\
  st_observed (dcs_status c) = st_observed (dcs_status cr).

Lemma gateway_head cfg cr s c x s' : gatewayStatus cfg cr s = (Ok (c, x), s') -> same_head cr c.
Proof.
  unfold gatewayStatus. intros H. apply mseq_ok in H as (r & s1 & _ & H). injection H as Hc _.
  destruct r; injection Hc as <- _; done.
Qed.

Lemma http2_observed enabled known cr :
  st_observed (dcs_status (apply_http2 enabled known cr)) = st_observed (dcs_status cr) /\
  dcs_meta (apply_http2 enabled known cr) = dcs_meta cr.
Proof. unfold apply_http2. destruct known, enabled; cbn; try done. by case_match. Qed.

Lemma waiting_honest key t cfg cr g msg enabled known r :
  same_head (begin_status build "Progressing" cfg cr) g ->
  honest key t (OnService (UpdateStatus (apply_http2 enabled known (waiting msg g)) r)).
Proof.
  intros (Hm & Hp & Ho). destruct (http2_observed enabled known (waiting msg g)) as [H1 H2]. apply not_ready_honest.
  - rewrite http2_condition. unfold waiting. rewrite !condition_set. by destruct known, enabled.
  - rewrite http2_phase. cbn. rewrite Hp. cbn. by rewrite andb_false_r.
  - rewrite H1, H2. cbn. by rewrite Ho, Hm.
Qed.

Lemma all_ready_consistent cfg cr g enabled known :
  same_head (begin_status build "Ready" cfg cr) g -> consistent (apply_http2 enabled known (all_ready g)).
Proof.
  intros (Hm & Hp & Ho). destruct (http2_observed enabled known (all_ready g)) as [H1 H2].
  assert (Hphase : st_phase (dcs_status (all_ready g)) = "Ready") by (cbn; by rewrite Hp).
  split; unfold reports_ready; rewrite ?http2_condition, ?http2_phase, ?Hphase; unfold all_ready; rewrite ?condition_set.
  1-4: by destruct known, enabled.
  unfold all_ready in H1, H2. rewrite H1, H2. cbn. by rewrite Ho, Hm.
Qed.

(** The status says ready only when HTTP/2 is not known to be disabled. *)
Lemma all_ready_http2 g enabled known :
  reports_ready (apply_http2 enabled known (all_ready g)) -> known = true -> enabled = true.
Proof.
  unfold reports_ready. rewrite http2_condition. unfold all_ready. rewrite !condition_set.
  by destruct known, enabled.
Qed.

(** *** The answers behind a result *)

Lemma attempt_ok {E F A} (m : M S E A) s (r : result E A) s' : attempt (F := F) m s = (Ok r, s') -> m s = (r, s').
Proof. unfold attempt. destruct (m s). by intros [= <- <-]. Qed.

Lemma http2_evidence s h s' : http2Enabled s = (Ok h, s') -> (h.2 = true -> h.1 = true) -> http2_not_disabled s'.2.
Proof.
  unfold http2Enabled. intros H Hh.
  apply mseq_ok in H as (ingress & s1 & H1 & H). apply attempt_ok, recorded_in in H1.
  assert (Hlist : forall l s2, attempt (F := KubeError) (u_list "IngressController" "openshift-ingress-operator") s1 = (Ok l, s2) ->
    ReadAll "IngressController" "openshift-ingress-operator" l ∈ s2.2 /\ Read "Ingress" "" "cluster" ingress ∈ s2.2).
  { intros l s2 H2. apply attempt_ok in H2. split; [by apply recorded_in in H2|].
    apply recorded_snoc in H2. rewrite H2. apply elem_of_app. by left. }
  destruct ingress as [v|e].
  - destruct (http2_on v) eqn:Hv; [injection H as <- <-; left; eauto|].
    apply mseq_ok in H as (l & s2 & H2 & H). apply Hlist in H2 as [Hl _].
    destruct l as [l|]; injection H as <- <-; cbn in Hh; specialize (Hh eq_refl); [|done].
    right; left. apply existsb_exists in Hh as (x & Hx%list_elem_of_In & Hon). eauto.
  - apply mseq_ok in H as (l & s2 & H2 & H). apply Hlist in H2 as [Hl Hi].
    destruct l as [l|e']; injection H as <- <-; [|right; right; eauto].
    cbn in Hh. specialize (Hh eq_refl). right; left.
    apply existsb_exists in Hh as (x & Hx%list_elem_of_In & Hon). eauto.
Qed.

Lemma secret_evidence ns s s' :
  validateDatabaseSecret ns s = (Ok tt, s') ->
  exists x, OnSecret (Get ns nameDatabaseConfig (Ok x)) ∈ s'.2 /\ trim (go_get nameSecretConfigTOML (ks_data x)) <> "".
Proof.
  unfold validateDatabaseSecret. intros H. apply mseq_ok in H as (r & s1 & H1 & H). apply attempt_ok, recorded_in in H1.
  destruct r as [x|e]; [|done]. exists x. destruct (trim _) eqn:Ht; cbn in H; [done|]. by injection H as <-.
Qed.

Lemma deployments_evidence ns uid s s' :
  pendingDeployments ns uid s = (Ok [], s') ->
  exists ds, OnDeployment (Listed (in_namespace ns) (Ok ds)) ∈ s'.2 /\
    forall d, d ∈ ds -> isOwnedBy uid (dp_meta d) = true -> deployment_ready d = true.
Proof.
  unfold pendingDeployments. intros H. apply mseq_ok in H as (ds & s1 & H1 & H).
  apply map_err_ok, recorded_in in H1. injection H as Hp <-. exists ds. split; [done|].
  intros d Hd Ho. apply fmap_nil_inv in Hp. destruct (deployment_ready d) eqn:Hr; [done|].
  assert (In d []) as []. rewrite <- Hp. apply filter_In. rewrite Ho, Hr. by apply list_elem_of_In in Hd.
Qed.

Lemma registration_evidence cr s s' :
  registerFlightService recorded_flight cr s = (Ok tt, s') -> flight_client <> None ->
  exists r, Registered (om_namespace (dcs_meta cr)) (flight_registration cr) r ∈ s'.2 /\
            match r with Ok _ => True | Err e => e = ErrConflict end.
Proof.
  unfold registerFlightService, recorded_flight. destruct flight_client as [client|]; [|done]. intros H _.
  apply mseq_ok in H as (r & s1 & H1 & H). apply attempt_ok, recorded_in in H1. exists r.
  destruct r as [|[]]; try done; by injection H as <-.
Qed.

(** *** The reconcile *)

Lemma updateStatus_justified {X} ok key cfg phase (mutate : DataConnectService -> M S KubeError (DataConnectService * X)) s r s' :
  (forall e, routine e -> free ok e) -> justified ok s.2 ->
  (forall cr, steps (freely ok) (mutate cr)) ->
  (forall cr s1 c x s2 ans, freely ok s s1 -> mutate (begin_status build phase cfg cr) s1 = (Ok (c, x), s2) ->
     ok s2.2 (OnService (UpdateStatus c ans))) ->
  updateStatus build key cfg phase mutate s = (r, s') -> justified ok s'.2.
Proof.
  intros Hroutine Hs Hfree Hok H. unfold updateStatus in H.
  assert (Hget : forall ns n, steps (freely (W := W) ok) (k_get (A := DataConnectService) ns n))
    by (intros; apply recorded_freely; intros; by apply Hroutine).
  apply mseq_cases in H as [(e & H & _)|(cr & s1 & H1 & H)].
  { eapply justified_freely, Hs. by eapply steps_run in H. }
  eapply steps_run in H1; [|apply Hget]. pose proof (justified_freely _ _ _ H1 Hs) as J1.
  apply mseq_cases in H as [(e & H & _)|([c x] & s2 & H2 & H)].
  { eapply justified_freely, J1. by eapply steps_run in H. }
  assert (Hc : forall ans, ok s2.2 (OnService (UpdateStatus c ans))) by eauto.
  eapply steps_run in H2; [|apply Hfree]. pose proof (justified_freely _ _ _ H2 J1) as J2.
  apply mseq_cases in H as [(e & H & _)|(a & s3 & H3 & H)]; [by apply (fails_attempt (fun _ => False)) in H|].
  apply attempt_ok, recorded_snoc in H3.
  assert (J3 : justified ok s3.2) by (rewrite H3; by apply justified_snoc). cbn in H.
  destruct a as [|e]; [injection H as _ <-; done|]. case_match; injection H as _ <-; done.
Qed.

Lemma failed_justified key cfg why message p pw pm s r s' :
  justified (honest key) s.2 -> failed build key cfg why message p pw pm s = (r, s') -> justified (honest key) s'.2.
Proof.
  intros Hs H. unfold failed in H. apply mseq_cases in H as [(e & H & _)|(a & s1 & H & Hr)].
  2: injection Hr as _ <-.
  all: eapply updateStatus_justified in H; eauto using honest_routine.
  all: try (intros; apply steps_mret; exact _).
  all: intros cr s2 c x s3 ans _ [= <- _ _]; apply failed_honest.
Qed.

(** The statuses that publish the gateway. *)
Lemma settled_justified key cfg phase set s r s' :
  justified (honest key) s.2 ->
  (forall cr s1 g h s2 ans, freely (honest key) s s1 -> same_head (begin_status build phase cfg cr) g ->
     http2Enabled s1 = (Ok h, s2) -> honest key s2.2 (OnService (UpdateStatus (apply_http2 h.1 h.2 (set g)) ans))) ->
  settled build key cfg phase set s = (r, s') -> justified (honest key) s'.2.
Proof.
  intros Hs Hset H. unfold settled in H. apply mseq_cases in H as [(e & H & _)|(a & s1 & H & Hr)].
  2: injection Hr as _ <-.
  all: eapply updateStatus_justified in H; eauto using honest_routine.
  1, 3: intros; apply steps_mseq; [exact _|apply gateway_freely, honest_routine|intros ?];
    apply steps_mseq; [exact _|apply grpc_freely, honest_routine|intros ?; apply steps_mret; exact _].
  all: intros cr s2 c x s3 ans Hfree Hm;
    apply mseq_ok in Hm as ([g y] & s4 & Hg & Hm); apply mseq_ok in Hm as (c' & s5 & Hh & Hm); injection Hm as -> _ ->;
    apply mseq_ok in Hh as (h & s6 & Hh & Hc); injection Hc as <- <-;
    eapply Hset; [|by eapply gateway_head|exact Hh]; etransitivity; [exact Hfree|];
    eapply steps_run in Hg; [exact Hg|apply gateway_freely, honest_routine].
Qed.

Lemma groundwork_freely key live (s s' : S) : freely (honest key) s s' -> groundwork key s.2 live -> groundwork key s'.2 live.
Proof.
  intros Hf [Hr Hd (x & Hx & Hx') (cfg & r & Ha & Ha')]. split; eauto using freely_elem.
Qed.

Definition workload (key : string * string) (cr : DataConnectService) (cfg : platformConfig) : M S KubeError Result :=
  reconcile_workload build (unrecorded read_dir) (fun f => unrecorded (read_file f)) yaml_unmarshal recorded_flight key cr cfg.

Lemma workload_justified key live cfg s r s' :
  justified (honest key) s.2 -> groundwork key s.2 live -> workload key live cfg s = (r, s') -> justified (honest key) s'.2.
Proof.
  intros Hs Hg H. unfold workload, reconcile_workload in H.
  pose proof (fun s s' => justified_freely (honest key) (W := W) s s') as Hj.
  pose proof (fun s s' => groundwork_freely key live s s') as Hgr.
  apply mseq_cases in H as [(e & H & _)|(a & s1 & H1 & H)].
  { eapply steps_run in H; [eauto|apply ensure_freely, honest_routine]. }
  eapply steps_run in H1; [|apply ensure_freely, honest_routine]. apply (Hj _ _ H1) in Hs. apply (Hgr _ _ H1) in Hg. clear H1 a s.
  apply mseq_cases in H as [(e & H & _)|(pending & s2 & H2 & H)]; [by apply (fails_attempt (fun _ => False)) in H|].
  apply attempt_ok in H2. pose proof (steps_run _ _ _ _ _ (pending_freely _ (honest_routine key) _ _) H2) as F2.
  apply (Hj _ _ F2) in Hs. apply (Hgr _ _ F2) in Hg.
  destruct pending as [[|n names]|e]; [| |by eapply failed_justified].
  2: { eapply settled_justified; [exact Hs| |exact H]. intros. by eapply waiting_honest. }
  apply deployments_evidence in H2 as (ds & Hds & Hready).
  apply mseq_cases in H as [(e & H & _)|(reg & s3 & H3 & H)]; [by apply (fails_attempt (fun _ => False)) in H|].
  apply attempt_ok in H3. pose proof (steps_run _ _ _ _ _ (register_freely _ (honest_routine key) _) H3) as F3.
  apply (Hj _ _ F3) in Hs. apply (Hgr _ _ F3) in Hg. apply (freely_elem _ _ _ _ F3) in Hds.
  destruct reg as [[]|e]; [|by eapply failed_justified].
  eapply settled_justified; [exact Hs| |exact H]. intros cr s4 g h s5 ans F4 Hhead Hh.
  split; [by eapply all_ready_consistent|]. intros Hrep. exists live.
  pose proof (steps_run _ _ _ _ _ (http2_freely _ (honest_routine key)) Hh) as F5.
  assert (F : freely (honest key) s3 s5) by (by etransitivity).
  split; [by eapply Hgr| | |eapply http2_evidence, all_ready_http2; [exact Hh|exact Hrep]].
  - exists ds. eauto using freely_elem.
  - intros Hc. eapply registration_evidence in H3 as (r' & Hr' & Hans); [|done]. eauto using freely_elem.
Qed.

Lemma finalize_honest key cr : steps (freely (W := W) (honest key)) (finalize cr).
Proof.
  unfold finalize. case_match; [|apply steps_mret; exact _].
  apply steps_mseq; [exact _|apply clear_freely, honest_routine|intros _].
  apply steps_mseq; [exact _|apply delete_types_freely, honest_routine|intros _].
  apply steps_mseq; [exact _|apply delete_cluster_freely, honest_routine|intros _].
  apply steps_mseq; [exact _|by apply recorded_freely|intros _]. apply steps_mret; exact _.
Qed.

Lemma add_finalizer_honest key cr : steps (freely (W := W) (honest key)) (add_finalizer cr).
Proof. unfold add_finalizer. case_match; [apply steps_mret; exact _|by apply recorded_freely]. Qed.

(** What follows for a resource that is not being deleted. *)
Definition observed_live (key : string * string) (cr : DataConnectService) : M S KubeError Result :=
  reconcile_live build recorded_manifests (unrecorded read_dir) (fun f => unrecorded (read_file f)) yaml_unmarshal
    recorded_flight key cr.

Lemma live_justified key live s r s' :
  justified (honest key) s.2 -> OnService (Get key.1 key.2 (Ok live)) ∈ s.2 -> om_deleting (dcs_meta live) = false ->
  observed_live key live s = (r, s') -> justified (honest key) s'.2.
Proof.
  intros J Hlive Hdel H. unfold observed_live, reconcile_live in H.
  pose proof (fun s s' => justified_freely (honest key) (W := W) s s') as Hj.
  apply mseq_cases in H as [(e & H & _)|(a & s1 & H1 & H)].
  { eapply (Hj s); [|done]. eapply steps_run; [|exact H]. apply add_finalizer_honest. }
  eapply steps_run in H1; [|apply (add_finalizer_honest key)].
  apply (Hj _ _ H1) in J. apply (freely_elem _ _ _ _ H1) in Hlive. clear H1.
  apply mseq_cases in H as [(e & H & _)|(cfg & s2 & H2 & H)].
  { eapply (Hj s1); [|done]. eapply steps_run; [|exact H]. apply platform_freely, honest_routine. }
  eapply steps_run in H2; [|apply (platform_freely _ (honest_routine key))].
  apply (Hj _ _ H2) in J. apply (freely_elem _ _ _ _ H2) in Hlive. clear H2.
  apply mseq_cases in H as [(e & H & _)|(db & s3 & H3 & H)]; [by apply (fails_attempt (fun _ => False)) in H|].
  apply attempt_ok in H3. pose proof (steps_run _ _ _ _ _ (validate_freely _ (honest_routine key) _) H3) as F3.
  apply (Hj _ _ F3) in J. apply (freely_elem _ _ _ _ F3) in Hlive.
  destruct db as [[]|e]; [|by eapply failed_justified]. apply secret_evidence in H3 as (x & Hx & Hx').
  apply mseq_cases in H as [(e & H & _)|(ms & s4 & H4 & H)]; [by apply (fails_attempt (fun _ => False)) in H|].
  apply attempt_ok in H4. pose proof (steps_run _ _ _ _ _ (manifests_freely _ (honest_routine key) _ _) H4) as F4.
  apply (Hj _ _ F4) in J. apply (freely_elem _ _ _ _ F4) in Hlive, Hx. apply recorded_in in H4.
  destruct ms as [u|e].
  - eapply workload_justified; [exact J| |exact H]. split; [done|done|eauto|by exists cfg, (Ok u)].
  - case_bool_decide; [|by eapply failed_justified].
    eapply workload_justified; [exact J| |exact H]. split; [done|done|eauto|by exists cfg, (Err e)].
Qed.

(** C4: Readiness is earned. In any run of the reconciler, whatever the API server
    answers, every status that is written has a phase and conditions that agree, and
    one that says ready comes after the database secret was read with its
    configuration, the manifests were applied (or only kinds the cluster does not serve
    were refused), every deployment the resource owns was listed as ready, the Flight
    service was registered, and the ingress did not turn out to have HTTP/2 disabled. *)
Theorem ready_is_earned key w : justified (honest key) (observed_reconcile key (w, [])).2.2.
Proof.
  unfold observed_reconcile, dcs_reconcile, get_or_done. destruct (mseq _ _ _) as [r s'] eqn:H. cbn.
  apply mseq_cases in H as [(e & H & _)|(got & s1 & H1 & H)]; [by apply (fails_attempt (fun _ => False)) in H|].
  apply attempt_ok in H1. pose proof (recorded_in _ _ _ _ _ H1) as Hlive. apply recorded_snoc in H1.
  assert (J : justified (honest key) s1.2) by (rewrite H1; apply justified_snoc; [apply justified_nil|done]). clear H1.
  destruct got as [live|e]; [|case_match; injection H as _ <-; done].
  destruct (om_deleting (dcs_meta live)) eqn:Hdel; [|by eapply live_justified].
  eapply justified_freely, J. eapply steps_run; [|exact H]. apply finalize_honest.
Qed.

(** ** Deletion *)

(** A deletion that was answered, also that there was nothing left to delete. *)
Definition deleted (r : result KubeError unit) : Prop := match r with Ok _ => True | Err e => reason e = IsNotFound end.

(** The owned objects of one kind have been listed and deleted. *)
Definition cleaned {A} (event : Call A -> Event) (meta : A -> ObjectMeta) (uid : string) (t : list Event) : Prop :=
  exists l, event (Listed managed (Ok l)) ∈ t /\
    forall a, a ∈ l -> isOwnedBy uid (meta a) = true -> exists r, event (Delete a r) ∈ t /\ deleted r.

(** The resource keeps its finalizer when it is updated, unless it is being deleted and
    its cluster-scoped objects are gone. *)
Definition keeps_finalizer (t : list Event) (e : Event) : Prop :=
  match e with
  | OnService (Update cr _) =>
      finalizerName ∈ om_finalizers (dcs_meta cr) \/
      om_deleting (dcs_meta cr) = true /\ cleaned OnRole role_meta (om_uid (dcs_meta cr)) t /\
      cleaned OnBinding binding_meta (om_uid (dcs_meta cr)) t
  | _ => True
  end.

Lemma keeps_routine e : routine e -> free keeps_finalizer e.
Proof. destruct e as [[]| | | | | | | | | |]; done. Qed.

Lemma delete_owned_cleaned {A} (K : Kube W A) (event : Call A -> Event) kind meta uid l s s' :
  delete_owned (Kube0 := recording event K) kind meta uid l s = (Ok [], s') ->
  (forall e, e ∈ s.2 -> e ∈ s'.2) /\
  forall a, a ∈ l -> isOwnedBy uid (meta a) = true -> exists r, event (Delete a r) ∈ s'.2 /\ deleted r.
Proof.
  revert s. induction l as [|a l IH]; cbn [delete_owned]; intros s H.
  { injection H as <-. split; [done|]. intros a Ha. by apply not_elem_of_nil in Ha. }
  apply mseq_ok in H as (failed & s1 & H1 & H). apply mseq_ok in H as (rest & s2 & H2 & H).
  injection H as [-> ->]%app_nil <-. apply IH in H2 as [Hmono Hrest].
  assert (Hhead : (forall e, e ∈ s.2 -> e ∈ s1.2) /\
    (isOwnedBy uid (meta a) = true -> exists r, event (Delete a r) ∈ s1.2 /\ deleted r)).
  { destruct (isOwnedBy uid (meta a)); [|injection H1 as <-; done].
    apply mseq_ok in H1 as (r & s3 & H1 & H). injection H as Hr <-. apply attempt_ok in H1.
    pose proof (recorded_in _ _ _ _ _ H1) as Hin. apply recorded_snoc in H1. split.
    - intros e He. rewrite H1. apply elem_of_app. by left.
    - intros _. exists r. split; [done|]. destruct r as [|e]; [done|]. by case_bool_decide. }
  destruct Hhead as [Hm Ha]. split; [naive_solver|]. intros b [->|Hb]%elem_of_cons Ho; [|by apply Hrest].
  destruct (Ha Ho) as (r & Hr & Hd). eauto.
Qed.

Lemma cluster_cleaned uid s s' :
  deleteClusterScopedResources uid s = (Ok tt, s') ->
  cleaned OnRole role_meta uid s'.2 /\ cleaned OnBinding binding_meta uid s'.2.
Proof.
  unfold deleteClusterScopedResources. intros H.
  apply mseq_ok in H as (roles & s1 & H1 & H). apply map_err_ok, recorded_in in H1.
  apply mseq_ok in H as (f1 & s2 & H2 & H). apply mseq_ok in H as (bindings & s3 & H3 & H).
  apply map_err_ok in H3. pose proof (recorded_in _ _ _ _ _ H3) as Hb. apply recorded_snoc in H3.
  apply mseq_ok in H as (f2 & s4 & H4 & H). destruct (f1 ++ f2) eqn:Hf; [|done]. apply app_nil in Hf as [-> ->].
  injection H as <-. apply delete_owned_cleaned in H2 as [M2 C2], H4 as [M4 C4].
  assert (M : forall e, e ∈ s2.2 -> e ∈ s4.2) by (intros e He; apply M4; rewrite H3; apply elem_of_app; by left).
  split; [exists roles|exists bindings]; (split; [by auto|]); intros a Ha Ho.
  - destruct (C2 a Ha Ho) as (r & Hr & Hd). eauto.
  - by apply C4.
Qed.

(** Statuses are not updates of the resource: past the finalizer the reconcile of a live
    resource does not touch it. *)
Lemma status_keeps {X} key cfg phase (mutate : DataConnectService -> M S KubeError (DataConnectService * X)) :
  (forall cr, steps (freely (W := W) keeps_finalizer) (mutate cr)) ->
  steps (freely keeps_finalizer) (updateStatus build key cfg phase mutate).
Proof.
  intros Hm. unfold updateStatus. apply steps_mseq; [exact _|by apply recorded_freely|intros cr].
  apply steps_mseq; [exact _|apply Hm|intros c]. apply steps_mseq; [exact _| |].
  - apply steps_attempt. by apply recorded_freely.
  - intros r. repeat case_match; first [apply steps_mret; exact _|apply steps_throw; exact _].
Qed.

Lemma failed_keeps key cfg why message p pw pm :
  steps (freely (W := W) keeps_finalizer) (failed build key cfg why message p pw pm).
Proof.
  unfold failed. apply steps_mseq; [exact _| |intros; apply steps_mret; exact _].
  apply status_keeps. intros cr. apply steps_mret; exact _.
Qed.

Lemma settled_keeps key cfg phase set : steps (freely (W := W) keeps_finalizer) (settled build key cfg phase set).
Proof.
  unfold settled. apply steps_mseq; [exact _| |intros; apply steps_mret; exact _].
  apply status_keeps. intros cr. apply steps_mseq; [exact _|apply gateway_freely, keeps_routine|intros g].
  apply steps_mseq; [exact _|apply grpc_freely, keeps_routine|intros; apply steps_mret; exact _].
Qed.

Lemma workload_keeps key cr cfg : steps (freely (W := W) keeps_finalizer) (workload key cr cfg).
Proof.
  unfold workload, reconcile_workload. apply steps_mseq; [exact _|apply ensure_freely, keeps_routine|intros _].
  apply steps_mseq; [exact _|apply steps_attempt, pending_freely, keeps_routine|intros [[|n names]|e]];
    [|apply settled_keeps|apply failed_keeps].
  apply steps_mseq; [exact _|apply steps_attempt, register_freely, keeps_routine|intros [u|e]];
    [apply settled_keeps|apply failed_keeps].
Qed.

Lemma live_keeps key cr : steps (freely (W := W) keeps_finalizer) (observed_live key cr).
Proof.
  unfold observed_live, reconcile_live. apply steps_mseq; [exact _| |intros _].
  { unfold add_finalizer. case_match; [apply steps_mret; exact _|]. apply recorded_freely. intros r t. left.
    cbn. apply elem_of_app. right. by apply list_elem_of_singleton. }
  apply steps_mseq; [exact _|apply platform_freely, keeps_routine|intros cfg].
  apply steps_mseq; [exact _|apply steps_attempt, validate_freely, keeps_routine|intros [u|e]]; [|apply failed_keeps].
  apply steps_mseq; [exact _|apply steps_attempt, manifests_freely, keeps_routine|intros [u'|e]]; [apply workload_keeps|].
  case_match; [apply workload_keeps|apply failed_keeps].
Qed.

Lemma finalize_keeps cr s r s' :
  om_deleting (dcs_meta cr) = true -> justified keeps_finalizer s.2 -> finalize cr s = (r, s') ->
  justified keeps_finalizer s'.2.
Proof.
  intros Hdel J H. unfold finalize in H. case_match; [|by injection H as _ <-].
  pose proof (fun s s' => justified_freely keeps_finalizer (W := W) s s') as Hj.
  apply mseq_cases in H as [(e & H & _)|(a & s1 & H1 & H)].
  { eapply (Hj s); [|done]. eapply steps_run; [|exact H]. apply clear_freely, keeps_routine. }
  eapply steps_run in H1; [|apply clear_freely, keeps_routine]. apply (Hj _ _ H1) in J. clear H1.
  apply mseq_cases in H as [(e & H & _)|(a' & s2 & H2 & H)].
  { eapply (Hj s1); [|done]. eapply steps_run; [|exact H]. apply delete_types_freely, keeps_routine. }
  eapply steps_run in H2; [|apply delete_types_freely, keeps_routine]. apply (Hj _ _ H2) in J. clear H2.
  apply mseq_cases in H as [(e & H & _)|([] & s3 & H3 & H)].
  { eapply (Hj s2); [|done]. eapply steps_run; [|exact H]. apply delete_cluster_freely, keeps_routine. }
  pose proof (steps_run _ _ _ _ _ (delete_cluster_freely _ keeps_routine _) H3) as F3. apply (Hj _ _ F3) in J.
  apply cluster_cleaned in H3 as [Hroles Hbindings].
  assert (Hu : forall ans s4, k_update (remove_finalizer cr) s3 = (ans, s4) -> justified keeps_finalizer s4.2).
  { intros ans s4 H4. apply recorded_snoc in H4. rewrite H4. apply justified_snoc; [done|]. by right. }
  apply mseq_cases in H as [(e & H & _)|(a'' & s4 & H4 & H)]; [by eapply Hu|]. injection H as _ <-. by eapply Hu.
Qed.

(** C15: The finalizer outlives what it guards. In any run of the reconciler, the
    resource is only updated without its finalizer when it is being deleted and every
    cluster role and every binding of this installation that it owns has been listed
    and deleted. *)
Theorem finalizer_waits key w : justified keeps_finalizer (observed_reconcile key (w, [])).2.2.
Proof.
  unfold observed_reconcile, dcs_reconcile, get_or_done. destruct (mseq _ _ _) as [r s'] eqn:H. cbn.
  apply mseq_cases in H as [(e & H & _)|(got & s1 & H1 & H)]; [by apply (fails_attempt (fun _ => False)) in H|].
  apply attempt_ok, recorded_snoc in H1.
  assert (J : justified keeps_finalizer s1.2) by (rewrite H1; apply justified_snoc; [apply justified_nil|done]).
  destruct got as [cr|e]; [|case_match; injection H as _ <-; done].
  destruct (om_deleting (dcs_meta cr)) eqn:Hdel; [by eapply finalize_keeps|].
  eapply justified_freely, J. eapply steps_run; [|exact H]. apply live_keeps.
Qed.
End Recorded.

(** ** Coming back *)

Section Liveness.
Context {W : Type}.
Context `{KD : !Kube W DataConnectService} `{KS : !Kube W KubeSecret} `{KC : !Kube W ConfigMap}.
Context `{KI : !Kube W InitDataConnectionType} `{KP : !Kube W Deployment} `{KR : !Kube W ClusterRole}.
Context `{KB : !Kube W ClusterRoleBinding} `{UN : !Unstructured W}.
Variable build : string.
Variable reconcileManifests : DataConnectService -> platformConfig -> M W KubeError unit.
Variable read_dir : M W string (list (string * bool)).
Variable read_file : string -> M W string string.
Variable yaml_unmarshal : string -> option connectionTypeFile.
Variable flight_client : option (FlightServiceClient W).

(** A reconcile that does not end with nothing left to do. *)
Definition comes_back (m : M W KubeError Result) : Prop := forall w w', m w <> (Ok Done, w').

Lemma comes_back_mseq {A} (m : M W KubeError A) f : (forall a, comes_back (f a)) -> comes_back (mseq m f).
Proof. intros Hf w w' (a & w1 & _ & H)%mseq_ok. by apply Hf in H. Qed.

Lemma updateStatus_requeues {X} key cfg phase (mutate : DataConnectService -> M W KubeError (DataConnectService * X)) w r w' :
  updateStatus build key cfg phase mutate w = (Ok r, w') -> r.1 <> Done.
Proof.
  unfold updateStatus. intros (cr & w1 & _ & H)%mseq_ok. apply mseq_ok in H as (m & w2 & _ & H).
  apply mseq_ok in H as (a & w3 & _ & H). destruct a as [|e].
  - injection H as <- <-. by repeat case_match.
  - case_match; [by injection H as <- <-|done].
Qed.

Lemma failed_comes_back key cfg why message p pw pm : comes_back (failed build key cfg why message p pw pm).
Proof.
  intros w w' (r & w1 & H1 & H)%mseq_ok. injection H as Hr <-. by apply updateStatus_requeues in H1.
Qed.

Lemma settled_comes_back key cfg phase set : comes_back (settled build key cfg phase set).
Proof.
  intros w w' (r & w1 & H1 & H)%mseq_ok. injection H as Hr <-. apply updateStatus_requeues in H1. by case_match.
Qed.

Lemma live_comes_back key cr :
  comes_back (reconcile_live build reconcileManifests read_dir read_file yaml_unmarshal flight_client key cr).
Proof.
  unfold reconcile_live. do 3 (apply comes_back_mseq; intros ?). case_match; [|apply failed_comes_back].
  assert (Hw : forall cfg, comes_back (reconcile_workload build read_dir read_file yaml_unmarshal flight_client key cr cfg)).
  { intros cfg. unfold reconcile_workload. do 2 (apply comes_back_mseq; intros ?).
    repeat case_match; try apply failed_comes_back; try apply settled_comes_back.
    apply comes_back_mseq; intros ?. case_match; [apply settled_comes_back|apply failed_comes_back]. }
  apply comes_back_mseq; intros ?. repeat case_match; first [apply Hw|apply failed_comes_back].
Qed.

(** A live service is always looked at again. When the reconciler reports that
    nothing is left to do, the resource is gone or being deleted; every other outcome
    is a failure, which the work queue retries, or a time to come back. *)
Theorem live_service_revisited key w :
  match (dcs_reconcile build reconcileManifests read_dir read_file yaml_unmarshal flight_client key w).1,
        (k_get (A := DataConnectService) key.1 key.2 w).1 with
  | Ok Done, Ok cr => om_deleting (dcs_meta cr) = true
  | Ok Done, Err e => reason e = IsNotFound
  | _, _ => True
  end.
Proof.
  unfold dcs_reconcile, get_or_done, mseq, attempt. destruct (k_get key.1 key.2 w) as [[cr|e] w1]; cbn.
  - destruct (om_deleting (dcs_meta cr)); [by repeat case_match|].
    destruct (reconcile_live _ _ _ _ _ _ _ _ _) as [r w2] eqn:H. cbn. destruct r as [[]|]; try done.
    by apply live_comes_back in H.
  - case_bool_decide; done.
Qed.
End Liveness.

(** * Examples *)

Definition sample_meta (name : string) (deleting : bool) (finalizers : list string) (owners : list (string * bool)) : ObjectMeta :=
  {| om_name := name; om_namespace := "data"; om_uid := "u"; om_generation := 4; om_deleting := deleting;
     om_finalizers := finalizers; om_owners := owners; om_labels := {[ labelManagedBy := managedByDCHService ]};
     om_annotations := ∅ |}.

Definition no_status : DataConnectServiceStatus :=
  {| st_observed := 0; st_distribution := {| dist_name := ""; dist_version := "" |}; st_releases := [];
     st_phase := ""; st_addresses := []; st_http_route := ""; st_gateway := None; st_conditions := [] |}.

Definition sample_dcs (deleting : bool) : DataConnectService :=
  {| dcs_meta := sample_meta "hub" deleting [finalizerName] [];
     dcs_spec := {| ds_rest := None; ds_flight := None; ds_audiences := None; ds_gateway := None; ds_trace := None |};
     dcs_status := no_status |}.

(** Gets and lists the same objects, and accepts every write. *)
Definition still {A} (a : A) (l : list A) : Kube unit A := {|
  k_get _ _ := mret a; k_list _ := mret l; k_create _ := mret tt; k_update _ := mret tt; k_update_status _ := mret tt;
  k_patch _ _ := mret tt; k_delete _ := mret tt
|}.

Definition ready_deployment : Deployment :=
  {| dp_meta := sample_meta "flight" false [] [("u", true)]; dp_replicas := 1; dp_ready := 1; dp_updated := 1; dp_observed := 4 |}.

Definition not_there : KubeError := {| reason := IsNotFound; error_text := "not found" |}.

Definition ingress (http2 : bool) : Unstructured unit := {|
  u_get kind _ _ :=
    if String.eqb kind "Ingress"
    then mret (obj [("metadata", Some (obj [("annotations",
           Some (obj [(annotationHTTP2Enable, Some (JString (if http2 then "true" else "false")))]))]))])
    else throw not_there;
  u_list _ _ := mret []
|}.

(** The history of one reconcile: a cluster with the platform at version 2.0, whose
    ingress has HTTP/2 on or off. *)
Definition sample_history (http2 deleting : bool) : list Event :=
  (observed_reconcile (W := unit) (KD := still (sample_dcs deleting) [])
     (KS := still {| ks_meta := sample_meta "dch-database-config" false [] []; ks_data := {[ nameSecretConfigTOML := "[database]" ]} |} [])
     (KC := still {| cm_meta := sample_meta platformConfigName false [] []; cm_data := {[ "platformVersion" := "2.0" ]}; cm_binary := ∅ |} [])
     (KI := still (new_idct "data" "s3" {| is_name := "s3"; is_label := None; is_provider := "s3"; is_description := None;
                                           is_fields := []; is_tags := [] |}) [])
     (KP := still ready_deployment [ready_deployment])
     (KR := still {| role_meta := sample_meta "r" false [] [("u", true)] |} [{| role_meta := sample_meta "r" false [] [("u", true)] |}])
     (KB := still {| binding_meta := sample_meta "b" false [] [] |} [])
     (UN := ingress http2) "dev" (fun _ _ => mret tt) (mret []) (fun _ => throw "") (fun _ => None) None ("data", "hub") (tt, [])).2.2.

Definition statuses (t : list Event) : list DataConnectService :=
  omap (fun e => match e with OnService (UpdateStatus cr _) => Some cr | _ => None end) t.
Definition updates (t : list Event) : list DataConnectService :=
  omap (fun e => match e with OnService (Update cr _) => Some cr | _ => None end) t.

Definition platform_release (cr : DataConnectService) : option string :=
  rel_version <$> List.find (fun r => String.eqb (rel_name r) releasePlatform) (st_releases (dcs_status cr)).

(** With its deployment ready and HTTP/2 on, the service is reported ready. *)
Example ready_is_reported :
  (fun cr => (condition conditionTypeReady cr, st_phase (dcs_status cr), platform_release cr)) <$> statuses (sample_history true false) =
  [(Some ConditionTrue, "Ready", Some "2.0")].
Proof. vm_compute. reflexivity. Qed.

(** A deleted service loses its finalizer after its role is deleted. *)
Example finalizer_is_removed :
  (fun cr => om_finalizers (dcs_meta cr)) <$> updates (sample_history true true) = [[]].
Proof. vm_compute. reflexivity. Qed.

(** With HTTP/2 off the service is not ready, and yet the platform's version advances. *)
Example release_advances_without_readiness :
  (fun cr => (condition conditionTypeReady cr, st_phase (dcs_status cr), platform_release cr)) <$> statuses (sample_history false false) =
  [(Some ConditionFalse, "Not Ready", Some "2.0")].
Proof. vm_compute. reflexivity. Qed.
